(* ===== verification/_CoqProject ===== *)
-Q . S2P
Prelude.v
Packed.v
Defs.v
Colours.v
Config.v
Controller.v
Eeprom.v
Fxpt.v
World.v
Timer.v
I2c.v
Wii.v
Variants.v
Pins.v
Spi.v
Ps2.v
Direct.v
Guitar.v
InputHandler.v
Poll.v
Leds.v
Reports.v
Descriptors.v
EndpointSetup.v
Xinput.v
RingBuffer.v
UnoUsb.v
Usb.v
UnoMain.v
Link.v
Nrf24.v
Rf.v
Serial.v
Mains.v
Wireless.v
Firmware.v
PicoMain.v
