(* ===== verification/Prelude.v ===== *)
(** * Ardwiino controller firmware

    The firmware turns an AVR board (Uno, Mega, Micro) or an RP2040 into a USB
    game controller: it reads guitars, drums and pads, maps them through a stored
    configuration, and reports them to the host as an Xbox, PlayStation, Switch,
    keyboard, mouse or MIDI device, directly or over a radio link.  Paths below
    are under src/src/ of the repository unless they start with lib/.

    ** How the program runs, and the files that model it

    - Data.  [Prelude]: C integers at their width, bit macros, arrays, record
      update, the state monad [M] and its frames.  [Packed]: byte layouts of
      packed structs.  [Defs], [Colours]: enumerations.  [Config]: the stored
      configuration (shared/config).  [Controller]: the controller state every
      input fills and every report reads (shared/controller).
    - Configuration store.  [Eeprom]: avr/lib/eeprom (module [AvrEeprom]) and
      pico/lib/eeprom (module [PicoFlash]) behind the class [ConfigStore].
    - Hardware access.  [World] has the classes [Delay], [Clock], [SPIBus];
      [Timer] and [Spi] are the boards' drivers behind them (avr/lib/timer,
      avr/lib/spi, pico/lib/timer, pico/lib/spi).  [I2c]: the AVR's interrupt
      driven TWI driver (module [Twi]: front end and interrupt handler share one
      state and run against any peripheral [TwiHW]) and the RP2040's, behind
      [I2CBus].  [Variants], [Pins]: board tables, ports and ADC behind [PinOps].
      [Nrf24]: lib/avr-nrf24l01.
    - Inputs.  [Wii], [Ps2], [Direct], [Guitar] (shared/input/inputs) and
      [InputHandler] (shared/input/input_handler.c), which picks the drivers from
      the configuration, debounces and maps; [Poll] has what a whole poll
      guarantees, over every driver.  [Fxpt]: the trigonometry of the tilt
      (lib/fxpt_math, lib/mpu6050/mpu_math.c).
    - Outputs.  [Reports]: shared/output/reports; [Leds]: shared/leds.
      [Descriptors], [Usb]: what the host is told and how control requests are
      answered (shared/output/descriptors.c, avr/shared/usb/usb.h);
      [EndpointSetup]: the endpoint registers behind the descriptors;
      [Xinput]: pico/lib/usb.
    - The Uno's two processors.  [RingBuffer]: the byte queues; [UnoUsb],
      [UnoMain]: the parsers and loops of both (avr/uno/usb, avr/uno/main);
      [Link]: their ready-flag handshake as a transition system over [UnoUsb]'s
      parser.
    - Wireless: [Rf] (shared/rf, and the parts of the main programs that pass
      commands on).  Host tool: [Serial] (shared/output/serial_handler.c).
      Start-up and loops of the other boards: [Mains], [PicoMain].
    - Compositions.  [Firmware]: the Micro's main program over the real input
      handler, LED strip and report generators, one record for the RAM of all.
      [Wireless]: a report of the host tool through the receiver's handler, the
      radio, the transmitter's loop and command handler into its store.

    A file's state is a record with the globals of its C file; a C function is
    the definition of the same name, a computation in [M] over that state; a part
    of a function that needs a name of its own is named after what it does.  Calls
    into another component go through a class, so that a component's theorems
    hold for every board that implements it.  Laws a class must satisfy are a
    second class ([ClockOk], [ConfigStoreOk], [FifoOk], [PipeOk], [ChipOk], ..),
    proved of the implementation where it is part of the program and shown to
    have an instance where it is hardware.

    ** What is shown

    - The program works from end to end.  On a wired Micro with any XInput
      configuration, from power-on, the first due round of the loop shows the host
      exactly the buttons whose pins read pressed, and every later round keeps the
      host in step with the pins ([Firmware], instantiated with the AVR's ports and
      run on a concrete board).  A configuration uploaded to a receiver is the one
      its controller loads, although each radio block carries a stray byte
      ([Wireless]).
    - The link delivers: no report sequence fills a queue, the handshake always
      comes back to ready, frames arrive whole and in order, the three ring
      buffers are queues ([Link], [UnoUsb], [RingBuffer]).
    - Drivers do their transfers: the TWI driver's handler, driven by a device
      that acknowledges, sends exactly the buffer and receives exactly what the
      device sends ([I2c]); the PlayStation protocol returns under any reply and
      reads a reply whole ([Ps2]); the PIO transfer returns whatever the stalls
      ([Spi]); the radio driver leaves the chip configured as asked ([Rf], over
      [Nrf24]); the SPI clock is the fastest allowed; the clock is exact until it
      wraps ([Timer]).
    - Data survives: what a host uploads is what the next start loads on either
      board, with every old version migrated ([Eeprom]), also through the
      64-byte parts of the host protocol ([Serial]); a torn upload never mixes
      two configurations on the RP2040.
    - Reports mean what the controller holds: round trip of the Xbox report,
      exact keyboard and MIDI behaviour, PlayStation buttons ([Reports]); the
      report descriptors describe those reports bit for bit, and the
      configuration is well formed ([Descriptors]).
    - The host is served: a descriptor is sent completely whatever length is
      asked for and never wrongly whatever the host does, control requests are
      answered as listed ([Usb]), both architectures present the same device
      ([PicoMain]), the announced IN endpoints are set up
      ([EndpointSetup]), the RP2040's driver opens its interfaces ([Xinput]); the
      Micro's host always has the latest reported state, a transmitter never
      falls silent ([Mains]).
    - Inputs: a poll by any driver returns a value of the controller's C type
      whatever the devices answer ([Poll]); debouncing ([InputHandler]), scaling
      ([Direct], [Pins]), detection ([Wii]), arctangent ([Fxpt]), the LED frame
      ([Leds]).
    Where the code does not do what it means to, the theorem states what it does
    (a wedged bus after a time-out, the link that stops after an empty MIDI
    report, the stray byte of a radio block, a descriptor cut in the middle of a patch, ..).

    ** Parameters and bounds

    - [junk]: the contents of uninitialised locals; [after], [past], [stack],
      [behind]: memory behind an object that the code reads beyond.  Nothing is
      assumed of them but that bytes are bytes.
    - Loops that wait take [fuel] and return [None] without it.  Enough is: 26
      rounds for a PlayStation command (its time-out of 250 ms with at least 10 ms
      between tries); one round per byte of a packet for [Usb.mods_fill], which
      is given the endpoint's size, and 260 rounds plus the host's delays for
      [Usb.mods_loop]; three rounds per byte plus the stalls for
      [Spi.pio_loop]; one round per LED up to the first table's end (22) for
      [Leds]; one round per byte for the parsers' batches; one more than the looks
      that find the radio's FIFO full for [Rf.wait_room].  The theorems that use
      them show that the result exists.
    - Floating-point constants of [Fxpt] are decimal ratios rounded the way the
      code's [lrint] rounds them.

    ** Not modelled

    LUFA and TinyUSB themselves, the pico-sdk, the InvenSense MPU-6050 driver and
    its motion firmware (vendored or external: interfaces with laws); the copy of
    Arduino's usbserial firmware; watchdog and bootloader jumps, the power-down
    registers and wake-up interrupts of the transmitters (operations of an
    interface); the CDC interface that only enters the bootloader; that a
    transmitter's answer to a READ, whose handler is in [Serial], is itself sent
    as a radio packet; the RP2040's call of the pass-on
    to the radio from its vendor callback (an operation of [PicoHost]; the code is
    the Micro's, [Rf.rf_pass_on]); the PWM tables and pin-change
    macros of the board variants, which nothing uses.  Interrupts are modelled
    where they share state with a loop: the TWI handler, the UART handlers, the
    timer overflow and the radio's pin interrupt. *)

From Stdlib Require Import ZArith Lia.
From stdpp Require Import base tactics numbers list option.

#[global] Open Scope Z_scope.

(** ** Fixed-width C integers

    A C object of type [uintN_t] is a [Z] in [0, 2^N), one of type [intN_t] a
    [Z] in [-2^(N-1), 2^(N-1)).  Assigning an arithmetic result to such an
    object is [uwrap N] or [swrap N] (the conversion GCC defines for both
    targets). *)
Definition uwrap (w z : Z) : Z := z mod 2 ^ w.
Definition swrap (w z : Z) : Z := (z + 2 ^ (w - 1)) mod 2 ^ w - 2 ^ (w - 1).

Abbreviation u8 := (uwrap 8).
Abbreviation u16 := (uwrap 16).
Abbreviation u32 := (uwrap 32).
Abbreviation i8 := (swrap 8).
Abbreviation i16 := (swrap 16).
Abbreviation i32 := (swrap 32).

Definition in_u (w z : Z) : Prop := 0 <= z < 2 ^ w.
Definition in_s (w z : Z) : Prop := - 2 ^ (w - 1) <= z < 2 ^ (w - 1).
Abbreviation byte := (in_u 8).
Abbreviation bytes := (Forall (in_u 8)).

#[global] Instance in_u_dec w z : Decision (in_u w z).
Proof. unfold in_u. apply _. Defined.
#[global] Instance in_s_dec w z : Decision (in_s w z).
Proof. unfold in_s. apply _. Defined.

(** The width of the C type [int]: 16 bits on the AVR targets, 32 on the
    RP2040.  Definitions whose result depends on it take an [Arch]. *)
Class Arch := {
  int_w : Z;
  int_w_cases : int_w = 16 \/ int_w = 32
}.
Definition avr : Arch := {| int_w := 16; int_w_cases := or_introl eq_refl |}.
Definition pico : Arch := {| int_w := 32; int_w_cases := or_intror eq_refl |}.
Definition cint {A : Arch} (z : Z) : Z := swrap int_w z.

Section Wrap.
Context (w : Z) (Hw : 0 < w).

Lemma pow_w_split : 2 ^ w = 2 * 2 ^ (w - 1).
Proof using Hw. rewrite <- Z.pow_succ_r by lia. f_equal. lia. Qed.
Lemma pow_w_pos : 0 < 2 ^ (w - 1).
Proof using Hw. apply Z.pow_pos_nonneg; lia. Qed.

Lemma uwrap_range z : in_u w (uwrap w z).
Proof using Hw.
  unfold in_u, uwrap. pose proof pow_w_pos. pose proof pow_w_split.
  apply Z.mod_pos_bound. lia.
Qed.
Lemma uwrap_small z : in_u w z -> uwrap w z = z.
Proof. intros H. unfold uwrap. apply Z.mod_small, H. Qed.
Lemma swrap_range z : in_s w (swrap w z).
Proof using Hw.
  unfold in_s, swrap. pose proof pow_w_pos. pose proof pow_w_split.
  pose proof (Z.mod_pos_bound (z + 2 ^ (w - 1)) (2 ^ w)). lia.
Qed.
Lemma swrap_small z : in_s w z -> swrap w z = z.
Proof using Hw.
  unfold in_s, swrap. intros. pose proof pow_w_pos. pose proof pow_w_split.
  rewrite Z.mod_small; lia.
Qed.
Lemma uwrap_idem z : uwrap w (uwrap w z) = uwrap w z.
Proof using Hw. apply uwrap_small, uwrap_range. Qed.
Lemma uwrap_swrap z : uwrap w (swrap w z) = uwrap w z.
Proof using Hw.
  unfold uwrap, swrap. pose proof pow_w_pos. pose proof pow_w_split.
  rewrite Zminus_mod_idemp_l. f_equal. lia.
Qed.
Lemma swrap_uwrap z : swrap w (uwrap w z) = swrap w z.
Proof using Hw.
  unfold uwrap, swrap. f_equal. rewrite Zplus_mod_idemp_l. reflexivity.
Qed.
Lemma swrap_idem z : swrap w (swrap w z) = swrap w z.
Proof using Hw. apply swrap_small, swrap_range. Qed.
(** A signed value is recovered from its bit pattern. *)
Lemma swrap_uwrap_small z : in_s w z -> swrap w (uwrap w z) = z.
Proof using Hw. intros. rewrite swrap_uwrap. by apply swrap_small. Qed.
End Wrap.

(** ** Bit macros of src/src/shared/lib/util/util.h *)
Definition BV (bit : Z) : Z := Z.shiftl 1 bit.
Definition bit_set (p m : Z) : Z := Z.lor p (BV m).
Definition bit_clear (p m : Z) : Z := Z.ldiff p (BV m).
Definition bit_write (c : bool) (p m : Z) : Z :=
  Z.lor (Z.ldiff p (BV m)) (Z.shiftl (Z.b2z c) m).
(** [bit_check] is used for its truth value only. *)
Definition bit_check (value bit : Z) : bool := negb (Z.land value (BV bit) =? 0).
Definition constrain (amt low high : Z) : Z :=
  if amt <? low then low else if amt >? high then high else amt.

Lemma testbit_BV m i : 0 <= m -> 0 <= i -> Z.testbit (BV m) i = (i =? m).
Proof.
  intros. unfold BV. rewrite Z.shiftl_1_l. 
  destruct (Z.eqb_spec i m) as [->|]; [by apply Z.pow2_bits_true|].
  apply Z.pow2_bits_false. lia.
Qed.
Lemma testbit_b2z_shiftl c m i :
  0 <= m -> 0 <= i -> Z.testbit (Z.shiftl (Z.b2z c) m) i = (i =? m) && c.
Proof.
  intros. destruct c; simpl Z.b2z.
  - change (Z.shiftl 1 m) with (BV m). rewrite testbit_BV by lia. by rewrite andb_true_r.
  - by rewrite Z.shiftl_0_l, Z.bits_0, andb_false_r.
Qed.
Lemma testbit_bit_set p m i :
  0 <= m -> 0 <= i -> Z.testbit (bit_set p m) i = Z.testbit p i || (i =? m).
Proof. intros. unfold bit_set. by rewrite Z.lor_spec, testbit_BV. Qed.
Lemma testbit_bit_clear p m i :
  0 <= m -> 0 <= i -> Z.testbit (bit_clear p m) i = Z.testbit p i && negb (i =? m).
Proof. intros. unfold bit_clear. by rewrite Z.ldiff_spec, testbit_BV. Qed.
Lemma testbit_bit_write c p m i :
  0 <= m -> 0 <= i ->
  Z.testbit (bit_write c p m) i = if i =? m then c else Z.testbit p i.
Proof.
  intros. unfold bit_write.
  rewrite Z.lor_spec, Z.ldiff_spec, testbit_BV, testbit_b2z_shiftl by done.
  destruct (i =? m), c, (Z.testbit p i); reflexivity.
Qed.
Lemma land_BV v m : 0 <= m -> Z.land v (BV m) = if Z.testbit v m then BV m else 0.
Proof.
  intros. apply Z.bits_inj'. intros i Hi. rewrite Z.land_spec, testbit_BV by done.
  destruct (Z.eqb_spec i m) as [->|].
  - rewrite andb_true_r. destruct (Z.testbit v m); [|by rewrite Z.bits_0].
    rewrite testbit_BV by done. by rewrite Z.eqb_refl.
  - rewrite andb_false_r. destruct (Z.testbit v m); [|by rewrite Z.bits_0].
    rewrite testbit_BV by done. symmetry. apply Z.eqb_neq. done.
Qed.
Lemma bit_check_testbit v m : 0 <= m -> bit_check v m = Z.testbit v m.
Proof.
  intros. unfold bit_check. rewrite land_BV by done. destruct (Z.testbit v m); [|done].
  unfold BV. rewrite Z.shiftl_1_l.
  destruct (Z.eqb_spec (2 ^ m) 0); [|done]. pose proof (Z.pow_pos_nonneg 2 m). lia.
Qed.

(** Bit-level extensionality and range of a fixed-width value. *)
Lemma in_u_testbit w z :
  0 <= w -> (in_u w z <-> (0 <= z /\ forall i, w <= i -> Z.testbit z i = false)).
Proof.
  intros Hw. unfold in_u. split.
  - intros [H0 H1]. split; [done|]. intros i Hi.
    rewrite <- (Z.mod_small z (2 ^ w)) by lia. apply Z.mod_pow2_bits_high. lia.
  - intros [H0 Hb]. split; [done|].
    destruct (Z.eq_dec z 0) as [->|Hnz]; [apply Z.pow_pos_nonneg; lia|].
    apply Z.log2_lt_pow2; [lia|].
    destruct (Z.lt_ge_cases (Z.log2 z) w) as [|Hge]; [done|].
    specialize (Hb _ Hge). rewrite Z.bit_log2 in Hb by lia. done.
Qed.
Lemma in_u_lor w a b : 0 <= w -> in_u w a -> in_u w b -> in_u w (Z.lor a b).
Proof.
  intros Hw. rewrite !in_u_testbit by done. intros [? Ha] [? Hb]. split.
  - by apply Z.lor_nonneg.
  - intros i Hi. by rewrite Z.lor_spec, Ha, Hb.
Qed.
Lemma in_u_land_l w a b : 0 <= w -> in_u w a -> in_u w (Z.land a b).
Proof.
  intros Hw. rewrite !in_u_testbit by done. intros [? Ha]. split.
  - apply Z.land_nonneg. lia.
  - intros i Hi. by rewrite Z.land_spec, Ha.
Qed.
Lemma in_u_land_r w a b : 0 <= w -> in_u w b -> in_u w (Z.land a b).
Proof. intros. rewrite Z.land_comm. by apply in_u_land_l. Qed.
Lemma in_u_ldiff w a b : 0 <= w -> in_u w a -> in_u w (Z.ldiff a b).
Proof.
  intros Hw. rewrite !in_u_testbit by done. intros [? Ha]. split.
  - apply Z.ldiff_nonneg. lia.
  - intros i Hi. by rewrite Z.ldiff_spec, Ha.
Qed.
Lemma in_u_BV w m : 0 <= m < w -> in_u w (BV m).
Proof.
  intros. unfold BV, in_u. rewrite Z.shiftl_1_l. split.
  - apply Z.pow_nonneg. lia.
  - apply Z.pow_lt_mono_r; lia.
Qed.
Lemma in_u_bit_set w p m : 0 <= m < w -> in_u w p -> in_u w (bit_set p m).
Proof. intros. apply in_u_lor; [lia|done|by apply in_u_BV]. Qed.
Lemma in_u_bit_clear w p m : 0 <= w -> in_u w p -> in_u w (bit_clear p m).
Proof. intros. by apply in_u_ldiff. Qed.
Lemma in_u_bit_write w c p m : 0 <= m < w -> in_u w p -> in_u w (bit_write c p m).
Proof.
  intros. apply in_u_lor; [lia|apply in_u_ldiff; [lia|done]|].
  destruct c; simpl Z.b2z; [by apply (in_u_BV w)|].
  rewrite Z.shiftl_0_l. split; [lia|apply Z.pow_pos_nonneg; lia].
Qed.

(** [(h << w) | l] concatenates when [l] fits in [w] bits. *)
Lemma lor_shiftl_add w h l : 0 <= w -> in_u w l -> Z.lor (Z.shiftl h w) l = h * 2 ^ w + l.
Proof.
  intros Hw Hl. rewrite <- Z.shiftl_mul_pow2, <- Z.add_lor_land by done.
  enough (Z.land (Z.shiftl h w) l = 0) as -> by lia.
  apply in_u_testbit in Hl as [_ Hl]; [|done].
  apply Z.bits_inj'. intros i Hi. rewrite Z.land_spec, Z.bits_0.
  destruct (Z.lt_ge_cases i w).
  - by rewrite Z.shiftl_spec_low.
  - rewrite Hl by done. apply andb_false_r.
Qed.

(** ** Byte order (both targets are little-endian) *)
Fixpoint le_bytes (n : nat) (z : Z) : list Z :=
  match n with
  | O => []
  | S n => z mod 256 :: le_bytes n (z / 256)
  end.
Fixpoint le_val (l : list Z) : Z :=
  match l with
  | [] => 0
  | b :: l => b + 256 * le_val l
  end.

Lemma length_le_bytes n z : length (le_bytes n z) = n.
Proof. revert z. induction n; simpl; auto. Qed.
Lemma le_bytes_bytes n z : bytes (le_bytes n z).
Proof.
  revert z. induction n; simpl; constructor; auto.
  apply Z.mod_pos_bound. lia.
Qed.
Lemma pow256 n : 2 ^ (8 * Z.of_nat (S n)) = 256 * 2 ^ (8 * Z.of_nat n).
Proof.
  replace (8 * Z.of_nat (S n)) with (8 + 8 * Z.of_nat n) by lia.
  rewrite Z.pow_add_r by lia. reflexivity.
Qed.
Lemma le_val_le_bytes n z : le_val (le_bytes n z) = uwrap (8 * Z.of_nat n) z.
Proof.
  unfold uwrap. revert z. induction n as [|n IH]; intros z.
  - simpl. by rewrite Z.mod_1_r.
  - cbn [le_bytes le_val]. rewrite IH, pow256.
    rewrite Z.rem_mul_r by (try apply Z.pow_pos_nonneg; lia). done.
Qed.
Lemma le_bytes_le_val l : bytes l -> le_bytes (length l) (le_val l) = l.
Proof.
  induction 1 as [|b l Hb Hl IH]; [done|]. cbn [length le_bytes le_val].
  unfold in_u in Hb. f_equal.
  - rewrite Z.mul_comm, Z.mod_add by lia. apply Z.mod_small. lia.
  - rewrite Z.mul_comm, Z.div_add, Z.div_small by lia. done.
Qed.
Lemma le_val_range l : bytes l -> in_u (8 * Z.of_nat (length l)) (le_val l).
Proof.
  induction 1 as [|b l Hb Hl IH]; [done|]. cbn [length le_val].
  unfold in_u in *. rewrite pow256. lia.
Qed.
Lemma le_bytes_uwrap n z : le_bytes n (uwrap (8 * Z.of_nat n) z) = le_bytes n z.
Proof.
  rewrite <- le_val_le_bytes.
  rewrite <- (length_le_bytes n z) at 1. apply le_bytes_le_val, le_bytes_bytes.
Qed.

(** ** Arrays

    C arrays are lists.  [aget] and [aset] read and write the element at an
    index of type [Z]; a read past the end (undefined in C) gives the default,
    a write past the end nothing.  Where the code can reach such an access the
    development says so with a theorem of its own. *)
Definition aget {A} (d : A) (l : list A) (i : Z) : A := nth (Z.to_nat i) l d.
Definition aset {A} (i : Z) (v : A) (l : list A) : list A := <[Z.to_nat i := v]> l.

(** [memcpy (dst + off, src, length src)] inside one object. *)
Definition splice {A} (off : nat) (src dst : list A) : list A :=
  take off dst ++ src ++ drop (off + length src) dst.
Definition slice {A} (off len : nat) (l : list A) : list A := take len (drop off l).

Section Arrays.
Context {A : Type}.
Implicit Types (l src dst : list A) (d v : A).

Lemma length_aset i v l : length (aset i v l) = length l.
Proof. apply length_insert. Qed.
Lemma aget_aset_eq d i v l : 0 <= i < Z.of_nat (length l) -> aget d (aset i v l) i = v.
Proof.
  intros. unfold aget, aset. rewrite nth_lookup, list_lookup_insert_eq by lia. done.
Qed.
Lemma aget_aset_ne d i j v l : 0 <= i -> 0 <= j -> i <> j ->
  aget d (aset i v l) j = aget d l j.
Proof.
  intros. unfold aget, aset. rewrite !nth_lookup, list_lookup_insert_ne by lia. done.
Qed.
Lemma aget_Forall (P : A -> Prop) d l i : P d -> Forall P l -> P (aget d l i).
Proof.
  intros Hd Hl. unfold aget. rewrite nth_lookup.
  destruct (l !! Z.to_nat i) eqn:E; simpl; [|done].
  eapply Forall_lookup_1; eauto.
Qed.
Lemma aset_Forall (P : A -> Prop) i v l : P v -> Forall P l -> Forall P (aset i v l).
Proof. intros. by apply Forall_insert. Qed.

Lemma length_slice off n l : (off + n <= length l)%nat -> length (slice off n l) = n.
Proof. intros. unfold slice. rewrite length_take, length_drop. lia. Qed.
Lemma slice_slice o1 n1 o2 n2 l :
  (o2 + n2 <= n1)%nat -> slice o2 n2 (slice o1 n1 l) = slice (o1 + o2) n2 l.
Proof.
  intros H. unfold slice. rewrite skipn_firstn_comm, take_take, drop_drop. rewrite Nat.min_l by lia. done.
Qed.
Lemma slice_app a b l : slice 0 a l ++ slice a b l = slice 0 (a + b) l.
Proof.
  unfold slice. rewrite !drop_0. apply take_take_drop.
Qed.
Lemma length_splice off src dst :
  (off + length src <= length dst)%nat -> length (splice off src dst) = length dst.
Proof.
  intros. unfold splice. rewrite !length_app, length_take, length_drop. lia.
Qed.
Lemma splice_Forall (P : A -> Prop) off src dst :
  Forall P src -> Forall P dst -> Forall P (splice off src dst).
Proof.
  intros. unfold splice. repeat apply Forall_app_2; auto using Forall_take, Forall_drop.
Qed.
Lemma slice_Forall (P : A -> Prop) off n l : Forall P l -> Forall P (slice off n l).
Proof. intros. by apply Forall_take, Forall_drop. Qed.
Lemma lookup_splice off src dst i :
  (off + length src <= length dst)%nat ->
  splice off src dst !! i =
    if decide (off <= i < off + length src)%nat then src !! (i - off)%nat else dst !! i.
Proof.
  intros H. unfold splice. assert (length (take off dst) = off) as Ht.
  { rewrite length_take. lia. }
  destruct (decide (i < off)%nat).
  - rewrite decide_False by lia. rewrite lookup_app_l by lia.
    rewrite lookup_take. by rewrite decide_True by lia.
  - rewrite lookup_app_r by lia. rewrite Ht. case_decide.
    + by rewrite lookup_app_l by lia.
    + rewrite lookup_app_r by lia. rewrite lookup_drop. f_equal. lia.
Qed.
Lemma slice_splice off src dst :
  (off + length src <= length dst)%nat -> slice off (length src) (splice off src dst) = src.
Proof.
  intros. unfold slice, splice.
  rewrite drop_app_length' by (rewrite length_take; lia).
  by rewrite take_app_length.
Qed.
Lemma splice_splice_adj off a b dst :
  (off + length a + length b <= length dst)%nat ->
  splice (off + length a) b (splice off a dst) = splice off (a ++ b) dst.
Proof.
  intros H. apply list_eq. intros i.
  rewrite !lookup_splice; rewrite ?length_splice, ?length_app; try lia.
  rewrite lookup_app. repeat case_decide; try lia; try done.
  - destruct (a !! (i - off)%nat) eqn:E; [apply lookup_lt_Some in E; lia|].
    f_equal. lia.
  - destruct (a !! (i - off)%nat) eqn:E; [done|]. apply lookup_ge_None_1 in E. lia.
Qed.
(** A block with stray bytes behind it: what counts is up to the block's end. *)
Lemma take_splice_padded n c p l :
  (n + length c + length p <= length l)%nat ->
  take (n + length c) (splice n (c ++ p) l) = take n l ++ c.
Proof.
  intros H. unfold splice. rewrite <- app_assoc.
  rewrite <- (length_take_le l n) at 1 by lia. rewrite take_app_add. by rewrite take_app_length.
Qed.
Lemma splice_all src dst : length src = length dst -> splice 0 src dst = src.
Proof.
  intros H. unfold splice. simpl. rewrite drop_ge by lia. by rewrite app_nil_r.
Qed.
Lemma take_splice0 src dst : take (length src) (splice 0 src dst) = src.
Proof. unfold splice. rewrite take_0, app_nil_l. apply take_app_length. Qed.
Lemma splice0_idem src dst : splice 0 src (splice 0 src dst) = splice 0 src dst.
Proof.
  unfold splice at 1 2. rewrite !take_0, !app_nil_l, !Nat.add_0_l.
  by rewrite drop_app_length.
Qed.
End Arrays.

(** ** Record update

    [r <| f := v |>] is the record [r] with field [f] replaced.  A record type
    declares its eta-expansion once ([Settable]); the setter of a projection is
    found by abstracting that projection in it. *)
Class Settable (R : Type) := eta_of : R -> R.
#[global] Hint Mode Settable ! : typeclass_instances.
Class Setter {R E : Type} (f : R -> E) := setter_of : (E -> E) -> R -> R.

Ltac derive_setter f :=
  match type of f with
  | ?R -> _ =>
      let e := constr:(_ : Settable R) in
      let e' := eval hnf in e in
      let p := eval pattern f in e' in
      match p with
      | ?k _ => exact (fun g r => k (fun r0 => g (f r0)) r)
      end
  end.
#[global] Hint Extern 1 (Setter ?f) => derive_setter f : typeclass_instances.

Definition upd {R E} (f : R -> E) {S : Setter f} (g : E -> E) (r : R) : R := setter_of g r.
Arguments upd {R E} f {S} g r /.
Arguments setter_of {R E} f {Setter} _ _ /.

Declare Scope record_scope.
Delimit Scope record_scope with rec.
Notation "r <| f := v |>" := (upd f (fun _ => v) r)
  (at level 1, left associativity, f at level 200, v at level 200) : record_scope.
Notation "r <| f ::= g |>" := (upd f g r)
  (at level 1, left associativity, f at level 200, g at level 200) : record_scope.
#[global] Open Scope record_scope.

(** ** The state monad of the stateful components

    Notations are stdpp's: [x ← m; k], [m ;; k], [mret]. *)
Definition M (S A : Type) : Type := S -> A * S.

#[global] Instance M_ret S : MRet (M S) := fun A a s => (a, s).
#[global] Instance M_bind S : MBind (M S) :=
  fun A B k m s => let '(a, s') := m s in k a s'.

Section Monad.
Context {S : Type}.
Definition mread {A} (f : S -> A) : M S A := fun s => (f s, s).
Definition mmod (f : S -> S) : M S unit := fun s => (tt, f s).
Definition mwhen (b : bool) (m : M S unit) : M S unit := if b then m else mret tt.
Fixpoint mfor {A} (l : list A) (body : A -> M S unit) : M S unit :=
  match l with
  | [] => mret tt
  | a :: l => body a ;; mfor l body
  end.

Lemma mbind_run {A B} (m : M S A) (k : A -> M S B) s :
  (m ≫= k) s = k (m s).1 (m s).2.
Proof. unfold mbind, M_bind. by destruct (m s). Qed.
Lemma mbind_eq {A B} (m : M S A) (k : A -> M S B) s a s' :
  m s = (a, s') -> (m ≫= k) s = k a s'.
Proof. rewrite mbind_run. by intros ->. Qed.
Lemma mbind_assoc {A B C} (m : M S A) (f : A -> M S B) (g : B -> M S C) s :
  ((m ≫= f) ≫= g) s = (m ≫= (fun a => f a ≫= g)) s.
Proof. by rewrite !mbind_run. Qed.
Lemma mfor_app {A} (l1 l2 : list A) (body : A -> M S unit) s :
  mfor (l1 ++ l2) body s = (mfor l1 body ;; mfor l2 body) s.
Proof.
  revert s. induction l1 as [|a l1 IH]; intros s; [done|].
  simpl. rewrite mbind_assoc, !mbind_run. by rewrite IH, mbind_run.
Qed.
(** An invariant of the loop body is an invariant of the loop. *)
Lemma mfor_invariant {A} (I : S -> Prop) (l : list A) (body : A -> M S unit) s :
  (forall a s, In a l -> I s -> I (body a s).2) -> I s -> I (mfor l body s).2.
Proof.
  revert s. induction l as [|a l IH]; intros s Hb Hs; simpl; [done|].
  rewrite mbind_run. apply IH; [|apply Hb; simpl; auto].
  intros a' s' Hin. apply Hb. simpl. auto.
Qed.
End Monad.

(** Computations that may run out of fuel: [x ←? m; k] stops with [None] when
    [m] does. *)
Definition obind {S A B} (m : M S (option A)) (k : A -> M S (option B)) : M S (option B) :=
  r ← m; match r with Some a => k a | None => mret None end.
Definition oret {S A} (a : A) : M S (option A) := mret (Some a).
Definition olift {S A} (m : M S A) : M S (option A) := a ← m; oret a.
Notation "x ←? m ; k" := (obind m (fun x => k))
  (at level 20, m at level 100, k at level 200, right associativity).
Lemma obind_some {S A B} (m : M S (option A)) (k : A -> M S (option B)) s a :
  (m s).1 = Some a -> obind m k s = k a (m s).2.
Proof. intros E. unfold obind. by rewrite mbind_run, E. Qed.

(** [iota n] = 0 .. n-1, the index range of a counted C loop. *)
Definition iota (n : nat) : list Z := Z.of_nat <$> seq 0 n.
Lemma elem_of_iota n i : In i (iota n) <-> 0 <= i < Z.of_nat n.
Proof.
  unfold iota. rewrite in_map_iff. setoid_rewrite in_seq. split.
  - intros (k & <- & ?). lia.
  - intros. exists (Z.to_nat i). lia.
Qed.
Lemma iota_S n : iota (S n) = iota n ++ [Z.of_nat n].
Proof. unfold iota. by rewrite seq_S, fmap_app. Qed.
Lemma length_iota n : length (iota n) = n.
Proof. unfold iota. by rewrite length_fmap, length_seq. Qed.

Lemma NoDup_iota n : NoDup (iota n).
Proof. apply NoDup_fmap_2; [intros ? ?; lia|apply NoDup_seq]. Qed.

(** ** Frames

    [keeps f m]: the computation [m] leaves the view [f] of the state alone. *)
Definition keeps {S A B} (f : S -> B) (m : M S A) : Prop := forall s, f (m s).2 = f s.
Section Keeps.
Context {S B : Type} (f : S -> B).
Lemma keeps_ret {A} (a : A) : keeps f (mret a).
Proof. by intros s. Qed.
Lemma keeps_read {A} (g : S -> A) : keeps f (mread g).
Proof. by intros s. Qed.
Lemma keeps_mod (g : S -> S) : (forall s, f (g s) = f s) -> keeps f (mmod g).
Proof. intros Hg s. apply Hg. Qed.
Lemma keeps_bind {A C} (m : M S A) (k : A -> M S C) :
  keeps f m -> (forall a, keeps f (k a)) -> keeps f (m ≫= k).
Proof. intros Hm Hk s. rewrite mbind_run. by rewrite (Hk _ _), (Hm s). Qed.
Lemma keeps_obind {A C} (m : M S (option A)) (k : A -> M S (option C)) :
  keeps f m -> (forall a, keeps f (k a)) -> keeps f (obind m k).
Proof. intros Hm Hk. apply keeps_bind; [done|]. intros []; [done|]. by intros s. Qed.
Lemma keeps_when b (m : M S unit) : keeps f m -> keeps f (mwhen b m).
Proof. by destruct b. Qed.
Lemma keeps_for {A} (l : list A) (body : A -> M S unit) :
  (forall a, keeps f (body a)) -> keeps f (mfor l body).
Proof.
  intros Hb. induction l as [|a l IH]; [by intros s|]. by apply keeps_bind.
Qed.
Lemma keeps_if {A} (b : bool) (m1 m2 : M S A) :
  keeps f m1 -> keeps f m2 -> keeps f (if b then m1 else m2).
Proof. by destruct b. Qed.
End Keeps.

(** ** Triples

    [ensures I m Q]: from a state with the invariant [I], the computation [m]
    returns a value in [Q] and leaves [I] true. *)
Definition ensures {S A} (I : S -> Prop) (m : M S A) (Q : A -> Prop) : Prop :=
  forall s, I s -> Q (m s).1 /\ I (m s).2.
(** The value of a computation that may run out of fuel. *)
Definition when_some {A} (Q : A -> Prop) (o : option A) : Prop :=
  match o with Some a => Q a | None => True end.
(** [holds I m]: [m] leaves the invariant [I] true. *)
Definition holds {S A} (I : S -> Prop) (m : M S A) : Prop := forall s, I s -> I (m s).2.
Section Ensures.
Context {S : Type} (I : S -> Prop).
Lemma ensures_ret {A} (a : A) (Q : A -> Prop) : Q a -> ensures I (mret a) Q.
Proof. by intros Ha s Hs. Qed.
Lemma ensures_read {A} (g : S -> A) (Q : A -> Prop) :
  (forall s, I s -> Q (g s)) -> ensures I (mread g) Q.
Proof. intros Hg s Hs. split; [by apply Hg|done]. Qed.
Lemma ensures_mod (g : S -> S) (Q : unit -> Prop) :
  (forall s, I s -> I (g s)) -> Q tt -> ensures I (mmod g) Q.
Proof. intros Hg HQ s Hs. split; [done|]. by apply Hg. Qed.
Lemma ensures_bind {A B} (m : M S A) (k : A -> M S B) (Q : A -> Prop) (R : B -> Prop) :
  ensures I m Q -> (forall a, Q a -> ensures I (k a) R) -> ensures I (m ≫= k) R.
Proof. intros Hm Hk s Hs. rewrite mbind_run. destruct (Hm s Hs) as [Ha Hs']. by apply Hk. Qed.
Lemma ensures_obind {A B} (m : M S (option A)) (k : A -> M S (option B))
  (Q : A -> Prop) (R : B -> Prop) :
  ensures I m (when_some Q) -> (forall a, Q a -> ensures I (k a) (when_some R)) ->
  ensures I (obind m k) (when_some R).
Proof.
  intros Hm Hk. eapply ensures_bind; [exact Hm|]. intros [a|] Ha; [by apply Hk|].
  by apply ensures_ret.
Qed.
Lemma ensures_when b (m : M S unit) : ensures I m (fun _ => True) -> ensures I (mwhen b m) (fun _ => True).
Proof. destruct b; [done|]. intros _. by apply ensures_ret. Qed.
Lemma ensures_for {A} (l : list A) (body : A -> M S unit) :
  (forall a, ensures I (body a) (fun _ => True)) -> ensures I (mfor l body) (fun _ => True).
Proof.
  intros Hb. induction l as [|a l IH]; [by apply ensures_ret|].
  eapply ensures_bind; [apply Hb|by intros].
Qed.
Lemma ensures_weaken {A} (m : M S A) (Q R : A -> Prop) :
  ensures I m Q -> (forall a, Q a -> R a) -> ensures I m R.
Proof. intros Hm HR s Hs. destruct (Hm s Hs). auto. Qed.
End Ensures.

(** ** Automation *)
Create HintDb cint.
#[export] Hint Resolve uwrap_range swrap_range in_u_lor in_u_land_l in_u_ldiff
  in_u_bit_set in_u_bit_clear in_u_bit_write in_u_BV : cint.
#[export] Hint Extern 1 (_ < _) => lia : cint.
#[export] Hint Extern 1 (_ <= _) => lia : cint.
#[export] Hint Extern 1 (_ <= _ < _) => lia : cint.

(** [zbool]: turn the boolean comparisons of the context into propositions;
    [ifs]: split every [if] of the goal, then [zbool]. *)
Ltac zbool :=
  repeat match goal with
  | H : (_ =? _) = true |- _ => apply Z.eqb_eq in H
  | H : (_ =? _) = false |- _ => apply Z.eqb_neq in H
  | H : (_ <? _) = true |- _ => apply Z.ltb_lt in H
  | H : (_ <? _) = false |- _ => apply Z.ltb_ge in H
  | H : (_ <=? _) = true |- _ => apply Z.leb_le in H
  | H : (_ <=? _) = false |- _ => apply Z.leb_gt in H
  | H : (_ >? _) = true |- _ => rewrite Z.gtb_ltb in H
  | H : (_ >? _) = false |- _ => rewrite Z.gtb_ltb in H
  | H : (_ >=? _) = true |- _ => rewrite Z.geb_leb in H
  | H : (_ >=? _) = false |- _ => rewrite Z.geb_leb in H
  | H : (_ && _)%bool = true |- _ => apply andb_true_iff in H; destruct H
  | H : (_ || _)%bool = false |- _ => apply orb_false_iff in H; destruct H
  | H : negb _ = true |- _ => apply negb_true_iff in H
  | H : negb _ = false |- _ => apply negb_false_iff in H
  end.
Ltac ifs :=
  repeat match goal with
  | |- context [if ?b then _ else _] => destruct b eqn:?
  end; zbool.
(** [lia] extended to division and modulus by constants. *)
Ltac zdiv := Z.to_euclidean_division_equations; lia.
(** Frame goals: structural rules, then the given tactic on the leaves. *)
Ltac frame tac :=
  repeat (intros; match goal with
  | |- keeps _ (mret _) => apply keeps_ret
  | |- keeps _ (oret _) => apply keeps_ret
  | |- keeps _ (mread _) => apply keeps_read
  | |- keeps _ (mmod _) => apply keeps_mod; intros; reflexivity
  | |- keeps _ (_ ≫= _) => apply keeps_bind
  | |- keeps _ (obind _ _) => apply keeps_obind
  | |- keeps _ (mwhen _ _) => apply keeps_when
  | |- keeps _ (mfor _ _) => apply keeps_for
  | |- keeps _ (if _ then _ else _) => apply keeps_if
  | |- keeps _ _ => tac
  end).
(** Split a membership in a literal range into its finitely many cases. *)
Ltac zcases x lo hi :=
  let rec go k :=
    lazymatch eval vm_compute in (k <? hi) with
    | true => destruct (Z.eq_dec x k) as [->|];
        [|let k' := eval vm_compute in (k + 1) in go k']
    | false => exfalso; lia
    end in go lo.

(** ** Exhaustive checks

    [zrange_all P n z] tests [P] on [z, z + n); used to decide statements over
    8- and 16-bit ranges by computation. *)
Definition zrange_all (P : Z -> bool) (n z : Z) : bool :=
  (fix go (n : nat) (z : Z) : bool :=
     match n with O => true | S n => if P z then go n (z + 1) else false end) (Z.to_nat n) z.
Lemma zrange_all_spec P n z :
  zrange_all P n z = true -> forall i, z <= i < z + n -> P i = true.
Proof.
  unfold zrange_all. intros H i Hi.
  assert (z <= i < z + Z.of_nat (Z.to_nat n)) as Hj by lia. clear Hi. revert z H Hj.
  induction (Z.to_nat n) as [|m IH]; intros z H Hj; [lia|].
  destruct (P z) eqn:E; [|done]. destruct (Z.eq_dec i z) as [->|]; [done|].
  apply (IH (z + 1)); [done|lia].
Qed.
