(* ===== verification/Packed.v ===== *)
(** * Memory layout of packed C structs

    The firmware copies whole structs to and from EEPROM, flash, USB and radio
    buffers ([memcpy], [eeprom_read_block], unions).  A [codec] is the layout of
    a C type under [#pragma pack(1)]: its size, its bytes and the value a byte
    image stands for.  [CodecOk] are the laws every layout here satisfies; they
    compose, so the round trips of a struct follow from its field list. *)

From Stdlib Require Import ZArith Lia.
From stdpp Require Import base tactics numbers list option.
From S2P Require Import Prelude.
Open Scope Z_scope.

Record codec (A : Type) := Codec {
  csize : nat;
  cenc : A -> list Z;
  cdec : list Z -> A;
  cwf : A -> Prop
}.
Arguments Codec {A}.
Arguments csize {A}.
Arguments cenc {A}.
Arguments cdec {A}.
Arguments cwf {A}.

Class CodecOk {A} (c : codec A) : Prop := {
  enc_length a : cwf c a -> length (cenc c a) = csize c;
  enc_bytes a : cwf c a -> bytes (cenc c a);
  dec_enc a : cwf c a -> cdec c (cenc c a) = a;
  enc_dec l : bytes l -> length l = csize c -> cenc c (cdec c l) = l;
  dec_wf l : bytes l -> length l = csize c -> cwf c (cdec c l)
}.

(** [uintN_t] and [intN_t] of [n] bytes; a [bool] in a packed struct is a
    [uint8_t] whose truth value is its being non-zero. *)
Definition cuint (n : nat) : codec Z :=
  Codec n (le_bytes n) le_val (in_u (8 * Z.of_nat n)).
Definition csint (n : nat) : codec Z :=
  Codec n (le_bytes n) (fun l => swrap (8 * Z.of_nat n) (le_val l)) (in_s (8 * Z.of_nat n)).
Abbreviation cu8 := (cuint 1).
Abbreviation cu16 := (cuint 2).
Abbreviation cu32 := (cuint 4).
Abbreviation cs16 := (csint 2).

Definition cpair {A B} (a : codec A) (b : codec B) : codec (A * B) :=
  Codec (csize a + csize b)
    (fun p => cenc a p.1 ++ cenc b p.2)
    (fun l => (cdec a (take (csize a) l), cdec b (drop (csize a) l)))
    (fun p => cwf a p.1 /\ cwf b p.2).

Section ListCodec.
Context {A : Type} (c : codec A).
Fixpoint dec_list (n : nat) (l : list Z) : list A :=
  match n with
  | O => []
  | S n => cdec c (take (csize c) l) :: dec_list n (drop (csize c) l)
  end.
(** An array of [n] elements. *)
Definition carray (n : nat) : codec (list A) :=
  Codec (n * csize c) (fun xs => concat (map (cenc c) xs)) (dec_list n)
    (fun xs => length xs = n /\ Forall (cwf c) xs).
End ListCodec.

(** A struct as the tuple of its fields, in declaration order. *)
Definition cstruct {A B} (to : B -> A) (from : A -> B) (c : codec A) : codec B :=
  Codec (csize c) (fun b => cenc c (to b)) (fun l => from (cdec c l)) (fun b => cwf c (to b)).

Class StructIso {A B} (to : B -> A) (from : A -> B) : Prop := {
  to_from a : to (from a) = a;
  from_to b : from (to b) = b
}.
#[global] Hint Extern 0 (StructIso _ _) =>
  (split; [intros; repeat match goal with p : _ * _ |- _ => destruct p end; reflexivity
          | intros []; reflexivity]) : typeclass_instances.

#[global] Instance cuint_ok n : CodecOk (cuint n).
Proof.
  split; simpl; intros.
  - apply length_le_bytes.
  - apply le_bytes_bytes.
  - rewrite le_val_le_bytes. by apply uwrap_small.
  - subst. by apply le_bytes_le_val.
  - subst. by apply le_val_range.
Qed.
Lemma csint_ok n : (0 < n)%nat -> CodecOk (csint n).
Proof.
  intros Hn. assert (0 < 8 * Z.of_nat n) by lia.
  split; simpl; intros.
  - apply length_le_bytes.
  - apply le_bytes_bytes.
  - rewrite le_val_le_bytes. by apply swrap_uwrap_small.
  - rewrite <- le_bytes_uwrap, uwrap_swrap, le_bytes_uwrap by lia.
    subst n. by apply le_bytes_le_val.
  - by apply swrap_range.
Qed.
#[global] Hint Extern 1 (CodecOk (csint _)) => (apply csint_ok; lia) : typeclass_instances.

#[global] Instance cpair_ok {A B} (a : codec A) (b : codec B) :
  CodecOk a -> CodecOk b -> CodecOk (cpair a b).
Proof.
  intros Ha Hb. split; simpl.
  - intros [x y] [Hx Hy]; simpl in *. rewrite length_app. by rewrite !enc_length.
  - intros [x y] [Hx Hy]; simpl in *. apply Forall_app_2; by apply enc_bytes.
  - intros [x y] [Hx Hy]; simpl in *.
    rewrite <- (enc_length x) by done.
    rewrite take_app_length, drop_app_length. by rewrite !dec_enc.
  - intros l Hl Hlen. simpl.
    rewrite !enc_dec; rewrite ?length_take, ?length_drop; try lia;
      auto using Forall_take, Forall_drop.
    apply take_drop.
  - intros l Hl Hlen. simpl.
    split; apply dec_wf; rewrite ?length_take, ?length_drop; try lia;
      auto using Forall_take, Forall_drop.
Qed.

#[global] Instance carray_ok {A} (c : codec A) n : CodecOk c -> CodecOk (carray c n).
Proof.
  intros Hc. split; simpl.
  - intros xs [<- H]. induction H as [|x xs Hx H IH]; [done|].
    simpl. rewrite length_app, enc_length, IH by done. done.
  - intros xs [_ H]. induction H as [|x xs Hx H IH]; simpl; [done|].
    apply Forall_app_2; [by apply enc_bytes|done].
  - intros xs [<- H]. induction H as [|x xs Hx H IH]; [done|].
    simpl. rewrite <- (enc_length x) by done.
    rewrite take_app_length, drop_app_length, IH, dec_enc by done. done.
  - induction n as [|n IH]; intros l Hl Hlen; simpl in *.
    { destruct l; [done|simpl in *; lia]. }
    rewrite IH by (rewrite ?length_drop; auto using Forall_drop; lia).
    rewrite enc_dec by (rewrite ?length_take; auto using Forall_take; lia).
    apply take_drop.
  - induction n as [|n IH]; intros l Hl Hlen; simpl in *; [done|].
    destruct (IH (drop (csize c) l)) as [Hn Hf];
      [auto using Forall_drop|rewrite length_drop; lia|].
    split; [by rewrite Hn|constructor; [|done]].
    apply dec_wf; [auto using Forall_take|rewrite length_take; lia].
Qed.

#[global] Instance cstruct_ok {A B} (to : B -> A) (from : A -> B) (c : codec A) :
  StructIso to from -> CodecOk c -> CodecOk (cstruct to from c).
Proof.
  intros Hi Hc. split; simpl; intros.
  - by apply enc_length.
  - by apply enc_bytes.
  - rewrite dec_enc by done. apply from_to.
  - rewrite to_from. by apply enc_dec.
  - rewrite to_from. by apply dec_wf.
Qed.

(** Equal images are equal values. *)
Lemma enc_inj {A} (c : codec A) `{!CodecOk c} a b :
  cwf c a -> cwf c b -> cenc c a = cenc c b -> a = b.
Proof. intros Ha Hb E. rewrite <- (dec_enc a Ha), <- (dec_enc b Hb). by f_equal. Qed.

Declare Scope codec_scope.
Delimit Scope codec_scope with codec.
Infix "⊗" := cpair (at level 40, left associativity) : codec_scope.
