(* ===== verification/Defs.v ===== *)
(** * Constants and enumerations

    [config/defines.h], [controller/controller.h], the PlayStation button
    numbering of [inputs/ps2_cnt.h], [output/serial_commands.h] and the report
    ids of [output/descriptors.h].  The code stores these in [uint8_t] objects
    and compares them as numbers, so each enumeration comes with its value,
    used as a coercion to [Z]. *)

From Stdlib Require Import ZArith Lia.
From stdpp Require Import base list.
From S2P Require Import Prelude.
Open Scope Z_scope.

Definition NONE : Z := 0.
Definition INVALID_PIN : Z := 0xFF.
Definition REAL_GUITAR_SUBTYPE : Z := 7.
Definition REAL_DRUM_SUBTYPE : Z := 8.

Inductive TiltType : Set :=
  | NO_TILT | MPU_6050 | DIGITAL | ANALOGUE.
Definition TiltType_val (x : TiltType) : Z :=
  match x with
  | NO_TILT => 0 | MPU_6050 => 1 | DIGITAL => 2 | ANALOGUE => 3
  end.
Coercion TiltType_val : TiltType >-> Z.

Inductive InputType : Set :=
  | WII | DIRECT | PS2.
Definition InputType_val (x : InputType) : Z :=
  match x with
  | WII => 1 | DIRECT => 2 | PS2 => 3
  end.
Coercion InputType_val : InputType >-> Z.

Inductive SubType : Set :=
  | XINPUT_GAMEPAD | XINPUT_WHEEL | XINPUT_ARCADE_STICK | XINPUT_FLIGHT_STICK
  | XINPUT_DANCE_PAD | XINPUT_LIVE_GUITAR | XINPUT_ROCK_BAND_DRUMS
  | XINPUT_GUITAR_HERO_DRUMS | XINPUT_ROCK_BAND_GUITAR | XINPUT_GUITAR_HERO_GUITAR
  | XINPUT_ARCADE_PAD | KEYBOARD_GAMEPAD | KEYBOARD_GUITAR_HERO_GUITAR
  | KEYBOARD_ROCK_BAND_GUITAR | KEYBOARD_LIVE_GUITAR | KEYBOARD_GUITAR_HERO_DRUMS
  | KEYBOARD_ROCK_BAND_DRUMS | SWITCH_GAMEPAD | PS3_GUITAR_HERO_GUITAR
  | PS3_GUITAR_HERO_DRUMS | PS3_ROCK_BAND_GUITAR | PS3_ROCK_BAND_DRUMS | PS3_GAMEPAD
  | WII_ROCK_BAND_GUITAR | WII_ROCK_BAND_DRUMS | MOUSE | MIDI_GAMEPAD
  | MIDI_GUITAR_HERO_GUITAR | MIDI_ROCK_BAND_GUITAR | MIDI_LIVE_GUITAR
  | MIDI_GUITAR_HERO_DRUMS | MIDI_ROCK_BAND_DRUMS.
Definition SubType_val (x : SubType) : Z :=
  match x with
  | XINPUT_GAMEPAD => 1 | XINPUT_WHEEL => 2 | XINPUT_ARCADE_STICK => 3
  | XINPUT_FLIGHT_STICK => 4 | XINPUT_DANCE_PAD => 5 | XINPUT_LIVE_GUITAR => 9
  | XINPUT_ROCK_BAND_DRUMS => 12 | XINPUT_GUITAR_HERO_DRUMS => 13
  | XINPUT_ROCK_BAND_GUITAR => 14 | XINPUT_GUITAR_HERO_GUITAR => 15
  | XINPUT_ARCADE_PAD => 19 | KEYBOARD_GAMEPAD => 20
  | KEYBOARD_GUITAR_HERO_GUITAR => 21 | KEYBOARD_ROCK_BAND_GUITAR => 22
  | KEYBOARD_LIVE_GUITAR => 23 | KEYBOARD_GUITAR_HERO_DRUMS => 24
  | KEYBOARD_ROCK_BAND_DRUMS => 25 | SWITCH_GAMEPAD => 26
  | PS3_GUITAR_HERO_GUITAR => 27 | PS3_GUITAR_HERO_DRUMS => 28
  | PS3_ROCK_BAND_GUITAR => 29 | PS3_ROCK_BAND_DRUMS => 30 | PS3_GAMEPAD => 31
  | WII_ROCK_BAND_GUITAR => 32 | WII_ROCK_BAND_DRUMS => 33 | MOUSE => 34
  | MIDI_GAMEPAD => 35 | MIDI_GUITAR_HERO_GUITAR => 36 | MIDI_ROCK_BAND_GUITAR => 37
  | MIDI_LIVE_GUITAR => 38 | MIDI_GUITAR_HERO_DRUMS => 39 | MIDI_ROCK_BAND_DRUMS => 40
  end.
Coercion SubType_val : SubType >-> Z.

Inductive GyroOrientation : Set :=
  | GyroX | GyroY | GyroZ.
Definition GyroOrientation_val (x : GyroOrientation) : Z :=
  match x with
  | GyroX => 0 | GyroY => 1 | GyroZ => 2
  end.
Coercion GyroOrientation_val : GyroOrientation >-> Z.

Inductive GyroOrientationOld : Set :=
  | POSITIVE_Z | NEGATIVE_Z | POSITIVE_Y | NEGATIVE_Y | POSITIVE_X | NEGATIVE_X.
Definition GyroOrientationOld_val (x : GyroOrientationOld) : Z :=
  match x with
  | POSITIVE_Z => 0 | NEGATIVE_Z => 1 | POSITIVE_Y => 2 | NEGATIVE_Y => 3
  | POSITIVE_X => 4 | NEGATIVE_X => 5
  end.
Coercion GyroOrientationOld_val : GyroOrientationOld >-> Z.

Inductive FirmwareType : Set :=
  | GUITAR_DEVICE_TYPE | ARDWIINO_DEVICE_TYPE.
Definition FirmwareType_val (x : FirmwareType) : Z :=
  match x with
  | GUITAR_DEVICE_TYPE => 0xfea124 | ARDWIINO_DEVICE_TYPE => 0xa2d415
  end.
Coercion FirmwareType_val : FirmwareType >-> Z.

Inductive FretLedMode : Set :=
  | LEDS_DISABLED | LEDS_INLINE | APA102.
Definition FretLedMode_val (x : FretLedMode) : Z :=
  match x with
  | LEDS_DISABLED => 0 | LEDS_INLINE => 1 | APA102 => 2
  end.
Coercion FretLedMode_val : FretLedMode >-> Z.

Inductive MidiType : Set :=
  | DISABLED | NOTE | CONTROL_COMMAND.
Definition MidiType_val (x : MidiType) : Z :=
  match x with
  | DISABLED => 0 | NOTE => 1 | CONTROL_COMMAND => 2
  end.
Coercion MidiType_val : MidiType >-> Z.

Inductive PinTypeFlags : Set :=
  | DIGITAL_PIN | ANALOGUE_PIN | INVERTED.
Definition PinTypeFlags_val (x : PinTypeFlags) : Z :=
  match x with
  | DIGITAL_PIN => 0 | ANALOGUE_PIN => 1 | INVERTED => 2
  end.
Coercion PinTypeFlags_val : PinTypeFlags >-> Z.

Inductive WiiExtType : Set :=
  | WII_NUNCHUK | WII_CLASSIC_CONTROLLER | WII_CLASSIC_CONTROLLER_PRO
  | WII_THQ_UDRAW_TABLET | WII_UBISOFT_DRAWSOME_TABLET
  | WII_GUITAR_HERO_GUITAR_CONTROLLER | WII_GUITAR_HERO_DRUM_CONTROLLER
  | WII_DJ_HERO_TURNTABLE | WII_TAIKO_NO_TATSUJIN_CONTROLLER | WII_MOTION_PLUS
  | WII_NO_EXTENSION | WII_NOT_INITIALISED.
Definition WiiExtType_val (x : WiiExtType) : Z :=
  match x with
  | WII_NUNCHUK => 0 | WII_CLASSIC_CONTROLLER => 1
  | WII_CLASSIC_CONTROLLER_PRO => 0x101 | WII_THQ_UDRAW_TABLET => 0xff12
  | WII_UBISOFT_DRAWSOME_TABLET => 0xff13 | WII_GUITAR_HERO_GUITAR_CONTROLLER => 3
  | WII_GUITAR_HERO_DRUM_CONTROLLER => 0x103 | WII_DJ_HERO_TURNTABLE => 0x303
  | WII_TAIKO_NO_TATSUJIN_CONTROLLER => 17 | WII_MOTION_PLUS => 5
  | WII_NO_EXTENSION => 0x180b | WII_NOT_INITIALISED => 0xffff
  end.
Coercion WiiExtType_val : WiiExtType >-> Z.

Inductive PsxControllerType : Set :=
  | PSX_UNKNOWN_CONTROLLER | PSX_DUALSHOCK_1_CONTROLLER | PSX_DUALSHOCK_2_CONTROLLER
  | PSX_WIRELESS_SONY_DUALSHOCK_CONTROLLER | PSX_GUITAR_HERO_CONTROLLER | PSX_NEGCON
  | PSX_JOGCON | PSX_GUNCON | PSX_ANALOG | PSX_MOUSE | PSX_NO_DEVICE.
Definition PsxControllerType_val (x : PsxControllerType) : Z :=
  match x with
  | PSX_UNKNOWN_CONTROLLER => 0 | PSX_DUALSHOCK_1_CONTROLLER => 1
  | PSX_DUALSHOCK_2_CONTROLLER => 2 | PSX_WIRELESS_SONY_DUALSHOCK_CONTROLLER => 3
  | PSX_GUITAR_HERO_CONTROLLER => 4 | PSX_NEGCON => 5 | PSX_JOGCON => 6
  | PSX_GUNCON => 7 | PSX_ANALOG => 8 | PSX_MOUSE => 9 | PSX_NO_DEVICE => 10
  end.
#[global] Instance PsxControllerType_eq_dec : EqDecision PsxControllerType.
Proof. solve_decision. Defined.
Coercion PsxControllerType_val : PsxControllerType >-> Z.

Definition XBOX_BTN_COUNT : Z := 16.
Definition XBOX_AXIS_COUNT : Z := 6.

Inductive ControllerAxis : Set :=
  | XBOX_LT | XBOX_RT | XBOX_L_X | XBOX_L_Y | XBOX_R_X | XBOX_R_Y.
Definition ControllerAxis_val (x : ControllerAxis) : Z :=
  match x with
  | XBOX_LT => 0 | XBOX_RT => 1 | XBOX_L_X => 2 | XBOX_L_Y => 3 | XBOX_R_X => 4
  | XBOX_R_Y => 5
  end.
Coercion ControllerAxis_val : ControllerAxis >-> Z.

Definition XBOX_WHAMMY : Z := XBOX_R_X.
Definition XBOX_TILT : Z := XBOX_R_Y.

Inductive ControllerButtons : Set :=
  | XBOX_DPAD_UP | XBOX_DPAD_DOWN | XBOX_DPAD_LEFT | XBOX_DPAD_RIGHT | XBOX_START
  | XBOX_BACK | XBOX_LEFT_STICK | XBOX_RIGHT_STICK | XBOX_LB | XBOX_RB | XBOX_HOME
  | XBOX_UNUSED | XBOX_A | XBOX_B | XBOX_X | XBOX_Y.
Definition ControllerButtons_val (x : ControllerButtons) : Z :=
  match x with
  | XBOX_DPAD_UP => 0 | XBOX_DPAD_DOWN => 1 | XBOX_DPAD_LEFT => 2
  | XBOX_DPAD_RIGHT => 3 | XBOX_START => 4 | XBOX_BACK => 5 | XBOX_LEFT_STICK => 6
  | XBOX_RIGHT_STICK => 7 | XBOX_LB => 8 | XBOX_RB => 9 | XBOX_HOME => 10
  | XBOX_UNUSED => 11 | XBOX_A => 12 | XBOX_B => 13 | XBOX_X => 14 | XBOX_Y => 15
  end.
Coercion ControllerButtons_val : ControllerButtons >-> Z.

Inductive SwitchButtons : Set :=
  | SWITCH_Y | SWITCH_B | SWITCH_A | SWITCH_X | SWITCH_L | SWITCH_R | SWITCH_ZL
  | SWITCH_ZR | SWITCH_SELECT | SWITCH_START | SWITCH_LEFT_STICK | SWITCH_RIGHT_STICK
  | SWITCH_HOME | SWITCH_CAPTURE.
Definition SwitchButtons_val (x : SwitchButtons) : Z :=
  match x with
  | SWITCH_Y => 0 | SWITCH_B => 1 | SWITCH_A => 2 | SWITCH_X => 3 | SWITCH_L => 4
  | SWITCH_R => 5 | SWITCH_ZL => 6 | SWITCH_ZR => 7 | SWITCH_SELECT => 8
  | SWITCH_START => 9 | SWITCH_LEFT_STICK => 10 | SWITCH_RIGHT_STICK => 11
  | SWITCH_HOME => 12 | SWITCH_CAPTURE => 13
  end.
Coercion SwitchButtons_val : SwitchButtons >-> Z.

Inductive PsxButton : Set :=
  | PSB_SELECT | PSB_L3 | PSB_R3 | PSB_START | PSB_PAD_UP | PSB_PAD_RIGHT
  | PSB_PAD_DOWN | PSB_PAD_LEFT | PSB_L2 | PSB_R2 | PSB_L1 | PSB_R1 | PSB_TRIANGLE
  | PSB_CIRCLE | PSB_CROSS | PSB_SQUARE.
Definition PsxButton_val (x : PsxButton) : Z :=
  match x with
  | PSB_SELECT => 0 | PSB_L3 => 1 | PSB_R3 => 2 | PSB_START => 3 | PSB_PAD_UP => 4
  | PSB_PAD_RIGHT => 5 | PSB_PAD_DOWN => 6 | PSB_PAD_LEFT => 7 | PSB_L2 => 8
  | PSB_R2 => 9 | PSB_L1 => 10 | PSB_R1 => 11 | PSB_TRIANGLE => 12 | PSB_CIRCLE => 13
  | PSB_CROSS => 14 | PSB_SQUARE => 15
  end.
Coercion PsxButton_val : PsxButton >-> Z.

Inductive MouseButton : Set :=
  | PMB_LEFT | PMB_RIGHT.
Definition MouseButton_val (x : MouseButton) : Z :=
  match x with
  | PMB_LEFT => 9 | PMB_RIGHT => 10
  end.
Coercion MouseButton_val : MouseButton >-> Z.

Inductive GHButton : Set :=
  | GH_STAR_POWER | GH_GREEN | GH_RED | GH_YELLOW | GH_BLUE | GH_ORANGE.
Definition GHButton_val (x : GHButton) : Z :=
  match x with
  | GH_STAR_POWER => 8 | GH_GREEN => 9 | GH_RED => 13 | GH_YELLOW => 12 | GH_BLUE => 14
  | GH_ORANGE => 15
  end.
Coercion GHButton_val : GHButton >-> Z.

Inductive PsxAnalogButton : Set :=
  | PSAB_PAD_RIGHT | PSAB_PAD_LEFT | PSAB_PAD_UP | PSAB_PAD_DOWN | PSAB_TRIANGLE
  | PSAB_CIRCLE | PSAB_CROSS | PSAB_SQUARE | PSAB_L1 | PSAB_R1 | PSAB_L2 | PSAB_R2.
Definition PsxAnalogButton_val (x : PsxAnalogButton) : Z :=
  match x with
  | PSAB_PAD_RIGHT => 0 | PSAB_PAD_LEFT => 1 | PSAB_PAD_UP => 2 | PSAB_PAD_DOWN => 3
  | PSAB_TRIANGLE => 4 | PSAB_CIRCLE => 5 | PSAB_CROSS => 6 | PSAB_SQUARE => 7
  | PSAB_L1 => 8 | PSAB_R1 => 9 | PSAB_L2 => 10 | PSAB_R2 => 11
  end.
Coercion PsxAnalogButton_val : PsxAnalogButton >-> Z.

Inductive SerialCommands : Set :=
  | COMMAND_REBOOT | COMMAND_JUMP_BOOTLOADER | COMMAND_GET_CPU_INFO
  | COMMAND_FIND_DIGITAL | COMMAND_FIND_ANALOG | COMMAND_GET_EXTENSION
  | COMMAND_GET_FOUND | COMMAND_GET_RF_CPU_INFO | COMMAND_WRITE_SUBTYPE
  | COMMAND_SET_LEDS | COMMAND_RESET | COMMAND_SET_SP | COMMAND_GET_VALUES
  | COMMAND_WRITE_CONFIG | COMMAND_READ_CONFIG | COMMAND_MAX.
Definition SerialCommands_val (x : SerialCommands) : Z :=
  match x with
  | COMMAND_REBOOT => 48 | COMMAND_JUMP_BOOTLOADER => 49 | COMMAND_GET_CPU_INFO => 50
  | COMMAND_FIND_DIGITAL => 51 | COMMAND_FIND_ANALOG => 52
  | COMMAND_GET_EXTENSION => 53 | COMMAND_GET_FOUND => 54
  | COMMAND_GET_RF_CPU_INFO => 55 | COMMAND_WRITE_SUBTYPE => 56
  | COMMAND_SET_LEDS => 57 | COMMAND_RESET => 58 | COMMAND_SET_SP => 59
  | COMMAND_GET_VALUES => 60 | COMMAND_WRITE_CONFIG => 61 | COMMAND_READ_CONFIG => 62
  | COMMAND_MAX => 63
  end.
Coercion SerialCommands_val : SerialCommands >-> Z.

Inductive HID_Report : Set :=
  | REPORT_ID_XINPUT | REPORT_ID_XINPUT_2 | REPORT_ID_XINPUT_3 | REPORT_ID_XINPUT_4
  | REPORT_ID_GAMEPAD | REPORT_ID_MOUSE | REPORT_ID_KBD | REPORT_ID_MIDI
  | REPORT_ID_CONTROL.
Definition HID_Report_val (x : HID_Report) : Z :=
  match x with
  | REPORT_ID_XINPUT => 0 | REPORT_ID_XINPUT_2 => 1 | REPORT_ID_XINPUT_3 => 2
  | REPORT_ID_XINPUT_4 => 3 | REPORT_ID_GAMEPAD => 4 | REPORT_ID_MOUSE => 5
  | REPORT_ID_KBD => 6 | REPORT_ID_MIDI => 7 | REPORT_ID_CONTROL => 8
  end.
Coercion HID_Report_val : HID_Report >-> Z.

