(* ===== verification/Config.v ===== *)
(** * The stored configuration: [config/config.h], [config/defaults.h]

    One record per packed struct, its [codec] being the layout the EEPROM, the
    flash and the host tool see.  A [bool] field is kept as the byte it
    occupies ([truth] is its value), so that any byte image is a
    configuration. *)

From Stdlib Require Import ZArith Lia.
From stdpp Require Import base tactics numbers list.
From S2P Require Import Prelude Packed Defs Colours.
Open Scope Z_scope.

Definition truth (b : Z) : bool := negb (b =? 0).
(** The C expression [!b] stored back in a [bool]. *)
Definition cnot (b : Z) : Z := Z.b2z (b =? 0).

Module AnalogPin.
(** [AnalogPin_t] *)
Record AnalogPin_t : Set := mk {
  pin : Z; inverted : Z
}.
#[global] Instance etaAnalogPin : Settable AnalogPin_t := fun r =>
  {|
    pin := pin r; inverted := inverted r
  |}.
Definition codec : codec AnalogPin_t :=
  cstruct
    (fun r =>
      (pin r, inverted r))
    (fun '(pin, inverted) =>
      mk pin inverted)
    (cu8 ⊗ cu8)%codec.
#[global] Instance codec_ok : CodecOk codec.
Proof. unfold codec. apply _. Qed.
End AnalogPin.

Module Pins.
(** [Pins_t] *)
Record Pins_t : Set := mk {
  up : Z; down : Z; left : Z; right : Z; start : Z; back : Z; left_stick : Z;
  right_stick : Z; LB : Z; RB : Z; home : Z; capture : Z; a : Z; b : Z; x : Z; y : Z;
  lt : AnalogPin.AnalogPin_t; rt : AnalogPin.AnalogPin_t; l_x : AnalogPin.AnalogPin_t;
  l_y : AnalogPin.AnalogPin_t; r_x : AnalogPin.AnalogPin_t; r_y : AnalogPin.AnalogPin_t
}.
#[global] Instance etaPins : Settable Pins_t := fun r =>
  {|
    up := up r; down := down r; left := left r; right := right r; start := start r;
    back := back r; left_stick := left_stick r; right_stick := right_stick r;
    LB := LB r; RB := RB r; home := home r; capture := capture r; a := a r; b := b r;
    x := x r; y := y r; lt := lt r; rt := rt r; l_x := l_x r; l_y := l_y r;
    r_x := r_x r; r_y := r_y r
  |}.
Definition codec : codec Pins_t :=
  cstruct
    (fun r =>
      (up r, down r, left r, right r, start r, back r, left_stick r, right_stick r,
      LB r, RB r, home r, capture r, a r, b r, x r, y r, lt r, rt r, l_x r, l_y r,
      r_x r, r_y r))
    (fun '(up, down, left, right, start, back, left_stick, right_stick, LB, RB, home,
      capture, a, b, x, y, lt, rt, l_x, l_y, r_x, r_y) =>
      mk up down left right start back left_stick right_stick LB RB home capture a b x y
      lt rt l_x l_y r_x r_y)
    (cu8 ⊗ cu8 ⊗ cu8 ⊗ cu8 ⊗ cu8 ⊗ cu8 ⊗ cu8 ⊗ cu8 ⊗ cu8 ⊗ cu8 ⊗ cu8 ⊗ cu8 ⊗ cu8 ⊗ cu8
    ⊗ cu8 ⊗ cu8 ⊗ AnalogPin.codec ⊗ AnalogPin.codec ⊗ AnalogPin.codec ⊗ AnalogPin.codec
    ⊗ AnalogPin.codec ⊗ AnalogPin.codec)%codec.
#[global] Instance codec_ok : CodecOk codec.
Proof. unfold codec. apply _. Qed.
End Pins.

Module AnalogKey.
(** [AnalogKey_t] *)
Record AnalogKey_t : Set := mk {
  neg : Z; pos : Z
}.
#[global] Instance etaAnalogKey : Settable AnalogKey_t := fun r =>
  {|
    neg := neg r; pos := pos r
  |}.
Definition codec : codec AnalogKey_t :=
  cstruct
    (fun r =>
      (neg r, pos r))
    (fun '(neg, pos) =>
      mk neg pos)
    (cu8 ⊗ cu8)%codec.
#[global] Instance codec_ok : CodecOk codec.
Proof. unfold codec. apply _. Qed.
End AnalogKey.

Module Keys.
(** [Keys_t] *)
Record Keys_t : Set := mk {
  up : Z; down : Z; left : Z; right : Z; start : Z; back : Z; left_stick : Z;
  right_stick : Z; LB : Z; RB : Z; home : Z; capture : Z; a : Z; b : Z; x : Z; y : Z;
  lt : Z; rt : Z; l_x : AnalogKey.AnalogKey_t; l_y : AnalogKey.AnalogKey_t;
  r_x : AnalogKey.AnalogKey_t; r_y : AnalogKey.AnalogKey_t
}.
#[global] Instance etaKeys : Settable Keys_t := fun r =>
  {|
    up := up r; down := down r; left := left r; right := right r; start := start r;
    back := back r; left_stick := left_stick r; right_stick := right_stick r;
    LB := LB r; RB := RB r; home := home r; capture := capture r; a := a r; b := b r;
    x := x r; y := y r; lt := lt r; rt := rt r; l_x := l_x r; l_y := l_y r;
    r_x := r_x r; r_y := r_y r
  |}.
Definition codec : codec Keys_t :=
  cstruct
    (fun r =>
      (up r, down r, left r, right r, start r, back r, left_stick r, right_stick r,
      LB r, RB r, home r, capture r, a r, b r, x r, y r, lt r, rt r, l_x r, l_y r,
      r_x r, r_y r))
    (fun '(up, down, left, right, start, back, left_stick, right_stick, LB, RB, home,
      capture, a, b, x, y, lt, rt, l_x, l_y, r_x, r_y) =>
      mk up down left right start back left_stick right_stick LB RB home capture a b x y
      lt rt l_x l_y r_x r_y)
    (cu8 ⊗ cu8 ⊗ cu8 ⊗ cu8 ⊗ cu8 ⊗ cu8 ⊗ cu8 ⊗ cu8 ⊗ cu8 ⊗ cu8 ⊗ cu8 ⊗ cu8 ⊗ cu8 ⊗ cu8
    ⊗ cu8 ⊗ cu8 ⊗ cu8 ⊗ cu8 ⊗ AnalogKey.codec ⊗ AnalogKey.codec ⊗ AnalogKey.codec
    ⊗ AnalogKey.codec)%codec.
#[global] Instance codec_ok : CodecOk codec.
Proof. unfold codec. apply _. Qed.
End Keys.

Module Main.
(** [MainConfig_t] *)
Record MainConfig_t : Set := mk {
  inputType : Z; subType : Z; tiltType : Z; pollRate : Z; fretLEDMode : Z;
  mapLeftJoystickToDPad : Z; mapStartSelectToHome : Z; mapNunchukAccelToRightJoy : Z;
  signature : Z; version : Z
}.
#[global] Instance etaMain : Settable MainConfig_t := fun r =>
  {|
    inputType := inputType r; subType := subType r; tiltType := tiltType r;
    pollRate := pollRate r; fretLEDMode := fretLEDMode r;
    mapLeftJoystickToDPad := mapLeftJoystickToDPad r;
    mapStartSelectToHome := mapStartSelectToHome r;
    mapNunchukAccelToRightJoy := mapNunchukAccelToRightJoy r; signature := signature r;
    version := version r
  |}.
Definition codec : codec MainConfig_t :=
  cstruct
    (fun r =>
      (inputType r, subType r, tiltType r, pollRate r, fretLEDMode r,
      mapLeftJoystickToDPad r, mapStartSelectToHome r, mapNunchukAccelToRightJoy r,
      signature r, version r))
    (fun '(inputType, subType, tiltType, pollRate, fretLEDMode, mapLeftJoystickToDPad,
      mapStartSelectToHome, mapNunchukAccelToRightJoy, signature, version) =>
      mk inputType subType tiltType pollRate fretLEDMode mapLeftJoystickToDPad
      mapStartSelectToHome mapNunchukAccelToRightJoy signature version)
    (cu8 ⊗ cu8 ⊗ cu8 ⊗ cu8 ⊗ cu8 ⊗ cu8 ⊗ cu8 ⊗ cu8 ⊗ cu32 ⊗ cu32)%codec.
#[global] Instance codec_ok : CodecOk codec.
Proof. unfold codec. apply _. Qed.
End Main.

Module Axis.
(** [AxisConfig_t] *)
Record AxisConfig_t : Set := mk {
  triggerThreshold : Z; joyThreshold : Z; drumThreshold : Z; mpu6050Orientation : Z;
  tiltSensitivity : Z
}.
#[global] Instance etaAxis : Settable AxisConfig_t := fun r =>
  {|
    triggerThreshold := triggerThreshold r; joyThreshold := joyThreshold r;
    drumThreshold := drumThreshold r; mpu6050Orientation := mpu6050Orientation r;
    tiltSensitivity := tiltSensitivity r
  |}.
Definition codec : codec AxisConfig_t :=
  cstruct
    (fun r =>
      (triggerThreshold r, joyThreshold r, drumThreshold r, mpu6050Orientation r,
      tiltSensitivity r))
    (fun '(triggerThreshold, joyThreshold, drumThreshold, mpu6050Orientation,
      tiltSensitivity) =>
      mk triggerThreshold joyThreshold drumThreshold mpu6050Orientation tiltSensitivity)
    (cu8 ⊗ cu8 ⊗ cu8 ⊗ cu8 ⊗ cs16)%codec.
#[global] Instance codec_ok : CodecOk codec.
Proof. unfold codec. apply _. Qed.
End Axis.

Module Midi.
(** [MidiConfig_t]: one entry per button, then one per axis *)
Record MidiConfig_t : Set := mk {
  type : list Z; note : list Z; channel : list Z
}.
#[global] Instance etaMidi : Settable MidiConfig_t := fun r =>
  {|
    type := type r; note := note r; channel := channel r
  |}.
Definition codec : codec MidiConfig_t :=
  cstruct
    (fun r =>
      (type r, note r, channel r))
    (fun '(type, note, channel) =>
      mk type note channel)
    (carray cu8 22 ⊗ carray cu8 22 ⊗ carray cu8 22)%codec.
#[global] Instance codec_ok : CodecOk codec.
Proof. unfold codec. apply _. Qed.
End Midi.

Module RF.
(** [RFConfig_t] *)
Record RFConfig_t : Set := mk {
  rfInEnabled : Z; id : Z
}.
#[global] Instance etaRF : Settable RFConfig_t := fun r =>
  {|
    rfInEnabled := rfInEnabled r; id := id r
  |}.
Definition codec : codec RFConfig_t :=
  cstruct
    (fun r =>
      (rfInEnabled r, id r))
    (fun '(rfInEnabled, id) =>
      mk rfInEnabled id)
    (cu8 ⊗ cu32)%codec.
#[global] Instance codec_ok : CodecOk codec.
Proof. unfold codec. apply _. Qed.
End RF.

Module Scale.
(** [AxisScale_t] *)
Record AxisScale_t : Set := mk {
  multiplier : Z; offset : Z; deadzone : Z
}.
#[global] Instance etaScale : Settable AxisScale_t := fun r =>
  {|
    multiplier := multiplier r; offset := offset r; deadzone := deadzone r
  |}.
Definition codec : codec AxisScale_t :=
  cstruct
    (fun r =>
      (multiplier r, offset r, deadzone r))
    (fun '(multiplier, offset, deadzone) =>
      mk multiplier offset deadzone)
    (cs16 ⊗ cs16 ⊗ cs16)%codec.
#[global] Instance codec_ok : CodecOk codec.
Proof. unfold codec. apply _. Qed.
End Scale.

Module AxisScale.
(** [AxisScaleConfig_t] *)
Record AxisScaleConfig_t : Set := mk {
  lt : Scale.AxisScale_t; rt : Scale.AxisScale_t; l_x : Scale.AxisScale_t;
  l_y : Scale.AxisScale_t; r_x : Scale.AxisScale_t; r_y : Scale.AxisScale_t
}.
#[global] Instance etaAxisScale : Settable AxisScaleConfig_t := fun r =>
  {|
    lt := lt r; rt := rt r; l_x := l_x r; l_y := l_y r; r_x := r_x r; r_y := r_y r
  |}.
Definition codec : codec AxisScaleConfig_t :=
  cstruct
    (fun r =>
      (lt r, rt r, l_x r, l_y r, r_x r, r_y r))
    (fun '(lt, rt, l_x, l_y, r_x, r_y) =>
      mk lt rt l_x l_y r_x r_y)
    (Scale.codec ⊗ Scale.codec ⊗ Scale.codec ⊗ Scale.codec ⊗ Scale.codec
    ⊗ Scale.codec)%codec.
#[global] Instance codec_ok : CodecOk codec.
Proof. unfold codec. apply _. Qed.
End AxisScale.

Module Debounce.
(** [DebounceConfig_t] *)
Record DebounceConfig_t : Set := mk {
  buttons : Z; strum : Z; combinedStrum : Z
}.
#[global] Instance etaDebounce : Settable DebounceConfig_t := fun r =>
  {|
    buttons := buttons r; strum := strum r; combinedStrum := combinedStrum r
  |}.
Definition codec : codec DebounceConfig_t :=
  cstruct
    (fun r =>
      (buttons r, strum r, combinedStrum r))
    (fun '(buttons, strum, combinedStrum) =>
      mk buttons strum combinedStrum)
    (cu8 ⊗ cu8 ⊗ cu8)%codec.
#[global] Instance codec_ok : CodecOk codec.
Proof. unfold codec. apply _. Qed.
End Debounce.

Module Led.
(** [Led_t] of controller/controller.h *)
Record Led_t : Set := mk {
  pin : Z; red : Z; green : Z; blue : Z
}.
#[global] Instance etaLed : Settable Led_t := fun r =>
  {|
    pin := pin r; red := red r; green := green r; blue := blue r
  |}.
Definition codec : codec Led_t :=
  cstruct
    (fun r =>
      (pin r, red r, green r, blue r))
    (fun '(pin, red, green, blue) =>
      mk pin red green blue)
    (cu8 ⊗ cu8 ⊗ cu8 ⊗ cu8)%codec.
#[global] Instance codec_ok : CodecOk codec.
Proof. unfold codec. apply _. Qed.
End Led.

Module Cfg.
(** [Configuration_t] *)
Record Configuration_t : Set := mk {
  main : Main.MainConfig_t; pins : Pins.Pins_t; axis : Axis.AxisConfig_t;
  keys : Keys.Keys_t; leds : list Led.Led_t; midi : Midi.MidiConfig_t;
  rf : RF.RFConfig_t; pinsSP : Z; axisScale : AxisScale.AxisScaleConfig_t;
  debounce : Debounce.DebounceConfig_t
}.
#[global] Instance etaCfg : Settable Configuration_t := fun r =>
  {|
    main := main r; pins := pins r; axis := axis r; keys := keys r; leds := leds r;
    midi := midi r; rf := rf r; pinsSP := pinsSP r; axisScale := axisScale r;
    debounce := debounce r
  |}.
Definition codec : codec Configuration_t :=
  cstruct
    (fun r =>
      (main r, pins r, axis r, keys r, leds r, midi r, rf r, pinsSP r, axisScale r,
      debounce r))
    (fun '(main, pins, axis, keys, leds, midi, rf, pinsSP, axisScale, debounce) =>
      mk main pins axis keys leds midi rf pinsSP axisScale debounce)
    (Main.codec ⊗ Pins.codec ⊗ Axis.codec ⊗ Keys.codec ⊗ carray Led.codec 22
    ⊗ Midi.codec ⊗ RF.codec ⊗ cu8 ⊗ AxisScale.codec ⊗ Debounce.codec)%codec.
#[global] Instance codec_ok : CodecOk codec.
Proof. unfold codec. apply _. Qed.
End Cfg.

Abbreviation Configuration_t := Cfg.Configuration_t.
Abbreviation Led_t := Led.Led_t.

(** [sizeof(Configuration_t)]. *)
Definition sizeof_Configuration_t : Z := Z.of_nat (csize Cfg.codec).

(** ** The [PinsCombined_t] view of [Pins_t] *)
Definition pins_buttons (p : Pins.Pins_t) : list Z :=
  [Pins.up p; Pins.down p; Pins.left p; Pins.right p; Pins.start p; Pins.back p;
   Pins.left_stick p; Pins.right_stick p; Pins.LB p; Pins.RB p; Pins.home p;
   Pins.capture p; Pins.a p; Pins.b p; Pins.x p; Pins.y p].
Definition pins_axis (p : Pins.Pins_t) : list AnalogPin.AnalogPin_t :=
  [Pins.lt p; Pins.rt p; Pins.l_x p; Pins.l_y p; Pins.r_x p; Pins.r_y p].

(** ** config/defaults.h *)
Definition CONFIG_VERSION : Z := 15.
Definition POLL_RATE : Z := 0.
Definition TRIGGER_THRESHOLD : Z := 64.
Definition DRUM_THRESHOLD : Z := 64.
Definition JOY_THRESHOLD : Z := 64.
Definition TILT_SENSITIVITY : Z := 3000.
Definition STRUM_DEBOUNCE : Z := 20.
Definition BUTTON_DEBOUNCE : Z := 5.
Definition INT16_MIN : Z := -32768.
Definition INT16_MAX : Z := 32767.

(** [{pin, COLOUR(col)}] *)
Definition COLOUR (pin : Z) (col : Colors) : Led_t :=
  Led.mk pin (Z.land (Z.shiftr col 16) 0xff) (Z.land (Z.shiftr col 8) 0xff)
    (Z.land col 0xff).
Definition no_led : Led_t := Led.mk 0 0 0 0.
Definition LED_PINS : list Led_t :=
  [COLOUR (XBOX_A + 1) Green; COLOUR (XBOX_B + 1) Red; COLOUR (XBOX_Y + 1) Yellow;
   COLOUR (XBOX_X + 1) Blue; COLOUR (XBOX_LB + 1) OrangeRed] ++ replicate 17 no_led.

Definition DEFAULT_AXIS_SCALE : Scale.AxisScale_t := Scale.mk 0 INT16_MIN INT16_MAX.
Definition DEFAULT_AXIS_SCALE_TRIGGER : Scale.AxisScale_t := Scale.mk 0 INT16_MIN 0.
Definition INVALID_AN_PIN : AnalogPin.AnalogPin_t := AnalogPin.mk INVALID_PIN 0.
Definition EMPTY : AnalogKey.AnalogKey_t := AnalogKey.mk INVALID_PIN 0.
Definition KEYS : Keys.Keys_t :=
  Keys.mk 0x04 0x16 0x0d 0x0e 0x0f 0x33 0x28 0x0b 0x50 0x4f 0x52 0x51
    0x51 INVALID_PIN INVALID_PIN INVALID_PIN INVALID_PIN INVALID_PIN
    EMPTY EMPTY EMPTY EMPTY.
Definition PINS : Pins.Pins_t :=
  Pins.mk INVALID_PIN INVALID_PIN INVALID_PIN INVALID_PIN INVALID_PIN
    INVALID_PIN INVALID_PIN INVALID_PIN INVALID_PIN INVALID_PIN
    INVALID_PIN INVALID_PIN INVALID_PIN INVALID_PIN INVALID_PIN
    INVALID_PIN INVALID_AN_PIN INVALID_AN_PIN INVALID_AN_PIN
    INVALID_AN_PIN INVALID_AN_PIN INVALID_AN_PIN.
Definition DEFAULT_CONFIG_MAIN : Main.MainConfig_t :=
  Main.mk DIRECT XINPUT_GUITAR_HERO_GUITAR NONE POLL_RATE LEDS_DISABLED 1 1 1
    ARDWIINO_DEVICE_TYPE CONFIG_VERSION.
Definition DEFAULT_THRESHOLDS : Axis.AxisConfig_t :=
  Axis.mk TRIGGER_THRESHOLD JOY_THRESHOLD DRUM_THRESHOLD GyroX TILT_SENSITIVITY.
Definition DEFAULT_MIDI : Midi.MidiConfig_t :=
  Midi.mk (replicate 22 0) (replicate 22 0) (replicate 22 0).
Definition DEFAULT_AXIS_SCALES : AxisScale.AxisScaleConfig_t :=
  AxisScale.mk DEFAULT_AXIS_SCALE_TRIGGER DEFAULT_AXIS_SCALE_TRIGGER
    DEFAULT_AXIS_SCALE DEFAULT_AXIS_SCALE DEFAULT_AXIS_SCALE DEFAULT_AXIS_SCALE.
Definition DEFAULT_DEBOUNCE : Debounce.DebounceConfig_t :=
  Debounce.mk BUTTON_DEBOUNCE STRUM_DEBOUNCE 0.
(** [default_config] of both EEPROM drivers. *)
Definition default_config : Configuration_t :=
  Cfg.mk DEFAULT_CONFIG_MAIN PINS DEFAULT_THRESHOLDS KEYS LED_PINS DEFAULT_MIDI
    (RF.mk 0 0) INVALID_PIN DEFAULT_AXIS_SCALES DEFAULT_DEBOUNCE.

Lemma sizeof_Configuration : csize Cfg.codec = 275%nat.
Proof. reflexivity. Qed.
Lemma default_config_wf : cwf Cfg.codec default_config.
Proof. vm_compute. repeat (split || constructor || discriminate). Qed.
Lemma config_image_length c : cwf Cfg.codec c -> length (cenc Cfg.codec c) = 275%nat.
Proof. intros. rewrite enc_length by done. apply sizeof_Configuration. Qed.

(** [config_image] is injective on configurations and every 275-byte image is
    one: memory blocks and configurations are in bijection. *)
(** The packed layout of the configuration loses nothing.  Every well-formed
    configuration occupies exactly 275 bytes, is read back unchanged from those
    bytes, and every 275-byte block (whatever the host tool or the EEPROM holds)
    is the image of one well-formed configuration. *)
Theorem config_codec_bijective :
  csize Cfg.codec = 275%nat /\
  (forall c, cwf Cfg.codec c ->
     length (cenc Cfg.codec c) = 275%nat /\ bytes (cenc Cfg.codec c) /\
     cdec Cfg.codec (cenc Cfg.codec c) = c) /\
  (forall l, bytes l -> length l = 275%nat ->
     cwf Cfg.codec (cdec Cfg.codec l) /\ cenc Cfg.codec (cdec Cfg.codec l) = l).
Proof.
  split; [apply sizeof_Configuration|]. split.
  - intros c Hc. split; [by apply config_image_length|]. split; [by apply enc_bytes|].
    by apply dec_enc.
  - intros l Hl Hn. rewrite <- sizeof_Configuration in Hn.
    split; [by apply dec_wf|by apply enc_dec].
Qed.
