(* ===== verification/Controller.v ===== *)
(** * Controller state: [controller/controller.h], [controller/guitar_includes.c]

    [Controller_t] is the state every input driver fills and every report
    generator reads.  Several functions access it through
    [ControllerCombined_t], which overlays arrays on the trigger and stick
    fields; the overlay is modelled by [triggers], [sticks] and their setters. *)

From Stdlib Require Import ZArith Lia.
From stdpp Require Import base tactics numbers list.
From S2P Require Import Prelude Packed Defs.
Open Scope Z_scope.

Record Controller_t : Set := mkController {
  buttons : Z; lt : Z; rt : Z; l_x : Z; l_y : Z; r_x : Z; r_y : Z
}.
#[global] Instance etaController : Settable Controller_t := fun r =>
  {| buttons := buttons r; lt := lt r; rt := rt r; l_x := l_x r; l_y := l_y r;
     r_x := r_x r; r_y := r_y r |}.
#[global] Instance Controller_eq_dec : EqDecision Controller_t.
Proof. solve_decision. Defined.

(** The object's bytes: all fields are naturally aligned, so there is no
    padding. *)
Definition Controller_codec : codec Controller_t :=
  cstruct
    (fun r => (buttons r, lt r, rt r, l_x r, l_y r, r_x r, r_y r))
    (fun '(a, b, c, d, e, f, g) => mkController a b c d e f g)
    (cu16 ⊗ cu8 ⊗ cu8 ⊗ cs16 ⊗ cs16 ⊗ cs16 ⊗ cs16)%codec.
#[global] Instance Controller_codec_ok : CodecOk Controller_codec.
Proof. unfold Controller_codec. apply _. Qed.
Definition Controller_wf : Controller_t -> Prop := cwf Controller_codec.
Definition zero_controller : Controller_t := mkController 0 0 0 0 0 0 0.

(** The [ControllerCombined_t] overlay. *)
Definition triggers (c : Controller_t) : list Z := [lt c; rt c].
Definition sticks (c : Controller_t) : list Z := [l_x c; l_y c; r_x c; r_y c].
Definition set_trigger (i v : Z) (c : Controller_t) : Controller_t :=
  if i =? 0 then c <| lt := v |> else if i =? 1 then c <| rt := v |> else c.
Definition set_stick (i v : Z) (c : Controller_t) : Controller_t :=
  if i =? 0 then c <| l_x := v |> else if i =? 1 then c <| l_y := v |>
  else if i =? 2 then c <| r_x := v |> else if i =? 3 then c <| r_y := v |> else c.

Lemma Controller_wf_iff c :
  Controller_wf c <->
  in_u 16 (buttons c) /\ in_u 8 (lt c) /\ in_u 8 (rt c) /\
  in_s 16 (l_x c) /\ in_s 16 (l_y c) /\ in_s 16 (r_x c) /\ in_s 16 (r_y c).
Proof. unfold Controller_wf. simpl. tauto. Qed.
Lemma set_trigger_wf i v c : in_u 8 v -> Controller_wf c -> Controller_wf (set_trigger i v c).
Proof.
  rewrite !Controller_wf_iff. intros. unfold set_trigger.
  destruct (i =? 0), (i =? 1); cbn; tauto.
Qed.
Lemma set_stick_wf i v c : in_s 16 v -> Controller_wf c -> Controller_wf (set_stick i v c).
Proof.
  rewrite !Controller_wf_iff. intros. unfold set_stick.
  destruct (i =? 0), (i =? 1), (i =? 2), (i =? 3); cbn; tauto.
Qed.
Lemma set_buttons_wf v c : in_u 16 v -> Controller_wf c -> Controller_wf (c <| buttons := v |>).
Proof. rewrite !Controller_wf_iff. cbn. tauto. Qed.

(** Bits of a button word after the bit macros; [bit_write] and [bit_set] are
    assigned to 16 bits. *)
Lemma testbit_u16 z k : 0 <= k < 16 -> Z.testbit (u16 z) k = Z.testbit z k.
Proof. intros. unfold uwrap. apply Z.mod_pow2_bits_low. lia. Qed.
Lemma testbit_write v b m k : 0 <= m < 16 -> 0 <= k < 16 ->
  Z.testbit (u16 (bit_write v b m)) k = if k =? m then v else Z.testbit b k.
Proof. intros. by rewrite testbit_u16, testbit_bit_write by lia. Qed.
Lemma testbit_set b m k : 0 <= m < 16 -> 0 <= k < 16 ->
  Z.testbit (u16 (bit_set b m)) k = Z.testbit b k || (k =? m).
Proof. intros. by rewrite testbit_u16, testbit_bit_set by lia. Qed.
Lemma testbit_clear b m k : 0 <= m < 16 -> 0 <= k < 16 ->
  Z.testbit (u16 (bit_clear b m)) k = Z.testbit b k && negb (k =? m).
Proof. intros. by rewrite testbit_u16, testbit_bit_clear by lia. Qed.

(** ** controller/guitar_includes.c *)
Definition DRUM : Z := 1.
Definition GUITAR : Z := 2.
(** The table [types], indexed by subtype. *)
Definition types : list Z :=
  foldr (fun '(s, v) t => aset (SubType_val s) v t)
    (replicate (Z.to_nat (MIDI_ROCK_BAND_DRUMS + 1)) 0)
    [(PS3_GUITAR_HERO_DRUMS, DRUM); (PS3_ROCK_BAND_DRUMS, DRUM);
     (WII_ROCK_BAND_DRUMS, DRUM); (XINPUT_ROCK_BAND_DRUMS, DRUM);
     (XINPUT_GUITAR_HERO_DRUMS, DRUM); (MIDI_ROCK_BAND_DRUMS, DRUM);
     (MIDI_GUITAR_HERO_DRUMS, DRUM); (PS3_GUITAR_HERO_GUITAR, GUITAR);
     (PS3_ROCK_BAND_GUITAR, GUITAR); (WII_ROCK_BAND_GUITAR, GUITAR);
     (XINPUT_ROCK_BAND_GUITAR, GUITAR); (XINPUT_GUITAR_HERO_GUITAR, GUITAR);
     (XINPUT_LIVE_GUITAR, GUITAR); (MIDI_ROCK_BAND_GUITAR, GUITAR);
     (MIDI_GUITAR_HERO_GUITAR, GUITAR); (MIDI_LIVE_GUITAR, GUITAR);
     (KEYBOARD_GUITAR_HERO_DRUMS, DRUM); (KEYBOARD_GUITAR_HERO_GUITAR, GUITAR);
     (KEYBOARD_ROCK_BAND_DRUMS, DRUM); (KEYBOARD_ROCK_BAND_GUITAR, GUITAR);
     (KEYBOARD_LIVE_GUITAR, GUITAR)].
(** Subtypes past the table read whatever follows it; the model reads 0. *)
Definition isDrum (subtype : Z) : bool := aget 0 types subtype =? DRUM.
Definition isGuitar (subtype : Z) : bool := aget 0 types subtype =? GUITAR.

Lemma isDrum_isGuitar s : isDrum s = true -> isGuitar s = false.
Proof. unfold isDrum, isGuitar. rewrite Z.eqb_eq. by intros ->. Qed.
