(* ===== verification/Eeprom.v ===== *)
(** * Persistent configuration: [avr/lib/eeprom/eeprom.c], [pico/lib/eeprom/eeprom.c]

    [Class ConfigStore] is what the rest of the firmware sees of either driver;
    [ConfigStoreOk] what it may rely on.  [AvrEeprom] implements it on a
    byte-addressed EEPROM, [PicoFlash] on a flash sector with a RAM copy. *)

From Stdlib Require Import ZArith Lia.
From stdpp Require Import base tactics numbers list.
From S2P Require Import Prelude Packed Defs Config Controller.
Open Scope Z_scope.

Definition version (config : Configuration_t) : Z := Main.version (Cfg.main config).
Definition subType (config : Configuration_t) : Z := Main.subType (Cfg.main config).
Definition signature (config : Configuration_t) : Z := Main.signature (Cfg.main config).
(** The subtypes that older versions stored for guitars and drums. *)
Definition real_subType (t : Z) : bool :=
  (t =? REAL_GUITAR_SUBTYPE) || (t =? REAL_DRUM_SUBTYPE).
(** A configuration the current firmware wrote. *)
Definition current (config : Configuration_t) : Prop :=
  cwf Cfg.codec config /\ signature config = ARDWIINO_DEVICE_TYPE /\
  CONFIG_VERSION <= version config /\ real_subType (subType config) = false.

(** ** The interface (shared/lib/eeprom/eeprom.h) *)
Class ConfigStore (S : Type) := {
  loadConfig : M S Configuration_t;
  resetConfig : M S unit;
  writeConfigBlock : Z -> list Z -> M S unit;
  readConfigBlock : Z -> Z -> M S (list Z)
}.

(** An upload: consecutive blocks, each at the offset where the last ended. *)
Fixpoint write_chunks {S} `{ConfigStore S} (off : Z) (chunks : list (list Z)) : M S unit :=
  match chunks with
  | [] => mret tt
  | c :: cs => writeConfigBlock off c ;; write_chunks (off + Z.of_nat (length c)) cs
  end.
Definition sizeof_cfg : nat := csize Cfg.codec.
(** The same with stray bytes behind each block, which the next block overwrites. *)
Fixpoint write_padded {S} `{ConfigStore S} (off : Z) (blocks : list (list Z * list Z)) : M S unit :=
  match blocks with
  | [] => mret tt
  | (c, pad) :: bs =>
      writeConfigBlock off (c ++ pad) ;; write_padded (off + Z.of_nat (length c)) bs
  end.
(** Stray bytes never exceed a radio packet. *)
Definition SPARE : nat := 32.
Definition padded_ok (blocks : list (list Z * list Z)) : Prop :=
  Forall (fun '(c, pad) => bytes c /\ bytes pad /\ (length pad <= SPARE)%nat) blocks.
Abbreviation payload blocks := (concat (fst <$> blocks)).

Class ConfigStoreOk (S : Type) `{ConfigStore S} (store_ok : S -> Prop) : Prop := {
  (** A load yields a well-formed, current-version configuration and leaves the
      store in a state from which loading again changes nothing. *)
  load_wf s : store_ok s -> cwf Cfg.codec (loadConfig s).1;
  load_version s : store_ok s -> CONFIG_VERSION <= version (loadConfig s).1;
  load_signature s : store_ok s ->
    signature (loadConfig s).1 = ARDWIINO_DEVICE_TYPE;
  load_ok s : store_ok s -> store_ok (loadConfig s).2;
  load_idem s : store_ok s -> loadConfig (loadConfig s).2 = loadConfig s;
  (** A complete upload, in blocks of any sizes, is what is read back, whatever
      stray bytes the blocks carry. *)
  upload_padded s blocks : store_ok s -> padded_ok blocks ->
    length (payload blocks) = sizeof_cfg ->
    let s' := (write_padded 0 blocks s).2 in
    store_ok s' /\ (readConfigBlock 0 (Z.of_nat sizeof_cfg) s').1 = payload blocks;
  (** Any part of the configuration can be read. *)
  read_slice s off len : store_ok s -> (off + len <= sizeof_cfg)%nat ->
    readConfigBlock (Z.of_nat off) (Z.of_nat len) s =
      (slice off len (readConfigBlock 0 (Z.of_nat sizeof_cfg) s).1, s);
  (** A current configuration is loaded as it was stored. *)
  load_current s c : store_ok s -> current c ->
    (readConfigBlock 0 (Z.of_nat sizeof_cfg) s).1 = cenc Cfg.codec c -> (loadConfig s).1 = c;
  reset_read s : store_ok s ->
    let s' := (resetConfig s).2 in
    store_ok s' /\
    (readConfigBlock 0 (Z.of_nat sizeof_cfg) s').1 = cenc Cfg.codec default_config
}.

Lemma write_chunks_padded {S} `{ConfigStore S} off chunks s :
  write_chunks off chunks s = write_padded off ((fun c => (c, [])) <$> chunks) s.
Proof.
  revert off s. induction chunks as [|c cs IH]; intros off s; [done|].
  cbn [write_chunks write_padded fmap list_fmap]. by rewrite !mbind_run, app_nil_r, IH.
Qed.
Lemma chunks_padded_ok chunks : bytes (concat chunks) -> padded_ok ((fun c => (c, [])) <$> chunks).
Proof.
  intros Hb. unfold padded_ok. rewrite Forall_fmap. induction chunks as [|c cs IH]; [done|].
  cbn [concat] in Hb. apply Forall_app in Hb as [Hc Hcs]. constructor; [|by apply IH].
  split; [done|]. split; [constructor|cbn; lia].
Qed.
Lemma upload_read {S} `{ConfigStoreOk S store_ok} s chunks :
  store_ok s -> bytes (concat chunks) -> length (concat chunks) = sizeof_cfg ->
  let s' := (write_chunks 0 chunks s).2 in
  store_ok s' /\ (readConfigBlock 0 (Z.of_nat sizeof_cfg) s').1 = concat chunks.
Proof.
  intros Hs Hb Hl. rewrite write_chunks_padded.
  assert (payload ((fun c : list Z => (c, [] : list Z)) <$> chunks) = concat chunks) as E.
  { f_equal. rewrite <- list_fmap_compose. apply list_fmap_id. }
  rewrite <- E. apply upload_padded; [done|by apply chunks_padded_ok|by rewrite E].
Qed.

(** What such an upload does to the memory it is written to. *)
Fixpoint splices (off : nat) (blocks : list (list Z * list Z)) (l : list Z) : list Z :=
  match blocks with
  | [] => l
  | (c, pad) :: bs => splices (off + length c) bs (splice off (c ++ pad) l)
  end.
Lemma splices_spec off blocks l :
  padded_ok blocks -> bytes l -> (off + length (payload blocks) + SPARE <= length l)%nat ->
  let l' := splices off blocks l in
  bytes l' /\ length l' = length l /\
  take (off + length (payload blocks)) l' = take off l ++ payload blocks.
Proof.
  intros Hb. revert off l. induction Hb as [|[c p] bs (Hc & Hp & Hlp) _ IH]; intros off l Hl Hn; cbv zeta.
  { cbn. by rewrite Nat.add_0_r, app_nil_r. }
  cbn [splices fmap list_fmap concat fst] in *. rewrite length_app in *.
  set (l1 := splice off (c ++ p) l).
  assert (length l1 = length l) as E1 by (unfold l1; rewrite length_splice; rewrite ?length_app; lia).
  destruct (IH (off + length c)%nat l1) as (I1 & I2 & I3).
  { apply splice_Forall; [by apply Forall_app|done]. }
  { lia. }
  split; [done|]. split; [by rewrite I2|]. rewrite Nat.add_assoc, I3. unfold l1.
  rewrite take_splice_padded by lia. by rewrite app_assoc.
Qed.

(** ** Steps the two migrations share *)
Definition flip_whammy (config : Configuration_t) : Configuration_t :=
  config <| Cfg.pins ::= fun p => p <| Pins.r_x ::= fun a =>
    a <| AnalogPin.inverted ::= cnot |> |> |>.
Definition set_subType (t : Z) (config : Configuration_t) : Configuration_t :=
  config <| Cfg.main ::= fun m => m <| Main.subType := t |> |>.
Definition set_version (v : Z) (config : Configuration_t) : Configuration_t :=
  config <| Cfg.main ::= fun m => m <| Main.version := v |> |>.
Definition set_orientation (o : Z) (config : Configuration_t) : Configuration_t :=
  config <| Cfg.axis ::= fun a => a <| Axis.mpu6050Orientation := o |> |>.
(** The [switch] on the old orientation values. *)
Definition migrate_orientation (config : Configuration_t) : Configuration_t :=
  let o := Axis.mpu6050Orientation (Cfg.axis config) in
  if (o =? NEGATIVE_X) || (o =? POSITIVE_X) then set_orientation GyroX config
  else if (o =? NEGATIVE_Y) || (o =? POSITIVE_Y) then set_orientation GyroY config
  else if (o =? NEGATIVE_Z) || (o =? POSITIVE_Z) then set_orientation GyroZ config
  else config.
Definition clear_combinedStrum (config : Configuration_t) : Configuration_t :=
  config <| Cfg.debounce ::= fun d => d <| Debounce.combinedStrum := 0 |> |>.

(** One [if (guard) { ... }] of [loadConfig], and their sequence. *)
Definition on (guard : Configuration_t -> bool) (f : Configuration_t -> Configuration_t)
  (config : Configuration_t) : Configuration_t :=
  if guard config then f config else config.
Definition older (v : Z) (config : Configuration_t) : bool := version config <? v.
Definition run_steps (steps : list (Configuration_t -> Configuration_t))
  (config : Configuration_t) : Configuration_t :=
  foldl (fun c step => step c) config steps.

Lemma run_steps_proj {B} (p : Configuration_t -> B) steps c :
  Forall (fun f => forall c, p (f c) = p c) steps -> p (run_steps steps c) = p c.
Proof.
  unfold run_steps. intros H. revert c. induction H as [|f l Hf H IH]; intros c; [done|].
  simpl. by rewrite IH, Hf.
Qed.
Lemma run_steps_inv (P : Configuration_t -> Prop) steps c :
  Forall (fun f => forall c, P c -> P (f c)) steps -> P c -> P (run_steps steps c).
Proof.
  unfold run_steps. intros H. revert c. induction H as [|f l Hf H IH]; intros c Hc; [done|].
  simpl. auto.
Qed.
Lemma run_steps_id steps c :
  Forall (fun f => f c = c) steps -> run_steps steps c = c.
Proof. unfold run_steps. induction 1 as [|f l Hf H IH]; [done|]. simpl. by rewrite Hf. Qed.
Lemma on_proj {B} (p : Configuration_t -> B) g f :
  (forall c, p (f c) = p c) -> forall c, p (on g f c) = p c.
Proof. intros H c. unfold on. by destruct (g c). Qed.
Lemma on_inv (P : Configuration_t -> Prop) g f :
  (forall c, g c = true -> P c -> P (f c)) -> forall c, P c -> P (on g f c).
Proof. intros H c Hc. unfold on. destruct (g c) eqn:E; auto. Qed.
Lemma on_false g f c : g c = false -> on g f c = c.
Proof. intros H. unfold on. by rewrite H. Qed.
Lemma on_true g f c : g c = true -> on g f c = f c.
Proof. intros H. unfold on. by rewrite H. Qed.
Lemma older_false v c : v <= version c -> older v c = false.
Proof. intros. unfold older. apply Z.ltb_ge. lia. Qed.

(** Every migration step keeps the configuration well-formed. *)
Lemma cnot_byte b : in_u 8 (cnot b).
Proof. unfold cnot. destruct (b =? 0); done. Qed.
Lemma migrate_orientation_cases (P : Configuration_t -> Prop) c :
  P c -> (forall o, in_u 8 o -> P (set_orientation o c)) -> P (migrate_orientation c).
Proof.
  intros Hc Ho. unfold migrate_orientation. cbv zeta.
  repeat case_match; auto; apply Ho; vm_compute; split; congruence.
Qed.
Lemma Cfg_wf_iff c :
  cwf Cfg.codec c <->
  cwf Main.codec (Cfg.main c) /\ cwf Pins.codec (Cfg.pins c) /\
  cwf Axis.codec (Cfg.axis c) /\ cwf Keys.codec (Cfg.keys c) /\
  cwf (carray Led.codec 22) (Cfg.leds c) /\ cwf Midi.codec (Cfg.midi c) /\
  cwf RF.codec (Cfg.rf c) /\ cwf cu8 (Cfg.pinsSP c) /\
  cwf AxisScale.codec (Cfg.axisScale c) /\ cwf Debounce.codec (Cfg.debounce c).
Proof.
  change (cwf Cfg.codec c) with
    (((((((((cwf Main.codec (Cfg.main c) /\ cwf Pins.codec (Cfg.pins c)) /\
    cwf Axis.codec (Cfg.axis c)) /\ cwf Keys.codec (Cfg.keys c)) /\
    cwf (carray Led.codec 22) (Cfg.leds c)) /\ cwf Midi.codec (Cfg.midi c)) /\
    cwf RF.codec (Cfg.rf c)) /\ cwf cu8 (Cfg.pinsSP c)) /\
    cwf AxisScale.codec (Cfg.axisScale c)) /\ cwf Debounce.codec (Cfg.debounce c)).
  tauto.
Qed.
#[local] Ltac cfg_wf :=
  rewrite !Cfg_wf_iff;
  intros (?&?&?&?&?&?&?&?&?&?); repeat match goal with |- _ /\ _ => split end; try done.
Lemma flip_whammy_wf c : cwf Cfg.codec c -> cwf Cfg.codec (flip_whammy c).
Proof.
  cfg_wf. destruct c as [? []]. simpl in *. intuition. apply cnot_byte.
Qed.
Lemma set_main_wf f c : (forall m, cwf Main.codec m -> cwf Main.codec (f m)) ->
  cwf Cfg.codec c -> cwf Cfg.codec (c <| Cfg.main ::= f |>).
Proof. intros Hf. cfg_wf. by apply Hf. Qed.
Lemma set_subType_wf t c : in_u 8 t -> cwf Cfg.codec c -> cwf Cfg.codec (set_subType t c).
Proof. intros ?. apply set_main_wf. intros []. simpl. tauto. Qed.
Lemma set_version_wf v c : in_u 32 v -> cwf Cfg.codec c -> cwf Cfg.codec (set_version v c).
Proof. intros ?. apply set_main_wf. intros []. simpl. tauto. Qed.
Lemma set_pollRate_wf v c : in_u 8 v -> cwf Cfg.codec c ->
  cwf Cfg.codec (c <| Cfg.main ::= fun m => m <| Main.pollRate := v |> |>).
Proof. intros ?. apply set_main_wf. intros []. simpl. tauto. Qed.
Lemma set_orientation_wf o c :
  in_u 8 o -> cwf Cfg.codec c -> cwf Cfg.codec (set_orientation o c).
Proof. intros ?. cfg_wf. destruct c as [? ? []]. simpl in *. tauto. Qed.
Lemma clear_combinedStrum_wf c : cwf Cfg.codec c -> cwf Cfg.codec (clear_combinedStrum c).
Proof. cfg_wf. destruct c as [? ? ? ? ? ? ? ? ? []]. simpl in *. intuition. done. Qed.
Lemma set_midi_wf v c : cwf Midi.codec v -> cwf Cfg.codec c ->
  cwf Cfg.codec (c <| Cfg.midi := v |>).
Proof. intros ?. by cfg_wf. Qed.
Lemma set_leds_wf v c : cwf (carray Led.codec 22) v -> cwf Cfg.codec c ->
  cwf Cfg.codec (c <| Cfg.leds := v |>).
Proof. intros ?. by cfg_wf. Qed.
Lemma set_debounce_wf v c : cwf Debounce.codec v -> cwf Cfg.codec c ->
  cwf Cfg.codec (c <| Cfg.debounce := v |>).
Proof. intros ?. by cfg_wf. Qed.
Lemma set_axisScale_wf v c : cwf AxisScale.codec v -> cwf Cfg.codec c ->
  cwf Cfg.codec (c <| Cfg.axisScale := v |>).
Proof. intros ?. by cfg_wf. Qed.
Lemma clear_rfIn_wf c : cwf Cfg.codec c ->
  cwf Cfg.codec (c <| Cfg.rf ::= fun r => r <| RF.rfInEnabled := 0 |> |>).
Proof. cfg_wf. destruct c as [? ? ? ? ? ? []]. simpl in *. intuition. done. Qed.
Lemma migrate_orientation_wf c : cwf Cfg.codec c -> cwf Cfg.codec (migrate_orientation c).
Proof. intros. apply migrate_orientation_cases; auto using set_orientation_wf. Qed.
Lemma default_parts_wf :
  cwf (carray Led.codec 22) (Cfg.leds default_config) /\
  cwf Midi.codec (Cfg.midi default_config) /\
  cwf AxisScale.codec (Cfg.axisScale default_config) /\
  cwf Debounce.codec (Cfg.debounce default_config).
Proof. generalize default_config_wf. rewrite Cfg_wf_iff. tauto. Qed.
Lemma reset_default_wf : cwf Cfg.codec (set_version 0 default_config).
Proof. apply set_version_wf; [done|apply default_config_wf]. Qed.
#[local] Ltac each_step :=
  repeat (apply Forall_cons; split; [apply on_inv; intros x _ Hx|]); [..|constructor].

Lemma run_steps_cons f l c : run_steps (f :: l) c = run_steps l (f c).
Proof. reflexivity. Qed.
Ltac proj_steps :=
  repeat (apply Forall_cons; split;
    [apply on_proj; let x := fresh in intros x;
     (by destruct x as [[]]) || by apply migrate_orientation_cases|]); constructor.
Lemma signature_set_version v c : signature (set_version v c) = signature c.
Proof. by destruct c as [[]]. Qed.
Lemma subType_set_version v c : subType (set_version v c) = subType c.
Proof. by destruct c as [[]]. Qed.
Lemma version_set_version v c : version (set_version v c) = v.
Proof. by destruct c as [[]]. Qed.

(** ** The AVR driver *)
Module AvrEeprom.
Section Avr.
(** The linker's placement of the two [EEMEM] objects and the EEPROM's size. *)
Context (test config_pointer e2size : nat).
Hypothesis test_fits : (test + sizeof_cfg <= e2size)%nat.
Hypothesis config_fits : (config_pointer + sizeof_cfg <= e2size)%nat.

Definition eeprom : Type := list Z.
(** avr-libc: [eeprom_read_block], [eeprom_update_block], [eeprom_update_byte]. *)
Definition eeprom_read_block (addr len : nat) : M eeprom (list Z) :=
  mread (slice addr len).
Definition eeprom_update_block (src : list Z) (addr : nat) : M eeprom unit :=
  mmod (splice addr src).

(** The version-by-version upgrade of [loadConfig], after the block is read. *)
Definition upgrade_steps : list (Configuration_t -> Configuration_t) :=
  [on (fun c => negb (signature c =? ARDWIINO_DEVICE_TYPE))
     (fun _ => set_version 0 default_config);
   on (older 2) (fun c => c <| Cfg.midi := Cfg.midi default_config |>);
   on (fun c => subType c =? REAL_GUITAR_SUBTYPE) (set_subType XINPUT_GUITAR_HERO_GUITAR);
   on (fun c => subType c =? REAL_DRUM_SUBTYPE) (set_subType XINPUT_GUITAR_HERO_DRUMS);
   on (older 4) (fun c => c <| Cfg.leds := Cfg.leds default_config |>);
   on (older 6) (fun c => c <| Cfg.main ::= fun m => m <| Main.pollRate := POLL_RATE |> |>);
   on (older 7) (fun c => c <| Cfg.rf ::= fun r => r <| RF.rfInEnabled := 0 |> |>);
   on (fun c => older 9 c && isGuitar (subType c)) flip_whammy;
   on (older 13) (fun c => c <| Cfg.debounce := Cfg.debounce default_config |>
                             <| Cfg.axisScale := Cfg.axisScale default_config |>);
   on (older 14) migrate_orientation;
   on (older 15) clear_combinedStrum].
Definition upgrade : Configuration_t -> Configuration_t := run_steps upgrade_steps.

(** The last [if]: a migrated configuration is stamped and written back. *)
Definition stamp (config : Configuration_t) : M eeprom Configuration_t :=
  if version config <? CONFIG_VERSION
  then let config := set_version CONFIG_VERSION config in
       eeprom_update_block (cenc Cfg.codec config) config_pointer ;; mret config
  else mret config.
Definition load : M eeprom Configuration_t :=
  block ← eeprom_read_block config_pointer sizeof_cfg;
  let config := cdec Cfg.codec block in
  config ← (if version config <? 8
            then block ← eeprom_read_block test sizeof_cfg; mret (cdec Cfg.codec block)
            else mret config);
  stamp (upgrade config).
Definition writeByte (offset b : Z) : M eeprom unit :=
  mmod (splice (config_pointer + Z.to_nat offset) [b]).
Definition writeBlock (offset : Z) (data : list Z) : M eeprom unit :=
  eeprom_update_block data (config_pointer + Z.to_nat offset).
Definition readBlock (offset len : Z) : M eeprom (list Z) :=
  eeprom_read_block (config_pointer + Z.to_nat offset) (Z.to_nat len).
Definition reset : M eeprom unit :=
  eeprom_update_block (cenc Cfg.codec default_config) config_pointer.

Lemma default_sig : signature default_config = ARDWIINO_DEVICE_TYPE.
Proof. reflexivity. Qed.
Lemma upgrade_wf c : cwf Cfg.codec c -> cwf Cfg.codec (upgrade c).
Proof.
  destruct default_parts_wf as (?&?&?&?). apply run_steps_inv. each_step.
  - apply reset_default_wf.
  - by apply set_midi_wf.
  - by apply set_subType_wf.
  - by apply set_subType_wf.
  - by apply set_leds_wf.
  - by apply set_pollRate_wf.
  - by apply clear_rfIn_wf.
  - by apply flip_whammy_wf.
  - by apply set_axisScale_wf, set_debounce_wf.
  - by apply migrate_orientation_wf.
  - by apply clear_combinedStrum_wf.
Qed.
Lemma upgrade_signature c : signature (upgrade c) = ARDWIINO_DEVICE_TYPE.
Proof.
  unfold upgrade, upgrade_steps. rewrite run_steps_cons, run_steps_proj by proj_steps.
  unfold on. by destruct (Z.eqb_spec (signature c) ARDWIINO_DEVICE_TYPE).
Qed.
Lemma upgrade_version c :
  signature c = ARDWIINO_DEVICE_TYPE -> version (upgrade c) = version c.
Proof.
  intros H. unfold upgrade, upgrade_steps. rewrite run_steps_cons, on_false.
  - apply run_steps_proj. proj_steps.
  - by rewrite H.
Qed.
Lemma upgrade_subType c : real_subType (subType (upgrade c)) = false.
Proof.
  unfold upgrade, upgrade_steps. do 4 rewrite run_steps_cons.
  rewrite run_steps_proj by proj_steps.
  match goal with |- real_subType (subType (on _ _ (on _ _ ?x))) = _ => generalize x end.
  intros x. unfold real_subType, on. cbv beta.
  destruct (Z.eqb_spec (subType x) REAL_GUITAR_SUBTYPE); [destruct x as [[]]; reflexivity|].
  destruct (Z.eqb_spec (subType x) REAL_DRUM_SUBTYPE); [by destruct x as [[]]|].
  apply orb_false_iff. by rewrite !Z.eqb_neq.
Qed.
Lemma upgrade_garbage c :
  signature c <> ARDWIINO_DEVICE_TYPE ->
  upgrade c = set_version 0 (set_orientation GyroZ (flip_whammy default_config)).
Proof.
  intros H. unfold upgrade, upgrade_steps. rewrite run_steps_cons, on_true.
  - vm_compute. reflexivity.
  - cbv beta. by rewrite (proj2 (Z.eqb_neq _ _) H).
Qed.
Lemma upgrade_current c :
  signature c = ARDWIINO_DEVICE_TYPE -> CONFIG_VERSION <= version c ->
  real_subType (subType c) = false -> upgrade c = c.
Proof.
  intros Hs Hv Ht. apply orb_false_iff in Ht as [Ht1 Ht2]. unfold CONFIG_VERSION in Hv.
  apply run_steps_id. unfold upgrade_steps.
  repeat (apply Forall_cons; split; [apply on_false|]); try constructor;
    rewrite ?Hs, ?older_false by lia; done.
Qed.

Definition eeprom_ok (e : eeprom) : Prop := bytes e /\ length e = e2size.
#[local] Instance AvrStore : ConfigStore eeprom :=
  {| loadConfig := load; resetConfig := reset;
     writeConfigBlock := writeBlock; readConfigBlock := readBlock |}.

(** The configuration [load] settles on, before the version is stamped. *)
Definition chosen (e : eeprom) : Configuration_t :=
  let config := cdec Cfg.codec (slice config_pointer sizeof_cfg e) in
  upgrade (if version config <? 8 then cdec Cfg.codec (slice test sizeof_cfg e) else config).
Lemma fallback_run (b : bool) (f : list Z -> Configuration_t) a n c e :
  (if b then block ← eeprom_read_block a n; mret (f block) else mret c) e
  = (if b then f (slice a n e) else c, e).
Proof. by destruct b. Qed.
Lemma stamp_run c e :
  stamp c e =
    if version c <? CONFIG_VERSION
    then (set_version CONFIG_VERSION c,
          splice config_pointer (cenc Cfg.codec (set_version CONFIG_VERSION c)) e)
    else (c, e).
Proof. unfold stamp. by destruct (version c <? CONFIG_VERSION). Qed.
Lemma load_eq e :
  load e =
    if version (chosen e) <? CONFIG_VERSION
    then let c := set_version CONFIG_VERSION (chosen e) in
         (c, splice config_pointer (cenc Cfg.codec c) e)
    else (chosen e, e).
Proof.
  unfold load, chosen. rewrite !mbind_run. cbn [fst snd eeprom_read_block mread].
  rewrite fallback_run, stamp_run. cbn [fst snd]. done.
Qed.
Lemma slice_decodes a e : eeprom_ok e -> (a + sizeof_cfg <= e2size)%nat ->
  cwf Cfg.codec (cdec Cfg.codec (slice a sizeof_cfg e)).
Proof.
  intros [Hb Hl] Ha. apply dec_wf; [by apply slice_Forall|].
  apply length_slice. by rewrite Hl.
Qed.
Lemma chosen_wf e : eeprom_ok e -> cwf Cfg.codec (chosen e).
Proof. intros. apply upgrade_wf. case_match; by apply slice_decodes. Qed.
Lemma chosen_signature e : signature (chosen e) = ARDWIINO_DEVICE_TYPE.
Proof. apply upgrade_signature. Qed.
Lemma stamped_wf e :
  eeprom_ok e -> cwf Cfg.codec (set_version CONFIG_VERSION (chosen e)).
Proof. intros. apply set_version_wf; [done|by apply chosen_wf]. Qed.
Lemma update_ok src a e : eeprom_ok e -> bytes src -> (a + length src <= e2size)%nat ->
  eeprom_ok (splice a src e).
Proof.
  intros [Hb Hl] Hs Ha. split; [by apply splice_Forall|]. rewrite length_splice; lia.
Qed.
Lemma update_config_ok c e : eeprom_ok e -> cwf Cfg.codec c ->
  eeprom_ok (splice config_pointer (cenc Cfg.codec c) e) /\
  slice config_pointer sizeof_cfg (splice config_pointer (cenc Cfg.codec c) e)
    = cenc Cfg.codec c.
Proof.
  intros He Hc. assert (length (cenc Cfg.codec c) = sizeof_cfg) as Hn by by apply enc_length.
  split; [apply update_ok; rewrite ?Hn; auto; by apply enc_bytes|].
  rewrite <- Hn. apply slice_splice. destruct He. lia.
Qed.
Lemma load_stamped e : eeprom_ok e ->
  load (splice config_pointer
          (cenc Cfg.codec (set_version CONFIG_VERSION (chosen e))) e)
  = (set_version CONFIG_VERSION (chosen e),
     splice config_pointer (cenc Cfg.codec (set_version CONFIG_VERSION (chosen e))) e).
Proof.
  intros He. pose proof (stamped_wf e He) as Hw.
  set (c := set_version CONFIG_VERSION (chosen e)) in *.
  destruct (update_config_ok c e He Hw) as [Ho Hs].
  assert (signature c = ARDWIINO_DEVICE_TYPE) as Hsig.
  { unfold c. rewrite signature_set_version. apply chosen_signature. }
  assert (real_subType (subType c) = false) as Ht.
  { unfold c. rewrite subType_set_version. apply upgrade_subType. }
  assert (version c = CONFIG_VERSION) as Hv by apply version_set_version.
  clearbody c. rewrite load_eq. unfold chosen. rewrite Hs, dec_enc by done. rewrite Hv.
  change (CONFIG_VERSION <? 8) with false. cbv iota.
  rewrite upgrade_current by (done || by rewrite Hv). by rewrite Hv.
Qed.
Lemma load_twice e : eeprom_ok e -> load (load e).2 = load e.
Proof.
  intros He. rewrite (load_eq e). destruct (version (chosen e) <? CONFIG_VERSION) eqn:E.
  - by apply load_stamped.
  - simpl. by rewrite load_eq, E.
Qed.

Lemma write_padded_splices off blocks e :
  (write_padded (Z.of_nat off) blocks e).2 = splices (config_pointer + off) blocks e.
Proof.
  revert off e. induction blocks as [|[c p] bs IH]; intros off e; [done|].
  cbn [write_padded splices]. rewrite mbind_run, <- Nat2Z.inj_add, IH, <- Nat.add_assoc.
  unfold writeConfigBlock; cbn. by rewrite Nat2Z.id.
Qed.

Lemma load_subType e : real_subType (subType (load e).1) = false.
Proof.
  rewrite load_eq. destruct (version (chosen e) <? CONFIG_VERSION); cbn [fst];
    rewrite ?subType_set_version; apply upgrade_subType.
Qed.

Lemma load_facts e : eeprom_ok e -> current (load e).1 /\ eeprom_ok (load e).2.
Proof.
  intros He. unfold current. rewrite load_subType. rewrite load_eq.
  destruct (version (chosen e) <? CONFIG_VERSION) eqn:E; cbv zeta; cbn [fst snd].
  - rewrite signature_set_version, version_set_version.
    split; [split; [exact (stamped_wf e He)|split; [exact (chosen_signature e)|done]]|].
    apply update_config_ok; [exact He|exact (stamped_wf e He)].
  - split; [split; [exact (chosen_wf e He)|split; [exact (chosen_signature e)|]]|exact He].
    apply Z.ltb_ge in E. by split.
Qed.

(** No board's EEPROM (1024 bytes or more) ends right behind the configuration. *)
Hypothesis room : (config_pointer + sizeof_cfg + SPARE <= e2size)%nat.
#[export] Instance AvrStoreOk : ConfigStoreOk eeprom eeprom_ok.
Proof.
  split; intros e;
    try change (loadConfig e) with (load e); try change (resetConfig e) with (reset e).
  - intros He. apply (load_facts e He).
  - intros He. apply (load_facts e He).
  - intros He. apply (load_facts e He).
  - intros He. apply (load_facts e He).
  - intros He. change (loadConfig (load e).2) with (load (load e).2). exact (load_twice e He).
  - intros blocks [He Hle] Hb Hn. cbv zeta. rewrite (write_padded_splices 0), Nat.add_0_r.
    destruct (splices_spec config_pointer blocks e Hb He) as (I1 & I2 & I3); [rewrite Hn, Hle; exact room|].
    split; [by split; [|rewrite I2]|]. cbn [readConfigBlock AvrStore].
    unfold readBlock, eeprom_read_block, mread. cbn [fst]. rewrite Nat.add_0_r, Nat2Z.id, <- Hn.
    unfold slice. rewrite firstn_skipn_comm, I3. apply drop_app_length'. rewrite length_take. lia.
  - intros off len He Hl. cbn [readConfigBlock AvrStore].
    unfold readBlock, eeprom_read_block, mread. cbn [fst].
    rewrite Nat.add_0_r, !Nat2Z.id. by rewrite slice_slice by lia.
  - intros c He (Hw & Hs & Hv & Ht). cbn [readConfigBlock AvrStore].
    unfold readBlock, eeprom_read_block, mread. cbn [fst].
    rewrite Nat.add_0_r, Nat2Z.id. intros Hr.
    rewrite load_eq. unfold chosen. rewrite Hr, dec_enc by done. unfold CONFIG_VERSION in Hv.
    replace (version c <? 8) with false by (symmetry; apply Z.ltb_ge; lia).
    rewrite upgrade_current by done.
    replace (version c <? _) with false by (symmetry; apply Z.ltb_ge; done). reflexivity.
  - intros He. unfold reset, eeprom_update_block, mmod. cbn [snd].
    destruct (update_config_ok default_config e He default_config_wf) as [Ho Hs].
    split; [done|]. cbn [readConfigBlock AvrStore]. unfold readBlock, eeprom_read_block, mread. cbn [fst].
    by rewrite Nat.add_0_r, Nat2Z.id.
Qed.
End Avr.
End AvrEeprom.

(** ** The RP2040 driver *)
Module PicoFlash.
Definition FLASH_SECTOR_SIZE : nat := 4096.
(** [newConfig] is [sizeof] rounded up to whole flash pages. *)
Definition newConfig_size : nat :=
  Z.to_nat (Z.shiftl (Z.shiftr (Z.of_nat sizeof_cfg) 8 + 1) 8).
Record flash_state : Type := mkFlash { sector : list Z; newConfig : list Z }.
#[global] Instance etaFlash : Settable flash_state := fun r =>
  {| sector := sector r; newConfig := newConfig r |}.
(** The pico-sdk's flash operations at [FLASH_TARGET_OFFSET]: erasing sets
    every bit of the sector, programming can only clear bits. *)
Definition flash_range_erase : M flash_state unit :=
  mmod (fun s => s <| sector := replicate FLASH_SECTOR_SIZE 0xff |>).
Definition flash_range_program (data : list Z) : M flash_state unit :=
  mmod (fun s => s <| sector :=
    zip_with Z.land (take (length data) (sector s)) data ++ drop (length data) (sector s) |>).

Definition writeBlock (offset : Z) (data : list Z) : M flash_state unit :=
  mmod (fun s => s <| newConfig ::= splice (Z.to_nat offset) data |>) ;;
  mwhen (offset + Z.of_nat (length data) >=? Z.of_nat sizeof_cfg)
    (flash_range_erase ;;
     nc ← mread newConfig; flash_range_program nc).
Definition readBlock (offset len : Z) : M flash_state (list Z) :=
  mread (fun s => slice (Z.to_nat offset) (Z.to_nat len) (sector s)).

Definition upgrade_steps : list (Configuration_t -> Configuration_t) :=
  [on (fun c => negb (signature c =? ARDWIINO_DEVICE_TYPE))
     (fun _ => set_version 0 default_config);
   on (fun c => older 9 c && isGuitar (subType c)) flip_whammy;
   on (older 12) (fun c => c <| Cfg.axisScale := Cfg.axisScale default_config |>);
   on (older 13) (fun c => c <| Cfg.debounce := Cfg.debounce default_config |>);
   on (older 14) migrate_orientation;
   on (older 15) clear_combinedStrum].
Definition upgrade : Configuration_t -> Configuration_t := run_steps upgrade_steps.
Definition load : M flash_state Configuration_t :=
  block ← readBlock 0 (Z.of_nat sizeof_cfg);
  let config := upgrade (cdec Cfg.codec block) in
  config ← (if version config <? CONFIG_VERSION
            then let config := set_version CONFIG_VERSION config in
                 writeBlock 0 (cenc Cfg.codec config) ;; mret config
            else mret config);
  mmod (fun s => s <| newConfig ::= splice 0 (cenc Cfg.codec config) |>) ;;
  mret config.
Definition reset : M flash_state unit := writeBlock 0 (cenc Cfg.codec default_config).

Lemma pico_upgrade_wf c : cwf Cfg.codec c -> cwf Cfg.codec (upgrade c).
Proof.
  destruct default_parts_wf as (?&?&?&?). apply run_steps_inv. each_step.
  - apply reset_default_wf.
  - by apply flip_whammy_wf.
  - by apply set_axisScale_wf.
  - by apply set_debounce_wf.
  - by apply migrate_orientation_wf.
  - by apply clear_combinedStrum_wf.
Qed.
Lemma pico_upgrade_signature c : signature (upgrade c) = ARDWIINO_DEVICE_TYPE.
Proof.
  unfold upgrade, upgrade_steps. rewrite run_steps_cons, run_steps_proj by proj_steps.
  unfold on. by destruct (Z.eqb_spec (signature c) ARDWIINO_DEVICE_TYPE).
Qed.
Lemma pico_upgrade_garbage c :
  signature c <> ARDWIINO_DEVICE_TYPE ->
  upgrade c = set_version 0 (set_orientation GyroZ (flip_whammy default_config)).
Proof.
  intros H. unfold upgrade, upgrade_steps. rewrite run_steps_cons, on_true.
  - vm_compute. reflexivity.
  - cbv beta. by rewrite (proj2 (Z.eqb_neq _ _) H).
Qed.
Lemma pico_upgrade_current c :
  signature c = ARDWIINO_DEVICE_TYPE -> CONFIG_VERSION <= version c -> upgrade c = c.
Proof.
  intros Hs Hv. unfold CONFIG_VERSION in Hv. apply run_steps_id. unfold upgrade_steps.
  repeat (apply Forall_cons; split; [apply on_false|]); try constructor;
    rewrite ?Hs, ?older_false by lia; done.
Qed.

Definition flash_ok (s : flash_state) : Prop :=
  bytes (sector s) /\ length (sector s) = FLASH_SECTOR_SIZE /\
  bytes (newConfig s) /\ length (newConfig s) = newConfig_size.
#[global] Instance PicoStore : ConfigStore flash_state :=
  {| loadConfig := load; resetConfig := reset;
     writeConfigBlock := writeBlock; readConfigBlock := readBlock |}.

(** *** One block *)
Lemma sizes : sizeof_cfg = 275%nat /\ newConfig_size = 512%nat.
Proof. split; reflexivity. Qed.
Lemma land_erased l n : bytes l -> (length l <= n)%nat ->
  zip_with Z.land (take (length l) (replicate n 0xff)) l = l.
Proof.
  intros Hl. revert n. induction Hl as [|b l Hb Hl IH]; intros n Hn; [done|].
  destruct n as [|n]; simpl in *; [lia|]. f_equal; [|apply IH; lia].
  rewrite Z.land_comm. change 255 with (Z.ones 8). rewrite Z.land_ones by lia.
  by apply (uwrap_small 8).
Qed.
(** Erase followed by program is a plain store of the buffer. *)
Definition commit (s : flash_state) : flash_state :=
  s <| sector := newConfig s ++ replicate (FLASH_SECTOR_SIZE - newConfig_size) 0xff |>.
Lemma writeBlock_run off data s : flash_ok s -> bytes data ->
  (off + length data <= newConfig_size)%nat ->
  let s1 := s <| newConfig ::= splice off data |> in
  (writeBlock (Z.of_nat off) data s).2 =
    (if (sizeof_cfg <=? off + length data)%nat then commit s1 else s1) /\
  flash_ok (writeBlock (Z.of_nat off) data s).2.
Proof.
  intros (Hsb & Hsl & Hnb & Hnl) Hd Hlen s1.
  assert (bytes (newConfig s1)) as Hb1 by by apply splice_Forall.
  assert (length (newConfig s1) = newConfig_size) as Hl1.
  { unfold s1. cbn. rewrite length_splice; lia. }
  unfold writeBlock. rewrite mbind_run. cbn [fst snd mmod]. rewrite Nat2Z.id. fold s1.
  destruct (Nat.leb_spec sizeof_cfg (off + length data)).
  - replace (_ >=? _) with true by (symmetry; apply Z.geb_le; lia).
    unfold mwhen. rewrite !mbind_run. cbn [fst snd mmod mread flash_range_erase].
    unfold flash_range_program, mmod. cbn [snd].
    assert (sector (commit s1) = zip_with Z.land
      (take (length (newConfig s1)) (replicate FLASH_SECTOR_SIZE 255)) (newConfig s1) ++
      drop (length (newConfig s1)) (replicate FLASH_SECTOR_SIZE 255)) as E.
    { rewrite land_erased; [|done|rewrite Hl1; by apply Nat.leb_le].
      rewrite drop_replicate, Hl1. reflexivity. }
    split.
    + unfold commit at 1. cbn in *. by rewrite E.
    + split; [|split; [|split]]; cbn in *; rewrite <- ?E; try done.
      * apply Forall_app_2; [done|]. by apply Forall_replicate.
      * rewrite length_app, length_replicate, Hl1. reflexivity.
  - replace (_ >=? _) with false by (symmetry; rewrite Z.geb_leb; apply Z.leb_gt; lia).
    split; [done|]. split; [|split; [|split]]; done.
Qed.

(** *** Uploads *)
Definition synced (s : flash_state) : Prop := take newConfig_size (sector s) = newConfig s.
Lemma commit_synced s : flash_ok s -> synced (commit s).
Proof.
  intros (_ & _ & _ & Hl). unfold synced, commit. cbn. rewrite <- Hl. apply take_app_length.
Qed.
Lemma write_chunks_cons off c cs s :
  (write_chunks (Z.of_nat off) (c :: cs) s).2 =
    (write_chunks (Z.of_nat (off + length c)) cs (writeBlock (Z.of_nat off) c s).2).2.
Proof. cbn [write_chunks]. rewrite mbind_run. by rewrite Nat2Z.inj_add. Qed.

Lemma write_chunks_newConfig off chunks s : flash_ok s -> bytes (concat chunks) ->
  (off + length (concat chunks) <= newConfig_size)%nat ->
  let s' := (write_chunks (Z.of_nat off) chunks s).2 in
  flash_ok s' /\ newConfig s' = splice off (concat chunks) (newConfig s).
Proof.
  revert off s. induction chunks as [|c cs IH]; intros off s Hs Hb Hn; cbv zeta.
  - split; [done|]. cbn. unfold splice. cbn. rewrite Nat.add_0_r. symmetry. apply take_drop.
  - cbn [concat] in *. rewrite length_app in Hn. apply Forall_app in Hb as [Hb1 Hb2].
    rewrite write_chunks_cons.
    destruct (writeBlock_run off c s) as [E Ho]; [done|done|lia|].
    destruct (IH (off + length c)%nat _ Ho Hb2) as [Ho' E']; [lia|].
    split; [done|]. rewrite E', E.
    replace (newConfig _) with (splice off c (newConfig s)) by (by case_match).
    apply splice_splice_adj. destruct Hs as (_ & _ & _ & ->). lia.
Qed.
(** Until the block that reaches the end of the configuration arrives, the
    flash is not touched; from then on it holds the assembled buffer. *)
Lemma write_chunks_sector off chunks s : flash_ok s -> bytes (concat chunks) ->
  (off + length (concat chunks) <= newConfig_size)%nat ->
  let s' := (write_chunks (Z.of_nat off) chunks s).2 in
  ((off + length (concat chunks) < sizeof_cfg)%nat -> sector s' = sector s) /\
  ((sizeof_cfg <= off + length (concat chunks))%nat ->
   (off < sizeof_cfg)%nat \/ synced s -> synced s').
Proof.
  revert off s. induction chunks as [|c cs IH]; intros off s Hs Hb Hn; cbv zeta.
  - cbn in *. split; [done|]. intros ? [?|?]; [lia|done].
  - cbn [concat] in *. rewrite length_app in *. apply Forall_app in Hb as [Hb1 Hb2].
    rewrite write_chunks_cons.
    destruct (writeBlock_run off c s) as [E Ho]; [done|done|lia|].
    destruct (IH (off + length c)%nat _ Ho Hb2) as [Hl Hr]; [lia|]. rewrite E in *.
    destruct (Nat.leb_spec sizeof_cfg (off + length c)).
    + split; [lia|]. intros _ _. apply Hr; [lia|]. right. apply commit_synced.
      destruct Hs as (?&?&?&?). split; [|split; [|split]]; cbn; try done.
      * by apply splice_Forall.
      * rewrite length_splice; lia.
    + split; intros; [rewrite Hl by lia; done|]. apply Hr; [lia|]. left. lia.
Qed.
Lemma write_padded_newConfig off blocks s : flash_ok s -> padded_ok blocks ->
  (off + length (payload blocks) + SPARE <= newConfig_size)%nat ->
  (off < sizeof_cfg)%nat \/ synced s -> (sizeof_cfg <= off + length (payload blocks))%nat ->
  let s' := (write_padded (Z.of_nat off) blocks s).2 in
  flash_ok s' /\ newConfig s' = splices off blocks (newConfig s) /\ synced s'.
Proof.
  intros Hs Hb. revert off s Hs. induction Hb as [|[c p] bs (Hc & Hp & Hlp) _ IH];
    intros off s Hs Hn Ho Hend; cbv zeta.
  { cbn in *. split; [done|]. split; [done|]. destruct Ho; [lia|done]. }
  cbn [write_padded splices fmap list_fmap concat fst] in *. rewrite length_app in *.
  rewrite mbind_run, <- Nat2Z.inj_add.
  assert (bytes (c ++ p)) as Hcp by by apply Forall_app.
  destruct (writeBlock_run off (c ++ p) s Hs Hcp) as [E Hok]; [rewrite length_app; lia|].
  change (writeConfigBlock (Z.of_nat off) (c ++ p) s) with (writeBlock (Z.of_nat off) (c ++ p) s).
  set (s1 := (writeBlock _ _ s).2) in *.
  assert (newConfig s1 = splice off (c ++ p) (newConfig s)) as <- by (rewrite E; by case_match).
  apply IH; [exact Hok|lia| |lia]. destruct (Nat.lt_ge_cases (off + length c) sizeof_cfg); [by left|right].
  rewrite E. destruct (Nat.leb_spec sizeof_cfg (off + length (c ++ p))); [|rewrite length_app in *; lia].
  apply commit_synced. destruct Hs as (Hsb & Hsl & Hnb & Hnl). split; [done|]. split; [done|].
  split; cbn [newConfig upd setter_of]; [by apply splice_Forall|].
  rewrite length_splice; rewrite ?length_app; lia.
Qed.
Lemma read_synced n s : (n <= newConfig_size)%nat -> synced s ->
  (readBlock 0 (Z.of_nat n) s).1 = take n (newConfig s).
Proof.
  intros Hn Hs. unfold readBlock, mread. cbn [fst]. rewrite Nat2Z.id.
  unfold slice. rewrite drop_0, <- Hs, take_take. f_equal. lia.
Qed.
(** *** Loading *)
Definition chosen (s : flash_state) : Configuration_t :=
  upgrade (cdec Cfg.codec (take sizeof_cfg (sector s))).
Definition mirror (c : Configuration_t) (s : flash_state) : flash_state :=
  s <| newConfig ::= splice 0 (cenc Cfg.codec c) |>.
Lemma pico_load_eq s :
  load s =
    if version (chosen s) <? CONFIG_VERSION
    then let c := set_version CONFIG_VERSION (chosen s) in
         (c, mirror c (writeBlock 0 (cenc Cfg.codec c) s).2)
    else (chosen s, mirror (chosen s) s).
Proof.
  unfold load, chosen. rewrite mbind_run. cbn [fst snd readBlock mread].
  rewrite Nat2Z.id. unfold slice. change (Z.to_nat 0) with 0%nat. rewrite drop_0.
  generalize (upgrade (cdec Cfg.codec (take sizeof_cfg (sector s)))). intros c.
  rewrite mbind_run. destruct (version c <? CONFIG_VERSION); rewrite ?mbind_run; reflexivity.
Qed.
Lemma pico_chosen_wf s : flash_ok s -> cwf Cfg.codec (chosen s).
Proof.
  intros (Hb & Hl & _). apply pico_upgrade_wf, dec_wf; [by apply Forall_take|].
  rewrite length_take, Hl. reflexivity.
Qed.
Lemma pico_chosen_signature s : signature (chosen s) = ARDWIINO_DEVICE_TYPE.
Proof. apply pico_upgrade_signature. Qed.
Lemma pico_stamped_wf s :
  flash_ok s -> cwf Cfg.codec (set_version CONFIG_VERSION (chosen s)).
Proof. intros. apply set_version_wf; [done|by apply pico_chosen_wf]. Qed.
Lemma enc_fits c : cwf Cfg.codec c ->
  length (cenc Cfg.codec c) = sizeof_cfg /\
  (length (cenc Cfg.codec c) <= newConfig_size)%nat /\ bytes (cenc Cfg.codec c).
Proof.
  intros Hc. assert (length (cenc Cfg.codec c) = sizeof_cfg) as -> by by apply enc_length.
  split; [done|]. split; [by apply Nat.leb_le|by apply enc_bytes].
Qed.
Lemma mirror_ok c s : cwf Cfg.codec c -> flash_ok s -> flash_ok (mirror c s).
Proof.
  intros Hc (?&?&?&?). destruct (enc_fits c Hc) as (_ & Hn & Hb).
  split; [done|]. split; [done|]. split; [by apply splice_Forall|].
  unfold mirror. cbn [newConfig upd setter_of]. rewrite length_splice; lia.
Qed.
Lemma mirror_twice c s : mirror c (mirror c s) = mirror c s.
Proof. destruct s as [f n]. unfold mirror. cbn -[splice]. by rewrite splice0_idem.
Qed.
Lemma mirror_commit c s : mirror c (commit (mirror c s)) = commit (mirror c s).
Proof. destruct s as [f n]. unfold mirror, commit. cbn -[splice]. by rewrite splice0_idem.
Qed.
Lemma write_config c s : cwf Cfg.codec c -> flash_ok s ->
  let s' := (writeBlock 0 (cenc Cfg.codec c) s).2 in
  flash_ok s' /\ mirror c s' = s' /\
  take sizeof_cfg (sector s') = cenc Cfg.codec c.
Proof.
  intros Hc Hs. destruct (enc_fits c Hc) as (Hl & Hn & Hb). cbv zeta.
  destruct (writeBlock_run 0 (cenc Cfg.codec c) s Hs Hb Hn) as [E Ho].
  change (Z.of_nat 0) with 0 in *. split; [exact Ho|]. rewrite E, Hl, Nat.leb_refl.
  change (s <| newConfig ::= splice 0 (cenc Cfg.codec c) |>) with (mirror c s).
  split.
  - apply mirror_commit.
  - unfold commit. cbn [sector upd setter_of]. rewrite take_app_le.
    + rewrite <- Hl. apply take_splice0.
    + destruct Hs as (_ & _ & _ & Hnl). unfold mirror. cbn [newConfig upd setter_of].
      rewrite length_splice; lia.
Qed.
Lemma load_mirror c s : sector (mirror c s) = sector s.
Proof. reflexivity. Qed.
Lemma chosen_mirror c s : chosen (mirror c s) = chosen s.
Proof. unfold chosen. by rewrite load_mirror. Qed.
Lemma pico_load_stamped c s : cwf Cfg.codec c -> signature c = ARDWIINO_DEVICE_TYPE ->
  version c = CONFIG_VERSION -> take sizeof_cfg (sector s) = cenc Cfg.codec c ->
  load (mirror c s) = (c, mirror c s).
Proof.
  intros Hc Hs Hv Ht. rewrite pico_load_eq. unfold chosen. rewrite load_mirror, Ht, dec_enc by done.
  rewrite pico_upgrade_current by (done || by rewrite Hv). rewrite Hv.
  change (CONFIG_VERSION <? CONFIG_VERSION) with false. cbv iota. by rewrite mirror_twice.
Qed.
Lemma pico_load_twice s : flash_ok s -> load (load s).2 = load s.
Proof.
  intros Hs. rewrite (pico_load_eq s). destruct (version (chosen s) <? CONFIG_VERSION) eqn:E.
  - pose proof (pico_stamped_wf s Hs) as Hw. cbv zeta. cbn [snd].
    apply pico_load_stamped; [done| |apply version_set_version|by apply write_config].
    rewrite signature_set_version. apply pico_chosen_signature.
  - cbn [snd]. rewrite pico_load_eq, chosen_mirror.
    rewrite E. by rewrite mirror_twice.
Qed.

#[global] Instance PicoStoreOk : ConfigStoreOk flash_state flash_ok.
Proof.
  split; intros s;
    try change (loadConfig s) with (load s); try change (resetConfig s) with (reset s).
  - intros Hs. rewrite pico_load_eq.
    destruct (version (chosen s) <? CONFIG_VERSION); cbn [fst];
      [exact (pico_stamped_wf s Hs)|exact (pico_chosen_wf s Hs)].
  - intros Hs. rewrite pico_load_eq.
    destruct (version (chosen s) <? CONFIG_VERSION) eqn:E; cbn [fst].
    + rewrite version_set_version. reflexivity.
    + apply Z.ltb_ge in E. exact E.
  - intros Hs. rewrite pico_load_eq.
    destruct (version (chosen s) <? CONFIG_VERSION); cbn [fst];
      rewrite ?signature_set_version; exact (pico_chosen_signature s).
  - intros Hs. rewrite pico_load_eq.
    destruct (version (chosen s) <? CONFIG_VERSION); cbv zeta; cbn [snd]; apply mirror_ok.
    + exact (pico_stamped_wf s Hs).
    + apply write_config; [exact (pico_stamped_wf s Hs)|exact Hs].
    + exact (pico_chosen_wf s Hs).
    + exact Hs.
  - intros Hs. change (loadConfig (load s).2) with (load (load s).2). exact (pico_load_twice s Hs).
  - intros blocks Hs Hb Hn. cbv zeta.
    assert (length (payload blocks) + SPARE <= newConfig_size)%nat as Hf.
    { rewrite Hn. by apply Nat.leb_le. }
    destruct (write_padded_newConfig 0 blocks s Hs Hb Hf) as (Ho & Hnc & Hsy);
      [left; by apply Nat.ltb_lt|by rewrite Hn|].
    split; [exact Ho|]. cbn [readConfigBlock PicoStore]. change 0 with (Z.of_nat 0) at 2.
    rewrite read_synced; [|by apply Nat.leb_le|exact Hsy]. change 0 with (Z.of_nat 0). rewrite Hnc, <- Hn.
    destruct Hs as (_ & _ & Hnb & Hnl).
    destruct (splices_spec 0 blocks (newConfig s) Hb Hnb) as (_ & _ & I3); [by rewrite Hnl|]. exact I3.
  - intros off len Hs Hl. cbn [readConfigBlock PicoStore]. unfold readBlock, mread. cbn [fst].
    rewrite !Nat2Z.id. change (Z.to_nat 0) with 0%nat. by rewrite slice_slice by lia.
  - intros c Hf (Hw & Hs & Hv & _). cbn [readConfigBlock PicoStore].
    unfold readBlock, mread. cbn [fst]. rewrite Nat2Z.id. unfold slice. rewrite drop_0.
    intros Hr. rewrite pico_load_eq. unfold chosen. rewrite Hr, dec_enc by done.
    rewrite pico_upgrade_current by done.
    replace (version c <? _) with false by (symmetry; apply Z.ltb_ge; done). reflexivity.
  - intros Hs. destruct (write_config default_config s default_config_wf Hs) as (Ho&_&Ht).
    split; [exact Ho|]. cbn [readConfigBlock PicoStore]. unfold readBlock, mread.
    cbn [fst]. rewrite Nat2Z.id. unfold slice. rewrite drop_0. exact Ht.
Qed.
End PicoFlash.

(** ** Properties *)

(** C10: [loadConfig] on AVR accepts any EEPROM contents.  It returns a
    well-formed configuration with the firmware's signature, at least the current
    version and no obsolete subtype, and it leaves an EEPROM from which loading
    again returns the same configuration and writes nothing. *)
Theorem avr_load_migrates test config_pointer e2size e :
  (config_pointer + sizeof_cfg <= e2size)%nat -> (test + sizeof_cfg <= e2size)%nat ->
  AvrEeprom.eeprom_ok e2size e ->
  let '(c, e') := AvrEeprom.load test config_pointer e in
  current c /\ AvrEeprom.eeprom_ok e2size e' /\
  AvrEeprom.load test config_pointer e' = (c, e').
Proof.
  intros Hc Ht He.
  pose proof (AvrEeprom.load_twice test config_pointer e2size Ht Hc e He) as H5.
  pose proof (AvrEeprom.load_facts test config_pointer e2size Ht Hc e He) as H6.
  destruct (AvrEeprom.load test config_pointer e) as [c e'].
  destruct H6 as [H6 H7]. split; [exact H6|]. split; [exact H7|exact H5].
Qed.
Lemma avr_load_migrates_witness :
  let e := replicate 1024 0xff in
  let '(c, e') := AvrEeprom.load 0 1 e in
  current c /\ AvrEeprom.eeprom_ok 1024 e' /\ AvrEeprom.load 0 1 e' = (c, e').
Proof.
  apply (avr_load_migrates 0 1 1024).
  - apply Nat.leb_le. reflexivity.
  - apply Nat.leb_le. reflexivity.
  - split; [by apply Forall_replicate|reflexivity].
Defined.

(** With garbage in the store (a signature that is not the firmware's) both
    drivers fall back to the built-in defaults, but as a version-0
    configuration: the version-9 migration inverts the default whammy axis and the
    version-14 one reads the default orientation [X] as the old [POSITIVE_Z], so a
    new board starts with a configuration that is not the one [resetConfig]
    stores. *)
Theorem garbage_loads_flipped_defaults :
  (forall test config_pointer e,
     let block a := cdec Cfg.codec (slice a sizeof_cfg e) in
     (version (block config_pointer) <? 8) = false ->
     signature (block config_pointer) <> ARDWIINO_DEVICE_TYPE ->
     (AvrEeprom.load test config_pointer e).1 = set_orientation GyroZ (flip_whammy default_config)) /\
  (forall s,
     signature (cdec Cfg.codec (take sizeof_cfg (PicoFlash.sector s))) <> ARDWIINO_DEVICE_TYPE ->
     (PicoFlash.load s).1 = set_orientation GyroZ (flip_whammy default_config)) /\
  set_orientation GyroZ (flip_whammy default_config) <> default_config.
Proof.
  split; [|split].
  - intros test config_pointer e block Hv Hs. rewrite AvrEeprom.load_eq.
    unfold AvrEeprom.chosen. fold (block config_pointer). rewrite Hv.
    rewrite AvrEeprom.upgrade_garbage by done. reflexivity.
  - intros s Hs. rewrite PicoFlash.pico_load_eq. unfold PicoFlash.chosen.
    rewrite PicoFlash.pico_upgrade_garbage by done. reflexivity.
  - discriminate.
Qed.
Lemma garbage_loads_flipped_defaults_witness :
  (AvrEeprom.load 0 1 (replicate 1024 0xff)).1 = set_orientation GyroZ (flip_whammy default_config) /\
  (PicoFlash.load (PicoFlash.mkFlash (replicate 4096 0xff) (replicate 512 0))).1
    = set_orientation GyroZ (flip_whammy default_config).
Proof.
  split.
  - refine (proj1 garbage_loads_flipped_defaults 0%nat 1%nat (replicate 1024 0xff) _ _);
      vm_compute; congruence.
  - refine (proj1 (proj2 garbage_loads_flipped_defaults) _ _). vm_compute. congruence.
Defined.


(** C23: The RP2040 driver commits an upload only once: as long as the blocks
    written so far stop short of the configuration's end the flash sector is
    untouched, and the block that reaches the end stores the whole assembled
    RAM copy. *)
Theorem pico_upload_atomic s chunks :
  PicoFlash.flash_ok s -> bytes (concat chunks) ->
  (length (concat chunks) <= PicoFlash.newConfig_size)%nat ->
  let s' := (write_chunks 0 chunks s).2 in
  ((length (concat chunks) < sizeof_cfg)%nat -> PicoFlash.sector s' = PicoFlash.sector s) /\
  ((sizeof_cfg <= length (concat chunks))%nat ->
   take PicoFlash.newConfig_size (PicoFlash.sector s')
   = splice 0 (concat chunks) (PicoFlash.newConfig s)).
Proof.
  intros Hs Hb Hn. cbv zeta.
  destruct (PicoFlash.write_chunks_newConfig 0 chunks s Hs Hb Hn) as [_ Hnc].
  destruct (PicoFlash.write_chunks_sector 0 chunks s Hs Hb Hn) as [Hl Hr].
  change (Z.of_nat 0) with 0 in *. split; [exact Hl|]. intros H. rewrite <- Hnc.
  apply Hr; [exact H|left; by apply Nat.ltb_lt].
Qed.
Lemma pico_upload_atomic_witness :
  let s := PicoFlash.mkFlash (replicate 4096 0xff) (replicate 512 0) in
  PicoFlash.sector (write_chunks 0 [replicate 100 1; replicate 100 2] s).2 = PicoFlash.sector s.
Proof.
  apply (pico_upload_atomic (PicoFlash.mkFlash (replicate 4096 0xff) (replicate 512 0))
           [replicate 100 1; replicate 100 2]).
  - split; [|split; [|split]]; try reflexivity; by apply Forall_replicate.
  - by apply (bool_decide_unpack _).
  - by apply Nat.leb_le.
  - by apply Nat.ltb_lt.
Defined.
