(* ===== verification/Fxpt.v ===== *)
(** * Fixed-point trigonometry: [lib/fxpt_math/fxpt_math.c], [lib/mpu6050/mpu_math.c]

    Q15 arithmetic on [int16_t] with 32-bit intermediates, the four-quadrant
    arctangent used by the nunchuk and tilt inputs, and the quaternion
    conversion of the motion sensor. *)

From Stdlib Require Import ZArith Lia.
From stdpp Require Import base tactics numbers list.
From S2P Require Import Prelude Defs.
Open Scope Z_scope.

(** [lrint (n / 10^k * 32768)]: the constants are decimal literals, so the
    double is written as a ratio; [lrint] rounds to nearest, ties to even. *)
Definition lrint_ratio (n d : Z) : Z :=
  let q := n / d in
  let r := n mod d in
  if 2 * r <? d then q else if 2 * r =? d then q + q mod 2 else q + 1.
Definition q15_from_double (n k : Z) : Z := i16 (lrint_ratio (n * 32768) (10 ^ k)).

Definition s16_nabs (j : Z) : Z :=
  let negSign := i16 (Z.lnot (Z.shiftr j 15)) in
  i16 (Z.lxor j negSign - negSign).

Definition q15_mul (j k : Z) : Z :=
  let intermediate := i32 (j * k) in
  i16 (Z.shiftr (i32 (intermediate +
    (if Z.land intermediate 0x7FFF =? 0x4000 then 0 else 0x4000))) 15).

(** C division truncates towards zero. *)
Definition q15_div (numer denom : Z) : Z := i16 (Z.quot (i32 (Z.shiftl numer 15)) denom).

(** [q15_from_double(0.273 * M_1_PI)] and [q15_from_double(0.25 + 0.273 * M_1_PI)],
    with the 20 decimals of [M_1_PI]. *)
Definition M_1_PI : Z := 31830988618379067154.
Definition ATAN_CORRECTION : Z := q15_from_double (273 * M_1_PI) 23.
Definition ATAN_SLOPE : Z := q15_from_double (25 * 10 ^ 21 + 273 * M_1_PI) 23.

Definition fxpt_atan2 (y x : Z) : Z :=
  if x =? y then
    if y >? 0 then 8192 else if y <? 0 then 40960 else 0
  else
    let nabs_y := s16_nabs y in
    let nabs_x := s16_nabs x in
    if nabs_x <? nabs_y then
      let y_over_x := q15_div y x in
      let correction := q15_mul ATAN_CORRECTION (s16_nabs y_over_x) in
      let unrotated := q15_mul (i16 (ATAN_SLOPE + correction)) y_over_x in
      if x >? 0 then u16 unrotated else u16 (32768 + unrotated)
    else
      let x_over_y := q15_div x y in
      let correction := q15_mul ATAN_CORRECTION (s16_nabs x_over_y) in
      let unrotated := q15_mul (i16 (ATAN_SLOPE + correction)) x_over_y in
      if y >? 0 then u16 (16384 - unrotated) else u16 (49152 - unrotated).

Definition fxpt_asin (x : Z) : Z :=
  let x2 := q15_mul x x in
  let x4 := q15_mul x2 x2 in
  let x8 := q15_mul x4 x4 in
  let f := q15_mul (q15_from_double 45334220547132049 18) x2 in
  let f2 := q15_from_double 11226216762576600 18 in
  let f3 := q15_mul (q15_from_double 26334281471361822 18) x2 in
  let f4 := q15_from_double 20596336163223834 18 in
  let f5 := q15_mul (q15_from_double 30582043602875735 18) x2 in
  let f6 := q15_from_double 44630538556294605 18 in
  let f7 := q15_mul (q15_from_double 75000364034134126 18) x2 in
  let f8 := q15_from_double 16666666300567365 17 in
  u16 (q15_mul (q15_mul (i16 (q15_mul (i16 (q15_mul (i16 (f - f2)) x4 + (f3 + f4))) x8 +
                              q15_mul (i16 (f5 + f6)) x4 + (f7 + f8)))
                        x2)
               x + x).

(** ** lib/mpu6050/mpu_math.c *)
Record s_quat : Set := mkQuat { qw : Z; qx : Z; qy : Z; qz : Z }.
Definition MUL : Z := 5.
Definition MAX : Z := Z.quot 32767 MUL.
(** [quaternionToEuler]: [out] is the old value of [*out], kept when [angle] is
    none of the three axes.  All products are reduced modulo [2^16] when stored
    or passed, so the width of [int] does not matter. *)
Definition quaternionToEuler (q : s_quat) (out angle : Z) : Z :=
  let test := i16 (qx q * qz q - qw q * qy q) in
  let sqy := i16 (qy q * qy q) in
  let sqz := i16 (qz q * qz q) in
  let sqw := i16 (qw q * qw q) in
  let out :=
    if angle =? GyroX then
      i16 (fxpt_atan2 (i16 (2 * (qx q * qy q - qz q * qw q))) (i16 (32768 - 2 * (sqy + sqz))))
    else if angle =? GyroY then i16 (fxpt_asin test)
    else if angle =? GyroZ then
      i16 (fxpt_atan2 (i16 (2 * (qx q * qw q + qy q * qz q))) (i16 (32768 - 2 * (sqz + sqw))))
    else out in
  let out := if out >? MAX then MAX else out in
  let out := if out <? - MAX then - MAX else out in
  i16 (out * MUL).

(** ** Arithmetic of the Q15 operations *)
Lemma s16_nabs_spec j : in_s 16 j -> s16_nabs j = - Z.abs j.
Proof.
  unfold in_s, s16_nabs. change (2 ^ (16 - 1)) with 32768. intros H.
  rewrite Z.shiftr_div_pow2 by lia. change (2 ^ 15) with 32768.
  destruct (Z.lt_ge_cases j 0).
  - rewrite <- (Z.div_unique j 32768 (-1) (j + 32768)) by lia.
    change (i16 (Z.lnot (-1))) with 0. rewrite Z.lxor_0_r.
    rewrite swrap_small by (unfold in_s; change (2 ^ (16 - 1)) with 32768; lia). lia.
  - rewrite Z.div_small by lia. change (i16 (Z.lnot 0)) with (-1).
    rewrite Z.lxor_m1_r. unfold Z.lnot.
    rewrite swrap_small by (unfold in_s; change (2 ^ (16 - 1)) with 32768; lia). lia.
Qed.
(** Rounding loses at most half a unit in the last place. *)
Lemma q15_mul_spec j k :
  -32768 <= j <= 32767 -> -32768 <= k <= 32767 -> j * k <= 2 ^ 30 - 32768 ->
  in_s 16 (q15_mul j k) /\ -16384 <= 32768 * q15_mul j k - j * k <= 16384.
Proof.
  intros Hj Hk Hjk. split; [apply swrap_range; lia|].
  assert (- 2 ^ 30 <= j * k) by (change (2 ^ 30) with 1073741824 in *; nia).
  unfold q15_mul. rewrite (swrap_small 32 eq_refl (j * k))
    by (unfold in_s; change (2 ^ (32 - 1)) with (2 * 2 ^ 30); lia).
  cbv zeta. set (c := if Z.land (j * k) 32767 =? 16384 then 0 else 16384).
  assert (c = 0 /\ (j * k) mod 32768 = 16384 \/ c = 16384) as Hc.
  { unfold c. destruct (Z.eqb_spec (Z.land (j * k) 32767) 16384) as [E|]; [left|by right].
    split; [done|]. rewrite <- E. symmetry. apply (Z.land_ones (j * k) 15). lia. }
  change (2 ^ 30) with 1073741824 in *.
  rewrite (swrap_small 32)
    by (unfold in_s; change (2 ^ (32 - 1)) with 2147483648; destruct Hc as [ [-> _] | -> ]; lia).
  rewrite Z.shiftr_div_pow2 by lia. change (2 ^ 15) with 32768.
  clearbody c. generalize dependent (j * k). intros p Hp Hl Hc.
  pose proof (Z.div_mod (p + c) 32768). pose proof (Z.mod_pos_bound (p + c) 32768).
  pose proof (Z.div_mod p 32768).
  assert (-16384 <= 32768 * ((p + c) / 32768) - p <= 16384).
  { destruct Hc as [ [-> E] | -> ]; rewrite ?Z.add_0_r in *; lia. }
  rewrite (swrap_small 16 eq_refl); [done|]. unfold in_s; change (2 ^ (16 - 1)) with 32768. lia.
Qed.

(** The angle within an octant for the ratio [r]. *)
Definition octant (r : Z) : Z := q15_mul (i16 (11039 + q15_mul 2847 (s16_nabs r))) r.
Lemma atan_constants : ATAN_SLOPE = 11039 /\ ATAN_CORRECTION = 2847.
Proof. split; vm_compute; reflexivity. Qed.
Lemma octant_eq r : q15_mul (i16 (ATAN_SLOPE + q15_mul ATAN_CORRECTION (s16_nabs r))) r = octant r.
Proof. unfold octant. destruct atan_constants as [E1 E2]. rewrite E1, E2. exact eq_refl. Qed.
Lemma octant_range r : in_s 16 r ->
  (0 <= r -> 0 <= octant r <= 8192) /\ (r <= 0 -> -8192 <= octant r <= 0).
Proof.
  intros H. unfold octant. rewrite s16_nabs_spec by done. unfold in_s in H.
  change (2 ^ (16 - 1)) with 32768 in H.
  destruct (q15_mul_spec 2847 (- Z.abs r)) as [_ Hc]; [lia|lia|lia|].
  generalize dependent (q15_mul 2847 (- Z.abs r)). intros c Hc.
  rewrite swrap_small by (unfold in_s; change (2 ^ (16 - 1)) with 32768; lia).
  destruct (q15_mul_spec (11039 + c) r) as [_ Hu]; [lia|lia| |].
  { change (2 ^ 30) with 1073741824. nia. }
  generalize dependent (q15_mul (11039 + c) r). intros u Hu.
  split; intros; split; nia.
Qed.

Lemma quot_pos a b : 0 <= a -> 0 < b ->
  0 <= Z.quot (a * 32768) b /\ (a <= b -> Z.quot (a * 32768) b <= 32768) /\
  (a < b -> Z.quot (a * 32768) b <= 32767).
Proof.
  intros. rewrite Z.quot_div_nonneg by lia.
  split; [apply Z.div_pos; lia|]. split; intros.
  - apply Z.div_le_upper_bound; lia.
  - apply Z.lt_succ_r, Z.div_lt_upper_bound; lia.
Qed.
(** The division of the smaller by the larger coordinate never overflows Q15. *)
Lemma q15_div_spec n d :
  in_s 16 n -> in_s 16 d -> d <> 0 -> Z.abs n <= Z.abs d -> n <> d ->
  let r := q15_div n d in
  r = Z.quot (n * 32768) d /\ in_s 16 r /\
  (0 <= n * d -> 0 <= r) /\ (n * d <= 0 -> r <= 0).
Proof.
  unfold in_s, q15_div. intros Hn Hd Hd0 Hle Hne.
  change (2 ^ (16 - 1)) with 32768 in *. rewrite Z.shiftl_mul_pow2 by lia.
  change (2 ^ 15) with 32768.
  rewrite (swrap_small 32) by (unfold in_s; change (2 ^ (32 - 1)) with 2147483648; lia).
  assert (-32768 <= Z.quot (n * 32768) d <= 32767 /\
          (0 <= n * d -> 0 <= Z.quot (n * 32768) d) /\
          (n * d <= 0 -> Z.quot (n * 32768) d <= 0)) as (H1 & H2 & H3).
  { destruct (Z.lt_ge_cases d 0), (Z.lt_ge_cases n 0).
    - rewrite <- Z.quot_opp_opp, <- Z.mul_opp_l by lia.
      pose proof (quot_pos (- n) (- d)). assert (0 < n * d) by nia. lia.
    - rewrite <- (Z.opp_involutive d), Z.quot_opp_r, Z.opp_involutive by lia.
      pose proof (quot_pos n (- d)). assert (n = 0 /\ n * d = 0 \/ n * d < 0) as [[-> ->]|] by nia;
        [rewrite Z.quot_0_l by lia|]; lia.
    - rewrite <- (Z.opp_involutive n), Z.mul_opp_l, Z.quot_opp_l, Z.opp_involutive by lia.
      pose proof (quot_pos (- n) d). assert (n * d < 0) by nia. lia.
    - pose proof (quot_pos n d). assert (n = 0 /\ n * d = 0 \/ 0 < n * d) as [[-> ->]|] by nia;
        [rewrite Z.quot_0_l by lia|]; lia. }
  rewrite swrap_small by (unfold in_s; change (2 ^ (16 - 1)) with 32768; lia).
  repeat split; try assumption; lia.
Qed.

Lemma q15_div_opp n d : in_s 16 n -> in_s 16 (- n) -> d <> 0 ->
  q15_div (- n) (- d) = q15_div n d.
Proof.
  unfold in_s, q15_div. change (2 ^ (16 - 1)) with 32768. intros H1 H2 Hd.
  rewrite !Z.shiftl_mul_pow2 by lia. change (2 ^ 15) with 32768.
  rewrite !(swrap_small 32 eq_refl) by (unfold in_s; change (2 ^ (32 - 1)) with 2147483648; lia).
  rewrite Z.mul_opp_l, Z.quot_opp_opp by done. done.
Qed.
(** The unrotated angle of [n / d], [|n| <= |d|], is within an eighth of a turn
    and on the side of the ratio's sign. *)
Lemma octant_of_ratio n d :
  in_s 16 n -> in_s 16 d -> d <> 0 -> Z.abs n <= Z.abs d -> n <> d ->
  let u := octant (q15_div n d) in
  -8192 <= u <= 8192 /\ (0 <= n * d -> 0 <= u) /\ (n * d <= 0 -> u <= 0).
Proof.
  intros Hn Hd Hd0 Hle Hne.
  destruct (q15_div_spec n d Hn Hd Hd0 Hle Hne) as (_ & Hr & Hp & Hm).
  destruct (octant_range _ Hr) as [Op Om]. cbv zeta. split; [|split; intros; lia].
  destruct (Z.le_ge_cases 0 (q15_div n d)); lia.
Qed.
Lemma fxpt_atan2_eq y x : in_s 16 y -> in_s 16 x -> x <> y ->
  fxpt_atan2 y x =
    if Z.abs y <? Z.abs x
    then let u := octant (q15_div y x) in if x >? 0 then u16 u else u16 (32768 + u)
    else let u := octant (q15_div x y) in if y >? 0 then u16 (16384 - u) else u16 (49152 - u).
Proof.
  intros Hy Hx Hne. unfold fxpt_atan2. rewrite !s16_nabs_spec by done.
  destruct (Z.eqb_spec x y); [done|]. cbv zeta. rewrite !octant_eq.
  replace (- Z.abs x <? - Z.abs y) with (Z.abs y <? Z.abs x); [done|].
  destruct (Z.ltb_spec (Z.abs y) (Z.abs x)); symmetry; [apply Z.ltb_lt|apply Z.ltb_ge]; lia.
Qed.
Lemma u16_cases z : -65536 <= z < 131072 ->
  u16 z = if z <? 0 then z + 65536 else if z <? 65536 then z else z - 65536.
Proof.
  intros H. unfold uwrap. change (2 ^ 16) with 65536.
  destruct (Z.ltb_spec z 0); [|destruct (Z.ltb_spec z 65536)].
  - rewrite <- (Z.mod_add z 1) by lia. apply Z.mod_small. lia.
  - apply Z.mod_small. lia.
  - rewrite <- (Z.mod_add z (-1)) by lia. apply Z.mod_small. lia.
Qed.
Lemma u16_add z c : u16 (u16 z + c) = u16 (z + c).
Proof. apply Zplus_mod_idemp_l. Qed.
Lemma fxpt_atan2_opp y x : in_s 16 y -> in_s 16 x -> in_s 16 (- y) -> in_s 16 (- x) ->
  x <> y -> fxpt_atan2 (- y) (- x) = u16 (fxpt_atan2 y x + 32768).
Proof.
  intros Hy Hx Hy2 Hx2 Hne.
  rewrite !fxpt_atan2_eq by (done || lia). rewrite !Z.abs_opp. cbv zeta.
  destruct (Z.ltb_spec (Z.abs y) (Z.abs x)).
  - rewrite q15_div_opp by (done || lia).
    destruct (octant_of_ratio y x) as (Hu & _); try lia; try done.
    destruct (Z.gtb_spec x 0), (Z.gtb_spec (- x) 0); try lia;
      rewrite u16_add, !u16_cases by lia; repeat case_match; lia.
  - rewrite q15_div_opp by (done || lia).
    destruct (octant_of_ratio x y) as (Hu & _); try lia; try done.
    destruct (Z.gtb_spec y 0), (Z.gtb_spec (- y) 0); try lia;
      rewrite u16_add, !u16_cases by lia; repeat case_match; lia.
Qed.

(** C38: The four-quadrant arctangent puts every vector in its quadrant.  For all
    [int16_t] coordinates the result is a 16-bit angle (65536 units to the turn),
    exact on the four half-axes; in the right half-plane it is within a quarter
    turn of 0 (as a signed angle), in the upper half-plane between 0 and half a
    turn, and so on; opposite vectors differ by half a turn. *)
Theorem fxpt_atan2_quadrants y x :
  in_s 16 y -> in_s 16 x ->
  let a := fxpt_atan2 y x in
  in_u 16 a /\
  (y = 0 -> 0 <= x -> a = 0) /\ (y = 0 -> x < 0 -> a = 32768) /\
  (x = 0 -> 0 < y -> a = 16384) /\ (x = 0 -> y < 0 -> a = 49152) /\
  (0 < x -> 0 < y -> 0 <= a <= 16384) /\ (x < 0 -> 0 < y -> 16384 <= a <= 32768) /\
  (x < 0 -> y < 0 -> 32768 <= a <= 49152) /\
  (0 < x -> y < 0 -> 49152 <= a \/ a = 0) /\
  (in_s 16 (- y) -> in_s 16 (- x) -> (x <> 0 \/ y <> 0) ->
   fxpt_atan2 (- y) (- x) = u16 (a + 32768)).
Proof.
  intros Hy Hx a. pose proof Hy as Hy'. pose proof Hx as Hx'. unfold in_s in Hy', Hx'.
  change (2 ^ (16 - 1)) with 32768 in *.
  assert (a = fxpt_atan2 y x) as Ha by done.
  destruct (Z.eq_dec x y) as [E|Hne].
  { subst x. unfold fxpt_atan2 in *. rewrite !Z.eqb_refl in *. clearbody a.
    destruct (Z.gtb_spec y 0), (Z.ltb_spec y 0), (Z.gtb_spec (- y) 0), (Z.ltb_spec (- y) 0);
      try lia; subst a; unfold in_u; rewrite u16_cases by lia;
      change (2 ^ 16) with 65536; repeat split; intros; repeat case_match; lia. }
  assert (in_s 16 (- y) -> in_s 16 (- x) -> (x <> 0 \/ y <> 0) ->
    fxpt_atan2 (- y) (- x) = u16 (a + 32768)) as Hopp.
  { intros Hy2 Hx2 _. apply fxpt_atan2_opp; done. }
  rewrite fxpt_atan2_eq in Ha by done. clearbody a. cbv zeta in Ha. unfold in_u.
  change (2 ^ 16) with 65536.
  assert (x <> 0 -> y <> 0 -> (0 < x * y <-> (0 < x <-> 0 < y)) /\ x * y <> 0) by nia.
  assert (x = 0 -> x * y = 0) by nia. assert (y = 0 -> x * y = 0) by nia.
  destruct (Z.ltb_spec (Z.abs y) (Z.abs x)).
  - destruct (octant_of_ratio y x) as (Hu & Hp & Hm); try lia; try done.
    rewrite (Z.mul_comm y x) in *.
    destruct (Z.gtb_spec x 0); rewrite u16_cases in Ha by lia;
      (split; [|repeat (split; [|try exact Hopp])]); intros; try exact Hopp;
      repeat case_match; lia.
  - destruct (octant_of_ratio x y) as (Hu & Hp & Hm); try lia; try done.
    destruct (Z.gtb_spec y 0); rewrite u16_cases in Ha by lia;
      (split; [|repeat (split; [|try exact Hopp])]); intros; try exact Hopp;
      repeat case_match; lia.
Qed.
Lemma fxpt_atan2_quadrants_witness : 0 <= fxpt_atan2 100 200 <= 16384.
Proof.
  destruct (fxpt_atan2_quadrants 100 200) as (_ & _ & _ & _ & _ & H & _); [done|done|].
  apply H; lia.
Defined.
