(* ===== verification/World.v ===== *)
(** * The outside world as interfaces

    The drivers act on hardware through these classes: a delay, a millisecond
    clock and an SPI bus.  [W] is the state of whatever is outside the modelled
    code; the components take it as a parameter. *)

From Stdlib Require Import ZArith Lia.
From stdpp Require Import base tactics numbers list.
From S2P Require Import Prelude.
Open Scope Z_scope.

(** [_delay_us]; [_delay_ms n] is [delay_us (1000 * n)]. *)
Class Delay (W : Type) := delay_us : Z -> M W unit.
Definition delay_ms {W} `{Delay W} (n : Z) : M W unit := delay_us (1000 * n).

(** [millis] and [micros] as [uint32_t] readings. *)
Class Clock (W : Type) := {
  millis : M W Z;
  micros : M W Z
}.

(** [spi_transfer] exchanges one byte; [spi_high] and [spi_low] drive the idle
    levels. *)
Class SPIBus (W : Type) := {
  spi_begin : Z -> bool -> bool -> bool -> M W unit;
  spi_transfer : Z -> M W Z;
  spi_high : M W unit;
  spi_low : M W unit
}.

(** A clock that shows the true time [now] modulo [2^32] and never runs
    backwards over the operations of the other classes. *)
Class ClockOk (W : Type) `{Clock W} `{Delay W} `{SPIBus W} (now : W -> Z) : Prop := {
  millis_reads w : (millis w).1 = u32 (now w);
  millis_now w : now (millis w).2 = now w;
  delay_now n w : 0 <= n -> now w + n / 1000 <= now (delay_us n w).2;
  delay_bound n w : 0 <= n -> now (delay_us n w).2 <= now w + n / 1000 + 1;
  transfer_now b w : now w <= now (spi_transfer b w).2 <= now w + 1;
  high_now w : now w <= now (spi_high w).2 <= now w + 1;
  low_now w : now w <= now (spi_low w).2 <= now w + 1
}.
