(* ===== verification/Timer.v ===== *)
(** * Time: [avr/lib/timer/timer.c], [pico/lib/timer/timer.c], [pico/lib/util/util.c]

    The clocks behind [World.Clock].  On the AVR boards timer 0 ticks every 64
    cycles and its overflow interrupt counts the overflows; the RP2040 asks its
    SDK.  [TimerOk] relates the timer's registers to the ticks that have passed. *)

From Stdlib Require Import ZArith Lia.
From stdpp Require Import base tactics numbers list.
From S2P Require Import Prelude World.
Open Scope Z_scope.

(** ** AVR *)
Module AvrTimer.
Definition clockCyclesPerMicrosecond (F_CPU : Z) : Z := F_CPU / 1000000.
Definition clockCyclesToMicroseconds (F_CPU a : Z) : Z := a / clockCyclesPerMicrosecond F_CPU.
Definition MICROSECONDS_PER_TIMER0_OVERFLOW (F_CPU : Z) : Z :=
  clockCyclesToMicroseconds F_CPU (64 * 256).
Definition CS00 : Z := 0.
Definition CS01 : Z := 1.
Definition TOIE0 : Z := 0.

(** The counter and the overflow flag of the chip. *)
Class Timer0 (W : Type) := { TCNT0 : M W Z; TOV0 : M W bool }.

Section Timer.
Context {W : Type} `{Timer0 W} (F_CPU : Z).
(** [SREG_I] is the interrupt flag in [SREG], the only bit [cli] changes. *)
Record timer : Type := mkTimer {
  timer0_overflow_count : Z; SREG_I : bool; TCCR0B : Z; TIMSK0 : Z; chip : W
}.
#[global] Instance etaTimer : Settable timer := fun r =>
  {| timer0_overflow_count := timer0_overflow_count r; SREG_I := SREG_I r; TCCR0B := TCCR0B r;
     TIMSK0 := TIMSK0 r; chip := chip r |}.
Definition on_timer {A} (m : M W A) : M timer A :=
  fun s => let '(a, w) := m (chip s) in (a, s <| chip := w |>).
Definition cli : M timer unit := mmod (fun s => s <| SREG_I := false |>).

Definition TIMER0_OVF_vect : M timer unit :=
  mmod (fun s => s <| timer0_overflow_count ::= fun n => u32 (n + 1) |>).
Definition millis : M timer Z :=
  oldSREG ← mread SREG_I;
  cli ;;
  m ← mread timer0_overflow_count;
  mmod (fun s => s <| SREG_I := oldSREG |>) ;;
  mret (u32 (m * (MICROSECONDS_PER_TIMER0_OVERFLOW F_CPU / 8)) / (1000 / 8)).
Definition micros : M timer Z :=
  oldSREG ← mread SREG_I;
  cli ;;
  m ← mread timer0_overflow_count;
  t ← on_timer TCNT0;
  flag ← on_timer TOV0;
  let m := if (flag : bool) && (t <? 255) then u32 (m + 1) else m in
  mmod (fun s => s <| SREG_I := oldSREG |>) ;;
  mret (u32 (u32 (u32 (Z.shiftl m 8) + t) * (64 / clockCyclesPerMicrosecond F_CPU))).
Definition setupMicrosTimer : M timer unit :=
  mmod (fun s => s <| TCCR0B ::= fun r => bit_set r CS01 |>) ;;
  mmod (fun s => s <| TCCR0B ::= fun r => bit_set r CS00 |>) ;;
  mmod (fun s => s <| TIMSK0 ::= fun r => bit_set r TOIE0 |>).
(** The clock the rest of the firmware uses. *)
#[export] Instance AvrClock : Clock timer := {| World.millis := millis; World.micros := micros |}.
End Timer.
Arguments timer : clear implicits.
Arguments AvrClock {W _} F_CPU.

(** [ticks] counts the ticks since the timer started and [served] the overflows
    whose interrupt has run.  Reading a register takes at most one tick, and the
    interrupt does not run during the read. *)
Class TimerOk (W : Type) `{Timer0 W} (ticks served : W -> Z) : Prop := {
  TCNT0_reads w : (TCNT0 w).1 = ticks w mod 256;
  TCNT0_passes w : ticks w <= ticks (TCNT0 w).2 <= ticks w + 1;
  TCNT0_serves w : served (TCNT0 w).2 = served w;
  TOV0_reads w : (TOV0 w).1 = bool_decide (served w < ticks w / 256)
}.
End AvrTimer.

(** ** RP2040 *)
Module PicoTimer.
(** What the SDK offers. *)
Class PicoTime (W : Type) := {
  time_us_64 : M W Z; us_to_ms : Z -> Z; sleep_ms : Z -> M W unit; sleep_us : Z -> M W unit
}.
Section Timer.
Context {W : Type} `{PicoTime W}.
Definition millis : M W Z := t ← time_us_64; mret (u32 (us_to_ms t)).
Definition micros : M W Z := t ← time_us_64; mret (u32 t).
Definition setupMicrosTimer : M W unit := mret tt.
Definition _delay_ms (ms : Z) : M W unit := sleep_ms ms.
Definition _delay_us (us : Z) : M W unit := sleep_us us.
End Timer.
End PicoTimer.

(** ** What the AVR clock shows *)
Section Avr.
Import AvrTimer.
Context {W : Type} `{Timer0 W}.
Definition MHz16 : Z := 16000000.
Abbreviation avr_millis := (AvrTimer.millis (W := W) MHz16).
(** The milliseconds that have passed after [n] overflows of 1024 us each. *)
Definition true_ms (n : Z) : Z := n * 1024 / 1000.
(** [millis] starts again after this many overflows. *)
Definition period : Z := 2 ^ 25.

Lemma millis_run s :
  avr_millis s = (u32 (timer0_overflow_count s * 128) / 125, s).
Proof. by destruct s. Qed.
Lemma true_ms_mono a b : a <= b -> true_ms a <= true_ms b.
Proof. intros. apply Z.div_le_mono; lia. Qed.
Lemma millis_value s : (avr_millis s).1 = true_ms (timer0_overflow_count s mod period).
Proof.
  rewrite millis_run. cbn [fst]. unfold uwrap, true_ms, period.
  generalize (timer0_overflow_count s). intros c.
  change (2 ^ 32) with (2 ^ 25 * 128). rewrite Z.mul_mod_distr_r by lia.
  generalize (c mod 2 ^ 25). intros x.
  replace (x * 1024) with (x * 128 * 8) by lia. change 1000 with (125 * 8).
  by rewrite Z.div_mul_cancel_r by lia.
Qed.

(** [millis] shows the true time, and leaves the interrupt flag and the
    counter as they were, until the counter of overflows reaches 2^25; there the
    multiplication by 128 overflows and the clock starts again from 0, after
    34359 s (9.5 hours) and not after 2^32 ms. *)
Theorem millis_period s :
  avr_millis s = (true_ms (timer0_overflow_count s mod period), s) /\
  (0 <= timer0_overflow_count s < period ->
     (avr_millis s).1 = u32 (true_ms (timer0_overflow_count s))) /\
  (timer0_overflow_count s = period -> (avr_millis s).1 = 0 /\ true_ms period = 34359738).
Proof.
  repeat split.
  - rewrite (surjective_pairing (avr_millis s)), millis_value. by rewrite millis_run.
  - intros Hc. rewrite millis_value, Z.mod_small by done.
    rewrite uwrap_small; [done|]. unfold in_u, true_ms, period in *.
    split; [apply Z.div_pos; lia | apply Z.div_lt_upper_bound; lia].
  - rename H0 into E. rewrite millis_value, E. reflexivity.
Qed.

(** A time-out measured across that point is wrong: however few overflows
    after it [millis] is read, the unsigned difference from a reading before it
    exceeds 4260607558 ms (49 days), more than every limit of the firmware. *)
Theorem millis_restart_fires s s' :
  0 <= timer0_overflow_count s < period ->
  period <= timer0_overflow_count s' < timer0_overflow_count s + period ->
  4260607558 <= u32 ((avr_millis s').1 - (avr_millis s).1) /\
  true_ms (timer0_overflow_count s') - true_ms (timer0_overflow_count s) <= 34359738.
Proof.
  intros H1 H2. rewrite !millis_value.
  rewrite (Z.mod_small (timer0_overflow_count s)) by done.
  set (c := timer0_overflow_count s) in *. set (c' := timer0_overflow_count s') in *.
  replace (c' mod period) with (c' - period)
    by (rewrite <- (Z.mod_small (c' - period) period) by (unfold period in *; lia);
        rewrite Zminus_mod, Z_mod_same_full, Z.sub_0_r; apply Z.mod_mod; done).
  split.
  - assert (true_ms (c' - period) + 1 <= true_ms c) as Hlt.
    { unfold true_ms. rewrite <- (Z.div_add _ 1 1000) by done. apply Z.div_le_mono; lia. }
    assert (0 <= true_ms (c' - period)) by (apply Z.div_pos; lia).
    assert (true_ms c <= true_ms (period - 1)) as Hc by (apply true_ms_mono; lia).
    change (true_ms (period - 1)) with 34359737 in Hc.
    unfold uwrap. rewrite <- (Z.mod_add _ 1) by done.
    rewrite Z.mod_small; lia.
  - assert (true_ms c' <= true_ms (c + (period - 1))) as X by (apply true_ms_mono; lia).
    enough (true_ms (c + (period - 1)) <= true_ms c + 34359738) by lia.
    unfold true_ms, period.
    replace ((c + (2 ^ 25 - 1)) * 1024) with (c * 1024 + (2 ^ 25 - 1) * 1024) by lia.
    apply Z.lt_succ_r, Z.div_lt_upper_bound; [lia|].
    pose proof (Z.div_mod (c * 1024) 1000 ltac:(lia)).
    pose proof (Z.mod_pos_bound (c * 1024) 1000 ltac:(lia)). lia.
Qed.

Section Micros.
Context (ticks served : W -> Z) `{!TimerOk W ticks served}.
(** The counter holds the overflows whose interrupt has run. *)
Definition in_step (s : timer W) : Prop :=
  timer0_overflow_count s = u32 (served (chip s)) /\ 0 <= served (chip s).

Lemma count_ticks c x : u32 (u32 (u32 (Z.shiftl (u32 c) 8) + x) * 4) = u32 (4 * (256 * c + x)).
Proof.
  unfold uwrap. rewrite Z.shiftl_mul_pow2 by done.
  rewrite (Z.mul_mod_idemp_l c), (Z.add_mod_idemp_l (c * _)), (Z.mul_mod_idemp_l (_ + x)) by done.
  f_equal. lia.
Qed.

Lemma micros_run s :
  let (t, w) := TCNT0 (chip s) in
  let (flag, w') := TOV0 w in
  let m := timer0_overflow_count s in
  AvrTimer.micros (W := W) MHz16 s =
    (u32 (u32 (u32 (Z.shiftl (if flag && (t <? 255) then u32 (m + 1) else m) 8) + t) * 4),
     s <| chip := w' |>).
Proof.
  destruct s as [c i b k w]. unfold AvrTimer.micros, on_timer, mbind, M_bind, mread, mmod, mret, M_ret.
  cbn -[u32 Z.shiftl]. destruct (TCNT0 w) as [t w1]. cbn -[u32 Z.shiftl].
  by destruct (TOV0 w1) as [flag w2].
Qed.

(** C33: [micros] shows the time at which the counter was read, 4 us for every tick
    modulo 2^32, whether or not the counter has just overflowed: an overflow
    whose interrupt is still waiting is counted, one that happens between the
    reads of the counter and of the flag is not.  At most one overflow may be
    waiting, and not for a whole round of the counter. *)
Theorem micros_exact s :
  in_step s ->
  256 * served (chip s) <= ticks (chip s) < 256 * served (chip s) + 511 ->
  (AvrTimer.micros (W := W) MHz16 s).1 = u32 (4 * ticks (chip s)) /\
  SREG_I (AvrTimer.micros (W := W) MHz16 s).2 = SREG_I s /\
  timer0_overflow_count (AvrTimer.micros (W := W) MHz16 s).2 = timer0_overflow_count s.
Proof.
  intros [E Hpos] Hw. destruct s as [c i b k w]. cbn in E, Hpos, Hw.
  pose proof (TCNT0_reads w) as R. pose proof (TCNT0_passes w) as P.
  pose proof (TCNT0_serves w) as S. pose proof (TOV0_reads (TCNT0 w).2) as F.
  pose proof (micros_run (mkTimer c i b k w)) as X. cbn [chip timer0_overflow_count] in X.
  destruct (TCNT0 w) as [t w1]. cbn [fst snd] in *. destruct (TOV0 w1) as [flag w2]. cbn [fst snd] in *.
  rewrite X. subst t flag c. clear X. split; [cbn [fst chip]|done].
  pose proof (Z.div_mod (ticks w) 256 ltac:(lia)). pose proof (Z.mod_pos_bound (ticks w) 256 ltac:(lia)).
  rewrite S in *. set (n := served w) in *.
  assert (ticks w / 256 = n \/ ticks w / 256 = n + 1) as [D|D].
  { pose proof (Z.div_le_lower_bound (ticks w) 256 n). 
    pose proof (Z.div_lt_upper_bound (ticks w) 256 (n + 2)). lia. }
  - replace (_ && _) with false; [rewrite count_ticks; f_equal; lia|].
    symmetry. apply andb_false_iff. destruct (Z.ltb_spec (ticks w mod 256) 255); [left|by right].
    apply bool_decide_eq_false_2. apply Z.nlt_ge.
    apply Z.lt_succ_r, Z.div_lt_upper_bound; lia.
  - replace (_ && _) with true.
    + replace (u32 (u32 n + 1)) with (u32 (n + 1)) by (unfold uwrap; by rewrite Z.add_mod_idemp_l).
      rewrite count_ticks. f_equal. lia.
    + symmetry. apply andb_true_iff. split; [|apply Z.ltb_lt; lia].
      apply bool_decide_eq_true_2. apply Z.lt_le_trans with (n + 1); [lia|].
      apply Z.div_le_lower_bound; lia.
Qed.
End Micros.
End Avr.

(** ** A timer that ticks once per read *)
Definition bench_timer : AvrTimer.Timer0 (Z * Z) := {|
  AvrTimer.TCNT0 w := (w.1 mod 256, (w.1 + 1, w.2));
  AvrTimer.TOV0 w := (bool_decide (w.2 < w.1 / 256), w)
|}.
Lemma bench_timer_ok : @AvrTimer.TimerOk _ bench_timer fst snd.
Proof. split; intros []; cbn; lia || done. Qed.
(** The overflow after 511 ticks, 2044 us, is read between the two registers. *)
Lemma micros_exact_witness :
  let s := AvrTimer.mkTimer 1 true 3 1 (511, 1) in
  (@AvrTimer.micros _ bench_timer MHz16 s).1 = 2044 /\
  (@AvrTimer.micros _ bench_timer MHz16 (AvrTimer.mkTimer 1 true 3 1 (512, 1))).1 = 2048.
Proof.
  split.
  - apply (@micros_exact _ bench_timer fst snd bench_timer_ok); [split; [reflexivity|done]|cbn; lia].
  - apply (@micros_exact _ bench_timer fst snd bench_timer_ok); [split; [reflexivity|done]|cbn; lia].
Defined.
Lemma millis_restart_fires_witness :
  4260607558 <= u32 ((AvrTimer.millis (W := Z) MHz16
                        (AvrTimer.mkTimer (2 ^ 25 + 10) true 3 1 0)).1 -
                     (AvrTimer.millis (W := Z) MHz16
                        (AvrTimer.mkTimer (2 ^ 25 - 10) true 3 1 0)).1).
Proof.
  eapply (@millis_restart_fires Z
    (AvrTimer.mkTimer (2 ^ 25 - 10) true 3 1 0) (AvrTimer.mkTimer (2 ^ 25 + 10) true 3 1 0));
    cbn; unfold period; lia.
Defined.
Lemma millis_period_witness :
  (AvrTimer.millis (W := Z) MHz16 (AvrTimer.mkTimer 1000 true 3 1 0)).1 = 1024.
Proof.
  pose proof (@millis_period Z (AvrTimer.mkTimer 1000 true 3 1 0)) as (_ & H & _).
  rewrite H; [reflexivity | cbn; unfold period; lia].
Defined.
