(* ===== verification/I2c.v ===== *)
(** * I2C: [shared/lib/i2c], [avr/lib/i2c/i2c.c], [pico/lib/i2c/i2c.c]

    [Class I2CBus] is the driver as the sensor code sees it; the pointer-style
    helpers of [i2c_shared.c] are written against it.  [Twi] is the AVR driver:
    a busy-waiting front end and an interrupt handler that share state, run
    against an arbitrary hardware ([TwiHW]).  [PicoI2c] is the RP2040 one. *)

From Stdlib Require Import ZArith Lia.
From stdpp Require Import base tactics numbers list.
From S2P Require Import Prelude Defs World.
Open Scope Z_scope.

(** ** Interface

    [twi_readFrom address data length sendStop] returns the success flag and the
    new contents of the caller's buffer. *)
Class I2CBus (W : Type) := {
  twi_readFrom : Z -> list Z -> Z -> bool -> M W (bool * list Z);
  twi_writeTo : Z -> list Z -> Z -> bool -> bool -> M W bool
}.

(** ** i2c_shared.c *)
Section Shared.
Context {W : Type} `{I2CBus W} `{Delay W}.
Definition twi_readFromPointerSlow (address pointer length : Z) (data : list Z)
  : M W (bool * list Z) :=
  ok ← twi_writeTo address [pointer] 1 true true;
  if negb ok then mret (false, data)
  else delay_us 180 ;; twi_readFrom address data length true.
Definition twi_readFromPointer (address pointer length : Z) (data : list Z)
  : M W (bool * list Z) :=
  ok ← twi_writeTo address [pointer] 1 true true;
  if (ok : bool) then twi_readFrom address data length true else mret (false, data).
Definition twi_writeToPointer (address pointer length : Z) (data : list Z) : M W bool :=
  let data2 := pointer :: take (Z.to_nat length) data in
  twi_writeTo address data2 (u8 (length + 1)) true true.
Definition twi_writeSingleToPointer (address pointer data : Z) : M W bool :=
  twi_writeToPointer address pointer 1 [data].
End Shared.

Definition TWI_BUFFER_LENGTH : Z := 32.
Definition TWI_READY : Z := 0.
Definition TWI_MRX : Z := 1.
Definition TWI_MTX : Z := 2.
Definition TWI_SRX : Z := 3.
Definition TWI_STX : Z := 4.

(** ** The AVR driver *)
Module Twi.
(** Register bits and status codes of the TWI peripheral (avr-libc's io.h and
    compat/twi.h). *)
Definition TWINT := 7.
Definition TWEA := 6.
Definition TWSTA := 5.
Definition TWSTO := 4.
Definition TWWC := 3.
Definition TWEN := 2.
Definition TWIE := 0.
Definition TWPS0 := 0.
Definition TWPS1 := 1.
Definition TW_START := 0x08.
Definition TW_REP_START := 0x10.
Definition TW_MT_SLA_ACK := 0x18.
Definition TW_MT_SLA_NACK := 0x20.
Definition TW_MT_DATA_ACK := 0x28.
Definition TW_MT_DATA_NACK := 0x30.
Definition TW_MT_ARB_LOST := 0x38.
Definition TW_MR_SLA_ACK := 0x40.
Definition TW_MR_SLA_NACK := 0x48.
Definition TW_MR_DATA_ACK := 0x50.
Definition TW_MR_DATA_NACK := 0x58.
Definition TW_NO_INFO := 0xF8.
Definition TW_BUS_ERROR := 0x00.
Definition TW_READ := 1.
Definition TW_WRITE := 0.

Definition TIMEOUT : nat := Z.to_nat 32767.

(** The peripheral as the driver meets it: whether an interrupt is pending (and
    then the status code and data register it presents), whether [TWCR] still
    shows [TWSTO], and whether it shows [TWWC]. *)
Class TwiHW (HW : Type) := {
  hw_event : Z -> Z -> HW -> option (Z * Z) * HW;
  hw_twsto : HW -> bool * HW;
  hw_twwc : HW -> bool * HW
}.

Section Driver.
Context {HW : Type} `{TwiHW HW}.

Record twi : Type := mkTwi {
  twi_state : Z;
  twi_slarw : Z;
  twi_sendStop : bool;
  twi_inRepStart : bool;
  twi_masterBuffer : list Z;
  twi_masterBufferIndex : Z;
  twi_masterBufferLength : Z;
  twi_error : Z;
  twcr : Z; twdr : Z; twsr : Z; twbr : Z; port : Z;
  hw : HW
}.
#[global] Instance etaTwi : Settable twi := fun r =>
  {| twi_state := twi_state r; twi_slarw := twi_slarw r; twi_sendStop := twi_sendStop r;
     twi_inRepStart := twi_inRepStart r; twi_masterBuffer := twi_masterBuffer r;
     twi_masterBufferIndex := twi_masterBufferIndex r;
     twi_masterBufferLength := twi_masterBufferLength r; twi_error := twi_error r;
     twcr := twcr r; twdr := twdr r; twsr := twsr r; twbr := twbr r; port := port r;
     hw := hw r |}.

Definition bits (l : list Z) : Z := foldr (fun b acc => Z.lor (BV b) acc) 0 l.
Definition set_TWCR (v : Z) : M twi unit := mmod (fun s => s <| twcr := v |>).
Definition set_TWDR (v : Z) : M twi unit := mmod (fun s => s <| twdr := v |>).
Definition set_state (v : Z) : M twi unit := mmod (fun s => s <| twi_state := v |>).
Definition set_error (v : Z) : M twi unit := mmod (fun s => s <| twi_error := v |>).
Definition read_hw (f : HW -> bool * HW) : M twi bool :=
  fun s => let '(b, h) := f (hw s) in (b, s <| hw := h |>).

(** [timeoutCounter = TIMEOUT; while (cond) { timeoutCounter--; if
    (timeoutCounter == 0) return false; body }]; [true] when the loop ended
    because [cond] failed.  Only the [TIMEOUT != 0] branches are modelled: the
    variable is never assigned. *)
Fixpoint wait_while (timeoutCounter : nat) (cond : M twi bool) (body : M twi unit)
  : M twi bool :=
  match timeoutCounter with
  | O => mret false
  | S n =>
      c ← cond;
      if (c : bool) then
        match n with
        | O => mret false
        | S _ => body ;; wait_while n cond body
        end
      else mret true
  end.

Definition twi_reply (ack : bool) : M twi unit :=
  set_TWCR (if ack then bits [TWEN; TWIE; TWINT; TWEA] else bits [TWEN; TWIE; TWINT]).
Definition twi_stop : M twi bool :=
  set_TWCR (bits [TWEN; TWIE; TWEA; TWINT; TWSTO]) ;;
  stopped ← wait_while TIMEOUT (read_hw hw_twsto) (mret tt);
  if (stopped : bool) then set_state TWI_READY ;; mret true else mret false.
Definition twi_releaseBus : M twi unit :=
  set_TWCR (bits [TWEN; TWIE; TWEA; TWINT]) ;; set_state TWI_READY.

(** End of a transfer: a stop, or a repeated start left pending. *)
Definition finish : M twi unit :=
  stop ← mread twi_sendStop;
  if (stop : bool) then twi_stop ;; mret tt
  else mmod (fun s => s <| twi_inRepStart := true |>) ;;
       set_TWCR (bits [TWINT; TWSTA; TWEN]) ;;
       set_state TWI_READY.
(** [twi_masterBuffer[twi_masterBufferIndex++] = TWDR]. *)
Definition store_byte : M twi unit :=
  mmod (fun s => s <| twi_masterBuffer ::= aset (twi_masterBufferIndex s) (twdr s) |>
                   <| twi_masterBufferIndex ::= fun i => u8 (i + 1) |>).
Definition reply_more : M twi unit :=
  s ← mread id; twi_reply (twi_masterBufferIndex s <? twi_masterBufferLength s).

(** [ISR(TWI_vect)], with the status code as argument. *)
Definition TWI_vect (status : Z) : M twi unit :=
  if (status =? TW_START) || (status =? TW_REP_START) then
    slarw ← mread twi_slarw; set_TWDR slarw ;; twi_reply true
  else if (status =? TW_MT_SLA_ACK) || (status =? TW_MT_DATA_ACK) then
    s ← mread id;
    if twi_masterBufferIndex s <? twi_masterBufferLength s then
      set_TWDR (aget 0 (twi_masterBuffer s) (twi_masterBufferIndex s)) ;;
      mmod (fun s => s <| twi_masterBufferIndex ::= fun i => u8 (i + 1) |>) ;;
      twi_reply true
    else finish
  else if status =? TW_MT_SLA_NACK then set_error TW_MT_SLA_NACK ;; twi_stop ;; mret tt
  else if status =? TW_MT_DATA_NACK then set_error TW_MT_DATA_NACK ;; twi_stop ;; mret tt
  else if status =? TW_MT_ARB_LOST then set_error TW_MT_ARB_LOST ;; twi_releaseBus
  else if status =? TW_MR_DATA_ACK then store_byte ;; reply_more
  else if status =? TW_MR_SLA_ACK then reply_more
  else if status =? TW_MR_DATA_NACK then store_byte ;; finish
  else if status =? TW_MR_SLA_NACK then twi_stop ;; mret tt
  else if status =? TW_NO_INFO then mret tt
  else if status =? TW_BUS_ERROR then set_error TW_BUS_ERROR ;; twi_stop ;; mret tt
  else mret tt.

(** The interrupt delivers its data register, then the handler runs. *)
Definition interrupt (ev : Z * Z) : M twi unit := set_TWDR ev.2 ;; TWI_vect ev.1.
(** One read of a volatile in a waiting loop: an interrupt may come first. *)
Definition poll : M twi unit :=
  fun s =>
    let '(ev, h) := hw_event (twcr s) (twdr s) (hw s) in
    let s := s <| hw := h |> in
    match ev with Some ev => interrupt ev s | None => (tt, s) end.
Definition state_is (v : Z) : M twi bool := poll ;; mread (fun s => twi_state s =? v).
Definition state_isnt (v : Z) : M twi bool := poll ;; mread (fun s => negb (twi_state s =? v)).

Definition twi_init (is_328 : bool) : M twi unit :=
  mmod (fun s => s <| twi_state := TWI_READY |> <| twi_sendStop := true |>
                   <| twi_inRepStart := false |>
                   <| port ::= fun p => if is_328 then bit_set (bit_set p 4) 5
                                        else bit_set (bit_set p 0) 1 |>
                   <| twsr ::= fun r => bit_clear (bit_clear r TWPS0) TWPS1 |>
                   <| twbr := 10 |>) ;;
  set_TWCR (bits [TWEN; TWIE; TWEA]).
Definition twi_disable : M twi unit :=
  mmod (fun s => s <| twcr ::= fun r => Z.ldiff r (bits [TWEN; TWIE; TWEA]) |>).

(** Start of a transfer: the address is written now when a repeated start is
    pending, otherwise the handler sends it after the start condition. *)
Definition start_transfer : M twi bool :=
  rep ← mread twi_inRepStart;
  if (rep : bool) then
    mmod (fun s => s <| twi_inRepStart := false |>) ;;
    slarw ← mread twi_slarw;
    set_TWDR slarw ;;
    ok ← wait_while TIMEOUT (read_hw hw_twwc) (set_TWDR slarw);
    if (ok : bool) then set_TWCR (bits [TWINT; TWEA; TWEN; TWIE]) ;; mret true else mret false
  else set_TWCR (bits [TWEN; TWIE; TWEA; TWINT; TWSTA]) ;; mret true.

Definition readFrom (address : Z) (data : list Z) (length : Z) (sendStop : bool)
  : M twi (bool * list Z) :=
  if TWI_BUFFER_LENGTH <? length then mret (false, data) else
  ready ← wait_while TIMEOUT (state_isnt TWI_READY) (mret tt);
  if negb ready then mret (false, data) else
  mmod (fun s => s <| twi_state := TWI_MRX |> <| twi_sendStop := sendStop |>
                   <| twi_error := 0xFF |> <| twi_masterBufferIndex := 0 |>
                   <| twi_masterBufferLength := u8 (length - 1) |>
                   <| twi_slarw := u8 (Z.lor TW_READ (Z.shiftl address 1)) |>) ;;
  started ← start_transfer;
  if negb started then mret (false, data) else
  finished ← wait_while TIMEOUT (state_is TWI_MRX) (mret tt);
  if negb finished then mret (false, data) else
  s ← mread id;
  let length := if twi_masterBufferIndex s <? length then twi_masterBufferIndex s else length in
  mret (negb (length =? 0), splice 0 (take (Z.to_nat length) (twi_masterBuffer s)) data).

Definition writeTo (address : Z) (data : list Z) (length : Z) (wait sendStop : bool)
  : M twi bool :=
  if TWI_BUFFER_LENGTH <? length then mret false else
  ready ← wait_while TIMEOUT (state_isnt TWI_READY) (mret tt);
  if negb ready then mret false else
  mmod (fun s => s <| twi_state := TWI_MTX |> <| twi_sendStop := sendStop |>
                   <| twi_error := 0xFF |> <| twi_masterBufferIndex := 0 |>
                   <| twi_masterBufferLength := length |>
                   <| twi_masterBuffer ::= splice 0 (take (Z.to_nat length) data) |>
                   <| twi_slarw := u8 (Z.lor TW_WRITE (Z.shiftl address 1)) |>) ;;
  started ← start_transfer;
  if negb started then mret false else
  finished ← wait_while TIMEOUT
    (if wait then state_is TWI_MTX else mret false) (mret tt);
  if negb finished then mret false else
  mread (fun s => twi_error s =? 0xFF).
End Driver.
Arguments twi : clear implicits.

#[global] Instance TwiBus {HW} `{TwiHW HW} : I2CBus (twi HW) :=
  {| twi_readFrom := readFrom; twi_writeTo := writeTo |}.
End Twi.

(** ** The RP2040 driver *)
Module PicoI2c.
(** The pico-sdk's blocking transfers return the number of bytes moved or a
    negative error code. *)
Class PicoSdkI2c (W : Type) := {
  i2c_init : Z -> Z -> M W unit;
  i2c_set_baudrate : Z -> Z -> M W unit;
  i2c_deinit : Z -> M W unit;
  gpio_set_function_i2c : Z -> M W unit;
  gpio_pull_up : Z -> M W unit;
  i2c_read_blocking : Z -> Z -> list Z -> Z -> bool -> M W (Z * list Z);
  i2c_write_blocking : Z -> Z -> list Z -> Z -> bool -> M W Z
}.
Section Driver.
Context {W : Type} `{PicoSdkI2c W} `{Delay W}.
Definition TWI_FREQ : Z := 500000.
Definition twi_init (PIN_WIRE_SDA PIN_WIRE_SCL : Z) : M W unit :=
  i2c_init 1 TWI_FREQ ;; i2c_set_baudrate 1 TWI_FREQ ;;
  gpio_set_function_i2c PIN_WIRE_SDA ;; gpio_set_function_i2c PIN_WIRE_SCL ;;
  gpio_pull_up PIN_WIRE_SDA ;; gpio_pull_up PIN_WIRE_SCL.
Definition twi_disable : M W unit := i2c_deinit 0.
Definition readFrom (address : Z) (data : list Z) (length : Z) (sendStop : bool)
  : M W (bool * list Z) :=
  r ← (i2c_read_blocking 1 address data length (negb sendStop) : M W (Z * list Z));
  mret (r.1 >? 0, r.2).
(** The result is stored in a [uint8_t] before it is tested. *)
Definition writeTo (address : Z) (data : list Z) (length : Z) (wait sendStop : bool)
  : M W bool :=
  r ← (i2c_write_blocking 1 address data length (negb sendStop) : M W Z);
  let ret := u8 r in
  delay_us 60 ;; mret (ret >? 0).
End Driver.
#[global] Instance PicoBus {W} `{PicoSdkI2c W} `{Delay W} : I2CBus W :=
  {| twi_readFrom := readFrom; twi_writeTo := writeTo |}.
End PicoI2c.

(** ** Proofs about the AVR driver *)
Section WaitLoops.
Context {HW : Type} `{Twi.TwiHW HW}.
Implicit Types s : Twi.twi HW.

Lemma wait_while_done n cond body s s' :
  (0 < n)%nat -> cond s = (false, s') -> Twi.wait_while n cond body s = (true, s').
Proof.
  intros Hn E. destruct n as [|n]; [lia|]. cbn [Twi.wait_while].
  by rewrite (mbind_eq _ _ _ _ _ E).
Qed.
Lemma wait_while_next n cond s s' :
  (1 < n)%nat -> cond s = (true, s') ->
  Twi.wait_while n cond (mret tt) s = Twi.wait_while (n - 1) cond (mret tt) s'.
Proof.
  intros Hn E. destruct n as [|[|n]]; [lia|lia|]. 
  replace (S (S n) - 1)%nat with (S n) by lia.
  change (Twi.wait_while (S (S n)) cond (mret tt) s) with
    ((c ← cond; if (c : bool) then mret tt ;; Twi.wait_while (S n) cond (mret tt)
                else mret true) s).
  by rewrite (mbind_eq _ _ _ _ _ E), mbind_run.
Qed.
(** A condition that never fails runs the loop into its timeout. *)
Lemma wait_while_timeout (I : Twi.twi HW -> Prop) n cond s :
  (forall s, I s -> (cond s).1 = true /\ I (cond s).2) -> I s ->
  exists s', Twi.wait_while n cond (mret tt) s = (false, s') /\ I s'.
Proof.
  intros Hc. revert s. induction n as [|n IH]; intros s Hs; [by exists s|].
  cbn [Twi.wait_while]. rewrite mbind_run. destruct (Hc s Hs) as [-> Hs'].
  destruct n as [|n]; [by eexists|]. rewrite mbind_run. apply IH. exact Hs'.
Qed.
End WaitLoops.

(** A bus whose peripheral never raises an interrupt. *)
Definition silent (HW : Type) `{Twi.TwiHW HW} : Prop :=
  forall c d h, exists h', Twi.hw_event c d h = (None, h').

Section Silent.
Context {HW : Type} `{Twi.TwiHW HW} (Hsilent : silent HW).
Implicit Types s : Twi.twi HW.

Lemma poll_silent s : exists h, Twi.poll s = (tt, s <| Twi.hw := h |>).
Proof.
  destruct (Hsilent (Twi.twcr s) (Twi.twdr s) (Twi.hw s)) as [h E].
  exists h. unfold Twi.poll. by rewrite E.
Qed.
Lemma state_is_silent v s : exists h,
  Twi.state_is v s = (Twi.twi_state s =? v, s <| Twi.hw := h |>).
Proof.
  destruct (poll_silent s) as [h E]. exists h. unfold Twi.state_is.
  rewrite (mbind_eq _ _ _ _ _ E). by destruct s.
Qed.
Lemma state_isnt_silent v s : exists h,
  Twi.state_isnt v s = (negb (Twi.twi_state s =? v), s <| Twi.hw := h |>).
Proof.
  destruct (poll_silent s) as [h E]. exists h. unfold Twi.state_isnt.
  rewrite (mbind_eq _ _ _ _ _ E). by destruct s.
Qed.
Lemma wait_state_silent n v s :
  Twi.twi_state s = v ->
  exists s', Twi.wait_while n (Twi.state_is v) (mret tt) s = (false, s') /\
    Twi.twi_state s' = v.
Proof.
  intros Hs. apply (wait_while_timeout (fun s => Twi.twi_state s = v)); [|done].
  intros t <-. destruct (state_is_silent (Twi.twi_state t) t) as [h ->].
  rewrite Z.eqb_refl. by destruct t.
Qed.
(** Not ready: every transfer gives up at its first loop. *)
Lemma not_ready_fails s : Twi.twi_state s <> TWI_READY ->
  exists s', Twi.wait_while Twi.TIMEOUT (Twi.state_isnt TWI_READY) (mret tt) s = (false, s') /\
    Twi.twi_state s' = Twi.twi_state s.
Proof.
  intros Hs. 
  apply (wait_while_timeout (fun t => Twi.twi_state t = Twi.twi_state s)); [|done].
  intros t Ht. destruct (state_isnt_silent TWI_READY t) as [h ->]. rewrite Ht.
  rewrite (proj2 (Z.eqb_neq _ _) Hs). split; [done|]. by destruct t.
Qed.
Lemma readFrom_not_ready address data length stop s :
  Twi.twi_state s <> TWI_READY ->
  exists s', Twi.readFrom address data length stop s = ((false, data), s') /\
    Twi.twi_state s' = Twi.twi_state s.
Proof.
  intros Hs. unfold Twi.readFrom. case_match; [by eexists|].
  destruct (not_ready_fails s Hs) as (s' & E & E').
  exists s'. by rewrite (mbind_eq _ _ _ _ _ E).
Qed.
Lemma writeTo_not_ready address data length wait stop s :
  Twi.twi_state s <> TWI_READY ->
  exists s', Twi.writeTo address data length wait stop s = (false, s') /\
    Twi.twi_state s' = Twi.twi_state s.
Proof.
  intros Hs. unfold Twi.writeTo. case_match; [by eexists|].
  destruct (not_ready_fails s Hs) as (s' & E & E').
  exists s'. by rewrite (mbind_eq _ _ _ _ _ E).
Qed.
Lemma ready_passes s : Twi.twi_state s = TWI_READY ->
  exists h, Twi.wait_while Twi.TIMEOUT (Twi.state_isnt TWI_READY) (mret tt) s
            = (true, s <| Twi.hw := h |>).
Proof.
  intros Hs. destruct (state_isnt_silent TWI_READY s) as [h E]. rewrite Hs in E.
  exists h. apply wait_while_done; [by apply Nat.ltb_lt|exact E].
Qed.
End Silent.

(** C40: A peripheral that stops raising interrupts wedges the AVR driver.  The
    busy-waiting loops are bounded, so every call returns, but a transfer that
    times out leaves [twi_state] at [TWI_MTX]: it fails, and so does every later
    read or write, until [twi_init] runs again. *)
Theorem timeout_wedges_bus {HW} `{Twi.TwiHW HW} (s : Twi.twi HW) address data length stop :
  silent HW -> Twi.twi_state s = TWI_READY -> Twi.twi_inRepStart s = false ->
  length <= TWI_BUFFER_LENGTH ->
  exists s', Twi.writeTo address data length true stop s = (false, s') /\
    Twi.twi_state s' = TWI_MTX /\
    (forall a d l w st, exists s'', Twi.writeTo a d l w st s' = (false, s'') /\
       Twi.twi_state s'' = TWI_MTX) /\
    (forall a d l st, exists s'', Twi.readFrom a d l st s' = ((false, d), s'') /\
       Twi.twi_state s'' = TWI_MTX).
Proof.
  intros Hsil Hs Hrep Hlen. unfold Twi.writeTo at 1.
  rewrite (proj2 (Z.ltb_ge _ _) Hlen).
  destruct (ready_passes Hsil s Hs) as [h E]. rewrite (mbind_eq _ _ _ _ _ E).
  cbn [negb]. rewrite mbind_run. cbn [snd mmod]. rewrite mbind_run.
  match goal with |- context [Twi.start_transfer ?t] => set (s1 := t) end.
  assert (Twi.start_transfer s1 =
    (true, s1 <| Twi.twcr := Twi.bits [Twi.TWEN; Twi.TWIE; Twi.TWEA; Twi.TWINT; Twi.TWSTA] |>))
    as ->.
  { unfold Twi.start_transfer. rewrite mbind_run. cbn [fst snd mread].
    replace (Twi.twi_inRepStart s1) with false by (unfold s1; by destruct s). done. }
  cbn [fst snd negb]. rewrite mbind_run.
  match goal with |- context [Twi.wait_while _ _ _ ?t] => set (s2 := t) end.
  destruct (wait_state_silent Hsil Twi.TIMEOUT TWI_MTX s2) as (s' & -> & Hs').
  { unfold s2, s1. by destruct s. }
  cbn [fst snd negb]. exists s'. split; [done|]. split; [done|].
  assert (Twi.twi_state s' <> TWI_READY) as Hn by by rewrite Hs'.
  split; intros.
  - destruct (writeTo_not_ready Hsil a d l w st s' Hn) as (s'' & E1 & E2).
    exists s''. by rewrite E2.
  - destruct (readFrom_not_ready Hsil a d l st s' Hn) as (s'' & E1 & E2).
    exists s''. by rewrite E2.
Qed.

(** A concrete dead peripheral. *)
Definition dead_hw : Twi.TwiHW unit :=
  {| Twi.hw_event := fun _ _ h => (None, h); Twi.hw_twsto := fun h => (false, h);
     Twi.hw_twwc := fun h => (false, h) |}.
Definition twi0 {HW} (h : HW) : Twi.twi HW :=
  Twi.mkTwi TWI_READY 0 true false (replicate 32 0) 0 0 0xFF 0x45 0 0 10 0 h.
Lemma timeout_wedges_bus_witness :
  exists s', @Twi.writeTo unit dead_hw 0x52 [0xF0; 0x55] 2 true true (twi0 tt) = (false, s') /\
    Twi.twi_state s' = TWI_MTX.
Proof.
  destruct (@timeout_wedges_bus unit dead_hw (twi0 tt) 0x52 [0xF0; 0x55] 2 true)
    as (s' & E1 & E2 & _); [intros c d h; by exists h|reflexivity|reflexivity|done|].
  exists s'. by split.
Defined.

(** ** A scripted peripheral

    Interrupts arrive at the polls the script says, each with its status and
    received byte; the values the driver had put in [TWDR] by then are logged, so
    the log is what went out on the bus. *)
Record scripted : Type := mkScript { script : list (option (Z * Z)); sent : list Z }.
#[global] Instance scripted_hw : Twi.TwiHW scripted :=
  {| Twi.hw_event := fun _ d h =>
       match script h with
       | [] => (None, h)
       | None :: r => (None, mkScript r (sent h))
       | Some ev :: r => (Some ev, mkScript r (sent h ++ [d]))
       end;
     Twi.hw_twsto := fun h => (false, h);
     Twi.hw_twwc := fun h => (false, h) |}.

Lemma omap_last_some {A} (l : list (option A)) :
  last l <> Some None -> l <> [] -> exists e r, omap id l = e :: r.
Proof.
  induction l as [|[e|] l IH]; intros Hl Hn; [done|by eexists _, _|].
  destruct l as [|o l]; [done|]. apply IH; [exact Hl|done].
Qed.
Lemma drop_split {A} (l : list A) x l' :
  take (length l + 1) l' = l ++ [x] -> drop (length l) l' = x :: drop (length l + 1) l'.
Proof.
  intros H. rewrite <- (take_drop (length l + 1) l') at 1. rewrite H, <- app_assoc.
  by rewrite drop_app_length.
Qed.
Lemma take_app_prefix {A} (l x l' : list A) :
  take (length l + length x) l' = l ++ x -> take (length l) l' = l.
Proof.
  intros H. replace (take (length l) l') with (take (length l) (take (length l + length x) l')).
  - by rewrite H, take_app_length.
  - rewrite take_take. f_equal. lia.
Qed.
Section Scripted.
Implicit Types s : Twi.twi scripted.

Definition set_log (h : scripted) s : Twi.twi scripted := s <| Twi.hw := h |>.
Lemma poll_none s r : script (Twi.hw s) = None :: r ->
  Twi.poll s = (tt, set_log (mkScript r (sent (Twi.hw s))) s).
Proof. intros E. unfold Twi.poll. cbn. by rewrite E. Qed.
Lemma poll_some s ev r : script (Twi.hw s) = Some ev :: r ->
  Twi.poll s =
    Twi.interrupt ev (set_log (mkScript r (sent (Twi.hw s) ++ [Twi.twdr s])) s).
Proof. intros E. unfold Twi.poll. cbn. by rewrite E. Qed.

(** What a transfer still expects, event by event: [Inv evs out s] relates the
    events to come and the bytes sent so far to the driver's state. *)
Context (v : Z) (Inv : list (Z * Z) -> list Z -> Twi.twi scripted -> Prop).
Context (Inv_busy : forall e evs out s, Inv (e :: evs) out s -> Twi.twi_state s = v).
Context (Inv_done : forall out s, Inv [] out s -> Twi.twi_state s <> v).
Context (Inv_log : forall evs out s h, Inv evs out s -> Inv evs out (set_log h s)).
Context (Inv_step : forall e evs out s, Inv (e :: evs) out s ->
  Twi.hw (Twi.interrupt e s).2 = Twi.hw s /\
  Inv evs (out ++ [Twi.twdr s]) (Twi.interrupt e s).2).

(** The waiting loop follows the script to its end, whatever the number of idle
    polls, as long as they are fewer than the timeout. *)
Lemma wait_script n s out :
  (length (script (Twi.hw s)) <= n)%nat ->
  last (script (Twi.hw s)) <> Some None ->
  script (Twi.hw s) <> [] ->
  Inv (omap id (script (Twi.hw s))) out s ->
  exists s', Twi.wait_while n (Twi.state_is v) (mret tt) s = (true, s') /\
    Inv [] (out ++ drop (length (sent (Twi.hw s))) (sent (Twi.hw s'))) s' /\
    take (length (sent (Twi.hw s))) (sent (Twi.hw s')) = sent (Twi.hw s).
Proof.
  remember (script (Twi.hw s)) as sc eqn:Esc. revert n s out Esc.
  induction sc as [|o sc IH]; intros n s out Esc Hn Hl Hne HI; [done|]. clear Hne.
  destruct o as [ev|].
  - cbn [omap list_omap id] in HI. destruct (Inv_step _ _ _ _
      (Inv_log _ _ _ (mkScript sc (sent (Twi.hw s) ++ [Twi.twdr s])) HI)) as [Hh HI'].
    set (s1 := (Twi.interrupt ev (set_log (mkScript sc (sent (Twi.hw s) ++ [Twi.twdr s])) s)).2)
      in *.
    assert (Twi.state_is v s = (Twi.twi_state s1 =? v, s1)) as E.
    { unfold Twi.state_is. rewrite mbind_run, (poll_some s ev sc) by done. done. }
    assert (sent (Twi.hw s1) = sent (Twi.hw s) ++ [Twi.twdr s]) as Hsent by by rewrite Hh.
    replace (Twi.twdr (set_log _ s)) with (Twi.twdr s) in HI' by by destruct s.
    assert (script (Twi.hw s1) = sc) as Hsc by by rewrite Hh.
    destruct sc as [|o sc].
    + exists s1. split; [|split].
      * apply wait_while_done; [simpl in Hn; lia|]. rewrite E. f_equal.
        apply Z.eqb_neq. by apply (Inv_done (out ++ [Twi.twdr s])).
      * rewrite Hsent, drop_app_length. exact HI'.
      * by rewrite Hsent, take_app_length.
    + assert (exists e l, omap id (o :: sc) = e :: l) as (e & l & El).
      { apply omap_last_some; done. }
      destruct (IH (n - 1)%nat s1 (out ++ [Twi.twdr s])) as (s' & Hw & HI2 & Ht);
        [done|simpl in *; lia|done|done|exact HI'|].
      exists s'. split; [|split].
      * rewrite (wait_while_next _ _ s s1); [exact Hw|simpl in Hn; lia|]. rewrite E. f_equal.
        apply Z.eqb_eq. rewrite El in HI'. by eapply Inv_busy.
      * rewrite Hsent in *. rewrite length_app in *. cbn [length] in *.
        rewrite (drop_split (sent (Twi.hw s)) (Twi.twdr s)) by done.
        rewrite <- app_assoc in HI2. exact HI2.
      * rewrite Hsent in Ht. rewrite length_app in Ht.
        by apply (take_app_prefix _ [Twi.twdr s]).
  - cbn [omap list_omap id] in HI.
    assert (Twi.state_is v s = (Twi.twi_state s =? v,
      set_log (mkScript sc (sent (Twi.hw s))) s)) as E.
    { unfold Twi.state_is. rewrite mbind_run, (poll_none s sc) by done. by destruct s. }
    destruct sc as [|o sc]; [done|].
    assert (exists e l, omap id (o :: sc) = e :: l) as (e & l & El).
    { apply omap_last_some; done. }
    set (s1 := set_log (mkScript (o :: sc) (sent (Twi.hw s))) s) in *.
    assert (Twi.hw s1 = mkScript (o :: sc) (sent (Twi.hw s))) as Hh by (unfold s1; by destruct s).
    destruct (IH (n - 1)%nat s1 out) as (s' & Hw & HI2 & Ht);
      [by rewrite Hh|simpl in *; lia|done|done|by apply Inv_log|].
    rewrite Hh in *. exists s'. split; [|by split].
    rewrite (wait_while_next _ _ s s1); [exact Hw|simpl in Hn; lia|]. rewrite E. f_equal.
    apply Z.eqb_eq. rewrite El in HI. by eapply Inv_busy.
Qed.
End Scripted.

(** *** Single interrupts *)
Section Handler.
Implicit Types s : Twi.twi scripted.
Definition ack : Z := Twi.bits [Twi.TWEN; Twi.TWIE; Twi.TWINT; Twi.TWEA].
Definition nack : Z := Twi.bits [Twi.TWEN; Twi.TWIE; Twi.TWINT].
Definition stop_cr : Z := Twi.bits [Twi.TWEN; Twi.TWIE; Twi.TWEA; Twi.TWINT; Twi.TWSTO].

Lemma twi_stop_run s :
  Twi.twi_stop s = (true, s <| Twi.twcr := stop_cr |> <| Twi.twi_state := TWI_READY |>).
Proof.
  unfold Twi.twi_stop. rewrite mbind_run. cbn [fst snd Twi.set_TWCR mmod].
  rewrite (mbind_eq _ _ _ true (s <| Twi.twcr := stop_cr |>)).
  - by destruct s.
  - apply wait_while_done; [by apply Nat.ltb_lt|]. by destruct s.
Qed.
Lemma finish_run s : Twi.twi_sendStop s = true ->
  Twi.finish s = (tt, s <| Twi.twcr := stop_cr |> <| Twi.twi_state := TWI_READY |>).
Proof.
  intros Hs. unfold Twi.finish. rewrite mbind_run. cbn [fst snd mread].
  rewrite Hs. by rewrite mbind_run, twi_stop_run.
Qed.
Lemma isr_start x s :
  (Twi.interrupt (Twi.TW_START, x) s).2
  = s <| Twi.twdr := Twi.twi_slarw s |> <| Twi.twcr := ack |>.
Proof. by destruct s. Qed.
Lemma isr_mt_ack st x s : st = Twi.TW_MT_SLA_ACK \/ st = Twi.TW_MT_DATA_ACK ->
  Twi.twi_sendStop s = true ->
  (Twi.interrupt (st, x) s).2 =
    if Twi.twi_masterBufferIndex s <? Twi.twi_masterBufferLength s
    then s <| Twi.twdr := aget 0 (Twi.twi_masterBuffer s) (Twi.twi_masterBufferIndex s) |>
           <| Twi.twi_masterBufferIndex := u8 (Twi.twi_masterBufferIndex s + 1) |>
           <| Twi.twcr := ack |>
    else s <| Twi.twdr := x |> <| Twi.twcr := stop_cr |> <| Twi.twi_state := TWI_READY |>.
Proof.
  intros Hst Hs.
  replace ((Twi.interrupt (st, x) s).2) with
    ((Twi.interrupt (Twi.TW_MT_SLA_ACK, x) s).2) by (by destruct Hst as [-> | ->]).
  unfold Twi.interrupt. rewrite mbind_run. cbn [fst snd Twi.set_TWDR mmod].
  change (Twi.TWI_vect Twi.TW_MT_SLA_ACK) with
    (s ← mread id;
     if Twi.twi_masterBufferIndex s <? Twi.twi_masterBufferLength s then
      Twi.set_TWDR (aget 0 (Twi.twi_masterBuffer s) (Twi.twi_masterBufferIndex s)) ;;
      mmod (fun s : Twi.twi scripted => s <| Twi.twi_masterBufferIndex ::= fun i => u8 (i + 1) |>) ;;
      Twi.twi_reply true
     else Twi.finish).
  rewrite mbind_run. cbn [fst snd mread id].
  replace (Twi.twi_masterBufferIndex (s <| Twi.twdr := x |>))
    with (Twi.twi_masterBufferIndex s) by (by destruct s).
  replace (Twi.twi_masterBufferLength (s <| Twi.twdr := x |>))
    with (Twi.twi_masterBufferLength s) by (by destruct s).
  destruct (Twi.twi_masterBufferIndex s <? Twi.twi_masterBufferLength s).
  - by destruct s.
  - rewrite finish_run by (by destruct s). done.
Qed.
Lemma reply_more_run s :
  Twi.reply_more s = (tt, s <| Twi.twcr :=
    if Twi.twi_masterBufferIndex s <? Twi.twi_masterBufferLength s then ack else nack |>).
Proof.
  unfold Twi.reply_more. rewrite mbind_run. cbn [fst snd mread id].
  by destruct (Twi.twi_masterBufferIndex s <? Twi.twi_masterBufferLength s).
Qed.
Lemma isr_mr_sla_ack x s :
  (Twi.interrupt (Twi.TW_MR_SLA_ACK, x) s).2 =
    s <| Twi.twdr := x |>
      <| Twi.twcr := if Twi.twi_masterBufferIndex s <? Twi.twi_masterBufferLength s
                     then ack else nack |>.
Proof.
  unfold Twi.interrupt. rewrite mbind_run. cbn [fst snd Twi.set_TWDR mmod].
  change (Twi.TWI_vect Twi.TW_MR_SLA_ACK) with (@Twi.reply_more scripted).
  by rewrite reply_more_run.
Qed.
Lemma isr_mr_data_ack x s :
  (Twi.interrupt (Twi.TW_MR_DATA_ACK, x) s).2 =
    let i := u8 (Twi.twi_masterBufferIndex s + 1) in
    s <| Twi.twdr := x |>
      <| Twi.twi_masterBuffer ::= aset (Twi.twi_masterBufferIndex s) x |>
      <| Twi.twi_masterBufferIndex := i |>
      <| Twi.twcr := if i <? Twi.twi_masterBufferLength s then ack else nack |>.
Proof.
  unfold Twi.interrupt. rewrite mbind_run. cbn [fst snd Twi.set_TWDR mmod].
  change (Twi.TWI_vect Twi.TW_MR_DATA_ACK) with (Twi.store_byte ;; @Twi.reply_more scripted).
  rewrite mbind_run, reply_more_run. by destruct s.
Qed.
Lemma isr_mr_data_nack x s : Twi.twi_sendStop s = true ->
  (Twi.interrupt (Twi.TW_MR_DATA_NACK, x) s).2 =
    s <| Twi.twdr := x |>
      <| Twi.twi_masterBuffer ::= aset (Twi.twi_masterBufferIndex s) x |>
      <| Twi.twi_masterBufferIndex := u8 (Twi.twi_masterBufferIndex s + 1) |>
      <| Twi.twcr := stop_cr |> <| Twi.twi_state := TWI_READY |>.
Proof.
  intros Hs. unfold Twi.interrupt. rewrite mbind_run. cbn [fst snd Twi.set_TWDR mmod].
  change (Twi.TWI_vect Twi.TW_MR_DATA_NACK) with (Twi.store_byte ;; @Twi.finish scripted _).
  rewrite mbind_run, finish_run by (by destruct s). by destruct s.
Qed.
End Handler.

(** *** A master write *)
Section Transmit.
Context (ds : list Z) (slaw d0 : Z) (Hlen : (length ds <= 32)%nat).
Implicit Types s : Twi.twi scripted.
Let n := length ds.

Definition tx_common s : Prop :=
  Twi.twi_sendStop s = true /\ Twi.twi_error s = 0xFF /\
  Twi.twi_masterBufferLength s = Z.of_nat n /\ take n (Twi.twi_masterBuffer s) = ds /\
  Twi.twi_slarw s = slaw.
Inductive tx_inv : list (Z * Z) -> list Z -> Twi.twi scripted -> Prop :=
  | tx_start x y evs s :
      tx_common s -> Twi.twi_state s = TWI_MTX -> Twi.twi_masterBufferIndex s = 0 ->
      Twi.twdr s = d0 -> map fst evs = replicate n Twi.TW_MT_DATA_ACK ->
      tx_inv ((Twi.TW_START, x) :: (Twi.TW_MT_SLA_ACK, y) :: evs) [] s
  | tx_sla y evs s :
      tx_common s -> Twi.twi_state s = TWI_MTX -> Twi.twi_masterBufferIndex s = 0 ->
      Twi.twdr s = slaw -> map fst evs = replicate n Twi.TW_MT_DATA_ACK ->
      tx_inv ((Twi.TW_MT_SLA_ACK, y) :: evs) [d0] s
  | tx_data j evs s :
      tx_common s -> Twi.twi_state s = TWI_MTX -> (j < n)%nat ->
      Twi.twi_masterBufferIndex s = Z.of_nat (j + 1) ->
      ds !! j = Some (Twi.twdr s) ->
      map fst evs = replicate (n - j) Twi.TW_MT_DATA_ACK ->
      tx_inv evs ([d0; slaw] ++ take j ds) s
  | tx_done s :
      Twi.twi_state s = TWI_READY -> Twi.twi_error s = 0xFF ->
      tx_inv [] ([d0; slaw] ++ ds) s.

Lemma tx_inv_busy e evs out s : tx_inv (e :: evs) out s -> Twi.twi_state s = TWI_MTX.
Proof. clear Hlen. intros H. by inversion H. Qed.
Lemma tx_inv_done out s : tx_inv [] out s -> Twi.twi_state s <> TWI_MTX.
Proof.
  clear Hlen. intros H. inversion H as [| |j evs s' ? ? Hj ? ? He|? Hs]; subst.
  - destruct (n - j)%nat eqn:E; [lia|done].
  - by rewrite Hs.
Qed.
Lemma tx_inv_log evs out s h : tx_inv evs out s -> tx_inv evs out (set_log h s).
Proof. clear Hlen. intros H. inversion H; subst; destruct s; by econstructor. Qed.
Lemma aget_take i l : (i < n)%nat -> take n l = ds -> ds !! i = Some (aget 0 l (Z.of_nat i)).
Proof.
  intros Hi Ht. unfold aget. rewrite Nat2Z.id. rewrite nth_lookup.
  assert (ds !! i = l !! i) as E.
  { rewrite <- Ht. rewrite lookup_take. by rewrite decide_True. }
  destruct (ds !! i) eqn:Ed; [by rewrite <- E|]. apply lookup_ge_None_1 in Ed. unfold n in Hi. lia.
Qed.
Lemma tx_inv_step e evs out s : tx_inv (e :: evs) out s ->
  Twi.hw (Twi.interrupt e s).2 = Twi.hw s /\
  tx_inv evs (out ++ [Twi.twdr s]) (Twi.interrupt e s).2.
Proof.
  intros H. inversion H as [x y es s' Hc Hst Hi Hd He|y es s' Hc Hst Hi Hd He
    |j es s' Hc Hst Hj Hi Hd He|]; subst.
  - rewrite isr_start. split; [by destruct s|]. simpl app.
    rewrite Hd. apply tx_sla; [by apply Hc|by destruct s|by destruct s| |done].
    by destruct s, Hc as (_ & _ & _ & _ & <-).
  - destruct Hc as (Hss & Her & Hbl & Hb & Hsl).
    rewrite (isr_mt_ack _ _ s) by auto. rewrite Hi, Hbl.
    destruct (Z.ltb_spec 0 (Z.of_nat n)).
    + split; [by destruct s|]. change ([d0] ++ [Twi.twdr s]) with ([d0] ++ [Twi.twdr s] ++ take 0 ds).
      rewrite Hd. assert (0 < n)%nat as Hn by lia.
      pose proof (aget_take 0 _ Hn Hb) as Ha. 
      apply (tx_data 0); try done; destruct s; simpl in *; try done.
      by rewrite Nat.sub_0_r.
    + split; [by destruct s|]. assert (ds = []) as Hds.
      { apply length_zero_iff_nil. unfold n in *. lia. }
      assert (evs = []) as ->. { unfold n in He. rewrite Hds in He. by destruct evs. }
      rewrite Hd. replace ([d0] ++ [slaw]) with ([d0; slaw] ++ ds) by by rewrite Hds.
      apply tx_done; by destruct s.
  - destruct Hc as (Hss & Her & Hbl & Hb & Hsl).
    destruct (n - j)%nat as [|m] eqn:Em; [lia|]. injection He as He1 He2.
    destruct e as [st x]. cbn [fst] in He1. subst st.
    rewrite (isr_mt_ack _ _ s) by auto. rewrite Hi, Hbl, <- app_assoc.
    rewrite <- (take_S_r _ _ _ Hd).
    destruct (Z.ltb_spec (Z.of_nat (j + 1)) (Z.of_nat n)).
    + split; [by destruct s|]. 
      assert (S j < n)%nat as Hj' by lia. pose proof (aget_take (S j) _ Hj' Hb) as Ha.
      replace (Z.of_nat (S j)) with (Z.of_nat (j + 1)) in Ha by lia.
      apply (tx_data (S j)); try done; destruct s; simpl in *; try done.
      * unfold uwrap. rewrite Z.mod_small by lia. lia.
      * rewrite He2. f_equal. lia.
    + split; [by destruct s|]. assert (S j = n) as Hjn by lia.
      assert (m = 0)%nat as -> by lia. destruct evs; [|done].
      rewrite Hjn. unfold n. rewrite firstn_all. apply tx_done; by destruct s.
Qed.
End Transmit.

(** *** A master read *)
Section Receive.
Context (bs : list Z) (slar d0 : Z) (Hlen : (1 <= length bs <= 32)%nat).
Implicit Types s : Twi.twi scripted.
Let n := length bs.

(** The data interrupts for the bytes still to come: the last one is not
    acknowledged. *)
Fixpoint rx_data (l : list Z) : list (Z * Z) :=
  match l with
  | [] => []
  | [b] => [(Twi.TW_MR_DATA_NACK, b)]
  | b :: l => (Twi.TW_MR_DATA_ACK, b) :: rx_data l
  end.
Definition rx_common s : Prop :=
  Twi.twi_sendStop s = true /\ Twi.twi_masterBufferLength s = Z.of_nat n - 1 /\
  length (Twi.twi_masterBuffer s) = 32%nat /\ Twi.twi_slarw s = slar.
Inductive rx_inv : list (Z * Z) -> list Z -> Twi.twi scripted -> Prop :=
  | rx_start x y s :
      rx_common s -> Twi.twi_state s = TWI_MRX -> Twi.twi_masterBufferIndex s = 0 ->
      Twi.twdr s = d0 ->
      rx_inv ((Twi.TW_START, x) :: (Twi.TW_MR_SLA_ACK, y) :: rx_data bs) [] s
  | rx_sla y s :
      rx_common s -> Twi.twi_state s = TWI_MRX -> Twi.twi_masterBufferIndex s = 0 ->
      Twi.twdr s = slar ->
      rx_inv ((Twi.TW_MR_SLA_ACK, y) :: rx_data bs) [d0] s
  | rx_more got rest out s :
      rx_common s -> Twi.twi_state s = TWI_MRX -> bs = got ++ rest -> rest <> [] ->
      Twi.twi_masterBufferIndex s = Z.of_nat (length got) ->
      take (length got) (Twi.twi_masterBuffer s) = got ->
      Twi.twcr s = (if (length rest =? 1)%nat then nack else ack) ->
      rx_inv (rx_data rest) ([d0; slar] ++ out) s
  | rx_done out s :
      Twi.twi_state s = TWI_READY -> Twi.twi_masterBufferIndex s = Z.of_nat n ->
      take n (Twi.twi_masterBuffer s) = bs -> length (Twi.twi_masterBuffer s) = 32%nat ->
      rx_inv [] ([d0; slar] ++ out) s.

Lemma rx_data_nonempty l : l <> [] -> rx_data l <> [].
Proof. by destruct l as [|? []]. Qed.
Lemma rx_inv_busy e evs out s : rx_inv (e :: evs) out s -> Twi.twi_state s = TWI_MRX.
Proof. clear Hlen. intros H. by inversion H. Qed.
Lemma rx_inv_done out s : rx_inv [] out s -> Twi.twi_state s <> TWI_MRX.
Proof.
  clear Hlen. intros H. inversion H as [| |got rest o s' ? ? ? Hr ? ? ? He|? ? Hs]; subst.
  - by apply rx_data_nonempty in Hr.
  - by rewrite Hs.
Qed.
Lemma rx_inv_log evs out s h : rx_inv evs out s -> rx_inv evs out (set_log h s).
Proof. clear Hlen. intros H. inversion H; subst; destruct s; by econstructor. Qed.
Lemma take_aset (got l : list Z) b : take (length got) l = got -> (length got < length l)%nat ->
  take (length (got ++ [b])) (aset (Z.of_nat (length got)) b l) = got ++ [b].
Proof.
  intros Ht Hl. unfold aset. rewrite Nat2Z.id, length_app. cbn [length].
  rewrite Nat.add_1_r. erewrite take_S_r.
  - rewrite take_insert_ge by lia. by rewrite Ht.
  - apply list_lookup_insert_eq. done.
Qed.
Lemma rx_inv_step e evs out s : rx_inv (e :: evs) out s ->
  Twi.hw (Twi.interrupt e s).2 = Twi.hw s /\
  rx_inv evs (out ++ [Twi.twdr s]) (Twi.interrupt e s).2.
Proof.
  intros H. inversion H as [x y s' Hc Hst Hi Hd|y s' Hc Hst Hi Hd
    |got rest o s' Hc Hst Hbs Hr Hi Ht Hcr Hev|]; try subst e; try subst evs; try subst out; try subst s'.
  - rewrite isr_start. split; [by destruct s|]. simpl app.
    rewrite Hd. apply rx_sla; [by apply Hc|by destruct s|by destruct s|].
    by destruct s, Hc as (_ & _ & _ & <-).
  - rewrite isr_mr_sla_ack. split; [by destruct s|].
    destruct Hc as (Hss & Hbl & Hb & Hsl). rewrite Hi, Hbl, Hd.
    change ([d0] ++ [slar]) with ([d0; slar] ++ []).
    apply (rx_more [] bs); try by destruct s. 
    + intros E. unfold n in *. rewrite E in Hlen. simpl in Hlen. lia.
    + cbn. destruct (Nat.eqb_spec (length bs) 1), (Z.ltb_spec 0 (Z.of_nat n - 1));
        unfold n in *; try lia; done.
  - destruct Hc as (Hss & Hbl & Hb & Hsl). rewrite <- app_assoc.
    destruct rest as [|b [|b' rest]]; [done| |].
    + injection Hev as <- <-. rewrite isr_mr_data_nack by done.
      split; [by destruct s|]. rewrite Hi.
      assert (n = length (got ++ [b])) as Hn by by rewrite <- Hbs.
      assert (length got < 32)%nat as Hg by (rewrite length_app in Hn; simpl in Hn; lia).
      apply rx_done.
      * by destruct s.
      * transitivity (u8 (Z.of_nat (length got) + 1)); [by destruct s|].
        rewrite Hn, length_app. unfold uwrap. cbn [length]. rewrite Z.mod_small; lia.
      * transitivity (take n (aset (Z.of_nat (length got)) b (Twi.twi_masterBuffer s)));
          [by destruct s|]. rewrite Hn, Hbs. apply take_aset; [done|lia].
      * transitivity (length (aset (Z.of_nat (length got)) b (Twi.twi_masterBuffer s)));
          [by destruct s|]. by rewrite length_aset.
    + injection Hev as <- <-. rewrite isr_mr_data_ack.
      split; [by destruct s|]. rewrite Hi, Hbl. cbv zeta.
      assert (n = length got + 2 + length rest)%nat as Hn.
      { unfold n. rewrite Hbs, length_app. simpl. lia. }
      assert (u8 (Z.of_nat (length got) + 1) = Z.of_nat (length (got ++ [b]))) as Hu.
      { rewrite length_app. unfold uwrap. cbn [length]. rewrite Z.mod_small; lia. }
      rewrite Hu. fold (rx_data (b' :: rest)).
      apply (rx_more (got ++ [b]) (b' :: rest)); try by destruct s.
      * split; [by destruct s|]. split; [by destruct s|]. split; [|by destruct s].
        transitivity (length (aset (Z.of_nat (length got)) b (Twi.twi_masterBuffer s)));
          [by destruct s|]. by rewrite length_aset.
      * by rewrite <- app_assoc.
      * transitivity (take (length (got ++ [b]))
          (aset (Z.of_nat (length got)) b (Twi.twi_masterBuffer s))); [by destruct s|].
        apply take_aset; [done|lia].
      * rewrite length_app. cbn [length]. 
        destruct (Nat.eqb_spec (S (length rest)) 1),
          (Z.ltb_spec (Z.of_nat (length got + 1)) (Z.of_nat n - 1)); try lia; done.
Qed.
End Receive.

(** *** Whole transfers *)
Definition idle (s : Twi.twi scripted) : Prop :=
  Twi.twi_state s = TWI_READY /\ Twi.twi_inRepStart s = false /\
  length (Twi.twi_masterBuffer s) = 32%nat.
Lemma idle_passes s sc : idle s -> script (Twi.hw s) = None :: sc ->
  Twi.wait_while Twi.TIMEOUT (Twi.state_isnt TWI_READY) (mret tt) s
  = (true, set_log (mkScript sc (sent (Twi.hw s))) s).
Proof.
  intros (Hs & _) E. apply wait_while_done; [by apply Nat.ltb_lt|].
  unfold Twi.state_isnt. rewrite mbind_run, (poll_none s sc) by done. cbn [fst snd].
  unfold mread. f_equal. replace (Twi.twi_state (set_log _ s)) with (Twi.twi_state s)
    by by destruct s. by rewrite Hs.
Qed.
Lemma start_transfer_run (s : Twi.twi scripted) : Twi.twi_inRepStart s = false ->
  Twi.start_transfer s =
    (true, s <| Twi.twcr := Twi.bits [Twi.TWEN; Twi.TWIE; Twi.TWEA; Twi.TWINT; Twi.TWSTA] |>).
Proof.
  intros Hs. unfold Twi.start_transfer. rewrite mbind_run. cbn [fst snd mread]. by rewrite Hs.
Qed.
(** A script: idle when the call starts, then the given interrupts, with fewer
    polls than the timeout and the last of them an interrupt. *)
Definition plays (s : Twi.twi scripted) (sc : list (option (Z * Z))) : Prop :=
  script (Twi.hw s) = None :: sc /\ (length sc <= Twi.TIMEOUT)%nat /\ sc <> [] /\
  last sc <> Some None.

(** C5: On AVR a master write puts exactly the address byte and then the data
    bytes on the bus.  For every block of up to 32 bytes, every peripheral that
    acknowledges them, with any pattern of polls in between that stays below the
    timeout, [twi_writeTo] returns [true], is ready again, and the values that
    went through [TWDR] after the start condition are the write address followed
    by the data in order. *)
Theorem writeTo_transmits (s : Twi.twi scripted) address ds sc x y evs :
  idle s -> (length ds <= 32)%nat -> plays s sc ->
  omap id sc = (Twi.TW_START, x) :: (Twi.TW_MT_SLA_ACK, y) :: evs ->
  map fst evs = replicate (length ds) Twi.TW_MT_DATA_ACK ->
  exists s', Twi.writeTo address ds (Z.of_nat (length ds)) true true s = (true, s') /\
    Twi.twi_state s' = TWI_READY /\
    sent (Twi.hw s') = sent (Twi.hw s) ++ Twi.twdr s :: u8 (Z.shiftl address 1) :: ds.
Proof.
  intros Hi Hn (Hsc & Hto & Hne & Hlast) Hom Hst. unfold Twi.writeTo.
  rewrite (proj2 (Z.ltb_ge _ _)) by (unfold TWI_BUFFER_LENGTH; lia).
  rewrite (mbind_eq _ _ _ _ _ (idle_passes s sc Hi Hsc)). cbn [negb].
  rewrite mbind_run. cbn [snd mmod]. rewrite mbind_run.
  destruct Hi as (_ & Hrep & Hbuf).
  rewrite start_transfer_run by by destruct s. cbn [fst snd negb]. rewrite mbind_run.
  match goal with |- context [Twi.wait_while _ _ _ ?t] => set (s1 := t) end.
  set (slaw := u8 (Z.lor Twi.TW_WRITE (Z.shiftl address 1))) in *.
  assert (Twi.hw s1 = mkScript sc (sent (Twi.hw s))) as Hh by (unfold s1; by destruct s).
  destruct (wait_script TWI_MTX (tx_inv ds slaw (Twi.twdr s)) (tx_inv_busy _ _ _)
    (tx_inv_done _ _ _) (tx_inv_log _ _ _) (tx_inv_step _ _ _ Hn) Twi.TIMEOUT s1 [])
    as (s' & E & HI & Ht).
  - by rewrite Hh.
  - by rewrite Hh.
  - by rewrite Hh.
  - rewrite Hh. cbn [script]. rewrite Hom. apply tx_start; try (unfold s1; by destruct s); try done.
    unfold s1. split; [by destruct s|]. split; [by destruct s|]. split; [by destruct s|].
    split; [|by destruct s].
    transitivity (take (length ds) (splice 0 (take (Z.to_nat (Z.of_nat (length ds))) ds)
      (Twi.twi_masterBuffer s))); [by destruct s|].
    rewrite Nat2Z.id, firstn_all. apply take_splice0.
  - rewrite E. cbn [fst snd negb]. exists s'. rewrite Hh in *. cbn [sent] in *.
    assert (([] ++ drop (length (sent (Twi.hw s))) (sent (Twi.hw s')))
      = Twi.twdr s :: slaw :: ds /\ Twi.twi_state s' = TWI_READY /\ Twi.twi_error s' = 0xFF)
      as (Ho & Hr & He).
    { inversion HI as [| |j ? ? ? ? Hj ? ? He|? ? ?]; subst; [|done].
      destruct (length ds - j)%nat eqn:Ej; [lia|done]. }
    split; [unfold mread; by rewrite He|]. split; [done|].
    rewrite <- (take_drop (length (sent (Twi.hw s))) (sent (Twi.hw s'))), Ht.
    f_equal. exact Ho.
Qed.
Lemma writeTo_transmits_witness :
  let ev st := Some (st, 0) in
  let sc := [ev Twi.TW_START; None; ev Twi.TW_MT_SLA_ACK; ev Twi.TW_MT_DATA_ACK; None;
             ev Twi.TW_MT_DATA_ACK] in
  exists s', Twi.writeTo 0x52 [0xF0; 0x55] 2 true true (twi0 (mkScript (None :: sc) []))
             = (true, s') /\ Twi.twi_state s' = TWI_READY /\
    sent (Twi.hw s') = [0; 0xA4; 0xF0; 0x55].
Proof.
  intros ev sc.
  destruct (writeTo_transmits (twi0 (mkScript (None :: sc) [])) 0x52 [0xF0; 0x55] sc 0 0
    [(Twi.TW_MT_DATA_ACK, 0); (Twi.TW_MT_DATA_ACK, 0)]) as (s' & E1 & E2 & E3).
  - split; [|split]; reflexivity.
  - by apply Nat.leb_le.
  - split; [reflexivity|]. split; [by apply Nat.leb_le|]. by split.
  - reflexivity.
  - reflexivity.
  - exists s'. split; [exact E1|]. split; [exact E2|exact E3].
Defined.


(** On the RP2040 a failed write is reported as a success.  [twi_writeTo]
    stores the SDK's result in a [uint8_t] before comparing it with 0, so any
    error code in [-255, -1] becomes a positive count. *)
Theorem pico_write_error_is_success {W} `{PicoI2c.PicoSdkI2c W} `{Delay W}
  address data length wait stop (w : W) :
  let r := (PicoI2c.i2c_write_blocking 1 address data length (negb stop) w).1 in
  -255 <= r < 0 -> (PicoI2c.writeTo address data length wait stop w).1 = true.
Proof.
  intros r Hr. unfold PicoI2c.writeTo. rewrite mbind_run. fold r.
  rewrite mbind_run. unfold mret, M_ret. cbn [fst].
  assert (u8 r = r + 256) as ->.
  { unfold uwrap. change (2 ^ 8) with 256. rewrite <- (Z.mod_add r 1) by lia.
    apply Z.mod_small. lia. }
  apply Z.gtb_lt. lia.
Qed.
(** An SDK on a bus where nothing answers. *)
Definition nak_sdk : PicoI2c.PicoSdkI2c unit :=
  {| PicoI2c.i2c_init := fun _ _ => mret tt; PicoI2c.i2c_set_baudrate := fun _ _ => mret tt;
     PicoI2c.i2c_deinit := fun _ => mret tt;
     PicoI2c.gpio_set_function_i2c := fun _ => mret tt;
     PicoI2c.gpio_pull_up := fun _ => mret tt;
     PicoI2c.i2c_read_blocking := fun _ _ d _ _ => mret (-2, d);
     PicoI2c.i2c_write_blocking := fun _ _ _ _ _ => mret (-2) |}.
Definition no_delay : Delay unit := fun _ => mret tt.
Lemma pico_write_error_is_success_witness :
  (@PicoI2c.writeTo unit nak_sdk no_delay 0x52 [0] 1 true true tt).1 = true.
Proof.
  apply (@pico_write_error_is_success unit nak_sdk no_delay 0x52 [0] 1 true true tt).
  cbn. lia.
Defined.
