(* ===== verification/Wii.v ===== *)
(** * Wii extension controllers: [shared/input/inputs/wii_ext.h]

    The nunchuk/classic/guitar/drum/turntable/tablet decoders, the extension
    detection handshake and the polling tick, over any [I2CBus]. *)

From Stdlib Require Import ZArith Lia.
From stdpp Require Import base tactics numbers list.
From S2P Require Import Prelude Packed Defs World Config Controller Fxpt I2c.
Open Scope Z_scope.

Definition I2C_ADDR : Z := 0x52.
Definition wiiButtonBindings : list Z :=
  [8; 6; 9; 7; 2; 4; INVALID_PIN; INVALID_PIN;
   15; 10; 3; INVALID_PIN; 12; 14; 13; 11].

(** The values of the function pointer [readFunction] (other than [NULL]). *)
Inductive reader : Set :=
  | readDrumExt_p | readGuitarExt_p | readClassicExtHighRes_p | readClassicExt_p
  | readNunchukExt_p | readDJExt_p | readUDrawExt_p | readDrawsomeExt_p | readTataconExt_p.
#[global] Instance reader_eq_dec : EqDecision reader.
Proof. solve_decision. Defined.

Section Wii.
Context {W : Type} `{I2CBus W} `{Delay W}.
(** The contents of an uninitialised local array of [n] bytes. *)
Context (junk : nat -> list Z).

(** The file's globals; [drumVelocity] and [fullDeviceType] belong to the
    controller core, the bus is the world the driver acts on. *)
Record wii_state : Type := mkWii {
  wiiExtensionID : Z;
  wbuttons : Z;
  wbytes : Z;
  mapNunchukAccelToRightJoy : bool;
  readFunction : option reader;
  drumVelocity : list Z;
  fullDeviceType : Z;
  bus : W
}.
#[global] Instance etaWii : Settable wii_state := fun r =>
  {| wiiExtensionID := wiiExtensionID r; wbuttons := wbuttons r; wbytes := wbytes r;
     mapNunchukAccelToRightJoy := mapNunchukAccelToRightJoy r;
     readFunction := readFunction r; drumVelocity := drumVelocity r;
     fullDeviceType := fullDeviceType r; bus := bus r |}.
Definition wii_init_state (w : W) : wii_state :=
  mkWii WII_NO_EXTENSION 0 6 false None (replicate 8 0) 0 w.
Definition onbus {A} (m : M W A) : M wii_state A :=
  fun s => let '(a, w) := m (bus s) in (a, s <| bus := w |>).

(** Both checks of [verifyData] in one pass, as in the code. *)
Definition verifyData (dataIn : list Z) (dataSize : Z) : bool :=
  let '(orCheck, andCheck) :=
    foldl (fun '(o, a) i => (Z.lor o (aget 0 dataIn i), Z.land a (aget 0 dataIn i)))
      (0x00, 0xFF) (iota (Z.to_nat dataSize)) in
  negb ((orCheck =? 0x00) || (andCheck =? 0xFF)).

Definition readExtID : M wii_state Z :=
  r ← onbus (twi_readFromPointerSlow I2C_ADDR 0xFA 6 (junk 6));
  let data : list Z := r.2 in
  if negb (verifyData data 6) then mret (WII_NOT_INITIALISED : Z)
  else mret (u16 (Z.lor (Z.shiftl (aget 0 data 0) 8) (aget 0 data 5))).

(** ** Decoders: [controller], [data] and the globals they write *)
Definition b (data : list Z) (i : Z) : Z := aget 0 data i.
Definition set_buttons (v : Z) : M wii_state unit := mmod (fun s => s <| wbuttons := v |>).
Definition write_button (c : bool) (m : Z) : M wii_state unit :=
  mmod (fun s => s <| wbuttons := u16 (bit_write c (wbuttons s) (aget 0 wiiButtonBindings m)) |>).
Definition set_velocity (button vel : Z) : M wii_state unit :=
  mmod (fun s => s <| drumVelocity ::= aset (button - 8) vel |>).

Definition readDrumExt (c : Controller_t) (data : list Z) : M wii_state Controller_t :=
  let c := c <| l_x := i16 (Z.shiftl (b data 0 - 0x20) 10) |>
             <| l_y := i16 (Z.shiftl (b data 1 - 0x20) 10) |> in
  set_buttons (Z.land (u16 (Z.lnot (Z.lor (b data 4) (Z.shiftl (b data 5) 8)))) 0xfeff) ;;
  dev ← mread fullDeviceType;
  mwhen ((dev >=? MIDI_GAMEPAD) && bit_check (b data 3) 1)
    (let vel := u8 (Z.shiftl (7 - Z.shiftr (b data 3) 5) 5) in
     let which := Z.shiftr (Z.land (b data 2) 0x7c) 1 in
     if which =? 0x1B then set_velocity XBOX_RB vel
     else if which =? 0x19 then set_velocity XBOX_B vel
     else if which =? 0x11 then set_velocity XBOX_X vel
     else if which =? 0x0F then set_velocity XBOX_Y vel
     else if which =? 0x1E then set_velocity XBOX_LB vel
     else if which =? 0x12 then set_velocity XBOX_A vel
     else mret tt) ;;
  write_button (negb (bit_check (b data 5) 3)) XBOX_X ;;
  write_button (negb (bit_check (b data 5) 5)) XBOX_Y ;;
  mret c.
Definition whammy_scale (raw : Z) : Z :=
  let r := i16 (raw - 14) in
  let r := if r <? 0 then 0 else r in
  let r := i16 (Z.shiftl r 1 + r) in
  let r := if r >? 31 then 31 else r in
  let r := i16 (r - 16) in
  i16 (Z.shiftl r 11).
Definition readGuitarExt (c : Controller_t) (data : list Z) : M wii_state Controller_t :=
  let c := c <| l_x := i16 (Z.shiftl (Z.land (b data 0) 0x3f - 32) 10) |>
             <| l_y := i16 (Z.shiftl (Z.land (b data 1) 0x3f - 32) 10) |>
             <| r_x := whammy_scale (Z.land (b data 3) 0x1f) |> in
  set_buttons (u16 (Z.lnot (Z.lor (b data 4) (Z.shiftl (b data 5) 8)))) ;;
  mret c.
Definition readClassicExtHighRes (c : Controller_t) (data : list Z) : M wii_state Controller_t :=
  let c := c <| l_x := i16 (Z.shiftl (b data 0 - 0x80) 8) |>
             <| l_y := i16 (Z.shiftl (b data 2 - 0x80) 8) |>
             <| r_x := i16 (Z.shiftl (b data 1 - 0x80) 8) |>
             <| r_y := i16 (Z.shiftl (b data 3 - 0x80) 8) |>
             <| lt := b data 4 |> <| rt := b data 5 |> in
  set_buttons (u16 (Z.lnot (Z.lor (b data 6) (Z.shiftl (b data 7) 8)))) ;;
  mret c.
Definition readClassicExt (c : Controller_t) (data : list Z) : M wii_state Controller_t :=
  let c := c <| l_x := i16 (Z.land (b data 0) 0x3f - 32) |>
             <| l_y := i16 (Z.land (b data 1) 0x3f - 32) |>
             <| r_x := i16 (Z.lor (Z.lor (Z.shiftr (Z.land (b data 0) 0xc0) 3)
                                         (Z.shiftr (Z.land (b data 1) 0xc0) 5))
                                  (Z.shiftr (b data 2) 7) - 16) |>
             <| r_y := i16 (Z.land (b data 2) 0x1f - 16) |>
             <| lt := u8 (Z.lor (Z.shiftr (b data 3) 5) (Z.shiftr (Z.land (b data 2) 0x60) 2)) |>
             <| rt := u8 (Z.land (b data 3) 0x1f) |> in
  set_buttons (u16 (Z.lnot (Z.lor (b data 4) (Z.shiftl (b data 5) 8)))) ;;
  mret c.
Definition readNunchukExt (c : Controller_t) (data : list Z) : M wii_state Controller_t :=
  let c := c <| l_x := i16 (Z.shiftl (b data 0 - 0x80) 8) |>
             <| l_y := i16 (Z.shiftl (b data 1 - 0x80) 8) |> in
  accel ← mread mapNunchukAccelToRightJoy;
  let c :=
    if (accel : bool) then
      let accX := u16 (Z.lor (Z.shiftl (b data 2) 2)
                             (Z.shiftr (Z.land (b data 5) 0xC0) 6) - 511) in
      let accY := u16 (Z.lor (Z.shiftl (b data 3) 2)
                             (Z.shiftr (Z.land (b data 5) 0x30) 4) - 511) in
      let accZ := u16 (Z.lor (Z.shiftl (b data 4) 2)
                             (Z.shiftr (Z.land (b data 5) 0xC) 2) - 511) in
      c <| r_x := i16 (fxpt_atan2 (i16 accX) (i16 accZ)) |>
        <| r_y := i16 (fxpt_atan2 (i16 accY) (i16 accZ)) |>
    else c in
  set_buttons 0 ;;
  write_button (negb (bit_check (b data 5) 0)) XBOX_A ;;
  write_button (negb (bit_check (b data 5) 1)) XBOX_B ;;
  mret c.
Definition readDJExt (c : Controller_t) (data : list Z) : M wii_state Controller_t :=
  let rtt := u8 (Z.lor (Z.lor (Z.shiftr (Z.land (b data 2) 0x80) 7)
                              (Z.shiftr (Z.land (b data 1) 0xC0) 5))
                       (Z.shiftr (Z.land (b data 0) 0xC0) 3)) in
  let c := c <| l_x := i16 (Z.shiftl (Z.land (b data 0) 0x3F - 0x20) 10) |>
             <| l_y := i16 (Z.shiftl (Z.land (b data 1) 0x3F - 0x20) 10) |>
             <| r_x := i16 (if negb (Z.land (b data 4) 1 =? 0)
                            then 32 + (0x1F - Z.land (b data 3) 0x1F)
                            else 32 - Z.land (b data 3) 0x1F) |>
             <| r_y := i16 (if negb (Z.land (b data 2) 1 =? 0)
                            then 32 + (0x1F - rtt) else 32 - rtt) |>
             <| lt := u8 (Z.lor (Z.shiftr (Z.land (b data 3) 0xE0) 5)
                                (Z.shiftr (Z.land (b data 2) 0x60) 2)) |>
             <| rt := u8 (Z.shiftr (Z.land (b data 2) 0x1E) 1) |> in
  set_buttons (Z.land (u16 (Z.lnot (Z.lor (Z.shiftl (b data 4) 8) (b data 5)))) 0x63CD) ;;
  mret c.
Definition readUDrawExt (c : Controller_t) (data : list Z) : M wii_state Controller_t :=
  let c := c <| l_x := i16 (Z.lor (Z.shiftl (Z.land (b data 2) 0x0f) 8) (b data 0)) |>
             <| l_y := i16 (Z.lor (Z.shiftl (Z.land (b data 2) 0xf0) 4) (b data 1)) |>
             <| rt := b data 3 |> in
  set_buttons 0 ;;
  write_button (bit_check (b data 5) 0) XBOX_A ;;
  write_button (bit_check (b data 5) 1) XBOX_B ;;
  write_button (negb (bit_check (b data 5) 2)) XBOX_X ;;
  mret c.
Definition readDrawsomeExt (c : Controller_t) (data : list Z) : M wii_state Controller_t :=
  mret (c <| l_x := i16 (Z.lor (b data 0) (Z.shiftl (b data 1) 8)) |>
          <| l_y := i16 (Z.lor (b data 2) (Z.shiftl (b data 3) 8)) |>
          <| rt := u8 (Z.lor (b data 4) (Z.shiftl (Z.land (b data 5) 0x0f) 8)) |>).
Definition readTataconExt (c : Controller_t) (data : list Z) : M wii_state Controller_t :=
  set_buttons (u16 (Z.lnot (Z.lor (Z.shiftl (b data 4) 8) (b data 5)))) ;; mret c.

Definition call_reader (r : reader) : Controller_t -> list Z -> M wii_state Controller_t :=
  match r with
  | readDrumExt_p => readDrumExt
  | readGuitarExt_p => readGuitarExt
  | readClassicExtHighRes_p => readClassicExtHighRes
  | readClassicExt_p => readClassicExt
  | readNunchukExt_p => readNunchukExt
  | readDJExt_p => readDJExt
  | readUDrawExt_p => readUDrawExt
  | readDrawsomeExt_p => readDrawsomeExt
  | readTataconExt_p => readTataconExt
  end.

(** ** Detection *)
Definition set_id (v : Z) : M wii_state unit := mmod (fun s => s <| wiiExtensionID := v |>).
Definition set_reader (r : option reader) : M wii_state unit :=
  mmod (fun s => s <| readFunction := r |>).

(** The unbounded loop that reads the high-resolution bytes until two reads
    agree; [None] when [fuel] rounds were not enough. *)
Fixpoint probe_high_res (fuel : nat) (check validate : list Z) : M wii_state (option bool) :=
  match fuel with
  | O => mret None
  | S fuel =>
      r1 ← onbus (twi_readFromPointerSlow I2C_ADDR 0 8 check);
      onbus (delay_us 200) ;;
      r2 ← onbus (twi_readFromPointerSlow I2C_ADDR 0 8 validate);
      if bool_decide (take 8 r1.2 = take 8 r2.2)
      then mret (Some (negb (b r1.2 6 =? 0) || negb (b r1.2 7 =? 0)))
      else onbus (delay_us 200) ;; probe_high_res fuel r1.2 r2.2
  end.
Definition is_classic (id : Z) : bool :=
  (id =? WII_CLASSIC_CONTROLLER) || (id =? WII_CLASSIC_CONTROLLER_PRO).
(** The final [switch]. *)
Definition select_reader : M wii_state unit :=
  id ← mread wiiExtensionID;
  if id =? WII_GUITAR_HERO_GUITAR_CONTROLLER then set_reader (Some readGuitarExt_p)
  else if is_classic id then mret tt
  else if id =? WII_NUNCHUK then set_reader (Some readNunchukExt_p)
  else if id =? WII_GUITAR_HERO_DRUM_CONTROLLER then set_reader (Some readDrumExt_p)
  else if id =? WII_THQ_UDRAW_TABLET then set_reader (Some readUDrawExt_p)
  else if id =? WII_UBISOFT_DRAWSOME_TABLET then set_reader (Some readDrawsomeExt_p)
  else if id =? WII_DJ_HERO_TURNTABLE then set_reader (Some readDJExt_p)
  else if id =? WII_TAIKO_NO_TATSUJIN_CONTROLLER then set_reader (Some readTataconExt_p)
  else set_id WII_NO_EXTENSION ;; set_reader None.

Definition write_reg (pointer data : Z) : M wii_state unit :=
  onbus (twi_writeSingleToPointer I2C_ADDR pointer data) ;; onbus (delay_us 10).
(** The block that enables and probes the high-resolution mode. *)
Definition setup_classic (fuel : nat) : M wii_state (option unit) :=
  write_reg 0xFE 0x03 ;;
  highRes ← probe_high_res fuel (junk 8) (junk 8);
  match highRes with
  | None => mret None
  | Some true =>
      set_reader (Some readClassicExtHighRes_p) ;;
      mmod (fun s => s <| wbytes := 8 |>) ;; mret (Some tt)
  | Some false =>
      set_reader (Some readClassicExt_p) ;;
      mmod (fun s => s <| wbytes := 6 |>) ;; mret (Some tt)
  end.
(** [Some tt] when the function returns. *)
Definition initWiiExt (fuel : nat) : M wii_state (option unit) :=
  id ← readExtID;
  set_id id ;;
  mwhen (id =? WII_NOT_INITIALISED)
    (write_reg 0xF0 0x55 ;; write_reg 0xFB 0x00 ;;
     id ← readExtID; set_id id ;; onbus (delay_us 10)) ;;
  id ← mread wiiExtensionID;
  mwhen (id =? WII_UBISOFT_DRAWSOME_TABLET) (write_reg 0xFB 0x01 ;; write_reg 0xF0 0x55) ;;
  probed ← (if is_classic id then setup_classic fuel else mret (Some tt));
  match probed with
  | None => mret None
  | Some _ => select_reader ;; mret (Some tt)
  end.

Definition tickWiiExtInput (fuel : nat) (controller : Controller_t)
  : M wii_state (option Controller_t) :=
  id ← mread wiiExtensionID;
  let start := r ← initWiiExt fuel;
               mret (match r with Some _ => Some controller | None => None end) in
  if (id =? WII_NOT_INITIALISED) || (id =? WII_NO_EXTENSION) then start
  else
    n ← mread wbytes;
    r ← onbus (twi_readFromPointerSlow I2C_ADDR 0x00 n (junk 8));
    if r.1 && negb (verifyData r.2 n) then start
    else
      f ← mread readFunction;
      match f with
      | Some f => c ← call_reader f controller r.2; mret (Some c)
      | None => mret (Some controller)
      end.
Definition readWiiButton (offset : Z) : M wii_state bool :=
  let idx := aget 0 wiiButtonBindings offset in
  if idx =? INVALID_PIN then mret false
  else buttons ← mread wbuttons; mret (bit_check buttons idx).
Definition initWiiExtensions (config : Configuration_t) : M wii_state unit :=
  mmod (fun s => s <| mapNunchukAccelToRightJoy :=
    truth (Main.mapNunchukAccelToRightJoy (Cfg.main config)) |>).
End Wii.
Arguments wii_state : clear implicits.

(** ** Data validity *)
Lemma land_255 a c : in_u 8 a -> in_u 8 c -> (Z.land a c = 255 <-> a = 255 /\ c = 255).
Proof.
  intros Ha Hc. split; [|by intros [-> ->]]. intros E.
  assert (forall x y, in_u 8 x -> Z.land x y = 255 -> x = 255) as G.
  { intros x y Hx Exy.
    assert (x = Z.lor x (Z.land x y)) as Ex.
    { apply Z.bits_inj'. intros i Hi. rewrite Z.lor_spec, Z.land_spec.
      destruct (Z.testbit x i), (Z.testbit y i); done. }
    rewrite Exy in Ex. change 255 with (Z.ones 8) in *. rewrite Ex.
    unfold in_u in Hx. apply Z.lor_ones_low; [lia|].
    destruct (Z.eq_dec x 0) as [->|]; [done|]. apply Z.log2_lt_pow2; lia. }
  split; [by apply (G a c)|]. apply (G c a); [done|]. by rewrite Z.land_comm.
Qed.
Lemma verify_fold (d : list Z) l o a : bytes d -> in_u 8 o -> in_u 8 a ->
  let '(o', a') := foldl (fun '(o, a) i => (Z.lor o (aget 0 d i), Z.land a (aget 0 d i))) (o, a) l in
  (o' = 0 <-> o = 0 /\ Forall (fun i => aget 0 d i = 0) l) /\
  (a' = 255 <-> a = 255 /\ Forall (fun i => aget 0 d i = 255) l).
Proof.
  intros Hd. revert o a. induction l as [|i l IH]; intros o a Ho Ha; cbn [foldl].
  { rewrite !Forall_nil. tauto. }
  assert (in_u 8 (aget 0 d i)) as Hi by by apply aget_Forall.
  specialize (IH (Z.lor o (aget 0 d i)) (Z.land a (aget 0 d i))).
  destruct (foldl _ _ l) as [o' a']. destruct IH as [IH1 IH2].
  - apply in_u_lor; [lia|done|done].
  - apply in_u_land_l; [lia|done].
  - rewrite IH1, IH2, !Forall_cons, Z.lor_eq_0_iff, land_255 by done. tauto.
Qed.
Lemma in_iota_bounds n i : i ∈ iota n <-> 0 <= i < Z.of_nat n.
Proof. rewrite list_elem_of_In. apply elem_of_iota. Qed.

(** ** Well-formed results *)
Section Results.
Context {W : Type}.
Implicit Types (s : wii_state W) (c : Controller_t) (data : list Z).

Lemma b_byte data i : bytes data -> in_u 8 (b data i).
Proof. intros. unfold b. by apply aget_Forall. Qed.
Ltac reader_wf :=
  rewrite ?mbind_run; cbn [mret M_ret fst snd];
  rewrite Controller_wf_iff in *; cbn in *; intuition;
  auto using b_byte; try (apply swrap_range; lia); try (apply uwrap_range; lia).
Lemma readNunchuk_controller c data s : Controller_wf c ->
  Controller_wf (readNunchukExt c data s).1.
Proof.
  intros Hc. unfold readNunchukExt. rewrite !mbind_run. cbn [mret M_ret fst snd mread].
  destruct (mapNunchukAccelToRightJoy s); rewrite Controller_wf_iff in *;
    cbn -[fxpt_atan2] in *; intuition; by apply swrap_range.
Qed.
Lemma call_reader_wf r c data s : bytes data -> Controller_wf c ->
  Controller_wf (call_reader r c data s).1.
Proof.
  intros Hd Hc. destruct r; cbn [call_reader].
  - unfold readDrumExt. reader_wf.
  - unfold readGuitarExt. reader_wf.
  - unfold readClassicExtHighRes. reader_wf.
  - unfold readClassicExt. reader_wf.
  - by apply readNunchuk_controller.
  - unfold readDJExt. reader_wf.
  - unfold readUDrawExt. reader_wf.
  - unfold readDrawsomeExt. reader_wf.
  - unfold readTataconExt. reader_wf.
Qed.
End Results.

(** ** Buttons on the wire *)
Section Buttons.
Context {W : Type}.
Implicit Types (s : wii_state W) (c : Controller_t) (data : list Z).

Definition wire (data : list Z) : Z := Z.lor (b data 4) (Z.shiftl (b data 5) 8).
Lemma binding_range k : 0 <= k < 16 ->
  0 <= aget 0 wiiButtonBindings k < 16 \/ aget 0 wiiButtonBindings k = INVALID_PIN.
Proof.
  intros H. zcases k 0 16; vm_compute; intuition congruence.
Qed.
Lemma uwrap_testbit w z i : 0 <= w -> 0 <= i ->
  Z.testbit (uwrap w z) i = (i <? w) && Z.testbit z i.
Proof.
  intros. unfold uwrap. destruct (Z.ltb_spec i w).
  - by rewrite Z.mod_pow2_bits_low.
  - by rewrite Z.mod_pow2_bits_high by lia.
Qed.
Lemma inverted_bit data i : 0 <= i < 16 ->
  Z.testbit (u16 (Z.lnot (wire data))) i = negb (Z.testbit (wire data) i).
Proof.
  intros. rewrite uwrap_testbit, Z.lnot_spec by lia.
  by destruct (Z.ltb_spec i 16); [|lia].
Qed.
Lemma readWiiButton_run s k : 0 <= k < 16 ->
  (readWiiButton k s).1 =
    if aget 0 wiiButtonBindings k =? INVALID_PIN then false
    else Z.testbit (wbuttons s) (aget 0 wiiButtonBindings k).
Proof.
  intros Hk. unfold readWiiButton. destruct (binding_range k Hk) as [H|H].
  - destruct (Z.eqb_spec (aget 0 wiiButtonBindings k) INVALID_PIN) as [E|]; [done|].
    rewrite mbind_run. cbn [mret M_ret fst snd mread]. apply bit_check_testbit. lia.
  - by rewrite H.
Qed.
Lemma bits_5 data i : bytes data -> 0 <= i < 8 ->
  Z.testbit (wire data) (8 + i) = Z.testbit (b data 5) i.
Proof.
  intros Hd Hi. unfold wire. rewrite Z.lor_spec, Z.shiftl_spec by lia.
  replace (8 + i - 8) with i by lia.
  pose proof (b_byte data 4 Hd) as H4. apply in_u_testbit in H4 as [_ H4]; [|lia].
  by rewrite H4 by lia.
Qed.
Lemma drum_buttons c data s :
  wbuttons (readDrumExt c data s).2 =
    u16 (bit_write (negb (bit_check (b data 5) 5))
      (u16 (bit_write (negb (bit_check (b data 5) 3))
        (Z.land (u16 (Z.lnot (wire data))) 0xfeff) 13)) 11).
Proof.
  unfold readDrumExt, write_button, set_buttons. rewrite !mbind_run.
  cbn [mret M_ret fst snd mread mmod].
  match goal with |- context [mwhen ?b ?m] => set (B := b); set (m1 := m) end.
  assert (forall t, wbuttons (m1 t).2 = wbuttons t) as Hm.
  { intros t. unfold m1, set_velocity. cbv zeta. repeat case_match; by destruct t. }
  assert (forall t, wbuttons (mwhen B m1 t).2 = wbuttons t) as Hw.
  { intros t. unfold mwhen. destruct B; [apply Hm|done]. }
  set (t := s <| wbuttons := _ |>). specialize (Hw t).
  destruct (mwhen B m1 t) as [u t']. cbn [snd] in *. 
  destruct t'. cbn in *. subst. by destruct s.
Qed.

(** The button lines of the guitar and drum extensions are active-low.  After
    a guitar packet is decoded, [readWiiButton] of every mapped button is the
    complement of its wire bit; after a drum packet it is too, with the lines of
    X and Y exchanged and line 8 masked; unmapped buttons read as released. *)
Theorem wii_buttons_active_low c data s k :
  bytes data -> 0 <= k < 16 ->
  let idx := aget 0 wiiButtonBindings k in
  ((readWiiButton k (readGuitarExt c data s).2).1 =
     negb (idx =? INVALID_PIN) && negb (Z.testbit (wire data) idx)) /\
  ((readWiiButton k (readDrumExt c data s).2).1 =
     negb (idx =? INVALID_PIN) && negb (idx =? 8) &&
     negb (Z.testbit (wire data) (if idx =? 11 then 13 else if idx =? 13 then 11 else idx))).
Proof.
  intros Hd Hk idx. rewrite !readWiiButton_run by done. fold idx.
  destruct (Z.eqb_spec idx INVALID_PIN) as [E|E]; [by rewrite E|].
  assert (0 <= idx < 16) as Hi by (destruct (binding_range k Hk); [done|contradiction]).
  cbn [negb andb]. split.
  - change (wbuttons (readGuitarExt c data s).2) with (u16 (Z.lnot (wire data))).
    by apply inverted_bit.
  - rewrite drum_buttons, !uwrap_testbit, !testbit_bit_write, !uwrap_testbit,
      testbit_bit_write by lia.
    rewrite !bit_check_testbit, <- !(bits_5 data) by (done || lia).
    rewrite Z.land_spec, inverted_bit by done.
    destruct (Z.ltb_spec idx 16); [|lia]. cbn [andb].
    destruct (Z.eqb_spec idx 11) as [->|]; [done|].
    destruct (Z.eqb_spec idx 13) as [->|]; [done|].
    destruct (Z.eqb_spec idx 8) as [->|]; [by rewrite andb_false_r|].
    replace (Z.testbit 0xfeff idx) with true; [by rewrite andb_true_r|].
    clear - Hi n n0 n1. zcases idx 0 16; done.
Qed.
End Buttons.
Lemma wii_buttons_active_low_witness :
  let s := wii_init_state tt in
  (readWiiButton XBOX_A (readGuitarExt zero_controller [32; 32; 0; 15; 0xff; 0xef; 0; 0] s).2).1
    = true.
Proof.
  intros s. rewrite (proj1 (wii_buttons_active_low zero_controller
    [32; 32; 0; 15; 0xff; 0xef; 0; 0] s XBOX_A ltac:(by apply (bool_decide_unpack _))
    ltac:(vm_compute; intuition congruence))).
  reflexivity.
Defined.

(** ** Detection *)
Section Detection.
Context {W : Type} `{I2CBus W} `{Delay W} (junk : nat -> list Z).
Implicit Types (s : wii_state W).

(** The decoders an identifier allows. *)
Definition reader_for (id : Z) (r : reader) : Prop :=
  match r with
  | readGuitarExt_p => id = WII_GUITAR_HERO_GUITAR_CONTROLLER
  | readClassicExtHighRes_p | readClassicExt_p => is_classic id = true
  | readNunchukExt_p => id = WII_NUNCHUK
  | readDrumExt_p => id = WII_GUITAR_HERO_DRUM_CONTROLLER
  | readUDrawExt_p => id = WII_THQ_UDRAW_TABLET
  | readDrawsomeExt_p => id = WII_UBISOFT_DRAWSOME_TABLET
  | readDJExt_p => id = WII_DJ_HERO_TURNTABLE
  | readTataconExt_p => id = WII_TAIKO_NO_TATSUJIN_CONTROLLER
  end.
Definition wii_ok s : Prop :=
  match readFunction s with
  | None => wiiExtensionID s = WII_NO_EXTENSION
  | Some r => reader_for (wiiExtensionID s) r
  end.

Lemma onbus_frame {A} (m : M W A) s : exists w, (onbus m s).2 = s <| bus := w |>.
Proof. unfold onbus. destruct (m (bus s)) as [a w]. by exists w. Qed.
Lemma onbus_id {A} (m : M W A) s :
  wiiExtensionID (onbus m s).2 = wiiExtensionID s /\ readFunction (onbus m s).2 = readFunction s.
Proof. destruct (onbus_frame m s) as [w ->]. by destruct s. Qed.
Lemma write_reg_id p d s :
  wiiExtensionID (write_reg p d s).2 = wiiExtensionID s /\
  readFunction (write_reg p d s).2 = readFunction s.
Proof.
  unfold write_reg. rewrite mbind_run.
  rewrite !(proj1 (onbus_id _ _)), !(proj2 (onbus_id _ _)). done.
Qed.
Lemma two_writes_id (c : bool) p d p' d' s :
  wiiExtensionID (mwhen c (write_reg p d ;; write_reg p' d') s).2 = wiiExtensionID s.
Proof.
  destruct c; cbn [mwhen]; [|done]. rewrite mbind_run. by rewrite !(proj1 (write_reg_id _ _ _)).
Qed.
Lemma probe_id fuel check validate s :
  wiiExtensionID (probe_high_res fuel check validate s).2 = wiiExtensionID s.
Proof.
  revert check validate s. induction fuel as [|fuel IH]; intros; [done|].
  cbn [probe_high_res]. rewrite !mbind_run. case_bool_decide.
  - cbn [mret M_ret snd]. by rewrite !(proj1 (onbus_id _ _)).
  - rewrite mbind_run, IH. by rewrite !(proj1 (onbus_id _ _)).
Qed.
Lemma setup_classic_ok fuel s :
  (setup_classic junk fuel s).1 <> None ->
  readFunction (setup_classic junk fuel s).2 = Some readClassicExtHighRes_p \/
  readFunction (setup_classic junk fuel s).2 = Some readClassicExt_p.
Proof.
  unfold setup_classic. rewrite !mbind_run.
  destruct (probe_high_res _ _ _ _) as [[[]|] t]; cbn [fst snd]; [| |by cbn];
    rewrite !mbind_run; destruct t; cbn; auto.
Qed.
Lemma select_reader_ok s :
  (is_classic (wiiExtensionID s) = true ->
   readFunction s = Some readClassicExtHighRes_p \/ readFunction s = Some readClassicExt_p) ->
  wii_ok (select_reader s).2.
Proof.
  intros Hc. unfold select_reader. rewrite mbind_run. cbn [fst snd mread].
  destruct (Z.eqb_spec (wiiExtensionID s) WII_GUITAR_HERO_GUITAR_CONTROLLER);
    [by destruct s|].
  destruct (is_classic (wiiExtensionID s)) eqn:Ec.
  { unfold wii_ok. cbn [mret M_ret snd]. destruct (Hc eq_refl) as [-> | ->]; done. }
  repeat match goal with |- context [if ?x =? ?y then _ else _] =>
    destruct (Z.eqb_spec x y); [by destruct s|] end.
  by destruct s.
Qed.

End Detection.

(** A bus with one device that acknowledges everything and answers every read
    with the bytes [answer]. *)
Definition echo_bus (answer : list Z) : I2CBus unit :=
  {| twi_readFrom := fun _ data n _ => mret (true, splice 0 (take (Z.to_nat n) answer) data);
     twi_writeTo := fun _ _ _ _ _ => mret true |}.
Definition dead_bus : I2CBus unit :=
  {| twi_readFrom := fun _ data _ _ => mret (false, data);
     twi_writeTo := fun _ _ _ _ _ => mret false |}.
Definition zero_stack (n : nat) : list Z := replicate n 0.

(** [verifyData] accepts a packet exactly when it is neither all zero (bad
    connection) nor all [0xFF] (bad initialisation). *)
Theorem verifyData_spec data n :
  bytes data -> 0 <= n ->
  verifyData data n = true <->
  (exists i, 0 <= i < n /\ aget 0 data i <> 0) /\ (exists i, 0 <= i < n /\ aget 0 data i <> 255).
Proof.
  intros Hd Hn. unfold verifyData.
  pose proof (verify_fold data (iota (Z.to_nat n)) 0 255 Hd ltac:(done) ltac:(done)) as H.
  destruct (foldl _ _ _) as [o a]. destruct H as [H1 H2].
  rewrite negb_true_iff, orb_false_iff, !Z.eqb_neq, H1, H2.
  assert (forall v, (0 = 0 /\ Forall (fun i => aget 0 data i = v) (iota (Z.to_nat n)) -> False)
    <-> exists i, 0 <= i < n /\ aget 0 data i <> v) as G.
  { intros v. split.
    - intros F. destruct (decide (Forall (fun i => aget 0 data i = v) (iota (Z.to_nat n))))
        as [Hf|Hf]; [by destruct F|].
      apply not_Forall_Exists in Hf; [|apply _]. apply Exists_exists in Hf as (i & Hi & Hv).
      apply in_iota_bounds in Hi. exists i. split; [lia|exact Hv].
    - intros (i & Hi & Hv) [_ Hf]. rewrite Forall_forall in Hf. apply Hv, Hf.
      apply in_iota_bounds. lia. }
  rewrite <- (G 0), <- (G 255). tauto.
Qed.
Lemma verifyData_spec_witness : verifyData [0; 0; 0xa4; 0x20; 1; 3] 6 = true.
Proof.
  apply verifyData_spec; [by apply (bool_decide_unpack _)|lia|].
  split; exists 2; (split; [lia|vm_compute; congruence]).
Defined.

(** A poll whose I2C transfer fails is decoded all the same.  When the write
    of the register pointer is not acknowledged, [tickWiiExtInput] skips the
    validity check and hands the uninitialised local buffer to the decoder: the
    controller becomes a function of stale stack contents. *)
Theorem failed_poll_decodes_junk {W} `{Delay W} (B : I2CBus W) junk fuel c
  (s : wii_state W) r :
  readFunction s = Some r ->
  wiiExtensionID s <> WII_NOT_INITIALISED -> wiiExtensionID s <> WII_NO_EXTENSION ->
  (forall a d n w st x, (twi_writeTo a d n w st x).1 = false) ->
  exists w, (tickWiiExtInput junk fuel c s).1 =
            Some (call_reader (W:=W) r c (junk 8%nat) (s <| bus := w |>)).1.
Proof.
  intros Hr Hn Hne Hfail. unfold tickWiiExtInput. rewrite mbind_run. cbn [fst snd mread].
  rewrite (proj2 (Z.eqb_neq _ _) Hn), (proj2 (Z.eqb_neq _ _) Hne). cbn [orb].
  do 2 rewrite mbind_run. cbn [fst snd mread].
  assert (exists w, onbus (twi_readFromPointerSlow I2C_ADDR 0 (wbytes s) (junk 8%nat)) s
    = ((false, junk 8%nat), s <| bus := w |>)) as [w E].
  { unfold onbus, twi_readFromPointerSlow. rewrite mbind_run, Hfail. by eexists. }
  exists w. rewrite E. cbn [fst snd andb]. rewrite mbind_run. cbn [fst snd mread].
  replace (readFunction (s <| bus := w |>)) with (Some r) by (by destruct s).
  by rewrite mbind_run.
Qed.
Lemma failed_poll_decodes_junk_witness :
  exists w, (@tickWiiExtInput unit dead_bus no_delay zero_stack 1 zero_controller
    (mkWii WII_GUITAR_HERO_GUITAR_CONTROLLER 0 6 false (Some readGuitarExt_p) [] 15 tt)).1 =
    Some (call_reader (W:=unit) readGuitarExt_p zero_controller (zero_stack 8)
      (mkWii WII_GUITAR_HERO_GUITAR_CONTROLLER 0 6 false (Some readGuitarExt_p) [] 15 w)).1.
Proof.
  apply (@failed_poll_decodes_junk unit no_delay dead_bus zero_stack 1 zero_controller
    (mkWii WII_GUITAR_HERO_GUITAR_CONTROLLER 0 6 false (Some readGuitarExt_p) [] 15 tt)
    readGuitarExt_p); [reflexivity|vm_compute; congruence|vm_compute; congruence|done].
Defined.

(** The scaled whammy covers the lower half of the stick range and never moves
    backwards. *)
Lemma whammy_scale_range raw : 0 <= raw < 32 ->
  in_s 16 (whammy_scale raw) /\ (raw < 31 -> whammy_scale raw <= whammy_scale (raw + 1)).
Proof. intros H. zcases raw 0 32; vm_compute; intuition congruence. Qed.
