(* ===== verification/Variants.v ===== *)
(** * Board variants: [avr/variants/*/pins_arduino.h], [pico/pins_arduino.h]

    The tables that map Arduino pin numbers to port registers and bits, and the
    pins each board assigns to its buses. *)

From Stdlib Require Import ZArith Lia.
From stdpp Require Import base tactics numbers list.
From S2P Require Import Prelude Defs.
Open Scope Z_scope.

(** Port numbers (util.h). *)
Definition NOT_A_PORT : Z := 0.
Definition NOT_A_PIN : Z := 0.
Definition PA : Z := 1.
Definition PB : Z := 2.
Definition PC : Z := 3.
Definition PD : Z := 4.
Definition PE : Z := 5.
Definition PF : Z := 6.
Definition PG : Z := 7.
Definition PH : Z := 8.
Definition PJ : Z := 10.
Definition PK : Z := 11.
Definition PL : Z := 12.

(** The data registers of a port. *)
Inductive port_reg : Set := NoReg | Reg (port : Z).

(** What a board header provides.  [analogPinToChannel] is the table of boards
    whose pins and channels differ; [analog_base] the pin number [analogRead]
    subtracts. *)
Record variant : Type := mkVariant {
  NUM_DIGITAL_PINS : Z; NUM_ANALOG_INPUTS : Z; PIN_A0 : Z;
  PIN_SPI_SS : Z; PIN_SPI_MOSI : Z; PIN_SPI_MISO : Z; PIN_SPI_SCK : Z;
  PIN_PS2_ATT : Z; PIN_WIRE_SDA : Z; PIN_WIRE_SCL : Z;
  port_to_mode : list port_reg; port_to_output : list port_reg; port_to_input : list port_reg;
  digital_pin_to_port : list Z; digital_pin_to_bit_mask : list Z;
  analog_pin_to_channel : option (list Z); analog_base : Z; has_MUX5 : bool
}.

Definition uno_port_to_mode_PGM : list port_reg :=
    [NoReg; NoReg; Reg PB; Reg PC; Reg PD].
Definition uno_port_to_output_PGM : list port_reg :=
    [NoReg; NoReg; Reg PB; Reg PC; Reg PD].
Definition uno_port_to_input_PGM : list port_reg :=
    [NoReg; NoReg; Reg PB; Reg PC; Reg PD].
Definition uno_digital_pin_to_port_PGM : list Z :=
    [PD; PD; PD; PD; PD; PD; PD; PD; PB; PB; PB; PB; PB; PB; PC; PC; PC; PC; PC; PC].
Definition uno_digital_pin_to_bit_mask_PGM : list Z :=
    [BV 0; BV 1; BV 2; BV 3; BV 4; BV 5; BV 6; BV 7; BV 0; BV 1; BV 2; BV 3; BV 4;
     BV 5; BV 0; BV 1; BV 2; BV 3; BV 4; BV 5].
Definition uno : variant :=
  mkVariant 20 6 14 10 11 12 13 10 18 19
    uno_port_to_mode_PGM uno_port_to_output_PGM uno_port_to_input_PGM
    uno_digital_pin_to_port_PGM uno_digital_pin_to_bit_mask_PGM None 14 false.

Definition micro_port_to_mode_PGM : list port_reg :=
    [NoReg; NoReg; Reg PB; Reg PC; Reg PD; Reg PE; Reg PF].
Definition micro_port_to_output_PGM : list port_reg :=
    [NoReg; NoReg; Reg PB; Reg PC; Reg PD; Reg PE; Reg PF].
Definition micro_port_to_input_PGM : list port_reg :=
    [NoReg; NoReg; Reg PB; Reg PC; Reg PD; Reg PE; Reg PF].
Definition micro_digital_pin_to_port_PGM : list Z :=
    [PD; PD; PD; PD; PD; PC; PD; PE; PB; PB; PB; PB; PD; PC; PB; PB; PB; PB; PF; PF;
     PF; PF; PF; PF; PD; PD; PB; PB; PB; PD; PD].
Definition micro_digital_pin_to_bit_mask_PGM : list Z :=
    [BV 2; BV 3; BV 1; BV 0; BV 4; BV 6; BV 7; BV 6; BV 4; BV 5; BV 6; BV 7; BV 6;
     BV 7; BV 3; BV 1; BV 2; BV 0; BV 7; BV 6; BV 5; BV 4; BV 1; BV 0; BV 4; BV 7;
     BV 4; BV 5; BV 6; BV 6; BV 5].
Definition micro_analog_pin_to_channel_PGM : list Z :=
    [7; 6; 5; 4; 1; 0; 8; 10; 11; 12; 13; 9].
Definition micro : variant :=
  mkVariant 24 12 18 17 16 14 15 10 2 3
    micro_port_to_mode_PGM micro_port_to_output_PGM micro_port_to_input_PGM
    micro_digital_pin_to_port_PGM micro_digital_pin_to_bit_mask_PGM (Some micro_analog_pin_to_channel_PGM) 18 true.

Definition mega_port_to_mode_PGM : list port_reg :=
    [NoReg; Reg PA; Reg PB; Reg PC; Reg PD; Reg PE; Reg PF; Reg PG; Reg PH; NoReg;
     Reg PJ; Reg PK; Reg PL].
Definition mega_port_to_output_PGM : list port_reg :=
    [NoReg; Reg PA; Reg PB; Reg PC; Reg PD; Reg PE; Reg PF; Reg PG; Reg PH; NoReg;
     Reg PJ; Reg PK; Reg PL].
Definition mega_port_to_input_PGM : list port_reg :=
    [NoReg; Reg PA; Reg PB; Reg PC; Reg PD; Reg PE; Reg PF; Reg PG; Reg PH; NoReg;
     Reg PJ; Reg PK; Reg PL].
Definition mega_digital_pin_to_port_PGM : list Z :=
    [PE; PE; PE; PE; PG; PE; PH; PH; PH; PH; PB; PB; PB; PB; PJ; PJ; PH; PH; PD; PD;
     PD; PD; PA; PA; PA; PA; PA; PA; PA; PA; PC; PC; PC; PC; PC; PC; PC; PC; PD; PG;
     PG; PG; PL; PL; PL; PL; PL; PL; PL; PL; PB; PB; PB; PB; PF; PF; PF; PF; PF; PF;
     PF; PF; PK; PK; PK; PK; PK; PK; PK; PK].
Definition mega_digital_pin_to_bit_mask_PGM : list Z :=
    [BV 0; BV 1; BV 4; BV 5; BV 5; BV 3; BV 3; BV 4; BV 5; BV 6; BV 4; BV 5; BV 6;
     BV 7; BV 1; BV 0; BV 1; BV 0; BV 3; BV 2; BV 1; BV 0; BV 0; BV 1; BV 2; BV 3;
     BV 4; BV 5; BV 6; BV 7; BV 7; BV 6; BV 5; BV 4; BV 3; BV 2; BV 1; BV 0; BV 7;
     BV 2; BV 1; BV 0; BV 7; BV 6; BV 5; BV 4; BV 3; BV 2; BV 1; BV 0; BV 3; BV 2;
     BV 1; BV 0; BV 0; BV 1; BV 2; BV 3; BV 4; BV 5; BV 6; BV 7; BV 0; BV 1; BV 2;
     BV 3; BV 4; BV 5; BV 6; BV 7].
Definition mega : variant :=
  mkVariant 70 16 54 53 51 50 52 10 20 21
    mega_port_to_mode_PGM mega_port_to_output_PGM mega_port_to_input_PGM
    mega_digital_pin_to_port_PGM mega_digital_pin_to_bit_mask_PGM None 54 true.

(** The RP2040 board has pin numbers only. *)
Definition rp2040 : variant :=
  mkVariant 29 3 26 5 3 4 6 10 26 27 [] [] [] [] [] None 0 false.

#[global] Instance port_reg_eq_dec : EqDecision port_reg.
Proof. solve_decision. Defined.

(** ** Facts *)
Definition pin_line (v : variant) (p : nat) : option (Z * Z) :=
  port ← digital_pin_to_port v !! p; mask ← digital_pin_to_bit_mask v !! p; Some (port, mask).
Definition pin_ok (v : variant) (p : nat) : bool :=
  match pin_line v p with
  | Some (port, mask) =>
      existsb (fun k => mask =? BV k) (iota 8) &&
      negb (port =? NOT_A_PIN) &&
      bool_decide (port_to_mode v !! Z.to_nat port = Some (Reg port)) &&
      bool_decide (port_to_output v !! Z.to_nat port = Some (Reg port)) &&
      bool_decide (port_to_input v !! Z.to_nat port = Some (Reg port))
  | None => false
  end.
Definition pins_distinct (v : variant) : bool :=
  forallb (fun p => forallb (fun q => (p =? q)%nat || negb (bool_decide (pin_line v p = pin_line v q)))
                      (seq 0 (Z.to_nat (NUM_DIGITAL_PINS v))))
    (seq 0 (Z.to_nat (NUM_DIGITAL_PINS v))).

(** On every AVR board each digital pin number below [NUM_DIGITAL_PINS] names
    one bit of one existing port, with the direction, output and input registers
    of that same port, and two different pin numbers never name the same bit. *)
Theorem variant_tables_consistent v p q :
  v = uno \/ v = micro \/ v = mega ->
  (p < Z.to_nat (NUM_DIGITAL_PINS v))%nat -> (q < Z.to_nat (NUM_DIGITAL_PINS v))%nat ->
  pin_ok v p = true /\ (pin_line v p = pin_line v q -> p = q).
Proof.
  intros Hv Hp Hq.
  assert (forallb (pin_ok v) (seq 0 (Z.to_nat (NUM_DIGITAL_PINS v))) = true) as E1
    by (destruct Hv as [ -> | [ -> | -> ] ]; vm_compute; reflexivity).
  assert (pins_distinct v = true) as E2
    by (destruct Hv as [ -> | [ -> | -> ] ]; vm_compute; reflexivity).
  rewrite forallb_forall in E1. split; [apply E1, in_seq; lia|].
  unfold pins_distinct in E2. rewrite forallb_forall in E2.
  specialize (E2 p ltac:(apply in_seq; lia)). rewrite forallb_forall in E2.
  specialize (E2 q ltac:(apply in_seq; lia)). intros E.
  apply orb_prop in E2 as [E2|E2]; [by apply Nat.eqb_eq|].
  rewrite E, bool_decide_eq_true_2 in E2 by done. done.
Qed.
Lemma variant_tables_consistent_witness : pin_ok mega 69 = true.
Proof.
  apply (variant_tables_consistent mega 69 69); [auto|by apply Nat.ltb_lt|by apply Nat.ltb_lt].
Defined.
