(* ===== verification/Pins.v ===== *)
(** * Pins: [shared/lib/pins/pins.h], [avr/lib/pins/pins.c], [pico/lib/pins/pins.c]

    [Class PinOps] is the pin driver as the input code uses it.  [AvrPins] works
    on port and ADC registers through the board's tables, [PicoPins] on the SDK's
    GPIO calls. *)

From Stdlib Require Import ZArith Lia.
From stdpp Require Import base tactics numbers list.
From S2P Require Import Prelude Packed Defs World Config Controller Variants.
Open Scope Z_scope.

(** The register a [Pin_t] points at. *)
Inductive pin_port : Set := NullPort | OutPort (port : Z) | InPort (port : Z).
(** [Pin_t]: the union of the AVR and RP2040 fields the code uses. *)
Record Pin_t : Set := mkPin {
  p_mask : Z; p_port : pin_port; p_eq : bool; p_pin : Z; p_offset : Z;
  p_lastMillis : Z; p_milliDeBounce : Z; p_analogOffset : Z; p_sioFunc : bool
}.
#[global] Instance etaPin : Settable Pin_t := fun r =>
  {| p_mask := p_mask r; p_port := p_port r; p_eq := p_eq r; p_pin := p_pin r;
     p_offset := p_offset r; p_lastMillis := p_lastMillis r;
     p_milliDeBounce := p_milliDeBounce r; p_analogOffset := p_analogOffset r;
     p_sioFunc := p_sioFunc r |}.
Definition zero_pin : Pin_t := mkPin 0 NullPort false 0 0 0 0 0 false.
Record AnalogInfo_t : Set := mkAnalog {
  a_offset : Z; a_pin : Z; a_inverted : bool; a_value : Z; a_threshold : Z; a_hasDigital : bool
}.
#[global] Instance etaAnalog : Settable AnalogInfo_t := fun r =>
  {| a_offset := a_offset r; a_pin := a_pin r; a_inverted := a_inverted r;
     a_value := a_value r; a_threshold := a_threshold r; a_hasDigital := a_hasDigital r |}.
Definition zero_analog : AnalogInfo_t := mkAnalog 0 0 false 0 0 false.

Definition OUTPUT : Z := 0.
Definition INPUT : Z := 1.
Definition INPUT_PULLUP : Z := 2.

(** The pin driver's operations; [joyData] and [validAnalog] are the shared
    analogue table. *)
Class PinOps (S : Type) := {
  board : variant;
  joyData : S -> list AnalogInfo_t;
  validAnalog : S -> Z;
  pinMode : Z -> Z -> M S unit;
  digitalRead : Z -> M S bool;
  digitalWrite : Z -> bool -> M S unit;
  digitalReadPin : Pin_t -> M S bool;
  digitalWritePin : Pin_t -> bool -> M S unit;
  setUpDigital : Configuration_t -> Z -> Z -> bool -> bool -> Pin_t;
  setUpAnalogDigitalPin : Pin_t -> Z -> Z -> M S Pin_t;
  setUpValidPins : Configuration_t -> bool -> M S unit;
  tickAnalog : M S unit;
  analogRead : Z -> M S Z;
  stopReading : M S unit;
  setupADC : M S unit
}.

(** ** AVR *)
Module AvrPins.
(** The inputs of the chip: the level of an input register, the ADC's busy bit
    and result ([ADCL], [ADCH]), and the loop that waits for a conversion, which
    the hardware always ends. *)
Class AvrIn (W : Type) := {
  read_PIN : Z -> M W Z;
  adc_busy : M W bool;
  adc_wait : M W unit;
  adc_result : M W (Z * Z)
}.
Section Avr.
Context (v : variant) {W : Type} `{AvrIn W}.

Record avr_pins : Type := mkAvr {
  joy : list AnalogInfo_t;
  valid : Z;
  currentAnalog : Z;
  first : bool;
  ddr : list Z;
  out : list Z;
  adcsra : Z; adcsrb : Z; admux : Z;
  ints : bool;
  chip : W
}.
#[global] Instance etaAvr : Settable avr_pins := fun r =>
  {| joy := joy r; valid := valid r; currentAnalog := currentAnalog r; first := first r;
     ddr := ddr r; out := out r; adcsra := adcsra r; adcsrb := adcsrb r; admux := admux r;
     ints := ints r; chip := chip r |}.
Definition on_chip {A} (m : M W A) : M avr_pins A :=
  fun s => let '(a, w) := m (chip s) in (a, s <| chip := w |>).

Definition ADSC : Z := 6.
Definition ADEN : Z := 7.
Definition ADPS0 : Z := 0.
Definition ADPS1 : Z := 1.
Definition ADPS2 : Z := 2.
Definition MUX5 : Z := 3.

Definition digitalPinToPort (p : Z) : Z := aget 0 (digital_pin_to_port v) p.
Definition digitalPinToBitMask (p : Z) : Z := aget 0 (digital_pin_to_bit_mask v) p.
Definition analogPinToChannel (p : Z) : Z :=
  match analog_pin_to_channel v with Some t => aget 0 t p | None => p end.

Definition setUpDigital (config : Configuration_t) (pinNum offset : Z) (inverted output : bool)
  : Pin_t :=
  let port := digitalPinToPort pinNum in
  zero_pin <| p_offset := offset |> <| p_pin := pinNum |>
    <| p_mask := digitalPinToBitMask pinNum |>
    <| p_port := if output then OutPort port else InPort port |>
    <| p_eq := inverted |>
    <| p_milliDeBounce := Debounce.buttons (Cfg.debounce config) |>
    <| p_analogOffset := INVALID_PIN |> <| p_lastMillis := 0 |>.
Definition load_port (p : pin_port) : M avr_pins Z :=
  match p with
  | NullPort => mret 0
  | OutPort port => mread (fun s => aget 0 (out s) port)
  | InPort port => on_chip (read_PIN port)
  end.
(** [info.value > info.threshold] compares an [int16_t] with a [uint16_t]: with
    a 16-bit [int] the comparison is unsigned. *)
Definition over_threshold (info : AnalogInfo_t) : bool :=
  u16 (a_value info) >? a_threshold info.
Definition digitalReadPin (pin : Pin_t) : M avr_pins bool :=
  if p_analogOffset pin =? INVALID_PIN then
    r ← load_port (p_port pin);
    mret (Bool.eqb (negb (Z.land r (p_mask pin) =? 0)) (p_eq pin))
  else
    mread (fun s => over_threshold (aget zero_analog (joy s) (p_analogOffset pin))).
Definition write_out (port : Z) (f : Z -> Z) : M avr_pins unit :=
  mmod (fun s => s <| out ::= fun o => aset port (u8 (f (aget 0 o port))) o |>).
Definition write_ddr (port : Z) (f : Z -> Z) : M avr_pins unit :=
  mmod (fun s => s <| ddr ::= fun o => aset port (u8 (f (aget 0 o port))) o |>).
(** Writing through a pin set up as an input would toggle outputs; the firmware
    only writes pins set up as outputs. *)
Definition digitalWritePin (pin : Pin_t) (value : bool) : M avr_pins unit :=
  match p_port pin with
  | OutPort port =>
      if negb value then write_out port (fun o => Z.ldiff o (p_mask pin))
      else write_out port (fun o => Z.lor o (p_mask pin))
  | _ => mret tt
  end.
Definition digitalWrite (pin : Z) (val : bool) : M avr_pins unit :=
  let bit := digitalPinToBitMask pin in
  let port := digitalPinToPort pin in
  if port =? NOT_A_PIN then mret tt
  else if negb val then write_out port (fun o => Z.ldiff o bit)
  else write_out port (fun o => Z.lor o bit).
Definition digitalRead (pin : Z) : M avr_pins bool :=
  let bit := digitalPinToBitMask pin in
  let port := digitalPinToPort pin in
  if port =? NOT_A_PIN then mret false
  else r ← on_chip (read_PIN port); mret (negb (Z.land r bit =? 0)).
Definition pinMode (pin mode : Z) : M avr_pins unit :=
  let bit := digitalPinToBitMask pin in
  let port := digitalPinToPort pin in
  if port =? NOT_A_PIN then mret tt
  else
    (if mode =? INPUT then
       write_ddr port (fun r => Z.ldiff r bit) ;; write_out port (fun o => Z.ldiff o bit)
     else if mode =? INPUT_PULLUP then
       write_ddr port (fun r => Z.ldiff r bit) ;; write_out port (fun o => Z.lor o bit)
     else write_ddr port (fun r => Z.lor r bit)) ;;
    mmod (fun s => s <| ints := true |>).

(** [joyData[validAnalog++] = ret]. *)
Definition push_analog (ret : AnalogInfo_t) : M avr_pins unit :=
  mmod (fun s => s <| joy := aset (valid s) ret (joy s) |> <| valid ::= Z.succ |>).
Definition setUpAnalogPin (config : Configuration_t) (typeIsGuitar : bool) (offset : Z)
  : M avr_pins unit :=
  let apin := aget INVALID_AN_PIN (pins_axis (Cfg.pins config)) offset in
  let pin := AnalogPin.pin apin in
  if pin =? INVALID_PIN then mret tt
  else if (offset =? 5) && typeIsGuitar && negb (Main.tiltType (Cfg.main config) =? ANALOGUE)
  then mret tt
  else
    pinMode pin INPUT ;;
    push_analog (zero_analog <| a_offset := offset |>
      <| a_inverted := truth (AnalogPin.inverted apin) |>
      <| a_pin := analogPinToChannel (u8 (pin - PIN_A0 v)) |>).
Definition setUpAnalogDigitalPin (button : Pin_t) (pin threshold : Z) : M avr_pins Pin_t :=
  pinMode pin INPUT ;;
  n ← mread valid;
  push_analog (zero_analog <| a_offset := pin |> <| a_hasDigital := true |>
    <| a_threshold := threshold |> <| a_pin := analogPinToChannel (u8 (pin - PIN_A0 v)) |>) ;;
  mret (button <| p_analogOffset := u8 n |>).

(** Channel selection and start of a conversion. *)
Definition select_channel (pin : Z) : M avr_pins unit :=
  mmod (fun s => s
    <| adcsrb ::= fun r => if has_MUX5 v
         then Z.lor (Z.ldiff r (BV MUX5)) (Z.shiftl (Z.land (Z.shiftr pin 3) 1) MUX5) else r |>
    <| admux := Z.lor (BV 6) (Z.land pin 7) |>).
Definition start_conversion : M avr_pins unit :=
  mmod (fun s => s <| adcsra ::= fun r => bit_set r ADSC |>).
(** The value stored for a conversion result. *)
Definition scale_adc (info : AnalogInfo_t) (low high : Z) : Z :=
  let data := i16 (Z.lor (Z.shiftl high 8) low) in
  let data :=
    if negb (a_hasDigital info) then
      let data := i16 (data - 512) in
      if a_inverted info then i16 (- data) else data
    else data in
  i16 (data * 64).
Definition start_next : M avr_pins unit :=
  mmod (fun s => s <| first := false |>) ;;
  info ← mread (fun s => aget zero_analog (joy s) (currentAnalog s));
  select_channel (a_pin info) ;;
  start_conversion.
Definition store_result (r : Z * Z) : M avr_pins unit :=
  mmod (fun s =>
    let info := aget zero_analog (joy s) (currentAnalog s) in
    s <| joy ::= aset (currentAnalog s) (info <| a_value := scale_adc info r.1 r.2 |>) |>
      <| currentAnalog := (let n := currentAnalog s + 1 in
                           if n =? valid s then 0 else n) |>).
Definition tickAnalog : M avr_pins unit :=
  s ← mread id;
  if valid s =? 0 then mret tt
  else if first s then start_next
  else
    busy ← on_chip adc_busy;
    if (busy : bool) then mret tt
    else
      r ← on_chip adc_result;
      store_result r ;;
      start_next.
Definition analogRead (pin : Z) : M avr_pins Z :=
  let pin := if pin >=? analog_base v then u8 (pin - analog_base v) else pin in
  let pin := analogPinToChannel pin in
  select_channel pin ;;
  start_conversion ;;
  on_chip adc_wait ;;
  r ← on_chip adc_result;
  mret (u16 (Z.lor (Z.shiftl r.2 8) r.1)).
Definition stopReading : M avr_pins unit :=
  on_chip adc_wait ;; mmod (fun s => s <| first := true |>).
(** At 16 MHz. *)
Definition setupADC : M avr_pins unit :=
  mmod (fun s => s <| adcsra ::= fun r =>
    bit_set (bit_set (bit_set (bit_set r ADPS2) ADPS1) ADPS0) ADEN |>).
Definition setUpValidPins (config : Configuration_t) (typeIsGuitar : bool) : M avr_pins unit :=
  stopReading ;;
  mmod (fun s => s <| valid := 0 |> <| currentAnalog := 0 |>) ;;
  mfor (iota 6) (setUpAnalogPin config typeIsGuitar).

#[global] Instance AvrPinOps : PinOps avr_pins :=
  {| board := v; joyData := joy; validAnalog := valid;
     Pins.pinMode := pinMode; Pins.digitalRead := digitalRead;
     Pins.digitalWrite := digitalWrite; Pins.digitalReadPin := digitalReadPin;
     Pins.digitalWritePin := digitalWritePin; Pins.setUpDigital := setUpDigital;
     Pins.setUpAnalogDigitalPin := setUpAnalogDigitalPin;
     Pins.setUpValidPins := setUpValidPins; Pins.tickAnalog := tickAnalog;
     Pins.analogRead := analogRead; Pins.stopReading := stopReading;
     Pins.setupADC := setupADC |}.
End Avr.
Arguments avr_pins : clear implicits.
End AvrPins.

(** ** RP2040 *)
Module PicoPins.
(** The SDK calls of the driver. *)
Class PicoSdk (W : Type) := {
  gpio_put : Z -> bool -> M W unit;
  gpio_get : Z -> M W bool;
  gpio_set_oeover : Z -> Z -> M W unit;
  gpio_set_outover : Z -> Z -> M W unit;
  gpio_init : Z -> M W unit;
  gpio_set_dir : Z -> bool -> M W unit;
  gpio_set_pulls : Z -> bool -> bool -> M W unit;
  adc_gpio_init : Z -> M W unit;
  adc_select_input : Z -> M W unit;
  adc_read : M W Z;
  adc_init : M W unit
}.
Definition GPIO_OVERRIDE_NORMAL : Z := 0.
Definition GPIO_OVERRIDE_HIGH : Z := 3.
Section Pico.
Context {W : Type} `{PicoSdk W}.

Record pico_pins : Type := mkPico { joy : list AnalogInfo_t; valid : Z; sdk : W }.
#[global] Instance etaPico : Settable pico_pins := fun r =>
  {| joy := joy r; valid := valid r; sdk := sdk r |}.
Definition on_sdk {A} (m : M W A) : M pico_pins A :=
  fun s => let '(a, w) := m (sdk s) in (a, s <| sdk := w |>).

Definition digitalWrite (pin : Z) (val : bool) : M pico_pins unit := on_sdk (gpio_put pin val).
Definition digitalRead (pin : Z) : M pico_pins bool := on_sdk (gpio_get pin).
Definition setUpDigital (config : Configuration_t) (pinNum offset : Z) (inverted output : bool)
  : Pin_t :=
  zero_pin <| p_offset := offset |> <| p_pin := pinNum |> <| p_eq := inverted |>
    <| p_sioFunc := true |> <| p_analogOffset := INVALID_PIN |>
    <| p_milliDeBounce := Debounce.buttons (Cfg.debounce config) |> <| p_lastMillis := 0 |>.
(** With a 32-bit [int] the comparison is signed. *)
Definition over_threshold (info : AnalogInfo_t) : bool := a_value info >? a_threshold info.
Definition digitalReadPin (pin : Pin_t) : M pico_pins bool :=
  if p_analogOffset pin =? INVALID_PIN then
    r ← on_sdk (gpio_get (p_pin pin)); mret (Bool.eqb r (p_eq pin))
  else
    mread (fun s => over_threshold (aget zero_analog (joy s) (p_analogOffset pin))).
Definition digitalWritePin (pin : Pin_t) (value : bool) : M pico_pins unit :=
  if negb (p_sioFunc pin) then
    let f := if value then GPIO_OVERRIDE_HIGH else GPIO_OVERRIDE_NORMAL in
    on_sdk (gpio_set_oeover (p_pin pin) f) ;; on_sdk (gpio_set_outover (p_pin pin) f)
  else on_sdk (gpio_put (p_pin pin) value).
Definition pinMode (pin mode : Z) : M pico_pins unit :=
  if (mode =? INPUT) && (pin >=? PIN_A0 rp2040) then on_sdk (adc_gpio_init pin)
  else
    on_sdk (gpio_init pin) ;;
    on_sdk (gpio_set_dir pin (mode =? OUTPUT)) ;;
    on_sdk (gpio_set_pulls pin (mode =? INPUT_PULLUP) false).
Definition push_analog (ret : AnalogInfo_t) : M pico_pins unit :=
  mmod (fun s => s <| joy := aset (valid s) ret (joy s) |> <| valid ::= Z.succ |>).
Definition setUpAnalogPin (config : Configuration_t) (typeIsGuitar : bool) (offset : Z)
  : M pico_pins unit :=
  let apin := aget INVALID_AN_PIN (pins_axis (Cfg.pins config)) offset in
  let pin := AnalogPin.pin apin in
  if pin =? INVALID_PIN then mret tt
  else if (offset =? 5) && typeIsGuitar && negb (Main.tiltType (Cfg.main config) =? ANALOGUE)
  then mret tt
  else
    pinMode (u8 (PIN_A0 rp2040 + pin)) INPUT ;;
    push_analog (zero_analog <| a_offset := offset |> <| a_pin := pin |>
      <| a_inverted := truth (AnalogPin.inverted apin) |>).
Definition setUpAnalogDigitalPin (button : Pin_t) (pin threshold : Z) : M pico_pins Pin_t :=
  pinMode (u8 (PIN_A0 rp2040 + pin)) INPUT ;;
  n ← mread valid;
  push_analog (zero_analog <| a_offset := pin |> <| a_hasDigital := true |>
    <| a_threshold := threshold |> <| a_pin := pin |>) ;;
  mret (button <| p_analogOffset := u8 n |>).
(** 12 bits shifted to the AVR's 10. *)
Definition analogRead (pin : Z) : M pico_pins Z :=
  on_sdk (adc_select_input (pin + PIN_A0 rp2040)) ;;
  v ← on_sdk adc_read;
  mret (u16 (Z.shiftr v 2)).
Definition scale_adc (info : AnalogInfo_t) (data : Z) : Z :=
  i16 (if negb (a_hasDigital info) then
         let data := if a_inverted info then u16 (data * -1) else data in
         u16 ((data - 512) * 64)
       else data).
Definition tickAnalog : M pico_pins unit :=
  n ← mread valid;
  if n =? 0 then mret tt
  else mfor (iota (Z.to_nat n)) (fun i =>
    info ← mread (fun s => aget zero_analog (joy s) i);
    data ← analogRead (u8 (a_pin info - PIN_A0 rp2040));
    mmod (fun s => s <| joy ::= aset i (info <| a_value := scale_adc info data |>) |>)).
Definition setupADC : M pico_pins unit := on_sdk adc_init.
(** The table is appended to, not restarted. *)
Definition setUpValidPins (config : Configuration_t) (typeIsGuitar : bool) : M pico_pins unit :=
  mfor (iota 6) (setUpAnalogPin config typeIsGuitar).
(** Empty in pico/main/main.c and pico/rf/main.c. *)
Definition stopReading : M pico_pins unit := mret tt.

#[global] Instance PicoPinOps : PinOps pico_pins :=
  {| board := rp2040; joyData := joy; validAnalog := valid;
     Pins.pinMode := pinMode; Pins.digitalRead := digitalRead;
     Pins.digitalWrite := digitalWrite; Pins.digitalReadPin := digitalReadPin;
     Pins.digitalWritePin := digitalWritePin; Pins.setUpDigital := setUpDigital;
     Pins.setUpAnalogDigitalPin := setUpAnalogDigitalPin;
     Pins.setUpValidPins := setUpValidPins; Pins.tickAnalog := tickAnalog;
     Pins.analogRead := analogRead; Pins.stopReading := stopReading;
     Pins.setupADC := setupADC |}.
End Pico.
Arguments pico_pins : clear implicits.
End PicoPins.

(** ** The two drivers agree on axes *)
(** A 10-bit result [d] read as [ADCL] and [ADCH]. *)
Definition adc_low (d : Z) : Z := d mod 256.
Definition adc_high (d : Z) : Z := d / 256.
Definition adc10 (d : Z) : Prop := 0 <= d < 1024.
Lemma adc_combine d : adc10 d -> i16 (Z.lor (Z.shiftl (adc_high d) 8) (adc_low d)) = d.
Proof.
  unfold adc10, adc_high, adc_low. intros.
  rewrite lor_shiftl_add by (unfold in_u; (lia || zdiv)). change (2 ^ 8) with 256.
  replace (_ + _) with d by zdiv. apply (swrap_small 16 eq_refl). unfold in_s. lia.
Qed.

(** The AVR and the RP2040 driver scale an axis reading to the same 16-bit
    value, for either direction.  The value is [(d - 512) * 64] or its negation,
    except that an inverted axis at 0 wraps from the most positive to the most
    negative value. *)
Theorem axis_scaling_agrees info d :
  adc10 d -> a_hasDigital info = false ->
  AvrPins.scale_adc info (adc_low d) (adc_high d) = PicoPins.scale_adc info d /\
  PicoPins.scale_adc info d =
    if a_inverted info then if d =? 0 then -32768 else (512 - d) * 64 else (d - 512) * 64.
Proof.
  intros Hd Hh. unfold AvrPins.scale_adc, PicoPins.scale_adc.
  rewrite adc_combine, Hh by done. cbn [negb]. unfold adc10, swrap, uwrap in *.
  destruct (a_inverted info).
  - destruct (Z.eqb_spec d 0) as [->|]; [by split|]. split; zdiv.
  - split; zdiv.
Qed.
Lemma axis_scaling_agrees_witness :
  adc10 300 /\ AvrPins.scale_adc zero_analog (adc_low 300) (adc_high 300) = (300 - 512) * 64.
Proof.
  assert (adc10 300) as H by (unfold adc10; lia).
  split; [exact H|].
  destruct (axis_scaling_agrees zero_analog 300 H eq_refl) as [-> ->]. reflexivity.
Defined.

(** A drum pad with the threshold byte 100. *)
Definition pad : AnalogInfo_t := zero_analog <| a_hasDigital := true |> <| a_threshold := 800 |>.
(** A drum pad fires at different readings on the two boards: with the
    threshold byte [t] the AVR, which stores 64 times the reading, fires when
    [8 * d > t], the RP2040, which stores the reading itself, when [d > 8 * t],
    hence never for thresholds of 128 and more. *)
Theorem drum_threshold_differs info d t :
  adc10 d -> byte t -> a_hasDigital info = true -> a_threshold info = u16 (Z.shiftl t 3) ->
  AvrPins.over_threshold (info <| a_value := AvrPins.scale_adc info (adc_low d) (adc_high d) |>)
    = (8 * d >? t) /\
  PicoPins.over_threshold (info <| a_value := PicoPins.scale_adc info d |>) = (d >? 8 * t).
Proof.
  intros Hd Ht Hh Hthr. unfold AvrPins.over_threshold, PicoPins.over_threshold.
  cbn -[Z.shiftl]. unfold AvrPins.scale_adc, PicoPins.scale_adc.
  rewrite adc_combine, Hh, Hthr, Z.shiftl_mul_pow2 by (done || lia). cbn [negb].
  change (2 ^ 3) with 8. unfold adc10, in_u, swrap, uwrap in *. rewrite !Z.gtb_ltb.
  split; apply eq_true_iff_eq; rewrite !Z.ltb_lt; zdiv.
Qed.
Lemma drum_threshold_differs_witness :
  AvrPins.over_threshold (pad <| a_value := AvrPins.scale_adc pad (adc_low 13) (adc_high 13) |>)
    = true /\
  PicoPins.over_threshold (pad <| a_value := PicoPins.scale_adc pad 800 |>) = false.
Proof.
  assert (byte 100) as H100 by (unfold in_u; lia).
  assert (adc10 13) as H13 by (unfold adc10; lia).
  assert (adc10 800) as H800 by (unfold adc10; lia).
  split.
  - rewrite (proj1 (drum_threshold_differs pad 13 100 H13 H100 eq_refl eq_refl)). reflexivity.
  - rewrite (proj2 (drum_threshold_differs pad 800 100 H800 H100 eq_refl eq_refl)). reflexivity.
Defined.

(** What the set-up code relies on: a digital entry carries its button's index and
    no analogue reading; redirecting it to an analogue reading keeps the index. *)
Class PinOpsOk (S : Type) `{PinOps S} : Prop := {
  setUpDigital_entry c p i inv out :
    p_offset (setUpDigital c p i inv out) = i /\ p_pin (setUpDigital c p i inv out) = p /\
    p_lastMillis (setUpDigital c p i inv out) = 0;
  setUpDigital_timing c p i inv out :
    p_milliDeBounce (setUpDigital c p i inv out) = Debounce.buttons (Cfg.debounce c) /\
    p_analogOffset (setUpDigital c p i inv out) = INVALID_PIN;
  setUpAnalogDigitalPin_keeps b p t s :
    let b' := (setUpAnalogDigitalPin b p t s).1 in
    p_offset b' = p_offset b /\ p_pin b' = p_pin b /\ p_lastMillis b' = p_lastMillis b
}.
#[global] Instance AvrPinOps_ok v {W} `{AvrPins.AvrIn W} :
  @PinOpsOk (AvrPins.avr_pins W) (AvrPins.AvrPinOps v).
Proof.
  split; [done|done|]. intros b p t s. cbn zeta. cbn [setUpAnalogDigitalPin AvrPins.AvrPinOps].
  unfold AvrPins.setUpAnalogDigitalPin. by rewrite !mbind_run.
Qed.
#[global] Instance PicoPinOps_ok {W} `{PicoPins.PicoSdk W} :
  @PinOpsOk (PicoPins.pico_pins W) PicoPins.PicoPinOps.
Proof.
  split; [done|done|]. intros b p t s. cbn zeta. cbn [setUpAnalogDigitalPin PicoPins.PicoPinOps].
  unfold PicoPins.setUpAnalogDigitalPin. by rewrite !mbind_run.
Qed.

(** ** The AVR's analogue round robin *)
Section RoundRobin.
Import AvrPins.
Context (v : variant) {W : Type} `{AvrIn W}.

(** The channel the multiplexer registers select. *)
Definition mux_selects (pin : Z) (s : avr_pins W) : Prop :=
  admux s = Z.lor (BV 6) (Z.land pin 7) /\
  (has_MUX5 v = true -> Z.testbit (adcsrb s) MUX5 = Z.testbit pin 3).
Definition table_ok (s : avr_pins W) : Prop :=
  0 <= valid s <= Z.of_nat (length (joy s)) /\
  0 <= currentAnalog s /\ (valid s = 0 \/ currentAnalog s < valid s).
(** A conversion in progress is one of the current entry's channel. *)
Definition adc_ready (s : avr_pins W) : Prop :=
  table_ok s /\
  (first s = false ->
   mux_selects (a_pin (aget zero_analog (joy s) (currentAnalog s))) s).

Lemma start_next_selects s :
  let s' := (start_next v s).2 in
  joy s' = joy s /\ valid s' = valid s /\ currentAnalog s' = currentAnalog s /\
  first s' = false /\
  mux_selects (a_pin (aget zero_analog (joy s) (currentAnalog s))) s'.
Proof.
  unfold start_next, select_channel, start_conversion. rewrite !mbind_run. cbn -[Z.land Z.lor Z.testbit aget].
  split_and!; try done. split; [done|]. intros Hm. cbn -[Z.land Z.lor Z.testbit aget]. rewrite Hm.
  cbv iota.
  rewrite Z.lor_spec, Z.ldiff_spec, testbit_BV by (unfold MUX5; lia).
  rewrite Z.shiftl_spec by (unfold MUX5; lia). unfold MUX5.
  cbn [Z.sub Z.eqb]. rewrite andb_false_r, Z.land_spec, Z.shiftr_spec by lia.
  apply andb_true_r.
Qed.

Lemma on_chip_run {A} (m : M W A) (s : avr_pins W) :
  on_chip m s = ((m (chip s)).1, s <| chip := (m (chip s)).2 |>).
Proof. unfold on_chip. by destruct (m (chip s)). Qed.
(** [tickAnalog] stores each conversion result in the entry whose channel the
    multiplexer selected, scaled, and moves on to the next entry cyclically; it
    touches no other entry, never leaves the table and always leaves a
    conversion of the new current entry's channel in progress. *)
Theorem tickAnalog_round_robin s :
  adc_ready s ->
  let s' := (tickAnalog v s).2 in
  let busy := adc_busy (chip s) in
  let r := (adc_result busy.2).1 in
  let cur := currentAnalog s in
  let info := aget zero_analog (joy s) cur in
  adc_ready s' /\ valid s' = valid s /\
  if (valid s =? 0) || first s || busy.1 then
    joy s' = joy s /\ currentAnalog s' = currentAnalog s
  else
    joy s' = aset cur (info <| a_value := scale_adc info r.1 r.2 |>) (joy s) /\
    currentAnalog s' = (cur + 1) mod valid s.
Proof.
  intros [(Hv & Hc & Hcv) Hm]. cbn zeta. unfold tickAnalog. rewrite mbind_run.
  cbn [mread fst snd id].
  destruct (Z.eqb_spec (valid s) 0) as [H0|H0]; cbn [orb].
  { cbn [mret M_ret snd]. unfold adc_ready, table_ok. auto 10. }
  destruct (first s) eqn:Hf; cbn [orb].
  { pose proof (start_next_selects s) as (Hj & Hv' & Hc' & Hf' & Hs).
    split; [|auto]. split; [unfold table_ok; rewrite Hj, Hv', Hc'; auto|].
    intros _. by rewrite Hj, Hc'. }
  rewrite mbind_run, on_chip_run. cbn [fst snd].
  destruct (adc_busy (chip s)) as [[|] w] eqn:Eb; cbn [fst snd].
  { unfold adc_ready, table_ok. cbn. auto 10. }
  rewrite mbind_run, on_chip_run, mbind_run. cbn [fst snd].
  change (chip (s <| chip := w |>)) with w.
  destruct (adc_result w) as [r w']. cbn [fst snd].
  pose proof (start_next_selects (store_result r (s <| chip := w |> <| chip := w' |>)).2)
    as (Hj & Hv' & Hc' & Hf' & Hs).
  cbn zeta in *. unfold adc_ready, table_ok. rewrite Hj, Hv', Hc'.
  unfold store_result, mmod in *. cbn -[Z.add aget aset scale_adc] in *.
  rewrite length_aset. destruct (Z.eqb_spec (currentAnalog s + 1) (valid s)) as [E|E].
  - rewrite E, Z.mod_same by lia. split_and!; auto; lia.
  - rewrite Z.mod_small by lia. split_and!; auto; lia.
Qed.
End RoundRobin.

(** A chip whose conversions are always finished and read 600. *)
Definition idle_chip : AvrPins.AvrIn unit :=
  {| AvrPins.read_PIN _ := mret 0; AvrPins.adc_busy := mret false;
     AvrPins.adc_wait := mret tt; AvrPins.adc_result := mret (adc_low 600, adc_high 600) |}.
(** Two channels in the table, channel 5 being converted. *)
Definition two_channels : AvrPins.avr_pins unit :=
  AvrPins.mkAvr [zero_analog <| a_pin := 3 |>; zero_analog <| a_pin := 5 |>] 2 1 false [] []
    0 0 (Z.lor (BV 6) 5) true tt.
Lemma tickAnalog_round_robin_witness :
  adc_ready uno two_channels /\
  (AvrPins.tickAnalog (H := idle_chip) uno two_channels).2.(AvrPins.currentAnalog) = 0.
Proof.
  assert (adc_ready uno two_channels) as Hr.
  { split; [unfold table_ok; cbn; lia|]. intros _. split; [reflexivity|]. discriminate. }
  split; [exact Hr|].
  destruct (tickAnalog_round_robin uno (H := idle_chip) two_channels Hr) as (_ & _ & _ & Hc).
  rewrite Hc. reflexivity.
Defined.
