(* ===== verification/Spi.v ===== *)
(** * SPI: [avr/lib/spi/spi.c], [pico/lib/spi/spi.c], [pico/lib/spi/pio_spi.c]

    The drivers behind [World.SPIBus].  [AvrSpi] programs the SPI unit of the AVR;
    [PicoSpi] feeds a PIO state machine through its two FIFOs ([PioFifo]), of
    which [pio] is a machine that shifts bytes whenever it is scheduled. *)

From Stdlib Require Import ZArith Lia.
From stdpp Require Import base tactics numbers list option.
From S2P Require Import Prelude World Variants Pins.
Open Scope Z_scope.

(** ** AVR *)
Module AvrSpi.
Definition SPE : Z := 6.
Definition DORD : Z := 5.
Definition MSTR : Z := 4.
Definition CPOL : Z := 3.
Definition CPHA : Z := 2.
(** The data register and the end-of-transfer flag of the unit. *)
Class SpiUnit (W : Type) := {
  write_SPDR : Z -> M W unit; read_SPDR : M W Z; SPIF : M W bool
}.

Section Spi.
Context {W : Type} `{PinOps W, SpiUnit W} (F_CPU : Z).
Record avr_spi : Type := mkSpi { SPCR : Z; SPSR : Z; unit_ : W }.
#[global] Instance etaSpi : Settable avr_spi := fun r =>
  {| SPCR := SPCR r; SPSR := SPSR r; unit_ := unit_ r |}.
Definition on_unit {A} (m : M W A) : M avr_spi A :=
  fun s => let '(a, w) := m (unit_ s) in (a, s <| unit_ := w |>).

(** The clock divider, with the SPI2X bit already inverted. *)
Definition clock_div (clock : Z) : Z :=
  Z.lxor (if clock >=? F_CPU / 2 then 0 else if clock >=? F_CPU / 4 then 1
          else if clock >=? F_CPU / 8 then 2 else if clock >=? F_CPU / 16 then 3
          else if clock >=? F_CPU / 32 then 4 else if clock >=? F_CPU / 64 then 5 else 7) 1.
Definition calculateClock (clock config : Z) : M avr_spi unit :=
  let clockDiv := clock_div clock in
  mmod (fun s => s <| SPCR :=
    Z.lor (Z.lor (Z.lor (BV SPE) (BV MSTR)) config) (Z.land (Z.shiftr clockDiv 1) 3) |>) ;;
  mmod (fun s => s <| SPSR := Z.land clockDiv 1 |>).
(** [junk] is what the uninitialised [config] holds. *)
Definition mode_bits (junk : Z) (cpol cpha lsbfirst : bool) : Z :=
  let config := if cpol then Z.lor junk (BV CPOL) else junk in
  let config := if cpha then Z.lor config (BV CPHA) else config in
  if lsbfirst then Z.lor config (BV DORD) else config.
Definition spi_begin (junk clock : Z) (cpol cpha lsbfirst : bool) : M avr_spi unit :=
  on_unit (pinMode (PIN_SPI_MOSI (board (S := W))) OUTPUT) ;;
  on_unit (pinMode (PIN_SPI_MISO (board (S := W))) INPUT_PULLUP) ;;
  on_unit (pinMode (PIN_SPI_SCK (board (S := W))) OUTPUT) ;;
  on_unit (digitalWrite (PIN_SPI_SS (board (S := W))) true) ;;
  on_unit (pinMode (PIN_SPI_SS (board (S := W))) OUTPUT) ;;
  calculateClock clock (mode_bits junk cpol cpha lsbfirst).
(** The busy-wait; [None] when the flag is still clear after [fuel] reads. *)
Fixpoint wait_SPIF (fuel : nat) : M avr_spi (option unit) :=
  match fuel with
  | O => mret None
  | S fuel => f ← on_unit SPIF; if (f : bool) then oret tt else wait_SPIF fuel
  end.
Definition spi_transfer (fuel : nat) (data : Z) : M avr_spi (option Z) :=
  on_unit (write_SPDR data) ;;
  _ ←? wait_SPIF fuel; olift (on_unit read_SPDR).
Definition spi_high : M avr_spi unit :=
  on_unit (digitalWrite (PIN_SPI_SCK (board (S := W))) true) ;;
  on_unit (digitalWrite (PIN_SPI_MOSI (board (S := W))) true).
Definition spi_low : M avr_spi unit :=
  on_unit (digitalWrite (PIN_SPI_SCK (board (S := W))) false) ;;
  on_unit (digitalWrite (PIN_SPI_MOSI (board (S := W))) false).
End Spi.
Arguments avr_spi : clear implicits.
End AvrSpi.

(** ** RP2040 *)
Module PicoSpi.
(** The FIFOs of the state machine. *)
Class PioFifo (W : Type) := {
  pio_sm_is_tx_fifo_full : M W bool; pio_sm_is_rx_fifo_empty : M W bool;
  put : Z -> M W unit; get : M W Z
}.
Section Loop.
Context {W : Type} `{PioFifo W}.
(** The two halves of the loop that the three transfers share: [next i] is what
    goes out for byte [i], [i] counts the bytes written, [dst] are the bytes read. *)
Definition tx_half (next : Z -> Z) (i tx_remain : Z) : M W (Z * Z) :=
  if tx_remain =? 0 then mret (i, tx_remain)
  else
    full ← pio_sm_is_tx_fifo_full;
    if (full : bool) then mret (i, tx_remain) else put (next i) ;; mret (i + 1, tx_remain - 1).
Definition rx_half (rx_remain : Z) (dst : list Z) : M W (Z * list Z) :=
  if rx_remain =? 0 then mret (rx_remain, dst)
  else
    empty ← pio_sm_is_rx_fifo_empty;
    if (empty : bool) then mret (rx_remain, dst) else b ← get; mret (rx_remain - 1, dst ++ [b]).
Fixpoint pio_loop (next : Z -> Z) (fuel : nat) (i tx_remain rx_remain : Z) (dst : list Z)
  : M W (option (list Z)) :=
  match fuel with
  | O => mret None
  | S fuel =>
      if (tx_remain =? 0) && (rx_remain =? 0) then oret dst
      else
        t ← tx_half next i tx_remain;
        r ← rx_half rx_remain dst;
        pio_loop next fuel t.1 t.2 r.1 r.2
  end.
Definition pio_spi_write8_blocking (fuel : nat) (src : Z -> Z) (len : Z) : M W (option unit) :=
  _ ←? pio_loop src fuel 0 len len []; oret tt.
Definition pio_spi_read8_blocking (fuel : nat) (len : Z) : M W (option (list Z)) :=
  pio_loop (fun _ => 0) fuel 0 len len [].
Definition pio_spi_write8_read8_blocking (fuel : nat) (src : Z -> Z) (len : Z)
  : M W (option (list Z)) := pio_loop src fuel 0 len len [].

Definition revbits2 (x : Z) : Z :=
  let x := u8 (Z.lor (Z.shiftr (Z.land x 0xaa) 1) (Z.shiftl (Z.land x 0x55) 1)) in
  let x := u8 (Z.lor (Z.shiftr (Z.land x 0xcc) 2) (Z.shiftl (Z.land x 0x33) 2)) in
  u8 (Z.lor (Z.shiftr (Z.land x 0xf0) 4) (Z.shiftl (Z.land x 0x0f) 4)).
Definition spi_transfer (fuel : nat) (data : Z) : M W (option Z) :=
  resp ←? pio_spi_write8_read8_blocking fuel (fun _ => revbits2 data) 1;
  oret (revbits2 (aget 0 resp 0)).
End Loop.

(** Set-up: the PIO and clock calls of the SDK. *)
Class PioSetup (W : Type) := {
  clk_sys_hz : M W Z; pio_add_program : bool -> M W Z;
  (* offset, bits, divider, phase, polarity, pins *)
  pio_spi_init : Z -> Z -> Z -> bool -> bool -> Z -> Z -> Z -> M W unit;
  (* values, mask *)
  pio_sm_set_pins_with_mask : Z -> Z -> M W unit
}.
Section Setup.
Context {W : Type} `{PioSetup W}.
Definition spi_begin (clock : Z) (cpol cpha lsbfirst : bool) : M W unit :=
  hz ← clk_sys_hz;
  offset ← pio_add_program cpha;
  pio_spi_init offset 8 (hz / clock) cpha cpol (PIN_SPI_SCK rp2040) (PIN_SPI_MOSI rp2040)
    (PIN_SPI_MISO rp2040).
Definition spi_pins : Z := Z.lor (BV (PIN_SPI_SCK rp2040)) (BV (PIN_SPI_MOSI rp2040)).
Definition spi_high : M W unit := pio_sm_set_pins_with_mask (BV (PIN_SPI_MOSI rp2040)) spi_pins.
Definition spi_low : M W unit := pio_sm_set_pins_with_mask (BV (PIN_SPI_SCK rp2040)) spi_pins.
End Setup.
End PicoSpi.

(** ** The clock and mode the AVR is set to *)
Section AvrMode.
Import AvrSpi.
Context {W : Type} `{PinOps W}.
(** The divider SPR1, SPR0 and SPI2X select (data sheet, SCK frequency). *)
Definition sck_divider (s : avr_spi W) : Z :=
  aget 0 (if Z.land (SPSR s) 1 =? 1 then [2; 8; 32; 64] else [4; 16; 64; 128]) (Z.land (SPCR s) 3).
Definition dividers : list Z := [2; 4; 8; 16; 32; 64; 128].

Lemma on_unit_run {A} (m : M W A) s : on_unit m s = ((m (unit_ s)).1, s <| unit_ := (m (unit_ s)).2 |>).
Proof. unfold on_unit. by destruct (m (unit_ s)). Qed.
Lemma spi_begin_run F_CPU junk clock cpol cpha lsbfirst s :
  exists w, spi_begin F_CPU junk clock cpol cpha lsbfirst s =
    (tt, mkSpi (Z.lor (Z.lor (Z.lor (BV SPE) (BV MSTR)) (mode_bits junk cpol cpha lsbfirst))
                 (Z.land (Z.shiftr (clock_div F_CPU clock) 1) 3))
               (Z.land (clock_div F_CPU clock) 1) w).
Proof.
  unfold spi_begin. do 5 rewrite mbind_run, on_unit_run.
  eexists. reflexivity.
Qed.
Lemma mode_bits_testbit junk cpol cpha lsbfirst i : 0 <= i ->
  Z.testbit (mode_bits junk cpol cpha lsbfirst) i =
    Z.testbit junk i || (cpol && (i =? CPOL)) || (cpha && (i =? CPHA)) || (lsbfirst && (i =? DORD)).
Proof.
  intros Hi. unfold mode_bits.
  destruct cpol, cpha, lsbfirst; rewrite ?Z.lor_spec, ?testbit_BV by (done || lia);
    cbn [andb]; by rewrite ?orb_false_r.
Qed.
Lemma mode_bits_low junk cpol cpha lsbfirst :
  Z.land junk 3 = 0 -> Z.land (mode_bits junk cpol cpha lsbfirst) 3 = 0.
Proof.
  intros E. unfold mode_bits. destruct cpol, cpha, lsbfirst; by rewrite ?Z.land_lor_distr_l, E.
Qed.
Lemma rate_bits mode x : Z.land mode 3 = 0 ->
  Z.land (Z.lor (Z.lor (Z.lor (BV SPE) (BV MSTR)) mode) (Z.land x 3)) 3 = Z.land x 3.
Proof.
  intros E. rewrite !Z.land_lor_distr_l, E, <- Z.land_assoc.
  change (Z.land 3 3) with 3. by rewrite Z.lor_0_r.
Qed.

(** [spi_begin] enables the unit as a master in the mode that is asked for (the
    uninitialised bits of [config] remain set), and when those bits leave the rate
    alone the divider it selects gives the fastest clock that is not above the one
    asked for; below F_CPU/128 it gives F_CPU/128. *)
Theorem spi_begin_spec F_CPU junk clock cpol cpha lsbfirst s :
  let s' := (spi_begin F_CPU junk clock cpol cpha lsbfirst s).2 in
  let d := sck_divider s' in
  (forall i, 2 <= i -> Z.testbit (SPCR s') i =
     bool_decide (In i [SPE; MSTR]) || Z.testbit junk i ||
     (cpol && (i =? CPOL)) || (cpha && (i =? CPHA)) || (lsbfirst && (i =? DORD))) /\
  (Z.land junk 3 = 0 ->
     In d dividers /\ (F_CPU / 128 <= clock -> F_CPU / d <= clock) /\
     (forall d', In d' dividers -> F_CPU / d' <= clock -> d <= d')).
Proof.
  destruct (spi_begin_run F_CPU junk clock cpol cpha lsbfirst s) as [w ->]. cbn [snd].
  unfold sck_divider. cbn [SPCR SPSR]. split.
  - intros i Hi. rewrite !Z.lor_spec, mode_bits_testbit, !testbit_BV by (done || lia).
    rewrite (Z.land_spec _ 3). change 3 with (Z.ones 2) at 1.
    rewrite Z.ones_spec_high, andb_false_r, orb_false_r by lia.
    rewrite <- !orb_assoc, (orb_assoc (i =? SPE)). f_equal.
    unfold SPE, MSTR. destruct (Z.eqb_spec i 6) as [->|]; [done|]. destruct (Z.eqb_spec i 4) as [->|]; [done|].
    cbn [orb].
    symmetry. apply bool_decide_eq_false_2. cbn. lia.
  - intros E. rewrite rate_bits by (by apply mode_bits_low). unfold clock_div.
    repeat match goal with
    | |- context [if clock >=? ?t then _ else _] =>
        rewrite (Z.geb_leb clock t); destruct (Z.leb_spec t clock)
    end;
    match goal with |- context [aget 0 ?l ?k] =>
      let v := eval vm_compute in (aget 0 l k) in change (aget 0 l k) with v end;
    (split; [cbn; tauto|]); (split; [lia|]);
    intros d' [<-|[<-|[<-|[<-|[<-|[<-|[<-|[]]]]]]]]; lia.
Qed.
End AvrMode.
(** The PlayStation port asks for 100 kHz in mode 3, lowest bit first, and gets
    F_CPU/128 = 125 kHz; with a clean [config] SPCR is 0x7F. *)
Lemma spi_begin_spec_witness :
  let begin := AvrSpi.spi_begin (H := @AvrPins.AvrPinOps uno _ idle_chip) 16000000 0 100000 true true true in
  let s' := (begin (AvrSpi.mkSpi 0 0 two_channels)).2 in
  AvrSpi.SPCR s' = 0x7F /\ In (sck_divider s') dividers /\
  (16000000 / 2 <= 100000 -> sck_divider s' <= 2).
Proof.
  pose proof (spi_begin_spec (H := @AvrPins.AvrPinOps uno _ idle_chip) 16000000 0 100000 true true true
    (AvrSpi.mkSpi 0 0 two_channels)) as [_ R].
  destruct (R eq_refl) as (D & _ & B).
  split; [reflexivity|]. split; [exact D|]. intros X. apply B; [left; reflexivity|exact X].
Defined.

(** ** The PIO transfer

    A state machine with FIFOs of [depth] bytes: whenever it is looked at it may
    shift one byte out of the one and in to the other, unless it is stalled or
    the receive FIFO is full.  [dev] is the device at the other end. *)
Section Machine.
Import PicoSpi.
Context {D : Type} (dev : D -> Z -> Z * D) (depth : Z).
Record pio : Type := mkPio { txf : list Z; rxf : list Z; device : D; stalls : list nat }.
Definition pio_step (p : pio) : pio :=
  match txf p with
  | b :: t =>
      if Z.of_nat (length (rxf p)) <? depth then
        match stalls p with
        | S n :: l => mkPio (txf p) (rxf p) (device p) (n :: l)
        | l => mkPio t (rxf p ++ [(dev (device p) b).1]) (dev (device p) b).2 (tail l)
        end
      else p
  | [] => p
  end.
#[local] Instance machine : PioFifo pio := {|
  pio_sm_is_tx_fifo_full p :=
    let p := pio_step p in (depth <=? Z.of_nat (length (txf p)), p);
  pio_sm_is_rx_fifo_empty p :=
    let p := pio_step p in (bool_decide (rxf p = []), p);
  put b p := (tt, mkPio (txf p ++ [b]) (rxf p) (device p) (stalls p));
  get p := (hd 0 (rxf p), mkPio (txf p) (tail (rxf p)) (device p) (stalls p))
|}.
(** What the device answers to a sequence of bytes. *)
Fixpoint answers (d : D) (l : list Z) : list Z :=
  match l with [] => [] | b :: l => (dev d b).1 :: answers (dev d b).2 l end.

(** The bytes still to be read when [l] is still to be written. *)
Definition to_come (p : pio) (l : list Z) : list Z := rxf p ++ answers (device p) (txf p ++ l).
Definition in_fifos (p : pio) : Z := Z.of_nat (length (txf p) + length (rxf p)).
Definition work (p : pio) : Z := Z.of_nat (list_sum (stalls p) + length (txf p)).

Lemma pio_step_spec p :
  (forall l, to_come (pio_step p) l = to_come p l) /\ in_fifos (pio_step p) = in_fifos p /\
  (work (pio_step p) < work p \/
   pio_step p = p /\ (txf p = [] \/ depth <= Z.of_nat (length (rxf p)))).
Proof.
  destruct p as [[|b t] r d st]; [by split_and!; [..|right; split; [|left]]|].
  unfold pio_step. cbn [txf rxf stalls device].
  destruct (Z.ltb_spec (Z.of_nat (length r)) depth) as [L|L];
    [|by split_and!; [..|right; split; [|right]]].
  unfold to_come, in_fifos, work. destruct st as [|[|n] st]; cbn [tail txf rxf device stalls];
    rewrite ?length_app; cbn [length list_sum app answers].
  - split; [intros; by rewrite <- app_assoc|]. split; [lia|left; lia].
  - split; [intros; by rewrite <- app_assoc|]. split; [lia|left; simpl; lia].
  - split; [done|]. split; [lia|left; simpl; lia].
Qed.

(** The bytes [i], [i + 1], .. of the source. *)
Fixpoint bytes_from (next : Z -> Z) (i : Z) (n : nat) : list Z :=
  match n with O => [] | S n => next i :: bytes_from next (i + 1) n end.
Context (Hdepth : 0 < depth).
Lemma tx_half_spec next i n p :
  exists i' n' p', tx_half next i (Z.of_nat n) p = ((i', Z.of_nat n'), p') /\
    to_come p' (bytes_from next i' n') = to_come p (bytes_from next i n) /\
    in_fifos p' + Z.of_nat n' = in_fifos p + Z.of_nat n /\
    (work p' + 2 * Z.of_nat n' < work p + 2 * Z.of_nat n \/
     p' = p /\ n' = n /\ (n = 0%nat \/ txf p <> [])).
Proof using Hdepth.
  unfold tx_half. destruct n as [|n].
  { exists i, 0%nat, p. split; [done|]. split; [done|]. split; [done|]. right. auto. }
  destruct (pio_step_spec p) as (T & F & W).
  change (Z.of_nat (S n) =? 0) with false. cbv iota. rewrite mbind_run. cbn [fst snd pio_sm_is_tx_fifo_full machine].
  destruct (Z.leb_spec depth (Z.of_nat (length (txf (pio_step p))))) as [L|L].
  - exists i, (S n), (pio_step p). split; [done|]. split; [apply T|]. split; [lia|].
    destruct W as [W|[E W]]; [left; lia|right]. rewrite E in *. split; [done|]. split; [done|].
    right. intros X. rewrite X in L. simpl in L. lia.
  - exists (i + 1), n, (mkPio (txf (pio_step p) ++ [next i]) (rxf (pio_step p)) (device (pio_step p))
      (stalls (pio_step p))).
    split; [rewrite mbind_run; cbn [fst snd put machine]; unfold mret, M_ret; do 2 f_equal; lia|].
    split; [rewrite <- T; unfold to_come; cbn [rxf device txf bytes_from]; by rewrite <- app_assoc|].
    assert (work (pio_step p) <= work p) by (destruct W as [|[-> _]]; lia).
    revert F H. unfold in_fifos, work. cbn [txf rxf stalls]. rewrite length_app. cbn [length].
    split; [lia|left; lia].
Qed.
Lemma rx_half_spec l rx dst p : 0 < rx ->
  exists rx' dst' p', rx_half rx dst p = ((rx', dst'), p') /\
    dst' ++ to_come p' l = dst ++ to_come p l /\
    rx' - in_fifos p' = rx - in_fifos p /\
    (work p' + rx' < work p + rx \/ p' = p /\ rx' = rx /\ txf p = [] /\ rxf p = []).
Proof using Hdepth.
  intros Hrx. unfold rx_half. destruct (pio_step_spec p) as (T & F & W).
  rewrite (proj2 (Z.eqb_neq rx 0)) by lia. rewrite mbind_run.
  cbn [fst snd pio_sm_is_rx_fifo_empty machine].
  destruct (rxf (pio_step p)) as [|b r] eqn:E.
  - exists rx, dst, (pio_step p). split; [done|]. split; [by rewrite T|]. split; [lia|].
    destruct W as [W|[X W]]; [left; lia|right]. rewrite X in *. split; [done|]. split; [done|].
    destruct W as [W|W]; [by split|]. rewrite E in W. simpl in W. lia.
  - exists (rx - 1), (dst ++ [b]), (mkPio (txf (pio_step p)) r (device (pio_step p)) (stalls (pio_step p))).
    split; [rewrite bool_decide_eq_false_2, mbind_run by done; cbn [fst snd get machine]; by rewrite E|].
    assert (work (pio_step p) <= work p) by (destruct W as [|[-> _]]; lia).
    rewrite <- (T l). rewrite <- F. revert H. unfold to_come, in_fifos, work. cbn [txf rxf stalls device].
    rewrite E. cbn [length app]. rewrite <- app_assoc. split; [done|]. split; [lia|left; lia].
Qed.
Lemma pio_loop_spec next fuel i n rx dst p :
  rx = in_fifos p + Z.of_nat n -> work p + 2 * Z.of_nat n + rx < Z.of_nat fuel ->
  (pio_loop next fuel i (Z.of_nat n) rx dst p).1 = Some (dst ++ to_come p (bytes_from next i n)).
Proof using Hdepth.
  revert i n rx dst p. induction fuel as [|fuel IH]; intros i n rx dst p Hrx Hfuel.
  { unfold work, in_fifos in *. lia. }
  cbn [pio_loop]. destruct (Z.of_nat n =? 0) eqn:En, (rx =? 0) eqn:Er; cbn [andb].
  1: { unfold in_fifos in Hrx. apply Z.eqb_eq in En, Er. destruct p as [[] [] d st]; simpl in Hrx; try lia.
       destruct n; [|lia]. cbn. by rewrite app_nil_r. }
  all: try (apply Z.eqb_eq in Er; apply Z.eqb_neq in En; unfold in_fifos in Hrx; lia).
  all: assert (0 < rx) as Hpos by (apply Z.eqb_neq in Er; unfold in_fifos in *; lia).
  all: rewrite mbind_run; destruct (tx_half_spec next i n p) as (i' & n' & p' & -> & T & F & W); cbn [fst snd].
  all: rewrite mbind_run;
    destruct (rx_half_spec (bytes_from next i' n') rx dst p' Hpos) as (rx' & dst' & q & -> & T' & F' & W');
    cbn [fst snd].
  all: rewrite IH; [by rewrite T', T | lia |].
  all: destruct W as [W|(-> & -> & W)], W' as [W'|(-> & -> & X & Y)]; try lia.
  all: destruct W as [->|W]; [|done]; unfold in_fifos in *; rewrite X, Y in Hrx; simpl in Hrx; lia.
Qed.

(** C26: The transfer over the PIO returns, whatever the depth of the FIFOs and the
    stalls of the state machine, once it has gone round its loop as often as there
    are bytes to write (twice) and to read and stalls to wait out; the bytes it
    returns are the device's answers to the bytes of the source, in their order. *)
Theorem pio_transfer_returns next fuel n d delays :
  (list_sum delays + 3 * n < fuel)%nat ->
  (pio_spi_write8_read8_blocking fuel next (Z.of_nat n) (mkPio [] [] d delays)).1 =
    Some (answers d (next <$> iota n)).
Proof using Hdepth.
  intros Hf. unfold pio_spi_write8_read8_blocking. rewrite pio_loop_spec.
  - cbn. do 2 f_equal. unfold iota. change 0 with (Z.of_nat 0). generalize 0%nat.
    clear Hf. induction n as [|n IH]; intros k; [done|]. cbn [bytes_from seq fmap list_fmap]. f_equal.
    rewrite <- (IH (S k)). f_equal. lia.
  - unfold in_fifos. simpl. lia.
  - unfold work. simpl. lia.
Qed.
End Machine.

(** ** Bit order on the RP2040 *)
Fixpoint bits_low_first (n : nat) (b : Z) : list bool :=
  match n with O => [] | S n => Z.testbit b 0 :: bits_low_first n (Z.shiftr b 1) end.
Definition bits_high_first (b : Z) : list bool := rev (bits_low_first 8 b).

Lemma revbits2_reverses b : byte b ->
  bits_high_first (PicoSpi.revbits2 b) = bits_low_first 8 b /\
  bits_low_first 8 (PicoSpi.revbits2 b) = bits_high_first b.
Proof.
  intros Hb. apply (bool_decide_eq_true (_ /\ _)). revert b Hb.
  by apply (zrange_all_spec (fun b => bool_decide
    (bits_high_first (PicoSpi.revbits2 b) = bits_low_first 8 b /\
     bits_low_first 8 (PicoSpi.revbits2 b) = bits_high_first b)) (2 ^ 8) 0); vm_compute.
Qed.

(** The PIO program shifts the highest bit out and in first; reversing the byte
    on both sides, [spi_transfer] sends and receives the lowest bit first, whatever
    order [spi_begin] was asked for. *)
Theorem pico_transfer_low_first {D} (dev : D -> Z -> Z * D) depth fuel data d :
  0 < depth -> (3 < fuel)%nat -> byte data -> (forall d b, byte (dev d b).1) ->
  exists out r,
    (@PicoSpi.spi_transfer _ (machine dev depth) fuel data (mkPio [] [] d [])).1 = Some r /\
    bits_high_first out = bits_low_first 8 data /\
    bits_low_first 8 r = bits_high_first (dev d out).1.
Proof.
  intros Hd Hf Hb Hdev. exists (PicoSpi.revbits2 data), (PicoSpi.revbits2 (dev d (PicoSpi.revbits2 data)).1).
  split; [|split; by apply revbits2_reverses].
  assert ((@PicoSpi.pio_loop _ (machine dev depth) (fun _ => PicoSpi.revbits2 data) fuel 0 1 1 []
    (mkPio [] [] d [])).1 = Some [(dev d (PicoSpi.revbits2 data)).1]) as E.
  { apply (pio_loop_spec dev depth Hd (fun _ => PicoSpi.revbits2 data) fuel 0 1 1 [] (mkPio [] [] d []));
      unfold work, in_fifos; simpl; lia. }
  unfold PicoSpi.spi_transfer, PicoSpi.pio_spi_write8_read8_blocking. by rewrite (obind_some _ _ _ _ E).
Qed.
Lemma pico_transfer_low_first_witness :
  exists out r,
    (@PicoSpi.spi_transfer _ (machine (fun _ b => (b, tt)) 4) 4 0x01 (mkPio [] [] tt [])).1 = Some r /\
    bits_high_first out = bits_low_first 8 0x01 /\
    bits_low_first 8 r = bits_high_first (((fun _ b => (b, tt)) : unit -> Z -> Z * unit) tt (uwrap 8 out)).1.
Proof.
  destruct (pico_transfer_low_first (fun (_ : unit) b => (uwrap 8 b, tt)) 4 4 0x01 tt) as (out & r & E & O & R);
    [lia | lia | by split | intros; by apply uwrap_range |].
  exists out, r. split; [|by split]. rewrite <- E. reflexivity.
Defined.
Lemma pio_transfer_returns_witness :
  (@PicoSpi.pio_spi_write8_read8_blocking _ (machine (fun d b => (d + b, b)) 1) 20 (Z.mul 10) 3
     (mkPio [] [] 7 [2; 0; 3]%nat)).1 = Some [7; 10; 30].
Proof. apply (pio_transfer_returns (fun d b => (d + b, b)) 1 eq_refl (Z.mul 10) 20 3 7 [2; 0; 3]%nat). simpl; lia. Defined.
