(* ===== verification/Ps2.v ===== *)
(** * PlayStation controllers: [shared/input/inputs/ps2_cnt.h]

    The bit-banged command protocol over SPI, the configuration handshake, the
    reply decoders and the button tables.  [sendCommand] retries until a timeout;
    it takes a fuel argument and [sendCommand_returns] shows that the clock
    bounds the number of rounds. *)

From Stdlib Require Import ZArith Lia.
From stdpp Require Import base tactics numbers list.
From S2P Require Import Prelude Packed Defs World Config Controller Variants Pins.
Open Scope Z_scope.

Definition INTER_CMD_BYTE_DELAY : Z := 15.
Definition COMMAND_TIMEOUT : Z := 250.
Definition COMMAND_RETRY_INTERVAL : Z := 10.
Definition ATTN_DELAY : Z := 15.
Definition BUFFER_SIZE : Z := 32.
Definition INVALID : Z := 0xFF.
Definition NEGCON_I_II_BUTTON_THRESHOLD : Z := 128.
Definition NEGCON_L_BUTTON_THRESHOLD : Z := 240.

(** The command arrays.  [sendCommand] compares their addresses. *)
Inductive ps2_command : Set :=
  | commandEnterConfig | commandExitConfig | commandSetMode | commandSetPressures
  | commandPollInput.
Definition command_bytes (c : ps2_command) : list Z :=
  match c with
  | commandEnterConfig => [0x01; 0x43; 0x00; 0x01]
  | commandExitConfig => [0x01; 0x43; 0x00; 0x00]
  | commandSetMode => [0x01; 0x44; 0x00; 0x01; 0x00]
  | commandSetPressures => [0x01; 0x4F; 0x00; 0xFF; 0xFF; 0x03; 0x00; 0x00; 0x00]
  | commandPollInput => [0x01; 0x42; 0x00]
  end.
Definition sizeof (c : ps2_command) : Z := Z.of_nat (length (command_bytes c)).

(** Indexed by [XBOX_] button. *)
Definition dualShockButtonBindings : list Z :=
  [PsxButton_val PSB_PAD_UP; PsxButton_val PSB_PAD_DOWN; PsxButton_val PSB_PAD_LEFT;
   PsxButton_val PSB_PAD_RIGHT; PsxButton_val PSB_START; PsxButton_val PSB_SELECT;
   PsxButton_val PSB_L3; PsxButton_val PSB_R3; PsxButton_val PSB_L1; PsxButton_val PSB_R1;
   INVALID; INVALID; PsxButton_val PSB_CROSS; PsxButton_val PSB_CIRCLE;
   PsxButton_val PSB_SQUARE; PsxButton_val PSB_TRIANGLE].
Definition mouseButtonBindings : list Z :=
  [INVALID; INVALID; INVALID; INVALID; INVALID; INVALID; INVALID; INVALID;
   INVALID; INVALID; INVALID; INVALID; MouseButton_val PMB_LEFT; MouseButton_val PMB_RIGHT;
   INVALID; INVALID].
Definition guitarHeroButtonBindings : list Z :=
  [PsxButton_val PSB_PAD_UP; PsxButton_val PSB_PAD_DOWN; PsxButton_val PSB_PAD_LEFT;
   PsxButton_val PSB_PAD_RIGHT; PsxButton_val PSB_START; PsxButton_val PSB_SELECT;
   INVALID; INVALID; GHButton_val GH_ORANGE; INVALID; INVALID; INVALID;
   GHButton_val GH_GREEN; GHButton_val GH_RED; GHButton_val GH_BLUE; GHButton_val GH_YELLOW].

(** ** Reply predicates *)
Definition isValidReply (status : list Z) : bool :=
  negb (aget 0 status 1 =? 0xFF) && ((aget 0 status 2 =? 0x5A) || (aget 0 status 2 =? 0x00)).
Definition isFlightStickReply (status : list Z) : bool := Z.land (aget 0 status 1) 0xF0 =? 0x50.
Definition isNegconReply (status : list Z) : bool := aget 0 status 1 =? 0x23.
Definition isJogconReply (status : list Z) : bool := Z.land (aget 0 status 1) 0xF0 =? 0xE0.
Definition isMouseReply (status : list Z) : bool := aget 0 status 1 =? 0x12.
Definition isDualShockReply (status : list Z) : bool := Z.land (aget 0 status 1) 0xF0 =? 0x70.
Definition isDualShock2Reply (status : list Z) : bool := aget 0 status 1 =? 0x79.
Definition isConfigReply (status : list Z) : bool := Z.land (aget 0 status 1) 0xF0 =? 0xF0.

Section Ps2.
Context {W : Type} `{PinOps W} `{SPIBus W} `{Delay W} `{Clock W}.
(** The global [typeIsGuitar]. *)
Context (typeIsGuitar : bool).

Record ps2_state : Type := mkPs2 {
  ps2CtrlType : PsxControllerType;
  inputBuffer : list Z;
  buttonWord : Z;
  attention : Pin_t;
  dev : W
}.
#[global] Instance etaPs2 : Settable ps2_state := fun r =>
  {| ps2CtrlType := ps2CtrlType r; inputBuffer := inputBuffer r; buttonWord := buttonWord r;
     attention := attention r; dev := dev r |}.
Definition ps2_init_state (w : W) : ps2_state :=
  mkPs2 PSX_NO_DEVICE (replicate 32 0) 0 zero_pin w.
Definition ondev {A} (m : M W A) : M ps2_state A :=
  fun s => let '(a, w) := m (dev s) in (a, s <| dev := w |>).

(** ** Exchanging bytes *)
Definition noAttention : M ps2_state unit :=
  ondev spi_high ;;
  p ← mread attention; ondev (digitalWritePin p true) ;;
  ondev (delay_us ATTN_DELAY).
Definition signalAttention : M ps2_state unit :=
  p ← mread attention; ondev (digitalWritePin p false) ;;
  ondev spi_low ;;
  ondev (delay_us ATTN_DELAY).
(** Both pointers stay inside the caller's arrays: [out] is the command from
    [off] on or [NULL], [in] is [inputBuffer + off]. *)
Definition shiftDataInOut (out : option (list Z)) (off len : Z) : M ps2_state unit :=
  mfor (iota (Z.to_nat len)) (fun i =>
    resp ← ondev (spi_transfer (match out with Some o => aget 0 o i | None => 0x5A end));
    mmod (fun s => s <| inputBuffer ::= aset (off + i) resp |>) ;;
    ondev (delay_us INTER_CMD_BYTE_DELAY)).
(** Between the attention signals. *)
Definition exchange (out : list Z) (len : Z) : M ps2_state bool :=
  if (len >=? 3) && (len <=? BUFFER_SIZE) then
    shiftDataInOut (Some out) 0 3 ;;
    inp ← mread inputBuffer;
    if isValidReply inp then
      let replyLen := u8 (Z.land (aget 0 inp 1) 0x0F * 2) in
      mwhen (len >? 3) (shiftDataInOut (Some (drop 3 out)) 3 (len - 3)) ;;
      let left := u8 (replyLen - len + 3) in
      if left =? 0 then mret true
      else if len + left <=? BUFFER_SIZE then shiftDataInOut None len left ;; mret true
      else mret false
    else mret false
  else mret false.
(** The result says whether the returned pointer is non-null; it then points to
    [inputBuffer]. *)
Definition autoShiftData (out : list Z) (len : Z) : M ps2_state bool :=
  signalAttention ;;
  ret ← exchange out len;
  noAttention ;;
  mret ret.

(** ** Commands *)
(** [ret] after a reply, given the number of replies so far. *)
Definition command_ok (c : ps2_command) (inp : list Z) (cnt : Z) : bool :=
  match c with
  | commandEnterConfig => isConfigReply inp
  | commandExitConfig => negb (isConfigReply inp)
  | _ => cnt >=? 3
  end.
Fixpoint send_loop (fuel : nat) (c : ps2_command) (start cnt : Z) (ret : bool)
  : M ps2_state (option bool) :=
  match fuel with
  | O => mret None
  | S fuel =>
      ok ← autoShiftData (command_bytes c) (sizeof c);
      inp ← mread inputBuffer;
      let cnt := if (ok : bool) then u8 (cnt + 1) else cnt in
      let ret := if ok then command_ok c inp cnt else ret in
      mwhen (negb ret) (ondev (delay_ms COMMAND_RETRY_INTERVAL)) ;;
      if ret then oret true
      else
        now ← ondev millis;
        if u32 (now - start) <=? COMMAND_TIMEOUT then send_loop fuel c start cnt ret
        else oret false
  end.
Definition sendCommand (fuel : nat) (c : ps2_command) : M ps2_state (option bool) :=
  start ← ondev millis;
  send_loop fuel c start 0 false.

(** ** Decoding a poll *)
Definition axis (v : Z) : Z := i16 (Z.shiftl (v - 128) 8).
Definition axis_inv (v : Z) : Z := i16 (Z.shiftl (- (v - 127)) 8).
(** The part of [read] after a non-configuration reply [inp]. *)
Definition decode_reply (inp : list Z) (c : Controller_t) : M ps2_state Controller_t :=
  let g i := aget 0 inp i in
  let word := u16 (Z.lnot (Z.lor (Z.shiftl (g 4) 8) (g 3))) in
  let set_type t := mmod (fun s => s <| ps2CtrlType := t |>) in
  let set_button v m (c : Controller_t) := c <| buttons := u16 (bit_write v (buttons c) m) |> in
  mmod (fun s => s <| buttonWord := word |>) ;;
  mwhen (isFlightStickReply inp) (set_type PSX_ANALOG) ;;
  c ← (if isNegconReply inp then
         set_type PSX_NEGCON ;;
         mret (set_button (g 8 >? NEGCON_L_BUTTON_THRESHOLD) XBOX_LB
               (set_button (g 7 >? NEGCON_I_II_BUTTON_THRESHOLD) XBOX_Y
               (set_button (g 6 >? NEGCON_I_II_BUTTON_THRESHOLD) XBOX_X
               (c <| l_x := axis (g 5) |>))))
       else mret c);
  c ← (if isJogconReply inp then
         set_type PSX_JOGCON ;;
         let x := if g 6 <? 0x80 then (if g 5 <? 0x80 then g 5 else 0x80 - 1)
                  else (if g 5 >? 0x80 then g 5 else 0x80 + 1) in
         mret (c <| l_x := i16 (x + 0x80) |>)
       else mret c);
  c ← (if isMouseReply inp then
         set_type PSX_MOUSE ;; mret (c <| l_x := axis (g 5) |> <| l_y := axis_inv (g 6) |>)
       else mret c);
  if isDualShockReply inp || isFlightStickReply inp then
    let c := c <| r_x := axis (g 5) |> <| r_y := axis_inv (g 6) |>
               <| l_x := axis (g 7) |> <| l_y := axis_inv (g 8) |> in
    c ← (if typeIsGuitar then
           set_type PSX_GUITAR_HERO_CONTROLLER ;;
           mret (c <| l_x := 0 |> <| l_y := 0 |> <| r_x := axis (g 8) |>
                   <| r_y := Z.b2z (bit_check word GH_STAR_POWER) * 32767 |>)
         else mret c);
    if isDualShock2Reply inp then
      set_type PSX_DUALSHOCK_2_CONTROLLER ;;
      mret (c <| lt := g (PSAB_L2 + 9) |> <| rt := g (PSAB_R2 + 9) |>)
    else
      mwhen (negb (isFlightStickReply inp)) (set_type PSX_DUALSHOCK_1_CONTROLLER) ;;
      mret c
  else mret c.
Definition read (fuel : nat) (c : Controller_t) : M ps2_state (option (bool * Controller_t)) :=
  ok ← autoShiftData (command_bytes commandPollInput) (sizeof commandPollInput);
  if negb ok then oret (false, c)
  else
    inp ← mread inputBuffer;
    if isConfigReply inp then
      _ ←? sendCommand fuel commandExitConfig; oret (true, c)
    else
      c ← decode_reply inp c; oret (true, c).

(** ** Handshake and polling *)
Fixpoint begin_loop (fuel n : nat) (c : Controller_t) : M ps2_state (option Controller_t) :=
  match n with
  | O => oret c
  | S n =>
      r ←? read fuel c;
      ondev (delay_ms 1) ;; begin_loop fuel n r.2
  end.
Definition begin (fuel : nat) (c : Controller_t) : M ps2_state (option (bool * Controller_t)) :=
  c ←? begin_loop fuel 5 c; read fuel c.
Definition initPS2CtrlInput (config : Configuration_t) : M ps2_state unit :=
  ondev (spi_begin 100000 true true true) ;;
  mmod (fun s => s <| attention :=
    setUpDigital (S := W) config (PIN_PS2_ATT (board (S := W))) 0 false true |>) ;;
  ondev (pinMode (PIN_PS2_ATT (board (S := W))) OUTPUT) ;;
  noAttention.
(** The configuration commands sent once a controller answers. *)
Definition configure (fuel : nat) : M ps2_state (option unit) :=
  _ ←? sendCommand fuel commandEnterConfig;
  _ ←? sendCommand fuel commandSetMode;
  _ ←? sendCommand fuel commandSetPressures;
  _ ←? sendCommand fuel commandExitConfig;
  oret tt.
Definition poll (fuel : nat) (c : Controller_t) : M ps2_state (option Controller_t) :=
  r ←? read fuel c;
  mwhen (negb r.1) (mmod (fun s => s <| ps2CtrlType := PSX_NO_DEVICE |>)) ;;
  oret r.2.
Definition tickPS2CtrlInput (fuel : nat) (c : Controller_t) : M ps2_state (option Controller_t) :=
  t ← mread ps2CtrlType;
  if bool_decide (t = PSX_NO_DEVICE) then
    r ←? begin fuel c;
    if negb r.1 then oret r.2
    else _ ←? configure fuel; poll fuel r.2
  else poll fuel c.
Definition readPS2Button (offset : Z) : M ps2_state bool :=
  t ← mread ps2CtrlType;
  let buttons := if bool_decide (t = PSX_GUITAR_HERO_CONTROLLER) then guitarHeroButtonBindings
                 else if bool_decide (t = PSX_MOUSE) then mouseButtonBindings
                 else dualShockButtonBindings in
  let btn := aget 0 buttons offset in
  if btn =? INVALID then mret false
  else w ← mread buttonWord; mret (bit_check w btn).
End Ps2.
Arguments ps2_state : clear implicits.

(** ** The byte exchange

    A peripheral that answers with the bytes [rx] and records the bytes sent in
    [tx]; delays and the attention line do not disturb it. *)
Class SpiDevice (W : Type) `{PinOps W} `{SPIBus W} `{Delay W} (rx tx : W -> list Z) : Prop := {
  device_transfer b w r rs : rx w = r :: rs ->
    (spi_transfer b w).1 = r /\ rx (spi_transfer b w).2 = rs /\
    tx (spi_transfer b w).2 = tx w ++ [b];
  device_delay n w : rx (delay_us n w).2 = rx w /\ tx (delay_us n w).2 = tx w;
  device_high w : rx (spi_high w).2 = rx w /\ tx (spi_high w).2 = tx w;
  device_low w : rx (spi_low w).2 = rx w /\ tx (spi_low w).2 = tx w;
  device_pin p v w : rx (digitalWritePin p v w).2 = rx w /\ tx (digitalWritePin p v w).2 = tx w
}.

Section Exchange.
Context {W : Type} `{PinOps W} `{SPIBus W} `{Delay W} `{Clock W}.
Context (rx tx : W -> list Z) {Hdev : SpiDevice W rx tx}.

Lemma ondev_run {A} (m : M W A) (s : ps2_state W) :
  ondev m s = ((m (dev s)).1, s <| dev := (m (dev s)).2 |>).
Proof. unfold ondev. by destruct (m (dev s)). Qed.

(** [s'] differs from [s] by what the peripheral saw and the buffer. *)
Definition exchanged (s s' : ps2_state W) (got sent : list Z) (buf : list Z) : Prop :=
  rx (dev s) = got ++ rx (dev s') /\ tx (dev s') = tx (dev s) ++ sent /\
  s' = s <| inputBuffer := buf |> <| dev := dev s' |>.
Lemma exchanged_trans s1 s2 s3 g1 g2 o1 o2 b1 b2 :
  exchanged s1 s2 g1 o1 b1 -> exchanged s2 s3 g2 o2 b2 ->
  exchanged s1 s3 (g1 ++ g2) (o1 ++ o2) b2.
Proof.
  intros (R1 & T1 & E1) (R2 & T2 & E2). split_and!.
  - by rewrite R1, R2, app_assoc.
  - by rewrite T2, T1, app_assoc.
  - rewrite E2 at 1. rewrite E1 at 1. reflexivity.
Qed.
Lemma exchanged_quiet s w :
  rx w = rx (dev s) -> tx w = tx (dev s) ->
  exchanged s (s <| dev := w |>) [] [] (inputBuffer s).
Proof. intros R T. split_and!; cbn; rewrite ?R, ?T, ?app_nil_r; done. Qed.

Lemma noAttention_exchanged s : exchanged s (noAttention s).2 [] [] (inputBuffer s).
Proof.
  unfold noAttention. rewrite mbind_run, ondev_run. cbn [snd]. rewrite mbind_run. cbn [mread fst snd].
  rewrite mbind_run, !ondev_run. cbn. apply exchanged_quiet; cbn.
  - by rewrite (proj1 (device_delay _ _)), (proj1 (device_pin _ _ _)), (proj1 (device_high _)).
  - by rewrite (proj2 (device_delay _ _)), (proj2 (device_pin _ _ _)), (proj2 (device_high _)).
Qed.
Lemma signalAttention_exchanged s : exchanged s (signalAttention s).2 [] [] (inputBuffer s).
Proof.
  unfold signalAttention. rewrite mbind_run. cbn [mread fst snd].
  rewrite mbind_run, ondev_run. cbn [snd]. rewrite mbind_run, !ondev_run. cbn.
  apply exchanged_quiet; cbn.
  - by rewrite (proj1 (device_delay _ _)), (proj1 (device_low _)), (proj1 (device_pin _ _ _)).
  - by rewrite (proj2 (device_delay _ _)), (proj2 (device_low _)), (proj2 (device_pin _ _ _)).
Qed.

(** The bytes [shiftDataInOut] sends. *)
Definition shifted_out (out : option (list Z)) (n : nat) : list Z :=
  (fun i => match out with Some o => aget 0 o i | None => 0x5A end) <$> iota n.
Lemma shifted_out_all o : shifted_out (Some o) (length o) = o.
Proof.
  unfold shifted_out, iota. apply list_eq. intros i. rewrite !list_lookup_fmap.
  destruct (decide (i < length o)%nat) as [Hi|Hi].
  - rewrite lookup_seq_lt by done. cbn [fmap option_fmap option_map].
    unfold aget. rewrite Nat2Z.id. destruct (lookup_lt_is_Some_2 o i Hi) as [x E].
    rewrite E. f_equal. by apply nth_lookup_Some.
  - rewrite (proj2 (lookup_ge_None o i)) by lia.
    by rewrite (proj2 (lookup_ge_None (seq 0 (length o)) i)) by (rewrite length_seq; lia).
Qed.
Lemma shifted_out_none n : shifted_out None n = replicate n 0x5A.
Proof.
  unfold shifted_out. apply list_eq. intros i. rewrite list_lookup_fmap.
  destruct (decide (i < n)%nat).
  - rewrite lookup_replicate_2 by done. unfold iota. by rewrite list_lookup_fmap, lookup_seq_lt.
  - rewrite !(proj2 (lookup_ge_None _ i)); [done|rewrite length_replicate; lia|rewrite length_iota; lia].
Qed.
Lemma splice_snoc {A} off (l : list A) x buf :
  (off + length l < length buf)%nat ->
  splice off (l ++ [x]) buf = aset (Z.of_nat off + Z.of_nat (length l)) x (splice off l buf).
Proof.
  intros Hl. apply list_eq. intros i. unfold aset.
  replace (Z.to_nat _) with (off + length l)%nat by lia.
  rewrite lookup_splice by (rewrite length_app; cbn; lia).
  destruct (decide (i = off + length l)%nat) as [->|Hne].
  - rewrite decide_True by (rewrite length_app; cbn; lia).
    rewrite list_lookup_insert_eq by (rewrite length_splice; lia).
    rewrite lookup_app_r by lia. by replace (_ - _)%nat with 0%nat by lia.
  - rewrite list_lookup_insert_ne, lookup_splice by lia. rewrite length_app. cbn.
    repeat case_decide; try lia; try done. by rewrite lookup_app_l by lia.
Qed.
Lemma shiftDataInOut_exchanged out off got rest s :
  0 <= off -> off + Z.of_nat (length got) <= Z.of_nat (length (inputBuffer s)) ->
  rx (dev s) = got ++ rest ->
  exchanged s (shiftDataInOut out off (Z.of_nat (length got)) s).2 got
    (shifted_out out (length got)) (splice (Z.to_nat off) got (inputBuffer s)).
Proof.
  intros Hoff Hlen. unfold shiftDataInOut. rewrite Nat2Z.id. revert rest.
  induction got as [|r got IH] using rev_ind; intros rest Hrx.
  - cbn. unfold exchanged, splice. cbn. rewrite app_nil_r, Nat.add_0_r, take_drop.
    split_and!; try done. by destruct s.
  - rewrite length_app in *. cbn [length] in *. rewrite Nat.add_1_r in *.
    unfold shifted_out. rewrite iota_S, fmap_app, mfor_app, mbind_run. cbn [fst].
    rewrite <- app_assoc in Hrx. specialize (IH ltac:(lia) _ Hrx).
    set (s1 := (mfor (iota (length got)) _ s).2) in *.
    destruct IH as (R & T & E). rewrite Hrx in R. apply app_inv_head in R.
    eapply exchanged_trans; [split_and!; [rewrite Hrx; by rewrite <- R|exact T|exact E]|].
    cbn [mfor]. repeat (rewrite ?mbind_run, ?ondev_run; cbn [fst snd mmod mret M_ret]).
    destruct (device_transfer (match out with Some o => aget 0 o (Z.of_nat (length got)) | None => 90 end)
      (dev s1) r rest (eq_sym R)) as (E1 & E2 & E3).
    unfold exchanged. cbn. rewrite (proj1 (device_delay _ _)), (proj2 (device_delay _ _)), E1, E2, E3.
    split_and!; [by rewrite <- R|done|].
    rewrite splice_snoc by lia. rewrite Z2Nat.id by lia. rewrite E at 1. by rewrite E.
Qed.

(** The number of bytes a reply announces in the low nibble of its second byte. *)
Definition announced (reply : list Z) : Z := 3 + 2 * Z.land (aget 0 reply 1) 0x0F.
Lemma announced_range reply : 3 <= announced reply <= 33.
Proof.
  unfold announced. assert (0 <= Z.land (aget 0 reply 1) 0x0F < 16); [|lia].
  change 0x0F with (Z.ones 4). rewrite Z.land_ones by lia. apply Z.mod_pos_bound. lia.
Qed.
Lemma left_bytes reply n : 3 <= n <= 32 ->
  u8 (u8 (Z.land (aget 0 reply 1) 0x0F * 2) - n + 3) = (announced reply - n) mod 256.
Proof.
  intros. pose proof (announced_range reply). unfold announced, uwrap in *.
  change (2 ^ 8) with 256. rewrite (Z.mod_small (_ * 2)) by lia. f_equal. ring.
Qed.
Lemma aget_splice0 l buf i :
  (length l <= length buf)%nat -> 0 <= i < Z.of_nat (length l) ->
  aget 0 (splice 0 l buf) i = aget 0 l i.
Proof.
  intros Hl Hi. unfold aget. rewrite !nth_lookup, lookup_splice by lia.
  rewrite decide_True by lia. by rewrite Nat.sub_0_r.
Qed.
Lemma isValidReply_splice l buf :
  (length l <= length buf)%nat -> (3 <= length l)%nat ->
  isValidReply (splice 0 l buf) = isValidReply l.
Proof. intros. unfold isValidReply. by rewrite !aget_splice0 by (rewrite ?length_splice; lia). Qed.
Lemma sizeof_range c : 3 <= sizeof c <= 9.
Proof. destruct c; split; discriminate. Qed.
Lemma isValidReply_take n l : (3 <= n)%nat -> isValidReply (take n l) = isValidReply l.
Proof. intros. destruct n as [|[|[|n]]], l as [|? [|? [|? l]]]; by try lia. Qed.
Lemma announced_take l n : (2 <= n)%nat -> announced (take n l) = announced l.
Proof. intros. destruct n as [|[|n]], l as [|? [|? l]]; by try lia. Qed.
Lemma command_split c : command_bytes c = take 3 (command_bytes c) ++ drop 3 (command_bytes c).
Proof. by rewrite take_drop. Qed.

(** The first three bytes, then the rest of the command. *)
Lemma exchange_run c s l rest :
  length (inputBuffer s) = 32%nat -> length l = 3%nat -> rx (dev s) = l ++ rest ->
  exists s1, exchanged s s1 l (take 3 (command_bytes c)) (splice 0 l (inputBuffer s)) /\
  rx (dev s1) = rest /\
  exchange (command_bytes c) (sizeof c) s =
    if isValidReply l then
      (let left := (announced l - sizeof c) mod 256 in
       mwhen (sizeof c >? 3) (shiftDataInOut (Some (drop 3 (command_bytes c))) 3 (sizeof c - 3)) ;;
       if left =? 0 then mret true
       else if sizeof c + left <=? BUFFER_SIZE
            then shiftDataInOut None (sizeof c) left ;; mret true
            else mret false) s1
    else (false, s1).
Proof.
  intros Hb Hl Hrx. pose proof (sizeof_range c) as Hc.
  assert (H3 : 0 + Z.of_nat (length l) <= Z.of_nat (length (inputBuffer s))) by (rewrite Hl, Hb; lia).
  pose proof (shiftDataInOut_exchanged (Some (command_bytes c)) 0 l rest s
    ltac:(lia) H3 Hrx) as X.
  exists (shiftDataInOut (Some (command_bytes c)) 0 3 s).2.
  rewrite Hl in X. change (Z.of_nat 3) with 3 in X. change (Z.to_nat 0) with 0%nat in X.
  replace (shifted_out (Some (command_bytes c)) 3) with (take 3 (command_bytes c)) in X
    by by destruct c.
  split; [done|]. pose proof X as (R & _ & E). rewrite Hrx in R. apply app_inv_head in R.
  split; [done|].
  unfold exchange. rewrite (proj2 (Z.geb_le (sizeof c) 3)) by lia.
  rewrite (proj2 (Z.leb_le (sizeof c) BUFFER_SIZE)) by (unfold BUFFER_SIZE; lia). cbn [andb].
  rewrite !mbind_run. cbn [mread fst snd].
  assert (inputBuffer (shiftDataInOut (Some (command_bytes c)) 0 3 s).2
          = splice 0 l (inputBuffer s)) as -> by (rewrite E; done).
  rewrite isValidReply_splice by (rewrite ?Hl, ?Hb; lia).
  destruct (isValidReply l); [|done].
  rewrite left_bytes by lia. unfold announced. rewrite aget_splice0 by (rewrite ?Hl, ?Hb; lia).
  by rewrite mbind_run.
Qed.
Lemma exchange_tail c s l rest :
  length (inputBuffer s) = 32%nat -> Z.of_nat (length l) = sizeof c - 3 ->
  rx (dev s) = l ++ rest ->
  exists s1, mwhen (sizeof c >? 3) (shiftDataInOut (Some (drop 3 (command_bytes c))) 3 (sizeof c - 3)) s
    = (tt, s1) /\
  exchanged s s1 l (drop 3 (command_bytes c)) (splice 3 l (inputBuffer s)).
Proof.
  intros Hb Hl Hrx. pose proof (sizeof_range c). destruct (Z.gtb_spec (sizeof c) 3); cbn [mwhen].
  - exists (shiftDataInOut (Some (drop 3 (command_bytes c))) 3 (sizeof c - 3) s).2.
    split; [by destruct (shiftDataInOut _ _ _ _) as [[] ?]|].
    pose proof (shiftDataInOut_exchanged (Some (drop 3 (command_bytes c))) 3 l rest s) as X.
    rewrite Hb, Hl in X. specialize (X ltac:(lia) ltac:(lia) Hrx).
    replace (length l) with (length (drop 3 (command_bytes c))) in X.
    + by rewrite shifted_out_all in X.
    + rewrite length_drop. unfold sizeof in *. lia.
  - exists s. split; [done|]. assert (l = []) as -> by (apply length_zero_iff_nil; lia).
    assert (drop 3 (command_bytes c) = []) as ->.
    { apply drop_ge. unfold sizeof in *. lia. }
    unfold exchanged, splice. cbn [app length Nat.add]. rewrite take_drop, app_nil_r. by destruct s.
Qed.

(** The command's bytes have been exchanged for [l]. *)
Lemma exchange_sent c s l rest :
  length (inputBuffer s) = 32%nat -> Z.of_nat (length l) = sizeof c -> isValidReply l = true ->
  rx (dev s) = l ++ rest ->
  exists s1, exchanged s s1 l (command_bytes c) (splice 0 l (inputBuffer s)) /\ rx (dev s1) = rest /\
  exchange (command_bytes c) (sizeof c) s =
    (let left := (announced l - sizeof c) mod 256 in
     if left =? 0 then mret true
     else if sizeof c + left <=? BUFFER_SIZE
          then shiftDataInOut None (sizeof c) left ;; mret true
          else mret false) s1.
Proof.
  intros Hb Hl Hv Hrx. pose proof (sizeof_range c) as Hc.
  rewrite <- (take_drop 3 l), <- app_assoc in Hrx.
  assert (length (take 3 l) = 3%nat) as H3 by (rewrite length_take; lia).
  destruct (exchange_run c s (take 3 l) (drop 3 l ++ rest) Hb H3 Hrx) as (s1 & X1 & R1 & ->).
  rewrite isValidReply_take, Hv, announced_take by lia.
  pose proof X1 as (_ & _ & E1).
  assert (inputBuffer s1 = splice 0 (take 3 l) (inputBuffer s)) as Eb by (rewrite E1; done).
  destruct (exchange_tail c s1 (drop 3 l) rest) as (s2 & E2 & X2);
    [rewrite Eb, length_splice; lia|rewrite length_drop; lia|done|].
  exists s2. pose proof (exchanged_trans _ _ _ _ _ _ _ _ _ X1 X2) as X.
  rewrite !take_drop, Eb in X.
  assert (splice 3 (drop 3 l) (splice 0 (take 3 l) (inputBuffer s)) = splice 0 l (inputBuffer s))
    as Es.
  { rewrite <- H3 at 1. change (length (take 3 l)) with (0 + length (take 3 l))%nat.
    by rewrite splice_splice_adj, take_drop by (rewrite length_drop; lia). }
  rewrite Es in X.
  split_and!; [done| |by rewrite (mbind_eq _ _ _ _ _ E2)].
  pose proof X2 as (R2 & _). rewrite R1 in R2. by apply app_inv_head in R2.
Qed.
Lemma exchange_full c s l lr rest :
  length (inputBuffer s) = 32%nat -> Z.of_nat (length l) = sizeof c -> isValidReply l = true ->
  Z.of_nat (length (l ++ lr)) = announced l -> announced l <= BUFFER_SIZE -> rx (dev s) = l ++ lr ++ rest ->
  exists s2, exchange (command_bytes c) (sizeof c) s = (true, s2) /\
  exchanged s s2 (l ++ lr) (command_bytes c ++ replicate (length lr) 0x5A)
    (splice 0 (l ++ lr) (inputBuffer s)).
Proof.
  intros Hb Hl Hv Hn Hmax Hrx. rewrite length_app in Hn. pose proof (sizeof_range c).
  destruct (exchange_sent c s l (lr ++ rest) Hb Hl Hv Hrx) as (s1 & X1 & R1 & ->).
  unfold BUFFER_SIZE in *. rewrite Z.mod_small by lia. cbn zeta.
  pose proof X1 as (_ & _ & E1).
  assert (inputBuffer s1 = splice 0 l (inputBuffer s)) as Eb by (rewrite E1; done).
  destruct (Z.eqb_spec (announced l - sizeof c) 0).
  - assert (lr = []) as -> by (apply length_zero_iff_nil; lia).
    exists s1. split; [done|]. cbn. by rewrite !app_nil_r.
  - rewrite (proj2 (Z.leb_le _ 32)) by lia. rewrite mbind_run. eexists. split; [done|].
    replace (announced l - sizeof c) with (Z.of_nat (length lr)) by lia.
    assert (X2 : exchanged s1 (shiftDataInOut None (sizeof c) (Z.of_nat (length lr)) s1).2 lr
      (shifted_out None (length lr)) (splice (Z.to_nat (sizeof c)) lr (inputBuffer s1))).
    { apply (shiftDataInOut_exchanged None (sizeof c) lr rest s1); [lia| |done].
      rewrite Eb, length_splice; lia. }
    rewrite shifted_out_none, Eb in X2.
    replace (Z.to_nat (sizeof c)) with (0 + length l)%nat in X2 by lia.
    rewrite splice_splice_adj in X2 by lia.
    exact (exchanged_trans _ _ _ _ _ _ _ _ _ X1 X2).
Qed.
Lemma autoShiftData_framed c s ret got sent buf s1 :
  (forall s0, exchanged s s0 [] [] (inputBuffer s) -> exists s2,
     exchange (command_bytes c) (sizeof c) s0 = (ret, s2) /\ exchanged s0 s2 got sent buf) ->
  autoShiftData (command_bytes c) (sizeof c) s = s1 ->
  s1.1 = ret /\ exchanged s s1.2 got sent buf.
Proof.
  intros He <-. unfold autoShiftData. rewrite mbind_run.
  pose proof (signalAttention_exchanged s) as X0. destruct (He _ X0) as (s2 & E & X1).
  rewrite (mbind_eq _ _ _ _ _ E), mbind_run. cbn [mret M_ret fst snd]. split; [done|].
  pose proof (noAttention_exchanged s2) as X2. pose proof X1 as (_ & _ & E2).
  assert (inputBuffer s2 = buf) as Hb by (rewrite E2; done). rewrite Hb in X2.
  pose proof (exchanged_trans _ _ _ _ _ _ _ _ _ X0 (exchanged_trans _ _ _ _ _ _ _ _ _ X1 X2)) as X.
  by rewrite !app_nil_l, !app_nil_r in X.
Qed.

(** C14: One command exchange, for any command and any answering controller.  A
    reply with a valid header that announces at least the command's length and
    fits the 32-byte buffer is received completely: the bytes sent are the command
    padded with 0x5A, the buffer starts with exactly the reply.  A valid header
    announcing fewer bytes than the command has, or more than the buffer holds, is
    rejected after the command's bytes, and an invalid header after three; in
    every case the exchange stays inside the buffer. *)
Theorem autoShiftData_spec c s reply rest :
  rx (dev s) = reply ++ rest -> length (inputBuffer s) = 32%nat ->
  let n := announced reply in
  let len := sizeof c in
  let r := autoShiftData (command_bytes c) len s in
  let buf := splice 0 reply (inputBuffer s) in
  (isValidReply reply = true -> len <= n <= BUFFER_SIZE -> Z.of_nat (length reply) = n ->
   r.1 = true /\
   exchanged s r.2 reply (command_bytes c ++ replicate (Z.to_nat (n - len)) 0x5A) buf) /\
  (isValidReply reply = true -> n < len \/ BUFFER_SIZE < n -> Z.of_nat (length reply) = len ->
   r.1 = false /\ exchanged s r.2 reply (command_bytes c) buf) /\
  (isValidReply reply = false -> length reply = 3%nat ->
   r.1 = false /\ exchanged s r.2 reply (take 3 (command_bytes c)) buf).
Proof.
  intros Hrx Hb. cbn zeta. pose proof (sizeof_range c) as Hc. pose proof (announced_range reply) as Hn.
  split_and!; intros Hv Hr.
  - intros Hl. apply autoShiftData_framed with (c := c); [|done]. intros s0 (R0 & _ & E0).
    assert (inputBuffer s0 = inputBuffer s) as Eb by (rewrite E0; done). rewrite <- Eb in *.
    set (m := Z.to_nat (sizeof c)). assert (3 <= m)%nat by lia.
    destruct (exchange_full c s0 (take m reply) (drop m reply) rest) as (s2 & E2 & X2);
      rewrite ?take_drop, ?announced_take by lia; unfold BUFFER_SIZE in *; try done; try lia.
    + rewrite length_take. lia.
    + by rewrite isValidReply_take by lia.
    + cbn in R0. by rewrite app_assoc, take_drop, <- R0, Hrx.
    + exists s2. rewrite take_drop, length_drop in X2.
      by replace (Z.to_nat (announced reply - sizeof c)) with (length reply - m)%nat by lia.
  - intros Hl. apply autoShiftData_framed with (c := c); [|done]. intros s0 (R0 & _ & E0).
    assert (inputBuffer s0 = inputBuffer s) as Eb by (rewrite E0; done). rewrite <- Eb in *.
    cbn in R0. rewrite Hrx in R0.
    destruct (exchange_sent c s0 reply rest Hb Hl Hv (eq_sym R0)) as (s1 & X1 & _ & ->).
    exists s1. split; [|done]. cbn zeta. unfold BUFFER_SIZE in *.
    assert (32 < sizeof c + (announced reply - sizeof c) mod 256) by zdiv.
    destruct (Z.eqb_spec ((announced reply - sizeof c) mod 256) 0); [lia|].
    by rewrite (proj2 (Z.leb_gt _ 32)).
  - apply autoShiftData_framed with (c := c); [|done]. intros s0 (R0 & _ & E0).
    assert (inputBuffer s0 = inputBuffer s) as Eb by (rewrite E0; done). rewrite <- Eb in *.
    cbn in R0. rewrite Hrx in R0.
    destruct (exchange_run c s0 reply rest Hb Hr (eq_sym R0)) as (s1 & X1 & _ & ->).
    rewrite Hv. by exists s1.
Qed.
End Exchange.

(** ** Termination of the retry loop

    Every operation takes a bounded time; a round that fails takes at least the
    retry interval. *)
Section Termination.
Context {W : Type} `{PinOps W} `{SPIBus W} `{Delay W} `{Clock W}.
Context (now : W -> Z) {Hclk : ClockOk W now}.
Context (pin_now : forall p v w, now w <= now (digitalWritePin p v w).2 <= now w + 1).
Context (typeIsGuitar : bool).

(** [m] takes between [lo] and [hi] milliseconds. *)
Definition takes {A} (lo hi : Z) (m : M (ps2_state W) A) : Prop :=
  forall s, now (dev s) + lo <= now (dev (m s).2) <= now (dev s) + hi.
Lemma takes_bind {A B} lo1 hi1 lo2 hi2 (m : M _ A) (k : A -> M _ B) :
  takes lo1 hi1 m -> (forall a, takes lo2 hi2 (k a)) -> takes (lo1 + lo2) (hi1 + hi2) (m ≫= k).
Proof.
  intros Hm Hk s. rewrite mbind_run. specialize (Hm s). specialize (Hk (m s).1 (m s).2). lia.
Qed.
Lemma takes_weaken {A} lo hi lo' hi' (m : M _ A) :
  takes lo hi m -> lo' <= lo -> hi <= hi' -> takes lo' hi' m.
Proof. intros Hm ? ? s. specialize (Hm s). lia. Qed.
Lemma takes_quick {A} (m : M (ps2_state W) A) :
  (forall s, dev (m s).2 = dev s) -> takes 0 0 m.
Proof. intros E s. rewrite E. lia. Qed.
Lemma takes_ondev {A} lo hi (m : M W A) :
  (forall w, now w + lo <= now (m w).2 <= now w + hi) -> takes lo hi (ondev m).
Proof. intros Hm s. rewrite ondev_run. cbn. apply Hm. Qed.
Lemma takes_delay n : 0 <= n -> takes (n / 1000) (n / 1000 + 1) (ondev (delay_us n)).
Proof.
  intros Hn. apply takes_ondev. intros w.
  pose proof (delay_now n w Hn). pose proof (delay_bound n w Hn). lia.
Qed.
Lemma takes_mfor {A} hi (l : list A) (body : A -> M (ps2_state W) unit) :
  0 <= hi -> (forall a, takes 0 hi (body a)) -> takes 0 (Z.of_nat (length l) * hi) (mfor l body).
Proof.
  intros Hhi Hb. induction l as [|a l IH]; cbn [mfor].
  - by apply (takes_weaken 0 0); [apply takes_quick| |].
  - eapply takes_weaken; [exact (takes_bind _ _ _ _ _ _ (Hb a) (fun _ => IH))|lia|cbn [length]; lia].
Qed.

Lemma takes_noAttention : takes 0 3 (noAttention (W := W)).
Proof.
  unfold noAttention.
  eapply takes_weaken; [apply (takes_bind 0 1 0 2)| |]; [|intros _| |]; try lia.
  - apply takes_ondev. intros w. pose proof (high_now w). lia.
  - eapply takes_weaken; [apply (takes_bind 0 0 0 2)| |]; [by apply takes_quick|intros p| |]; try lia.
    eapply takes_weaken; [apply (takes_bind 0 1 0 1)| |]; [|intros _| |]; try lia.
    + apply takes_ondev. intros w. specialize (pin_now p true w). lia.
    + by apply (takes_delay ATTN_DELAY).
Qed.
Lemma takes_signalAttention : takes 0 3 (signalAttention (W := W)).
Proof.
  unfold signalAttention.
  eapply takes_weaken; [apply (takes_bind 0 0 0 3)| |]; [by apply takes_quick|intros p| |]; try lia.
  eapply takes_weaken; [apply (takes_bind 0 1 0 2)| |]; [|intros _| |]; try lia.
  - apply takes_ondev. intros w. specialize (pin_now p false w). lia.
  - eapply takes_weaken; [apply (takes_bind 0 1 0 1)| |]; [|intros _| |]; try lia.
    + apply takes_ondev. intros w. pose proof (low_now w). lia.
    + by apply (takes_delay ATTN_DELAY).
Qed.
Lemma takes_shift out off len : 0 <= len -> takes 0 (len * 2) (shiftDataInOut (W := W) out off len).
Proof.
  intros. unfold shiftDataInOut. rewrite <- (Z2Nat.id len) at 1 by done.
  rewrite <- (length_iota (Z.to_nat len)) at 1. apply takes_mfor; [lia|]. intros i.
  eapply takes_weaken; [apply (takes_bind 0 1 0 1)| |]; [|intros r| |]; try lia.
  - apply takes_ondev. intros w.
    pose proof (transfer_now match out with Some o => aget 0 o i | None => 90 end w). lia.
  - eapply takes_weaken; [apply (takes_bind 0 0 0 1)| |]; [by apply takes_quick|intros _| |]; try lia.
    by apply (takes_delay INTER_CMD_BYTE_DELAY).
Qed.
Lemma takes_exchange out len : takes 0 130 (exchange (W := W) out len).
Proof.
  unfold exchange, BUFFER_SIZE.
  destruct (Z.geb_spec len 3), (Z.leb_spec len 32); cbn [andb];
    try (eapply takes_weaken; [by apply (takes_quick (mret false))|lia|lia]).
  eapply takes_weaken; [apply (takes_bind 0 6 0 124)| |]; [|intros _| |]; try lia.
  { by apply (takes_shift _ _ 3). }
  eapply takes_weaken; [apply (takes_bind 0 0 0 124)| |]; [by apply takes_quick|intros inp| |]; try lia.
  destruct (isValidReply inp); [|eapply takes_weaken; [by apply (takes_quick (mret false))|lia|lia]].
  eapply takes_weaken; [apply (takes_bind 0 60 0 64)| |]; [|intros _| |]; try lia.
  { destruct (len >? 3); cbn [mwhen].
    - eapply takes_weaken; [apply takes_shift|lia|lia]; lia.
    - eapply takes_weaken; [by apply (takes_quick (mret tt))|lia|lia]. }
  set (left := u8 _). pose proof (uwrap_range 8 eq_refl
    (u8 (Z.land (aget 0 inp 1) 15 * 2) - len + 3)) as Hl. fold left in Hl. unfold in_u in Hl.
  destruct (Z.eqb_spec left 0);
    [eapply takes_weaken; [by apply (takes_quick (mret true))|lia|lia]|].
  destruct (Z.leb_spec (len + left) 32);
    [|eapply takes_weaken; [by apply (takes_quick (mret false))|lia|lia]].
  eapply takes_weaken; [apply (takes_bind 0 (left * 2) 0 0)| |]; [|intros _| |]; try lia.
  - apply takes_shift. lia.
  - by apply takes_quick.
Qed.
Lemma takes_autoShiftData out len : takes 0 140 (autoShiftData (W := W) out len).
Proof.
  unfold autoShiftData.
  eapply takes_weaken; [apply (takes_bind 0 3 0 133)| |]; [|intros _| |]; try lia.
  { apply takes_signalAttention. }
  eapply takes_weaken; [apply (takes_bind 0 130 0 3)| |]; [|intros ret| |]; try lia.
  { apply takes_exchange. }
  eapply takes_weaken; [apply (takes_bind 0 3 0 0)| |]; [|intros ?| |]; try lia.
  - apply takes_noAttention.
  - by apply takes_quick.
Qed.

(** The rounds needed: each failed one takes 10 ms or more. *)
Definition rounds : nat := 26.
Lemma send_loop_returns fuel k c t0 cnt s :
  0 <= k -> 26 <= k + Z.of_nat fuel ->
  t0 + 10 * k <= now (dev s) <= t0 + 200 * k -> k < 26 ->
  exists ok, (send_loop fuel c (u32 t0) cnt false s).1 = Some ok.
Proof.
  revert k cnt s. induction fuel as [|fuel IH]; intros k cnt s Hk Hf Hnow Hlt; [lia|].
  cbn [send_loop]. rewrite mbind_run. cbn [mread].
  pose proof (takes_autoShiftData (command_bytes c) (sizeof c) s) as Ht.
  destruct (autoShiftData (command_bytes c) (sizeof c) s) as [got s1]. cbn [fst snd] in *.
  rewrite mbind_run. cbn [mread fst snd].
  set (cnt' := if got then u8 (cnt + 1) else cnt).
  set (ret' := if got then command_ok c (inputBuffer s1) cnt' else false).
  destruct ret'; cbn [negb mwhen].
  { rewrite mbind_run. by eexists. }
  rewrite mbind_run. pose proof (takes_delay 10000 ltac:(lia) s1) as Hd.
  change (delay_ms COMMAND_RETRY_INTERVAL) with (delay_us (W := W) 10000).
  change (10000 / 1000) with 10 in Hd. set (s2 := (ondev (delay_us 10000) s1).2) in *.
  rewrite mbind_run, ondev_run. cbn [fst snd]. rewrite millis_reads.
  replace (u32 (u32 (now (dev s2)) - u32 t0)) with (now (dev s2) - t0).
  2:{ unfold uwrap. rewrite <- Zminus_mod. symmetry. apply Z.mod_small. lia. }
  destruct (Z.leb_spec (now (dev s2) - t0) COMMAND_TIMEOUT) as [Hle|]; [|by eexists].
  unfold COMMAND_TIMEOUT in Hle. apply (IH (k + 1)); [lia|lia| |lia].
  cbn -[Z.add Z.mul Z.le]. rewrite millis_now. lia.
Qed.
Lemma sendCommand_returns_some c s : exists ok, (sendCommand rounds c s).1 = Some ok.
Proof.
  unfold sendCommand. rewrite mbind_run, ondev_run. cbn [fst snd]. rewrite millis_reads.
  apply (send_loop_returns _ 0); [lia|unfold rounds; lia| |lia].
  cbn -[Z.add Z.mul Z.le]. rewrite millis_now. lia.
Qed.

Definition returns {A} (m : M (ps2_state W) (option A)) : Prop := forall s, exists a, (m s).1 = Some a.
Lemma returns_oret {A} (a : A) : returns (oret a).
Proof. intros s. by exists a. Qed.
Lemma returns_bind {A B} (m : M _ A) (k : A -> M _ (option B)) :
  (forall a, returns (k a)) -> returns (m ≫= k).
Proof. intros Hk s. rewrite mbind_run. apply Hk. Qed.
Lemma returns_obind {A B} (m : M _ (option A)) (k : A -> M _ (option B)) :
  returns m -> (forall a, returns (k a)) -> returns (obind m k).
Proof. intros Hm Hk s. destruct (Hm s) as [a E]. rewrite (obind_some _ _ _ _ E). apply Hk. Qed.
Lemma read_returns c : returns (read typeIsGuitar rounds c).
Proof.
  apply returns_bind. intros ok. destruct ok; [|apply returns_oret].
  apply returns_bind. intros inp. cbn [negb]. destruct (isConfigReply inp).
  - apply returns_obind; [intros s; apply sendCommand_returns_some|intros; apply returns_oret].
  - apply returns_bind. intros. apply returns_oret.
Qed.
Lemma configure_returns : returns (configure (W := W) rounds).
Proof.
  unfold configure.
  repeat (apply returns_obind; [intros s; apply sendCommand_returns_some|intros ?]).
  apply returns_oret.
Qed.
Lemma begin_returns c : returns (begin typeIsGuitar rounds c).
Proof.
  unfold begin. apply returns_obind; [|intros; apply read_returns].
  generalize 5%nat as n. intros n. revert c. induction n as [|n IH]; intros c.
  - apply returns_oret.
  - apply returns_obind; [apply read_returns|]. intros r. by apply returns_bind.
Qed.
Lemma poll_returns c : returns (poll typeIsGuitar rounds c).
Proof.
  apply returns_obind; [apply read_returns|]. intros r. apply returns_bind. intros ?.
  apply returns_oret.
Qed.

(** C13: Polling the PlayStation port always returns, whatever the peripheral
    answers: with a millisecond clock that may wrap around, no retry loop takes
    more than 26 rounds. *)
Theorem tickPS2CtrlInput_returns c s :
  exists c', (tickPS2CtrlInput typeIsGuitar rounds c s).1 = Some c'.
Proof.
  revert s. fold (returns (tickPS2CtrlInput typeIsGuitar rounds c)).
  apply returns_bind. intros t. case_bool_decide; [|apply poll_returns].
  apply returns_obind; [apply begin_returns|]. intros r.
  destruct (negb r.1); [apply returns_oret|].
  apply returns_obind; [apply configure_returns|]. intros ?. apply poll_returns.
Qed.
End Termination.

(** ** What a poll reports *)
Section Decode.
Context {W : Type} (typeIsGuitar : bool).
Implicit Types (s : ps2_state W) (inp : list Z) (c : Controller_t).

(** The reply's button word: a pressed button is a 0 bit. *)
Definition wire_buttons inp : Z := Z.lor (Z.shiftl (aget 0 inp 4) 8) (aget 0 inp 3).
Lemma decode_word inp c s :
  buttonWord (decode_reply typeIsGuitar inp c s).2 = u16 (Z.lnot (wire_buttons inp)).
Proof.
  unfold decode_reply. rewrite !mbind_run.
  destruct (isFlightStickReply inp), (isNegconReply inp), (isJogconReply inp), (isMouseReply inp),
    (isDualShockReply inp), (isDualShock2Reply inp), typeIsGuitar; reflexivity.
Qed.
Lemma high_nibble inp v : (Z.land (aget 0 inp 1) 0xF0 =? v) = true ->
  Z.land (aget 0 inp 1) 0xF0 = v.
Proof. apply Z.eqb_eq. Qed.
(** The predicates on the high nibble and on the whole byte exclude each other. *)
Lemma dualshock_excludes inp : isDualShockReply inp = true ->
  isFlightStickReply inp = false /\ isNegconReply inp = false /\ isJogconReply inp = false /\
  isMouseReply inp = false.
Proof.
  unfold isDualShockReply, isFlightStickReply, isNegconReply, isJogconReply, isMouseReply.
  intros E%high_nibble. rewrite E. split_and!; try done.
  - destruct (Z.eqb_spec (aget 0 inp 1) 0x23) as [E'|]; [rewrite E' in E; discriminate|done].
  - destruct (Z.eqb_spec (aget 0 inp 1) 0x12) as [E'|]; [rewrite E' in E; discriminate|done].
Qed.
Lemma testbit_active_low inp k : 0 <= k < 16 ->
  bit_check (u16 (Z.lnot (wire_buttons inp))) k = negb (Z.testbit (wire_buttons inp) k).
Proof.
  intros. rewrite bit_check_testbit by lia. unfold uwrap.
  rewrite Z.mod_pow2_bits_low by lia. apply Z.lnot_spec. lia.
Qed.
Lemma ds_bindings_valid k : (aget 0 dualShockButtonBindings k =? INVALID) = false ->
  0 <= aget 0 dualShockButtonBindings k < 16.
Proof.
  intros E. assert (Forall (fun b => (b =? INVALID) = false -> 0 <= b < 16) dualShockButtonBindings) as F.
  { repeat constructor; cbn; intros; try lia; discriminate. }
  revert E. apply (aget_Forall (fun b => (b =? INVALID) = false -> 0 <= b < 16)); [lia|done].
Qed.

(** After a DualShock reply, whether or not the device is set up as a guitar,
    the controller type is a DualShock and every button is the complement of its
    wire bit under the DualShock table: the guitar table is never consulted, so a
    guitar's green fret (R2) is not reported as A. *)
Theorem dualshock_reply_buttons inp c s k :
  isDualShockReply inp = true -> 0 <= k < 16 ->
  let s' := (decode_reply typeIsGuitar inp c s).2 in
  let btn := aget 0 dualShockButtonBindings k in
  ps2CtrlType s' = (if isDualShock2Reply inp then PSX_DUALSHOCK_2_CONTROLLER
                    else PSX_DUALSHOCK_1_CONTROLLER) /\
  (readPS2Button k s').1 = negb (btn =? INVALID) && negb (Z.testbit (wire_buttons inp) btn).
Proof.
  intros Hd Hk. cbn zeta. pose proof (decode_word inp c s) as Hw.
  destruct (dualshock_excludes inp Hd) as (E1 & E2 & E3 & E4).
  assert (Ht : ps2CtrlType (decode_reply typeIsGuitar inp c s).2 =
    if isDualShock2Reply inp then PSX_DUALSHOCK_2_CONTROLLER else PSX_DUALSHOCK_1_CONTROLLER).
  { unfold decode_reply. rewrite !mbind_run, E1, E2, E3, E4, Hd.
    destruct typeIsGuitar, (isDualShock2Reply inp); reflexivity. }
  split; [exact Ht|]. unfold readPS2Button. rewrite mbind_run. cbn [mread fst snd].
  rewrite Ht. assert (forall b : bool, (if b then PSX_DUALSHOCK_2_CONTROLLER else
    PSX_DUALSHOCK_1_CONTROLLER) <> PSX_GUITAR_HERO_CONTROLLER /\ (if b then
    PSX_DUALSHOCK_2_CONTROLLER else PSX_DUALSHOCK_1_CONTROLLER) <> PSX_MOUSE) as Hne by by intros [].
  rewrite !bool_decide_eq_false_2 by apply Hne.
  destruct (Z.eqb_spec (aget 0 dualShockButtonBindings k) INVALID) as [|Hv]; [done|].
  rewrite mbind_run. cbn [mread mret M_ret fst snd negb andb]. rewrite Hw.
  apply testbit_active_low, ds_bindings_valid. by apply Z.eqb_neq.
Qed.

(** The axes of a DualShock reply: each stick byte becomes the centred 16-bit
    value 256 times its distance from the middle, never overflowing, y axes
    inverted; a guitar's whammy and tilt take the right stick; the pressures of a
    DualShock 2 are the triggers.  The controller stays well formed. *)
Theorem dualshock_reply_axes inp c s :
  isDualShockReply inp = true -> bytes inp -> Controller_wf c ->
  let c' := (decode_reply typeIsGuitar inp c s).1 in
  let g i := aget 0 inp i in
  Controller_wf c' /\ buttons c' = buttons c /\
  (lt c', rt c') = (if isDualShock2Reply inp then (g 19, g 20) else (lt c, rt c)) /\
  (l_x c', l_y c', r_x c', r_y c') =
    if typeIsGuitar
    then (0, 0, 256 * (g 8 - 128), if Z.testbit (wire_buttons inp) 8 then 0 else 32767)
    else (256 * (g 7 - 128), 256 * (127 - g 8), 256 * (g 5 - 128), 256 * (127 - g 6)).
Proof.
  intros Hd Hb Hc. cbn zeta. destruct (dualshock_excludes inp Hd) as (E1 & E2 & E3 & E4).
  assert (forall i, in_u 8 (aget 0 inp i)) as Hi by (intros; by apply aget_Forall).
  assert (forall i, axis (aget 0 inp i) = 256 * (aget 0 inp i - 128)) as Ha.
  { intros i. specialize (Hi i). unfold axis, in_u in *. rewrite Z.shiftl_mul_pow2 by lia.
    rewrite (swrap_small 16 eq_refl); [lia|unfold in_s; lia]. }
  assert (forall i, axis_inv (aget 0 inp i) = 256 * (127 - aget 0 inp i)) as Hv.
  { intros i. specialize (Hi i). unfold axis_inv, in_u in *. rewrite Z.shiftl_mul_pow2 by lia.
    rewrite (swrap_small 16 eq_refl); [lia|unfold in_s; lia]. }
  pose proof (testbit_active_low inp 8 ltac:(lia)) as Ht.
  fold (wire_buttons inp) in *.
  unfold decode_reply. rewrite !mbind_run, E1, E2, E3, E4, Hd. fold (wire_buttons inp).
  change (GHButton_val GH_STAR_POWER) with 8.
  change (PSAB_L2 + 9) with 19. change (PSAB_R2 + 9) with 20.
  pose proof (Hi 5). pose proof (Hi 6). pose proof (Hi 7). pose proof (Hi 8). pose proof (Hi 19).
  pose proof (Hi 20). rewrite Controller_wf_iff in *. unfold in_u in *.
  unfold mbind, M_bind, mwhen, mmod, mret, M_ret.
  destruct typeIsGuitar, (isDualShock2Reply inp);
    cbn -[Z.mul Z.sub Z.pow Z.testbit axis axis_inv in_s aget wire_buttons bit_check u16];
    rewrite ?Ha, ?Hv, ?Ht; unfold in_s; destruct (Z.testbit (wire_buttons inp) 8);
    cbn [negb Z.b2z]; split_and!; try done; try lia; try (f_equal; lia).
Qed.
End Decode.

(** ** A concrete peripheral

    A controller that answers with a prepared byte sequence; time passes only in
    delays. *)
Record psx_world : Set := mkPsx { answers : list Z; received : list Z; clock : Z }.
#[global] Instance etaPsx : Settable psx_world := fun r =>
  {| answers := answers r; received := received r; clock := clock r |}.
#[global] Instance psx_delay : Delay psx_world := fun n w => (tt, w <| clock ::= Z.add (n / 1000) |>).
#[global] Instance psx_clock : Clock psx_world :=
  {| millis w := (u32 (clock w), w); micros w := (u32 (1000 * clock w), w) |}.
#[global] Instance psx_spi : SPIBus psx_world :=
  {| spi_begin _ _ _ _ := mret tt; spi_high := mret tt; spi_low := mret tt;
     spi_transfer b w := match answers w with
       | r :: rs => (r, w <| answers := rs |> <| received ::= fun l => l ++ [b] |>)
       | [] => (0xFF, w <| received ::= fun l => l ++ [b] |>) end |}.
#[global] Instance psx_pins : PinOps psx_world :=
  {| board := uno; joyData _ := []; validAnalog _ := 0; pinMode _ _ := mret tt;
     digitalRead _ := mret false; digitalWrite _ _ := mret tt; digitalReadPin _ := mret false;
     digitalWritePin _ _ := mret tt; setUpDigital _ pin _ _ _ := zero_pin <| p_pin := pin |>;
     setUpAnalogDigitalPin p _ _ := mret p; setUpValidPins _ _ := mret tt;
     tickAnalog := mret tt; analogRead _ := mret 0; stopReading := mret tt; setupADC := mret tt |}.
#[global] Instance psx_clock_ok : ClockOk psx_world clock.
Proof.
  split; cbn; intros; try lia; try done.
  - destruct (answers w); cbn; lia.
Qed.
#[global] Instance psx_device : SpiDevice psx_world answers received.
Proof.
  split; cbn; intros; try done. by rewrite H.
Qed.

Lemma autoShiftData_spec_witness :
  let s := ps2_init_state (mkPsx [0xFF; 0x41; 0x5A; 0xFE; 0xFF] [] 0) in
  let r := autoShiftData (command_bytes commandPollInput) (sizeof commandPollInput) s in
  r.1 = true /\ received (dev r.2) = [0x01; 0x42; 0x00; 0x5A; 0x5A].
Proof.
  destruct (autoShiftData_spec answers received commandPollInput
    (ps2_init_state (mkPsx [0xFF; 0x41; 0x5A; 0xFE; 0xFF] [] 0)) [0xFF; 0x41; 0x5A; 0xFE; 0xFF] []
    eq_refl eq_refl) as (H & _).
  destruct (H eq_refl ltac:(split; discriminate) eq_refl) as (E & _ & T & _).
  split; [exact E|]. rewrite T. reflexivity.
Defined.

(** A port with nothing attached. *)
Lemma tickPS2CtrlInput_returns_witness :
  exists c', (tickPS2CtrlInput false rounds zero_controller
                (ps2_init_state (mkPsx [] [] 4294967290))).1 = Some c'.
Proof.
  apply (tickPS2CtrlInput_returns clock). intros p v w. cbn. lia.
Defined.

(** A DualShock with R2, the guitar's green fret, pressed. *)
Definition green_fret : list Z := [0xFF; 0x73; 0x5A; 0xFF; 0xFD; 0x80; 0x7F; 0x80; 0x7F].
Lemma dualshock_reply_buttons_witness :
  (readPS2Button XBOX_A (decode_reply true green_fret zero_controller
     (ps2_init_state (mkPsx [] [] 0))).2).1 = false.
Proof.
  destruct (dualshock_reply_buttons true green_fret zero_controller
    (ps2_init_state (mkPsx [] [] 0)) XBOX_A eq_refl ltac:(cbn; lia)) as [_ E].
  rewrite E. reflexivity.
Defined.
Lemma dualshock_reply_axes_witness :
  r_x (decode_reply true green_fret zero_controller (ps2_init_state (mkPsx [] [] 0))).1 = -256.
Proof.
  assert (bytes green_fret) as Hb by (repeat constructor; discriminate).
  assert (Controller_wf zero_controller) as Hc.
  { apply Controller_wf_iff. split_and!; (split; [discriminate|reflexivity]). }
  destruct (dualshock_reply_axes true green_fret zero_controller
    (ps2_init_state (mkPsx [] [] 0)) eq_refl Hb Hc) as (_ & _ & _ & E).
  exact (f_equal (fun p => p.1.2) E).
Defined.
