(* ===== verification/Direct.v ===== *)
(** * Directly wired controls: [shared/input/inputs/direct.h]

    Set-up of the pin table from the configuration, the search for a pin the
    user presses, and the scaling of the analogue inputs into the controller. *)

From Stdlib Require Import ZArith Lia.
From stdpp Require Import base tactics numbers list.
From S2P Require Import Prelude Packed Defs World Config Controller Variants Pins.
Open Scope Z_scope.

(** What the preprocessor decides: an ATmega328P, 1280 or 2560, a debug build, a
    radio transmitter build. *)
Record build_flags : Set := mkFlags { atmega_328_2560 : bool; debug : bool; rf_tx : bool }.

(** ** Scaling *)
(** [int32_t] arithmetic of one axis; C's division truncates. *)
Definition scale_raw (scale : Scale.AxisScale_t) (value : Z) : Z :=
  let val := i32 (value - Scale.offset scale) in
  let val := i32 (val * Scale.multiplier scale) in
  let val := i32 (Z.quot val 1024) in
  let val := i32 (val + INT16_MIN) in
  let val := if val >? INT16_MAX then INT16_MAX else val in
  if val <? INT16_MIN then INT16_MIN else val.
(** Triggers and the whammy rest at the minimum, sticks at 0. *)
Definition rests_low (typeIsGuitar : bool) (offset : Z) : bool :=
  (offset <? 2) || (typeIsGuitar && (offset =? XBOX_WHAMMY)).
Definition scale_axis {A : Arch} (scale : Scale.AxisScale_t) (low : bool) (value : Z) : Z :=
  let val := scale_raw scale value in
  if low then (if val <? Scale.deadzone scale then INT16_MIN else val)
  else if (val <? Scale.deadzone scale) && (val >? cint (- Scale.deadzone scale)) then 0 else val.

Section Direct.
Context {A : Arch} {W : Type} `{PinOps W} `{Delay W}.
Context (flags : build_flags).

(** The globals of direct.h, the pin table of input_handler.c and the device
    type flags they read; [hw] holds the pin driver's state. *)
Record direct_state : Type := mkDirect {
  typeIsGuitar : bool; typeIsDrum : bool;
  validPins : Z;
  pinData : list Pin_t;
  detectedPin : Z;
  lookingForDigital : bool; lookingForAnalog : bool;
  lastAnalogValue : list Z;
  lastDigitalValue : list bool;
  analogueData : list Z;
  usingI2C : bool; usingSPI : bool;
  spPin : Z;
  tiltType : Z;
  drumVelocity : list Z;
  scales : list Scale.AxisScale_t;
  hw : W
}.
#[global] Instance etaDirect : Settable direct_state := fun r =>
  {| typeIsGuitar := typeIsGuitar r; typeIsDrum := typeIsDrum r; validPins := validPins r;
     pinData := pinData r; detectedPin := detectedPin r;
     lookingForDigital := lookingForDigital r; lookingForAnalog := lookingForAnalog r;
     lastAnalogValue := lastAnalogValue r; lastDigitalValue := lastDigitalValue r;
     analogueData := analogueData r; usingI2C := usingI2C r; usingSPI := usingSPI r;
     spPin := spPin r; tiltType := tiltType r; drumVelocity := drumVelocity r;
     scales := scales r; hw := hw r |}.
Definition zero_scale : Scale.AxisScale_t := Scale.mk 0 0 0.
Definition direct_init_state (guitar drum : bool) (w : W) : direct_state :=
  mkDirect guitar drum 0 (replicate 16 zero_pin) 0xff false false
    (replicate (Z.to_nat (NUM_ANALOG_INPUTS (board (S := W)))) 0)
    (replicate (Z.to_nat (NUM_DIGITAL_PINS (board (S := W)))) false)
    (replicate 6 0) false false 0 0 (replicate 8 0) (replicate 6 zero_scale) w.
Definition onhw {B} (m : M W B) : M direct_state B :=
  fun s => let '(a, w) := m (hw s) in (a, s <| hw := w |>).

(** ** Set-up *)
Definition reinit_pin (p : Pin_t) : M direct_state unit :=
  onhw (pinMode (p_pin p)
    (if p_eq p || negb (p_analogOffset p =? INVALID_PIN) then INPUT else INPUT_PULLUP)).
Definition reinitDirectInput : M direct_state unit :=
  s ← mread id;
  mwhen (negb (spPin s =? INVALID_PIN)) (onhw (pinMode (spPin s) OUTPUT)) ;;
  mfor (iota (Z.to_nat (validPins s))) (fun i => reinit_pin (aget zero_pin (pinData s) i)).
Definition is_fret (i : Z) : bool := (i >=? XBOX_A) || (i =? XBOX_LB) || (i =? XBOX_RB).
Definition is_strum (i : Z) : bool := (i =? XBOX_DPAD_DOWN) || (i =? XBOX_DPAD_UP).
Definition push_pin (pin : Pin_t) : M direct_state unit :=
  mmod (fun s => s <| pinData ::= aset (validPins s) pin |> <| validPins ::= Z.succ |>).
Definition strum_debounce (config : Configuration_t) (i : Z) (pin : Pin_t) : M direct_state Pin_t :=
  guitar ← mread typeIsGuitar;
  mret (if guitar && is_strum i
        then pin <| p_milliDeBounce := Debounce.strum (Cfg.debounce config) |> else pin).
Definition initDirectPin (config : Configuration_t) (i : Z) : M direct_state unit :=
  let pins := pins_buttons (Cfg.pins config) in
  let p := aget INVALID_PIN pins i in
  if Main.inputType (Cfg.main config) =? DIRECT then
    if p =? INVALID_PIN then mret tt
    else
      let pin := setUpDigital (S := W) config p i
        (is_fret i && (Main.fretLEDMode (Cfg.main config) =? LEDS_INLINE)) false in
      drum ← mread typeIsDrum;
      pin ← (if drum && is_fret i && (p >=? PIN_A0 (board (S := W))) then
        onhw (setUpAnalogDigitalPin pin p
                (u16 (Z.shiftl (Axis.drumThreshold (Cfg.axis config)) 3)))
      else
        onhw (pinMode p (if p_eq pin then INPUT else INPUT_PULLUP)) ;;
        strum_debounce config i pin);
      push_pin pin
  else
    pin ← strum_debounce config i (setUpDigital (S := W) config 0 i false false);
    push_pin pin.
Definition scales_of (a : AxisScale.AxisScaleConfig_t) : list Scale.AxisScale_t :=
  [AxisScale.lt a; AxisScale.rt a; AxisScale.l_x a; AxisScale.l_y a; AxisScale.r_x a;
   AxisScale.r_y a].
Definition initDirectInput (config : Configuration_t) : M direct_state unit :=
  let main := Cfg.main config in
  mmod (fun s => s
    <| usingI2C := (Main.tiltType main =? MPU_6050) || (Main.inputType main =? WII) |>
    <| usingSPI := (Main.fretLEDMode main =? APA102) || (Main.inputType main =? PS2) |>
    <| spPin := Cfg.pinsSP config |> <| tiltType := Main.tiltType main |>
    <| scales := scales_of (Cfg.axisScale config) |> <| validPins := 0 |>) ;;
  guitar ← mread typeIsGuitar;
  onhw (setUpValidPins config guitar) ;;
  mwhen (negb (Cfg.pinsSP config =? INVALID_PIN)) (onhw (pinMode (Cfg.pinsSP config) OUTPUT)) ;;
  mfor (iota 16) (initDirectPin config).

(** ** Finding a pin *)
Definition is_spi_pin (v : variant) (i : Z) : bool :=
  (i =? PIN_SPI_MOSI v) || (i =? PIN_SPI_MISO v) || (i =? PIN_SPI_SCK v) || (i =? PIN_SPI_SS v).
Definition shouldSkipPin (s : direct_state) (i : Z) : bool :=
  let v := board (S := W) in
  if (atmega_328_2560 flags || debug flags) && ((i =? 13) || (i =? 0) || (i =? 1)) then true
  else if usingI2C s && ((i =? PIN_WIRE_SDA v) || (i =? PIN_WIRE_SCL v)) then true
  else if rf_tx flags &&
    (is_spi_pin v i || (if atmega_328_2560 flags then (i =? 8) || (i =? 2)
                        else (i =? 0) || (i =? 1))) then true
  else if usingSPI s && is_spi_pin v i then true
  else false.
Definition digital_pins : list Z := iota (Z.to_nat (NUM_DIGITAL_PINS (board (S := W)))).
Definition analog_inputs : list Z := iota (Z.to_nat (NUM_ANALOG_INPUTS (board (S := W)))).
Definition findDigitalPin : M direct_state unit :=
  looking ← mread lookingForDigital;
  if (looking : bool) then mret tt
  else
    mmod (fun s => s <| detectedPin := 0xff |>) ;;
    onhw stopReading ;;
    mfor digital_pins (fun i =>
      skip ← mread (fun s => shouldSkipPin s i);
      mwhen (negb skip)
        (onhw (pinMode i INPUT_PULLUP) ;;
         onhw (delay_us 100) ;;
         b ← onhw (digitalRead i);
         mmod (fun s => s <| lastDigitalValue ::= aset i b |>))) ;;
    mmod (fun s => s <| lookingForDigital := true |>).
Definition findAnalogPin : M direct_state unit :=
  looking ← mread lookingForAnalog;
  if (looking : bool) then mret tt
  else
    mmod (fun s => s <| detectedPin := 0xff |>) ;;
    onhw stopReading ;;
    mfor analog_inputs (fun i =>
      onhw (pinMode (u8 (PIN_A0 (board (S := W)) + i)) INPUT_PULLUP) ;;
      onhw (delay_us 100) ;;
      v ← onhw (analogRead i);
      mmod (fun s => s <| lastAnalogValue ::= aset i (cint v) |>)) ;;
    mmod (fun s => s <| lookingForAnalog := true |>).
Definition stopSearching : M direct_state unit :=
  looking ← mread lookingForDigital;
  mwhen looking
    (mfor digital_pins (fun i =>
      skip ← mread (fun s => shouldSkipPin s i);
      mwhen (negb skip) (onhw (pinMode i INPUT)) ;;
      b ← onhw (digitalRead i);
      mmod (fun s => s <| lastDigitalValue ::= aset i b |>))) ;;
  mmod (fun s => s <| lookingForAnalog := false |> <| lookingForDigital := false |>).
Definition setSP (sp : bool) : M direct_state unit :=
  p ← mread spPin;
  mwhen (negb (p =? INVALID_PIN)) (onhw (digitalWrite p sp)).

(** ** Polling *)
(** The two search loops return from [tickDirectInput] at the first change. *)
Fixpoint search_analog (l : list Z) : M direct_state unit :=
  match l with
  | [] => mret tt
  | i :: l =>
      v ← onhw (analogRead i);
      last ← mread (fun s => aget 0 (lastAnalogValue s) i);
      if Z.abs (cint (v - last)) >? 10 then
        mmod (fun s => s <| detectedPin := u8 (i + PIN_A0 (board (S := W))) |>
                         <| lookingForAnalog := false |>)
      else search_analog l
  end.
Fixpoint search_digital (l : list Z) : M direct_state unit :=
  match l with
  | [] => mret tt
  | i :: l =>
      skip ← mread (fun s => shouldSkipPin s i);
      if (skip : bool) then search_digital l
      else
        b ← onhw (digitalRead i);
        last ← mread (fun s => aget false (lastDigitalValue s) i);
        if negb (Bool.eqb b last) then
          stopSearching ;;
          mmod (fun s => s <| detectedPin := u8 i |> <| lookingForDigital := false |>)
        else search_digital l
  end.
Definition store_axis (info : AnalogInfo_t) (c : Controller_t) : M direct_state Controller_t :=
  let off := a_offset info in
  mmod (fun s => s <| analogueData ::= aset off (a_value info) |>) ;;
  s ← mread id;
  let val := scale_axis (aget zero_scale (scales s) off) (rests_low (typeIsGuitar s) off)
               (a_value info) in
  mret (if off >=? 2 then set_stick (off - 2) (i16 val) c
        else set_trigger off (u8 (Z.shiftr (u16 val) 8)) c).
Fixpoint tick_axes (l : list Z) (c : Controller_t) : M direct_state Controller_t :=
  match l with
  | [] => mret c
  | i :: l =>
      info ← mread (fun s => aget zero_analog (joyData (hw s)) i);
      if a_hasDigital info then
        mmod (fun s => s <| drumVelocity ::= aset (a_offset info - 8) (u8 (a_value info)) |>) ;;
        tick_axes l c
      else
        skip ← mread (fun s => (i =? XBOX_TILT) && typeIsGuitar s && (tiltType s =? DIGITAL));
        if (skip : bool) then tick_axes l c
        else c ← store_axis info c; tick_axes l c
  end.
Definition tickDirectInput (c : Controller_t) : M direct_state Controller_t :=
  s ← mread id;
  if lookingForAnalog s then search_analog analog_inputs ;; mret c
  else if lookingForDigital s then search_digital digital_pins ;; mret c
  else
    onhw tickAnalog ;;
    n ← mread (fun s => validAnalog (hw s));
    tick_axes (iota (Z.to_nat n)) c.
End Direct.
Arguments direct_state : clear implicits.

Lemma onhw_run {W B} (m : M W B) (s : direct_state W) : onhw m s = ((m (hw s)).1, s <| hw := (m (hw s)).2 |>).
Proof. unfold onhw. by destruct (m (hw s)). Qed.

(** ** Axis scaling *)
Definition int16 (z : Z) : Prop := in_s 16 z.
Definition scale_wf (s : Scale.AxisScale_t) : Prop :=
  int16 (Scale.multiplier s) /\ int16 (Scale.offset s) /\ int16 (Scale.deadzone s).
(** The value before clamping, over the integers. *)
Definition scale_ideal (s : Scale.AxisScale_t) (v : Z) : Z :=
  Z.quot ((v - Scale.offset s) * Scale.multiplier s) 1024 + INT16_MIN.
Definition clamp16 (z : Z) : Z := Z.max INT16_MIN (Z.min INT16_MAX z).

Lemma quot_1024_bounds a : - 2147483648 <= a <= 2147483647 -> -2097152 <= Z.quot a 1024 <= 2097152.
Proof. intros. Z.to_euclidean_division_equations. lia. Qed.
Lemma scale_product s v : scale_wf s -> int16 v ->
  -2147450880 <= (v - Scale.offset s) * Scale.multiplier s <= 2147450880.
Proof. unfold scale_wf, int16, in_s. intros (Hm & Ho & _) Hv. nia. Qed.
Lemma scale_raw_ideal s v : scale_wf s -> int16 v -> scale_raw s v = clamp16 (scale_ideal s v).
Proof.
  intros Hs Hv. pose proof (scale_product s v Hs Hv) as Hp.
  pose proof (quot_1024_bounds ((v - Scale.offset s) * Scale.multiplier s) ltac:(lia)) as Hq.
  destruct Hs as (Hm & Ho & Hd). unfold int16, in_s in *.
  unfold scale_raw, scale_ideal, clamp16, INT16_MIN, INT16_MAX.
  rewrite (swrap_small 32 eq_refl (v - _)) by (unfold in_s; lia).
  rewrite (swrap_small 32 eq_refl (_ * _)) by (unfold in_s; lia).
  rewrite (swrap_small 32 eq_refl (Z.quot _ _)) by (unfold in_s; lia).
  rewrite (swrap_small 32 eq_refl (_ + _)) by (unfold in_s; lia).
  destruct (Z.gtb_spec (Z.quot ((v - Scale.offset s) * Scale.multiplier s) 1024 + -32768) 32767);
    cbn -[Z.quot]; ifs; lia.
Qed.
Lemma scale_ideal_mono s v1 v2 :
  0 <= Scale.multiplier s -> v1 <= v2 -> scale_ideal s v1 <= scale_ideal s v2.
Proof.
  intros Hm Hv. unfold scale_ideal. apply Z.add_le_mono_r, Z.quot_le_mono; [lia|]. nia.
Qed.
Lemma cint_opp {A : Arch} d : int16 d -> (cint (- d) = - d \/ (d = -32768 /\ cint (- d) = -32768)).
Proof.
  unfold int16, in_s, cint. intros Hd. destruct int_w_cases as [-> | ->].
  - destruct (Z.eq_dec d (-32768)) as [->|]; [by right|left].
    apply (swrap_small 16 eq_refl). unfold in_s. lia.
  - left. apply (swrap_small 32 eq_refl). unfold in_s. lia.
Qed.

(** C35: Axis scaling never overflows its 32-bit arithmetic: for any stored scale and
    any reading the result is the ideal value clamped to 16 bits, replaced by the
    rest position inside the dead zone.  With a non-negative multiplier it is
    monotone in the reading. *)
Theorem scale_axis_spec {A : Arch} s low v :
  scale_wf s -> int16 v ->
  let r := clamp16 (scale_ideal s v) in
  let d := Scale.deadzone s in
  scale_axis s low v =
    (if low then if r <? d then INT16_MIN else r
     else if (r <? d) && (- d <? r) then 0 else r) /\
  int16 (scale_axis s low v) /\
  (forall v', int16 v' -> 0 <= Scale.multiplier s -> v <= v' ->
     scale_axis s low v <= scale_axis s low v').
Proof.
  intros Hs Hv. cbn zeta.
  assert (forall x, int16 x -> scale_axis s low x =
    (let r := clamp16 (scale_ideal s x) in
     if low then if r <? Scale.deadzone s then INT16_MIN else r
     else if (r <? Scale.deadzone s) && (- Scale.deadzone s <? r) then 0 else r)) as E.
  { intros x Hx. unfold scale_axis. rewrite scale_raw_ideal by done. cbn zeta.
    destruct low; [done|]. rewrite Z.gtb_ltb. destruct Hs as (_ & _ & Hd).
    destruct (cint_opp _ Hd) as [->|[E ->]]; [done|].
    rewrite E. unfold clamp16, INT16_MIN, INT16_MAX. ifs; zbool; try lia; done. }
  split; [by apply E|]. rewrite (E v Hv). split.
  - destruct Hs as (_ & _ & Hd). unfold clamp16, INT16_MIN, INT16_MAX, int16, in_s in *. ifs; lia.
  - intros v' Hv' Hm Hle. rewrite (E v' Hv').
    pose proof (scale_ideal_mono s v v' Hm Hle). destruct Hs as (_ & _ & Hd).
    unfold clamp16, INT16_MIN, INT16_MAX, int16, in_s in *. cbn zeta.
    destruct low; ifs; rewrite ?andb_false_iff in *; zbool; intuition (zbool; lia).
Qed.
Lemma scale_axis_spec_witness :
  scale_wf (Scale.mk 1024 (-32768) 300) /\ int16 1000 /\
  scale_axis (A := avr) (Scale.mk 1024 (-32768) 300) false 1000 = 1000.
Proof.
  assert (scale_wf (Scale.mk 1024 (-32768) 300)) as Hs by (split_and!; split; done).
  assert (int16 1000) as Hv by (split; done).
  split; [exact Hs|]. split; [exact Hv|].
  rewrite (proj1 (scale_axis_spec (A := avr) _ false 1000 Hs Hv)). reflexivity.
Defined.

(** The default configuration's scales ignore the reading: their multiplier is
    0, so every stick reports its negative end and every trigger 0, whatever is
    connected. *)
Theorem default_scale_constant {A : Arch} v :
  int16 v ->
  scale_axis DEFAULT_AXIS_SCALE false v = -32768 /\
  scale_axis DEFAULT_AXIS_SCALE_TRIGGER true v = -32768.
Proof.
  intros Hv. unfold scale_axis.
  rewrite !scale_raw_ideal by (done || (split_and!; split; done)).
  unfold scale_ideal. cbn [Scale.multiplier Scale.offset Scale.deadzone DEFAULT_AXIS_SCALE
    DEFAULT_AXIS_SCALE_TRIGGER]. rewrite !Z.mul_0_r. split; [|done].
  change (clamp16 _) with (-32768). change (-32768 <? INT16_MAX) with true.
  destruct (cint_opp INT16_MAX ltac:(split; done)) as [->|[E _]]; [done|discriminate E].
Qed.
Lemma default_scale_constant_witness :
  scale_axis (A := pico) DEFAULT_AXIS_SCALE false 12345 = -32768.
Proof. apply (default_scale_constant (A := pico) 12345). split; done. Defined.

(** ** The pin table *)
Section PinTable.
Context {W : Type} `{PinOpsOk W}.
Implicit Types (s : direct_state W) (c : Configuration_t).

(** The buttons that get an entry: those with a pin for wired controllers, all
    for the others. *)
Definition bound c (i : Z) : bool :=
  negb (Main.inputType (Cfg.main c) =? DIRECT) ||
  negb (aget INVALID_PIN (pins_buttons (Cfg.pins c)) i =? INVALID_PIN).
Definition offsets s : list Z := p_offset <$> take (Z.to_nat (validPins s)) (pinData s).
Lemma push_pin_offsets pin s :
  0 <= validPins s < Z.of_nat (length (pinData s)) ->
  let s' := (push_pin pin s).2 in
  offsets s' = offsets s ++ [p_offset pin] /\ validPins s' = validPins s + 1 /\
  length (pinData s') = length (pinData s).
Proof.
  intros Hv. cbn. rewrite length_aset. split; [|done].
  unfold offsets. cbn [validPins pinData upd setter_of]. unfold aset.
  replace (Z.to_nat (Z.succ (validPins s))) with (S (Z.to_nat (validPins s))) by lia.
  rewrite (take_S_r _ _ pin) by (rewrite list_lookup_insert_eq; [done|lia]).
  by rewrite fmap_app, take_insert_ge by lia.
Qed.
Lemma initDirectPin_pushes c i s :
  if bound c i then exists pin s0, p_offset pin = i /\ (initDirectPin c i s).2 = (push_pin pin s0).2
    /\ pinData s0 = pinData s /\ validPins s0 = validPins s
  else (initDirectPin c i s).2 = s.
Proof.
  unfold initDirectPin, bound. destruct (Main.inputType (Cfg.main c) =? DIRECT); cbn [negb orb].
  - set (p := aget INVALID_PIN _ i). destruct (p =? INVALID_PIN); cbn [negb]; [done|].
    rewrite mbind_run. cbn [mread fst snd]. rewrite mbind_run.
    destruct (_ && _ && _).
    + rewrite onhw_run. cbn [fst snd]. eexists _, _. split; [|done].
      etransitivity; [apply setUpAnalogDigitalPin_keeps|]. apply setUpDigital_entry.
    + rewrite mbind_run, onhw_run. cbn [snd]. unfold strum_debounce. rewrite mbind_run.
      cbn [mread mret M_ret fst snd]. eexists _, _. split; [|done].
      destruct (_ && _); apply setUpDigital_entry.
  - rewrite mbind_run. unfold strum_debounce. rewrite mbind_run. cbn [mread mret M_ret fst snd].
    eexists _, _. split; [|done]. destruct (_ && _); apply setUpDigital_entry.
Qed.
Lemma init_pins_offsets c n s :
  (n <= 16)%nat -> length (pinData s) = 16%nat -> validPins s = 0 ->
  let s' := (mfor (iota n) (initDirectPin c) s).2 in
  offsets s' = List.filter (bound c) (iota n) /\ length (pinData s') = 16%nat /\
  0 <= validPins s' <= Z.of_nat n.
Proof.
  intros Hn Hl Hv. cbn zeta. induction n as [|n IH].
  { cbn. unfold offsets. rewrite Hv. by split_and!. }
  rewrite iota_S, mfor_app, mbind_run. destruct (IH ltac:(lia)) as (IO & IL & IV).
  set (s1 := (mfor (iota n) _ s).2) in *. cbn [mfor]. rewrite mbind_run. cbn [mret M_ret snd].
  rewrite List.filter_app, <- IO. cbn [List.filter].
  pose proof (initDirectPin_pushes c (Z.of_nat n) s1) as Hp. destruct (bound c (Z.of_nat n)).
  - destruct Hp as (pin & s0 & Ho & -> & Ep & Ev).
    destruct (push_pin_offsets pin s0) as (O & V & L); [rewrite Ep, Ev, IL; lia|].
    rewrite O, V, L, Ep, Ev, IL, Ho. unfold offsets. rewrite Ep, Ev. split_and!; try done; lia.
  - rewrite Hp, app_nil_r. split_and!; try done; lia.
Qed.

(** The entry of a wired controller's button. *)
Definition wired_pin c (guitar : bool) (i : Z) : Pin_t :=
  let pin := setUpDigital (S := W) c (aget INVALID_PIN (pins_buttons (Cfg.pins c)) i) i
    (is_fret i && (Main.fretLEDMode (Cfg.main c) =? LEDS_INLINE)) false in
  if guitar && is_strum i
  then pin <| p_milliDeBounce := Debounce.strum (Cfg.debounce c) |> else pin.
Lemma wired_pin_spec c guitar i :
  p_offset (wired_pin c guitar i) = i /\ p_lastMillis (wired_pin c guitar i) = 0 /\
  p_analogOffset (wired_pin c guitar i) = INVALID_PIN /\
  p_milliDeBounce (wired_pin c guitar i) =
    if guitar && is_strum i then Debounce.strum (Cfg.debounce c) else Debounce.buttons (Cfg.debounce c).
Proof.
  unfold wired_pin.
  match goal with |- context [setUpDigital c ?p i ?inv ?out] =>
    destruct (setUpDigital_entry c p i inv out) as (E1 & _ & E2);
    destruct (setUpDigital_timing c p i inv out) as (E3 & E4) end.
  by destruct (guitar && is_strum i).
Qed.
Lemma initDirectPin_wired c i s :
  Main.inputType (Cfg.main c) = DIRECT -> typeIsDrum s = false ->
  let s' := (initDirectPin c i s).2 in
  typeIsGuitar s' = typeIsGuitar s /\ typeIsDrum s' = false /\
  if bound c i then exists s0, s' = (push_pin (wired_pin c (typeIsGuitar s) i) s0).2
    /\ pinData s0 = pinData s /\ validPins s0 = validPins s
  else s' = s.
Proof.
  intros Hd Hn. cbn zeta. unfold initDirectPin, bound, wired_pin. rewrite Hd, Z.eqb_refl. cbn [negb orb].
  set (p := aget INVALID_PIN _ i). destruct (p =? INVALID_PIN); cbn [negb]; [done|].
  rewrite mbind_run. cbn [mread fst snd]. rewrite Hn. cbn [andb].
  rewrite mbind_run, mbind_run, onhw_run. cbn [snd]. unfold strum_debounce. rewrite mbind_run.
  cbn [mread mret M_ret fst snd]. split; [done|]. split; [exact Hn|]. by eexists.
Qed.
Lemma init_pins_wired c n s :
  Main.inputType (Cfg.main c) = DIRECT -> typeIsDrum s = false ->
  (n <= 16)%nat -> length (pinData s) = 16%nat -> validPins s = 0 ->
  let s' := (mfor (iota n) (initDirectPin c) s).2 in
  typeIsGuitar s' = typeIsGuitar s /\ typeIsDrum s' = false /\
  take (Z.to_nat (validPins s')) (pinData s') =
    wired_pin c (typeIsGuitar s) <$> List.filter (bound c) (iota n).
Proof.
  intros Hd Hdr Hn Hl Hv. cbn zeta. induction n as [|n IH]; [cbn; by rewrite Hv|].
  rewrite iota_S, mfor_app, mbind_run. destruct (IH ltac:(lia)) as (IG & ID & IT).
  pose proof (init_pins_offsets c n s ltac:(lia) Hl Hv) as (_ & IL & IV).
  set (s1 := (mfor (iota n) _ s).2) in *. cbn [mfor]. rewrite mbind_run. cbn [mret M_ret snd].
  destruct (initDirectPin_wired c (Z.of_nat n) s1 Hd ID) as (G & D & E).
  split; [by rewrite G|]. split; [exact D|].
  rewrite List.filter_app, fmap_app, <- IT. cbn [List.filter].
  destruct (bound c (Z.of_nat n)); [|by rewrite E, app_nil_r].
  destruct E as (s0 & -> & Ep & Ev). cbn. rewrite Ep, Ev, IG. unfold aset.
  replace (Z.to_nat (Z.succ (validPins s1))) with (S (Z.to_nat (validPins s1))) by lia.
  rewrite (take_S_r _ _ (wired_pin c (typeIsGuitar s) (Z.of_nat n)))
    by (rewrite list_lookup_insert_eq; [done|lia]).
  by rewrite take_insert_ge by lia.
Qed.
(** The table of a wired controller other than a drum kit. *)
Lemma wired_table c s :
  Main.inputType (Cfg.main c) = DIRECT -> typeIsDrum s = false -> length (pinData s) = 16%nat ->
  let s' := (initDirectInput c s).2 in
  take (Z.to_nat (validPins s')) (pinData s') =
    wired_pin c (typeIsGuitar s) <$> List.filter (bound c) (iota 16) /\
  length (pinData s') = 16%nat /\ 0 <= validPins s' <= 16.
Proof.
  intros Hd Hn Hl. cbn zeta. unfold initDirectInput. do 2 rewrite mbind_run. cbn [mmod mread fst snd].
  rewrite mbind_run, onhw_run, mbind_run. cbn [fst snd].
  match goal with |- context [mfor (iota 16) (initDirectPin c) ?s0] => set (s1 := s0) end.
  assert (typeIsGuitar s1 = typeIsGuitar s /\ typeIsDrum s1 = typeIsDrum s /\
    pinData s1 = pinData s /\ validPins s1 = 0) as (E1 & E2 & E3 & E4).
  { unfold s1. destruct (negb _); cbn [mwhen]; rewrite ?onhw_run; done. }
  rewrite <- E1. clearbody s1.
  destruct (init_pins_wired c 16 s1) as (_ & _ & E); [done|congruence|done|congruence|done|].
  destruct (init_pins_offsets c 16 s1) as (_ & L & V); [done|congruence|done|].
  split; [exact E|]. split; [exact L|]. lia.
Qed.

(** Set-up builds exactly the pin table the configuration asks for: the entries
    in use are, in order, one per button that has a pin (wired controllers) or one
    per button (the others), and the 16-entry table never overflows. *)
Theorem pin_table_spec c s :
  length (pinData s) = 16%nat ->
  let s' := (initDirectInput c s).2 in
  offsets s' = List.filter (bound c) (iota 16) /\ length (pinData s') = 16%nat /\
  0 <= validPins s' <= 16.
Proof.
  intros Hl. cbn zeta. unfold initDirectInput. do 2 rewrite mbind_run. cbn [mmod mread fst snd].
  rewrite mbind_run, onhw_run, mbind_run. cbn [fst snd]. apply init_pins_offsets; [done| |].
  - destruct (negb _); cbn [mwhen]; [by rewrite onhw_run|done].
  - destruct (negb _); cbn [mwhen]; [by rewrite onhw_run|done].
Qed.
End PinTable.

(** ** Finding a pin *)
Section Search.
Context {A : Arch} {W : Type} `{PinOps W} `{Delay W}.
Context (flags : build_flags).
(** Reading a pin or switching it to an input shows the level [level w i] and
    disturbs no other level. *)
Context (level : W -> Z -> bool).
Context (read_level : forall i w, (digitalRead i w).1 = level w i)
  (read_keeps : forall i w, (digitalRead i w).2 = w).
Implicit Types (s : direct_state W) (l : list Z).

(** The pins the search watches that no longer have their recorded level. *)
Definition changed s (i : Z) : bool :=
  negb (shouldSkipPin flags s i) && negb (Bool.eqb (level (hw s) i) (aget false (lastDigitalValue s) i)).
Lemma stop_keeps s :
  let s' := (stopSearching flags s).2 in
  detectedPin s' = detectedPin s /\ lookingForDigital s' = false /\ lookingForAnalog s' = false.
Proof.
  cbn zeta. unfold stopSearching. rewrite mbind_run. cbn [mread fst snd].
  assert (detectedPin (mwhen (lookingForDigital s)
    (mfor (digital_pins (W := W)) (fun i =>
      skip ← mread (fun s => shouldSkipPin flags s i);
      mwhen (negb skip) (onhw (pinMode i INPUT)) ;;
      b ← onhw (digitalRead i);
      mmod (fun s => s <| lastDigitalValue ::= aset i b |>))) s).2 = detectedPin s) as E.
  { destruct (lookingForDigital s); [|done]. cbn [mwhen].
    apply (mfor_invariant (fun s' => detectedPin s' = detectedPin s)); [|done].
    intros i s' _ Hs'. rewrite mbind_run. cbn [mread fst snd].
    destruct (shouldSkipPin flags s' i); cbn [negb mwhen]; rewrite !mbind_run, !onhw_run; exact Hs'. }
  rewrite mbind_run. cbn [mmod snd]. split_and!; [exact E|done|done].
Qed.

(** While a digital search is on, polling reports the first watched pin whose
    level differs from the recorded one and ends the search; when no watched pin
    changed, nothing changes.  Pins of the buses in use are never reported. *)
Theorem search_digital_spec l s :
  (forall i, In i l -> 0 <= i < 256) ->
  let s' := (search_digital flags l s).2 in
  match List.find (changed s) l with
  | Some i => detectedPin s' = i /\ lookingForDigital s' = false /\
                   lookingForAnalog s' = false /\ shouldSkipPin flags s i = false
  | None => s' = s
  end.
Proof.
  intros Hl. cbn zeta. induction l as [|i l IH]; [done|]. cbn [search_digital List.find].
  specialize (IH (fun j Hj => Hl j (or_intror Hj))).
  rewrite mbind_run. cbn [mread fst snd].
  assert (Ec : changed s i = negb (shouldSkipPin flags s i) &&
    negb (Bool.eqb (level (hw s) i) (aget false (lastDigitalValue s) i))) by done.
  rewrite Ec. destruct (shouldSkipPin flags s i) eqn:Es; cbn [negb andb]; [exact IH|].
  rewrite mbind_run, onhw_run. cbn [fst snd]. rewrite mbind_run. cbn [mread fst snd].
  rewrite read_level, read_keeps.
  assert (s <| hw := hw s |> = s) as Er by by destruct s. rewrite Er.
  destruct (Bool.eqb (level (hw s) i) (aget false (lastDigitalValue s) i)); cbn [negb]; [exact IH|].
  rewrite mbind_run. cbn [mmod snd].
  pose proof (stop_keeps s) as (_ & _ & Ha). split_and!; [|done|exact Ha|exact Es].
  cbn. apply (uwrap_small 8). apply Hl. by left.
Qed.
End Search.
(** An Uno whose inputs all read low, searching with every level recorded high. *)
Definition uno_pins : AvrPins.avr_pins unit :=
  AvrPins.mkAvr (replicate 6 zero_analog) 0 0 true (replicate 13 0) (replicate 13 0) 0 0 0 true tt.
#[global] Instance unit_delay : Delay (AvrPins.avr_pins unit) := fun _ => mret tt.
Definition uno_searching : direct_state (AvrPins.avr_pins unit) :=
  let _ := idle_chip in
  (direct_init_state (H := AvrPins.AvrPinOps uno) false false uno_pins)
    <| lookingForDigital := true |> <| lastDigitalValue := replicate 20 true |>.
Lemma search_digital_spec_witness :
  detectedPin (search_digital (H := AvrPins.AvrPinOps (H := idle_chip) uno)
    (mkFlags true false false) (iota 20) uno_searching).2 = 2.
Proof.
  pose (ops := AvrPins.AvrPinOps (H := idle_chip) uno).
  assert (K : forall i w, (digitalRead (PinOps := ops) i w).2 = w).
  { intros i w. cbn. unfold AvrPins.digitalRead. destruct w as [? ? ? ? ? ? ? ? ? ? []].
    destruct (AvrPins.digitalPinToPort uno i =? NOT_A_PIN); reflexivity. }
  assert (L : forall i, In i (iota 20) -> 0 <= i < 256).
  { intros i Hi. apply elem_of_iota in Hi. lia. }
  exact (proj1 (search_digital_spec (H := ops) (mkFlags true false false)
    (fun w i => (digitalRead (PinOps := ops) i w).1) (fun i w => eq_refl) K (iota 20) uno_searching L)).
Defined.

(** A wired controller with only the A button, on pin 2. *)
Definition a_button_config : Configuration_t :=
  default_config <| Cfg.pins ::= fun p => p <| Pins.a := 2 |> |>.
Lemma pin_table_spec_witness :
  offsets (initDirectInput (H := AvrPins.AvrPinOps (H := idle_chip) uno)
    a_button_config uno_searching).2 = [12].
Proof.
  destruct (pin_table_spec (H := AvrPins.AvrPinOps (H := idle_chip) uno)
    a_button_config uno_searching eq_refl) as (E & _).
  rewrite E. reflexivity.
Defined.

(** ** Drum velocities *)
Section Drums.
Context {A : Arch} {W : Type} `{AvrPins.AvrIn W}.
Context (v : variant).
#[local] Instance drum_ops : PinOps (AvrPins.avr_pins W) := AvrPins.AvrPinOps v.
Implicit Types (s : direct_state (AvrPins.avr_pins W)) (w : AvrPins.avr_pins W).

(** The table's pads are recorded under their pin number. *)
Definition pads_by_pin (l : list AnalogInfo_t) : Prop :=
  Forall (fun a => a_hasDigital a = true -> PIN_A0 v <= a_offset a) l.
Definition table w : list AnalogInfo_t := AvrPins.joy w.

Lemma on_chip_table {B} (m : M W B) w : table (AvrPins.on_chip m w).2 = table w.
Proof. unfold AvrPins.on_chip. by destruct (m _). Qed.
Lemma pinMode_table p m w : table (AvrPins.pinMode v p m w).2 = table w.
Proof.
  unfold AvrPins.pinMode. destruct (_ =? _); [done|]. rewrite mbind_run.
  destruct (m =? INPUT); [done|]. by destruct (m =? INPUT_PULLUP).
Qed.
Lemma setUpAnalogPin_pads c g off w :
  pads_by_pin (table w) -> pads_by_pin (table (AvrPins.setUpAnalogPin v c g off w).2).
Proof.
  intros Hw. unfold AvrPins.setUpAnalogPin. destruct (_ =? _); [done|]. destruct (_ && _); [done|].
  rewrite mbind_run. unfold AvrPins.push_analog, mmod, table. cbn -[aset AvrPins.pinMode aget].
  apply aset_Forall; [discriminate|]. pose proof (pinMode_table) as E. unfold table in E.
  by rewrite E.
Qed.
Lemma setUpAnalogDigitalPin_pads b p t w :
  PIN_A0 v <= p -> pads_by_pin (table w) ->
  pads_by_pin (table (AvrPins.setUpAnalogDigitalPin v b p t w).2).
Proof.
  intros Hp Hw. unfold AvrPins.setUpAnalogDigitalPin. rewrite mbind_run, mbind_run.
  cbn [mread fst snd]. rewrite mbind_run. unfold AvrPins.push_analog, mmod, table.
  cbn -[aset AvrPins.pinMode aget]. apply aset_Forall; [done|].
  pose proof pinMode_table as E. unfold table in E. by rewrite E.
Qed.
Lemma strum_debounce_state c i p s : (strum_debounce c i p s).2 = s.
Proof. unfold strum_debounce. by rewrite mbind_run. Qed.
Lemma initDirectPin_pads c i s :
  pads_by_pin (table (hw s)) -> pads_by_pin (table (hw (initDirectPin c i s).2)).
Proof.
  intros Hs. unfold initDirectPin. destruct (Main.inputType (Cfg.main c) =? DIRECT).
  2:{ by rewrite mbind_run. }
  set (p := aget INVALID_PIN _ i). destruct (p =? INVALID_PIN); [done|].
  rewrite mbind_run. cbn [mread fst snd]. rewrite mbind_run. cbn [push_pin mmod snd hw upd setter_of].
  destruct (typeIsDrum s && is_fret i && (p >=? PIN_A0 (board (S := AvrPins.avr_pins W)))) eqn:Ed.
  - rewrite onhw_run. cbn [snd hw]. apply setUpAnalogDigitalPin_pads; [|done].
    apply andb_true_iff in Ed as [_ Ed]. rewrite Z.geb_leb in Ed. by apply Z.leb_le in Ed.
  - rewrite mbind_run, strum_debounce_state, onhw_run. cbn [snd hw upd setter_of].
    match goal with |- pads_by_pin (table (pinMode p ?m _).2) =>
      change (pinMode p m (hw s)) with (AvrPins.pinMode v p m (hw s)) end.
    by rewrite pinMode_table.
Qed.
Lemma tick_axes_pads l c s :
  8 <= PIN_A0 v - 8 -> pads_by_pin (table (hw s)) -> length (drumVelocity s) = 8%nat ->
  drumVelocity (tick_axes l c s).2 = drumVelocity s.
Proof.
  intros Hv Hs Hl. revert c s Hs Hl. induction l as [|i l IH]; intros c s Hs Hl; [done|].
  cbn [tick_axes]. rewrite mbind_run. cbn [mread fst snd].
  set (info := aget zero_analog _ i). destruct (a_hasDigital info) eqn:Ed.
  - assert (PIN_A0 v <= a_offset info) as Ho.
    { revert Ed. apply (aget_Forall (fun a => a_hasDigital a = true -> PIN_A0 v <= a_offset a));
        [discriminate|exact Hs]. }
    rewrite mbind_run. cbn [mmod snd].
    assert (aset (a_offset info - 8) (u8 (a_value info)) (drumVelocity s) = drumVelocity s) as Ea.
    { unfold aset. apply list_insert_ge. rewrite Hl. lia. }
    rewrite IH; [exact Ea|exact Hs|]. cbn [drumVelocity upd setter_of]. by rewrite Ea.
  - rewrite mbind_run. cbn [mread fst snd]. destruct (_ && _ && _); [by apply IH|].
    rewrite mbind_run. unfold store_axis. rewrite mbind_run, mbind_run. cbn [mmod mread mret M_ret fst snd].
    rewrite IH; [done|exact Hs|exact Hl].
Qed.

Lemma setUpValidPins_pads c g w :
  pads_by_pin (table w) -> pads_by_pin (table (AvrPins.setUpValidPins v c g w).2).
Proof.
  intros Hw. unfold AvrPins.setUpValidPins. rewrite mbind_run, mbind_run.
  apply (mfor_invariant (fun w => pads_by_pin (table w))).
  { intros i w' _. apply setUpAnalogPin_pads. }
  unfold AvrPins.stopReading. rewrite mbind_run.
  pose proof (on_chip_table AvrPins.adc_wait w) as E. unfold table, mmod in *.
  cbn [snd AvrPins.joy upd setter_of]. by rewrite E.
Qed.
Lemma initDirectInput_pads c s :
  pads_by_pin (table (hw s)) -> pads_by_pin (table (hw (initDirectInput c s).2)).
Proof.
  intros Hs. unfold initDirectInput. do 2 rewrite mbind_run. cbn [mmod mread fst snd].
  rewrite mbind_run, onhw_run, mbind_run. cbn [fst snd].
  apply (mfor_invariant (fun s => pads_by_pin (table (hw s)))).
  { intros i s' _. apply initDirectPin_pads. }
  match goal with |- context [mwhen ?b ?m ?s0] =>
    assert (forall s1, pads_by_pin (table (hw s1)) -> pads_by_pin (table (hw (mwhen b m s1).2))) as Hm
  end.
  { intros s1 Hs1. destruct (negb _); [|done]. cbn [mwhen]. rewrite onhw_run. cbn [snd hw upd setter_of].
    change (pinMode (Cfg.pinsSP c) OUTPUT (hw s1)) with (AvrPins.pinMode v (Cfg.pinsSP c) OUTPUT (hw s1)).
    by rewrite pinMode_table. }
  apply Hm. exact (setUpValidPins_pads c (typeIsGuitar s) (hw s) Hs).
Qed.
Lemma tickAnalog_pads w :
  pads_by_pin (table w) -> pads_by_pin (table (AvrPins.tickAnalog v w).2).
Proof.
  intros Hw. unfold AvrPins.tickAnalog. rewrite mbind_run. cbn [mread fst snd id].
  destruct (_ =? 0); [done|]. destruct (AvrPins.first w); [exact Hw|].
  rewrite mbind_run. destruct (AvrPins.on_chip AvrPins.adc_busy w) as [busy w1] eqn:E1.
  assert (pads_by_pin (table w1)) as H1.
  { pose proof (on_chip_table AvrPins.adc_busy w) as E. by rewrite E1 in E; cbn in E; rewrite E. }
  cbn [fst snd]. destruct busy; [exact H1|]. rewrite !mbind_run.
  destruct (AvrPins.on_chip AvrPins.adc_result w1) as [r w2] eqn:E2.
  assert (pads_by_pin (table w2)) as H2.
  { pose proof (on_chip_table AvrPins.adc_result w1) as E. by rewrite E2 in E; cbn in E; rewrite E. }
  cbn [fst snd]. unfold AvrPins.start_next, AvrPins.store_result, mmod, table.
  rewrite !mbind_run. cbn -[aset aget AvrPins.scale_adc]. apply aset_Forall; [|exact H2].
  apply (aget_Forall (fun a => a_hasDigital a = true -> PIN_A0 v <= a_offset a)
    zero_analog (AvrPins.joy w2)); [discriminate|exact H2].
Qed.

(** Drum velocities are lost on the Micro and the Mega.  A pad is recorded under
    its pin number, at least 18 or 54 there, while the 8-entry velocity table is
    indexed with that number minus 8 and read back with the button number minus
    8: however the pads are configured, polling (outside a pin search) addresses
    the table out of bounds and never changes an entry. *)
Theorem drum_velocity_lost c s flags ctrl :
  v = micro \/ v = mega -> length (drumVelocity s) = 8%nat -> pads_by_pin (table (hw s)) ->
  lookingForAnalog s = false -> lookingForDigital s = false ->
  pads_by_pin (table (hw (initDirectInput c s).2)) /\
  let s' := (tickDirectInput flags ctrl s).2 in
  drumVelocity s' = drumVelocity s /\
  forall info, In info (table (hw s)) -> a_hasDigital info = true -> 8 <= a_offset info - 8.
Proof.
  intros Hv Hl Hs Ha Hd. assert (16 <= PIN_A0 v) as H16 by (destruct Hv as [-> | ->]; cbn; lia).
  split; [by apply initDirectInput_pads|]. cbn zeta. split.
  - unfold tickDirectInput. rewrite mbind_run. cbn [mread fst snd id]. rewrite Ha, Hd.
    rewrite mbind_run, onhw_run. cbn [snd]. rewrite mbind_run. cbn [mread fst snd].
    etransitivity; [apply tick_axes_pads; [lia| |exact Hl]|done].
    exact (tickAnalog_pads (hw s) Hs).
  - intros info Hin Hi. unfold pads_by_pin in Hs. rewrite Forall_forall in Hs.
    specialize (Hs info (proj2 (list_elem_of_In _ _) Hin) Hi). lia.
Qed.
End Drums.

(** A Micro with one pad on A0. *)
Definition micro_pad : direct_state (AvrPins.avr_pins unit) :=
  let _ := idle_chip in
  direct_init_state (H := AvrPins.AvrPinOps micro) false true
    (AvrPins.mkAvr [pad <| a_offset := 18 |>] 1 0 false (replicate 13 0) (replicate 13 0)
       0 0 0 true tt).
Lemma drum_velocity_lost_witness :
  drumVelocity (tickDirectInput (A := avr) (H := AvrPins.AvrPinOps (H := idle_chip) micro)
    (mkFlags false false false) zero_controller micro_pad).2 = replicate 8 0.
Proof.
  destruct (drum_velocity_lost (A := avr) (H := idle_chip) micro default_config micro_pad
    (mkFlags false false false) zero_controller (or_introl eq_refl) eq_refl
    ltac:(repeat constructor; cbn; lia) eq_refl eq_refl) as (_ & E & _).
  exact E.
Defined.
