(* ===== verification/Guitar.v ===== *)
(** * Guitar tilt and whammy: [shared/input/inputs/guitar.h]

    The MPU-6050 driver (lib/mpu6050) is an interface; what the tilt tick does with
    its readings, the digital tilt switch and the whammy are modelled. *)

From Stdlib Require Import ZArith Lia.
From stdpp Require Import base tactics numbers list.
From S2P Require Import Prelude Packed Defs World Config Controller Fxpt I2c Variants Pins Direct.
Open Scope Z_scope.

Definition GH5NECK_ADDR : Z := 0x0D.
Definition GH5NECK_OK_PTR : Z := 0x11.
Definition GH5NECK_BUTTONS_PTR : Z := 0x12.
Definition GH5NECK_SLIDER_NEW_PTR : Z := 0x15.
Definition FSR : Z := 2000.
Definition INV_WXYZ_QUAT : Z := 0x100.
Definition INV_XYZ_GYRO : Z := 0x70.
Definition INV_XYZ_ACCEL : Z := 0x08.
Definition DMP_FEATURE_6X_LP_QUAT : Z := 0x010.

(** The calls into the MPU-6050 library; [dmp_read_fifo] gives the sensor flags
    and the four 32-bit quaternion components it stored. *)
Class MpuDriver (W : Type) := {
  sei : M W unit;
  mpu_init : M W unit;
  mpu_set_sensors : Z -> M W unit;
  mpu_set_gyro_fsr : Z -> M W unit;
  mpu_set_accel_fsr : Z -> M W unit;
  mpu_configure_fifo : Z -> M W unit;
  dmp_load_motion_driver_firmware : M W unit;
  dmp_set_fifo_rate : Z -> M W unit;
  mpu_set_dmp_state : Z -> M W unit;
  dmp_enable_feature : Z -> M W unit;
  dmp_read_fifo : M W (Z * list Z)
}.
(** The values of the function pointer [tick]. *)
Inductive tilt_tick : Set := tickMPUTilt_p | tickDigitalTilt_p.

Section Guitar.
Context {A : Arch} {W : Type} `{PinOps W} `{Delay W} `{MpuDriver W} `{I2CBus W}.

Record guitar_state : Type := mkGuitar {
  mpuTilt : Z;
  mpuOrientation : Z;
  tiltPin : Z;
  tiltInverted : bool;
  scale : Scale.AxisScale_t;
  tick : option tilt_tick;
  direct : direct_state W
}.
#[global] Instance etaGuitar : Settable guitar_state := fun r =>
  {| mpuTilt := mpuTilt r; mpuOrientation := mpuOrientation r; tiltPin := tiltPin r;
     tiltInverted := tiltInverted r; scale := scale r; tick := tick r; direct := direct r |}.
Definition guitar_init_state (d : direct_state W) : guitar_state :=
  mkGuitar 0 0 0 false zero_scale None d.
Definition ondirect {B} (m : M (direct_state W) B) : M guitar_state B :=
  fun s => let '(a, d) := m (direct s) in (a, s <| direct := d |>).
Definition ondev {B} (m : M W B) : M guitar_state B := ondirect (onhw m).

(** The union [q] is read component by component behind its own writes, so each
    16-bit component comes from the 32-bit one of the same index. *)
Definition quat_of (l : list Z) : s_quat :=
  let g i := i16 (Z.shiftr (aget 0 l i) 23) in mkQuat (g 0) (g 1) (g 2) (g 3).
Definition tickMPUTilt (c : Controller_t) : M guitar_state Controller_t :=
  r ← ondev dmp_read_fifo;
  mwhen (r.1 =? INV_WXYZ_QUAT) (mmod (fun s =>
    let t := quaternionToEuler (quat_of r.2) (mpuTilt s) (mpuOrientation s) in
    s <| mpuTilt := if tiltInverted s then i16 (- t) else t |>)) ;;
  t ← mread mpuTilt;
  ondirect (mmod (fun d => d <| analogueData ::= aset XBOX_TILT t |>)) ;;
  sc ← mread scale;
  mret (c <| r_y := scale_raw sc t |>).
Definition tickDigitalTilt (c : Controller_t) : M guitar_state Controller_t :=
  p ← mread tiltPin;
  b ← ondev (digitalRead p);
  mret (c <| r_y := Z.b2z (negb b) * 32767 |>).
Definition initMPU6050 (rate : Z) : M guitar_state unit :=
  ondev (
    sei ;; mpu_init ;;
    mpu_set_sensors (Z.lor INV_XYZ_GYRO INV_XYZ_ACCEL) ;;
    mpu_set_gyro_fsr FSR ;;
    mpu_set_accel_fsr 2 ;;
    mpu_configure_fifo (Z.lor INV_XYZ_GYRO INV_XYZ_ACCEL) ;;
    dmp_load_motion_driver_firmware ;;
    dmp_set_fifo_rate rate ;;
    mpu_set_dmp_state 1 ;;
    dmp_enable_feature DMP_FEATURE_6X_LP_QUAT).
(** Without a tilt of its own kind [tick] keeps its earlier value. *)
Definition initGuitar (config : Configuration_t) : M guitar_state unit :=
  guitar ← mread (fun s => typeIsGuitar (direct s));
  if negb guitar then mret tt
  else
    let tilt := Main.tiltType (Cfg.main config) in
    let r_y := Pins.r_y (Cfg.pins config) in
    (if tilt =? MPU_6050 then
       mmod (fun s => s <| mpuOrientation := Axis.mpu6050Orientation (Cfg.axis config) |>) ;;
       initMPU6050 30 ;;
       mmod (fun s => s <| tick := Some tickMPUTilt_p |>)
     else if tilt =? DIGITAL then
       mmod (fun s => s <| tiltPin := AnalogPin.pin r_y |>) ;;
       ondev (pinMode (AnalogPin.pin r_y) INPUT_PULLUP) ;;
       mmod (fun s => s <| tick := Some tickDigitalTilt_p |>)
     else mret tt) ;;
    mmod (fun s => s <| scale := AxisScale.r_y (Cfg.axisScale config) |>
                     <| tiltInverted := truth (AnalogPin.inverted r_y) |>).
(** [Guitar_t] sees the right stick's x as the unsigned whammy. *)
Definition clamp_whammy (c : Controller_t) : Controller_t :=
  let whammy := u16 (r_x c) in
  let whammy := if whammy >? 0xFFFF then 0xFFFF else whammy in
  let whammy := if whammy <? 0 then 0 else whammy in
  c <| r_x := i16 (u16 whammy) |>.
Definition tickGuitar (c : Controller_t) : M guitar_state Controller_t :=
  guitar ← mread (fun s => typeIsGuitar (direct s));
  if negb guitar then mret c
  else
    let c := clamp_whammy c in
    t ← mread tick;
    match t with
    | None => mret c
    | Some tickMPUTilt_p => tickMPUTilt c
    | Some tickDigitalTilt_p => tickDigitalTilt c
    end.
(** The readings are not used yet. *)
Definition tickGH5Neck (junk : Z) (c : Controller_t) : M guitar_state Controller_t :=
  r ← ondev (twi_readFromPointer GH5NECK_ADDR GH5NECK_OK_PTR 1 [junk]);
  mwhen (negb (aget 0 r.2 0 =? 0))
    (ondev (twi_readFromPointer GH5NECK_ADDR GH5NECK_BUTTONS_PTR 1 [junk]) ;;
     ondev (twi_readFromPointer GH5NECK_ADDR GH5NECK_SLIDER_NEW_PTR 1 [junk]) ;; mret tt) ;;
  mret c.
End Guitar.
Arguments guitar_state : clear implicits.

(** ** What a guitar tick changes *)
Lemma scale_raw_range s v : int16 (scale_raw s v).
Proof.
  unfold scale_raw, INT16_MIN, INT16_MAX, int16, in_s. generalize (i32 (Z.quot (i32 (i32 (v - Scale.offset s) *
    Scale.multiplier s)) 1024)). intros z. ifs; lia.
Qed.
Lemma clamp_whammy_id c : Controller_wf c -> clamp_whammy c = c.
Proof.
  rewrite Controller_wf_iff. intros (_ & _ & _ & _ & _ & Hr & _). unfold clamp_whammy.
  pose proof (uwrap_range 16 eq_refl (r_x c)) as Hu. unfold in_u in Hu.
  assert ((u16 (r_x c) >? 0xFFFF) = false) as -> by (rewrite Z.gtb_ltb; apply Z.ltb_ge; lia).
  assert ((u16 (r_x c) <? 0) = false) as -> by (apply Z.ltb_ge; lia).
  rewrite uwrap_idem, swrap_uwrap_small by done. by destruct c.
Qed.

Section Spec.
Context {W : Type} `{PinOps W} `{Delay W} `{MpuDriver W}.
Implicit Types (s : guitar_state W) (c : Controller_t).

Lemma tilt_only c s t : Controller_wf c -> typeIsGuitar (direct s) = true -> tick s = Some t ->
  exists y, int16 y /\ (tickGuitar c s).1 = c <| r_y := y |> /\
  (t = tickDigitalTilt_p ->
   y = if (digitalRead (tiltPin s) (hw (direct s))).1 then 0 else 32767).
Proof.
  intros Hc Hg Ht. unfold tickGuitar. rewrite mbind_run. cbn [mread fst snd]. rewrite Hg. cbn [negb].
  rewrite clamp_whammy_id by done. rewrite mbind_run. cbn [mread fst snd]. rewrite Ht. destruct t.
  - unfold tickMPUTilt. rewrite !mbind_run. cbn [mread mret M_ret fst snd].
    eexists. split; [apply scale_raw_range|]. by split.
  - unfold tickDigitalTilt. rewrite !mbind_run. cbn [mread mret M_ret fst snd].
    unfold ondev, ondirect, onhw.
    destruct (digitalRead (tiltPin s) (hw (direct s))) as [b w]. cbn [fst snd].
    exists (Z.b2z (negb b) * 32767). split; [by destruct b; split|]. split; [done|]. by destruct b.
Qed.

(** A guitar tick touches nothing but the tilt axis.  On other devices, or
    without a tilt sensor, the controller is unchanged; otherwise only [r_y]
    changes (the whammy clamp never does anything) and stays a 16-bit value; with
    a tilt switch it is 32767 exactly when the switch's pin is low. *)
Theorem tickGuitar_spec c s :
  Controller_wf c ->
  let c' := (tickGuitar c s).1 in
  Controller_wf c' /\ c' <| r_y := r_y c |> = c /\
  (typeIsGuitar (direct s) = false \/ tick s = None -> c' = c) /\
  (typeIsGuitar (direct s) = true -> tick s = Some tickDigitalTilt_p ->
   r_y c' = if (digitalRead (tiltPin s) (hw (direct s))).1 then 0 else 32767).
Proof.
  intros Hc. cbn zeta.
  assert (typeIsGuitar (direct s) = false \/ tick s = None -> (tickGuitar c s).1 = c) as Hn.
  { unfold tickGuitar. rewrite mbind_run. cbn [mread fst snd]. destruct (typeIsGuitar (direct s)); [|done].
    cbn [negb]. rewrite clamp_whammy_id, mbind_run by done. cbn [mread fst snd].
    intros [?| ->]; done. }
  destruct (typeIsGuitar (direct s)) eqn:Eg.
  2:{ rewrite Hn by auto. split_and!; try done. by destruct c. }
  destruct (tick s) as [t|] eqn:Et.
  2:{ rewrite Hn by auto. split_and!; try done. by destruct c. }
  destruct (tilt_only c s t Hc Eg Et) as (y & Hy & -> & Hd). split_and!.
  - rewrite Controller_wf_iff in *. cbn. tauto.
  - by destruct c.
  - intros [?|?]; discriminate.
  - intros _ E. injection E as ->. by rewrite <- Hd.
Qed.
End Spec.
(** A motion sensor that never has a reading. *)
Definition idle_mpu {W} : MpuDriver W :=
  {| sei := mret tt; mpu_init := mret tt; mpu_set_sensors _ := mret tt;
     mpu_set_gyro_fsr _ := mret tt; mpu_set_accel_fsr _ := mret tt;
     mpu_configure_fifo _ := mret tt; dmp_load_motion_driver_firmware := mret tt;
     dmp_set_fifo_rate _ := mret tt; mpu_set_dmp_state _ := mret tt;
     dmp_enable_feature _ := mret tt; dmp_read_fifo := mret (0, [0; 0; 0; 0]) |}.
(** An Uno guitar with a tilt switch on pin 9, whose inputs all read low. *)
Definition tilt_guitar : guitar_state (AvrPins.avr_pins unit) :=
  (guitar_init_state (uno_searching <| typeIsGuitar := true |>))
    <| tick := Some tickDigitalTilt_p |> <| tiltPin := 9 |>.
Lemma tickGuitar_spec_witness :
  r_y (tickGuitar (H := AvrPins.AvrPinOps (H := idle_chip) uno) (H1 := idle_mpu)
         zero_controller tilt_guitar).1 = 32767.
Proof.
  assert (Controller_wf zero_controller) as Hc.
  { apply Controller_wf_iff. split_and!; (split; [discriminate|reflexivity]). }
  destruct (tickGuitar_spec (H := AvrPins.AvrPinOps (H := idle_chip) uno) (H1 := idle_mpu)
    zero_controller tilt_guitar Hc) as (_ & _ & _ & E).
  rewrite (E eq_refl eq_refl). reflexivity.
Defined.
