(* ===== verification/InputHandler.v ===== *)
(** * The input handler: [shared/input/input_handler.c]

    Selects the input drivers from the configuration and turns their readings
    into the controller: debounced buttons, the joystick-to-D-pad and
    start+select-to-home mappings, the guitar tick. *)

From Stdlib Require Import ZArith Lia.
From stdpp Require Import base tactics numbers list.
From S2P Require Import Prelude Packed Defs World Config Controller Fxpt I2c Wii Variants Pins.
From S2P Require Import Ps2 Direct Guitar.
Open Scope Z_scope.

(** LUFA's MIDIClassCommon.h. *)
Definition MIDI_STANDARD_VELOCITY : Z := 64.

(** The values of [tick_function] and [read_button_function]; the latter is
    uninitialised until [initInputs] has seen a known input type. *)
Inductive tick_fn : Set := tickWiiExtInput_p | tickPS2CtrlInput_p.
Inductive button_fn : Set := readWiiButton_p | digitalReadPin_p | readPS2Button_p.

Section InputHandler.
Context {A : Arch} {W : Type} `{PinOps W} `{SPIBus W} `{Delay W} `{Clock W} `{I2CBus W}
  `{MpuDriver W}.
(** [twi_init]; the CPU clock; uninitialised stack bytes; the fuel of the two
    handshakes. *)
Context (twi_init : M W unit) (F_CPU : Z) (flags : build_flags) (junk : nat -> list Z)
  (fuel : nat).

Record input_state : Type := mkInput {
  tick_function : option tick_fn;
  read_button_function : option button_fn;
  joyThreshold : Z;
  triggerThreshold : Z;
  mapJoyLeftDpad : bool;
  mapStartSelectHome : bool;
  mergedStrum : bool;
  wii : wii_state W;
  ps2 : ps2_state W;
  guitar : guitar_state W
}.
#[global] Instance etaInput : Settable input_state := fun r =>
  {| tick_function := tick_function r; read_button_function := read_button_function r;
     joyThreshold := joyThreshold r; triggerThreshold := triggerThreshold r;
     mapJoyLeftDpad := mapJoyLeftDpad r; mapStartSelectHome := mapStartSelectHome r;
     mergedStrum := mergedStrum r; wii := wii r; ps2 := ps2 r; guitar := guitar r |}.

(** The globals at reset. *)
Definition input_init_state (guitar drum : bool) (w : W) : input_state :=
  mkInput None None 0 0 false false false (wii_init_state w) (ps2_init_state w)
    (guitar_init_state (direct_init_state guitar drum w)).
(** There is one world, kept in the pin driver's place; the Wii and PS2 drivers
    get it, and the Wii driver the shared drum velocities, when they run. *)
Definition core (s : input_state) : direct_state W := Guitar.direct (guitar s).
Definition world (s : input_state) : W := hw (core s).
Definition set_core (d : direct_state W) (s : input_state) : input_state :=
  s <| guitar ::= fun g => g <| Guitar.direct := d |> |>.
Definition on_core {B} (m : M (direct_state W) B) : M input_state B :=
  fun s => let '(a, d) := m (core s) in (a, set_core d s).
Definition on_world {B} (m : M W B) : M input_state B := on_core (onhw m).
Definition on_guitar {B} (m : M (guitar_state W) B) : M input_state B :=
  fun s => let '(a, g) := m (guitar s) in (a, s <| guitar := g |>).
Definition on_wii {B} (m : M (wii_state W) B) : M input_state B :=
  fun s =>
    let '(a, w) := m ((wii s) <| bus := world s |> <| Wii.drumVelocity := drumVelocity (core s) |>) in
    (a, set_core ((core s) <| hw := bus w |> <| drumVelocity := Wii.drumVelocity w |>)
          (s <| wii := w |>)).
Definition on_ps2 {B} (m : M (ps2_state W) B) : M input_state B :=
  fun s =>
    let '(a, p) := m ((ps2 s) <| Ps2.dev := world s |>) in
    (a, set_core ((core s) <| hw := Ps2.dev p |>) (s <| ps2 := p |>)).

Definition initInputs (config : Configuration_t) : M input_state unit :=
  let main := Cfg.main config in
  mmod (fun s => s <| mapJoyLeftDpad := truth (Main.mapLeftJoystickToDPad main) |>
    <| mapStartSelectHome := truth (Main.mapStartSelectToHome main) |>
    <| mergedStrum := typeIsGuitar (core s) &&
         truth (Debounce.combinedStrum (Cfg.debounce config)) |>) ;;
  on_world setupADC ;;
  (if Main.inputType main =? WII then
     on_wii (initWiiExtensions config) ;;
     mmod (fun s => s <| tick_function := Some tickWiiExtInput_p |>
                      <| read_button_function := Some readWiiButton_p |>)
   else if Main.inputType main =? DIRECT then
     mmod (fun s => s <| read_button_function := Some digitalReadPin_p |>)
   else if Main.inputType main =? PS2 then
     on_ps2 (initPS2CtrlInput config) ;;
     mmod (fun s => s <| read_button_function := Some readPS2Button_p |>
                      <| tick_function := Some tickPS2CtrlInput_p |>)
   else mret tt) ;;
  mwhen (negb (Main.inputType main =? PS2) && (Main.fretLEDMode main =? APA102))
    (on_world (spi_begin (F_CPU / 2) true true false)) ;;
  mwhen ((Main.inputType main =? WII) || (Main.tiltType main =? MPU_6050)) (on_world twi_init) ;;
  on_core (initDirectInput config) ;;
  on_guitar (initGuitar config) ;;
  mmod (fun s => s
    <| joyThreshold := cint (Z.shiftl (Axis.joyThreshold (Cfg.axis config)) 8) |>
    <| triggerThreshold := Axis.triggerThreshold (Cfg.axis config) |>).

(** ** One poll *)
Definition call_tick (f : tick_fn) (c : Controller_t) : M input_state (option Controller_t) :=
  match f with
  | tickWiiExtInput_p => on_wii (tickWiiExtInput junk fuel c)
  | tickPS2CtrlInput_p =>
      g ← mread (fun s => typeIsGuitar (core s)); on_ps2 (tickPS2CtrlInput g fuel c)
  end.
Definition call_read_button (pin : Pin_t) : M input_state bool :=
  f ← mread read_button_function;
  match f with
  | Some readWiiButton_p => on_wii (readWiiButton (p_offset pin))
  | Some digitalReadPin_p => on_world (digitalReadPin pin)
  | Some readPS2Button_p => on_ps2 (readPS2Button (p_offset pin))
  | None => mret false
  end.
(** [val != (bit_check(buttons, offset))]: a [bool] against the masked word. *)
Definition differs (val : bool) (buttons offset : Z) : bool :=
  negb (Z.b2z val =? Z.land buttons (BV offset)).
Definition set_lastMillis (i now : Z) : M input_state unit :=
  on_core (mmod (fun d => d <| pinData ::= fun l =>
    aset i ((aget zero_pin l i) <| p_lastMillis := now |>) l |>)).
(** The entry whose debounce timer pin [i] uses. *)
Definition timer_index (merged : bool) (i : Z) : Z :=
  if merged && (i =? XBOX_DPAD_UP) then XBOX_DPAD_DOWN else i.
Definition tick_pin (c : Controller_t) (i : Z) : M input_state Controller_t :=
  s ← mread id;
  let pin := aget zero_pin (pinData (core s)) i in
  let i2 := timer_index (mergedStrum s) i in
  let pin2 := aget zero_pin (pinData (core s)) i2 in
  now ← on_world millis;
  if u32 (now - p_lastMillis pin2) >? p_milliDeBounce pin2 then
    val ← call_read_button pin;
    if differs val (buttons c) (p_offset pin) then
      now ← on_world millis;
      set_lastMillis i2 now ;;
      mret (c <| buttons := u16 (bit_write val (buttons c) (p_offset pin)) |>)
    else mret c
  else mret c.
Fixpoint tick_pins (l : list Z) (c : Controller_t) : M input_state Controller_t :=
  match l with
  | [] => mret c
  | i :: l => c ← tick_pin c i; tick_pins l c
  end.
(** The macro [CHECK_JOY]. *)
Definition check_joy (thr joy neg pos : Z) (c : Controller_t) : Controller_t :=
  let c := if joy <? cint (- thr) then c <| buttons ::= fun b => u16 (bit_set b neg) |> else c in
  if joy >? thr then c <| buttons ::= fun b => u16 (bit_set b pos) |> else c.
Definition map_joy (thr : Z) (c : Controller_t) : Controller_t :=
  let c := check_joy thr (l_x c) XBOX_DPAD_LEFT XBOX_DPAD_RIGHT c in
  check_joy thr (l_y c) XBOX_DPAD_DOWN XBOX_DPAD_UP c.
Definition map_home (c : Controller_t) : Controller_t :=
  if bit_check (buttons c) XBOX_START && bit_check (buttons c) XBOX_BACK then
    c <| buttons ::= fun b =>
      u16 (bit_set (u16 (bit_clear (u16 (bit_clear b XBOX_START)) XBOX_BACK)) XBOX_HOME) |>
  else c.
Definition tickInputs (c : Controller_t) : M input_state (option Controller_t) :=
  f ← mread tick_function;
  c ←? (match f with Some f => call_tick f c | None => oret c end);
  c ← on_core (tickDirectInput flags c);
  n ← mread (fun s => validPins (core s));
  c ← tick_pins (iota (Z.to_nat n)) c;
  s ← mread id;
  let c := if mapJoyLeftDpad s then map_joy (joyThreshold s) c else c in
  let c := if mapStartSelectHome s then map_home c else c in
  c ← on_guitar (tickGuitar c);
  oret c.

(** ** Velocities *)
(** [triggers] and [sticks] past their ends read the neighbouring bytes of the
    object; only index 2 of [triggers] is reached. *)
Definition trigger_byte (c : Controller_t) (i : Z) : Z :=
  aget 0 (cenc Controller_codec c) (2 + i).
Definition getVelocity (s : input_state) (c : Controller_t) (offset : Z) : Z :=
  if offset <? XBOX_BTN_COUNT then
    if typeIsDrum (core s) && (offset >? 8) && (offset <? 16) then
      aget 0 (drumVelocity (core s)) (offset - 8)
    else if bit_check (buttons c) offset then MIDI_STANDARD_VELOCITY else 0
  else if offset >? XBOX_BTN_COUNT + 2 then
    Z.b2z (u16 (aget 0 (sticks c) (offset - XBOX_BTN_COUNT - 2)) >? triggerThreshold s)
  else Z.b2z (trigger_byte c (offset - XBOX_BTN_COUNT) >? triggerThreshold s).
End InputHandler.
Arguments input_state : clear implicits.

(** ** Button arithmetic *)
(** ** Mappings *)
Definition pressed (c : Controller_t) (k : Z) : bool := Z.testbit (buttons c) k.
Lemma check_joy_pressed {A : Arch} thr joy neg pos c k :
  0 <= neg < 16 -> 0 <= pos < 16 -> 0 <= k < 16 ->
  pressed (check_joy thr joy neg pos c) k =
    pressed c k || ((k =? neg) && (joy <? cint (- thr))) || ((k =? pos) && (joy >? thr)).
Proof.
  intros. unfold check_joy, pressed.
  destruct (joy <? cint (- thr)), (joy >? thr); cbn [buttons upd setter_of];
    rewrite ?testbit_set by done; rewrite ?andb_true_r, ?andb_false_r, ?orb_false_r; done.
Qed.
Lemma check_joy_l_y {A : Arch} thr joy neg pos c : l_y (check_joy thr joy neg pos c) = l_y c.
Proof. unfold check_joy. by destruct (joy <? cint (- thr)), (joy >? thr). Qed.

(** The stored threshold byte [t] as the code keeps it. *)
Definition joy_threshold {A : Arch} (t : Z) : Z := cint (Z.shiftl t 8).
Lemma joy_threshold_small {A : Arch} t : 0 <= t < 128 ->
  joy_threshold t = 256 * t /\ cint (- joy_threshold t) = - (256 * t).
Proof.
  intros Ht. unfold joy_threshold, cint. rewrite Z.shiftl_mul_pow2 by lia. change (2 ^ 8) with 256.
  destruct int_w_cases as [-> | ->]; rewrite !swrap_small; try lia; unfold in_s; try lia;
    rewrite ?swrap_small; unfold in_s; lia.
Qed.

(** The joystick-to-D-pad mapping.  For thresholds below 128 both targets press
    exactly the directions the stick points in by more than 256 times the
    threshold, and release nothing.  From 128 up they differ: the RP2040 never
    presses any, while on the AVR the threshold wraps to a negative number and a
    centred stick presses all four directions (129 and more). *)
Theorem map_joy_spec t c k :
  0 <= k < 16 -> Controller_wf c ->
  (forall A : Arch, 0 <= t < 128 ->
    pressed (map_joy (joy_threshold t) c) k =
      pressed c k || ((k =? XBOX_DPAD_LEFT) && (l_x c <? - (256 * t)))
                  || ((k =? XBOX_DPAD_RIGHT) && (l_x c >? 256 * t))
                  || ((k =? XBOX_DPAD_DOWN) && (l_y c <? - (256 * t)))
                  || ((k =? XBOX_DPAD_UP) && (l_y c >? 256 * t))) /\
  (128 <= t < 256 -> pressed (map_joy (A := pico) (joy_threshold (A := pico) t) c) k = pressed c k) /\
  (129 <= t < 256 -> l_x c = 0 -> l_y c = 0 ->
    pressed (map_joy (A := avr) (joy_threshold (A := avr) t) c) k = pressed c k || (k <? 4)).
Proof.
  intros Hk Hc. apply Controller_wf_iff in Hc as (_ & _ & _ & Hx & Hy & _). unfold in_s in *.
  assert (forall (A : Arch) thr, pressed (map_joy thr c) k =
    pressed c k || ((k =? XBOX_DPAD_LEFT) && (l_x c <? cint (- thr)))
      || ((k =? XBOX_DPAD_RIGHT) && (l_x c >? thr))
      || ((k =? XBOX_DPAD_DOWN) && (l_y c <? cint (- thr)))
      || ((k =? XBOX_DPAD_UP) && (l_y c >? thr))) as E.
  { intros A thr. unfold map_joy. by rewrite !check_joy_pressed, check_joy_l_y by (cbn; lia). }
  split_and!.
  - intros A Ht. destruct (joy_threshold_small t Ht) as [E1 E2]. by rewrite E, E2, E1.
  - intros Ht. rewrite E. unfold joy_threshold, cint. rewrite Z.shiftl_mul_pow2 by lia.
    change (2 ^ 8) with 256. cbn [int_w pico].
    rewrite (swrap_small 32 eq_refl (t * 256)) by (unfold in_s; lia).
    rewrite (swrap_small 32 eq_refl (- _)) by (unfold in_s; lia). rewrite !Z.gtb_ltb.
    rewrite !(proj2 (Z.ltb_ge _ _)) by lia. by rewrite !andb_false_r, !orb_false_r.
  - intros Ht Ex Ey. rewrite E, Ex, Ey. unfold joy_threshold, cint. rewrite Z.shiftl_mul_pow2 by lia.
    change (2 ^ 8) with 256. cbn [int_w avr].
    assert (swrap 16 (t * 256) = t * 256 - 65536) as -> by (unfold swrap; zdiv).
    rewrite (swrap_small 16 eq_refl (- _)) by (unfold in_s; lia). rewrite !Z.gtb_ltb.
    rewrite !(proj2 (Z.ltb_lt _ _)) by lia. rewrite !andb_true_r. cbn [ControllerButtons_val].
    zcases k 0 16; cbn; by rewrite ?orb_true_r, ?orb_false_r.
Qed.
Lemma map_joy_spec_witness :
  pressed (map_joy (A := avr) (joy_threshold (A := avr) 200) zero_controller) XBOX_DPAD_LEFT = true.
Proof.
  assert (Controller_wf zero_controller) as Hc.
  { apply Controller_wf_iff. split_and!; (split; [discriminate|reflexivity]). }
  destruct (map_joy_spec 200 zero_controller XBOX_DPAD_LEFT ltac:(cbn; lia) Hc) as (_ & _ & E).
  rewrite (E ltac:(lia) eq_refl eq_refl). reflexivity.
Defined.
Lemma map_home_pressed c k : 0 <= k < 16 ->
  pressed (map_home c) k =
    if pressed c XBOX_START && pressed c XBOX_BACK
    then (pressed c k && negb ((k =? XBOX_START) || (k =? XBOX_BACK))) || (k =? XBOX_HOME)
    else pressed c k.
Proof.
  intros. unfold map_home, pressed. rewrite !bit_check_testbit by (cbn; lia).
  destruct (_ && _); [|done]. cbn [buttons upd setter_of].
  rewrite testbit_set, !testbit_clear by (cbn; lia). f_equal. rewrite <- andb_assoc. f_equal.
  by rewrite negb_orb.
Qed.

(** ** Frames of a poll *)
Section Frames.
Context {A : Arch} {W : Type} `{PinOps W} `{SPIBus W} `{Delay W} `{Clock W} `{I2CBus W}
  `{MpuDriver W}.
Context (flags : build_flags) (junk : nat -> list Z) (fuel : nat).
Implicit Types (s : input_state W) (d : direct_state W) (c : Controller_t).

(** The table in use; the buttons its entries stand for, and its length. *)
Definition pin_table d : Z * list Pin_t := (validPins d, pinData d).
Definition table_view d : Z * list (Z * Z) :=
  (validPins d, (fun p => (p_offset p, p_milliDeBounce p)) <$> pinData d).
Lemma keeps_onhw {B} (m : M W B) : keeps pin_table (onhw m).
Proof. intros d. by rewrite onhw_run. Qed.
Lemma stopSearching_keeps : keeps pin_table (stopSearching (W := W) flags).
Proof. unfold stopSearching. frame ltac:(apply keeps_onhw). Qed.
Lemma search_analog_keeps l : keeps pin_table (search_analog (W := W) l).
Proof. induction l; cbn [search_analog]; frame ltac:(apply keeps_onhw || apply IHl). Qed.
Lemma search_digital_keeps l : keeps pin_table (search_digital (W := W) flags l).
Proof.
  induction l; cbn [search_digital];
    frame ltac:(apply keeps_onhw || apply IHl || apply stopSearching_keeps).
Qed.
Lemma tick_axes_keeps l c : keeps pin_table (tick_axes (W := W) l c).
Proof. revert c. induction l; intros c; cbn [tick_axes store_axis]; frame ltac:(apply IHl || unfold store_axis). Qed.
Lemma tickDirectInput_table c : keeps pin_table (tickDirectInput (W := W) flags c).
Proof.
  unfold tickDirectInput. frame ltac:(apply keeps_onhw || apply search_analog_keeps ||
    apply search_digital_keeps || apply tick_axes_keeps).
Qed.
Lemma keeps_view {B} (m : M (direct_state W) B) : keeps pin_table m -> keeps table_view m.
Proof. intros Hm d. specialize (Hm d). unfold pin_table in Hm. unfold table_view. congruence. Qed.
Lemma tickDirectInput_keeps c : keeps table_view (tickDirectInput (W := W) flags c).
Proof. apply keeps_view, tickDirectInput_table. Qed.
Lemma set_stick_buttons i v c : buttons (set_stick i v c) = buttons c.
Proof. unfold set_stick. by destruct (i =? 0), (i =? 1), (i =? 2), (i =? 3). Qed.
Lemma set_trigger_buttons i v c : buttons (set_trigger i v c) = buttons c.
Proof. unfold set_trigger. by destruct (i =? 0), (i =? 1). Qed.
Lemma tick_axes_buttons l c d : buttons (tick_axes (W := W) l c d).1 = buttons c.
Proof.
  revert c d. induction l as [|i l IH]; intros c d; [done|]. cbn [tick_axes].
  rewrite mbind_run. cbn [mread fst snd]. destruct (a_hasDigital _).
  - rewrite mbind_run. apply IH.
  - rewrite mbind_run. cbn [mread fst snd]. destruct (_ && _ && _); [apply IH|].
    rewrite mbind_run, IH. unfold store_axis. rewrite !mbind_run. cbn [mread mret M_ret fst snd].
    destruct (_ >=? 2); [apply set_stick_buttons|apply set_trigger_buttons].
Qed.
Lemma tickDirectInput_buttons c d : buttons (tickDirectInput (W := W) flags c d).1 = buttons c.
Proof.
  unfold tickDirectInput. rewrite mbind_run. cbn [mread fst snd].
  destruct (lookingForAnalog _); [by rewrite mbind_run|].
  destruct (lookingForDigital _); [by rewrite mbind_run|].
  rewrite !mbind_run. apply tick_axes_buttons.
Qed.

(** *** Through the handler *)
Definition view s : Z * list (Z * Z) := table_view (core s).
Lemma keeps_on_core {B} (m : M (direct_state W) B) : keeps table_view m -> keeps view (on_core m).
Proof.
  intros Hm s. unfold view, on_core. specialize (Hm (core s)). destruct (m (core s)). exact Hm.
Qed.
Lemma keeps_on_world {B} (m : M W B) : keeps view (on_world m).
Proof. apply keeps_on_core, keeps_view, keeps_onhw. Qed.
Lemma keeps_on_wii {B} (m : M (wii_state W) B) : keeps view (on_wii m).
Proof. intros s. unfold on_wii. by destruct (m _). Qed.
Lemma keeps_on_ps2 {B} (m : M (ps2_state W) B) : keeps view (on_ps2 m).
Proof. intros s. unfold on_ps2. by destruct (m _). Qed.
Lemma set_lastMillis_keeps i now : keeps view (set_lastMillis (W := W) i now).
Proof.
  apply keeps_on_core, keeps_mod. intros d. unfold table_view. cbn [validPins pinData upd setter_of].
  f_equal. unfold aset, aget. rewrite list_fmap_insert.
  destruct (pinData d !! Z.to_nat i) as [p|] eqn:E.
  - apply list_insert_id. rewrite list_lookup_fmap, E. by rewrite (nth_lookup_Some _ _ _ _ E).
  - apply list_insert_ge. rewrite length_fmap. by apply lookup_ge_None_1.
Qed.
Lemma call_read_button_keeps pin : keeps view (call_read_button (W := W) pin).
Proof.
  unfold call_read_button. apply keeps_bind; [apply keeps_read|]. intros [[]|].
  - apply keeps_on_wii.
  - apply keeps_on_world.
  - apply keeps_on_ps2.
  - apply keeps_ret.
Qed.
Lemma tick_pin_keeps c i : keeps view (tick_pin (W := W) c i).
Proof.
  unfold tick_pin. frame ltac:(apply keeps_on_world || apply call_read_button_keeps ||
    apply set_lastMillis_keeps).
Qed.

(** A pin's poll writes its own button, or nothing. *)
Lemma tick_pin_writes c i s :
  (tick_pin c i s).1 = c \/
  exists val, (tick_pin c i s).1 =
    c <| buttons := u16 (bit_write val (buttons c) (p_offset (aget zero_pin (pinData (core s)) i))) |>.
Proof.
  unfold tick_pin. rewrite mbind_run. cbn [mread fst snd id]. rewrite mbind_run.
  destruct (_ >? _); [|by left]. rewrite mbind_run. destruct (differs _ _ _); [|by left].
  rewrite !mbind_run. right. by eexists.
Qed.
Lemma tick_pin_others c i s k :
  0 <= k < 16 -> let off := p_offset (aget zero_pin (pinData (core s)) i) in
  0 <= off < 16 -> k <> off -> pressed (tick_pin c i s).1 k = pressed c k.
Proof.
  intros Hk off Hoff Hne. destruct (tick_pin_writes c i s) as [->|[val ->]]; [done|].
  unfold pressed. cbn [buttons upd setter_of]. fold off. rewrite testbit_write by assumption.
  by destruct (Z.eqb_spec k off).
Qed.
Lemma view_offset s s' i : view s = view s' ->
  p_offset (aget zero_pin (pinData (core s)) i) = p_offset (aget zero_pin (pinData (core s')) i).
Proof.
  unfold view, table_view, aget. intros [= _ E].
  set (g := fun p => (p_offset p, p_milliDeBounce p)) in E.
  assert (forall l : list Pin_t, p_offset (nth (Z.to_nat i) l zero_pin) =
    (nth (Z.to_nat i) (g <$> l) (g zero_pin)).1) as G.
  { intros l. change (g <$> l) with (List.map g l). by rewrite (map_nth g). }
  by rewrite !G, E.
Qed.
Lemma tick_pins_others l c s k :
  0 <= k < 16 ->
  (forall i, In i l -> let off := p_offset (aget zero_pin (pinData (core s)) i) in
     0 <= off < 16 /\ off <> k) ->
  pressed (tick_pins l c s).1 k = pressed c k.
Proof.
  intros Hk. revert c s. induction l as [|i l IH]; intros c s Hl; [done|].
  cbn [tick_pins]. rewrite mbind_run, IH.
  - destruct (Hl i (or_introl eq_refl)). by apply tick_pin_others.
  - intros j Hj. cbn zeta. rewrite (view_offset _ s) by apply tick_pin_keeps.
    apply Hl. by right.
Qed.
Lemma map_joy_keeps_pressed thr c k : 0 <= k < 16 -> pressed c k = true ->
  pressed (map_joy thr c) k = true.
Proof.
  intros Hk Hp. unfold map_joy. rewrite !check_joy_pressed by (cbn; lia). by rewrite Hp.
Qed.
Lemma map_home_keeps_pressed c k : 0 <= k < 16 -> k <> XBOX_START -> k <> XBOX_BACK ->
  pressed c k = true -> pressed (map_home c) k = true.
Proof.
  intros Hk Hst Hbk Hp. rewrite map_home_pressed by done. destruct (_ && _); [|done].
  rewrite Hp. apply Z.eqb_neq in Hst, Hbk. by rewrite Hst, Hbk.
Qed.
Lemma clamp_whammy_buttons c : buttons (clamp_whammy c) = buttons c.
Proof. done. Qed.
Lemma tickGuitar_buttons c (g : guitar_state W) : buttons (tickGuitar c g).1 = buttons c.
Proof.
  unfold tickGuitar. rewrite mbind_run. destruct (negb _); [done|]. rewrite mbind_run.
  destruct (mread tick _).1 as [[]|]; [| |done].
  - unfold tickMPUTilt. by rewrite !mbind_run.
  - unfold tickDigitalTilt. by rewrite !mbind_run.
Qed.

(** The two mappings, as [tickInputs] applies them; a wired controller's poll. *)
Definition mapped s c : Controller_t :=
  let c := if mapJoyLeftDpad s then map_joy (joyThreshold s) c else c in
  if mapStartSelectHome s then map_home c else c.
Lemma tickInputs_wired c s :
  tick_function s = None ->
  let d := tickDirectInput flags c (core s) in
  let r := tick_pins (iota (Z.to_nat (validPins (core s)))) d.1 (set_core d.2 s) in
  exists c', (tickInputs flags junk fuel c s).1 = Some c' /\ buttons c' = buttons (mapped r.2 r.1).
Proof.
  intros Ht. unfold tickInputs. rewrite mbind_run. cbn [mread fst snd].
  rewrite Ht. rewrite (obind_some _ _ _ c) by done. cbn [oret mret M_ret snd].
  rewrite mbind_run. unfold on_core at 1 2.
  pose proof (tickDirectInput_keeps c (core s)) as V.
  destruct (tickDirectInput flags c (core s)) as [c1 d1]. cbn [fst snd] in *.
  rewrite mbind_run. cbn [mread fst snd]. rewrite mbind_run.
  assert (validPins (core (set_core d1 s)) = validPins (core s)) as -> by by injection V.
  destruct (tick_pins _ c1 (set_core d1 s)) as [c2 s2]. cbn [fst snd].
  rewrite mbind_run. cbn [mread fst snd id]. rewrite mbind_run.
  eexists. split; [done|]. unfold on_guitar. change (if mapStartSelectHome s2 then _ else _) with (mapped s2 c2).
  pose proof (tickGuitar_buttons (mapped s2 c2) (guitar s2)) as BG.
  by destruct (tickGuitar (mapped s2 c2) (guitar s2)).
Qed.

(** Buttons that no pin stands for are never released.  On a wired controller,
    once such a button (other than start and back) is pressed, as the D-pad
    directions and home are by the joystick and start+select mappings, every
    later poll returns it pressed, wherever the stick is. *)
Theorem unbound_button_sticks c s k :
  tick_function s = None -> 0 <= k < 16 -> k <> XBOX_START -> k <> XBOX_BACK ->
  (forall i, 0 <= i < validPins (core s) ->
     let off := p_offset (aget zero_pin (pinData (core s)) i) in 0 <= off < 16 /\ off <> k) ->
  pressed c k = true ->
  exists c', (tickInputs flags junk fuel c s).1 = Some c' /\ pressed c' k = true.
Proof.
  intros Ht Hk Hst Hbk Hpins Hp. destruct (tickInputs_wired c s Ht) as (c' & E & B).
  exists c'. split; [exact E|]. unfold pressed at 1. rewrite B. clear E B.
  pose proof (tickDirectInput_keeps c (core s)) as V. pose proof (tickDirectInput_buttons c (core s)) as B1.
  destruct (tickDirectInput flags c (core s)) as [c1 d1]. cbn [fst snd] in *.
  pose proof (tick_pins_others (iota (Z.to_nat (validPins (core s)))) c1 (set_core d1 s) k Hk) as P.
  destruct (tick_pins _ c1 (set_core d1 s)) as [c2 s2]. cbn [fst snd] in *.
  assert (pressed c2 k = true) as P2.
  { rewrite P; [unfold pressed; by rewrite B1|]. intros i Hi. cbn zeta.
    rewrite (view_offset (set_core d1 s) s i V). apply Hpins. apply elem_of_iota in Hi. lia. }
  fold (pressed (mapped s2 c2) k). unfold mapped.
  destruct (mapJoyLeftDpad s2), (mapStartSelectHome s2);
    auto using map_joy_keeps_pressed, map_home_keeps_pressed.
Qed.

(** *** Debouncing *)
Lemma differs_spec val b off : 0 <= off < 16 ->
  differs val b off = xorb val (Z.testbit b off) || (val && (0 <? off)).
Proof.
  intros Hoff. unfold differs. rewrite land_BV by lia.
  assert (BV off = 2 ^ off) as E by apply Z.shiftl_1_l.
  pose proof (Z.pow_pos_nonneg 2 off ltac:(lia) ltac:(lia)).
  destruct (Z.testbit b off), val; cbn [xorb orb andb Z.b2z]; try done; rewrite E.
  - destruct (Z.ltb_spec 0 off).
    + pose proof (Z.pow_gt_1 2 off). apply negb_true_iff, Z.eqb_neq. lia.
    + by replace off with 0 by lia.
  - apply negb_true_iff, Z.eqb_neq. lia.
Qed.
(** Once its timer has run out, a poll gives the pin's button the value read. *)
Lemma tick_pin_reads c i s k :
  let pin := aget zero_pin (pinData (core s)) i in
  let pin2 := aget zero_pin (pinData (core s)) (timer_index (mergedStrum s) i) in
  0 <= k < 16 -> 0 <= p_offset pin < 16 ->
  p_milliDeBounce pin2 < u32 ((on_world millis s).1 - p_lastMillis pin2) ->
  pressed (tick_pin c i s).1 k =
    if k =? p_offset pin then (call_read_button pin (on_world millis s).2).1 else pressed c k.
Proof.
  intros pin pin2 Hk Hoff Ht. unfold tick_pin. rewrite mbind_run. cbn [mread fst snd id].
  fold pin pin2. rewrite mbind_run, Z.gtb_ltb, (proj2 (Z.ltb_lt _ _) Ht).
  rewrite mbind_run. set (val := (call_read_button pin _).1).
  rewrite differs_spec by done. destruct (xorb _ _ || _) eqn:Ex.
  - rewrite !mbind_run. unfold pressed. cbn [buttons upd setter_of mret M_ret fst].
    by apply testbit_write.
  - cbn [mret M_ret fst]. destruct (Z.eqb_spec k (p_offset pin)) as [->|]; [|done].
    apply orb_false_iff in Ex as [Ex _]. unfold pressed. by destruct val, (Z.testbit _ _).
Qed.
Lemma set_core_id s : set_core (core s) s = s.
Proof. by destruct s as [? ? ? ? ? ? ? ? ? []]. Qed.
Lemma on_world_quiet {B} (m : M W B) s :
  (m (world s)).2 = world s -> on_world m s = ((m (world s)).1, s).
Proof.
  intros E. unfold on_world, on_core. rewrite onhw_run. fold (world s). rewrite E.
  f_equal. etransitivity; [|apply set_core_id]. f_equal. unfold world. by destruct (core s).
Qed.

(** C34: The debounce filter.  While no more than the debounce time has passed since
    the entry's timer was set, a poll changes nothing.  Afterwards the button
    takes the value read and no other button changes; the timer restarts when the
    button changed, but also on every poll that finds any button except the D-pad
    up (bit 0) held, since the code compares a truth value with the masked bit:
    releasing a held button is then ignored for another debounce time. *)
Theorem tick_pin_spec c i s :
  (forall w, (millis w).2 = w) ->
  let pin := aget zero_pin (pinData (core s)) i in
  let i2 := timer_index (mergedStrum s) i in
  let pin2 := aget zero_pin (pinData (core s)) i2 in
  let off := p_offset pin in
  let '(val, s1) := call_read_button pin s in
  let r := tick_pin c i s in
  0 <= off < 16 -> 0 <= i2 < Z.of_nat (length (pinData (core s))) ->
  if u32 ((millis (world s)).1 - p_lastMillis pin2) <=? p_milliDeBounce pin2 then r = (c, s)
  else
    (forall k, 0 <= k < 16 -> pressed r.1 k = if k =? off then val else pressed c k) /\
    if xorb val (pressed c off) || (val && (0 <? off)) then
      p_lastMillis (aget zero_pin (pinData (core r.2)) i2) = (millis (world s1)).1
    else r.2 = s1.
Proof.
  intros Hm. cbn zeta. set (pin := aget zero_pin (pinData (core s)) i).
  set (i2 := timer_index (mergedStrum s) i). set (pin2 := aget zero_pin (pinData (core s)) i2).
  destruct (call_read_button pin s) as [val s1] eqn:Er. intros Hoff Hi2.
  rewrite Z.leb_antisym. destruct (Z.ltb_spec (p_milliDeBounce pin2)
    (u32 ((millis (world s)).1 - p_lastMillis pin2))) as [Ht|Ht]; cbn [negb].
  2: { unfold tick_pin. rewrite mbind_run. cbn [mread fst snd id]. fold pin i2 pin2.
       rewrite mbind_run, on_world_quiet by apply Hm. cbn [fst snd].
       by rewrite Z.gtb_ltb, (proj2 (Z.ltb_ge _ _) Ht). }
  pose proof (on_world_quiet millis s (Hm _)) as Eq. split.
  { intros k Hk. rewrite tick_pin_reads by (fold pin; rewrite ?Eq; done). rewrite Eq. cbn [snd].
    fold pin. by rewrite Er. }
  unfold tick_pin. rewrite mbind_run. cbn [mread fst snd id]. fold pin i2 pin2.
  rewrite mbind_run, Eq, Z.gtb_ltb. cbn [fst snd]. rewrite (proj2 (Z.ltb_lt _ _) Ht).
  rewrite (mbind_eq _ _ _ _ _ Er). rewrite differs_spec by done. fold (pressed c (p_offset pin)).
  destruct (xorb val (pressed c (p_offset pin)) || (val && (0 <? p_offset pin))); [|done].
  rewrite mbind_run, on_world_quiet by apply Hm. rewrite mbind_run. cbn [mret M_ret fst snd].
  cbn -[aget aset]. rewrite aget_aset_eq; [done|].
  pose proof (call_read_button_keeps pin s) as E. rewrite Er in E. unfold view, table_view in E.
  injection E as _ E. apply (f_equal length) in E. rewrite !length_fmap in E.
  cbn in E |- *. rewrite E. exact Hi2.
Qed.
End Frames.

(** ** Velocities *)
Lemma trigger_byte_spec c i : Controller_wf c -> 0 <= i <= 2 ->
  trigger_byte c i = if i =? 0 then lt c else if i =? 1 then rt c else u8 (l_x c).
Proof.
  rewrite Controller_wf_iff. intros (_ & Hl & Hr & Hx & _) Hi. unfold in_u, in_s in *.
  zcases i 0 3; unfold trigger_byte; cbn.
  - change (Z.to_nat (2 + 0)) with 2%nat. cbv iota. by apply Z.mod_small.
  - change (Z.to_nat (2 + 1)) with 3%nat. cbv iota. by apply Z.mod_small.
  - reflexivity.
Qed.

(** Velocities.  Outside drums a button is worth 64 or 0.  An axis is only worth
    1 or 0, so that the 7-bit MIDI velocity derived from it is always 0: the
    triggers compare their value, the left stick's x only its low byte, the other
    stick axes their value as an unsigned number, so that any negative position
    counts as pressed. *)
Theorem getVelocity_spec {W} (s : input_state W) c off :
  Controller_wf c -> byte (triggerThreshold s) -> 0 <= off < 22 ->
  (off < 16 -> typeIsDrum (core s) = false ->
     getVelocity s c off = if pressed c off then 64 else 0) /\
  (16 <= off ->
     getVelocity s c off =
       Z.b2z (aget 0 [lt c; rt c; u8 (l_x c); u16 (l_y c); u16 (r_x c); u16 (r_y c)] (off - 16)
              >? triggerThreshold s) /\
     Z.shiftr (getVelocity s c off) 1 = 0) /\
  (19 <= off -> aget 0 (sticks c) (off - 18) < 0 -> getVelocity s c off = 1).
Proof.
  intros Hc Ht Hoff.
  assert (16 <= off -> getVelocity s c off =
    Z.b2z (aget 0 [lt c; rt c; u8 (l_x c); u16 (l_y c); u16 (r_x c); u16 (r_y c)] (off - 16)
           >? triggerThreshold s)) as E.
  { intros H16. unfold getVelocity, XBOX_BTN_COUNT. rewrite (proj2 (Z.ltb_ge off 16)) by lia.
    destruct (Z.gtb_spec off (16 + 2)).
    - assert (19 <= off < 22) as Hr by lia. by zcases off 19 22.
    - rewrite trigger_byte_spec by (done || lia). assert (16 <= off < 19) as Hr by lia.
      by zcases off 16 19. }
  split_and!.
  - intros Hlt Hd. unfold getVelocity, XBOX_BTN_COUNT. rewrite (proj2 (Z.ltb_lt off 16)), Hd by lia.
    cbn [andb]. unfold pressed. rewrite bit_check_testbit by lia. done.
  - intros H16. split; [by apply E|]. rewrite E by done. by destruct (_ >? _).
  - intros H19 Hneg. rewrite E by lia. apply Controller_wf_iff in Hc.
    destruct Hc as (_ & _ & _ & _ & H1 & H2 & H3). unfold in_s, in_u in *.
    assert (forall z, -32768 <= z < 0 -> (u16 z >? triggerThreshold s) = true) as G.
    { intros z Hz. rewrite Z.gtb_ltb. apply Z.ltb_lt. unfold uwrap. zdiv. }
    assert (19 <= off < 22) as Hr by lia.
    zcases off 19 22.
    + change (l_y c < 0) in Hneg. change (Z.b2z (u16 (l_y c) >? triggerThreshold s) = 1).
      rewrite G by lia. done.
    + change (r_x c < 0) in Hneg. change (Z.b2z (u16 (r_x c) >? triggerThreshold s) = 1).
      rewrite G by lia. done.
    + change (r_y c < 0) in Hneg. change (Z.b2z (u16 (r_y c) >? triggerThreshold s) = 1).
      rewrite G by lia. done.
Qed.

(** A port world without I2C or motion sensor. *)
#[global] Instance psx_i2c : I2CBus psx_world :=
  {| twi_readFrom _ data _ _ := mret (false, data); twi_writeTo _ _ _ _ _ := mret false |}.
#[global] Instance psx_mpu : MpuDriver psx_world := idle_mpu.
(** A wired controller without buttons; home is pressed. *)
Definition wired : input_state psx_world := input_init_state false false (mkPsx [] [] 0).
Definition home_pressed : Controller_t := zero_controller <| buttons := 1024 |>.
Lemma unbound_button_sticks_witness :
  exists c', (tickInputs (A := pico) (mkFlags false false false) (fun _ => []) 0
                home_pressed wired).1 = Some c' /\ pressed c' XBOX_HOME = true.
Proof.
  apply (unbound_button_sticks (A := pico) (mkFlags false false false) (fun _ => []) 0
    home_pressed wired XBOX_HOME); try reflexivity; try discriminate.
  - cbn. lia.
  - intros i Hi. cbn in Hi. lia.
Defined.
(** An Xbox guitar with the A button (bit 12) held for 100 ms. *)
Definition holding : input_state psx_world :=
  (input_init_state true false (mkPsx [] [] 100))
    <| read_button_function := Some readPS2Button_p |>
    <| ps2 ::= fun p => p <| buttonWord := BV 14 |> |>
    <| guitar ::= fun g => g <| Guitar.direct ::= fun d =>
         d <| validPins := 1 |>
           <| pinData ::= aset 0 (zero_pin <| p_offset := 12 |> <| p_milliDeBounce := 5 |>) |> |> |>.
Lemma tick_pin_spec_witness :
  p_lastMillis (aget zero_pin (pinData (core
    (tick_pin (zero_controller <| buttons := 4096 |>) 0 holding).2)) 0) = 100.
Proof.
  pose proof (tick_pin_spec (zero_controller <| buttons := 4096 |>) 0 holding
    (fun w => eq_refl)) as E.
  assert (0 <= 12 < 16) as H12 by lia.
  assert (0 <= 0 < Z.of_nat (length (pinData (core holding)))) as H0 by (split; [discriminate|reflexivity]).
  destruct (E H12 H0) as [_ T]. exact T.
Defined.
Lemma getVelocity_spec_witness : getVelocity holding (zero_controller <| l_y := -5 |>) 19 = 1.
Proof.
  assert (Controller_wf (zero_controller <| l_y := -5 |>)) as Hc.
  { apply Controller_wf_iff. split_and!; (split; [discriminate|reflexivity]). }
  destruct (getVelocity_spec holding _ 19 Hc ltac:(split; done) ltac:(lia)) as (_ & _ & E).
  exact (E ltac:(lia) ltac:(reflexivity)).
Defined.
