(* ===== verification/Poll.v ===== *)
(** * A poll of the inputs as a whole: [tickInputs] over every driver

    What [tickInputs] promises to the rest of the firmware, whichever driver
    [initInputs] chose: the controller stays a value of its C type, and on a wired
    controller every button with a pin shows the level of that pin. *)

From Stdlib Require Import ZArith Lia.
From stdpp Require Import base tactics numbers list.
From S2P Require Import Prelude Packed Defs World Config Controller Fxpt I2c Wii Variants Pins.
From S2P Require Import Ps2 Direct Guitar InputHandler.
Open Scope Z_scope.

(** The buses deliver bytes. *)
Class ByteBuses (W : Type) `{SPIBus W} `{I2CBus W} : Prop := {
  spi_byte b w : byte (spi_transfer b w).1;
  twi_bytes a d n stop w : bytes d -> bytes (twi_readFrom a d n stop w).1.2
}.

(** ** Well-formed controllers *)
(** A controller whose fields were assigned casts, bytes or other controllers'
    fields. *)
Ltac fields_wf :=
  rewrite Controller_wf_iff in *; cbn -[uwrap swrap bit_write aget Z.shiftl Z.shiftr] in *;
  split_and!; try tauto; try (apply swrap_range; lia); try (apply uwrap_range; lia); try done.

Section WellFormed.
Context {A : Arch} {W : Type} `{PinOps W} `{SPIBus W} `{Delay W} `{Clock W} `{I2CBus W}
  `{MpuDriver W}.
Context `{!ByteBuses W} (junk : nat -> list Z) (junk_bytes : forall n, bytes (junk n)).
Context (flags : build_flags) (fuel : nat).

(** *** PlayStation *)
Definition replies_ok (s : ps2_state W) : Prop := bytes (inputBuffer s).
Lemma ensures_ondev {B} (m : M W B) (Q : B -> Prop) :
  (forall w, Q (m w).1) -> ensures replies_ok (Ps2.ondev m) Q.
Proof. intros Hm s Hs. unfold Ps2.ondev. specialize (Hm (Ps2.dev s)). by destruct (m _). Qed.
Ltac ps2_step :=
  lazymatch goal with
  | |- ensures _ (Ps2.ondev (spi_transfer _)) _ => apply ensures_ondev, spi_byte
  | |- ensures _ (Ps2.ondev _) ?Q => apply (ensures_ondev _ (fun _ => True)); done
  | |- ensures _ (mread inputBuffer) _ => apply (ensures_read _ _ bytes); done
  | |- ensures _ (mread _) ?Q => apply (ensures_read _ _ (fun _ => True)); done
  | |- ensures _ (mmod _) _ => apply (ensures_mod _ _ (fun _ => True)); done
  end.
Lemma noAttention_ok : ensures replies_ok (noAttention (W := W)) (fun _ => True).
Proof. unfold noAttention. repeat (eapply ensures_bind; [ps2_step|intros]). ps2_step. Qed.
Lemma signalAttention_ok : ensures replies_ok (signalAttention (W := W)) (fun _ => True).
Proof. unfold signalAttention. repeat (eapply ensures_bind; [ps2_step|intros]). ps2_step. Qed.
Lemma shiftDataInOut_ok out off len :
  ensures replies_ok (shiftDataInOut (W := W) out off len) (fun _ => True).
Proof.
  unfold shiftDataInOut. apply ensures_for. intros i. eapply ensures_bind; [ps2_step|].
  intros r Hr. eapply ensures_bind; [apply (ensures_mod _ _ (fun _ => True)); [|done]|intros; ps2_step].
  intros s Hs. unfold replies_ok. cbn. by apply aset_Forall.
Qed.
Lemma exchange_ok out len : ensures replies_ok (exchange (W := W) out len) (fun _ => True).
Proof.
  unfold exchange. destruct (_ && _); [|by apply ensures_ret].
  eapply ensures_bind; [apply shiftDataInOut_ok|]. intros _ _.
  eapply ensures_bind; [ps2_step|]. intros inp Hinp. cbn beta in Hinp.
  destruct (isValidReply inp); [|by apply ensures_ret].
  eapply ensures_bind; [apply ensures_when, shiftDataInOut_ok|]. intros _ _.
  destruct (_ =? 0); [by apply ensures_ret|]. destruct (_ <=? _); [|by apply ensures_ret].
  eapply ensures_bind; [apply shiftDataInOut_ok|]. intros _ _. by apply ensures_ret.
Qed.
Lemma autoShiftData_ok out len : ensures replies_ok (autoShiftData (W := W) out len) (fun _ => True).
Proof.
  unfold autoShiftData. eapply ensures_bind; [apply signalAttention_ok|]. intros _ _.
  eapply ensures_bind; [apply exchange_ok|]. intros r _.
  eapply ensures_bind; [apply noAttention_ok|]. intros _ _. by apply ensures_ret.
Qed.
Lemma sendCommand_ok c : ensures replies_ok (sendCommand (W := W) fuel c) (when_some (fun _ => True)).
Proof.
  unfold sendCommand. eapply ensures_bind; [ps2_step|]. intros start _.
  generalize 0 as cnt, false as ret. induction fuel as [|n IH]; intros cnt ret; [by apply ensures_ret|].
  cbn [send_loop]. eapply ensures_bind; [apply autoShiftData_ok|]. intros ok _.
  eapply ensures_bind; [ps2_step|]. intros inp _.
  eapply ensures_bind; [apply ensures_when; ps2_step|]. intros _ _.
  destruct (if ok then _ else ret); [by apply ensures_ret|].
  eapply ensures_bind; [ps2_step|]. intros now _. destruct (_ <=? _); [apply IH|by apply ensures_ret].
Qed.
(** The fields a reply's decoding assigns are cast or are bytes of the reply. *)
Lemma decode_reply_ok g inp c : bytes inp -> Controller_wf c ->
  ensures replies_ok (decode_reply (W := W) g inp c) Controller_wf.
Proof.
  intros Hinp Hc. unfold decode_reply.
  assert (forall i, byte (aget 0 inp i)) as Hb by (intros; by apply aget_Forall).
  eapply ensures_bind; [ps2_step|]. intros _ _.
  eapply ensures_bind; [apply ensures_when; ps2_step|]. intros _ _.
  eapply (ensures_bind _ _ _ Controller_wf).
  { destruct (isNegconReply inp); [|by apply ensures_ret]. eapply ensures_bind; [ps2_step|].
    intros _ _. apply ensures_ret. fields_wf. }
  intros c1 Hc1. eapply (ensures_bind _ _ _ Controller_wf).
  { destruct (isJogconReply inp); [|by apply ensures_ret]. eapply ensures_bind; [ps2_step|].
    intros _ _. apply ensures_ret. fields_wf. }
  clear c Hc. intros c2 Hc2. clear c1 Hc1. eapply (ensures_bind _ _ _ Controller_wf).
  { destruct (isMouseReply inp); [|by apply ensures_ret]. eapply ensures_bind; [ps2_step|].
    intros _ _. apply ensures_ret. fields_wf. }
  clear c2 Hc2. intros c Hc. destruct (_ || _); [|by apply ensures_ret].
  eapply (ensures_bind _ _ _ Controller_wf).
  { destruct g; [|apply ensures_ret; fields_wf]. eapply ensures_bind; [ps2_step|]. intros _ _.
    apply ensures_ret. destruct (bit_check _ _); fields_wf. }
  clear c Hc. intros c Hc. destruct (isDualShock2Reply inp).
  - eapply ensures_bind; [ps2_step|]. intros _ _. apply ensures_ret. fields_wf; auto.
  - eapply ensures_bind; [apply ensures_when; ps2_step|]. intros _ _. by apply ensures_ret.
Qed.
Lemma read_ok g c : Controller_wf c ->
  ensures replies_ok (Ps2.read (W := W) g fuel c) (when_some (fun r => Controller_wf r.2)).
Proof.
  intros Hc. unfold Ps2.read. eapply ensures_bind; [apply autoShiftData_ok|]. intros ok _.
  destruct ok; [|by apply ensures_ret]. eapply ensures_bind; [ps2_step|]. intros inp Hinp.
  cbn [negb]. destruct (isConfigReply inp).
  - eapply ensures_obind; [apply sendCommand_ok|]. intros _ _. by apply ensures_ret.
  - eapply ensures_bind; [by apply decode_reply_ok|]. intros c' Hc'. by apply ensures_ret.
Qed.
Lemma poll_ok g c : Controller_wf c ->
  ensures replies_ok (Ps2.poll (W := W) g fuel c) (when_some Controller_wf).
Proof.
  intros Hc. unfold Ps2.poll. eapply ensures_obind; [by apply read_ok|]. intros r Hr.
  eapply ensures_bind; [apply ensures_when; ps2_step|]. intros _ _. by apply ensures_ret.
Qed.
Lemma begin_ok g c : Controller_wf c ->
  ensures replies_ok (Ps2.begin (W := W) g fuel c) (when_some (fun r => Controller_wf r.2)).
Proof.
  intros Hc. unfold Ps2.begin. eapply (ensures_obind _ _ _ Controller_wf); [|intros; by apply read_ok].
  generalize 5%nat as n. intros n. revert c Hc. induction n as [|n IH]; intros c Hc; [by apply ensures_ret|]. cbn [begin_loop].
  eapply ensures_obind; [by apply read_ok|]. intros r Hr.
  eapply ensures_bind; [ps2_step|]. intros _ _. by apply IH.
Qed.
Lemma tickPS2_ok g c : Controller_wf c ->
  ensures replies_ok (tickPS2CtrlInput (W := W) g fuel c) (when_some Controller_wf).
Proof.
  intros Hc. unfold tickPS2CtrlInput. eapply ensures_bind; [ps2_step|]. intros t _.
  case_bool_decide; [|by apply poll_ok]. eapply ensures_obind; [by apply begin_ok|]. intros r Hr.
  destruct (r.1); cbn [negb]; [|by apply ensures_ret].
  eapply (ensures_obind _ _ _ (fun _ => True)); [|intros; by apply poll_ok].
  unfold configure. do 4 (eapply ensures_obind; [apply sendCommand_ok|intros _ _]).
  by apply ensures_ret.
Qed.

(** *** Wii, direct and guitar inputs: no state of theirs matters *)
Lemma ensures_when_done {S B C} (m : M S (option B)) (c : C) (Q : C -> Prop) (I : S -> Prop) :
  (forall s, I s -> I (m s).2) -> Q c ->
  ensures I (r ← m; mret (match r with Some _ => Some c | None => None end)) (when_some Q).
Proof.
  intros Hm Hc s Hs. rewrite mbind_run. cbn [mret M_ret fst snd].
  split; [by destruct ((m s).1)|by apply Hm].
Qed.
Lemma tickWii_ok c : Controller_wf c ->
  ensures (fun _ => True) (tickWiiExtInput (W := W) junk fuel c) (when_some Controller_wf).
Proof using junk_bytes ByteBuses0.
  intros Hc. unfold tickWiiExtInput.
  eapply (ensures_bind _ _ _ (fun _ => True)); [done|]. intros id _.
  destruct (_ || _); [by apply ensures_when_done|].
  eapply (ensures_bind _ _ _ (fun _ => True)); [done|]. intros n _.
  eapply (ensures_bind _ _ _ (fun r : bool * list Z => bytes r.2)).
  { intros s _. split; [|done]. unfold onbus, twi_readFromPointerSlow.
    rewrite mbind_run. destruct (negb _); cbn [fst snd mret M_ret]; [by apply junk_bytes|].
    rewrite mbind_run. match goal with |- context [twi_readFrom ?a ?d ?n ?st ?w] =>
      pose proof (twi_bytes a d n st w (junk_bytes 8)) as Hb; by destruct (twi_readFrom a d n st w) end. }
  intros r Hr. destruct (_ && _); [by apply ensures_when_done|].
  eapply (ensures_bind _ _ _ (fun _ => True)); [done|]. intros [f|] _; [|by apply ensures_ret].
  eapply (ensures_bind _ _ _ Controller_wf).
  - intros s _. split; [by apply call_reader_wf|done].
  - intros. by apply ensures_ret.
Qed.
Lemma tick_axes_wf l c : Controller_wf c ->
  ensures (fun _ => True) (tick_axes (W := W) l c) Controller_wf.
Proof.
  revert c. induction l as [|i l IH]; intros c Hc; [by apply ensures_ret|]. cbn [tick_axes].
  eapply (ensures_bind _ _ _ (fun _ => True)); [done|]. intros info _. destruct (a_hasDigital info).
  - eapply (ensures_bind _ _ _ (fun _ => True)); [done|]. intros _ _. by apply IH.
  - eapply (ensures_bind _ _ _ (fun _ => True)); [done|]. intros skip _.
    destruct skip; [by apply IH|]. eapply (ensures_bind _ _ _ Controller_wf); [|done].
    intros d _. split; [|done]. unfold store_axis. rewrite !mbind_run. cbn [mret M_ret fst].
    destruct (_ >=? 2).
    + apply set_stick_wf; [apply swrap_range; lia|done].
    + apply set_trigger_wf; [apply uwrap_range; lia|done].
Qed.
Lemma tickDirect_wf c : Controller_wf c ->
  ensures (fun _ => True) (tickDirectInput (W := W) flags c) Controller_wf.
Proof.
  intros Hc. unfold tickDirectInput. eapply (ensures_bind _ _ _ (fun _ => True)); [done|]. intros d _.
  destruct (lookingForAnalog d).
  { eapply (ensures_bind _ _ _ (fun _ => True)); [done|]. intros _ _. by apply ensures_ret. }
  destruct (lookingForDigital d).
  { eapply (ensures_bind _ _ _ (fun _ => True)); [done|]. intros _ _. by apply ensures_ret. }
  eapply (ensures_bind _ _ _ (fun _ => True)); [done|]. intros _ _.
  eapply (ensures_bind _ _ _ (fun _ => True)); [done|]. intros n _. by apply tick_axes_wf.
Qed.
Lemma tickGuitar_wf c : Controller_wf c ->
  ensures (fun _ => True) (tickGuitar (W := W) c) Controller_wf.
Proof.
  intros Hc s _. split; [|done]. unfold tickGuitar. rewrite mbind_run. destruct (negb _); [done|].
  rewrite clamp_whammy_id, mbind_run by done. destruct (mread tick _).1 as [[]|]; [| |done].
  - unfold tickMPUTilt. rewrite !mbind_run. cbn [mret M_ret fst].
    apply (set_stick_wf 3); [apply scale_raw_range|done].
  - unfold tickDigitalTilt. rewrite !mbind_run. cbn [mret M_ret fst].
    apply (set_stick_wf 3); [by destruct (negb _)|done].
Qed.

(** *** The handler *)
Definition input_ok (s : input_state W) : Prop := replies_ok (ps2 s).
Lemma core_ok {B} (m : M (direct_state W) B) (Q : B -> Prop) :
  ensures (fun _ => True) m Q -> ensures input_ok (on_core m) Q.
Proof. intros Hm s Hs. unfold on_core. destruct (Hm (core s) I) as [HQ _]. by destruct (m _). Qed.
Lemma world_ok {B} (m : M W B) : ensures input_ok (on_world m) (fun _ => True).
Proof. by apply core_ok. Qed.
Lemma wii_ok {B} (m : M (wii_state W) B) (Q : B -> Prop) :
  ensures (fun _ => True) m Q -> ensures input_ok (on_wii m) Q.
Proof.
  intros Hm s Hs. unfold on_wii. match goal with |- context [m ?x] => destruct (Hm x I) as [HQ _] end.
  by destruct (m _).
Qed.
Lemma ps2_ok {B} (m : M (ps2_state W) B) (Q : B -> Prop) :
  ensures replies_ok m Q -> ensures input_ok (on_ps2 m) Q.
Proof.
  intros Hm s Hs. unfold on_ps2.
  assert (replies_ok ((ps2 s) <| Ps2.dev := world s |>)) as Hs' by (unfold replies_ok; exact Hs).
  destruct (Hm _ Hs') as [HQ Hr].
  by destruct (m _).
Qed.
Lemma guitar_ok {B} (m : M (guitar_state W) B) (Q : B -> Prop) :
  ensures (fun _ => True) m Q -> ensures input_ok (on_guitar m) Q.
Proof. intros Hm s Hs. unfold on_guitar. destruct (Hm (guitar s) I) as [HQ _]. by destruct (m _). Qed.
Lemma call_read_button_ok pin : ensures input_ok (call_read_button (W := W) pin) (fun _ => True).
Proof.
  unfold call_read_button. eapply (ensures_bind _ _ _ (fun _ => True)); [done|]. intros [[]|] _.
  - by apply wii_ok.
  - apply world_ok.
  - apply ps2_ok. unfold readPS2Button. eapply ensures_bind; [ps2_step|]. intros t _.
    destruct (_ =? INVALID); [by apply ensures_ret|]. eapply ensures_bind; [ps2_step|].
    intros w _. by apply ensures_ret.
  - by apply ensures_ret.
Qed.
Lemma tick_pins_wf l c : Controller_wf c -> ensures input_ok (tick_pins (W := W) l c) Controller_wf.
Proof.
  revert c. induction l as [|i l IH]; intros c Hc; [by apply ensures_ret|]. cbn [tick_pins].
  eapply (ensures_bind _ _ _ Controller_wf); [|done]. unfold tick_pin.
  eapply (ensures_bind _ _ _ (fun _ => True)); [done|]. intros s _.
  eapply ensures_bind; [apply world_ok|]. intros now _. destruct (_ >? _); [|by apply ensures_ret].
  eapply ensures_bind; [apply call_read_button_ok|]. intros val _.
  destruct (differs _ _ _); [|by apply ensures_ret].
  eapply ensures_bind; [apply world_ok|]. intros now' _.
  eapply (ensures_bind _ _ _ (fun _ => True)); [by apply core_ok|]. intros _ _. apply ensures_ret.
  apply set_buttons_wf; [apply uwrap_range; lia|done].
Qed.
Lemma map_joy_wf thr c : Controller_wf c -> Controller_wf (map_joy thr c).
Proof.
  assert (forall joy neg pos c, Controller_wf c -> Controller_wf (check_joy thr joy neg pos c)) as Hj.
  { intros joy neg pos c0 Hc. unfold check_joy.
    destruct (joy <? _), (joy >? _); repeat (apply set_buttons_wf; [apply uwrap_range; lia|]); done. }
  intros Hc. unfold map_joy. by do 2 apply Hj.
Qed.
Lemma map_home_wf c : Controller_wf c -> Controller_wf (map_home c).
Proof.
  intros Hc. unfold map_home. destruct (_ && _); [|done].
  apply set_buttons_wf; [apply uwrap_range; lia|done].
Qed.

Lemma tickInputs_ok c : Controller_wf c ->
  ensures input_ok (tickInputs flags junk fuel c) (when_some Controller_wf).
Proof using junk_bytes ByteBuses0.
  intros Hc.
  unfold tickInputs. eapply (ensures_bind _ _ _ (fun _ => True)); [done|]. intros f _.
  eapply (ensures_obind _ _ _ Controller_wf).
  { destruct f as [[]|]; cbn [call_tick]; [by apply wii_ok, tickWii_ok| |by apply ensures_ret].
    eapply (ensures_bind _ _ _ (fun _ => True)); [done|]. intros g _. by apply ps2_ok, tickPS2_ok. }
  clear c Hc. intros c Hc. eapply ensures_bind; [by apply core_ok, tickDirect_wf|].
  clear c Hc. intros c Hc. eapply (ensures_bind _ _ _ (fun _ => True)); [done|]. intros n _.
  eapply ensures_bind; [by apply tick_pins_wf|]. clear c Hc. intros c Hc.
  eapply (ensures_bind _ _ _ (fun _ => True)); [done|]. intros s1 _.
  eapply ensures_bind; [apply guitar_ok, tickGuitar_wf|intros; by apply ensures_ret].
  destruct (mapJoyLeftDpad s1), (mapStartSelectHome s1); auto using map_joy_wf, map_home_wf.
Qed.

(** Without a driver to poll nothing depends on the devices. *)
Lemma tickInputs_wired_wf c s :
  tick_function s = None -> Controller_wf c ->
  when_some Controller_wf (tickInputs flags junk fuel c s).1.
Proof.
  intros Ht Hc. unfold tickInputs. rewrite mbind_run. cbn [mread fst snd]. rewrite Ht.
  rewrite (obind_some _ _ _ c) by done.
  match goal with |- when_some _ (?m ?s0).1 =>
    enough (ensures (fun _ => True) m (when_some Controller_wf)) as E by apply (E s0 I) end.
  eapply (ensures_bind _ _ _ Controller_wf).
  { intros s' _. unfold on_core. destruct (tickDirect_wf c Hc (core s') I) as [Hw _].
    by destruct (tickDirectInput flags c (core s')). }
  clear c Hc. intros c Hc. eapply (ensures_bind _ _ _ (fun _ => True)); [done|]. intros n _.
  eapply (ensures_bind _ _ _ Controller_wf).
  { generalize (iota (Z.to_nat n)) as l. intros l. revert c Hc.
    induction l as [|i l IH]; intros c Hc; [by apply ensures_ret|]. cbn [tick_pins].
    eapply (ensures_bind _ _ _ Controller_wf); [|done]. intros s' _. split; [|done].
    destruct (tick_pin_writes c i s') as [->|[val ->]]; [done|].
    apply set_buttons_wf; [apply uwrap_range; lia|done]. }
  clear c Hc. intros c Hc. eapply (ensures_bind _ _ _ (fun _ => True)); [done|]. intros s1 _.
  eapply (ensures_bind _ _ _ Controller_wf); [|intros; by apply ensures_ret].
  intros s' _. unfold on_guitar. match goal with |- context [tickGuitar ?x] => set (c1 := x) end.
  assert (Controller_wf c1) as Hc1 by (unfold c1; destruct (mapJoyLeftDpad s1), (mapStartSelectHome s1);
    auto using map_joy_wf, map_home_wf).
  destruct (tickGuitar_wf c1 Hc1 (guitar s') I) as [Hw _]. by destruct (tickGuitar c1 (guitar s')).
Qed.

End WellFormed.

(** ** Wired buttons *)
(** [held w]: the user holds the buttons still and the devices are in order;
    [level p] is then what a digital pin reads.  Reading pins, the clock and the
    analogue inputs does not disturb this. *)
Class PinsHeld {W : Type} `{PinOps W} `{Clock W} (held : W -> Prop) (level : Pin_t -> bool) : Prop := {
  held_millis w : held w -> held (millis w).2;
  held_analog w : held w -> held (tickAnalog w).2;
  held_read p w : held w -> held (digitalReadPin p w).2;
  held_level p w : held w -> p_analogOffset p = INVALID_PIN -> (digitalReadPin p w).1 = level p
}.

Section Wired.
Context {A : Arch} {W : Type} `{PinOps W} `{SPIBus W} `{Delay W} `{Clock W} `{I2CBus W}
  `{MpuDriver W}.
Context (held : W -> Prop) (level : Pin_t -> bool) `{!PinsHeld held level}.
Context (flags : build_flags) (junk : nat -> list Z) (fuel : nat).
Implicit Types (s : input_state W) (c : Controller_t).

Definition entry s (i : Z) : Pin_t := aget zero_pin (pinData (core s)) i.
(** The debounce timer of a pin has run out, whenever it is looked at. *)
Definition expired (pin : Pin_t) : Prop :=
  forall w, held w -> p_milliDeBounce pin < u32 ((millis w).1 - p_lastMillis pin).
(** A wired controller with separate strum timers whose entry [i] is [pin]. *)
Definition waiting (i : Z) (pin : Pin_t) s : Prop :=
  read_button_function s = Some digitalReadPin_p /\ mergedStrum s = false /\ held (world s) /\
  entry s i = pin.
(** The other entries of [l] stand for other buttons than [k]. *)
Definition others_differ (i k : Z) s (l : list Z) : Prop :=
  forall j, In j l -> j <> i -> 0 <= p_offset (entry s j) < 16 /\ p_offset (entry s j) <> k.
Lemma world_waits {B} (m : M W B) i pin :
  (forall w, held w -> held (m w).2) -> ensures (waiting i pin) (on_world m) (fun _ => True).
Proof.
  intros Hm s (Hr & Hg & Hw & Hp). split; [done|]. unfold on_world, on_core. rewrite onhw_run.
  cbn [snd]. split_and!; [exact Hr|exact Hg|by apply Hm|exact Hp].
Qed.
Lemma tick_pin_waits c i j pin : 0 <= i -> 0 <= j -> j <> i ->
  ensures (waiting i pin) (tick_pin (W := W) c j) (fun _ => True).
Proof using PinsHeld0.
  intros Hi Hj Hne. unfold tick_pin. apply (ensures_bind _ _ _ (fun s => mergedStrum s = false)).
  { apply ensures_read. by intros s (_ & Hg & _). }
  intros s ->. eapply ensures_bind; [apply world_waits, held_millis|]. intros now _.
  destruct (_ >? _); [|by apply ensures_ret]. eapply (ensures_bind _ _ _ (fun _ => True)).
  { unfold call_read_button. apply (ensures_bind _ _ _ (eq (Some digitalReadPin_p))).
    - apply ensures_read. by intros s' (-> & _).
    - intros _ <-. apply world_waits, held_read. }
  intros val _. destruct (differs _ _ _); [|by apply ensures_ret].
  eapply ensures_bind; [apply world_waits, held_millis|]. intros now' _.
  eapply (ensures_bind _ _ _ (fun _ => True)); [|intros; by apply ensures_ret].
  intros s' (Hr & Hg & Hw & Hp). split; [done|]. split_and!; [exact Hr|exact Hg|exact Hw|].
  unfold entry, set_lastMillis, on_core. cbn -[aset aget]. rewrite aget_aset_ne by (cbn; lia). exact Hp.
Qed.

(** Polling the table gives every button with an entry the level of its pin. *)
Lemma tick_pins_reads l c s i pin :
  waiting i pin s -> In i l -> NoDup l -> Forall (Z.le 0) l ->
  0 <= p_offset pin < 16 -> p_analogOffset pin = INVALID_PIN -> expired pin ->
  others_differ i (p_offset pin) s l ->
  pressed (tick_pins l c s).1 (p_offset pin) = level pin.
Proof using PinsHeld0.
  intros Hs Hin Hnd Hpos Hk Ha He. revert c s Hs Hin Hnd Hpos.
  induction l as [|j l IH]; intros c s Hs Hin Hnd Hpos Ho; [done|].
  apply NoDup_cons in Hnd as [Hj Hnd]. apply Forall_cons in Hpos as [Hj0 Hpos].
  rewrite list_elem_of_In in Hj. cbn [tick_pins]. rewrite mbind_run.
  destruct (Z.eq_dec j i) as [->|Hne].
  - destruct Hs as (Hr & Hg & Hw & Hp). rewrite tick_pins_others; [|done|].
    + fold (entry s i) in Hp. rewrite tick_pin_reads; unfold timer_index; rewrite ?Hg; cbn [andb];
        fold (entry s i); rewrite ?Hp; try done.
      * rewrite Z.eqb_refl. unfold call_read_button. rewrite mbind_run.
        unfold on_world, on_core. rewrite onhw_run. cbn [mread fst snd]. 
        replace (read_button_function _) with (Some digitalReadPin_p) by (symmetry; exact Hr).
        rewrite onhw_run. cbn [fst]. apply held_level; [by apply held_millis|done].
      * unfold on_world, on_core. rewrite onhw_run. by apply He.
    + intros j Hjl. cbn zeta. rewrite (view_offset _ s) by apply tick_pin_keeps.
      apply Ho; [by right|]. by intros ->.
  - destruct Hin as [->|Hin]; [done|].
    assert (0 <= i) as Hi0 by by (rewrite Forall_forall in Hpos; apply Hpos, list_elem_of_In).
    pose proof (tick_pin_waits c i j pin Hi0 Hj0 Hne s Hs) as [_ Hs'].
    apply IH; try done. intros j' Hj' Hne'. unfold entry.
    rewrite (view_offset _ s) by apply tick_pin_keeps. apply Ho; [by right|done].
Qed.

(** *** Through [tickInputs] *)
(** What [initInputs] decided, and whether a pin search is on. *)
Definition setup s :=
  (tick_function s, read_button_function s, mergedStrum s, mapJoyLeftDpad s, mapStartSelectHome s,
   lookingForAnalog (core s), lookingForDigital (core s)).
Definition looking (d : direct_state W) : bool * bool := (lookingForAnalog d, lookingForDigital d).
Lemma keeps_setup_core {B} (m : M (direct_state W) B) : keeps looking m -> keeps setup (on_core m).
Proof.
  intros Hm s. unfold on_core. specialize (Hm (core s)). destruct (m (core s)) as [x d].
  unfold looking in Hm. cbn in Hm. injection Hm as Ea Ed. unfold setup. cbn. by rewrite Ea, Ed.
Qed.
Lemma keeps_setup_world {B} (m : M W B) : keeps setup (on_world m).
Proof. apply keeps_setup_core. intros d. by rewrite onhw_run. Qed.
Lemma keeps_setup_wii {B} (m : M (wii_state W) B) : keeps setup (on_wii m).
Proof. intros s. unfold on_wii. by destruct (m _). Qed.
Lemma keeps_setup_ps2 {B} (m : M (ps2_state W) B) : keeps setup (on_ps2 m).
Proof. intros s. unfold on_ps2. by destruct (m _). Qed.
Lemma tick_pins_setup l c : keeps setup (tick_pins (W := W) l c).
Proof.
  revert c. induction l as [|i l IH]; intros c; cbn [tick_pins]; [apply keeps_ret|].
  apply keeps_bind; [|done]. unfold tick_pin.
  frame ltac:(apply keeps_setup_world || (apply keeps_setup_core, keeps_mod; reflexivity) ||
    unfold call_read_button).
  case_match; [case_match|apply keeps_ret];
    auto using keeps_setup_wii, keeps_setup_world, keeps_setup_ps2.
Qed.
Lemma tick_axes_looking l c : keeps looking (tick_axes (W := W) l c).
Proof. revert c. induction l; intros c; cbn [tick_axes store_axis]; frame ltac:(apply IHl || unfold store_axis). Qed.
Lemma tickGuitar_setup c : keeps setup (on_guitar (tickGuitar (W := W) c)).
Proof.
  assert (keeps (fun g => looking (direct g)) (tickGuitar (W := W) c)) as Hg.
  { assert (forall B (m : M W B), keeps (fun g => looking (direct g)) (Guitar.ondev (W := W) m)) as Hd.
    { intros B m g. unfold Guitar.ondev, ondirect. rewrite onhw_run. by destruct g. }
    unfold tickGuitar. frame ltac:(idtac). case_match; [case_match|apply keeps_ret].
    - unfold tickMPUTilt. frame ltac:(apply Hd || (intros g; by destruct g)).
    - unfold tickDigitalTilt. frame ltac:(apply Hd). }
  intros s. unfold on_guitar. specialize (Hg (guitar s)).
  destruct (tickGuitar c (guitar s)) as [x g]. unfold looking in Hg. cbn in Hg. injection Hg as Ea Ed.
  unfold setup, core. cbn. by rewrite Ea, Ed.
Qed.
(** Outside a pin search a poll leaves all of it alone. *)
Lemma tickInputs_setup c s :
  looking (core s) = (false, false) -> setup (tickInputs flags junk fuel c s).2 = setup s.
Proof.
  intros Hl. unfold tickInputs. rewrite mbind_run. cbn [mread fst snd].
  set (m1 := match tick_function s with Some f => call_tick junk fuel f c | None => oret c end).
  assert (keeps setup m1) as K1.
  { unfold m1. destruct (tick_function s) as [[]|]; cbn [call_tick]; [apply keeps_setup_wii| |apply keeps_ret].
    apply keeps_bind; [apply keeps_read|]. intros. apply keeps_setup_ps2. }
  unfold obind. rewrite mbind_run. specialize (K1 s). destruct (m1 s) as [[c1|] s1]; cbn [fst snd] in *; [|done].
  rewrite mbind_run. rewrite <- K1. assert (looking (core s1) = (false, false)) as Hl1.
  { rewrite <- Hl. unfold looking. unfold setup in K1. by injection K1 as _ _ _ _ _ -> ->. }
  clear Hl K1 m1. assert (setup (on_core (tickDirectInput flags c1) s1).2 = setup s1) as K2.
  { unfold looking in Hl1. injection Hl1 as Ha Hd. unfold on_core, tickDirectInput.
    rewrite mbind_run. cbn [mread fst snd id]. rewrite Ha, Hd, mbind_run, mbind_run. cbn [mread fst snd].
    pose proof (tick_axes_looking (iota (Z.to_nat (validAnalog (hw (onhw tickAnalog (core s1)).2)))) c1
      (onhw tickAnalog (core s1)).2) as K. destruct (tick_axes _ c1 _) as [c2 d2]. cbn [snd] in K.
    rewrite onhw_run in K. unfold looking in K. cbn in K. injection K as Ea Ed.
    unfold setup. cbn. by rewrite Ea, Ed. }
  rewrite <- K2. set (s2 := (on_core (tickDirectInput flags c1) s1).2). clearbody s2.
  match goal with |- setup (?m s2).2 = _ => assert (keeps setup m) as K3; [|apply K3] end.
  frame ltac:(apply tick_pins_setup || apply tickGuitar_setup).
Qed.
Lemma tick_axes_world l c : keeps hw (tick_axes (W := W) l c).
Proof. revert c. induction l; intros c; cbn [tick_axes store_axis]; frame ltac:(apply IHl || unfold store_axis). Qed.
(** The joystick and home mappings do not touch the button. *)
Definition unmapped s (k : Z) : Prop :=
  (mapJoyLeftDpad s = false \/ 4 <= k) /\
  (mapStartSelectHome s = false \/ k <> XBOX_START /\ k <> XBOX_BACK /\ k <> XBOX_HOME).
Lemma mapped_pressed s c k : 0 <= k < 16 -> unmapped s k -> pressed (mapped s c) k = pressed c k.
Proof.
  intros Hk [Hj Hh]. unfold mapped. set (c1 := if mapJoyLeftDpad s then _ else c).
  assert (pressed c1 k = pressed c k) as <-.
  { unfold c1. destruct (mapJoyLeftDpad s); [|done]. destruct Hj as [|Hj]; [done|].
    unfold map_joy. rewrite !check_joy_pressed by (cbn; lia). cbn [ControllerButtons_val].
    rewrite !(proj2 (Z.eqb_neq k _)) by lia. by rewrite !orb_false_r. }
  destruct (mapStartSelectHome s); [|done]. destruct Hh as [|(N1 & N2 & N3)]; [done|].
  rewrite map_home_pressed by done. apply Z.eqb_neq in N1, N2, N3.
  destruct (_ && _); [|done]. by rewrite N1, N2, N3, andb_true_r, orb_false_r.
Qed.
(** A wired controller that is not searching for a pin. *)
Definition wired_pad s : Prop :=
  tick_function s = None /\ read_button_function s = Some digitalReadPin_p /\
  mergedStrum s = false /\ lookingForAnalog (core s) = false /\ lookingForDigital (core s) = false.
Lemma wired_pad_setup s s' : setup s' = setup s -> wired_pad s -> wired_pad s'.
Proof using Type.
  unfold setup, wired_pad. intros E Hw. injection E as E1 E2 E3 _ _ E4 E5.
  rewrite E1, E2, E3, E4, E5. exact Hw.
Qed.
(** Entry [i] is the only one for its button, on a digital pin whose debounce time
    is over. *)
Definition shows s (i : Z) : Prop :=
  0 <= i < validPins (core s) /\ 0 <= p_offset (entry s i) < 16 /\
  p_analogOffset (entry s i) = INVALID_PIN /\ expired (entry s i) /\
  others_differ i (p_offset (entry s i)) s (iota (Z.to_nat (validPins (core s)))).
Lemma poll_shows_pins c s i :
  wired_pad s -> held (world s) -> shows s i -> unmapped s (p_offset (entry s i)) ->
  exists c', (tickInputs flags junk fuel c s).1 = Some c' /\
    pressed c' (p_offset (entry s i)) = level (entry s i).
Proof using PinsHeld0.
  intros (Ht & Hr & Hg & Hla & Hld) Hw (Hi & Hk & Ha & He & Ho) Hu.
  destruct (tickInputs_wired flags junk fuel c s Ht) as (c' & E & B).
  exists c'. split; [exact E|]. unfold pressed. rewrite B. clear E B.
  pose proof (tickDirectInput_table flags c (core s)) as T.
  assert (held (hw (tickDirectInput flags c (core s)).2)) as Hw1.
  { unfold tickDirectInput. rewrite mbind_run. cbn [mread fst snd id]. rewrite Hla, Hld.
    rewrite mbind_run, mbind_run, tick_axes_world, onhw_run. cbn [mread snd hw upd setter_of].
    by apply held_analog. }
  destruct (tickDirectInput flags c (core s)) as [c1 d1]. cbn [fst snd] in *. injection T as Tv Tp.
  set (s1 := set_core d1 s). set (l := iota _) in *.
  assert (forall j, entry s1 j = entry s j) as Ee by (intros; unfold entry; cbn; by rewrite Tp).
  pose proof (tick_pins_setup l c1 s1) as Sw.
  pose proof (tick_pins_reads l c1 s1 i (entry s i)) as R.
  destruct (tick_pins l c1 s1) as [c2 s2]. cbn [fst snd] in *. unfold setup in Sw. injection Sw as _ _ _ Sj Sh _ _.
  fold (pressed (mapped s2 c2) (p_offset (entry s i))). rewrite mapped_pressed; [|done|].
  2: { unfold unmapped. rewrite Sj, Sh. exact Hu. }
  apply R; try done.
  - by apply elem_of_iota; lia.
  - apply NoDup_iota.
  - apply Forall_forall. intros j Hj. apply list_elem_of_In, elem_of_iota in Hj. lia.
  - intros j Hj Hne. rewrite Ee. by apply Ho.
Qed.
(** A button without an entry keeps its value. *)
Lemma poll_keeps_unbound c s k :
  tick_function s = None -> 0 <= k < 16 -> unmapped s k -> looking (core s) = (false, false) ->
  (forall j, 0 <= j < validPins (core s) -> 0 <= p_offset (entry s j) < 16 /\ p_offset (entry s j) <> k) ->
  exists c', (tickInputs flags junk fuel c s).1 = Some c' /\ pressed c' k = pressed c k.
Proof using Type.
  intros Ht Hk Hu Hl Ho. destruct (tickInputs_wired flags junk fuel c s Ht) as (c' & E & B).
  exists c'. split; [exact E|]. unfold pressed at 1. rewrite B. clear E B.
  pose proof (tickDirectInput_table flags c (core s)) as T.
  pose proof (tickDirectInput_buttons flags c (core s)) as B1.
  destruct (tickDirectInput flags c (core s)) as [c1 d1]. cbn [fst snd] in *. injection T as Tv Tp.
  set (s1 := set_core d1 s). set (l := iota _) in *.
  pose proof (tick_pins_setup l c1 s1) as Sw.
  pose proof (tick_pins_others l c1 s1 k Hk) as R.
  destruct (tick_pins l c1 s1) as [c2 s2]. cbn [fst snd] in *.
  unfold setup in Sw. injection Sw as _ _ _ Sj Sh _ _.
  fold (pressed (mapped s2 c2) k). rewrite mapped_pressed; [|done|].
  2: { unfold unmapped. rewrite Sj, Sh. exact Hu. }
  rewrite R; [unfold pressed; by rewrite B1|]. intros j Hj. cbn zeta. apply elem_of_iota in Hj.
  cbn. rewrite Tp. apply Ho. lia.
Qed.

(** *** The table of [initInputs] *)
Context `{!PinOpsOk W}.
(** A wired controller set up from [config]. *)
Definition set_up (config : Configuration_t) (guitar : bool) s : Prop :=
  tick_function s = None /\ read_button_function s = Some digitalReadPin_p /\
  mergedStrum s = guitar && truth (Debounce.combinedStrum (Cfg.debounce config)) /\
  mapJoyLeftDpad s = truth (Main.mapLeftJoystickToDPad (Cfg.main config)) /\
  mapStartSelectHome s = truth (Main.mapStartSelectToHome (Cfg.main config)) /\
  looking (core s) = (false, false) /\
  take (Z.to_nat (validPins (core s))) (pinData (core s)) =
    wired_pin config guitar <$> List.filter (bound config) (iota 16) /\
  length (pinData (core s)) = 16%nat /\ 0 <= validPins (core s) <= 16.
Lemma set_up_entry config guitar s j :
  set_up config guitar s -> 0 <= j < validPins (core s) ->
  exists k, List.filter (bound config) (iota 16) !! Z.to_nat j = Some k /\
    entry s j = wired_pin config guitar k /\ 0 <= k < 16 /\ bound config k = true.
Proof using Type.
  intros (_ & _ & _ & _ & _ & _ & T & L & V) Hj. set (f := List.filter (bound config) (iota 16)) in *.
  destruct (f !! Z.to_nat j) as [k|] eqn:E.
  - exists k. split; [done|]. split.
    + unfold entry, aget. apply nth_lookup_Some.
      transitivity (take (Z.to_nat (validPins (core s))) (pinData (core s)) !! Z.to_nat j).
      * rewrite lookup_take. by rewrite decide_True by lia.
      * by rewrite T, list_lookup_fmap, E.
    + apply list_elem_of_lookup_2, list_elem_of_In, filter_In in E as [E Hb].
      split; [by apply elem_of_iota in E|done].
  - apply lookup_ge_None_1 in E. apply (f_equal length) in T.
    rewrite length_take, length_fmap in T. lia.
Qed.
Lemma set_up_shows config guitar s k :
  set_up config guitar s -> 0 <= k < 16 -> bound config k = true ->
  (forall w, held w -> p_milliDeBounce (wired_pin (W := W) config guitar k) < u32 (millis w).1) ->
  exists i, entry s i = wired_pin config guitar k /\ shows s i.
Proof using PinOpsOk0.
  intros Hs Hk Hb He. set (f := List.filter (bound config) (iota 16)).
  assert (NoDup f) as Hnd by (apply NoDup_ListNoDup, List.NoDup_filter, NoDup_ListNoDup, NoDup_iota).
  assert (k ∈ f) as [i Hi]%list_elem_of_lookup_1.
  { apply list_elem_of_In, filter_In. split; [by apply elem_of_iota|done]. }
  assert (0 <= Z.of_nat i < validPins (core s)) as Hv.
  { destruct Hs as (_ & _ & _ & _ & _ & _ & T & L & V). apply (f_equal length) in T.
    rewrite length_take, length_fmap in T. apply lookup_lt_Some in Hi. unfold f in Hi. lia. }
  destruct (set_up_entry config guitar s (Z.of_nat i) Hs Hv) as (k0 & E0 & Ee & _).
  rewrite Nat2Z.id in E0. fold f in E0. assert (k0 = k) as -> by congruence.
  pose proof (wired_pin_spec (W := W) config guitar k) as (Eo & El & Ea & _).
  exists (Z.of_nat i). unfold shows. rewrite Ee, Eo. do 4 (split; [done|]). split.
  - intros w Hw. rewrite El, Z.sub_0_r. by apply He.
  - intros j Hj Hne. apply elem_of_iota in Hj.
    destruct (set_up_entry config guitar s j Hs ltac:(lia)) as (k' & Ej & -> & Hk' & _).
    rewrite (proj1 (wired_pin_spec (W := W) config guitar k')). split; [done|]. intros ->.
    assert (i = Z.to_nat j) by by eapply NoDup_lookup. lia.
Qed.

(** Set-up reads the pins, the accelerometer and the buses, but what it decides
    only depends on the configuration. *)
Lemma initDirectInput_looking config : keeps looking (initDirectInput (W := W) config).
Proof.
  assert (forall B (m : M W B), keeps looking (onhw m)) as Ho by (intros B m d; by rewrite onhw_run).
  assert (forall i p, keeps looking (strum_debounce (W := W) config i p)) as Hs.
  { intros i p. unfold strum_debounce. frame ltac:(idtac). }
  unfold initDirectInput. frame ltac:(apply Ho || unfold initDirectPin || apply Hs || unfold push_pin).
Qed.
Lemma initGuitar_keeps config :
  keeps (fun g => (looking (direct g), pin_table (direct g))) (initGuitar (W := W) config).
Proof.
  assert (forall B (m : M W B),
    keeps (fun g => (looking (direct g), pin_table (direct g))) (Guitar.ondev (W := W) m)) as Hd.
  { intros B m g. unfold Guitar.ondev, ondirect. rewrite onhw_run. by destruct g. }
  unfold initGuitar. frame ltac:(apply Hd || unfold initMPU6050).
Qed.
Context (twi_init : M W unit) (F_CPU : Z).
(** What set-up decides before it reaches the pins. *)
Definition prepared s :=
  (tick_function s, read_button_function s, mergedStrum s, mapJoyLeftDpad s, mapStartSelectHome s,
   (Direct.typeIsGuitar (core s), Direct.typeIsDrum (core s), pinData (core s), looking (core s))).
Lemma keeps_prepared_world {B} (m : M W B) : keeps prepared (on_world m).
Proof. intros s. unfold on_world, on_core. by rewrite onhw_run. Qed.
Lemma initInputs_prepares config s :
  Main.inputType (Cfg.main config) = DIRECT -> Direct.typeIsDrum (core s) = false ->
  tick_function s = None -> looking (core s) = (false, false) ->
  exists s5 f,
    (initInputs twi_init F_CPU config s).2 =
      ((on_core (initDirectInput config) ;; on_guitar (initGuitar config) ;; mmod f) s5).2 /\
    (forall s6, setup (f s6) = setup s6 /\ core (f s6) = core s6) /\
    prepared s5 = (None, Some digitalReadPin_p,
      Direct.typeIsGuitar (core s) && truth (Debounce.combinedStrum (Cfg.debounce config)),
      truth (Main.mapLeftJoystickToDPad (Cfg.main config)),
      truth (Main.mapStartSelectToHome (Cfg.main config)),
      (Direct.typeIsGuitar (core s), false, pinData (core s), (false, false))).
Proof using Type.
  intros Hd Hn Ht Hl. unfold initInputs. rewrite Hd.
  change (DIRECT =? WII) with false. change (DIRECT =? DIRECT) with true. cbv beta iota zeta.
  rewrite mbind_run. set (s1 := (mmod _ s).2). rewrite mbind_run.
  pose proof (keeps_prepared_world setupADC s1) as E2. set (s2 := (on_world setupADC s1).2) in *.
  rewrite mbind_run. set (s3 := (mmod _ s2).2).
  assert (prepared s3 = (None, Some digitalReadPin_p,
    Direct.typeIsGuitar (core s) && truth (Debounce.combinedStrum (Cfg.debounce config)),
    truth (Main.mapLeftJoystickToDPad (Cfg.main config)),
    truth (Main.mapStartSelectToHome (Cfg.main config)),
    (Direct.typeIsGuitar (core s), false, pinData (core s), (false, false)))) as E3.
  { assert (looking (core s2) = looking (core s1)) as F9 by (unfold prepared in E2; congruence).
    unfold prepared in E2 |- *. injection E2 as F1 F2 F3 F4 F5 F6 F7 F8 _ _.
    assert (core s3 = core s2) as -> by done. rewrite F6, F7, F8, F9.
    unfold s3. cbn [mmod snd tick_function read_button_function mergedStrum mapJoyLeftDpad
      mapStartSelectHome upd setter_of]. rewrite F1, F3, F4, F5.
    assert (core s1 = core s) as -> by done. rewrite Hn, Hl. unfold s1.
    cbn [mmod snd tick_function mergedStrum mapJoyLeftDpad mapStartSelectHome upd setter_of].
    by rewrite Ht. }
  clear E2. clearbody s3. clear s1 s2. rewrite mbind_run.
  match goal with |- context [mwhen ?b ?m s3] =>
    assert (prepared (mwhen b m s3).2 = prepared s3) as E4
      by (apply keeps_when, keeps_prepared_world); set (s4 := (mwhen b m s3).2) in * end.
  rewrite mbind_run. match goal with |- context [mwhen ?b ?m s4] =>
    assert (prepared (mwhen b m s4).2 = prepared s4) as E5
      by (apply keeps_when, keeps_prepared_world); set (s5 := (mwhen b m s4).2) in * end.
  rewrite E5, E4 in E3 || rewrite <- E4, <- E5 in E3. clearbody s5. clear E4 E5 s3 s4.
  eexists s5, _. split; [reflexivity|]. by split.
Qed.
Lemma initInputs_set_up config s :
  Main.inputType (Cfg.main config) = DIRECT -> Direct.typeIsDrum (core s) = false ->
  tick_function s = None -> looking (core s) = (false, false) -> length (pinData (core s)) = 16%nat ->
  set_up config (Direct.typeIsGuitar (core s)) (initInputs twi_init F_CPU config s).2.
Proof using PinOpsOk0.
  intros Hd Hn Ht Hl Hp. destruct (initInputs_prepares config s Hd Hn Ht Hl) as (s5 & f & -> & Hf & E3).
  assert (looking (core s5) = (false, false)) as F9 by (unfold prepared in E3; congruence).
  unfold prepared in E3. injection E3 as F1 F2 F3 F4 F5 F6 F7 F8 _ _.
  rewrite mbind_run. unfold on_core at 1. pose proof (wired_table config (core s5) Hd F7) as T.
  pose proof (initDirectInput_looking config (core s5)) as L. rewrite F6, F8 in T.
  destruct (initDirectInput config (core s5)) as [[] d]. cbn [snd] in *.
  destruct (T Hp) as (T1 & T2 & T3). clear T. rewrite mbind_run. unfold on_guitar.
  set (s6 := set_core d s5). pose proof (initGuitar_keeps config (guitar s6)) as K.
  destruct (initGuitar config (guitar s6)) as [[] g]. cbn [snd mmod] in *.
  change (Guitar.direct (guitar s6)) with d in K. injection K as K1 K2 K3 K4.
  match goal with |- set_up _ _ (f ?x) => destruct (Hf x) as [Es Ec]; set (s7 := x) in * end.
  unfold set_up, looking. rewrite Ec. unfold setup in Es. injection Es as -> -> -> -> -> _ _.
  unfold s7, core. cbn. unfold pin_table in *. rewrite K1, K2, K3, K4.
  split_and!; try done; [|lia..]. change (looking d = (false, false)). by rewrite L.
Qed.
End Wired.
