(* ===== verification/Leds.v ===== *)
(** * LED strip: [shared/leds/leds.c]

    The APA102 frame sent after every poll: the start word, one word per LED
    until both tables end, and the stop bytes. *)

From Stdlib Require Import ZArith Lia.
From stdpp Require Import base tactics numbers list.
From S2P Require Import Prelude Packed Defs Config World Controller.
Open Scope Z_scope.

Section Leds.
Context {W : Type} `{SPIBus W}.
(** [getVelocity controller], and the memory after the two tables, which the
    loop reads when no entry ends them. *)
Context (velocity : Z -> Z) (past : Z -> Led_t * Led_t).

(** [ledsEnabled] is true when the strip is disabled, as in the code. *)
Record led_state : Type := mkLeds {
  ledsEnabled : bool; ledConfig : list Led_t; leds : list Led_t; strip : W
}.
#[global] Instance etaLeds : Settable led_state := fun r =>
  {| ledsEnabled := ledsEnabled r; ledConfig := ledConfig r; leds := leds r; strip := strip r |}.
Definition on_strip {A} (m : M W A) : M led_state A :=
  fun s => let '(a, w) := m (strip s) in (a, s <| strip := w |>).
Definition led_init_state (w : W) : led_state :=
  mkLeds false (replicate 22 no_led) (replicate 22 no_led) w.

Definition initLEDs (config : Configuration_t) : M led_state unit :=
  mmod (fun s => s <| ledsEnabled := negb (Main.fretLEDMode (Cfg.main config) =? APA102) |>
                   <| ledConfig := Cfg.leds config |>).
(** Entry [i] of both tables. *)
Definition entries (s : led_state) (i : Z) : Led_t * Led_t :=
  if i <? 22 then (aget no_led (ledConfig s) i, aget no_led (leds s) i) else past i.
(** The two entries that end the loop. *)
Definition ends (e : Led_t * Led_t) : bool := (Led.pin e.1 =? 0) && (Led.pin e.2 =? 0).
(** A host colour wins; otherwise the configured colour while its button is
    pressed. *)
Definition shown (e : Led_t * Led_t) : Led_t :=
  let '(configLED, contLED) := e in
  if (Led.blue contLED =? 0) && (Led.red contLED =? 0) && (Led.green contLED =? 0)
     && negb (Led.pin configLED =? 0)
  then if negb (velocity (u8 (Led.pin configLED - 1)) =? 0) then configLED else contLED
  else contLED.
Definition send (b : Z) : M led_state unit := on_strip (spi_transfer b) ;; mret tt.
Fixpoint led_loop (fuel : nat) (led : Z) : M led_state (option Z) :=
  match fuel with
  | O => mret None
  | S fuel =>
      e ← mread (fun s => entries s led);
      if ends e then oret led
      else
        let c := shown e in
        send 0xff ;; send (Led.blue c) ;; send (Led.green c) ;; send (Led.red c) ;;
        led_loop fuel (led + 1)
  end.
(** The stop loop's [uint8_t] counter; the count is below 256. *)
Definition stop_bytes (led : Z) : nat := Z.to_nat ((led + 15) / 16).
Definition tickLEDs (fuel : nat) : M led_state (option unit) :=
  off ← mread ledsEnabled;
  if (off : bool) then oret tt
  else
    mfor (iota 4) (fun _ => send 0) ;;
    led ←? led_loop fuel 0;
    mfor (iota (stop_bytes led)) (fun _ => send 0xff) ;;
    oret tt.
End Leds.
Arguments led_state : clear implicits.

(** ** The frame *)
(** A bus that records what is sent. *)
Class SpiLog (W : Type) `{SPIBus W} (tx : W -> list Z) : Prop :=
  log_transfer b w : tx (spi_transfer b w).2 = tx w ++ [b].

Section Frame.
Context {W : Type} `{SPIBus W} (tx : W -> list Z) {Hlog : SpiLog W tx}.
Context (velocity : Z -> Z) (past : Z -> Led_t * Led_t).
Implicit Types (s : led_state W).

(** [s'] is [s] after sending [l]. *)
Definition sent s s' (l : list Z) : Prop :=
  tx (strip s') = tx (strip s) ++ l /\ s' = s <| strip := strip s' |>.
Lemma sent_trans s1 s2 s3 l1 l2 : sent s1 s2 l1 -> sent s2 s3 l2 -> sent s1 s3 (l1 ++ l2).
Proof.
  intros [T1 E1] [T2 E2]. split; [by rewrite T2, T1, app_assoc|].
  rewrite E2 at 1. rewrite E1 at 1. reflexivity.
Qed.
Lemma sent_refl s : sent s s [].
Proof. split; [by rewrite app_nil_r|by destruct s]. Qed.
Lemma send_sent b s : sent s (send b s).2 [b].
Proof.
  unfold send. rewrite mbind_run. unfold on_strip. cbn [mret M_ret snd].
  pose proof (log_transfer (tx := tx) b (strip s)) as E.
  destruct (spi_transfer b (strip s)) as [r w]. split; [exact E|done].
Qed.
Lemma send_all_sent b n s :
  sent s (mfor (iota n) (fun _ => send b) s).2 (replicate n b).
Proof.
  induction n as [|n IH]; [apply sent_refl|].
  rewrite iota_S, mfor_app, mbind_run, replicate_S_end. eapply sent_trans; [exact IH|].
  cbn [mfor]. rewrite mbind_run. apply send_sent.
Qed.
Definition led_word (c : Led_t) : list Z := [0xff; Led.blue c; Led.green c; Led.red c].
Definition led_words s (n : nat) : list Z :=
  concat ((fun i => led_word (shown velocity (entries past s i))) <$> iota n).
Lemma led_words_S s n :
  led_words s (S n) = led_words s n ++ led_word (shown velocity (entries past s (Z.of_nat n))).
Proof. unfold led_words. rewrite iota_S, fmap_app, concat_app. by f_equal. Qed.
Lemma entries_strip s w i : entries past (s <| strip := w |>) i = entries past s i.
Proof. done. Qed.
Lemma sent_entries s s' l i : sent s s' l -> entries past s' i = entries past s i.
Proof. intros [_ ->]. apply entries_strip. Qed.

(** One round of the loop, and all rounds up to the first ending entry. *)
Lemma led_loop_sent k fuel n s0 s :
  sent s0 s (led_words s0 k) -> (k <= n)%nat -> (n - k < fuel)%nat ->
  (forall i, 0 <= i < Z.of_nat n -> ends (entries past s0 i) = false) ->
  ends (entries past s0 (Z.of_nat n)) = true ->
  exists s', led_loop velocity past fuel (Z.of_nat k) s = (Some (Z.of_nat n), s') /\
    sent s0 s' (led_words s0 n).
Proof.
  revert k s. induction fuel as [|fuel IH]; intros k s Hs Hk Hf Hlt Hend; [lia|].
  cbn [led_loop]. rewrite mbind_run. cbn [mread fst snd]. rewrite (sent_entries _ _ _ _ Hs).
  destruct (decide (k = n)) as [->|Hne].
  { rewrite Hend. by exists s. }
  rewrite Hlt by lia. rewrite !mbind_run.
  replace (Z.of_nat k + 1) with (Z.of_nat (S k)) by lia.
  apply IH; [|lia|lia|done|done].
  rewrite led_words_S. unfold led_word.
  change [255; ?a; ?b; ?c] with ([255] ++ [a] ++ [b] ++ [c]).
  eapply sent_trans; [exact Hs|]. eapply sent_trans; [apply send_sent|].
  eapply sent_trans; [apply send_sent|]. eapply sent_trans; apply send_sent.
Qed.

(** C37: When the strip is on and one of the 22 entries ends the tables, a tick
    returns after sending exactly one APA102 frame: four zero bytes, one word of
    marker and colour per LED before the first ending entry, and one stop byte
    per 16 LEDs.  A colour set by the host is shown as it is, otherwise the
    configured one while its button is pressed. *)
Theorem tickLEDs_frame n s :
  ledsEnabled s = false -> (n < 22)%nat ->
  (forall i, 0 <= i < Z.of_nat n -> ends (entries past s i) = false) ->
  ends (entries past s (Z.of_nat n)) = true ->
  let r := tickLEDs velocity past 22 s in
  r.1 = Some tt /\
  sent s r.2 (replicate 4 0 ++ led_words s n ++ replicate (stop_bytes (Z.of_nat n)) 0xff) /\
  Z.of_nat n <= 16 * Z.of_nat (stop_bytes (Z.of_nat n)) < Z.of_nat n + 16.
Proof.
  intros Hon Hn Hlt Hend. cbn zeta. unfold tickLEDs. rewrite mbind_run. cbn [mread fst snd].
  rewrite Hon, mbind_run. pose proof (send_all_sent 0 4 s) as X1.
  set (s1 := (mfor (iota 4) _ s).2) in *.
  destruct (led_loop_sent 0 22 n s1 s1 (sent_refl s1)) as (s2 & E2 & X2);
    [lia|lia|intros; rewrite (sent_entries _ _ _ _ X1); auto..|].
  change (Z.of_nat 0) with 0 in E2. rewrite (obind_some _ _ _ (Z.of_nat n)) by (by rewrite E2). rewrite E2. cbn [snd].
  rewrite mbind_run. cbn [oret mret M_ret fst snd]. split; [done|]. split.
  - assert (led_words s1 n = led_words s n) as Ew.
    { unfold led_words. f_equal. apply list_fmap_ext. intros i x _.
      by rewrite (sent_entries _ _ _ _ X1). }
    rewrite Ew in X2. eapply sent_trans; [exact X1|]. eapply sent_trans; [exact X2|].
    apply send_all_sent.
  - unfold stop_bytes. zdiv.
Qed.
End Frame.
(** A bus that only records. *)
#[global] Instance log_bus : SPIBus (list Z) :=
  {| spi_begin _ _ _ _ := mret tt; spi_high := mret tt; spi_low := mret tt;
     spi_transfer b l := (0, l ++ [b]) |}.
#[global] Instance log_bus_ok : SpiLog (list Z) id.
Proof. done. Qed.
(** The default LED table on an APA102 strip. *)
Definition default_strip : led_state (list Z) :=
  mkLeds false LED_PINS (replicate 22 no_led) [].
Lemma tickLEDs_frame_witness :
  length (strip (tickLEDs (fun _ => 64) (fun _ => (no_led, no_led)) 22 default_strip).2) = 25%nat.
Proof.
  destruct (tickLEDs_frame id (fun _ => 64) (fun _ => (no_led, no_led)) 5 default_strip
    eq_refl ltac:(lia)) as (_ & [T _] & _).
  - intros i Hi. change (Z.of_nat 5) with 5 in Hi. by zcases i 0 5.
  - reflexivity.
  - cbv [id] in T. rewrite T. reflexivity.
Defined.
