(* ===== verification/Reports.v ===== *)
(** * USB reports: [shared/output/reports.c], [shared/output/reports/*.h]

    One function per report kind fills the report object from the controller;
    [initReports] chooses it from the device type.  The report object is a
    global that is filled over and over, so each function takes its old
    contents. *)

From Stdlib Require Import ZArith Lia.
From stdpp Require Import base tactics numbers list.
From S2P Require Import Prelude Packed Defs Config Controller.
Open Scope Z_scope.

(** ** XInput *)
Definition sizeof_XInputReport : Z := 20.
(** The report's bytes; [XInput_Data_t] is the controller's own layout. *)
Definition fillXInputReport (report : list Z) (controller : Controller_t) : Z * list Z :=
  (sizeof_XInputReport,
   splice 2 (cenc Controller_codec controller)
     (splice 0 [HID_Report_val REPORT_ID_XINPUT; sizeof_XInputReport] report)).

(** ** Mouse *)
Record MouseReport_t : Set := mkMouse {
  m_rid : Z; Button : Z; X : Z; Y : Z; ScrollY : Z; ScrollX : Z
}.
#[global] Instance etaMouse : Settable MouseReport_t := fun r =>
  {| m_rid := m_rid r; Button := Button r; X := X r; Y := Y r; ScrollY := ScrollY r;
     ScrollX := ScrollX r |}.
Definition fillMouseReport (r : MouseReport_t) (c : Controller_t) : Z * MouseReport_t :=
  let write v m b := u8 (bit_write v b m) in
  (6, r <| m_rid := HID_Report_val REPORT_ID_MOUSE |>
        <| X := i8 (Z.quot (Z.shiftr (l_x c) 8) 8) |>
        <| Y := i8 (Z.quot (- Z.shiftr (l_y c) 8) 8) |>
        <| ScrollY := i8 (Z.quot (Z.shiftr (r_y c) 8) 8) |>
        <| ScrollX := i8 (Z.quot (Z.shiftr (r_x c) 8) 8) |>
        <| Button ::= write (bit_check (buttons c) XBOX_A) 0 |>
        <| Button ::= write (bit_check (buttons c) XBOX_B) 1 |>
        <| Button ::= write (bit_check (buttons c) XBOX_X) 3 |>).

(** ** Keyboard *)
Definition SIMULTANEOUS_KEYS : Z := 6.
Record KeyboardReport_t : Set := mkKeyboard {
  k_rid : Z; Modifier : Z; Reserved : Z; KeyCode : list Z
}.
#[global] Instance etaKeyboard : Settable KeyboardReport_t := fun r =>
  {| k_rid := k_rid r; Modifier := Modifier r; Reserved := Reserved r; KeyCode := KeyCode r |}.
Record keyboard_state : Type := mkKb {
  keysConfig : Keys.Keys_t; joyThresholdKb : Z; triggerThresholdKb : Z
}.
Definition initKeyboard {A : Arch} (config : Configuration_t) : keyboard_state :=
  mkKb (Cfg.keys config) (cint (Z.shiftl (Axis.joyThreshold (Cfg.axis config)) 8))
    (cint (Z.shiftl (Axis.triggerThreshold (Cfg.axis config)) 8)).
(** The first 16 bytes of [Keys_t]. *)
Definition keys_buttons (k : Keys.Keys_t) : list Z :=
  [Keys.up k; Keys.down k; Keys.left k; Keys.right k; Keys.start k; Keys.back k;
   Keys.left_stick k; Keys.right_stick k; Keys.LB k; Keys.RB k; Keys.home k; Keys.capture k;
   Keys.a k; Keys.b k; Keys.x k; Keys.y k].
Definition set_key (i key : Z) (r : KeyboardReport_t) : KeyboardReport_t :=
  r <| KeyCode ::= aset i key |>.
(** The button loop: the keys in use and the report. *)
Fixpoint fill_keys (st : keyboard_state) (c : Controller_t) (l : list Z) (used : Z)
    (r : KeyboardReport_t) : Z * KeyboardReport_t :=
  match l with
  | [] => (used, r)
  | i :: l =>
      if used <? SIMULTANEOUS_KEYS then
        let binding := aget 0 (keys_buttons (keysConfig st)) i in
        if negb (binding =? 0) && bit_check (buttons c) i
        then fill_keys st c l (used + 1) (set_key used binding r)
        else fill_keys st c l used r
      else (used, r)
  end.
Section Keyboard.
Context {A : Arch}.
(** [*used++] reads the count and advances the pointer: the count itself never
    changes, and a second use reads the byte [next] behind it. *)
Context (next : Z).
Definition checkJoyKey (neg pos val thresh used : Z) (r : KeyboardReport_t) : KeyboardReport_t :=
  if used <? SIMULTANEOUS_KEYS then
    let first := negb (neg =? 0) && (val <? cint (- thresh)) in
    let r := if first then set_key used neg r else r in
    if negb (pos =? 0) && (val >? thresh)
    then set_key (if first then next else used) pos r else r
  else r.
Definition check_axes (st : keyboard_state) (c : Controller_t) (used : Z) (r : KeyboardReport_t)
  : KeyboardReport_t :=
  let k := keysConfig st in
  let joy (key : AnalogKey.AnalogKey_t) val :=
    checkJoyKey (AnalogKey.neg key) (AnalogKey.pos key) val (joyThresholdKb st) used in
  let trigger key val := checkJoyKey 0 key val (triggerThresholdKb st) used in
  trigger (Keys.rt k) (rt c) (trigger (Keys.lt k) (lt c)
    (joy (Keys.r_y k) (r_y c) (joy (Keys.r_x k) (r_x c)
      (joy (Keys.l_y k) (l_y c) (joy (Keys.l_x k) (l_x c) r))))).
Definition fillKeyboardReport (st : keyboard_state) (r : KeyboardReport_t) (c : Controller_t)
  : Z * KeyboardReport_t :=
  let '(used, r) := fill_keys st c (iota 16) 0 (r <| k_rid := HID_Report_val REPORT_ID_KBD |>) in
  (9, check_axes st c used r).
End Keyboard.

(** ** MIDI *)
Definition MIDI_COMMAND_NOTE_ON : Z := 0x90.
Definition MIDI_COMMAND_CONTROL_CHANGE : Z := 0xB0.
Definition MIDI_EVENT (cable command : Z) : Z := u8 (Z.lor (Z.shiftl cable 4) (Z.shiftr command 4)).
Definition initMIDI (config : Configuration_t) : Midi.MidiConfig_t := Cfg.midi config.
Section Midi.
(** [getVelocity controller]. *)
Context (velocity : Z -> Z).
(** The packet of entry [i]. *)
Definition midi_packet (cfg : Midi.MidiConfig_t) (i vel : Z) : list Z :=
  let command := if aget 0 (Midi.type cfg) i =? NOTE then MIDI_COMMAND_NOTE_ON
                 else MIDI_COMMAND_CONTROL_CHANGE in
  [MIDI_EVENT 0 command; u8 (Z.lor command (aget 0 (Midi.channel cfg) i));
   aget 0 (Midi.note cfg) i; vel].
(** The loop: the new [lastmidi] and the packets stored. *)
Fixpoint fill_midi (cfg : Midi.MidiConfig_t) (l : list Z) (lastmidi : list Z)
  : list Z * list (list Z) :=
  match l with
  | [] => (lastmidi, [])
  | i :: l =>
      if aget 0 (Midi.type cfg) i =? DISABLED then fill_midi cfg l lastmidi
      else
        let vel := Z.shiftr (velocity i) 1 in
        if aget 0 lastmidi i =? vel then fill_midi cfg l lastmidi
        else
          let '(last, ps) := fill_midi cfg l (aset i vel lastmidi) in
          (last, midi_packet cfg i vel :: ps)
  end.
(** Size, report bytes and [lastmidi]. *)
Definition fillMIDIReport (cfg : Midi.MidiConfig_t) (lastmidi report : list Z)
  : Z * list Z * list Z :=
  let '(last, ps) := fill_midi cfg (iota 22) lastmidi in
  (u8 (1 + Z.of_nat (length ps) * 4),
   splice 0 (HID_Report_val REPORT_ID_MIDI :: concat ps) report, last).
End Midi.

(** ** PS3, Switch and Wii *)
Record PS3Report_t : Set := mkPS3 {
  p_rid : Z; p_buttons : Z; hat : Z; p_l_x : Z; p_l_y : Z; p_r_x : Z; p_r_y : Z;
  p_axis : list Z; accel : list Z
}.
#[global] Instance etaPS3 : Settable PS3Report_t := fun r =>
  {| p_rid := p_rid r; p_buttons := p_buttons r; hat := hat r; p_l_x := p_l_x r;
     p_l_y := p_l_y r; p_r_x := p_r_x r; p_r_y := p_r_y r; p_axis := p_axis r;
     accel := accel r |}.
(** The struct is not packed: on the RP2040 it has a byte of padding after the
    report id and one before the accelerometers. *)
Definition sizeof_PS3Report {A : Arch} : Z := if int_w =? 16 then 28 else 30.
Record ps3_state : Type := mkPs3State {
  ps3ButtonBindings : list Z; ps3AxisBindings : list Z; currentAxisBindingsLen : Z
}.
#[global] Instance etaPs3State : Settable ps3_state := fun r =>
  {| ps3ButtonBindings := ps3ButtonBindings r; ps3AxisBindings := ps3AxisBindings r;
     currentAxisBindingsLen := currentAxisBindingsLen r |}.
Definition bindings (l : list ControllerButtons) : list Z := ControllerButtons_val <$> l.
Definition ps3ButtonBindings_init : list Z :=
  bindings [XBOX_Y; XBOX_A; XBOX_B; XBOX_X] ++ [0xff; 0xff] ++
  bindings [XBOX_LB; XBOX_RB; XBOX_BACK; XBOX_START; XBOX_LEFT_STICK; XBOX_RIGHT_STICK;
            XBOX_HOME; XBOX_UNUSED].
Definition psGHButtonBindings : list Z :=
  bindings [XBOX_Y; XBOX_A; XBOX_B; XBOX_X; XBOX_LB] ++ [0xff; 0xff] ++
  bindings [XBOX_RB; XBOX_BACK; XBOX_START; XBOX_LEFT_STICK; XBOX_RIGHT_STICK; XBOX_HOME;
            XBOX_UNUSED].
Definition psRBButonBindings : list Z :=
  bindings [XBOX_X; XBOX_A; XBOX_B; XBOX_Y; XBOX_LB] ++ [0xff; 0xff] ++
  bindings [XBOX_RB; XBOX_BACK; XBOX_START; XBOX_LEFT_STICK; XBOX_RIGHT_STICK; XBOX_HOME;
            XBOX_UNUSED].
Definition ps3DrumButtonBindings : list Z :=
  bindings [XBOX_Y; XBOX_A; XBOX_B; XBOX_X; XBOX_RB; XBOX_LB] ++ [0xff; 0xff] ++
  bindings [XBOX_BACK; XBOX_START; XBOX_LEFT_STICK; XBOX_RIGHT_STICK; XBOX_HOME; XBOX_UNUSED].
Definition ps3AxisBindings_init : list Z :=
  bindings [XBOX_DPAD_UP; XBOX_DPAD_RIGHT; XBOX_DPAD_DOWN; XBOX_DPAD_LEFT] ++ [0xff; 0xff] ++
  bindings [XBOX_LB; XBOX_RB; XBOX_Y; XBOX_B; XBOX_A; XBOX_X].
(** [ps3AxisBindings] is never read: the loop reads an entry only to overwrite
    it, so where [memcpy_P] finds the table does not matter. *)
Definition ghAxisBindings : list Z :=
  bindings [XBOX_DPAD_LEFT; XBOX_DPAD_DOWN; XBOX_DPAD_RIGHT; XBOX_DPAD_UP; XBOX_X; XBOX_B].
Definition ghAxisBindings2 : list Z := 0xff :: bindings [XBOX_LB; XBOX_Y; XBOX_A].
Definition hat_bindings : list Z :=
  [0x08; 0x00; 0x04; 0x08; 0x06; 0x07; 0x05; 0x08; 0x02; 0x01; 0x03].
Definition ps3_init_state : ps3_state := mkPs3State ps3ButtonBindings_init ps3AxisBindings_init 0.

Definition initPS3 (fullDeviceType : Z) (s : ps3_state) : ps3_state :=
  let s := if (fullDeviceType >? SWITCH_GAMEPAD) && (fullDeviceType >? PS3_GAMEPAD)
           then s <| ps3AxisBindings ::= splice 0 ghAxisBindings |>
                  <| currentAxisBindingsLen := 6 |>
           else s in
  let s := if fullDeviceType =? SWITCH_GAMEPAD
           then s <| ps3ButtonBindings ::= fun b =>
                  aset SWITCH_A (ControllerButtons_val XBOX_A)
                    (aset SWITCH_B (ControllerButtons_val XBOX_B) b) |>
           else s in
  if (fullDeviceType =? PS3_GUITAR_HERO_DRUMS) || (fullDeviceType =? PS3_ROCK_BAND_DRUMS)
  then s <| ps3ButtonBindings := ps3DrumButtonBindings |>
  else if fullDeviceType =? PS3_GUITAR_HERO_GUITAR
  then s <| ps3ButtonBindings := psGHButtonBindings |>
  else if (fullDeviceType =? PS3_ROCK_BAND_GUITAR) || (fullDeviceType =? WII_ROCK_BAND_GUITAR)
  then s <| ps3ButtonBindings := psRBButonBindings |>
  else s.

Section PS3.
Context (fullDeviceType : Z) (s : ps3_state) (c : Controller_t).
(** One round of the button loop. *)
Definition ps3_button (r : PS3Report_t) (i : Z) : PS3Report_t :=
  let button := aget 0xff (ps3ButtonBindings s) i in
  if button =? 0xff then r
  else
    let set := bit_check (buttons c) button in
    let r := r <| p_buttons ::= fun b => u16 (bit_write set b i) |> in
    if i <? currentAxisBindingsLen s then
      let set := if (fullDeviceType =? PS3_GUITAR_HERO_GUITAR) && (i <? 4)
                 then set || bit_check (buttons c) (aget 0 ghAxisBindings2 i) else set in
      r <| p_axis ::= aset i (if set then 0xFF else 0x00) |>
    else r.
Definition ps3_hat : Z :=
  let button := Z.land (buttons c) 0xF in
  if button >? 0x0a then 0x08 else aget 0 hat_bindings button.
Definition is_ps3_pad : bool :=
  (fullDeviceType =? PS3_GAMEPAD) || (fullDeviceType =? SWITCH_GAMEPAD).
Definition ps3_write (r : PS3Report_t) (v : bool) (m : Z) : PS3Report_t :=
  r <| p_buttons ::= fun b => u16 (bit_write v b m) |>.
Definition ps3_tilt (r : PS3Report_t) : PS3Report_t :=
  let tilt := r_y c =? 32767 in
  if fullDeviceType =? PS3_GUITAR_HERO_GUITAR then
    r <| p_r_x := u8 (Z.shiftr (r_x c) 9 + 128 + 64) |>
      <| accel ::= aset 0 (if tilt then -4000 else 7975) |>
      <| p_r_y := 0x7d |>
  else if (fullDeviceType =? PS3_ROCK_BAND_GUITAR) || (fullDeviceType =? WII_ROCK_BAND_GUITAR) then
    (ps3_write (r <| p_r_x := u8 (128 + Z.shiftr (r_x c) 8) |>) tilt SWITCH_R)
      <| p_r_y := u8 (128 - lt c) |>
  else r.
Definition ps3_sticks (r : PS3Report_t) : PS3Report_t :=
  if is_ps3_pad then
    (ps3_write (ps3_write r (lt c >? 50) SWITCH_L) (rt c >? 50) SWITCH_R)
      <| p_axis ::= fun a => aset 5 (rt c) (aset 4 (lt c) a) |>
      <| p_l_x := u8 (Z.shiftr (l_x c) 8 + 128) |>
      <| p_l_y := u8 (Z.shiftr (l_y c) 8 + 128) |>
      <| p_r_x := u8 (Z.shiftr (r_x c) 8 + 128) |>
      <| p_r_y := u8 (Z.shiftr (r_y c) 8 + 128) |>
  else r <| p_l_x := 0x80 |> <| p_l_y := 0x80 |>.
Definition ps3_switch (r : PS3Report_t) : PS3Report_t :=
  if fullDeviceType =? SWITCH_GAMEPAD
  then r <| p_l_y := u8 (255 - p_l_y r) |> <| p_r_y := u8 (255 - p_r_y r) |> else r.
Definition fillPS3Report {A : Arch} (r : PS3Report_t) : Z * PS3Report_t :=
  let r := foldl ps3_button (r <| p_rid := HID_Report_val REPORT_ID_GAMEPAD |>) (iota 14) in
  (sizeof_PS3Report, ps3_switch (ps3_sticks (ps3_tilt (r <| hat := ps3_hat |>)))).
End PS3.

(** ** Choosing the report *)
Inductive report_fn : Set :=
  | fillMouseReport_p | fillMIDIReport_p | fillXInputReport_p | fillKeyboardReport_p
  | fillPS3Report_p.
(** [initReports]: the function pointer; the MIDI, keyboard and PS3 set-ups run
    for their own kind. *)
Definition initReports (fullDeviceType : Z) : report_fn :=
  if fullDeviceType =? MOUSE then fillMouseReport_p
  else if fullDeviceType >=? MIDI_GAMEPAD then fillMIDIReport_p
  else if fullDeviceType <=? XINPUT_ARCADE_PAD then fillXInputReport_p
  else if (fullDeviceType >=? KEYBOARD_GAMEPAD) && (fullDeviceType <=? KEYBOARD_ROCK_BAND_DRUMS)
  then fillKeyboardReport_p
  else fillPS3Report_p.

(** ** XInput: the report carries the controller *)
(** An XInput report is 20 bytes: report id, size, then the controller, which
    the host decodes back exactly; the six bytes after it are left as they
    were. *)
Theorem xinput_report_roundtrip report c :
  Controller_wf c -> (20 <= length report)%nat ->
  let '(n, r) := fillXInputReport report c in
  n = 20 /\ length r = length report /\ take 2 r = [0; 20] /\
  cdec Controller_codec (slice 2 12 r) = c /\ drop 14 r = drop 14 report.
Proof.
  intros Hc Hr. unfold fillXInputReport.
  pose proof (enc_length (c := Controller_codec) c Hc) as Hl.
  change (csize Controller_codec) with 12%nat in Hl.
  set (head := [HID_Report_val REPORT_ID_XINPUT; sizeof_XInputReport]).
  set (body := cenc Controller_codec c) in *.
  assert (splice 2 body (splice 0 head report) = splice 0 (head ++ body) report) as ->.
  { apply (splice_splice_adj 0 head body report). simpl. lia. }
  split; [done|]. split; [apply length_splice; rewrite length_app; simpl; lia|].
  unfold splice. rewrite take_0, app_nil_l, <- app_assoc. split; [done|]. split.
  - unfold slice. rewrite drop_app_length' by done. rewrite take_app_length' by lia.
    by apply dec_enc.
  - rewrite app_assoc, drop_app_length' by (rewrite length_app; simpl; lia).
    by rewrite length_app, Hl.
Qed.
Lemma xinput_report_roundtrip_witness :
  let c := mkController 0x8421 7 255 (-32768) 32767 (-1) 0x1234 in
  fillXInputReport (replicate 20 9) c =
    (20, [0; 20; 0x21; 0x84; 7; 255; 0; 0x80; 0xff; 0x7f; 0xff; 0xff; 0x34; 0x12;
          9; 9; 9; 9; 9; 9]) /\
  cdec Controller_codec (slice 2 12 (fillXInputReport (replicate 20 9) c).2) = c.
Proof.
  cbv zeta. set (c := mkController _ _ _ _ _ _ _). split; [reflexivity|].
  pose proof (xinput_report_roundtrip (replicate 20 9) c) as X.
  destruct (fillXInputReport (replicate 20 9) c) as [n r]. cbn [snd]. apply X.
  - apply Controller_wf_iff. vm_compute. intuition discriminate.
  - simpl. lia.
Defined.

(** ** Keyboard *)
Section KeyboardSpec.
Context {A : Arch}.
Implicit Types (st : keyboard_state) (c : Controller_t) (r : KeyboardReport_t).

Definition key_of st (i : Z) : Z := aget 0 (keys_buttons (keysConfig st)) i.
(** The keys of the pressed buttons among [l], and of all of them in button order. *)
Definition pressed_keys st c (l : list Z) : list Z :=
  key_of st <$> List.filter (fun i => negb (key_of st i =? 0) && bit_check (buttons c) i) l.
Definition button_keys st c : list Z := pressed_keys st c (iota 16).
(** The key of one axis. *)
Definition axis_key (neg pos val thresh : Z) : option Z :=
  if negb (neg =? 0) && (val <? - thresh) then Some neg
  else if negb (pos =? 0) && (val >? thresh) then Some pos else None.
Definition joy_key st (key : AnalogKey.AnalogKey_t) val : option Z :=
  axis_key (AnalogKey.neg key) (AnalogKey.pos key) val (joyThresholdKb st).
Definition stick_keys st c : list (option Z) :=
  let k := keysConfig st in
  [joy_key st (Keys.l_x k) (l_x c); joy_key st (Keys.l_y k) (l_y c);
   joy_key st (Keys.r_x k) (r_x c); joy_key st (Keys.r_y k) (r_y c)].
Definition trigger_keys st c : list (option Z) :=
  [axis_key 0 (Keys.lt (keysConfig st)) (lt c) (triggerThresholdKb st);
   axis_key 0 (Keys.rt (keysConfig st)) (rt c) (triggerThresholdKb st)].
(** The deflected axis that is checked last. *)
Definition axis_slot (l : list (option Z)) : option Z := foldr (from_option Some) None l.

Definition threshold_ok (t : Z) : Prop := 0 <= t < 2 ^ (int_w - 1).
Lemma threshold_opp t : threshold_ok t -> cint (- t) = - t.
Proof.
  intros [? ?]. apply swrap_small; [|unfold in_s; lia]. destruct int_w_cases as [-> | ->]; lia.
Qed.
Definition put_key used (o : option Z) (l : list Z) : list Z :=
  if used <? SIMULTANEOUS_KEYS then from_option (fun k => aset used k l) l o else l.
Lemma checkJoyKey_key next neg pos val t used r :
  threshold_ok t ->
  checkJoyKey next neg pos val t used r = r <| KeyCode ::= put_key used (axis_key neg pos val t) |>.
Proof.
  intros Ht. unfold checkJoyKey, axis_key, put_key. rewrite threshold_opp by done.
  destruct Ht as [? _], r as [a b d l]; unfold set_key; cbn.
  destruct (used <? SIMULTANEOUS_KEYS); [|done].
  destruct (neg =? 0), (val <? - t) eqn:?, (pos =? 0), (val >? t) eqn:?; cbn; zbool; try done; lia.
Qed.
Lemma put_key_put used o1 o2 l :
  put_key used o2 (put_key used o1 l) = put_key used (from_option Some o1 o2) l.
Proof.
  unfold put_key. destruct (used <? SIMULTANEOUS_KEYS), o1, o2; cbn; try done.
  unfold aset. apply list_insert_insert_eq.
Qed.
Lemma check_axes_slot next st c used r :
  threshold_ok (joyThresholdKb st) -> threshold_ok (triggerThresholdKb st) ->
  check_axes next st c used r =
    r <| KeyCode ::= put_key used (axis_slot (stick_keys st c ++ trigger_keys st c)) |>.
Proof.
  intros Hj Ht. unfold check_axes. rewrite !checkJoyKey_key by done. destruct r as [a b d l].
  cbn -[put_key axis_key]. rewrite !put_key_put. reflexivity.
Qed.

Lemma aset_splice {B} (u : nat) (k : B) l :
  (u < length l)%nat -> aset (Z.of_nat u) k l = splice u [k] l.
Proof.
  intros. unfold aset. rewrite Nat2Z.id. apply list_eq. intros i.
  rewrite lookup_splice by (simpl; lia). case_decide as E.
  - simpl in E. replace i with u by lia. rewrite Nat.sub_diag.
    by rewrite list_lookup_insert_eq by lia.
  - simpl in E. by rewrite list_lookup_insert_ne by lia.
Qed.
Lemma fill_keys_spec st c l (u : nat) r :
  (u <= 6)%nat -> length (KeyCode r) = 6%nat ->
  let ks := take (6 - u) (pressed_keys st c l) in
  fill_keys st c l (Z.of_nat u) r =
    (Z.of_nat (u + length ks), r <| KeyCode ::= splice u ks |>).
Proof.
  cbn zeta. revert u r. induction l as [|i l IH]; intros u r Hu Hr.
  { cbn [fill_keys pressed_keys List.filter fmap list_fmap]. rewrite take_nil. destruct r as [a b d k].
    cbn in *. rewrite Nat.add_0_r. unfold splice. by rewrite app_nil_l, Nat.add_0_r, take_drop. }
  cbn [fill_keys]. destruct (Z.ltb_spec (Z.of_nat u) SIMULTANEOUS_KEYS) as [Hlt|Hge].
  2:{ unfold SIMULTANEOUS_KEYS in Hge. replace (6 - u)%nat with 0%nat by lia.
      rewrite take_0. cbn [length]. rewrite Nat.add_0_r. destruct r as [a b d k]. cbn.
      unfold splice. by rewrite app_nil_l, Nat.add_0_r, take_drop. }
  unfold SIMULTANEOUS_KEYS in Hlt. unfold pressed_keys. cbn [List.filter].
  change (aget 0 (keys_buttons (keysConfig st)) i) with (key_of st i).
  destruct (negb (key_of st i =? 0) && bit_check (buttons c) i) eqn:E; [|by apply IH].
  replace (Z.of_nat u + 1) with (Z.of_nat (S u)) by lia.
  rewrite IH; [|lia|unfold set_key; cbn; by rewrite length_aset].
  replace (6 - u)%nat with (S (6 - S u))%nat by lia. cbn [fmap list_fmap].
  rewrite firstn_cons. fold (pressed_keys st c l). cbn [length].
  f_equal; [lia|]. unfold set_key. generalize (key_of st i). intros x.
  destruct r as [a b d k]. cbn in Hr. cbn -[splice Nat.add Nat.sub]. f_equal.
  rewrite aset_splice by lia. rewrite <- Nat.add_1_r.
  apply (splice_splice_adj u [x]). cbn [length]. rewrite length_take. lia.
Qed.
Lemma put_key_splice ks o (k : list Z) :
  length k = 6%nat ->
  put_key (Z.of_nat (0 + length (take 6 ks))) o (splice 0 (take 6 ks) k) =
    splice 0 (take 6 (ks ++ option_list o)) k.
Proof.
  intros Hk. unfold put_key, SIMULTANEOUS_KEYS. pose proof (length_take ks 6).
  destruct (Nat.le_gt_cases 6 (length ks)).
  - rewrite (proj2 (Z.ltb_ge _ _)) by lia. by rewrite take_app_le by lia.
  - rewrite (proj2 (Z.ltb_lt _ _)) by lia. rewrite (take_ge ks) in * by lia.
    destruct o as [x|]; cbn [from_option option_list]; [|by rewrite app_nil_r, take_ge by lia].
    rewrite aset_splice by (rewrite length_splice; lia).
    rewrite take_ge by (rewrite length_app; simpl; lia).
    apply (splice_splice_adj 0 ks [x]). simpl. lia.
Qed.
Definition keyboard_keys st c : list Z :=
  take 6 (button_keys st c ++ option_list (axis_slot (stick_keys st c ++ trigger_keys st c))).
(** C25: With thresholds that fit, a keyboard report holds, in order, the keys of
    the pressed bound buttons, then at most one axis key, the last deflected
    axis in checking order, six keys at most; the other key codes are the old
    report's, so a released key stays in the report until another replaces it. *)
Theorem keyboard_report_spec next st r c :
  threshold_ok (joyThresholdKb st) -> threshold_ok (triggerThresholdKb st) ->
  length (KeyCode r) = 6%nat ->
  fillKeyboardReport next st r c =
    (9, r <| k_rid := 6 |> <| KeyCode ::= splice 0 (keyboard_keys st c) |>) /\
  (keyboard_keys st c = [] ->
     KeyCode (fillKeyboardReport next st r c).2 = KeyCode r).
Proof.
  intros Hj Ht Hr.
  assert (fillKeyboardReport next st r c =
    (9, r <| k_rid := 6 |> <| KeyCode ::= splice 0 (keyboard_keys st c) |>)) as E.
  2:{ split; [done|]. intros E2. rewrite E, E2. destruct r as [a b d k]. cbn. unfold splice.
      simpl. by rewrite drop_0. }
  unfold fillKeyboardReport, keyboard_keys.
  pose proof (fill_keys_spec st c (iota 16) 0 (r <| k_rid := HID_Report_val REPORT_ID_KBD |>)
    ltac:(lia) Hr) as F. cbv zeta in F. fold (button_keys st c) in F.
  change (Z.of_nat 0) with 0 in F. change (6 - 0)%nat with 6%nat in F.
  rewrite F, (check_axes_slot next st c _ _ Hj Ht). clear F.
  generalize (button_keys st c), (axis_slot (stick_keys st c ++ trigger_keys st c)).
  intros ks o. destruct r as [a b d k]. cbn in Hr. cbn -[splice put_key Nat.add take].
  do 2 f_equal. by apply put_key_splice.
Qed.
(** With a trigger threshold of 1 to 127 a trigger never types a key: its
    reading is a byte, the threshold is scaled like a stick's. *)
Theorem keyboard_triggers_dead config c :
  1 <= Axis.triggerThreshold (Cfg.axis config) <= 127 -> Controller_wf c ->
  axis_slot (stick_keys (initKeyboard config) c ++ trigger_keys (initKeyboard config) c) =
    axis_slot (stick_keys (initKeyboard config) c).
Proof.
  intros Ht Hc. apply Controller_wf_iff in Hc as (_ & Hlt & Hrt & _). unfold in_u in *.
  assert (triggerThresholdKb (initKeyboard config) =
    256 * Axis.triggerThreshold (Cfg.axis config)) as E.
  { cbn. rewrite Z.shiftl_mul_pow2 by lia. change (2 ^ 8) with 256.
    unfold cint. rewrite swrap_small; [lia| |].
    - destruct int_w_cases as [-> | ->]; lia.
    - unfold in_s. destruct int_w_cases as [-> | ->]; lia. }
  unfold trigger_keys. rewrite E. unfold axis_key. cbn [Z.eqb negb andb].
  rewrite !andb_false_intro2 by lia. reflexivity.
Qed.
End KeyboardSpec.
(** A keyboard profile: buttons on a..p, sticks on q..x; the D-pad's up, the A
    button and the left stick pushed down are pressed. *)
Definition typing_keys : Keys.Keys_t :=
  Keys.mk 4 5 6 7 8 9 10 11 12 13 14 15 16 17 18 19 28 29 (AnalogKey.mk 20 21)
    (AnalogKey.mk 22 23) (AnalogKey.mk 24 25) (AnalogKey.mk 26 27).
Definition typing_state : keyboard_state := mkKb typing_keys 16384 16384.
Definition typing_pad : Controller_t := mkController 0x1001 255 0 0 (-20000) 0 0.
Lemma keyboard_report_spec_witness :
  let r := mkKeyboard 0 0 0 [50; 51; 52; 53; 54; 55] in
  KeyCode (fillKeyboardReport (A := avr) 0 typing_state r typing_pad).2 = [4; 16; 22; 53; 54; 55].
Proof.
  cbv zeta. rewrite (proj1 (keyboard_report_spec (A := avr) 0 typing_state
    (mkKeyboard 0 0 0 [50; 51; 52; 53; 54; 55]) typing_pad
    ltac:(split; [vm_compute; discriminate|reflexivity])
    ltac:(split; [vm_compute; discriminate|reflexivity]) eq_refl)).
  vm_compute. reflexivity.
Defined.
Lemma keyboard_triggers_dead_witness :
  axis_slot (stick_keys (initKeyboard (A := pico) default_config) typing_pad ++
             trigger_keys (initKeyboard (A := pico) default_config) typing_pad) =
    axis_slot (stick_keys (initKeyboard (A := pico) default_config) typing_pad).
Proof.
  apply (keyboard_triggers_dead (A := pico)).
  - vm_compute. split; discriminate.
  - apply Controller_wf_iff. vm_compute. intuition discriminate.
Defined.

(** ** MIDI: the packets are the changes *)
Section MidiSpec.
Context (velocity : Z -> Z).
Implicit Types (cfg : Midi.MidiConfig_t) (last : list Z).

Definition enabled cfg (i : Z) : bool := negb (aget 0 (Midi.type cfg) i =? DISABLED).
Definition midi_vel (i : Z) : Z := Z.shiftr (velocity i) 1.
(** The entries due a packet. *)
Definition due cfg last (l : list Z) : list Z :=
  List.filter (fun i => enabled cfg i && negb (aget 0 last i =? midi_vel i)) l.
Definition upto (n : nat) : Z -> Prop := fun i => 0 <= i < Z.of_nat n.

Lemma due_aset cfg last l i v : 0 <= i -> i ∉ l -> Forall (Z.le 0) l ->
  due cfg (aset i v last) l = due cfg last l.
Proof.
  intros Hi Hn Hl. apply filter_ext_in. intros j Hj.
  apply list_elem_of_In in Hj. rewrite aget_aset_ne; [done|lia| |congruence].
  by apply (proj1 (Forall_forall _ _) Hl).
Qed.
Lemma fill_midi_spec cfg l last :
  NoDup l -> Forall (fun i => 0 <= i < Z.of_nat (length last)) l ->
  let '(last', ps) := fill_midi velocity cfg l last in
  ps = (fun i => midi_packet cfg i (midi_vel i)) <$> due cfg last l /\
  length last' = length last /\
  forall i, 0 <= i ->
    aget 0 last' i = if bool_decide (i ∈ l) && enabled cfg i then midi_vel i else aget 0 last i.
Proof.
  intros Hnd Hl. revert last Hl. induction Hnd as [|i l Hni Hnd IH]; intros last Hl.
  { cbn. auto. }
  apply Forall_cons in Hl as [Hi Hl]. cbn [fill_midi due List.filter].
  assert (forall j b, i <> j -> bool_decide (j ∈ i :: l) && b = bool_decide (j ∈ l) && b) as Hne.
  { intros j b Hj. f_equal. apply bool_decide_ext. rewrite elem_of_cons. naive_solver. }
  assert (forall j, bool_decide (j ∈ i :: l) && enabled cfg j =
    (if i =? j then enabled cfg i else bool_decide (j ∈ l) && enabled cfg j)) as Hin.
  { intros j. destruct (Z.eqb_spec i j) as [<-|]; [|by apply Hne].
    by rewrite bool_decide_eq_true_2 by left. }
  change (Z.shiftr (velocity i) 1) with (midi_vel i).
  unfold enabled at 1. destruct (aget 0 (Midi.type cfg) i =? DISABLED) eqn:Et; cbn [negb andb].
  - specialize (IH last Hl). destruct (fill_midi velocity cfg l last) as [last' ps].
    destruct IH as (Hp & Hn & Hv). split; [done|]. split; [done|]. intros j Hj.
    rewrite Hv, Hin by done. destruct (Z.eqb_spec i j) as [<-|]; [|done].
    unfold enabled. rewrite Et. by rewrite andb_false_r.
  - assert (enabled cfg i = true) as En by (unfold enabled; by rewrite Et).
    destruct (Z.eqb_spec (aget 0 last i) (midi_vel i)) as [Ev|Ev]; cbn [negb].
    + specialize (IH last Hl). destruct (fill_midi velocity cfg l last) as [last' ps].
      destruct IH as (Hp & Hn & Hv). split; [done|]. split; [done|]. intros j Hj.
      rewrite Hv, Hin by done. destruct (Z.eqb_spec i j) as [<-|]; [|done].
      rewrite En, Ev. by destruct (_ && _).
    + specialize (IH (aset i (midi_vel i) last)). rewrite length_aset in IH. specialize (IH Hl).
      destruct (fill_midi velocity cfg l (aset i (midi_vel i) last)) as [last' ps].
      destruct IH as (Hp & Hn & Hv). split; [|split; [done|]].
      * cbn [fmap list_fmap]. f_equal. rewrite Hp. f_equal.
        apply due_aset; [lia|done|].
        eapply Forall_impl; [exact Hl|]. intros x Hx. cbn in *. lia.
      * intros j Hj. rewrite Hv, Hin by done. destruct (Z.eqb_spec i j) as [<-|].
        { rewrite aget_aset_eq by lia. rewrite En. by destruct (_ && _). }
        by rewrite aget_aset_ne by lia.
Qed.
Lemma fill_midi_iota cfg last :
  length last = 22%nat ->
  let '(last', ps) := fill_midi velocity cfg (iota 22) last in
  ps = (fun i => midi_packet cfg i (midi_vel i)) <$> due cfg last (iota 22) /\
  length last' = 22%nat /\
  forall i, 0 <= i < 22 ->
    aget 0 last' i = if enabled cfg i then midi_vel i else aget 0 last i.
Proof.
  intros Hl. pose proof (fill_midi_spec cfg (iota 22) last (NoDup_iota 22)) as X.
  destruct (fill_midi velocity cfg (iota 22) last) as [last' ps].
  destruct X as (Hp & Hn & Hv).
  - apply Forall_forall. intros i Hi. rewrite Hl. by apply elem_of_iota, list_elem_of_In.
  - split; [done|]. split; [congruence|]. intros i Hi. rewrite Hv by lia.
    by rewrite bool_decide_eq_true_2 by (apply list_elem_of_In, elem_of_iota; lia).
Qed.
Lemma length_due cfg last l : (length (due cfg last l) <= length l)%nat.
Proof. apply filter_length_le. Qed.
Lemma due_nil cfg last l :
  (forall i, i ∈ l -> enabled cfg i = true -> aget 0 last i = midi_vel i) -> due cfg last l = [].
Proof.
  intros Hl. unfold due. induction l as [|i l IH]; [done|]. cbn [List.filter].
  rewrite IH by (intros; apply Hl; [by right|done]).
  destruct (enabled cfg i) eqn:E; [|done]. rewrite (Hl i) by (done || left).
  by rewrite Z.eqb_refl.
Qed.
Lemma length_concat_packets cfg l :
  length (concat ((fun i => midi_packet cfg i (midi_vel i)) <$> l)) = (4 * length l)%nat.
Proof. induction l as [|i l IH]; [done|]. cbn [fmap list_fmap concat length]. rewrite length_app, IH. simpl. lia. Qed.
Definition packets cfg last : list (list Z) :=
  (fun i => midi_packet cfg i (midi_vel i)) <$> due cfg last (iota 22).
Lemma midi_size (k : nat) : (k <= 22)%nat -> u8 (1 + Z.of_nat k * 4) = 1 + 4 * Z.of_nat k.
Proof. intros Hk. rewrite uwrap_small by (unfold in_u; lia). lia. Qed.
Lemma take_concat_packets cfg (x : Z) l report :
  let ps := (fun i => midi_packet cfg i (midi_vel i)) <$> l in
  take (Z.to_nat (1 + 4 * Z.of_nat (length l))) (splice 0 (x :: concat ps) report) =
    x :: concat ps.
Proof.
  cbv zeta. eapply eq_trans; [|apply (take_splice0 (x :: _) report)].
  apply (f_equal (fun k => take k _)). cbn [length]. rewrite length_concat_packets. lia.
Qed.
Lemma midi_resend cfg last last' :
  length last' = 22%nat ->
  (forall i, 0 <= i < 22 ->
     aget 0 last' i = if enabled cfg i then midi_vel i else aget 0 last i) ->
  due cfg last' (iota 22) = [].
Proof.
  intros _ Hv. apply due_nil. intros i Hi E. apply list_elem_of_In, elem_of_iota in Hi.
  rewrite Hv by lia. by rewrite E.
Qed.
Lemma fillMIDIReport_eq cfg last report :
  length last = 22%nat ->
  exists last', fillMIDIReport velocity cfg last report =
    (1 + 4 * Z.of_nat (length (due cfg last (iota 22))),
     splice 0 (7 :: concat (packets cfg last)) report, last') /\
  length last' = 22%nat /\
  forall i, 0 <= i < 22 ->
    aget 0 last' i = if enabled cfg i then midi_vel i else aget 0 last i.
Proof.
  intros Hl. unfold fillMIDIReport. pose proof (fill_midi_iota cfg last Hl) as X.
  destruct (fill_midi velocity cfg (iota 22) last) as [last' ps]. destruct X as (-> & Hl' & Hv).
  exists last'. split; [|split; [exact Hl'|exact Hv]]. unfold packets.
  pose proof (length_due cfg last (iota 22)) as Hd. rewrite length_iota in Hd.
  rewrite length_fmap, midi_size by exact Hd. reflexivity.
Qed.
(** C24: A MIDI report holds one packet per enabled entry whose velocity differs
    from the one last sent, in entry order, and its size counts them; the table
    of sent velocities is brought up to date, so that the same controller state
    filled again sends nothing. *)
Theorem midi_report_delta cfg last report :
  length last = 22%nat -> (89 <= length report)%nat ->
  let '(n, rep, last') := fillMIDIReport velocity cfg last report in
  n = 1 + 4 * Z.of_nat (length (due cfg last (iota 22))) /\
  take (Z.to_nat n) rep =
    7 :: concat (packets cfg last) /\
  (forall i, 0 <= i < 22 ->
     aget 0 last' i = if enabled cfg i then midi_vel i else aget 0 last i) /\
  forall rep2, (fillMIDIReport velocity cfg last' rep2).1.1 = 1.
Proof.
  intros Hl Hr. destruct (fillMIDIReport_eq cfg last report Hl) as (last' & E & Hl' & Hv).
  rewrite E. split; [reflexivity|]. split; [apply take_concat_packets|]. split; [exact Hv|].
  intros rep2. destruct (fillMIDIReport_eq cfg last' rep2 Hl') as (l2 & E2 & _).
  rewrite E2, (midi_resend cfg last last' Hl' Hv). reflexivity.
Qed.
End MidiSpec.
(** All buttons are notes on channel 9; the first two are pressed. *)
Definition midi_profile : Midi.MidiConfig_t :=
  Midi.mk (replicate 16 1 ++ replicate 6 0) (iota 22) (replicate 22 9).
Definition two_notes (i : Z) : Z := if i <? 2 then 64 else 0.
Lemma midi_report_delta_witness :
  let '(n, rep, _) := fillMIDIReport two_notes midi_profile (replicate 22 0) (replicate 89 0) in
  n = 9 /\ take (Z.to_nat n) rep = [7; 9; 0x99; 0; 32; 9; 0x99; 1; 32].
Proof.
  pose proof (midi_report_delta two_notes midi_profile (replicate 22 0) (replicate 89 0)
    eq_refl ltac:(simpl; lia)) as X.
  destruct (fillMIDIReport two_notes midi_profile _ _) as [[n rep] last].
  destruct X as (E & Et & _). split; [exact E|exact Et].
Defined.

(** ** PS3 and Switch *)
Section PS3Spec.
Context (t : Z) (s : ps3_state) (c : Controller_t).
Implicit Types (r : PS3Report_t).

Definition bound (k : Z) : bool := negb (aget 0xff (ps3ButtonBindings s) k =? 0xff).
Definition mapped_bit (k : Z) : bool := Z.testbit (buttons c) (aget 0xff (ps3ButtonBindings s) k).
Hypothesis Hbind : Forall (Z.le 0) (ps3ButtonBindings s).

Lemma ps3_button_bits r i k :
  0 <= i < 14 -> 0 <= k < 16 ->
  Z.testbit (p_buttons (ps3_button t s c r i)) k =
    if (k =? i) && bound i then mapped_bit i else Z.testbit (p_buttons r) k.
Proof using Hbind.
  intros Hi Hk. unfold ps3_button, bound, mapped_bit.
  assert (0 <= aget 0xff (ps3ButtonBindings s) i) as Hb by (apply aget_Forall; [lia|done]).
  set (b := aget 0xff _ i) in *. destruct (b =? 0xff); cbn [negb]; [by rewrite andb_false_r|].
  rewrite andb_true_r, bit_check_testbit by done.
  destruct (i <? currentAxisBindingsLen s); destruct r; cbn -[bit_write Z.testbit];
    rewrite testbit_write by lia; by destruct (k =? i).
Qed.
Lemma ps3_buttons_bits r n k :
  (n <= 14)%nat -> 0 <= k < 16 ->
  Z.testbit (p_buttons (foldl (ps3_button t s c) r (iota n))) k =
    if (k <? Z.of_nat n) && bound k then mapped_bit k else Z.testbit (p_buttons r) k.
Proof using Hbind.
  intros Hn Hk. induction n as [|n IH].
  { cbn [iota seq fmap list_fmap foldl]. by rewrite (proj2 (Z.ltb_ge _ _)) by lia. }
  rewrite iota_S, foldl_app. cbn [foldl]. rewrite ps3_button_bits, IH by lia.
  destruct (Z.eqb_spec k (Z.of_nat n)) as [->|].
  - rewrite (proj2 (Z.ltb_ge (Z.of_nat n) (Z.of_nat n))), (proj2 (Z.ltb_lt _ _)) by lia.
    by destruct (bound _).
  - replace (k <? Z.of_nat (S n)) with (k <? Z.of_nat n); [by destruct (_ && _)|].
    destruct (Z.ltb_spec k (Z.of_nat n)), (Z.ltb_spec k (Z.of_nat (S n))); try done; lia.
Qed.
Lemma ps3_write_bits r v m k : 0 <= m < 16 -> 0 <= k < 16 ->
  Z.testbit (p_buttons (ps3_write r v m)) k = if k =? m then v else Z.testbit (p_buttons r) k.
Proof using. intros. unfold ps3_write. destruct r. cbn -[bit_write]. by apply testbit_write. Qed.
Definition is_rb_guitar : bool := (t =? PS3_ROCK_BAND_GUITAR) || (t =? WII_ROCK_BAND_GUITAR).
Lemma ps3_tilt_bits r k : 0 <= k < 16 ->
  Z.testbit (p_buttons (ps3_tilt t c r)) k =
    if is_rb_guitar && (k =? SWITCH_R) then r_y c =? 32767 else Z.testbit (p_buttons r) k.
Proof using.
  intros Hk. unfold ps3_tilt, is_rb_guitar. destruct (Z.eqb_spec t PS3_GUITAR_HERO_GUITAR) as [->|].
  { by destruct r. }
  destruct ((t =? PS3_ROCK_BAND_GUITAR) || (t =? WII_ROCK_BAND_GUITAR)); [|done].
  pose proof (ps3_write_bits (r <| p_r_x := u8 (128 + Z.shiftr (r_x c) 8) |>) (r_y c =? 32767)
    SWITCH_R k ltac:(cbn; lia) Hk) as E. by destruct r.
Qed.
Lemma ps3_sticks_bits r k : 0 <= k < 16 ->
  Z.testbit (p_buttons (ps3_sticks t c r)) k =
    if is_ps3_pad t && (k =? SWITCH_L) then lt c >? 50
    else if is_ps3_pad t && (k =? SWITCH_R) then rt c >? 50 else Z.testbit (p_buttons r) k.
Proof using.
  intros Hk. unfold ps3_sticks. destruct (is_ps3_pad t); cbn [andb]; [|by destruct r].
  refine (eq_trans (ps3_write_bits (ps3_write r (lt c >? 50) SWITCH_L) (rt c >? 50) SWITCH_R k
    ltac:(cbn; lia) Hk) _).
  rewrite ps3_write_bits by (cbn; lia).
  destruct (Z.eqb_spec k SWITCH_L) as [->|]; [done|]. by destruct (k =? SWITCH_R).
Qed.
(** Every button bit of a PS3 report: the trigger bits of the pads, the tilt
    bit of the Rock Band guitars, the bound controller button; a bit that no
    button is bound to keeps the old report's value. *)
Theorem ps3_report_buttons {A : Arch} r k :
  0 <= k < 16 ->
  Z.testbit (p_buttons (fillPS3Report t s c r).2) k =
    if is_ps3_pad t && (k =? SWITCH_L) then lt c >? 50
    else if is_ps3_pad t && (k =? SWITCH_R) then rt c >? 50
    else if is_rb_guitar && (k =? SWITCH_R) then r_y c =? 32767
    else if (k <? 14) && bound k then mapped_bit k else Z.testbit (p_buttons r) k.
Proof using Hbind.
  intros Hk. unfold fillPS3Report. cbn [snd].
  pose proof (ps3_buttons_bits (r <| p_rid := HID_Report_val REPORT_ID_GAMEPAD |>) 14 k
    ltac:(lia) Hk) as E.
  change (p_buttons (r <| p_rid := _ |>)) with (p_buttons r) in E.
  set (q := foldl _ _ _) in *. clearbody q.
  assert (forall r, p_buttons (ps3_switch t r) = p_buttons r) as Hsw.
  { intros [] . unfold ps3_switch. by destruct (t =? SWITCH_GAMEPAD). }
  rewrite Hsw, ps3_sticks_bits, ps3_tilt_bits by done.
  change (p_buttons (q <| hat := _ |>)) with (p_buttons q). by rewrite E.
Qed.

(** The direction a hat value stands for. *)
Definition hat_dir (h : Z) : option (Z * Z) :=
  match h with
  | 0 => Some (0, 1) | 1 => Some (1, 1) | 2 => Some (1, 0) | 3 => Some (1, -1)
  | 4 => Some (0, -1) | 5 => Some (-1, -1) | 6 => Some (-1, 0) | 7 => Some (-1, 1)
  | _ => None
  end.
(** The D-pad's direction; opposite buttons cancel the whole pad. *)
Definition dpad_dir (b : Z) : option (Z * Z) :=
  let p k := Z.testbit b (ControllerButtons_val k) in
  let x := Z.b2z (p XBOX_DPAD_RIGHT) - Z.b2z (p XBOX_DPAD_LEFT) in
  let y := Z.b2z (p XBOX_DPAD_UP) - Z.b2z (p XBOX_DPAD_DOWN) in
  if (p XBOX_DPAD_UP && p XBOX_DPAD_DOWN) || (p XBOX_DPAD_LEFT && p XBOX_DPAD_RIGHT)
     || ((x =? 0) && (y =? 0)) then None else Some (x, y).
Lemma ps3_hat_dir : hat_dir (ps3_hat c) = dpad_dir (buttons c).
Proof using.
  unfold ps3_hat, dpad_dir. set (v := Z.land (buttons c) 0xF).
  assert (forall k, 0 <= k < 4 -> Z.testbit (buttons c) k = Z.testbit v k) as Hb.
  { intros k Hk. unfold v. rewrite Z.land_spec. zcases k 0 4; by rewrite andb_true_r. }
  cbn [ControllerButtons_val]. rewrite !Hb by lia.
  assert (0 <= v < 16) as Hv by (apply (in_u_land_r 4); [lia|done]).
  clearbody v. clear Hb. zcases v 0 16; reflexivity.
Qed.
Definition stick_byte (v : Z) : Z := (v + 32768) / 256.
Lemma stick_byte_eq v : in_s 16 v -> u8 (Z.shiftr v 8 + 128) = stick_byte v.
Proof using.
  unfold in_s, stick_byte. intros Hv. rewrite Z.shiftr_div_pow2 by lia. change (2 ^ 8) with 256.
  rewrite uwrap_small; unfold in_u; zdiv.
Qed.
Lemma ps3_button_others r i :
  currentAxisBindingsLen s = 0 -> 0 <= i ->
  ps3_button t s c r i = r <| p_buttons := p_buttons (ps3_button t s c r i) |>.
Proof using.
  intros Hl Hi. unfold ps3_button. destruct (_ =? 0xff); [by destruct r|].
  rewrite Hl. rewrite (proj2 (Z.ltb_ge i 0)) by done. by destruct r.
Qed.
Lemma ps3_buttons_others r n :
  currentAxisBindingsLen s = 0 ->
  let q := foldl (ps3_button t s c) r (iota n) in q = r <| p_buttons := p_buttons q |>.
Proof using.
  intros Hl. induction n as [|n IH]; [by destruct r|]. cbv zeta in *.
  rewrite iota_S, foldl_app. cbn [foldl]. rewrite ps3_button_others by (done || lia).
  set (q := foldl _ _ _) in *. by rewrite IH at 1.
Qed.
(** The pads' report: each stick as its high byte, 128 at rest, the two
    vertical ones inverted on the Switch; the triggers in the fifth and sixth
    pressure bytes; the hat is the D-pad's direction.  The other pressure bytes
    and the accelerometers keep the old report's values. *)
Theorem ps3_pad_axes {A : Arch} r :
  is_ps3_pad t = true -> Controller_wf c -> currentAxisBindingsLen s = 0 ->
  let r' := (fillPS3Report t s c r).2 in
  let vertical v := if t =? SWITCH_GAMEPAD then 255 - v else v in
  p_l_x r' = stick_byte (l_x c) /\ p_l_y r' = vertical (stick_byte (l_y c)) /\
  p_r_x r' = stick_byte (r_x c) /\ p_r_y r' = vertical (stick_byte (r_y c)) /\
  p_axis r' = aset 5 (rt c) (aset 4 (lt c) (p_axis r)) /\ accel r' = accel r /\
  hat_dir (hat r') = dpad_dir (buttons c).
Proof using.
  intros Hp Hc Hl. apply Controller_wf_iff in Hc as (_ & _ & _ & H1 & H2 & H3 & H4).
  cbv zeta. rewrite <- ps3_hat_dir. unfold fillPS3Report. cbn [snd].
  pose proof (ps3_buttons_others (r <| p_rid := HID_Report_val REPORT_ID_GAMEPAD |>) 14 Hl) as E.
  cbv zeta in E. set (q := foldl _ _ _) in *. clearbody q. rewrite E. clear E.
  assert (t <> PS3_GUITAR_HERO_GUITAR /\ is_rb_guitar = false) as [Hg Hr].
  { unfold is_ps3_pad, is_rb_guitar in *. cbn in *. lia. }
  unfold ps3_tilt. rewrite (proj2 (Z.eqb_neq _ _) Hg). fold is_rb_guitar. rewrite Hr.
  unfold ps3_sticks. rewrite Hp. rewrite !stick_byte_eq by done.
  assert (forall v, in_s 16 v -> u8 (255 - stick_byte v) = 255 - stick_byte v) as Hu.
  { unfold in_s, stick_byte. intros v Hv. apply uwrap_small. unfold in_u. zdiv. }
  unfold ps3_switch. destruct (t =? SWITCH_GAMEPAD); destruct r, q;
    cbn -[stick_byte uwrap aset hat_dir ps3_hat]; rewrite ?Hu by done; repeat split.
Qed.
End PS3Spec.
Lemma initPS3_bindings t s :
  Forall (Z.le 0) (ps3ButtonBindings s) -> Forall (Z.le 0) (ps3ButtonBindings (initPS3 t s)).
Proof.
  intros Hs. unfold initPS3.
  set (s1 := if (t >? SWITCH_GAMEPAD) && (t >? PS3_GAMEPAD) then _ else s).
  assert (ps3ButtonBindings s1 = ps3ButtonBindings s) as E1.
  { unfold s1. destruct (_ && _); [by destruct s|done]. }
  clearbody s1. repeat match goal with |- context [if ?b then _ else _] => destruct b end;
    destruct s1; cbn [ps3ButtonBindings upd setter_of] in *; subst;
    try (repeat apply aset_Forall; [cbn; lia..|done]); try done;
    (repeat constructor; cbn; lia).
Qed.
(** The Switch pad with X and Home held, the D-pad up and right, the right
    trigger pulled. *)
Definition switch_pad : Controller_t := mkController 0x4409 0 200 (-32768) 32767 0 (-1).
Definition switch_state : ps3_state := initPS3 SWITCH_GAMEPAD ps3_init_state.
Definition blank_ps3 : PS3Report_t :=
  mkPS3 0 0 0 0 0 0 0 (replicate 12 0) (replicate 4 0).
Lemma ps3_report_buttons_witness :
  (fun k => Z.testbit (p_buttons
     (@fillPS3Report SWITCH_GAMEPAD switch_state switch_pad pico blank_ps3).2) k) <$> iota 14 =
  [false; false; false; true; false; true; false; false; false; false; false; false; true; false].
Proof.
  rewrite (list_fmap_ext _ (fun k =>
    if is_ps3_pad SWITCH_GAMEPAD && (k =? SWITCH_L) then lt switch_pad >? 50
    else if is_ps3_pad SWITCH_GAMEPAD && (k =? SWITCH_R) then rt switch_pad >? 50
    else if is_rb_guitar SWITCH_GAMEPAD && (k =? SWITCH_R) then r_y switch_pad =? 32767
    else if (k <? 14) && bound switch_state k then mapped_bit switch_state switch_pad k
    else Z.testbit (p_buttons blank_ps3) k)); [reflexivity|].
  intros i k Hk. apply (fun Hb => ps3_report_buttons SWITCH_GAMEPAD switch_state switch_pad Hb).
  - apply initPS3_bindings. repeat constructor; cbn; lia.
  - apply list_elem_of_lookup_2, list_elem_of_In, elem_of_iota in Hk. lia.
Defined.
Lemma ps3_pad_axes_witness :
  let r := (@fillPS3Report SWITCH_GAMEPAD switch_state switch_pad pico blank_ps3).2 in
  p_l_x r = 0 /\ p_l_y r = 0 /\ p_r_x r = 128 /\ p_r_y r = 128 /\
  hat_dir (hat r) = Some (1, 1).
Proof.
  cbv zeta. destruct (@ps3_pad_axes SWITCH_GAMEPAD switch_state switch_pad pico blank_ps3)
    as (E1 & E2 & E3 & E4 & _ & _ & E5).
  - reflexivity.
  - apply Controller_wf_iff. vm_compute. intuition discriminate.
  - reflexivity.
  - rewrite E1, E2, E3, E4, E5. repeat split.
Defined.
