(* ===== verification/Descriptors.v ===== *)
(** * USB descriptors: [shared/output/descriptors.c], [shared/output/descriptors.h]

    The descriptors the firmware presents to the host, as the structs of LUFA
    and their bytes, and readers that follow the USB and HID specifications.
    [multi] is the build flag [MULTI_ADAPTOR]. *)

From Stdlib Require Import ZArith Lia.
From stdpp Require Import base tactics numbers list option.
From S2P Require Import Prelude Defs Reports.
Open Scope Z_scope.

(** ** LUFA's descriptor structs

    All are packed; [*_bytes] is the object in memory. *)
Record USB_Descriptor_Header_t : Set := mkHeader { Size : Z; Type_ : Z }.
Record USB_Descriptor_Device_t : Set := mkDevice {
  dev_Header : USB_Descriptor_Header_t; USBSpecification : Z;
  dev_Class : Z; dev_SubClass : Z; dev_Protocol : Z; Endpoint0Size : Z;
  VendorID : Z; ProductID : Z; ReleaseNumber : Z; ManufacturerStrIndex : Z;
  ProductStrIndex : Z; SerialNumStrIndex : Z; NumberOfConfigurations : Z
}.
Record USB_Descriptor_Configuration_Header_t : Set := mkConfigHeader {
  cfg_Header : USB_Descriptor_Header_t; TotalConfigurationSize : Z; TotalInterfaces : Z;
  ConfigurationNumber : Z; ConfigurationStrIndex : Z; ConfigAttributes : Z;
  MaxPowerConsumption : Z
}.
Record USB_Descriptor_Interface_t : Set := mkInterface {
  itf_Header : USB_Descriptor_Header_t; InterfaceNumber : Z; AlternateSetting : Z;
  TotalEndpoints : Z; itf_Class : Z; itf_SubClass : Z; itf_Protocol : Z; InterfaceStrIndex : Z
}.
Record USB_Descriptor_Endpoint_t : Set := mkEndpoint {
  ep_Header : USB_Descriptor_Header_t; EndpointAddress : Z; Attributes : Z;
  EndpointSize : Z; PollingIntervalMS : Z
}.
Record USB_HID_Descriptor_HID_t : Set := mkHid {
  hid_Header : USB_Descriptor_Header_t; HIDSpec : Z; CountryCode : Z;
  TotalReportDescriptors : Z; HIDReportType : Z; HIDReportLength : Z
}.
Record USB_Audio_Descriptor_Interface_AC_t : Set := mkAC {
  ac_Header : USB_Descriptor_Header_t; ac_Subtype : Z; ACSpecification : Z;
  ac_TotalLength : Z; InCollection : Z; ac_InterfaceNumber : Z
}.
Record USB_MIDI_Descriptor_AudioInterface_AS_t : Set := mkAS {
  as_Header : USB_Descriptor_Header_t; as_Subtype : Z; AudioSpecification : Z;
  as_TotalLength : Z
}.
Record USB_MIDI_Descriptor_InputJack_t : Set := mkInJack {
  in_Header : USB_Descriptor_Header_t; in_Subtype : Z; in_JackType : Z; in_JackID : Z;
  in_JackStrIndex : Z
}.
Record USB_MIDI_Descriptor_OutputJack_t : Set := mkOutJack {
  out_Header : USB_Descriptor_Header_t; out_Subtype : Z; out_JackType : Z; out_JackID : Z;
  NumberOfPins : Z; SourceJackID : Z; SourcePinID : Z; out_JackStrIndex : Z
}.
Record USB_Audio_Descriptor_StreamEndpoint_Std_t : Set := mkStreamEndpoint {
  Endpoint : USB_Descriptor_Endpoint_t; Refresh : Z; SyncEndpointNumber : Z
}.
Record USB_MIDI_Descriptor_Jack_Endpoint_t : Set := mkJackEndpoint {
  jep_Header : USB_Descriptor_Header_t; jep_Subtype : Z; TotalEmbeddedJacks : Z;
  AssociatedJackID : Z
}.
(** The descriptor of an Xbox 360 controller's interface. *)
Record USB_HID_XBOX_Descriptor_HID_t : Set := mkXbox {
  xb_Header : USB_Descriptor_Header_t; reserved : list Z; subtype : Z; reserved2 : Z;
  bEndpointAddressIn : Z; bMaxDataSizeIn : Z; reserved3 : list Z;
  bEndpointAddressOut : Z; bMaxDataSizeOut : Z; reserved4 : list Z
}.

Definition header_bytes (h : USB_Descriptor_Header_t) : list Z := [Size h; Type_ h].
Definition device_bytes (d : USB_Descriptor_Device_t) : list Z :=
  header_bytes (dev_Header d) ++ le_bytes 2 (USBSpecification d) ++
  [dev_Class d; dev_SubClass d; dev_Protocol d; Endpoint0Size d] ++
  le_bytes 2 (VendorID d) ++ le_bytes 2 (ProductID d) ++ le_bytes 2 (ReleaseNumber d) ++
  [ManufacturerStrIndex d; ProductStrIndex d; SerialNumStrIndex d; NumberOfConfigurations d].
Definition config_header_bytes (c : USB_Descriptor_Configuration_Header_t) : list Z :=
  header_bytes (cfg_Header c) ++ le_bytes 2 (TotalConfigurationSize c) ++
  [TotalInterfaces c; ConfigurationNumber c; ConfigurationStrIndex c; ConfigAttributes c;
   MaxPowerConsumption c].
Definition interface_bytes (i : USB_Descriptor_Interface_t) : list Z :=
  header_bytes (itf_Header i) ++
  [InterfaceNumber i; AlternateSetting i; TotalEndpoints i; itf_Class i; itf_SubClass i;
   itf_Protocol i; InterfaceStrIndex i].
Definition endpoint_bytes (e : USB_Descriptor_Endpoint_t) : list Z :=
  header_bytes (ep_Header e) ++ [EndpointAddress e; Attributes e] ++
  le_bytes 2 (EndpointSize e) ++ [PollingIntervalMS e].
Definition hid_bytes (h : USB_HID_Descriptor_HID_t) : list Z :=
  header_bytes (hid_Header h) ++ le_bytes 2 (HIDSpec h) ++
  [CountryCode h; TotalReportDescriptors h; HIDReportType h] ++ le_bytes 2 (HIDReportLength h).
Definition ac_bytes (a : USB_Audio_Descriptor_Interface_AC_t) : list Z :=
  header_bytes (ac_Header a) ++ [ac_Subtype a] ++ le_bytes 2 (ACSpecification a) ++
  le_bytes 2 (ac_TotalLength a) ++ [InCollection a; ac_InterfaceNumber a].
Definition as_bytes (a : USB_MIDI_Descriptor_AudioInterface_AS_t) : list Z :=
  header_bytes (as_Header a) ++ [as_Subtype a] ++ le_bytes 2 (AudioSpecification a) ++
  le_bytes 2 (as_TotalLength a).
Definition in_jack_bytes (j : USB_MIDI_Descriptor_InputJack_t) : list Z :=
  header_bytes (in_Header j) ++ [in_Subtype j; in_JackType j; in_JackID j; in_JackStrIndex j].
Definition out_jack_bytes (j : USB_MIDI_Descriptor_OutputJack_t) : list Z :=
  header_bytes (out_Header j) ++
  [out_Subtype j; out_JackType j; out_JackID j; NumberOfPins j; SourceJackID j; SourcePinID j;
   out_JackStrIndex j].
Definition stream_endpoint_bytes (e : USB_Audio_Descriptor_StreamEndpoint_Std_t) : list Z :=
  endpoint_bytes (Endpoint e) ++ [Refresh e; SyncEndpointNumber e].
Definition jack_endpoint_bytes (e : USB_MIDI_Descriptor_Jack_Endpoint_t) : list Z :=
  header_bytes (jep_Header e) ++ [jep_Subtype e; TotalEmbeddedJacks e; AssociatedJackID e].
Definition xbox_bytes (x : USB_HID_XBOX_Descriptor_HID_t) : list Z :=
  header_bytes (xb_Header x) ++ reserved x ++
  [subtype x; reserved2 x; bEndpointAddressIn x; bMaxDataSizeIn x] ++ reserved3 x ++
  [bEndpointAddressOut x; bMaxDataSizeOut x] ++ reserved4 x.

Definition sizeof_Device : Z := 18.
Definition sizeof_Configuration_Header : Z := 9.
Definition sizeof_Interface : Z := 9.
Definition sizeof_Endpoint : Z := 7.
Definition sizeof_HID : Z := 9.
Definition sizeof_AC : Z := 9.
Definition sizeof_AS : Z := 7.
Definition sizeof_InputJack : Z := 6.
Definition sizeof_OutputJack : Z := 9.
Definition sizeof_StreamEndpoint : Z := 9.
Definition sizeof_Jack_Endpoint : Z := 5.
Definition sizeof_XBOX : Z := 17.

(** ** Constants of LUFA and of descriptors.h *)
Definition NO_DESCRIPTOR : Z := 0.
Definition DTYPE_Device : Z := 1.
Definition DTYPE_Configuration : Z := 2.
Definition DTYPE_String : Z := 3.
Definition DTYPE_Interface : Z := 4.
Definition DTYPE_Endpoint : Z := 5.
Definition HID_DTYPE_HID : Z := 0x21.
Definition HID_DTYPE_Report : Z := 0x22.
Definition AUDIO_DTYPE_CSInterface : Z := 0x24.
Definition AUDIO_DTYPE_CSEndpoint : Z := 0x25.
Definition EP_TYPE_BULK : Z := 2.
Definition EP_TYPE_INTERRUPT : Z := 3.
Definition ENDPOINT_DIR_OUT : Z := 0.
Definition ENDPOINT_DIR_IN : Z := 0x80.
Definition MIDI_JACKTYPE_Embedded : Z := 1.
Definition MIDI_JACKTYPE_External : Z := 2.
Definition LANGUAGE_ID_ENG : Z := 0x0409.
Definition USB_CONFIG_ATTR_RESERVED : Z := 0x80.
Definition USB_CONFIG_POWER_MA (mA : Z) : Z := Z.shiftr mA 1.
Definition VERSION_BCD (Major Minor Revision : Z) : Z :=
  Z.lor (Z.lor (Z.shiftl (Z.land Major 0xFF) 8) (Z.shiftl (Z.land Minor 0x0F) 4))
        (Z.land Revision 0x0F).

Definition REQ_GetOSFeatureDescriptor : Z := 0x20.
Definition EXTENDED_COMPAT_ID_DESCRIPTOR : Z := 4.
Definition EXTENDED_PROPERTIES_DESCRIPTOR : Z := 5.
Definition HID_EPSIZE : Z := 32.
Definition FIXED_NUM_CONFIGURATIONS : Z := 1.
Definition XINPUT_EPADDR_IN : Z := Z.lor ENDPOINT_DIR_IN 2.
Definition HID_EPADDR_IN : Z := Z.lor ENDPOINT_DIR_IN 1.
Definition MIDI_EPADDR_IN : Z := Z.lor ENDPOINT_DIR_IN 3.
Definition XINPUT_2_EPADDR_IN : Z := Z.lor ENDPOINT_DIR_IN 2.
Definition XINPUT_3_EPADDR_IN : Z := Z.lor ENDPOINT_DIR_IN 3.
Definition XINPUT_4_EPADDR_IN : Z := Z.lor ENDPOINT_DIR_IN 4.
Definition HID_EPADDR_OUT : Z := Z.lor ENDPOINT_DIR_OUT 6.
Definition XINPUT_EPADDR_OUT : Z := Z.lor ENDPOINT_DIR_OUT 7.
Definition MIDI_EPADDR_OUT : Z := Z.lor ENDPOINT_DIR_OUT 8.
Definition XINPUT_2_EPADDR_OUT : Z := Z.lor ENDPOINT_DIR_OUT 9.
Definition XINPUT_3_EPADDR_OUT : Z := Z.lor ENDPOINT_DIR_OUT 10.
Definition XINPUT_4_EPADDR_OUT : Z := Z.lor ENDPOINT_DIR_OUT 11.
(** The interfaces of both builds; 3 and 4 are used by one of them each. *)
Inductive InterfaceDescriptors_t : Set :=
  | INTERFACE_ID_HID | INTERFACE_ID_XInput | INTERFACE_ID_Config
  | INTERFACE_ID_XInput_2 | INTERFACE_ID_XInput_3 | INTERFACE_ID_XInput_4
  | INTERFACE_ID_ControlStream | INTERFACE_ID_AudioStream.
Definition interface_id (i : InterfaceDescriptors_t) : Z :=
  match i with
  | INTERFACE_ID_HID => 0 | INTERFACE_ID_XInput => 1 | INTERFACE_ID_Config => 2
  | INTERFACE_ID_XInput_2 => 3 | INTERFACE_ID_XInput_3 => 4 | INTERFACE_ID_XInput_4 => 5
  | INTERFACE_ID_ControlStream => 3 | INTERFACE_ID_AudioStream => 4
  end.
Coercion interface_id : InterfaceDescriptors_t >-> Z.

(** ** Strings, vendor and product ids *)
Record USB_Descriptor_String_t : Set := mkString {
  str_Header : USB_Descriptor_Header_t; UnicodeString : list Z
}.
Definition string_bytes (s : USB_Descriptor_String_t) : list Z :=
  header_bytes (str_Header s) ++ flat_map (le_bytes 2) (UnicodeString s).
Definition languageString : USB_Descriptor_String_t :=
  mkString (mkHeader (2 + 2) DTYPE_String) [LANGUAGE_ID_ENG].
Definition manufacturerString : USB_Descriptor_String_t :=
  mkString (mkHeader (2 + 18) DTYPE_String) [115; 97; 110; 106; 97; 121; 57; 48; 48].
Definition productString : USB_Descriptor_String_t :=
  mkString (mkHeader (2 + 16) DTYPE_String) [65; 114; 100; 119; 105; 105; 110; 111].
Definition descriptorStrings : list USB_Descriptor_String_t :=
  [languageString; manufacturerString; productString].
Record USB_OSDescriptor_t : Set := mkOS {
  os_Header : USB_Descriptor_Header_t; Signature : list Z; VendorCode : Z; os_Reserved : Z
}.
Definition os_bytes (o : USB_OSDescriptor_t) : list Z :=
  header_bytes (os_Header o) ++ flat_map (le_bytes 2) (Signature o) ++
  [VendorCode o; os_Reserved o].
(** "MSFT100" *)
Definition OSDescriptorString : USB_OSDescriptor_t :=
  mkOS (mkHeader 18 DTYPE_String) [77; 83; 70; 84; 49; 48; 48] REQ_GetOSFeatureDescriptor 0.
Definition ARDWIINO_VID : Z := 0x1209.
Definition ARDWIINO_PID : Z := 0x2882.
Definition vid : list Z :=
  [0x0F0D; 0x12ba; 0x12ba; 0x12ba; 0x12ba; ARDWIINO_VID; 0x1bad; 0x1bad].
Definition pid : list Z :=
  [0x0092; 0x0100; 0x0120; 0x0200; 0x0210; ARDWIINO_PID; 0x0004; 0x074B].

(** ** Device and configuration descriptors *)
Definition deviceDescriptor (ep0size serial major minor revision : Z) : USB_Descriptor_Device_t :=
  {| dev_Header := mkHeader sizeof_Device DTYPE_Device;
     USBSpecification := VERSION_BCD 2 0 0;
     dev_Class := 0; dev_SubClass := 0; dev_Protocol := 0;
     Endpoint0Size := ep0size;
     VendorID := ARDWIINO_VID; ProductID := ARDWIINO_PID;
     ReleaseNumber := VERSION_BCD major minor revision;
     ManufacturerStrIndex := 1; ProductStrIndex := 2; SerialNumStrIndex := serial;
     NumberOfConfigurations := FIXED_NUM_CONFIGURATIONS |}.

(** One Xbox interface: the four members every copy of it has. *)
Record xinput_members : Set := mkXMembers {
  InterfaceXInput : USB_Descriptor_Interface_t;
  XInputReserved : USB_HID_XBOX_Descriptor_HID_t;
  EndpointInXInput : USB_Descriptor_Endpoint_t;
  EndpointOutXInput : USB_Descriptor_Endpoint_t
}.
(** The members of a build without [MULTI_ADAPTOR]. *)
Record midi_members : Set := mkMidiMembers {
  Interface_AudioControl : USB_Descriptor_Interface_t;
  Audio_ControlInterface_SPC : USB_Audio_Descriptor_Interface_AC_t;
  Interface_AudioStream : USB_Descriptor_Interface_t;
  Audio_StreamInterface_SPC : USB_MIDI_Descriptor_AudioInterface_AS_t;
  MIDI_In_Jack_Emb : USB_MIDI_Descriptor_InputJack_t;
  MIDI_In_Jack_Ext : USB_MIDI_Descriptor_InputJack_t;
  MIDI_Out_Jack_Emb : USB_MIDI_Descriptor_OutputJack_t;
  MIDI_Out_Jack_Ext : USB_MIDI_Descriptor_OutputJack_t;
  MIDI_In_Jack_Endpoint : USB_Audio_Descriptor_StreamEndpoint_Std_t;
  MIDI_In_Jack_Endpoint_SPC : USB_MIDI_Descriptor_Jack_Endpoint_t;
  MIDI_Out_Jack_Endpoint : USB_Audio_Descriptor_StreamEndpoint_Std_t;
  MIDI_Out_Jack_Endpoint_SPC : USB_MIDI_Descriptor_Jack_Endpoint_t
}.
(** The whole struct; [ExtraXInput] are the copies 2 to 4 of a [MULTI_ADAPTOR]
    build, [Midi] the members of the other. *)
Record USB_Descriptor_Configuration_t : Set := mkConfiguration {
  Config : USB_Descriptor_Configuration_Header_t;
  InterfaceHID : USB_Descriptor_Interface_t;
  HIDDescriptor : USB_HID_Descriptor_HID_t;
  EndpointInHID : USB_Descriptor_Endpoint_t;
  EndpointOutHID : USB_Descriptor_Endpoint_t;
  XInput : xinput_members;
  ExtraXInput : list xinput_members;
  InterfaceConfig : USB_Descriptor_Interface_t;
  Midi : option midi_members
}.
Definition xinput_bytes (x : xinput_members) : list Z :=
  interface_bytes (InterfaceXInput x) ++ xbox_bytes (XInputReserved x) ++
  endpoint_bytes (EndpointInXInput x) ++ endpoint_bytes (EndpointOutXInput x).
Definition midi_bytes (m : midi_members) : list Z :=
  interface_bytes (Interface_AudioControl m) ++ ac_bytes (Audio_ControlInterface_SPC m) ++
  interface_bytes (Interface_AudioStream m) ++ as_bytes (Audio_StreamInterface_SPC m) ++
  in_jack_bytes (MIDI_In_Jack_Emb m) ++ in_jack_bytes (MIDI_In_Jack_Ext m) ++
  out_jack_bytes (MIDI_Out_Jack_Emb m) ++ out_jack_bytes (MIDI_Out_Jack_Ext m) ++
  stream_endpoint_bytes (MIDI_In_Jack_Endpoint m) ++
  jack_endpoint_bytes (MIDI_In_Jack_Endpoint_SPC m) ++
  stream_endpoint_bytes (MIDI_Out_Jack_Endpoint m) ++
  jack_endpoint_bytes (MIDI_Out_Jack_Endpoint_SPC m).
Definition configuration_bytes (c : USB_Descriptor_Configuration_t) : list Z :=
  config_header_bytes (Config c) ++ interface_bytes (InterfaceHID c) ++
  hid_bytes (HIDDescriptor c) ++ endpoint_bytes (EndpointInHID c) ++
  endpoint_bytes (EndpointOutHID c) ++ xinput_bytes (XInput c) ++
  flat_map xinput_bytes (ExtraXInput c) ++ interface_bytes (InterfaceConfig c) ++
  default [] (midi_bytes <$> Midi c).

Definition sizeof_xinput : Z :=
  sizeof_Interface + sizeof_XBOX + sizeof_Endpoint + sizeof_Endpoint.
Definition offsetof_XInputReserved : Z :=
  sizeof_Configuration_Header + sizeof_Interface + sizeof_HID + 2 * sizeof_Endpoint +
  sizeof_Interface.
(** [offsetof(.., XInputReserved.subtype)] *)
Definition offsetof_subtype : Z := offsetof_XInputReserved + 4.
Definition offsetof_VendorID : Z := 8.
Definition offsetof_ProductID : Z := 10.
(** From [Audio_StreamInterface_SPC] to the end. *)
Definition sizeof_audio_stream : Z :=
  sizeof_AS + 2 * sizeof_InputJack + 2 * sizeof_OutputJack +
  2 * (sizeof_StreamEndpoint + sizeof_Jack_Endpoint).
Definition sizeof_Configuration (multi : bool) : Z :=
  sizeof_Configuration_Header + sizeof_Interface + sizeof_HID + 2 * sizeof_Endpoint +
  sizeof_xinput + (if multi then 3 * sizeof_xinput else 0) + sizeof_Interface +
  (if multi then 0 else 2 * sizeof_Interface + sizeof_AC + sizeof_audio_stream).

Definition interface (num : InterfaceDescriptors_t) (endpoints class sub proto : Z)
  : USB_Descriptor_Interface_t :=
  {| itf_Header := mkHeader sizeof_Interface DTYPE_Interface; InterfaceNumber := num;
     AlternateSetting := 0; TotalEndpoints := endpoints; itf_Class := class;
     itf_SubClass := sub; itf_Protocol := proto; InterfaceStrIndex := NO_DESCRIPTOR |}.
Definition endpoint (addr attributes : Z) : USB_Descriptor_Endpoint_t :=
  {| ep_Header := mkHeader sizeof_Endpoint DTYPE_Endpoint; EndpointAddress := addr;
     Attributes := attributes; EndpointSize := HID_EPSIZE; PollingIntervalMS := 1 |}.
(** A member no initialiser names. *)
Definition zero_endpoint : USB_Descriptor_Endpoint_t := mkEndpoint (mkHeader 0 0) 0 0 0 0.
Definition xinput_interface (num : InterfaceDescriptors_t) (ep_in ep_out : Z) : xinput_members :=
  {| InterfaceXInput := interface num 2 0xFF 0x5D 0x01;
     XInputReserved :=
       {| xb_Header := mkHeader sizeof_XBOX 0x21; reserved := [0; 1]; subtype := 0;
          reserved2 := 0x25; bEndpointAddressIn := ep_in; bMaxDataSizeIn := HID_EPSIZE;
          reserved3 := [0; 0; 0; 0; 0x13]; bEndpointAddressOut := ep_out;
          bMaxDataSizeOut := HID_EPSIZE; reserved4 := [0; 0] |};
     EndpointInXInput := endpoint ep_in EP_TYPE_INTERRUPT;
     EndpointOutXInput := endpoint ep_out EP_TYPE_INTERRUPT |}.
Definition in_jack (kind id : Z) : USB_MIDI_Descriptor_InputJack_t :=
  mkInJack (mkHeader sizeof_InputJack AUDIO_DTYPE_CSInterface) 2 kind id NO_DESCRIPTOR.
Definition out_jack (kind id source : Z) : USB_MIDI_Descriptor_OutputJack_t :=
  mkOutJack (mkHeader sizeof_OutputJack AUDIO_DTYPE_CSInterface) 3 kind id 1 source 1 NO_DESCRIPTOR.
Definition midi_endpoint (addr : Z) : USB_Audio_Descriptor_StreamEndpoint_Std_t :=
  mkStreamEndpoint
    (mkEndpoint (mkHeader sizeof_StreamEndpoint DTYPE_Endpoint) addr EP_TYPE_BULK HID_EPSIZE 1) 0 0.
Definition midi_jack_endpoint (jack : Z) : USB_MIDI_Descriptor_Jack_Endpoint_t :=
  mkJackEndpoint (mkHeader sizeof_Jack_Endpoint AUDIO_DTYPE_CSEndpoint) 1 1 jack.
Definition midi_descriptor : midi_members :=
  {| Interface_AudioControl := interface INTERFACE_ID_ControlStream 0 1 1 0;
     Interface_AudioStream := interface INTERFACE_ID_AudioStream 2 1 3 0;
     Audio_ControlInterface_SPC :=
       mkAC (mkHeader sizeof_AC AUDIO_DTYPE_CSInterface) 1 (VERSION_BCD 1 0 0) sizeof_AC 1
            INTERFACE_ID_AudioStream;
     Audio_StreamInterface_SPC :=
       mkAS (mkHeader sizeof_AS AUDIO_DTYPE_CSInterface) 1 (VERSION_BCD 1 0 0) sizeof_audio_stream;
     MIDI_In_Jack_Emb := in_jack MIDI_JACKTYPE_Embedded 1;
     MIDI_In_Jack_Ext := in_jack MIDI_JACKTYPE_External 2;
     MIDI_Out_Jack_Emb := out_jack MIDI_JACKTYPE_Embedded 3 2;
     MIDI_Out_Jack_Ext := out_jack MIDI_JACKTYPE_External 4 1;
     MIDI_Out_Jack_Endpoint := midi_endpoint MIDI_EPADDR_IN;
     MIDI_In_Jack_Endpoint_SPC := midi_jack_endpoint 1;
     MIDI_In_Jack_Endpoint := midi_endpoint MIDI_EPADDR_OUT;
     MIDI_Out_Jack_Endpoint_SPC := midi_jack_endpoint 3 |}.
(** ** HID report descriptors *)
Definition HID_RI_TYPE_MAIN : Z := 0x00.
Definition HID_RI_TYPE_GLOBAL : Z := 0x04.
Definition HID_RI_TYPE_LOCAL : Z := 0x08.
Definition HID_RI_DATA_BITS (bits : Z) : Z :=
  if bits =? 8 then 1 else if bits =? 16 then 2 else if bits =? 32 then 3 else 0.
Definition HID_RI_ENCODE (bits data : Z) : list Z :=
  (fun i => Z.land (Z.shiftr data (8 * i)) 0xFF) <$> iota (Z.to_nat (bits / 8)).
Definition HID_RI_ENTRY (type tag bits data : Z) : list Z :=
  Z.lor (Z.lor type tag) (HID_RI_DATA_BITS bits) :: HID_RI_ENCODE bits data.
Definition HID_RI_INPUT : Z -> Z -> list Z := HID_RI_ENTRY HID_RI_TYPE_MAIN 0x80.
Definition HID_RI_OUTPUT : Z -> Z -> list Z := HID_RI_ENTRY HID_RI_TYPE_MAIN 0x90.
Definition HID_RI_COLLECTION : Z -> Z -> list Z := HID_RI_ENTRY HID_RI_TYPE_MAIN 0xA0.
Definition HID_RI_FEATURE : Z -> Z -> list Z := HID_RI_ENTRY HID_RI_TYPE_MAIN 0xB0.
Definition HID_RI_END_COLLECTION : Z -> Z -> list Z := HID_RI_ENTRY HID_RI_TYPE_MAIN 0xC0.
Definition HID_RI_USAGE_PAGE : Z -> Z -> list Z := HID_RI_ENTRY HID_RI_TYPE_GLOBAL 0x00.
Definition HID_RI_LOGICAL_MINIMUM : Z -> Z -> list Z := HID_RI_ENTRY HID_RI_TYPE_GLOBAL 0x10.
Definition HID_RI_LOGICAL_MAXIMUM : Z -> Z -> list Z := HID_RI_ENTRY HID_RI_TYPE_GLOBAL 0x20.
Definition HID_RI_PHYSICAL_MINIMUM : Z -> Z -> list Z := HID_RI_ENTRY HID_RI_TYPE_GLOBAL 0x30.
Definition HID_RI_PHYSICAL_MAXIMUM : Z -> Z -> list Z := HID_RI_ENTRY HID_RI_TYPE_GLOBAL 0x40.
Definition HID_RI_UNIT : Z -> Z -> list Z := HID_RI_ENTRY HID_RI_TYPE_GLOBAL 0x60.
Definition HID_RI_REPORT_SIZE : Z -> Z -> list Z := HID_RI_ENTRY HID_RI_TYPE_GLOBAL 0x70.
Definition HID_RI_REPORT_ID : Z -> Z -> list Z := HID_RI_ENTRY HID_RI_TYPE_GLOBAL 0x80.
Definition HID_RI_REPORT_COUNT : Z -> Z -> list Z := HID_RI_ENTRY HID_RI_TYPE_GLOBAL 0x90.
Definition HID_RI_USAGE : Z -> Z -> list Z := HID_RI_ENTRY HID_RI_TYPE_LOCAL 0x00.
Definition HID_RI_USAGE_MINIMUM : Z -> Z -> list Z := HID_RI_ENTRY HID_RI_TYPE_LOCAL 0x10.
Definition HID_RI_USAGE_MAXIMUM : Z -> Z -> list Z := HID_RI_ENTRY HID_RI_TYPE_LOCAL 0x20.
(** The flags of a main item. *)
Definition iof (flags : list Z) : Z := foldr Z.lor 0 flags.
Definition HID_IOF_CONSTANT : Z := Z.shiftl 1 0.
Definition HID_IOF_DATA : Z := Z.shiftl 0 0.
Definition HID_IOF_VARIABLE : Z := Z.shiftl 1 1.
Definition HID_IOF_ARRAY : Z := Z.shiftl 0 1.
Definition HID_IOF_RELATIVE : Z := Z.shiftl 1 2.
Definition HID_IOF_ABSOLUTE : Z := Z.shiftl 0 2.
Definition HID_IOF_NO_WRAP : Z := Z.shiftl 0 3.
Definition HID_IOF_LINEAR : Z := Z.shiftl 0 4.
Definition HID_IOF_PREFERRED_STATE : Z := Z.shiftl 0 5.
Definition HID_IOF_NULLSTATE : Z := Z.shiftl 1 6.
Definition HID_IOF_NO_NULL_POSITION : Z := Z.shiftl 0 6.
Definition HID_IOF_NON_VOLATILE : Z := Z.shiftl 0 7.
Definition HID_USAGE_POINTER : Z := 1.
Definition HID_USAGE_MOUSE : Z := 2.
Definition HID_USAGE_GAMEPAD : Z := 5.
Definition HID_USAGE_KEYBOARD : Z := 6.
Definition HID_USAGE_HAT_SWITCH : Z := 0x39.
Definition HID_USAGE_X : Z := 0x30.
Definition HID_USAGE_Y : Z := 0x31.
Definition HID_USAGE_Z : Z := 0x32.
Definition HID_USAGE_Rz : Z := 0x35.
Definition HID_USAGE_Wheel : Z := 0x38.
Definition HID_USAGE_CONSUMER_AC_PAN : Z := 0x0238.
Definition HID_USAGE_PAGE_GENERIC_DESKTOP : Z := 1.
Definition HID_USAGE_PAGE_KEYBOARD : Z := 7.
Definition HID_USAGE_PAGE_LED : Z := 8.
Definition HID_USAGE_PAGE_BUTTON : Z := 9.
Definition HID_USAGE_PAGE_CONSUMER : Z := 0x0c.
Definition HID_UNIT_NONE : Z := 0.
Definition HID_UNIT_DEGREES : Z := 0x14.
Definition HID_COLLECTION_PHYSICAL : Z := 0.
Definition HID_COLLECTION_APPLICATION : Z := 1.
Definition Buttons : Z := 4.
Definition ps3_report_descriptor : list Z :=
  concat [
    HID_RI_USAGE_PAGE 8 HID_USAGE_PAGE_GENERIC_DESKTOP; HID_RI_USAGE 8 HID_USAGE_GAMEPAD;
    HID_RI_COLLECTION 8 HID_COLLECTION_APPLICATION; HID_RI_LOGICAL_MINIMUM 8 0;
    HID_RI_LOGICAL_MAXIMUM 8 1; HID_RI_PHYSICAL_MINIMUM 8 0; HID_RI_PHYSICAL_MAXIMUM 8 1;
    HID_RI_REPORT_SIZE 8 1; HID_RI_REPORT_COUNT 8 13; HID_RI_USAGE_PAGE 8 HID_USAGE_PAGE_BUTTON;
    HID_RI_USAGE_MINIMUM 8 0x01; HID_RI_USAGE_MAXIMUM 8 0x0D;
    HID_RI_INPUT 8 (iof [HID_IOF_DATA; HID_IOF_VARIABLE; HID_IOF_ABSOLUTE; HID_IOF_NO_WRAP;
      HID_IOF_LINEAR; HID_IOF_PREFERRED_STATE; HID_IOF_NO_NULL_POSITION]);
    HID_RI_REPORT_COUNT 8 0x03;
    HID_RI_INPUT 8 (iof [HID_IOF_CONSTANT; HID_IOF_ARRAY; HID_IOF_ABSOLUTE; HID_IOF_NO_WRAP;
      HID_IOF_LINEAR; HID_IOF_PREFERRED_STATE; HID_IOF_NO_NULL_POSITION]);
    HID_RI_USAGE_PAGE 8 HID_USAGE_PAGE_GENERIC_DESKTOP; HID_RI_LOGICAL_MAXIMUM 8 7;
    HID_RI_PHYSICAL_MAXIMUM 16 315; HID_RI_REPORT_SIZE 8 4; HID_RI_REPORT_COUNT 8 0x01;
    HID_RI_UNIT 8 HID_UNIT_DEGREES; HID_RI_USAGE 8 HID_USAGE_HAT_SWITCH;
    HID_RI_INPUT 8 (iof [HID_IOF_DATA; HID_IOF_VARIABLE; HID_IOF_ABSOLUTE; HID_IOF_NO_WRAP;
      HID_IOF_LINEAR; HID_IOF_PREFERRED_STATE; HID_IOF_NULLSTATE]);
    HID_RI_UNIT 8 HID_UNIT_NONE; HID_RI_REPORT_COUNT 8 0x01;
    HID_RI_INPUT 8 (iof [HID_IOF_CONSTANT; HID_IOF_ARRAY; HID_IOF_ABSOLUTE; HID_IOF_NO_WRAP;
      HID_IOF_LINEAR; HID_IOF_PREFERRED_STATE; HID_IOF_NO_NULL_POSITION]);
    HID_RI_LOGICAL_MAXIMUM 16 255; HID_RI_PHYSICAL_MAXIMUM 16 255; HID_RI_USAGE 8 HID_USAGE_X;
    HID_RI_USAGE 8 HID_USAGE_Y; HID_RI_USAGE 8 HID_USAGE_Z; HID_RI_USAGE 8 HID_USAGE_Rz;
    HID_RI_REPORT_SIZE 8 8; HID_RI_REPORT_COUNT 8 4;
    HID_RI_INPUT 8 (iof [HID_IOF_DATA; HID_IOF_VARIABLE; HID_IOF_ABSOLUTE; HID_IOF_NO_WRAP;
      HID_IOF_LINEAR; HID_IOF_PREFERRED_STATE; HID_IOF_NO_NULL_POSITION]);
    HID_RI_USAGE_PAGE 16 0xFF00; HID_RI_USAGE 8 0x20; HID_RI_USAGE 8 0x21; HID_RI_USAGE 8 0x22;
    HID_RI_USAGE 8 0x23; HID_RI_USAGE 8 0x24; HID_RI_USAGE 8 0x25; HID_RI_USAGE 8 0x26;
    HID_RI_USAGE 8 0x27; HID_RI_USAGE 8 0x28; HID_RI_USAGE 8 0x29; HID_RI_USAGE 8 0x2A;
    HID_RI_USAGE 8 0x2B; HID_RI_REPORT_COUNT 8 12;
    HID_RI_INPUT 8 (iof [HID_IOF_DATA; HID_IOF_VARIABLE; HID_IOF_ABSOLUTE; HID_IOF_NO_WRAP;
      HID_IOF_LINEAR; HID_IOF_PREFERRED_STATE; HID_IOF_NO_NULL_POSITION]);
    HID_RI_USAGE 16 0x2621; HID_RI_REPORT_COUNT 8 32;
    HID_RI_FEATURE 8 (iof [HID_IOF_DATA; HID_IOF_VARIABLE; HID_IOF_ABSOLUTE; HID_IOF_NO_WRAP;
      HID_IOF_LINEAR; HID_IOF_PREFERRED_STATE; HID_IOF_NO_NULL_POSITION; HID_IOF_NON_VOLATILE]);
    HID_RI_USAGE 16 0x2621;
    HID_RI_OUTPUT 8 (iof [HID_IOF_DATA; HID_IOF_VARIABLE; HID_IOF_ABSOLUTE; HID_IOF_NO_WRAP;
      HID_IOF_LINEAR; HID_IOF_PREFERRED_STATE; HID_IOF_NO_NULL_POSITION; HID_IOF_NON_VOLATILE]);
    HID_RI_LOGICAL_MAXIMUM 16 1023; HID_RI_PHYSICAL_MAXIMUM 16 1023; HID_RI_USAGE 8 0x2C;
    HID_RI_USAGE 8 0x2D; HID_RI_USAGE 8 0x2E; HID_RI_USAGE 8 0x2F; HID_RI_REPORT_SIZE 8 16;
    HID_RI_REPORT_COUNT 8 4;
    HID_RI_INPUT 8 (iof [HID_IOF_DATA; HID_IOF_VARIABLE; HID_IOF_ABSOLUTE; HID_IOF_NO_WRAP;
      HID_IOF_LINEAR; HID_IOF_PREFERRED_STATE; HID_IOF_NO_NULL_POSITION; HID_IOF_NON_VOLATILE]);
    HID_RI_END_COLLECTION 0 0].
Definition kbd_report_descriptor : list Z :=
  concat [
    HID_RI_USAGE_PAGE 8 HID_USAGE_PAGE_GENERIC_DESKTOP; HID_RI_USAGE 8 HID_USAGE_KEYBOARD;
    HID_RI_COLLECTION 8 HID_COLLECTION_APPLICATION; HID_RI_REPORT_ID 8 REPORT_ID_KBD;
    HID_RI_USAGE_PAGE 8 HID_USAGE_PAGE_KEYBOARD; HID_RI_USAGE_MINIMUM 8 0xE0;
    HID_RI_USAGE_MAXIMUM 8 0xE7; HID_RI_LOGICAL_MINIMUM 8 0x00; HID_RI_LOGICAL_MAXIMUM 8 0x01;
    HID_RI_REPORT_SIZE 8 0x01; HID_RI_REPORT_COUNT 8 0x08;
    HID_RI_INPUT 8 (iof [HID_IOF_DATA; HID_IOF_VARIABLE; HID_IOF_ABSOLUTE]);
    HID_RI_REPORT_COUNT 8 0x01; HID_RI_REPORT_SIZE 8 0x08;
    HID_RI_INPUT 8 (iof [HID_IOF_CONSTANT]); HID_RI_USAGE_PAGE 8 HID_USAGE_PAGE_LED;
    HID_RI_USAGE_MINIMUM 8 0x01; HID_RI_USAGE_MAXIMUM 8 0x05; HID_RI_REPORT_COUNT 8 0x05;
    HID_RI_REPORT_SIZE 8 0x01;
    HID_RI_OUTPUT 8 (iof [HID_IOF_DATA; HID_IOF_VARIABLE; HID_IOF_ABSOLUTE;
      HID_IOF_NON_VOLATILE]);
    HID_RI_REPORT_COUNT 8 0x01; HID_RI_REPORT_SIZE 8 0x03;
    HID_RI_OUTPUT 8 (iof [HID_IOF_CONSTANT]); HID_RI_LOGICAL_MINIMUM 8 0x00;
    HID_RI_LOGICAL_MAXIMUM 16 0xFF; HID_RI_USAGE_PAGE 8 0x07; HID_RI_USAGE_MINIMUM 8 0x00;
    HID_RI_USAGE_MAXIMUM 8 0xFF; HID_RI_REPORT_COUNT 8 SIMULTANEOUS_KEYS;
    HID_RI_REPORT_SIZE 8 0x08;
    HID_RI_INPUT 8 (iof [HID_IOF_DATA; HID_IOF_ARRAY; HID_IOF_ABSOLUTE]);
    HID_RI_END_COLLECTION 0 0; HID_RI_USAGE_PAGE 8 HID_USAGE_PAGE_GENERIC_DESKTOP;
    HID_RI_USAGE 8 HID_USAGE_MOUSE; HID_RI_COLLECTION 8 HID_COLLECTION_APPLICATION;
    HID_RI_REPORT_ID 8 REPORT_ID_MOUSE; HID_RI_USAGE 8 HID_USAGE_POINTER;
    HID_RI_COLLECTION 8 HID_COLLECTION_PHYSICAL; HID_RI_USAGE_PAGE 8 HID_USAGE_PAGE_BUTTON;
    HID_RI_USAGE_MINIMUM 8 0x01; HID_RI_USAGE_MAXIMUM 8 Buttons; HID_RI_LOGICAL_MINIMUM 8 0x00;
    HID_RI_LOGICAL_MAXIMUM 8 0x01; HID_RI_REPORT_COUNT 8 Buttons; HID_RI_REPORT_SIZE 8 0x01;
    HID_RI_INPUT 8 (iof [HID_IOF_DATA; HID_IOF_VARIABLE; HID_IOF_ABSOLUTE]);
    HID_RI_REPORT_SIZE 8 (8 - Buttons mod 8); HID_RI_REPORT_COUNT 8 0x01;
    HID_RI_INPUT 8 (iof [HID_IOF_CONSTANT; HID_IOF_VARIABLE; HID_IOF_ABSOLUTE]);
    HID_RI_USAGE_PAGE 8 HID_USAGE_PAGE_GENERIC_DESKTOP; HID_RI_USAGE 8 HID_USAGE_X;
    HID_RI_USAGE 8 HID_USAGE_Y; HID_RI_USAGE 8 HID_USAGE_Wheel; HID_RI_LOGICAL_MINIMUM 8 (-127);
    HID_RI_LOGICAL_MAXIMUM 8 127; HID_RI_REPORT_COUNT 8 0x03; HID_RI_REPORT_SIZE 8 8;
    HID_RI_INPUT 8 (iof [HID_IOF_DATA; HID_IOF_VARIABLE; HID_IOF_RELATIVE]);
    HID_RI_USAGE_PAGE 8 HID_USAGE_PAGE_CONSUMER; HID_RI_USAGE 16 HID_USAGE_CONSUMER_AC_PAN;
    HID_RI_LOGICAL_MINIMUM 16 (-127); HID_RI_LOGICAL_MAXIMUM 16 127; HID_RI_REPORT_COUNT 8 0x01;
    HID_RI_REPORT_SIZE 8 8;
    HID_RI_INPUT 8 (iof [HID_IOF_DATA; HID_IOF_VARIABLE; HID_IOF_RELATIVE]);
    HID_RI_END_COLLECTION 0 0; HID_RI_END_COLLECTION 0 0].

(** ** The configuration descriptor *)
Definition ConfigurationDescriptor (multi : bool) : USB_Descriptor_Configuration_t :=
  {| Config :=
       {| cfg_Header := mkHeader sizeof_Configuration_Header DTYPE_Configuration;
          TotalConfigurationSize := sizeof_Configuration multi;
          TotalInterfaces := if multi then 6 else 5;
          ConfigurationNumber := 1; ConfigurationStrIndex := NO_DESCRIPTOR;
          ConfigAttributes := USB_CONFIG_ATTR_RESERVED;
          MaxPowerConsumption := USB_CONFIG_POWER_MA 100 |};
     InterfaceHID := interface INTERFACE_ID_HID (if multi then 0 else 2) 3 0 0;
     EndpointInHID := if multi then zero_endpoint else endpoint HID_EPADDR_IN EP_TYPE_INTERRUPT;
     EndpointOutHID := if multi then zero_endpoint else endpoint HID_EPADDR_OUT EP_TYPE_INTERRUPT;
     HIDDescriptor :=
       mkHid (mkHeader sizeof_HID HID_DTYPE_HID) (VERSION_BCD 1 0 1) 0 1 HID_DTYPE_Report
             (Z.of_nat (length ps3_report_descriptor));
     XInput := xinput_interface INTERFACE_ID_XInput XINPUT_EPADDR_IN XINPUT_EPADDR_OUT;
     ExtraXInput :=
       if multi then
         [xinput_interface INTERFACE_ID_XInput_2 XINPUT_2_EPADDR_IN XINPUT_2_EPADDR_OUT;
          xinput_interface INTERFACE_ID_XInput_3 XINPUT_3_EPADDR_IN XINPUT_3_EPADDR_OUT;
          xinput_interface INTERFACE_ID_XInput_4 XINPUT_4_EPADDR_IN XINPUT_4_EPADDR_OUT]
       else [];
     InterfaceConfig := interface INTERFACE_ID_Config 0 0xff 0xff 0xff;
     Midi := if multi then None else Some midi_descriptor |}.

(** ** What the host reads

    A configuration is a chain of descriptors, each starting with its length and
    type; endpoints and class descriptors belong to the interface before them. *)
Fixpoint split_descriptors (fuel : nat) (l : list Z) : option (list (list Z)) :=
  match fuel, l with
  | _, [] => Some []
  | O, _ => None
  | S fuel, n :: _ =>
      if (2 <=? n) && (n <=? Z.of_nat (length l))
      then cons (take (Z.to_nat n) l) <$> split_descriptors fuel (drop (Z.to_nat n) l) else None
  end.
(** The interfaces of a chain: number, class, announced endpoint count, and the
    addresses of the endpoints that follow. *)
Fixpoint interfaces_of (ds : list (list Z)) : list (Z * Z * Z * list Z) :=
  match ds with
  | [] => []
  | d :: ds =>
      let rest := interfaces_of ds in
      if aget 0 d 1 =? DTYPE_Interface then
        let fix endpoints ds := match ds with
          | [] => []
          | e :: ds =>
              if aget 0 e 1 =? DTYPE_Interface then []
              else if aget 0 e 1 =? DTYPE_Endpoint then aget 0 e 2 :: endpoints ds
              else endpoints ds
          end in
        (aget 0 d 2, aget 0 d 5, aget 0 d 4, endpoints ds) :: rest
      else rest
  end.

(** A HID report descriptor is a list of items; a main item of the kinds input,
    output and feature adds a field to the report the current id names. *)
Record hid_field : Set := mkField {
  f_tag : Z; f_id : Z; f_offset : Z; f_size : Z; f_count : Z; f_flags : Z;
  f_page : Z; f_usages : list (Z * Z)
}.
Record hid_parser : Set := mkParser {
  p_page : Z; p_size : Z; p_count : Z; p_id : Z; p_min : Z; p_usages : list (Z * Z);
  p_depth : Z; p_fields : list hid_field
}.
#[global] Instance etaParser : Settable hid_parser := fun r =>
  {| p_page := p_page r; p_size := p_size r; p_count := p_count r; p_id := p_id r;
     p_min := p_min r; p_usages := p_usages r; p_depth := p_depth r; p_fields := p_fields r |}.
(** The bits of one report. *)
Definition report_bits (fs : list hid_field) (tag id : Z) : Z :=
  foldr (fun f n => if (f_tag f =? tag) && (f_id f =? id) then f_size f * f_count f + n else n) 0 fs.
Definition add_field (tag flags : Z) (p : hid_parser) : hid_parser :=
  let f := mkField tag (p_id p) (report_bits (p_fields p) tag (p_id p)) (p_size p) (p_count p)
             flags (p_page p) (p_usages p) in
  p <| p_fields ::= fun fs => fs ++ [f] |> <| p_usages := [] |>.
Definition hid_item (prefix data : Z) (p : hid_parser) : option hid_parser :=
  let tag := Z.land prefix 0xFC in
  if tag =? 0x04 then Some (p <| p_page := data |>)
  else if tag =? 0x74 then Some (p <| p_size := data |>)
  else if tag =? 0x84 then Some (p <| p_id := data |>)
  else if tag =? 0x94 then Some (p <| p_count := data |>)
  else if tag =? 0x08 then Some (p <| p_usages ::= fun l => l ++ [(data, data)] |>)
  else if tag =? 0x18 then Some (p <| p_min := data |>)
  else if tag =? 0x28 then Some (p <| p_usages ::= fun l => l ++ [(p_min p, data)] |>)
  else if (tag =? 0x80) || (tag =? 0x90) || (tag =? 0xB0) then Some (add_field tag data p)
  else if tag =? 0xA0 then Some ((p <| p_depth ::= Z.succ |>) <| p_usages := [] |>)
  else if tag =? 0xC0 then
    if p_depth p =? 0 then None else Some ((p <| p_depth ::= Z.pred |>) <| p_usages := [] |>)
  else if (Z.land prefix 0x0C =? 0x04) && (tag <? 0x74) then Some p
  else None.
Fixpoint hid_items (fuel : nat) (l : list Z) (p : hid_parser) : option hid_parser :=
  match fuel, l with
  | _, [] => Some p
  | O, _ => None
  | S fuel, prefix :: l =>
      let n := Z.to_nat (Z.shiftr (Z.shiftl 1 (Z.land prefix 3)) 1) in
      if (n <=? length l)%nat
      then p ← hid_item prefix (le_val (take n l)) p; hid_items fuel (drop n l) p else None
  end.
(** The fields of all reports, if the descriptor is well formed and closes its
    collections. *)
Definition hid_fields (l : list Z) : option (list hid_field) :=
  p ← hid_items (length l) l (mkParser 0 0 0 0 0 [] 0 []);
  if p_depth p =? 0 then Some (p_fields p) else None.

(** ** The configuration is well formed *)
Definition config_image (multi : bool) (ty : Z) : list Z :=
  splice (Z.to_nat offsetof_subtype) [ty; 0x25]
    (configuration_bytes (ConfigurationDescriptor multi)).


(** With several adaptors the HID interface's endpoints are left zero: the
    configuration still has the announced length, but its fourth descriptor has
    length 0, so a host that walks the chain finds only the first three. *)
Theorem multi_configuration_malformed ty :
  let l := config_image true ty in
  le_val (slice 2 2 l) = Z.of_nat (length l) /\
  (forall fuel, split_descriptors fuel l = None) /\
  exists ds, split_descriptors 4 (take 27 l) = Some ds /\
    aget 0 (drop 27 l) 0 = 0 /\ interfaces_of ds = [(0, 3, 0, [])].
Proof.
  intros l. split; [vm_compute; reflexivity|]. split.
  - intros fuel. do 4 (destruct fuel as [|fuel]; [reflexivity|]). vm_compute. reflexivity.
  - eexists. split; [vm_compute; reflexivity|]. split; vm_compute; reflexivity.
Qed.

(** ** The report descriptors describe the reports *)
Definition MAIN_INPUT : Z := 0x80.
Definition MAIN_OUTPUT : Z := 0x90.
Definition MAIN_FEATURE : Z := 0xB0.

