(* ===== verification/EndpointSetup.v ===== *)
(** * The endpoints the device sets up

    [EVENT_USB_Device_ConfigurationChanged] of [avr/micro/main/main.c] and
    [avr/uno/usb/main.c] runs when the host has chosen the configuration of
    [Descriptors.v]; LUFA's [Endpoint_ConfigureEndpoint] (the branch that
    [ORDERED_EP_CONFIG] selects) writes the endpoint registers of the AVR's USB
    unit. *)

From Stdlib Require Import ZArith Lia.
From stdpp Require Import base tactics numbers list.
From S2P Require Import Prelude Defs Descriptors.
Open Scope Z_scope.

(** ** The USB unit's endpoint registers *)
(** Bit numbers of the AVR headers. *)
Definition EPTYPE0 : Z := 6.
Definition EPDIR : Z := 0.
Definition EPSIZE0 : Z := 4.
Definition EPBK0 : Z := 2.
Definition ALLOC : Z := 1.
Definition EPEN : Z := 0.
Definition ENDPOINT_EPNUM_MASK : Z := 0x0F.
Record ep_regs : Set := mkEp { UECFG0X : Z; UECFG1X : Z; UECONX : Z }.
#[global] Instance etaEp : Settable ep_regs := fun r =>
  {| UECFG0X := UECFG0X r; UECFG1X := UECFG1X r; UECONX := UECONX r |}.
(** The selected endpoint and the registers of each. *)
Record ep_unit : Set := mkUnit { UENUM : Z; eps : list ep_regs }.
#[global] Instance etaUnit : Settable ep_unit := fun r => {| UENUM := UENUM r; eps := eps r |}.
Definition on_ep (f : ep_regs -> ep_regs) : M ep_unit unit :=
  mmod (fun u => u <| eps ::= alter f (Z.to_nat (UENUM u)) |>).

Section Lufa.
(** How many endpoints the unit has, and its verdict on the selected one (the
    memory for the banks was there). *)
Context (ENDPOINT_TOTAL_ENDPOINTS : Z) (CFGOK : ep_unit -> bool).
Definition Endpoint_SelectEndpoint (Address : Z) : M ep_unit unit :=
  mmod (fun u => u <| UENUM := Z.land Address ENDPOINT_EPNUM_MASK |>).
Definition Endpoint_EnableEndpoint : M ep_unit unit :=
  on_ep (fun r => r <| UECONX ::= fun x => Z.lor x (BV EPEN) |>).
Definition Endpoint_IsConfigured : M ep_unit bool := mread CFGOK.
(** The loop of [Endpoint_BytesToEPSizeMask]; it ends for sizes up to 2^15. *)
Fixpoint size_loop (fuel : nat) (MaskVal CheckBytes Bytes : Z) : option Z :=
  match fuel with
  | O => None
  | S fuel =>
      if CheckBytes <? Bytes then size_loop fuel (u8 (MaskVal + 1)) (u16 (Z.shiftl CheckBytes 1)) Bytes
      else Some MaskVal
  end.
Definition Endpoint_BytesToEPSizeMask (Bytes : Z) : option Z :=
  (fun m => u8 (Z.shiftl m EPSIZE0)) <$> size_loop 13 0 8 Bytes.
Definition Endpoint_ConfigureEndpoint_Prv (Number UECFG0XData UECFG1XData : Z) : M ep_unit bool :=
  Endpoint_SelectEndpoint Number ;;
  Endpoint_EnableEndpoint ;;
  on_ep (fun r => r <| UECFG1X := 0 |>) ;;
  on_ep (fun r => r <| UECFG0X := UECFG0XData |>) ;;
  on_ep (fun r => r <| UECFG1X := UECFG1XData |>) ;;
  Endpoint_IsConfigured.
Definition Endpoint_ConfigureEndpoint (Address Type_ Size Banks : Z) : M ep_unit (option bool) :=
  let Number := Z.land Address ENDPOINT_EPNUM_MASK in
  if Number >=? ENDPOINT_TOTAL_ENDPOINTS then oret false
  else
    match Endpoint_BytesToEPSizeMask Size with
    | None => mret None
    | Some mask =>
        olift (Endpoint_ConfigureEndpoint_Prv Number
          (u8 (Z.lor (Z.shiftl Type_ EPTYPE0)
                 (if negb (Z.land Address ENDPOINT_DIR_IN =? 0) then BV EPDIR else 0)))
          (u8 (Z.lor (Z.lor (BV ALLOC) (if Banks >? 1 then BV EPBK0 else 0)) mask)))
    end.

(** ** The firmware's calls *)
Fixpoint configure_all (l : list (Z * Z)) : M ep_unit (option unit) :=
  match l with
  | [] => oret tt
  | (a, t) :: l => _ ←? Endpoint_ConfigureEndpoint a t HID_EPSIZE 1; configure_all l
  end.
Definition micro_calls (MULTI_ADAPTOR : bool) : list (Z * Z) :=
  [(XINPUT_EPADDR_IN, EP_TYPE_INTERRUPT); (HID_EPADDR_IN, EP_TYPE_INTERRUPT)] ++
  if MULTI_ADAPTOR
  then [(XINPUT_2_EPADDR_IN, EP_TYPE_INTERRUPT); (XINPUT_3_EPADDR_IN, EP_TYPE_INTERRUPT);
        (XINPUT_4_EPADDR_IN, EP_TYPE_INTERRUPT)]
  else [(MIDI_EPADDR_IN, EP_TYPE_BULK); (XINPUT_EPADDR_OUT, EP_TYPE_INTERRUPT);
        (MIDI_EPADDR_OUT, EP_TYPE_INTERRUPT)].
Definition uno_calls (MULTI_ADAPTOR : bool) : list (Z * Z) :=
  [(XINPUT_EPADDR_IN, EP_TYPE_INTERRUPT)] ++
  if MULTI_ADAPTOR
  then [(XINPUT_2_EPADDR_IN, EP_TYPE_INTERRUPT); (XINPUT_3_EPADDR_IN, EP_TYPE_INTERRUPT);
        (XINPUT_4_EPADDR_IN, EP_TYPE_INTERRUPT)]
  else [(HID_EPADDR_IN, EP_TYPE_INTERRUPT); (MIDI_EPADDR_IN, EP_TYPE_INTERRUPT)].
End Lufa.
(** The ATmega32U4 has seven endpoints, the ATmega16U2 five. *)
Definition micro_ConfigurationChanged (MULTI_ADAPTOR : bool) (CFGOK : ep_unit -> bool)
  : M ep_unit (option unit) := configure_all 7 CFGOK (micro_calls MULTI_ADAPTOR).
Definition uno_ConfigurationChanged (MULTI_ADAPTOR : bool) (CFGOK : ep_unit -> bool)
  : M ep_unit (option unit) := configure_all 5 CFGOK (uno_calls MULTI_ADAPTOR).

(** ** What the host was told *)
(** The endpoints of a chain of descriptors: address, type, size. *)
Definition endpoints_of (ds : list (list Z)) : list (Z * Z * Z) :=
  omap (fun d => if aget 0 d 1 =? DTYPE_Endpoint
                 then Some (aget 0 d 2, Z.land (aget 0 d 3) 3, le_val (slice 4 2 d)) else None) ds.
Definition announced (ty : Z) : list (Z * Z * Z) :=
  let l := config_image false ty in
  match split_descriptors (length l) l with Some ds => endpoints_of ds | None => [] end.
(** What an endpoint's registers make of it: enabled with memory, type, direction
    and size. *)
Definition serves (r : ep_regs) : bool * Z * bool * Z :=
  (Z.testbit (UECONX r) EPEN && Z.testbit (UECFG1X r) ALLOC, Z.shiftr (UECFG0X r) EPTYPE0,
   Z.testbit (UECFG0X r) EPDIR, Z.shiftl 8 (Z.land (Z.shiftr (UECFG1X r) EPSIZE0) 7)).
Definition number (addr : Z) : nat := Z.to_nat (Z.land addr ENDPOINT_EPNUM_MASK).
Definition is_in (addr : Z) : bool := Z.testbit addr 7.
(** The endpoint [addr] works as announced in the registers [u]. *)
Definition works (u : ep_unit) (e : Z * Z * Z) : Prop :=
  let '(addr, t, size) := e in
  exists r, eps u !! number addr = Some r /\ serves r = (true, t, is_in addr, size).

Section Setup.
Context (total : Z) (CFGOK : ep_unit -> bool).
Implicit Types (u : ep_unit) (a t : Z).
(** The registers a call leaves an endpoint with. *)
Definition set_up_as (a t : Z) (r : ep_regs) : ep_regs :=
  mkEp (u8 (Z.lor (Z.shiftl t EPTYPE0) (if negb (Z.land a ENDPOINT_DIR_IN =? 0) then BV EPDIR else 0)))
    (u8 (Z.lor (BV ALLOC) 32)) (Z.lor (UECONX r) (BV EPEN)).
Definition after_call (a t : Z) (l : list ep_regs) : list ep_regs :=
  if Z.land a ENDPOINT_EPNUM_MASK <? total then alter (set_up_as a t) (number a) l else l.
Lemma configure_run a t u :
  exists b n, Endpoint_ConfigureEndpoint total CFGOK a t HID_EPSIZE 1 u =
    (Some b, mkUnit n (after_call a t (eps u))).
Proof.
  unfold Endpoint_ConfigureEndpoint, after_call. rewrite Z.geb_leb, Z.leb_antisym.
  destruct (_ <? total); cbn [negb]; [|exists false, (UENUM u); by destruct u].
  change (Endpoint_BytesToEPSizeMask HID_EPSIZE) with (Some 32). cbn iota.
  eexists _, _. unfold olift, Endpoint_ConfigureEndpoint_Prv. rewrite !mbind_run.
  cbn -[alter Z.shiftl Z.land Z.lor uwrap]. do 2 f_equal.
  rewrite !list_alter_alter_eq, <- Z.land_assoc. reflexivity.
Qed.
Lemma configure_all_run l u :
  exists n, configure_all total CFGOK l u =
    (Some tt, mkUnit n (foldl (fun rs '(a, t) => after_call a t rs) (eps u) l)).
Proof.
  revert u. induction l as [|[a t] l IH]; intros u; [by exists (UENUM u); destruct u|].
  cbn [configure_all foldl]. destruct (configure_run a t u) as (b & n & E).
  rewrite (obind_some _ _ _ b) by by rewrite E. rewrite E. cbn [snd]. apply IH.
Qed.
End Setup.
Lemma set_up_serves a t r :
  0 <= t < 4 -> serves (set_up_as a t r) = (true, t, negb (Z.land a ENDPOINT_DIR_IN =? 0), 32).
Proof.
  intros Ht. unfold serves, set_up_as. cbn [UECONX UECFG1X UECFG0X]. rewrite Z.lor_spec.
  change (Z.testbit (BV EPEN) EPEN) with true. rewrite orb_true_r.
  destruct (negb _); by zcases t 0 4.
Qed.

Lemma announced_eq ty : announced ty =
  [(HID_EPADDR_IN, EP_TYPE_INTERRUPT, HID_EPSIZE); (HID_EPADDR_OUT, EP_TYPE_INTERRUPT, HID_EPSIZE);
   (XINPUT_EPADDR_IN, EP_TYPE_INTERRUPT, HID_EPSIZE); (XINPUT_EPADDR_OUT, EP_TYPE_INTERRUPT, HID_EPSIZE);
   (MIDI_EPADDR_OUT, EP_TYPE_BULK, HID_EPSIZE); (MIDI_EPADDR_IN, EP_TYPE_BULK, HID_EPSIZE)].
Proof. vm_compute. reflexivity. Qed.
(** After a bus reset every register is zero. *)
Definition reset_unit (n : nat) : ep_unit := mkUnit 0 (replicate n (mkEp 0 0 0)).
