(* ===== verification/Xinput.v ===== *)
(** * The RP2040's XInput class driver: [pico/lib/usb/xinput_device.c]

    The driver TinyUSB calls for vendor interfaces.  TinyUSB's endpoint functions
    are the class [Usbd]; its laws [UsbdOk] say what the driver relies on. *)

From Stdlib Require Import ZArith Lia.
From stdpp Require Import base tactics numbers list option.
From S2P Require Import Prelude Packed Defs Descriptors.
Open Scope Z_scope.

Definition CFG_TUD_XINPUT : nat := 2.
Definition CFG_TUD_VENDOR_EP_BUFSIZE : Z := 64.
Definition XINPUT_DESC_TYPE_RESERVED : Z := 0x21.
Definition TUSB_CLASS_VENDOR_SPECIFIC : Z := 0xFF.

Class Usbd (W : Type) := {
  tud_ready : M W bool;
  usbd_edpt_busy : Z -> M W bool;
  usbd_edpt_claim : Z -> M W bool;
  (* endpoint, buffer, length *)
  usbd_edpt_xfer : Z -> list Z -> Z -> M W bool;
  (* descriptors, count: the OUT and the IN address of the pair *)
  usbd_open_edpt_pair : list Z -> Z -> M W (option (Z * Z))
}.

Record xinputd_interface_t : Set := mkSlot {
  itf_num : Z; ep_in : Z; ep_out : Z; boot_mode : bool; epin_buf : list Z; epout_buf : list Z
}.
#[global] Instance etaSlot : Settable xinputd_interface_t := fun r =>
  {| itf_num := itf_num r; ep_in := ep_in r; ep_out := ep_out r; boot_mode := boot_mode r;
     epin_buf := epin_buf r; epout_buf := epout_buf r |}.
Definition cleared : xinputd_interface_t :=
  let buf := replicate (Z.to_nat CFG_TUD_VENDOR_EP_BUFSIZE) 0 in mkSlot 0 0 0 false buf buf.

Section Driver.
Context {W : Type} `{Usbd W}.
Record xinputd : Type := mkXinput { _xinputd_itf : list xinputd_interface_t; usbd : W }.
#[global] Instance etaXinput : Settable xinputd := fun r =>
  {| _xinputd_itf := _xinputd_itf r; usbd := usbd r |}.
Definition on_usbd {A} (m : M W A) : M xinputd A :=
  fun s => let '(a, w) := m (usbd s) in (a, s <| usbd := w |>).
Definition slot (itf : nat) (s : xinputd) : xinputd_interface_t := nth itf (_xinputd_itf s) cleared.
Definition set_slot (itf : nat) (x : xinputd_interface_t) : M xinputd unit :=
  mmod (fun s => s <| _xinputd_itf ::= fun l => <[itf := x]> l |>).

Definition tud_xinput_n_ready (itf : nat) : M xinputd bool :=
  x ← mread (slot itf);
  ready ← on_usbd tud_ready;
  if negb ready then mret false
  else if ep_in x =? 0 then mret false
  else busy ← on_usbd (usbd_edpt_busy (ep_in x)); mret (negb busy).
(** [report] is the memory behind the pointer. *)
Definition tud_xinput_n_report (itf : nat) (report_id : Z) (report : list Z) (len : Z) : M xinputd bool :=
  x ← mread (slot itf);
  claimed ← on_usbd (usbd_edpt_claim (ep_in x));
  if negb claimed then mret false
  else
    let size := CFG_TUD_VENDOR_EP_BUFSIZE in
    let buf :=
      if negb (report_id =? 0) then
        let n := Z.min len (size - 1) in
        report_id :: take (Z.to_nat n) report ++ drop (Z.to_nat (n + 1)) (epin_buf x)
      else
        let n := Z.min len size in take (Z.to_nat n) report ++ drop (Z.to_nat n) (epin_buf x) in
    let len := if negb (report_id =? 0) then Z.min len (size - 1) + 1 else Z.min len size in
    set_slot itf (x <| epin_buf := buf |>) ;;
    on_usbd (usbd_edpt_xfer (ep_in x) buf len).
Definition tud_xinput_n_boot_mode (itf : nat) : M xinputd bool :=
  x ← mread (slot itf); mret (boot_mode x).
Definition xinputd_reset : M xinputd unit :=
  mmod (fun s => s <| _xinputd_itf := replicate CFG_TUD_XINPUT cleared |>).
Definition xinputd_init : M xinputd unit := xinputd_reset.

(** The first slot without endpoints. *)
Fixpoint free_slot (l : list xinputd_interface_t) (i : nat) : option nat :=
  match l with
  | [] => None
  | x :: l => if (ep_in x =? 0) && (ep_out x =? 0) then Some i else free_slot l (S i)
  end.
Definition tu_desc_next (p : list Z) : list Z := drop (Z.to_nat (aget 0 p 0)) p.
(** [desc] is the memory from the interface descriptor on; the offsets are those
    of [bNumEndpoints], [bInterfaceClass], .. in it. *)
Definition xinputd_open (desc : list Z) (max_len : Z) : M xinputd Z :=
  let bNumEndpoints := aget 0 desc 4 in
  if negb (TUSB_CLASS_VENDOR_SPECIFIC =? aget 0 desc 5) then mret 0
  else
    let drv_len := u16 (sizeof_Interface + bNumEndpoints * sizeof_Endpoint) in
    if negb (max_len >=? drv_len) then mret 0
    else
      s ← mread id;
      match free_slot (_xinputd_itf s) 0 with
      | None => mret 0
      | Some i =>
          if (aget 0 desc 6 =? 0x5D) && (aget 0 desc 7 =? 0x01) then
            let x_desc := tu_desc_next desc in
            if negb (XINPUT_DESC_TYPE_RESERVED =? aget 0 x_desc 1) then mret 0
            else
              r ← on_usbd (usbd_open_edpt_pair (tu_desc_next x_desc) bNumEndpoints);
              match r with
              | None => mret 0
              | Some (out, in_) =>
                  s ← mread id;
                  let x := (slot i s) <| ep_out := out |> <| ep_in := in_ |> <| itf_num := aget 0 desc 2 |> in
                  set_slot i x ;;
                  on_usbd (usbd_edpt_xfer out (epout_buf x) CFG_TUD_VENDOR_EP_BUFSIZE) ;;
                  mret (u16 (drv_len + sizeof_XBOX))
              end
          else mret drv_len
      end.
Fixpoint out_slot (ep_addr : Z) (l : list xinputd_interface_t) : option xinputd_interface_t :=
  match l with
  | [] => None
  | x :: l => if ep_addr =? ep_out x then Some x else out_slot ep_addr l
  end.
Definition xinputd_xfer_cb (ep_addr : Z) : M xinputd bool :=
  s ← mread id;
  match out_slot ep_addr (_xinputd_itf s) with
  | None => mret false
  | Some x => on_usbd (usbd_edpt_xfer (ep_out x) (epout_buf x) CFG_TUD_VENDOR_EP_BUFSIZE)
  end.
End Driver.
Arguments xinputd : clear implicits.

(** ** What TinyUSB guarantees

    [edpt_pair] is what its pair function reads: [n] interrupt endpoints, the
    last of each direction. *)
Fixpoint edpt_pair (p : list Z) (n : nat) (pair : Z * Z) : option (Z * Z) :=
  match n with
  | O => Some pair
  | S n =>
      if (aget 0 p 1 =? DTYPE_Endpoint) && (Z.land (aget 0 p 3) 3 =? EP_TYPE_INTERRUPT) then
        let addr := aget 0 p 2 in
        edpt_pair (tu_desc_next p) n
          (if Z.land addr ENDPOINT_DIR_IN =? 0 then (addr, pair.2) else (pair.1, addr))
      else None
  end.
(** [queued] are the transfers handed to the controller. *)
Class UsbdOk (W : Type) `{Usbd W} (queued : W -> list (Z * list Z)) : Prop := {
  pair_reads p n w : (usbd_open_edpt_pair p n w).1 = edpt_pair p (Z.to_nat n) (0, 0);
  pair_queues p n w : queued (usbd_open_edpt_pair p n w).2 = queued w;
  claim_queues e w : queued (usbd_edpt_claim e w).2 = queued w;
  xfer_queues e b n w :
    queued (usbd_edpt_xfer e b n w).2 = queued w ++ [(e, take (Z.to_nat n) b)]
}.

Section Spec.
Context {W : Type} `{Usbd W} (queued : W -> list (Z * list Z)) `{!UsbdOk W queued}.
Abbreviation sent s := (queued (usbd s)).

Lemma on_usbd_run {A} (m : M W A) s : on_usbd m s = ((m (usbd s)).1, s <| usbd := (m (usbd s)).2 |>).
Proof. unfold on_usbd. by destruct (m (usbd s)). Qed.

(** Opening an Xbox interface: the slot is filled from the descriptors and its OUT
    endpoint armed. *)
Lemma open_xinput desc max_len i l w out in_ :
  aget 0 desc 5 = TUSB_CLASS_VENDOR_SPECIFIC -> aget 0 desc 6 = 0x5D -> aget 0 desc 7 = 0x01 ->
  aget 0 desc 4 = 2 -> 23 <= max_len -> free_slot l 0 = Some i ->
  aget 0 (tu_desc_next desc) 1 = XINPUT_DESC_TYPE_RESERVED ->
  edpt_pair (tu_desc_next (tu_desc_next desc)) 2 (0, 0) = Some (out, in_) ->
  let x := (nth i l cleared) <| ep_out := out |> <| ep_in := in_ |> <| itf_num := aget 0 desc 2 |> in
  exists w', xinputd_open desc max_len (mkXinput l w) = (40, mkXinput (<[i := x]> l) w') /\
    queued w' = queued w ++ [(out, take 64 (epout_buf x))].
Proof using UsbdOk0.
  intros Hc Hs Hp Hn Hm Hf Ht He x. unfold xinputd_open. rewrite Hc, Hs, Hp, Hn, Ht.
  change (u16 (sizeof_Interface + 2 * sizeof_Endpoint)) with 23.
  rewrite (proj2 (Z.geb_le max_len 23)) by lia. cbn [negb Z.eqb Pos.eqb TUSB_CLASS_VENDOR_SPECIFIC andb
    XINPUT_DESC_TYPE_RESERVED]. rewrite mbind_run. cbn [mread id fst snd _xinputd_itf]. rewrite Hf.
  rewrite mbind_run, on_usbd_run. cbn [fst snd usbd]. rewrite pair_reads. change (Z.to_nat 2) with 2%nat.
  rewrite He. rewrite mbind_run. cbn [mread id fst snd slot _xinputd_itf].
  rewrite mbind_run. cbn [set_slot mmod fst snd]. rewrite mbind_run, on_usbd_run.
  exists (usbd_edpt_xfer out (epout_buf x) CFG_TUD_VENDOR_EP_BUFSIZE
    (usbd_open_edpt_pair (tu_desc_next (tu_desc_next desc)) 2 w).2).2.
  split; [reflexivity|]. by rewrite xfer_queues, pair_queues.
Qed.

(** Opening the Xbox interface at offset [off] of an image. *)
Definition open_at (image : list Z) (off : Z) : M (xinputd W) Z :=
  xinputd_open (drop (Z.to_nat off) image) (Z.of_nat (length image) - off).
Definition at_xinput : Z := offsetof_XInputReserved - sizeof_Interface.
Definition opened (num out in_ : Z) : xinputd_interface_t :=
  cleared <| itf_num := num |> <| ep_out := out |> <| ep_in := in_ |>.
Definition armed (out : Z) : Z * list Z := (out, replicate (Z.to_nat CFG_TUD_VENDOR_EP_BUFSIZE) 0).

(** C32: Opening the Xbox interface of the configuration fills the first slot with
    the endpoints the descriptors name and arms the OUT endpoint; the length it
    returns leads to the configuration interface, which the driver accepts
    without endpoints, and that length to the next interface.  When the host has
    sent a packet to the OUT endpoint, it is armed again. *)
Theorem xinputd_opens_configuration ty w :
  let l := config_image false ty in
  let '(n1, s1) := open_at l at_xinput (xinputd_init (mkXinput [] w)).2 in
  let '(n2, s2) := open_at l (at_xinput + n1) s1 in
  let s3 := (xinputd_xfer_cb XINPUT_EPADDR_OUT s2).2 in
  n1 = 40 /\ n2 = 9 /\
  aget 0 l (at_xinput + n1 + 1) = DTYPE_Interface /\ aget 0 l (at_xinput + n1 + n2 + 1) = DTYPE_Interface /\
  _xinputd_itf s2 = [opened INTERFACE_ID_XInput XINPUT_EPADDR_OUT XINPUT_EPADDR_IN; cleared] /\
  sent s2 = queued w ++ [armed XINPUT_EPADDR_OUT] /\
  sent s3 = sent s2 ++ [armed XINPUT_EPADDR_OUT].
Proof using UsbdOk0.
  unfold open_at.
  destruct (open_xinput (drop (Z.to_nat at_xinput) (config_image false ty))
    (Z.of_nat (length (config_image false ty)) - at_xinput) 0 [cleared; cleared] w
    XINPUT_EPADDR_OUT XINPUT_EPADDR_IN) as (w' & E & Q); try reflexivity; [vm_compute; discriminate|].
  change (xinputd_init (mkXinput [] w)).2 with (mkXinput [cleared; cleared] w). rewrite E.
  clear E. set (x := <[0%nat := _]> _).
  assert (x = [opened INTERFACE_ID_XInput XINPUT_EPADDR_OUT XINPUT_EPADDR_IN; cleared]) as -> by reflexivity.
  assert (forall s, _xinputd_itf s = [opened INTERFACE_ID_XInput XINPUT_EPADDR_OUT XINPUT_EPADDR_IN; cleared] ->
    xinputd_open (drop (Z.to_nat (at_xinput + 40)) (config_image false ty))
      (Z.of_nat (length (config_image false ty)) - (at_xinput + 40)) s = (9, s)) as ->
    by (intros [l v] L; cbn in L; subst l; reflexivity); [|reflexivity].
  repeat (split; [reflexivity|]). split; [exact Q|].
  unfold xinputd_xfer_cb. rewrite mbind_run. cbn -[armed on_usbd].
  rewrite Z.eqb_refl. cbv iota. rewrite on_usbd_run. cbn -[armed usbd_edpt_xfer]. by rewrite xfer_queues.
Qed.

(** A [MULTI_ADAPTOR] configuration has four Xbox interfaces and the driver two
    slots: the third and fourth interface are refused. *)
Theorem multi_interfaces_refused ty w :
  let l := config_image true ty in
  let '(n1, s1) := open_at l at_xinput (xinputd_init (mkXinput [] w)).2 in
  let '(n2, s2) := open_at l (at_xinput + n1) s1 in
  aget 0 l (at_xinput + n1 + n2 + 1) = DTYPE_Interface /\
  n1 = sizeof_xinput /\ n2 = sizeof_xinput /\ (open_at l (at_xinput + n1 + n2) s2).1 = 0.
Proof using UsbdOk0.
  unfold open_at. change (xinputd_init (mkXinput [] w)).2 with (mkXinput [cleared; cleared] w).
  destruct (open_xinput (drop (Z.to_nat at_xinput) (config_image true ty))
    (Z.of_nat (length (config_image true ty)) - at_xinput) 0 [cleared; cleared] w
    XINPUT_EPADDR_OUT XINPUT_EPADDR_IN) as (w' & -> & _); try reflexivity; [vm_compute; discriminate|].
  destruct (open_xinput (drop (Z.to_nat (at_xinput + 40)) (config_image true ty))
    (Z.of_nat (length (config_image true ty)) - (at_xinput + 40)) 1
    [opened INTERFACE_ID_XInput XINPUT_EPADDR_OUT XINPUT_EPADDR_IN; cleared] w'
    XINPUT_2_EPADDR_OUT XINPUT_2_EPADDR_IN) as (w'' & E & _); try reflexivity; [vm_compute; discriminate|].
  set (x := <[0%nat := _]> _).
  assert (x = [opened INTERFACE_ID_XInput XINPUT_EPADDR_OUT XINPUT_EPADDR_IN; cleared]) as -> by reflexivity.
  rewrite E. repeat (split; [reflexivity|]). reflexivity.
Qed.

(** A report without an id goes out as it is, cut to the buffer. *)
Lemma xinput_report_sent itf report len s :
  (itf < length (_xinputd_itf s))%nat -> 0 <= len <= Z.of_nat (length report) ->
  (usbd_edpt_claim (ep_in (slot itf s)) (usbd s)).1 = true ->
  sent (tud_xinput_n_report itf 0 report len s).2 =
    sent s ++ [(ep_in (slot itf s), take (Z.to_nat (Z.min len CFG_TUD_VENDOR_EP_BUFSIZE)) report)].
Proof using UsbdOk0.
  intros Hi Hl Hc. unfold tud_xinput_n_report. rewrite mbind_run. cbn [mread fst snd].
  rewrite mbind_run, on_usbd_run. cbn [fst snd]. rewrite Hc. cbn [negb Z.eqb].
  rewrite mbind_run. cbn [set_slot mmod fst snd]. rewrite on_usbd_run.
  destruct s as [l w]. cbn -[usbd_edpt_xfer usbd_edpt_claim take drop Z.min]. rewrite xfer_queues.
   rewrite claim_queues. unfold CFG_TUD_VENDOR_EP_BUFSIZE.
  do 2 f_equal. rewrite take_app_le; [|rewrite length_take; apply Nat.min_glb; lia].
  by rewrite take_take, Nat.min_id.
Qed.
End Spec.

(** ** A controller that records what it is given *)
Definition log_usbd : Usbd (list (Z * list Z)) := {|
  tud_ready := mret true; usbd_edpt_busy _ := mret false; usbd_edpt_claim _ := mret true;
  usbd_edpt_xfer e b n w := (true, w ++ [(e, take (Z.to_nat n) b)]);
  usbd_open_edpt_pair p n := mret (edpt_pair p (Z.to_nat n) (0, 0))
|}.
Lemma log_usbd_ok : @UsbdOk _ log_usbd id.
Proof. by split. Qed.
Lemma xinputd_opens_configuration_witness :
  (open_at (H := log_usbd) (config_image false 1) at_xinput (xinputd_init (mkXinput [] [])).2).1 = 40 /\
  sizeof_xinput = 40.
Proof.
  pose proof (xinputd_opens_configuration (H := log_usbd) id (UsbdOk0 := log_usbd_ok) 1 []) as X.
  cbv zeta in X. destruct (open_at _ _ _) as [n1 s1]. destruct (open_at _ _ s1) as [n2 s2].
  split; [apply X | reflexivity].
Defined.
Lemma multi_interfaces_refused_witness :
  let '(n1, s1) := open_at (H := log_usbd) (config_image true 1) at_xinput (xinputd_init (mkXinput [] [])).2 in
  let '(n2, s2) := open_at (H := log_usbd) (config_image true 1) (at_xinput + n1) s1 in
  (open_at (H := log_usbd) (config_image true 1) (at_xinput + n1 + n2) s2).1 = 0.
Proof.
  pose proof (multi_interfaces_refused (H := log_usbd) id (UsbdOk0 := log_usbd_ok) 1 []) as X.
  cbv zeta in X. destruct (open_at _ _ _) as [n1 s1]. destruct (open_at _ _ s1) as [n2 s2]. apply X.
Defined.
