(* ===== verification/RingBuffer.v ===== *)
(** * Byte queues of the Uno's two processors

    The main processor uses LUFA's [RingBuffer_t]
    ([lib/lufa/LUFA/Drivers/Misc/RingBuffer.h]), the USB processor two arrays at
    fixed addresses with byte pointers ([avr/uno/usb/device_comms.h]).  [Fifo]
    is what the link needs of all three: while no more than [fifo_cap] bytes
    wait, they come out in the order they went in. *)

From Stdlib Require Import ZArith Lia.
From stdpp Require Import base tactics numbers list.
From S2P Require Import Prelude.
Open Scope Z_scope.

(** ** The interface *)
Class Fifo (Q : Type) := {
  fifo_cap : nat;
  fifo_ok : Q -> Prop;
  fifo_contents : Q -> list Z;
  fifo_count : Q -> Z;
  fifo_push : Z -> Q -> Q;
  fifo_pop : Q -> Z * Q
}.
Class FifoOk (Q : Type) `{Fifo Q} : Prop := {
  count_contents q : fifo_ok q -> fifo_count q = Z.of_nat (length (fifo_contents q));
  contents_cap q : fifo_ok q -> (length (fifo_contents q) <= fifo_cap)%nat;
  push_ok b q : fifo_ok q -> (length (fifo_contents q) < fifo_cap)%nat -> fifo_ok (fifo_push b q);
  push_contents b q : fifo_ok q -> (length (fifo_contents q) < fifo_cap)%nat ->
    fifo_contents (fifo_push b q) = fifo_contents q ++ [b];
  pop_ok q : fifo_ok q -> fifo_contents q <> [] -> fifo_ok (fifo_pop q).2;
  pop_contents q : fifo_ok q -> fifo_contents q <> [] ->
    fifo_contents q = (fifo_pop q).1 :: fifo_contents (fifo_pop q).2
}.

(** ** Circular storage

    [window l o n]: the [n] cells of [l] from index [o] on, wrapping at the
    end. *)
Section Window.
Context (size : nat) (Hsize : (0 < size)%nat).
Implicit Types (l : list Z) (o n i : nat).

Definition wrap_index (i : nat) : nat := i mod size.
Definition window l o n : list Z := (fun k => nth (wrap_index (o + k)) l 0) <$> seq 0 n.

Lemma length_window l o n : length (window l o n) = n.
Proof. unfold window. by rewrite length_fmap, length_seq. Qed.
Lemma wrap_index_lt i : (wrap_index i < size)%nat.
Proof using Hsize. apply Nat.mod_upper_bound. lia. Qed.
Lemma wrap_index_add o i : wrap_index (wrap_index o + i) = wrap_index (o + i).
Proof using Hsize. unfold wrap_index. apply Nat.Div0.add_mod_idemp_l. Qed.
Lemma wrap_index_inj o i j :
  (i < size)%nat -> (j < size)%nat -> wrap_index (o + i) = wrap_index (o + j) -> i = j.
Proof using Hsize.
  unfold wrap_index. intros Hi Hj E.
  pose proof (Nat.div_mod_eq (o + i) size). pose proof (Nat.div_mod_eq (o + j) size).
  set (a := ((o + i) / size)%nat) in *. set (b := ((o + j) / size)%nat) in *.
  destruct (Nat.lt_trichotomy a b) as [|[|]]; [|nia|]; nia.
Qed.
Lemma window_insert l o n b :
  length l = size -> (n < size)%nat ->
  window (<[wrap_index (o + n) := b]> l) o (S n) = window l o n ++ [b].
Proof using Hsize.
  intros Hl Hn. unfold window. rewrite seq_S, fmap_app. cbn [Nat.add fmap list_fmap]. f_equal.
  - apply list_fmap_ext. intros k x Hk. apply lookup_seq in Hk as [-> Hk].
    rewrite !nth_lookup, list_lookup_insert_ne; [done|].
    intros E. apply wrap_index_inj in E; lia.
  - rewrite nth_lookup, list_lookup_insert_eq; [done|]. rewrite Hl. apply wrap_index_lt.
Qed.
Lemma window_cons l o n :
  window l o (S n) = nth (wrap_index o) l 0 :: window l (wrap_index (S o)) n.
Proof using Hsize.
  unfold window. cbn [seq fmap list_fmap]. rewrite Nat.add_0_r. f_equal.
  rewrite <- seq_shift, <- list_fmap_compose. apply list_fmap_ext. intros k x _. cbn.
  by rewrite wrap_index_add, Nat.add_succ_r.
Qed.
End Window.

(** ** LUFA's ring buffer *)
Module Lufa.
(** Pointers are indices into the array; [End] is index [Size]. *)
Record RingBuffer_t : Set := mkRing {
  Buffer : list Z; In : Z; Out : Z; Size : Z; Count : Z
}.
Definition RingBuffer_InitBuffer (DataPtr : list Z) (size : Z) : RingBuffer_t :=
  mkRing DataPtr 0 0 size 0.
Definition RingBuffer_GetCount (b : RingBuffer_t) : Z := Count b.
Definition advance (p size : Z) : Z := if p + 1 =? size then 0 else p + 1.
Definition RingBuffer_Insert (data : Z) (b : RingBuffer_t) : RingBuffer_t :=
  mkRing (aset (In b) data (Buffer b)) (advance (In b) (Size b)) (Out b) (Size b)
    (u16 (Count b + 1)).
Definition RingBuffer_Remove (b : RingBuffer_t) : Z * RingBuffer_t :=
  (aget 0 (Buffer b) (Out b),
   mkRing (Buffer b) (In b) (advance (Out b) (Size b)) (Size b) (u16 (Count b - 1))).

Definition ok (size : nat) (b : RingBuffer_t) : Prop :=
  Size b = Z.of_nat size /\ length (Buffer b) = size /\
  exists o n : nat, (o < size)%nat /\ (n <= size)%nat /\
    Out b = Z.of_nat o /\ Count b = Z.of_nat n /\ In b = Z.of_nat (wrap_index size (o + n)).
Definition contents (size : nat) (b : RingBuffer_t) : list Z :=
  window size (Buffer b) (Z.to_nat (Out b)) (Z.to_nat (Count b)).

Section Ok.
Context (size : nat) (Hsize : 0 < Z.of_nat size < 65536).
#[local] Instance LufaFifo : Fifo RingBuffer_t :=
  {| fifo_cap := size; fifo_ok := ok size; fifo_contents := contents size;
     fifo_count := RingBuffer_GetCount; fifo_push := RingBuffer_Insert;
     fifo_pop := RingBuffer_Remove |}.
Lemma advance_wrap i :
  (i < size)%nat -> advance (Z.of_nat i) (Z.of_nat size) = Z.of_nat (wrap_index size (S i)).
Proof using Hsize.
  intros Hi. unfold advance, wrap_index. destruct (Z.eqb_spec (Z.of_nat i + 1) (Z.of_nat size)) as [E|E].
  - replace (S i) with size by lia. by rewrite Nat.Div0.mod_same.
  - rewrite Nat.mod_small by lia. lia.
Qed.
Lemma length_contents b : ok size b -> length (contents size b) = Z.to_nat (Count b).
Proof using. intros _. apply length_window. Qed.
#[local] Instance LufaFifoOk : FifoOk RingBuffer_t.
Proof using Hsize.
  split; cbn [LufaFifo fifo_cap fifo_ok fifo_contents fifo_count fifo_push fifo_pop].
  - intros b Hb. pose proof (length_contents b Hb) as ->. destruct Hb as (_ & _ & o & n & _ & _ & _ & E & _).
    unfold RingBuffer_GetCount. lia.
  - intros b Hb. pose proof (length_contents b Hb) as ->. destruct Hb as (_ & _ & o & n & _ & ? & _ & E & _). lia.
  - intros d b Hb Hlt. pose proof (length_contents b Hb) as E. rewrite E in Hlt. clear E.
    destruct Hb as (Hs & Hl & o & n & Ho & Hn & Eo & En & Ei).
    split; [done|]. split; [cbn; by rewrite length_aset|]. exists o, (S n).
    cbn [RingBuffer_Insert In Out Count]. rewrite Ei, Hs, advance_wrap by (apply wrap_index_lt; lia).
    repeat split; try lia.
    + rewrite En, uwrap_small by (unfold in_u; lia). lia.
    + f_equal. rewrite <- Nat.add_1_r, wrap_index_add by lia. f_equal. lia.
  - intros d b Hb Hlt. pose proof (length_contents b Hb) as E. rewrite E in Hlt. clear E.
    destruct Hb as (Hs & Hl & o & n & Ho & Hn & Eo & En & Ei). unfold contents.
    cbn [RingBuffer_Insert Buffer Out Count]. rewrite Eo, En, Ei in *.
    rewrite uwrap_small by (unfold in_u; lia). unfold aset. rewrite !Nat2Z.id in *.
    replace (Z.to_nat (Z.of_nat n + 1)) with (S n) by lia. apply window_insert; lia.
  - intros b Hb Hne. assert (0 < Z.to_nat (Count b))%nat as Hc.
    { rewrite <- (length_contents b Hb). destruct (contents size b); [done|simpl; lia]. }
    destruct Hb as (Hs & Hl & o & n & Ho & Hn & Eo & En & Ei).
    split; [done|]. split; [done|]. exists (wrap_index size (S o)), (n - 1)%nat.
    cbn [RingBuffer_Remove snd In Out Count]. rewrite Eo, Hs, advance_wrap by done.
    repeat split; [apply wrap_index_lt; lia|lia| |].
    + rewrite En, uwrap_small by (unfold in_u; lia). lia.
    + rewrite Ei, wrap_index_add by lia. do 2 f_equal. lia.
  - intros b Hb Hne. assert (0 < Z.to_nat (Count b))%nat as Hc.
    { rewrite <- (length_contents b Hb). destruct (contents size b); [done|simpl; lia]. }
    destruct Hb as (Hs & Hl & o & n & Ho & Hn & Eo & En & Ei). unfold contents.
    cbn [RingBuffer_Remove fst snd Buffer Out Count]. rewrite Eo, En, Hs in *.
    rewrite advance_wrap by done. rewrite uwrap_small by (unfold in_u; lia).
    unfold aget. rewrite !Nat2Z.id. replace (Z.to_nat (Z.of_nat n - 1)) with (n - 1)%nat by lia.
    replace n with (S (n - 1)) at 1 by lia. rewrite window_cons by lia. f_equal.
    unfold wrap_index. by rewrite Nat.mod_small by lia.
Qed.
End Ok.
End Lufa.

(** ** The USB processor's buffers *)
Module Ptr.
(** An array with a write and a read pointer; full would look empty, so one
    cell stays free. *)
Record ring : Set := mk { mem : list Z; wr : Z; rd : Z }.

Section Generic.
Context (size : nat) (adv : Z -> Z) (count : ring -> Z).
Context (Hsize : (1 < size)%nat).
Context (Hadv : forall i, (i < size)%nat -> adv (Z.of_nat i) = Z.of_nat (wrap_index size (S i))).
Context (Hcount : forall q, count q = (wr q - rd q) mod Z.of_nat size).

Definition put (b : Z) (q : ring) : ring := mk (aset (wr q) b (mem q)) (adv (wr q)) (rd q).
Definition get (q : ring) : Z * ring :=
  (aget 0 (mem q) (rd q), mk (mem q) (wr q) (adv (rd q))).
Definition ok (q : ring) : Prop :=
  length (mem q) = size /\
  exists o n : nat, (o < size)%nat /\ (n < size)%nat /\
    rd q = Z.of_nat o /\ wr q = Z.of_nat (wrap_index size (o + n)).
Definition contents (q : ring) : list Z :=
  window size (mem q) (Z.to_nat (rd q)) (Z.to_nat (count q)).
Definition fifo : Fifo ring :=
  {| fifo_cap := size - 1; fifo_ok := ok; fifo_contents := contents; fifo_count := count;
     fifo_push := put; fifo_pop := get |}.
#[local] Existing Instance fifo.

Lemma count_eq q o n : (o < size)%nat -> (n < size)%nat ->
  rd q = Z.of_nat o -> wr q = Z.of_nat (wrap_index size (o + n)) -> count q = Z.of_nat n.
Proof using Hcount Hsize.
  intros Ho Hn Er Ew. rewrite Hcount, Er, Ew. unfold wrap_index.
  rewrite Nat2Z.inj_mod, Zminus_mod_idemp_l. replace (_ - _) with (Z.of_nat n) by lia.
  apply Z.mod_small. lia.
Qed.
Lemma contents_eq q o n : (o < size)%nat -> (n < size)%nat ->
  rd q = Z.of_nat o -> wr q = Z.of_nat (wrap_index size (o + n)) ->
  contents q = window size (mem q) o n.
Proof using Hcount Hsize.
  intros Ho Hn Er Ew. unfold contents. rewrite (count_eq q o n) by done. rewrite Er.
  by rewrite !Nat2Z.id.
Qed.
Lemma fifo_laws : FifoOk ring.
Proof using Hadv Hcount Hsize.
  assert (0 < size)%nat as Hs by lia.
  split; cbn [fifo fifo_cap fifo_ok fifo_contents fifo_count fifo_push fifo_pop];
    [intros q (Hl & o & n & Ho & Hn & Er & Ew)..|intros b q (Hl & o & n & Ho & Hn & Er & Ew)
    |intros b q (Hl & o & n & Ho & Hn & Er & Ew)|intros q (Hl & o & n & Ho & Hn & Er & Ew)
    |intros q (Hl & o & n & Ho & Hn & Er & Ew)];
    pose proof (contents_eq q o n Ho Hn Er Ew) as Ec; rewrite Ec, ?length_window.
  - by rewrite (count_eq q o n).
  - lia.
  - intros Hlt. split; [cbn; by rewrite length_aset|]. exists o, (S n).
    cbn [put wr rd]. rewrite Ew, Hadv by (apply wrap_index_lt; lia).
    repeat split; [lia..|done|]. f_equal. rewrite <- Nat.add_1_r, wrap_index_add by lia. f_equal. lia.
  - intros Hlt. rewrite (contents_eq _ o (S n)); [|lia|lia|done|].
    + cbn [put mem]. rewrite Ew. unfold aset. rewrite Nat2Z.id. apply window_insert; lia.
    + cbn [put wr]. rewrite Ew, Hadv by (apply wrap_index_lt; lia). f_equal.
      rewrite <- Nat.add_1_r, wrap_index_add by lia. f_equal. lia.
  - intros Hne. assert (0 < n)%nat by (destruct n; [done|lia]). split; [done|].
    exists (wrap_index size (S o)), (n - 1)%nat. cbn [get snd wr rd]. rewrite Er, Hadv by done.
    repeat split; [by apply wrap_index_lt|lia|]. rewrite Ew, wrap_index_add by lia. do 2 f_equal. lia.
  - intros Hne. assert (0 < n)%nat by (destruct n; [done|lia]).
    rewrite (contents_eq _ (wrap_index size (S o)) (n - 1)).
    + cbn [get fst snd mem]. rewrite Er. unfold aget. rewrite Nat2Z.id.
      replace n with (S (n - 1)) at 1 by lia. rewrite window_cons by lia. f_equal.
      unfold wrap_index. by rewrite Nat.mod_small by lia.
    + by apply wrap_index_lt.
    + lia.
    + cbn [get snd rd]. by rewrite Er, Hadv.
    + cbn [get snd wr]. rewrite Ew, wrap_index_add by lia. do 2 f_equal. lia.
Qed.
End Generic.
End Ptr.

(** From the main processor: the receive interrupt writes, the loop in [main]
    reads.  The pointers are bytes over 256 cells. *)
Module UsartToUsb.
Definition ring_size : nat := 256.
Definition next (p : Z) : Z := u8 (p + 1).
Definition count (q : Ptr.ring) : Z := u8 (Ptr.wr q - Ptr.rd q).
(** [USART1_RX_vect] with the byte received. *)
Definition USART1_RX_vect : Z -> Ptr.ring -> Ptr.ring := Ptr.put next.
Definition read : Ptr.ring -> Z * Ptr.ring := Ptr.get next.
Definition fifo : Fifo Ptr.ring := Ptr.fifo ring_size next count.
#[local] Existing Instance fifo.
Lemma UsartToUsb_laws : FifoOk (H := fifo) Ptr.ring.
Proof.
  apply Ptr.fifo_laws.
  - unfold ring_size. lia.
  - intros i Hi. unfold next, uwrap, wrap_index, ring_size in *. change (2 ^ 8) with 256.
    rewrite Nat2Z.inj_mod. f_equal. lia.
  - done.
Qed.
End UsartToUsb.

(** To the main processor: [writeData] writes, the data register empty
    interrupt reads.  128 cells. *)
Module UsbToUsart.
Definition USB2USART_BUFLEN : Z := 128.
Definition ring_size : nat := 128.
Definition next (p : Z) : Z := Z.land (p + 1) 0x7F.
Definition count (q : Ptr.ring) : Z := Z.land (Ptr.wr q - Ptr.rd q) (USB2USART_BUFLEN - 1).
Definition free (q : Ptr.ring) : Z := USB2USART_BUFLEN - 1 - count q.
Definition store_byte : Z -> Ptr.ring -> Ptr.ring := Ptr.put next.
(** [cbi 7] after the increment. *)
Definition next_read (p : Z) : Z := Z.ldiff (u8 (p + 1)) (BV 7).
(** [USART1_UDRE_vect]: the byte to transmit and whether more wait; without
    any it disables itself. *)
Definition USART1_UDRE_vect (q : Ptr.ring) : Z * Ptr.ring * bool :=
  let '(b, q) := Ptr.get next_read q in (b, q, negb (Ptr.rd q =? Ptr.wr q)).
Lemma next_spec p : next p = (p + 1) mod 128.
Proof. unfold next. change 0x7F with (Z.ones 7). by rewrite Z.land_ones. Qed.
Lemma next_read_spec p : 0 <= p < 128 -> next_read p = next p.
Proof.
  intros Hp. unfold next_read, next. apply Z.bits_inj'. intros k Hk.
  rewrite uwrap_small by (unfold in_u; lia). rewrite Z.ldiff_spec, Z.land_spec, testbit_BV by done.
  change 0x7F with (Z.ones 7). rewrite Z.testbit_ones by lia.
  destruct (Z.lt_trichotomy k 7) as [|[->|]].
  - rewrite (proj2 (Z.eqb_neq k 7)) by lia. rewrite (proj2 (Z.ltb_lt _ _)), (proj2 (Z.leb_le _ _)) by lia.
    done.
  - by rewrite !andb_false_r.
  - assert (Z.testbit (p + 1) k = false) as ->; [|done].
    assert (in_u 8 (p + 1)) as Hu by (unfold in_u; lia).
    apply in_u_testbit in Hu as [_ Hu]; [|done]. apply Hu. lia.
Qed.
Definition fifo : Fifo Ptr.ring := Ptr.fifo ring_size next count.
#[local] Existing Instance fifo.
Lemma count_spec q : count q = (Ptr.wr q - Ptr.rd q) mod Z.of_nat ring_size.
Proof.
  unfold count, USB2USART_BUFLEN. change (128 - 1) with (Z.ones 7). by rewrite Z.land_ones.
Qed.
Lemma empty_spec q : fifo_ok q ->
  (Ptr.rd q =? Ptr.wr q) = bool_decide (fifo_contents q = []).
Proof.
  intros (_ & o & n & Ho & Hn & Er & Ew).
  pose proof (Ptr.contents_eq ring_size count ltac:(unfold ring_size; lia) count_spec q o n
    Ho Hn Er Ew) as Ec.
  change (Ptr.contents ring_size count q) with (fifo_contents q) in Ec. rewrite Ec, Er, Ew.
  assert (wrap_index ring_size (o + 0) = o) as E0.
  { rewrite Nat.add_0_r. by apply Nat.mod_small. }
  destruct (decide (n = 0%nat)) as [->|Hne].
  - rewrite E0, Z.eqb_refl. by rewrite bool_decide_eq_true_2.
  - rewrite bool_decide_eq_false_2 by (destruct n; done). apply Z.eqb_neq. intros E.
    apply Hne, (wrap_index_inj ring_size ltac:(unfold ring_size; lia) o); [lia| |lia].
    unfold ring_size. lia.
Qed.
Lemma UsbToUsart_laws : FifoOk (H := fifo) Ptr.ring.
Proof.
  apply Ptr.fifo_laws.
  - unfold ring_size. lia.
  - intros i Hi. rewrite next_spec. unfold wrap_index, ring_size in *.
    rewrite Nat2Z.inj_mod. f_equal. lia.
  - apply count_spec.
Qed.
End UsbToUsart.

(** ** Refinement of a bounded queue *)
Inductive op : Set := Push (b : Z) | Pop.
(** The reference: a queue of at most [cap] bytes.  Pushing to a full one or
    taking from an empty one is outside the contract. *)
Fixpoint queue_run (cap : nat) (ops : list op) (l : list Z) : option (list Z * list Z) :=
  match ops with
  | [] => Some ([], l)
  | Push b :: ops => if (length l <? cap)%nat then queue_run cap ops (l ++ [b]) else None
  | Pop :: ops =>
      match l with
      | [] => None
      | b :: l => '(out, l') ← queue_run cap ops l; Some (b :: out, l')
      end
  end.
Section Run.
Context {Q : Type} `{Fifo Q}.
Fixpoint fifo_run (ops : list op) (q : Q) : list Z * Q :=
  match ops with
  | [] => ([], q)
  | Push b :: ops => fifo_run ops (fifo_push b q)
  | Pop :: ops => let '(b, q) := fifo_pop q in let '(out, q) := fifo_run ops q in (b :: out, q)
  end.
Definition refines_queue : Prop :=
  forall ops q out l,
    fifo_ok q -> queue_run fifo_cap ops (fifo_contents q) = Some (out, l) ->
    (fifo_run ops q).1 = out /\ fifo_ok (fifo_run ops q).2 /\
    fifo_contents (fifo_run ops q).2 = l.
Lemma fifo_refines_queue : FifoOk Q -> refines_queue.
Proof.
  intros Hok ops. induction ops as [|[b|] ops IH]; intros q out l Hq E; cbn [queue_run fifo_run] in *.
  - by simplify_eq.
  - destruct (Nat.ltb_spec (length (fifo_contents q)) fifo_cap); [|done].
    rewrite <- push_contents in E by done. apply IH in E; [done|by apply push_ok].
  - destruct (fifo_contents q) as [|b l0] eqn:Ec; [done|].
    assert (fifo_contents q <> []) as Hne by by rewrite Ec.
    pose proof (pop_contents q Hq Hne) as Ep. pose proof (pop_ok q Hq Hne) as Hp.
    destruct (fifo_pop q) as [b' q']. cbn [fst snd] in *. rewrite Ec in Ep. simplify_eq.
    destruct (queue_run fifo_cap ops (fifo_contents q')) as [[out' l']|] eqn:Er; [|done].
    cbn in E. simplify_eq. destruct (IH _ _ _ Hp Er) as (<- & ? & <-).
    destruct (fifo_run ops q'). by repeat split.
Qed.
Definition push_all (l : list Z) (q : Q) : Q := foldl (fun q b => fifo_push b q) q l.
Lemma push_all_contents (Hok : FifoOk Q) l q :
  fifo_ok q -> (length (fifo_contents q) + length l <= fifo_cap)%nat ->
  fifo_ok (push_all l q) /\ fifo_contents (push_all l q) = fifo_contents q ++ l.
Proof.
  revert q. induction l as [|b l IH]; intros q Hq Hl; cbn [length] in Hl.
  { by rewrite app_nil_r. }
  cbn [push_all foldl]. fold (push_all l (fifo_push b q)).
  assert (length (fifo_contents q) < fifo_cap)%nat by lia.
  pose proof (push_contents b q Hq ltac:(lia)) as Ec.
  destruct (IH (fifo_push b q)) as [Ho E]; [by apply push_ok|rewrite Ec, length_app; simpl; lia|].
  split; [done|]. by rewrite E, Ec, <- app_assoc.
Qed.
End Run.
Arguments refines_queue Q {_}.

(** C15: The three byte buffers of the link, LUFA's of any size and the two of the
    USB processor (255 and 127 bytes), are queues: any interleaving of
    insertions and removals that neither overfills nor empties past zero
    delivers the bytes in order, and the emptied buffers they start from are
    well formed. *)
Theorem ring_buffers_refine_queue size :
  0 < Z.of_nat size < 65536 ->
  (refines_queue (H := Lufa.LufaFifo size) Lufa.RingBuffer_t /\
   forall data, length data = size ->
     fifo_ok (Fifo := Lufa.LufaFifo size) (Lufa.RingBuffer_InitBuffer data (Z.of_nat size))) /\
  refines_queue (H := UsartToUsb.fifo) Ptr.ring /\
  refines_queue (H := UsbToUsart.fifo) Ptr.ring /\
  (forall q, fifo_ok (Fifo := UsbToUsart.fifo) q ->
     fifo_contents (Fifo := UsbToUsart.fifo) q <> [] ->
     let '(b, q', more) := UsbToUsart.USART1_UDRE_vect q in
     (b, q') = fifo_pop (Fifo := UsbToUsart.fifo) q /\
     more = negb (bool_decide (fifo_contents (Fifo := UsbToUsart.fifo) q' = []))).
Proof.
  intros Hsize. split; [split|split; [|split]].
  - apply fifo_refines_queue. by apply Lufa.LufaFifoOk.
  - intros data Hd. cbn. split; [done|]. split; [done|]. exists 0%nat, 0%nat. cbn.
    repeat split; try lia. unfold wrap_index. by rewrite Nat.mod_small by lia.
  - apply fifo_refines_queue, UsartToUsb.UsartToUsb_laws.
  - apply fifo_refines_queue, UsbToUsart.UsbToUsart_laws.
  - intros q Hq Hne. pose proof (@pop_ok _ _ UsbToUsart.UsbToUsart_laws q Hq Hne) as Hp.
    
    unfold UsbToUsart.USART1_UDRE_vect.
    assert (Ptr.get UsbToUsart.next_read q = Ptr.get UsbToUsart.next q) as ->.
    { unfold Ptr.get. rewrite UsbToUsart.next_read_spec; [done|].
      destruct Hq as (_ & o & n & Ho & _ & -> & _). unfold UsbToUsart.ring_size in Ho. lia. }
    change (Ptr.get UsbToUsart.next q) with (fifo_pop (Fifo := UsbToUsart.fifo) q).
    destruct (fifo_pop (Fifo := UsbToUsart.fifo) q) as [b q']. cbn [snd] in Hp. split; [done|].
    f_equal. by apply UsbToUsart.empty_spec.
Qed.
(** Three bytes through LUFA's buffer of [USB2USART_BUFLEN] cells. *)
Lemma ring_buffers_refine_queue_witness :
  (fifo_run (H := Lufa.LufaFifo 128) [Push 1; Push 2; Pop; Push 3; Pop; Pop]
     (Lufa.RingBuffer_InitBuffer (replicate 128 0) 128)).1 = [1; 2; 3].
Proof.
  destruct (ring_buffers_refine_queue 128 ltac:(lia)) as [[R I] _].
  apply (R _ _ [1; 2; 3] [] (I (replicate 128 0) eq_refl)). reflexivity.
Defined.
