(* ===== verification/UnoUsb.v ===== *)
(** * The Uno's USB processor: [avr/uno/usb/main.c], [avr/uno/usb/device_comms.h]

    It forwards frames between the host's endpoints and the UART of the main
    processor.  LUFA's endpoint functions are an interface over a device state
    [W]; the two byte buffers are those of [RingBuffer.v]. *)

From Stdlib Require Import ZArith Lia.
From stdpp Require Import base tactics numbers list.
From S2P Require Import Prelude Defs Descriptors RingBuffer.
Open Scope Z_scope.

(** ** device_consts.h, descriptors.h *)
Definition FRAME_START_FEATURE_READ : Z := 0x7d.
Definition FRAME_START_FEATURE_WRITE : Z := 0x7e.
Definition FRAME_START_WRITE : Z := 0x78.
Definition FRAME_DONE : Z := 0x77.
Definition ENDPOINT_CONTROLEP : Z := 0.
(** The table [endpoints], by report id. *)
Definition endpoint_entries : list (HID_Report * Z) :=
  [(REPORT_ID_CONTROL, ENDPOINT_CONTROLEP); (REPORT_ID_XINPUT, XINPUT_EPADDR_IN);
   (REPORT_ID_XINPUT_2, XINPUT_2_EPADDR_IN); (REPORT_ID_XINPUT_3, XINPUT_3_EPADDR_IN);
   (REPORT_ID_XINPUT_4, XINPUT_4_EPADDR_IN); (REPORT_ID_GAMEPAD, HID_EPADDR_IN);
   (REPORT_ID_KBD, HID_EPADDR_IN); (REPORT_ID_MOUSE, HID_EPADDR_IN);
   (REPORT_ID_MIDI, MIDI_EPADDR_IN)].
Definition endpoints : list Z :=
  foldr (fun '(r, e) t => aset (HID_Report_val r) e t) (replicate 9 0) endpoint_entries.

(** ** LUFA's endpoint functions *)
Class Endpoints (W : Type) := {
  Endpoint_SelectEndpoint : Z -> M W unit;
  Endpoint_GetCurrentEndpoint : M W Z;
  Endpoint_Write_8 : Z -> M W unit;
  Endpoint_ClearIN : M W unit;
  Endpoint_IsINReady : M W bool;
  Endpoint_IsOUTReceived : M W bool;
  Endpoint_BytesInEndpoint : M W Z;
  Endpoint_Read_8 : M W Z;
  Endpoint_ClearOUT : M W unit;
  Endpoint_ClearSETUP : M W unit;
  Endpoint_ClearStatusStage : M W unit;
  USB_USBTask : M W unit
}.

Section UnoUsb.
Context {W : Type} `{Endpoints W}.
(** The flash after the table [endpoints]. *)
Context (past : Z -> Z).

Record usb_state : Type := mkUsb {
  state : Z; packetCount : Z; currentEndpoint : Z; checkEndpoint : bool;
  rx : Ptr.ring; tx : Ptr.ring;
  (* the stored device type, the reset flag, the devices *)
  config_id : Z; config_deviceType : Z; jmpToBootloader : Z; rebooted : bool;
  dev : W
}.
#[global] Instance etaUsb : Settable usb_state := fun r =>
  {| state := state r; packetCount := packetCount r; currentEndpoint := currentEndpoint r;
     checkEndpoint := checkEndpoint r; rx := rx r; tx := tx r; config_id := config_id r;
     config_deviceType := config_deviceType r; jmpToBootloader := jmpToBootloader r;
     rebooted := rebooted r; dev := dev r |}.
Definition on_dev {A} (m : M W A) : M usb_state A :=
  fun s => let '(a, w) := m (dev s) in (a, s <| dev := w |>).

(** *** To the main processor *)
(** [writeData]: the free space is read once, before the waiting loop, so a
    buffer too full is waited for forever; [None] is that.  The transmit
    interrupt it enables takes the bytes out ([UsbToUsart.USART1_UDRE_vect]).
    No caller passes an empty buffer, for which the loop would store 256 bytes. *)
Definition writeData (buf : list Z) : M usb_state (option unit) :=
  free ← mread (fun s => u8 (UsbToUsart.free (tx s)));
  if Z.of_nat (length buf) >? free then mret None
  else
    mmod (fun s => s <| tx ::= fun q => foldl (fun q b => UsbToUsart.store_byte b q) q buf |>) ;;
    oret tt.

(** *** From the main processor *)
Definition strips_id (data : Z) : bool :=
  (data =? REPORT_ID_MIDI) || (data =? REPORT_ID_GAMEPAD) || (data =? REPORT_ID_CONTROL).
Definition endpoint_of (data : Z) : Z :=
  if data <? 9 then aget 0 endpoints data else past data.
(** One round of the loop over the received bytes; [true] is [break]. *)
Definition usb_byte (data : Z) : M usb_state bool :=
  st ← mread state;
  if (st =? 0) && (data =? FRAME_START_WRITE) then mmod (fun s => s <| state := 1 |>) ;; mret false
  else if st =? 1 then
    mmod (fun s => s <| packetCount := data |> <| state := 2 |>) ;; mret false
  else if st =? 2 then
    mmod (fun s => s <| state := 3 |> <| packetCount ::= fun n => u8 (n - 1) |>
                     <| currentEndpoint := endpoint_of data |>) ;;
    on_dev (Endpoint_SelectEndpoint (endpoint_of data)) ;;
    mwhen (negb (strips_id data)) (on_dev (Endpoint_Write_8 data)) ;;
    mret false
  else if st =? 3 then
    mmod (fun s => s <| packetCount ::= fun n => u8 (n - 1) |>) ;;
    on_dev (Endpoint_Write_8 data) ;;
    n ← mread packetCount;
    if n =? 0 then
      on_dev Endpoint_ClearIN ;;
      mmod (fun s => s <| state := 0 |>
                       <| checkEndpoint ::= fun b => negb (currentEndpoint s =? 0) || b |>) ;;
      mret true
    else mret false
  else mret false.
(** The loop over the [count] bytes seen, on a copy of the read pointer. *)
Fixpoint usb_batch (count : nat) (q : Ptr.ring) : M usb_state Ptr.ring :=
  match count with
  | O => mret q
  | S count =>
      let '(data, q) := UsartToUsb.read q in
      stop ← usb_byte data;
      if (stop : bool) then mret q else usb_batch count q
  end.
(** The read pointer is written back after the loop; the receive interrupt owns
    the rest of the buffer. *)
Definition save_read (q : Ptr.ring) : M usb_state unit :=
  mmod (fun s => s <| rx := Ptr.mk (Ptr.mem (rx s)) (Ptr.wr (rx s)) (Ptr.rd q) |>).
(** One round of the main loop. *)
Definition usb_loop : M usb_state (option unit) :=
  q ← mread rx;
  if negb (UsartToUsb.count q =? 0) then
    q ← usb_batch (Z.to_nat (UsartToUsb.count q)) q; save_read q ;; oret tt
  else
    on_dev USB_USBTask ;;
    check ← mread checkEndpoint;
    if (check : bool) then
      prev ← on_dev Endpoint_GetCurrentEndpoint;
      ep ← mread currentEndpoint;
      on_dev (Endpoint_SelectEndpoint ep) ;;
      ready ← on_dev Endpoint_IsINReady;
      r ← (if (ready : bool)
           then _ ←? writeData [FRAME_DONE]; olift (mmod (fun s => s <| checkEndpoint := false |>))
           else oret tt);
      match r with
      | Some _ => on_dev (Endpoint_SelectEndpoint prev) ;; oret tt
      | None => mret None
      end
    else oret tt.

(** *** Start-up *)
Definition JUMP : Z := 0xDEAD8001.
(** Reads the stored device type, or stores the built-in one under the
    signature. *)
Definition usb_boot (deviceType : Z) : M usb_state Z :=
  id ← mread config_id;
  if negb (id =? ARDWIINO_DEVICE_TYPE) then
    mmod (fun s => s <| config_id := ARDWIINO_DEVICE_TYPE |> <| config_deviceType := deviceType |>) ;;
    mret deviceType
  else mread config_deviceType.
Definition first_endpoint (deviceType : Z) : Z :=
  if deviceType >=? MIDI_GAMEPAD then MIDI_EPADDR_IN
  else if deviceType >=? KEYBOARD_GAMEPAD then HID_EPADDR_IN else XINPUT_EPADDR_IN.
Definition usb_start (deviceType : Z) : M usb_state unit :=
  mmod (fun s => s <| rx ::= fun q => Ptr.mk (Ptr.mem q) 0 0 |>
                   <| tx ::= fun q => Ptr.mk (Ptr.mem q) 0 0 |>) ;;
  t ← usb_boot deviceType;
  mmod (fun s => s <| packetCount := 0 |> <| state := 0 |> <| currentEndpoint := first_endpoint t |>
                   <| checkEndpoint := true |>).

(** *** Feature reports from the host *)
(** The bytes of one OUT packet, while the report still needs some; [d] is the
    byte last read. *)
Fixpoint feature_packet (fuel : nat) (len d : Z) : M usb_state (option (Z * Z)) :=
  match fuel with
  | O => mret None
  | S fuel =>
      if len =? 0 then oret (len, d)
      else
        n ← on_dev Endpoint_BytesInEndpoint;
        if n =? 0 then oret (len, d)
        else
          d ← on_dev Endpoint_Read_8;
          _ ←? writeData [d];
          feature_packet fuel (len - 1) d
  end.
Fixpoint feature_data (fuel : nat) (len d : Z) : M usb_state (option Z) :=
  match fuel with
  | O => mret None
  | S fuel' =>
      if len =? 0 then oret d
      else
        out ← on_dev Endpoint_IsOUTReceived;
        if (out : bool) then
          p ←? feature_packet fuel len d;
          on_dev Endpoint_ClearOUT ;; feature_data fuel' p.1 p.2
        else feature_data fuel' len d
  end.
(** [d0] is the uninitialised local that a report without data leaves in use. *)
Definition processHIDWriteFeatureReportControl (fuel : nat) (d0 cmd len : Z)
  : M usb_state (option unit) :=
  on_dev Endpoint_ClearSETUP ;;
  _ ←? writeData [FRAME_START_FEATURE_WRITE];
  _ ←? writeData [len];
  _ ←? writeData [cmd];
  d ←? feature_data fuel len d0;
  mwhen (cmd =? COMMAND_WRITE_SUBTYPE) (mmod (fun s => s <| config_deviceType := d |>)) ;;
  (* [reboot] does not return *)
  if (cmd =? COMMAND_REBOOT) || (cmd =? COMMAND_JUMP_BOOTLOADER) then
    mmod (fun s => s <| jmpToBootloader := if cmd =? COMMAND_REBOOT then 0 else JUMP |>
                     <| rebooted := true |>) ;;
    oret tt
  else on_dev Endpoint_ClearStatusStage ;; oret tt.
Definition processHIDReadFeatureReport (cmd : Z) : M usb_state (option unit) :=
  on_dev Endpoint_ClearSETUP ;;
  _ ←? writeData [FRAME_START_FEATURE_READ];
  writeData [cmd].
End UnoUsb.
Arguments usb_state : clear implicits.

(** ** Frames to the host *)
Section Frames.
Context {W : Type} `{Endpoints W} (past : Z -> Z).
Implicit Types (s : usb_state W).

(** All received bytes, one after the other. *)
Definition feed (l : list Z) : M (usb_state W) unit := mfor l (fun b => usb_byte past b ;; mret tt).
(** One packet on an endpoint. *)
Definition write_all (l : list Z) : M W unit := mfor l Endpoint_Write_8.
Definition deliver (ep : Z) (l : list Z) : M W unit :=
  Endpoint_SelectEndpoint ep ;; write_all l ;; Endpoint_ClearIN.
Definition run_dev (m : M W unit) s : usb_state W := s <| dev := (m (dev s)).2 |>.

Lemma feed_cons b l s : feed (b :: l) s = feed l (usb_byte past b s).2.
Proof. unfold feed. cbn [mfor]. by rewrite !mbind_run. Qed.
Lemma feed_app l1 l2 s : feed (l1 ++ l2) s = feed l2 (feed l1 s).2.
Proof. unfold feed. by rewrite mfor_app, mbind_run. Qed.
Lemma on_dev_run (m : M W unit) s : on_dev m s = (tt, run_dev m s).
Proof. unfold on_dev, run_dev. by destruct (m (dev s)) as [[] w]. Qed.
Lemma usb_byte_payload b s :
  state s = 3 ->
  let s1 := run_dev (Endpoint_Write_8 b) (s <| packetCount := u8 (packetCount s - 1) |>) in
  usb_byte past b s =
    if packetCount s1 =? 0
    then (true, run_dev Endpoint_ClearIN s1 <| state := 0 |>
                  <| checkEndpoint := negb (currentEndpoint s =? 0) || checkEndpoint s |>)
    else (false, s1).
Proof.
  intros Hs. destruct s as [st n ep ck rx0 tx0 ci ct j rb w]. cbn in Hs. subst st.
  unfold usb_byte, mread, mmod, mbind, M_bind. cbn -[uwrap on_dev run_dev]. rewrite on_dev_run.
  destruct (packetCount _ =? 0); [|reflexivity]. cbv beta. rewrite on_dev_run. reflexivity.
Qed.
Lemma feed_payload l s :
  state s = 3 -> (0 < length l <= 256)%nat -> packetCount s = u8 (Z.of_nat (length l)) ->
  feed l s = (tt, run_dev (write_all l ;; Endpoint_ClearIN) s <| packetCount := 0 |>
    <| state := 0 |> <| checkEndpoint := negb (currentEndpoint s =? 0) || checkEndpoint s |>).
Proof.
  revert s. induction l as [|b l IH]; intros s Hs Hl Hn; [cbn in Hl; lia|].
  rewrite feed_cons, usb_byte_payload by done. cbv zeta. cbn [length] in *.
  assert (u8 (packetCount s - 1) = u8 (Z.of_nat (length l))) as E.
  { rewrite Hn. unfold uwrap. rewrite Zminus_mod_idemp_l. f_equal. lia. }
  destruct l as [|b2 l].
  - destruct s as [st n ep ck rx0 tx0 ci ct j rb w]. cbn in *. rewrite E. cbn.
    unfold run_dev, write_all. cbn. unfold mbind, M_bind. cbn.
    by destruct (Endpoint_Write_8 b w) as [[] ?].
  - assert (packetCount (run_dev (Endpoint_Write_8 b) (s <| packetCount := u8 (packetCount s - 1) |>))
      = u8 (Z.of_nat (length (b2 :: l)))) as E1 by exact E.
    rewrite E1. replace (u8 (Z.of_nat (length (b2 :: l))) =? 0) with false.
    2:{ symmetry. apply Z.eqb_neq. rewrite uwrap_small; unfold in_u; cbn [length] in *; lia. }
    cbn [snd]. rewrite IH; [|exact Hs|cbn [length] in *; lia|exact E1].
    destruct s as [st n ep ck rx0 tx0 ci ct j rb w]. unfold run_dev, write_all. cbn [mfor].
    rewrite !mbind_run. cbn. unfold mbind, M_bind. destruct (Endpoint_Write_8 b w) as [[] w1].
    reflexivity.
Qed.
(** What the device sees of a report: its endpoint, the bytes the host gets. *)
Definition visible (rid : Z) (payload : list Z) : list Z :=
  if strips_id rid then payload else rid :: payload.
Definition frame (report : list Z) : list Z :=
  FRAME_START_WRITE :: Z.of_nat (length report) :: report.
Lemma usb_byte_start s :
  state s = 0 -> usb_byte past FRAME_START_WRITE s = (false, s <| state := 1 |>).
Proof. intros Hs. destruct s. cbn in Hs. by subst. Qed.
Lemma usb_byte_length n s :
  state s = 1 -> usb_byte past n s = (false, s <| packetCount := n |> <| state := 2 |>).
Proof. intros Hs. destruct s. cbn in Hs. by subst. Qed.
Lemma usb_byte_rid rid s :
  state s = 2 ->
  usb_byte past rid s =
    (false, run_dev (Endpoint_SelectEndpoint (endpoint_of past rid) ;; write_all (visible rid []))
       (s <| state := 3 |> <| packetCount ::= fun n => u8 (n - 1) |>
          <| currentEndpoint := endpoint_of past rid |>)).
Proof.
  intros Hs. destruct s as [st k ep ck rx0 tx0 ci ct j rb w]. cbn in Hs. subst st.
  unfold usb_byte, visible, write_all. rewrite mbind_run. cbn [mread fst snd state Z.eqb Pos.eqb andb].
  rewrite !mbind_run. cbn [mmod fst snd]. rewrite on_dev_run. unfold mwhen.
  destruct (strips_id rid); cbn [negb mfor]; rewrite ?on_dev_run; unfold run_dev;
    cbn -[endpoint_of uwrap]; by rewrite !mbind_run.
Qed.
(** The state after the start byte, the length and the report id. *)
Lemma feed_header n rid s :
  state s = 0 ->
  feed [FRAME_START_WRITE; n; rid] s =
    (tt, run_dev (Endpoint_SelectEndpoint (endpoint_of past rid) ;;
                  write_all (visible rid [])) s
       <| state := 3 |> <| packetCount := u8 (n - 1) |>
       <| currentEndpoint := endpoint_of past rid |>).
Proof.
  intros Hs. rewrite !feed_cons, usb_byte_start by done. cbn [snd].
  rewrite (usb_byte_length n (s <| state := 1 |>)) by reflexivity. cbn [snd].
  rewrite usb_byte_rid by reflexivity. by destruct s.
Qed.
Lemma write_all_app l1 l2 w : (write_all l1 ;; write_all l2) w = write_all (l1 ++ l2) w.
Proof. unfold write_all. by rewrite mfor_app. Qed.
Lemma deliver_run ep l w :
  ((deliver ep l) w).2 =
    (Endpoint_ClearIN (write_all l (Endpoint_SelectEndpoint ep w).2).2).2.
Proof. unfold deliver. by rewrite !mbind_run. Qed.

(** C17: A frame with a report of 2 to 255 bytes, whatever the bytes, reaches the
    host as exactly one packet on the endpoint of its report id, without the id
    for gamepad, MIDI and control reports; the parser is idle again and the
    ready check is due unless it was a control packet. *)
Theorem usb_frame_delivered rid payload s :
  state s = 0 -> (0 < length payload < 255)%nat ->
  feed (frame (rid :: payload)) s =
    (tt, run_dev (deliver (endpoint_of past rid) (visible rid payload)) s
       <| packetCount := 0 |> <| currentEndpoint := endpoint_of past rid |>
       <| checkEndpoint := negb (endpoint_of past rid =? 0) || checkEndpoint s |>).
Proof.
  intros Hs Hl. unfold frame.
  change (FRAME_START_WRITE :: ?n :: rid :: payload) with ([FRAME_START_WRITE; n; rid] ++ payload).
  rewrite feed_app, feed_header by done. cbn [snd length].
  rewrite feed_payload; [|done|lia|].
  2:{ cbn. f_equal. lia. }
  f_equal. destruct s as [st k ep ck rx0 tx0 ci ct j rb w]. cbn in Hs. subst st.
  unfold run_dev. cbn -[endpoint_of]. rewrite deliver_run, !mbind_run.
  unfold visible. destruct (strips_id rid); cbn -[endpoint_of]; [done|].
  unfold write_all. cbn -[endpoint_of]. by rewrite !mbind_run.
Qed.
(** A frame whose report is only its id, which a MIDI poll without a change
    produces, leaves the parser inside the frame: the next 256 bytes, frames
    included, are written to the endpoint, and only then a packet is sent. *)
Theorem usb_empty_frame_swallows rid next s :
  state s = 0 -> length next = 256%nat ->
  feed (frame [rid] ++ next) s =
    (tt, run_dev (deliver (endpoint_of past rid) (visible rid next)) s
       <| packetCount := 0 |> <| currentEndpoint := endpoint_of past rid |>
       <| checkEndpoint := negb (endpoint_of past rid =? 0) || checkEndpoint s |>).
Proof.
  intros Hs Hl. unfold frame. rewrite feed_app. cbn [length]. change (Z.of_nat 1) with 1.
  rewrite feed_header by done. cbn [snd].
  rewrite feed_payload; [|done|lia|].
  2:{ cbn. rewrite Hl. reflexivity. }
  f_equal. destruct s as [st k ep ck rx0 tx0 ci ct j rb w]. cbn in Hs. subst st.
  unfold run_dev. cbn -[endpoint_of]. rewrite deliver_run, !mbind_run.
  unfold visible. destruct (strips_id rid); cbn -[endpoint_of]; [done|].
  unfold write_all. cbn -[endpoint_of]. by rewrite !mbind_run.
Qed.
End Frames.

(** ** The main loop consumes what was received *)
Section Loop.
#[local] Existing Instance UsartToUsb.fifo.
#[local] Existing Instance UsartToUsb.UsartToUsb_laws.
Context {W : Type} `{Endpoints W} (past : Z -> Z).
Implicit Types (s : usb_state W) (q : Ptr.ring).

(** The parser neither reads nor writes the receive buffer. *)
Lemma on_dev_rx {A} (m : M W A) q s :
  on_dev m (s <| rx := q |>) = ((on_dev m s).1, (on_dev m s).2 <| rx := q |>).
Proof. unfold on_dev. destruct s. cbn. by destruct (m dev0). Qed.
Lemma usb_byte_rx b q s :
  usb_byte past b (s <| rx := q |>) =
    ((usb_byte past b s).1, (usb_byte past b s).2 <| rx := q |>).
Proof.
  unfold usb_byte. rewrite !mbind_run. cbn [mread fst snd].
  change (state (s <| rx := q |>)) with (state s).
  destruct ((state s =? 0) && _); [by destruct s|]. destruct (state s =? 1); [by destruct s|].
  destruct (state s =? 2).
  - rewrite !mbind_run. cbn [mmod fst snd].
    match goal with |- context [on_dev _ ?x] => change x with
      ((s <| state := 3 |> <| packetCount ::= fun n => u8 (n - 1) |>
          <| currentEndpoint := endpoint_of past b |>) <| rx := q |>) end.
    rewrite on_dev_rx. cbn [fst snd].
    destruct (strips_id b); cbn [negb mwhen]; [done|]. by rewrite on_dev_rx.
  - destruct (state s =? 3); [|by destruct s]. rewrite !mbind_run. cbn [mmod fst snd].
    match goal with |- context [on_dev _ ?x] => change x with
      ((s <| packetCount ::= fun n => u8 (n - 1) |>) <| rx := q |>) end.
    rewrite on_dev_rx. cbn [fst snd]. set (s1 := (on_dev (Endpoint_Write_8 b) _).2).
    cbn [mread fst snd]. change (packetCount (s1 <| rx := q |>)) with (packetCount s1).
    destruct (packetCount s1 =? 0); [|done]. rewrite !mbind_run, on_dev_rx. done.
Qed.
Lemma feed_rx l q s : (feed past l (s <| rx := q |>)).2 = (feed past l s).2 <| rx := q |>.
Proof.
  revert s. induction l as [|b l IH]; intros s; [done|].
  rewrite !feed_cons, usb_byte_rx. apply IH.
Qed.
Lemma usb_byte_keeps_rx b s : rx (usb_byte past b s).2 = rx s.
Proof.
  pose proof (f_equal (fun p => rx p.2) (usb_byte_rx b (rx s) s)) as E. by destruct s.
Qed.
Lemma feed_keeps_rx l s : rx (feed past l s).2 = rx s.
Proof.
  revert s. induction l as [|b l IH]; intros s; [done|]. by rewrite feed_cons, IH, usb_byte_keeps_rx.
Qed.
(** A batch feeds a non-empty prefix of the bytes waiting. *)
Lemma usb_batch_feed count q s :
  fifo_ok q -> (0 < count <= length (fifo_contents q))%nat ->
  exists n q', (0 < n <= count)%nat /\ fifo_ok q' /\
    fifo_contents q' = drop n (fifo_contents q) /\ Ptr.mem q' = Ptr.mem q /\ Ptr.wr q' = Ptr.wr q /\
    usb_batch past count q s = (q', (feed past (take n (fifo_contents q)) s).2).
Proof.
  revert q s. induction count as [|count IH]; intros q s Hq Hc; [lia|].
  assert (fifo_contents q <> []) as Hne by (destruct (fifo_contents q); [simpl in Hc; lia|done]).
  pose proof (pop_contents q Hq Hne) as Ec.
  pose proof (pop_ok q Hq Hne) as Ho.
  change (fifo_pop q) with (UsartToUsb.read q) in *. cbn [usb_batch].
  assert (Ptr.mem (UsartToUsb.read q).2 = Ptr.mem q /\ Ptr.wr (UsartToUsb.read q).2 = Ptr.wr q)
    as [Em Ew] by done.
  destruct (UsartToUsb.read q) as [b q1]. cbn [fst snd] in *. rewrite mbind_run.
  pose proof (usb_byte past b s) as _. rewrite Ec in Hc |- *. cbn [length] in Hc.
  destruct (usb_byte past b s) as [stop s1] eqn:Eb. cbn [fst snd].
  destruct (decide (stop = true \/ count = 0%nat)) as [Hstop|Hgo].
  - exists 1%nat, q1. cbn [take drop]. rewrite take_0, drop_0, feed_cons, Eb. cbn [snd].
    split; [lia|]. split; [exact Ho|]. split; [done|]. split; [exact Em|]. split; [exact Ew|].
    destruct Hstop as [-> | ->]; [done|]. by destruct stop.
  - assert (stop = false) as -> by (destruct stop; [tauto|done]).
    destruct (IH q1 s1 Ho ltac:(lia)) as (n & q' & Hn & Ho' & E' & Em' & Ew' & ->).
    exists (S n), q'. cbn [firstn skipn]. rewrite feed_cons, Eb. cbn [snd].
    split; [lia|]. split; [exact Ho'|]. split; [exact E'|]. split; [congruence|].
    split; [congruence|done].
Qed.
(** Repeated rounds of the main loop. *)
Fixpoint usb_rounds (k : nat) : M (usb_state W) (option unit) :=
  match k with
  | O => oret tt
  | S k => _ ←? usb_loop past; usb_rounds k
  end.
(** C16: Whatever waits in the receive buffer, at most that many rounds of the main
    loop take all of it to the parser, in order, and leave the buffer empty. *)
Theorem usb_main_drains s :
  fifo_ok (rx s) ->
  exists k q', (k <= length (fifo_contents (rx s)))%nat /\ fifo_ok q' /\ fifo_contents q' = [] /\
    usb_rounds k s = (Some tt, (feed past (fifo_contents (rx s)) s).2 <| rx := q' |>).
Proof.
  remember (length (fifo_contents (rx s))) as n eqn:En. revert s En.
  induction (lt_wf n) as [n _ IH]. intros s En Hq.
  destruct (decide (n = 0%nat)) as [->|Hn].
  { destruct (fifo_contents (rx s)) eqn:E; [|done]. exists 0%nat, (rx s).
    split; [lia|]. split; [done|]. split; [done|]. cbn. by destruct s. }
  destruct (usb_batch_feed n (rx s) s Hq ltac:(lia)) as (m & q1 & Hm & Ho & Ec & Em & Ew & Eb).
  pose proof (count_contents (rx s) Hq) as Ecount.
  change (fifo_count (rx s)) with (UsartToUsb.count (rx s)) in Ecount.
  assert (usb_loop past s =
    (Some tt, (feed past (take m (fifo_contents (rx s))) s).2 <| rx := q1 |>)) as E1.
  { unfold usb_loop. rewrite mbind_run. cbn [mread fst snd].
    rewrite Ecount, <- En. rewrite (proj2 (Z.eqb_neq _ _)) by lia. cbn [negb].
    rewrite Nat2Z.id, mbind_run, Eb. cbn [fst snd]. rewrite mbind_run.
    unfold save_read, mmod, oret, mret, M_ret. cbn [fst snd]. rewrite feed_keeps_rx, <- Em, <- Ew.
    by destruct q1. }
  set (s1 := (feed past (take m (fifo_contents (rx s))) s).2) in *.
  destruct (IH (n - m)%nat ltac:(lia) (s1 <| rx := q1 |>)) as (k & q' & Hk & Ho' & Ec' & Er).
  { cbn [rx upd setter_of]. rewrite Ec, length_drop. lia. }
  { exact Ho. }
  exists (S k), q'. split; [lia|]. split; [done|]. split; [done|].
  cbn [usb_rounds]. rewrite (obind_some _ _ _ tt) by (by rewrite E1). rewrite E1. cbn [snd].
  change (rx (s1 <| rx := q1 |>)) with q1 in Er. rewrite Ec, feed_rx in Er. rewrite Er.
  rewrite <- (take_drop m (fifo_contents (rx s))) at 2. rewrite feed_app.
  fold s1. by destruct (feed past _ s1).2.
Qed.
End Loop.

(** ** A recording device *)
Inductive ep_event : Set := Selected (ep : Z) | Written (b : Z) | SentIN | Other.
#[global] Instance event_log : Endpoints (list ep_event) := {|
  Endpoint_SelectEndpoint ep l := (tt, l ++ [Selected ep]);
  Endpoint_GetCurrentEndpoint l := (0, l);
  Endpoint_Write_8 b l := (tt, l ++ [Written b]);
  Endpoint_ClearIN l := (tt, l ++ [SentIN]);
  Endpoint_IsINReady l := (true, l);
  Endpoint_IsOUTReceived l := (false, l);
  Endpoint_BytesInEndpoint l := (0, l);
  Endpoint_Read_8 l := (0, l);
  Endpoint_ClearOUT l := (tt, l ++ [Other]);
  Endpoint_ClearSETUP l := (tt, l ++ [Other]);
  Endpoint_ClearStatusStage l := (tt, l ++ [Other]);
  USB_USBTask l := (tt, l)
|}.
Definition zero_ring (n : nat) : Ptr.ring := Ptr.mk (replicate n 0) 0 0.
Definition usb_idle : usb_state (list ep_event) :=
  mkUsb 0 0 XINPUT_EPADDR_IN false (zero_ring 256) (zero_ring 128) 0 0 0 false [].
(** A keyboard report goes to the HID endpoint with its id, a gamepad report
    without. *)
Lemma usb_frame_delivered_witness :
  dev (feed (fun _ => 0) (frame [6; 0; 0; 4]) usb_idle).2 =
    [Selected 0x81; Written 6; Written 0; Written 0; Written 4; SentIN] /\
  dev (feed (fun _ => 0) (frame [4; 1; 2]) usb_idle).2 =
    [Selected 0x81; Written 1; Written 2; SentIN].
Proof.
  split.
  - rewrite (usb_frame_delivered (fun _ => 0) 6 [0; 0; 4] usb_idle eq_refl ltac:(simpl; lia)).
    reflexivity.
  - rewrite (usb_frame_delivered (fun _ => 0) 4 [1; 2] usb_idle eq_refl ltac:(simpl; lia)).
    reflexivity.
Defined.
Lemma usb_empty_frame_swallows_witness :
  dev (feed (fun _ => 0) (frame [7] ++ replicate 256 0x78) usb_idle).2 =
    [Selected 0x83] ++ replicate 256 (Written 0x78) ++ [SentIN].
Proof.
  rewrite (usb_empty_frame_swallows (fun _ => 0) 7 (replicate 256 0x78) usb_idle eq_refl eq_refl).
  vm_compute. reflexivity.
Defined.
(** Three bytes wait behind the wrap of the buffer. *)
Lemma usb_main_drains_witness :
  let s := usb_idle <| rx := Ptr.mk (replicate 256 0x78) 1 254 |> in
  exists k, (k <= 3)%nat /\ (usb_rounds (fun _ => 0) k s).1 = Some tt.
Proof.
  cbv zeta.
  destruct (usb_main_drains (fun _ => 0) (usb_idle <| rx := Ptr.mk (replicate 256 0x78) 1 254 |>))
    as (k & q & Hk & _ & _ & E).
  - split; [reflexivity|]. exists 254%nat, 3%nat. repeat split; (reflexivity || (unfold UsartToUsb.ring_size; lia)).
  - exists k. split; [exact Hk|]. by rewrite E.
Defined.
