(* ===== verification/Usb.v ===== *)
(** * Control requests: [avr/shared/usb/usb.h], [shared/output/control_requests.c]

    How an AVR answers the host's control requests: the static replies, the
    descriptors and the loop that patches a descriptor while it is sent.  LUFA's
    endpoint functions are the interface of [UnoUsb.v], with the two polls the
    loop adds. *)

From Stdlib Require Import ZArith Lia.
From stdpp Require Import base tactics numbers list option.
From S2P Require Import Prelude Defs Reports Descriptors RingBuffer UnoUsb.
Open Scope Z_scope.

(** ** control_requests.c, StdRequestType.h *)
Definition ID : list Z := [0x00; 0x82; 0xf8; 0x23].
Definition capabilities1 : list Z := [0x00; 0x08; 0x00; 0x00; 0x00; 0x00; 0x00; 0x00].
Definition capabilities2 : list Z :=
  [0x00; 0x14; 0x3f; 0xf7; 0xff; 0xff; 0x00; 0x00; 0x00; 0x00; 0xc0; 0xff; 0xc0; 0xff;
   0x00; 0x00; 0x00; 0x00; 0x00; 0x00].
Record USB_OSExtendedSection_t : Set := mkExtSection {
  PropertyDataType : Z; PropertyNameLength : Z; PropertyName : list Z;
  PropertyDataLength : Z; PropertyData : list Z
}.
Record USB_OSExtendedCompatibleIDDescriptor_t : Set := mkExtended {
  ext_TotalLength : Z; ext_Version : Z; ext_Index : Z; ext_TotalSections : Z; SectionSize : Z;
  ExtendedID : USB_OSExtendedSection_t
}.
Record USB_OSCompatibleSection_t : Set := mkCompat {
  FirstInterfaceNumber : Z; compat_Reserved : Z; CompatibleID : list Z;
  SubCompatibleID : list Z; Reserved2 : list Z
}.
(** [CompatID], [CompatID2] and, in a [MULTI_ADAPTOR] build, two more. *)
Record CompatibleDescriptorType : Set := mkCompatIDs {
  ids_TotalLength : Z; ids_Version : Z; ids_Index : Z; ids_TotalSections : Z;
  ids_Reserved : list Z; sections : list USB_OSCompatibleSection_t
}.
Definition ext_section_bytes (s : USB_OSExtendedSection_t) : list Z :=
  le_bytes 4 (PropertyDataType s) ++ le_bytes 2 (PropertyNameLength s) ++
  flat_map (le_bytes 2) (PropertyName s) ++ le_bytes 4 (PropertyDataLength s) ++
  flat_map (le_bytes 2) (PropertyData s).
Definition extended_bytes (e : USB_OSExtendedCompatibleIDDescriptor_t) : list Z :=
  le_bytes 4 (ext_TotalLength e) ++ le_bytes 2 (ext_Version e) ++ le_bytes 2 (ext_Index e) ++
  le_bytes 2 (ext_TotalSections e) ++ le_bytes 4 (SectionSize e) ++
  ext_section_bytes (ExtendedID e).
Definition compat_bytes (c : USB_OSCompatibleSection_t) : list Z :=
  [FirstInterfaceNumber c; compat_Reserved c] ++ CompatibleID c ++ SubCompatibleID c ++
  Reserved2 c.
Definition compat_ids_bytes (c : CompatibleDescriptorType) : list Z :=
  le_bytes 4 (ids_TotalLength c) ++ le_bytes 2 (ids_Version c) ++ le_bytes 2 (ids_Index c) ++
  [ids_TotalSections c] ++ ids_Reserved c ++ flat_map compat_bytes (sections c).
Definition sizeof_Extended : Z := 4 + 2 + 2 + 2 + 4 + (4 + 2 + 2 * 20 + 4 + 2 * 39).
Definition sizeof_CompatIDs (multi : bool) : Z := 16 + 24 * (if multi then 4 else 2).
(** "DeviceInterfaceGUID" and "{DF59037D-7C92-4155-AC12-7D700A313D78}". *)
Definition ExtendedIDs : USB_OSExtendedCompatibleIDDescriptor_t :=
  {| ext_TotalLength := sizeof_Extended; ext_Version := 0x0100;
     ext_Index := EXTENDED_PROPERTIES_DESCRIPTOR; ext_TotalSections := 1; SectionSize := 132;
     ExtendedID :=
       {| PropertyDataType := 1; PropertyNameLength := 40;
          PropertyName := [68; 101; 118; 105; 99; 101; 73; 110; 116; 101; 114; 102; 97; 99;
                           101; 71; 85; 73; 68; 0];
          PropertyDataLength := 78;
          PropertyData := [123; 68; 70; 53; 57; 48; 51; 55; 68; 45; 55; 67; 57; 50; 45; 52; 49;
                           53; 53; 45; 65; 67; 49; 50; 45; 55; 68; 55; 48; 48; 65; 51; 49; 51;
                           68; 55; 56; 125; 0] |} |}.
(** "XUSB10" and "WINUSB", padded to eight bytes. *)
Definition XUSB10 : list Z := [88; 85; 83; 66; 49; 48; 0; 0].
Definition WINUSB : list Z := [87; 73; 78; 85; 83; 66; 0; 0].
Definition compat (itf : InterfaceDescriptors_t) (name : list Z) : USB_OSCompatibleSection_t :=
  mkCompat itf 4 name (replicate 8 0) (replicate 6 0).
(** The build with [MULTI_ADAPTOR] initialises [CompatID2] twice; the later
    initialiser stands, so the Config interface has no WINUSB section there. *)
Definition DevCompatIDs (multi : bool) : CompatibleDescriptorType :=
  {| ids_TotalLength := sizeof_CompatIDs multi; ids_Version := 0x0100;
     ids_Index := EXTENDED_COMPAT_ID_DESCRIPTOR;
     ids_TotalSections := if multi then 4 else 2; ids_Reserved := replicate 7 0;
     sections :=
       if multi then
         [compat INTERFACE_ID_XInput XUSB10; compat INTERFACE_ID_XInput_2 XUSB10;
          compat INTERFACE_ID_XInput_3 XUSB10; compat INTERFACE_ID_XInput_4 XUSB10]
       else [compat INTERFACE_ID_XInput XUSB10; compat INTERFACE_ID_Config WINUSB] |}.

Definition CONTROL_REQTYPE_TYPE : Z := 0x60.
Definition CONTROL_REQTYPE_RECIPIENT : Z := 0x1F.
Definition REQDIR_HOSTTODEVICE : Z := Z.shiftl 0 7.
Definition REQDIR_DEVICETOHOST : Z := Z.shiftl 1 7.
Definition REQTYPE_CLASS : Z := Z.shiftl 1 5.
Definition REQTYPE_VENDOR : Z := Z.shiftl 2 5.
Definition REQREC_DEVICE : Z := Z.shiftl 0 0.
Definition REQREC_INTERFACE : Z := Z.shiftl 1 0.
Definition HID_REQ_GetReport : Z := 0x01.
Definition HID_REQ_SetReport : Z := 0x09.
Definition HID_REQ_SetIdle : Z := 0x0A.
Record USB_Request_Header_t : Set := mkRequest {
  bmRequestType : Z; bRequest : Z; wValue : Z; wIndex : Z; wLength : Z
}.
Definition reqtype (dir type rec : Z) : Z := Z.lor (Z.lor dir type) rec.

Inductive USB_Device_States_t : Set :=
  | DEVICE_STATE_Unattached | DEVICE_STATE_Powered | DEVICE_STATE_Default
  | DEVICE_STATE_Addressed | DEVICE_STATE_Configured | DEVICE_STATE_Suspended.

(** The polls of the control endpoint, and LUFA's loop that sends a flash object. *)
Class ControlPipe (W : Type) := {
  USB_DeviceState : M W USB_Device_States_t;
  Endpoint_IsSETUPReceived : M W bool;
  Endpoint_Write_Control_PStream_LE : list Z -> M W unit
}.

Section Usb.
Context {W : Type} `{Endpoints W, ControlPipe W}.
Context (USB_ControlRequest : USB_Request_Header_t) (EPSIZE : Z).

(** *** write_endpoint_mods *)
Section Mods.
Context (Buffer : Z -> Z) (mods : list Z) (modCount : Z).
(** The loop over the modifications; [bytes] is 2 after a match. *)
Fixpoint mods_for (l : list Z) (current bytes : Z) : M W Z :=
  match l with
  | [] => mret bytes
  | i :: l =>
      if current =? aget 0 mods i then
        Endpoint_Write_8 (aget 0 mods (i + 1)) ;; Endpoint_Write_8 (aget 0 mods (i + 2)) ;;
        mods_for l current 2
      else mods_for l current bytes
  end.
Definition mod_indices : list Z := Z.mul 3 <$> iota (Z.to_nat ((modCount + 2) / 3)).
(** The bytes of one packet; [fuel] is the size of the endpoint, of which every
    round uses at least one byte. *)
Fixpoint mods_fill (fuel : nat) (Length Bytes current : Z) : M W (Z * Z * Z) :=
  match fuel with
  | O => mret (Length, Bytes, current)
  | S fuel =>
      if negb (Length =? 0) && (Bytes <? EPSIZE) then
        bytes ← mods_for mod_indices current 1;
        mwhen (bytes =? 1) (Endpoint_Write_8 (Buffer current)) ;;
        mods_fill fuel (u16 (Length - bytes)) (u16 (Bytes + bytes)) (u8 (current + bytes))
      else mret (Length, Bytes, current)
  end.
(** [Some true]: the host has ended the transfer; [Some false]: it was given up;
    [None]: still waiting after [fuel] rounds. *)
Fixpoint mods_loop (fuel : nat) (Length : Z) (LastPacketFull : bool) (current : Z)
  : M W (option bool) :=
  match fuel with
  | O => mret None
  | S fuel =>
      st ← USB_DeviceState;
      match st with
      | DEVICE_STATE_Unattached | DEVICE_STATE_Suspended => mret (Some false)
      | _ =>
          setup ← Endpoint_IsSETUPReceived;
          if (setup : bool) then mret (Some false)
          else
            out ← Endpoint_IsOUTReceived;
            if (out : bool) then Endpoint_ClearOUT ;; mret (Some true)
            else if negb (Length =? 0) || LastPacketFull then
              ready ← Endpoint_IsINReady;
              if (ready : bool) then
                n ← Endpoint_BytesInEndpoint;
                r ← mods_fill (Z.to_nat EPSIZE) Length n current;
                Endpoint_ClearIN ;;
                mods_loop fuel r.1.1 (r.1.2 =? EPSIZE) r.2
              else mods_loop fuel Length LastPacketFull current
            else mods_loop fuel Length LastPacketFull current
      end
  end.
Definition write_endpoint_mods (fuel : nat) (Length : Z) : M W (option bool) :=
  Endpoint_ClearSETUP ;;
  if Length >? wLength USB_ControlRequest
  then mods_loop fuel (wLength USB_ControlRequest) false 0
  else
    mwhen (Length =? 0) Endpoint_ClearIN ;;
    mods_loop fuel Length false 0.
End Mods.

(** *** CALLBACK_USB_GetDescriptor *)
Context (deviceType : Z) (multi : bool) (serial major minor revision : Z).
(** The flash behind a descriptor, and what the word after [descriptorStrings]
    points to. *)
Context (after : Z -> Z) (past_strings : list Z).
Definition flash (l : list Z) (i : Z) : Z := if i <? Z.of_nat (length l) then aget 0 l i else after i.

Definition device_mods : list Z :=
  let offs := u8 ((deviceType - SWITCH_GAMEPAD) * 2) in
  [offsetof_VendorID; aget 0 (flat_map (le_bytes 2) vid) offs;
   aget 0 (flat_map (le_bytes 2) vid) (offs + 1);
   offsetof_ProductID; aget 0 (flat_map (le_bytes 2) pid) offs;
   aget 0 (flat_map (le_bytes 2) pid) (offs + 1)].
Definition config_mods : list Z := [offsetof_subtype; deviceType; 0x25; 0; 0; 0].
Definition hid_descriptor : list Z :=
  if deviceType <=? KEYBOARD_ROCK_BAND_DRUMS then kbd_report_descriptor else ps3_report_descriptor.
(** The memory behind the address that is returned, cut to the size that is
    returned; [NO_DESCRIPTOR] is the empty list. *)
Definition CALLBACK_USB_GetDescriptor (fuel : nat) (wValue : Z) : M W (option (list Z)) :=
  let descriptorType := Z.shiftr wValue 8 in
  let descriptorNumber := Z.land wValue 0xFF in
  let sized (s : list Z) := take (Z.to_nat (aget 0 s 0)) s in
  if descriptorType =? DTYPE_Device then
    let image := device_bytes (deviceDescriptor EPSIZE serial major minor revision) in
    let count := if (deviceType >=? SWITCH_GAMEPAD) && (deviceType <? MOUSE) then 6 else 0 in
    _ ←? write_endpoint_mods (flash image)
           (if count =? 0 then replicate 6 0 else device_mods) count fuel sizeof_Device;
    oret []
  else if descriptorType =? DTYPE_Configuration then
    _ ←? write_endpoint_mods (flash (configuration_bytes (ConfigurationDescriptor multi)))
           config_mods 3 fuel (sizeof_Configuration multi);
    oret []
  else if descriptorType =? HID_DTYPE_Report then
    oret (take (length kbd_report_descriptor) hid_descriptor)
  else if descriptorType =? DTYPE_String then
    oret (if descriptorNumber <=? 3
          then sized (if descriptorNumber =? 3 then past_strings
                      else string_bytes (nth (Z.to_nat descriptorNumber) descriptorStrings languageString))
          else if descriptorNumber =? 0xEE then sized (os_bytes OSDescriptorString)
          else [])
  else oret [].

(** *** deviceControlRequest *)
(** The board's own handlers of feature reports. *)
Context (processHIDReadFeatureReport : Z -> M W unit)
        (processHIDWriteFeatureReportControl : Z -> Z -> M W unit).
Definition send_static (l : list Z) : M W unit :=
  Endpoint_ClearSETUP ;; Endpoint_Write_Control_PStream_LE l ;; Endpoint_ClearStatusStage.
Definition deviceControlRequest : M W unit :=
  setup ← Endpoint_IsSETUPReceived;
  if negb setup then mret tt
  else
    let r := USB_ControlRequest in
    let req_is req ty := (bRequest r =? req) && (bmRequestType r =? ty) in
    if req_is HID_REQ_GetReport (reqtype REQDIR_DEVICETOHOST REQTYPE_CLASS REQREC_INTERFACE) then
      processHIDReadFeatureReport (u8 (wValue r))
    else if req_is HID_REQ_SetReport (reqtype REQDIR_HOSTTODEVICE REQTYPE_CLASS REQREC_INTERFACE) then
      processHIDWriteFeatureReportControl (u8 (wValue r)) (u8 (wLength r))
    else if req_is HID_REQ_GetReport (reqtype REQDIR_DEVICETOHOST REQTYPE_VENDOR REQREC_INTERFACE) &&
            (wIndex r =? INTERFACE_ID_XInput) && (wValue r =? 0) then
      send_static capabilities1
    else if req_is REQ_GetOSFeatureDescriptor
              (reqtype REQDIR_DEVICETOHOST REQTYPE_VENDOR REQREC_INTERFACE) &&
            (wIndex r =? EXTENDED_PROPERTIES_DESCRIPTOR) && (wValue r =? INTERFACE_ID_Config) then
      send_static (take (Z.to_nat (u8 (ext_TotalLength ExtendedIDs))) (extended_bytes ExtendedIDs))
    else if req_is REQ_GetOSFeatureDescriptor
              (reqtype REQDIR_DEVICETOHOST REQTYPE_VENDOR REQREC_DEVICE) &&
            (wIndex r =? EXTENDED_COMPAT_ID_DESCRIPTOR) then
      send_static (take (Z.to_nat (u8 (ids_TotalLength (DevCompatIDs multi))))
                        (compat_ids_bytes (DevCompatIDs multi)))
    else if req_is HID_REQ_GetReport (reqtype REQDIR_DEVICETOHOST REQTYPE_VENDOR REQREC_DEVICE) &&
            (wIndex r =? 0) && (wValue r =? 0) then
      send_static ID
    else if req_is HID_REQ_GetReport (reqtype REQDIR_DEVICETOHOST REQTYPE_VENDOR REQREC_INTERFACE) &&
            (wIndex r =? INTERFACE_ID_XInput) && (wValue r =? 0x0100) then
      send_static capabilities2
    else
      mwhen ((Z.land (bmRequestType r) (Z.lor CONTROL_REQTYPE_RECIPIENT CONTROL_REQTYPE_TYPE) =?
                Z.lor REQTYPE_CLASS REQREC_INTERFACE) && negb (bRequest r =? HID_REQ_SetIdle))
            (Endpoint_ClearSETUP ;; Endpoint_ClearStatusStage).
End Usb.

(** ** What the patching loop sends

    [bank] is the packet being filled, [sent] the packets handed to the host. *)
Class PipeOk (W : Type) `{Endpoints W, ControlPipe W}
    (bank : W -> list Z) (sent : W -> list (list Z)) : Prop := {
  write_bank b w : bank (Endpoint_Write_8 b w).2 = bank w ++ [b];
  write_sent b w : sent (Endpoint_Write_8 b w).2 = sent w;
  clear_in_bank w : bank (Endpoint_ClearIN w).2 = [];
  clear_in_sent w : sent (Endpoint_ClearIN w).2 = sent w ++ [bank w];
  ready_empty w : (Endpoint_IsINReady w).1 = true -> bank w = [];
  bytes_count w : (Endpoint_BytesInEndpoint w).1 = Z.of_nat (length (bank w));
  polls_keep : keeps bank USB_DeviceState /\ keeps bank Endpoint_IsSETUPReceived /\
    keeps bank Endpoint_IsOUTReceived /\ keeps bank Endpoint_IsINReady /\
    keeps bank Endpoint_BytesInEndpoint /\ keeps bank Endpoint_ClearSETUP;
  sent_keep : keeps sent USB_DeviceState /\ keeps sent Endpoint_IsSETUPReceived /\
    keeps sent Endpoint_IsOUTReceived /\ keeps sent Endpoint_IsINReady /\
    keeps sent Endpoint_BytesInEndpoint /\ keeps sent Endpoint_ClearOUT /\
    keeps sent Endpoint_ClearSETUP
}.

(** The packets of a control transfer: full ones, then the rest, which is empty
    when the data ends with a full packet. *)
Fixpoint packets (EPSIZE fuel : nat) (l : list Z) (full : bool) : list (list Z) :=
  match fuel with
  | O => []
  | S fuel =>
      if decide (l = []) then (if full then [[]] else [])
      else take EPSIZE l :: packets EPSIZE fuel (drop EPSIZE l) (EPSIZE <=? length l)%nat
  end.

Section ModsSpec.
Context {W : Type} `{PipeOk W bank sent}.
Context (E : nat) (Buffer : Z -> Z) (mods : list Z) (modCount : Z).
Let idx := mod_indices modCount.
Definition offset_at (i : Z) : Z := aget 0 mods i.
Definition first_of (c : Z) : option Z := List.find (fun i => c =? offset_at i) idx.
Definition second_of (c : Z) : option Z := List.find (fun i => c =? offset_at i + 1) idx.
(** The byte the host should get at a position. *)
Definition image (c : Z) : Z :=
  match first_of c with
  | Some i => aget 0 mods (i + 1)
  | None => match second_of c with Some i => aget 0 mods (i + 2) | None => Buffer c end
  end.
Fixpoint images (n : nat) (c : Z) : list Z :=
  match n with O => [] | S n => image c :: images n (c + 1) end.

(** Modifications do not overlap, none is cut by the end of the transfer or by
    the end of a packet. *)
Definition well_placed (L : Z) : Prop :=
  forall i, In i idx ->
    0 <= offset_at i /\ (offset_at i + 2 <= L \/ L <= offset_at i) /\
    offset_at i mod Z.of_nat E <> Z.of_nat E - 1 /\
    forall j, In j idx -> i = j \/ 2 <= Z.abs (offset_at i - offset_at j).
Implicit Types (w : W).

Lemma images_app a b c : images (a + b) c = images a c ++ images b (c + Z.of_nat a).
Proof using.
  revert c. induction a as [|a IH]; intros c; [by rewrite Z.add_0_r|]. cbn [Nat.add images app].
  rewrite IH. by replace (c + 1 + Z.of_nat a) with (c + Z.of_nat (S a)) by lia.
Qed.
Lemma length_images n c : length (images n c) = n.
Proof using. revert c. induction n; intros; simpl; auto. Qed.
Lemma take_images k n c : take k (images n c) = images (k `min` n) c.
Proof using.
  revert k c. induction n as [|n IH]; intros k c; [by destruct k|].
  destruct k; [done|]. simpl. by rewrite IH.
Qed.
Lemma drop_images k n c : drop k (images n c) = images (n - k) (c + Z.of_nat k).
Proof using.
  revert k c. induction n as [|n IH]; intros k c; [by destruct k|].
  destruct k; [by rewrite Z.add_0_r|]. cbn [Nat.sub images drop]. rewrite IH. f_equal. lia.
Qed.

Lemma first_none c : first_of c = None <-> forall i, In i idx -> offset_at i <> c.
Proof using.
  split.
  - intros Hf i Hi. pose proof (List.find_none _ _ Hf i Hi) as X. cbv beta in X. lia.
  - intros Hn. unfold first_of. destruct (List.find _ idx) as [i|] eqn:F; [|done].
    apply find_some in F as [Hi X]. specialize (Hn i Hi). lia.
Qed.
Lemma second_none c : second_of c = None <-> forall i, In i idx -> offset_at i <> c - 1.
Proof using.
  split.
  - intros Hf i Hi. pose proof (List.find_none _ _ Hf i Hi) as X. cbv beta in X. lia.
  - intros Hn. unfold second_of. destruct (List.find _ idx) as [i|] eqn:F; [|done].
    apply find_some in F as [Hi X]. specialize (Hn i Hi). lia.
Qed.

(** The loop over the modifications writes the pair that starts here, if any. *)
Lemma mods_for_spec l c n :
  (forall i j, In i l -> In j l -> offset_at i = offset_at j -> i = j) -> NoDup l ->
  mods_for mods l c n =
    match List.find (fun i => c =? offset_at i) l with
    | Some i => Endpoint_Write_8 (aget 0 mods (i + 1)) ;; Endpoint_Write_8 (aget 0 mods (i + 2)) ;; mret 2
    | None => mret n
    end.
Proof using.
  intros Hinj Hd. revert n Hinj. induction Hd as [|i l Hi Hd IH]; intros n Hinj; [done|]. simpl. unfold offset_at at 1.
  assert (forall i' j, In i' l -> In j l -> offset_at i' = offset_at j -> i' = j) as Hl
    by (intros; apply Hinj; simpl; auto).
  destruct (Z.eqb_spec c (aget 0 mods i)) as [->|]; [|by apply IH].
  rewrite IH by done. destruct (List.find _ l) as [j|] eqn:F; [|done].
  apply find_some in F as [Hj F]. exfalso. apply Hi, list_elem_of_In.
  assert (i = j) as ->; [|done].
  apply Hinj; simpl; auto. unfold offset_at in *. lia.
Qed.
Lemma indices_nodup : NoDup idx.
Proof using.
  unfold idx, mod_indices, iota. apply NoDup_fmap_2; [intros x y; lia|].
  apply NoDup_fmap_2; [intros x y; lia|]. apply NoDup_seq.
Qed.
Lemma write_all_bank l w : bank (write_all l w).2 = bank w ++ l.
Proof using H1.
  revert w. induction l as [|b l IH]; intros w; [by rewrite app_nil_r|].
  unfold write_all. simpl. rewrite mbind_run. fold (write_all l). rewrite IH, write_bank.
  by rewrite <- app_assoc.
Qed.
Lemma write_all_sent l w : sent (write_all l w).2 = sent w.
Proof using H1.
  revert w. induction l as [|b l IH]; intros w; [done|].
  unfold write_all. simpl. rewrite mbind_run. fold (write_all l). by rewrite IH, write_sent.
Qed.

Hypothesis E_size : (0 < E < 256)%nat.
Context (L : Z).
Hypothesis L_size : L < 256.
Hypothesis placed : well_placed L.

Lemma offsets_inj i j : In i idx -> In j idx -> offset_at i = offset_at j -> i = j.
Proof using All.
  intros Hi Hj E'. destruct (placed i Hi) as (_ & _ & _ & X). destruct (X j Hj); lia.
Qed.
(** One round of the filling loop writes the next one or two bytes. *)
Lemma fill_step {A} c (k : Z -> M W A) w :
  0 <= c < L -> second_of c = None ->
  exists b, 1 <= b <= 2 /\ c + b <= L /\ second_of (c + b) = None /\
    (b = 2 -> c mod Z.of_nat E <> Z.of_nat E - 1) /\
    (bytes ← mods_for mods idx c 1;
     mwhen (bytes =? 1) (Endpoint_Write_8 (Buffer c)) ;; k bytes) w =
      k b (write_all (images (Z.to_nat b) c) w).2.
Proof using All.
  intros Hc Hs. destruct (first_of c) as [i|] eqn:F.
  - pose proof F as F'. apply find_some in F' as [Hi Ho]. assert (offset_at i = c) as Ho' by lia.
    destruct (placed i Hi) as (_ & HL & Hm & Hj). exists 2.
    assert (first_of (c + 1) = None) as F1.
    { apply first_none. intros j Hin. destruct (Hj j Hin); [subst j|]; lia. }
    assert (second_of (c + 1) = Some i) as S1.
    { unfold second_of. destruct (List.find _ idx) as [j|] eqn:F2.
      - apply find_some in F2 as [Hin F2]. f_equal. symmetry. apply offsets_inj; auto. lia.
      - exfalso. apply (proj1 (second_none (c + 1)) F2 i Hi). lia. }
    repeat split; try lia.
    + apply second_none. intros j Hin. destruct (Hj j Hin); [subst j|]; lia.
    + intros _. by rewrite <- Ho'.
    + rewrite mods_for_spec by (apply offsets_inj || apply indices_nodup).
      unfold first_of in F. rewrite F. change (Z.to_nat 2) with 2%nat. cbn [images].
      unfold image, first_of in *. rewrite F, F1, S1. unfold write_all. cbn [mfor].
      rewrite !mbind_run. reflexivity.
  - exists 1. repeat split; try lia.
    + apply second_none. intros j Hin. apply (proj1 (first_none c) F) in Hin. lia.
    + rewrite mods_for_spec by (apply offsets_inj || apply indices_nodup).
      unfold first_of in F. rewrite F. change (Z.to_nat 1) with 1%nat. cbn [images].
      unfold image, first_of. rewrite F, Hs. unfold write_all. cbn [mfor].
      rewrite !mbind_run. reflexivity.
Qed.

(** The filling loop writes a packet, or what is left. *)
Lemma mods_fill_spec fuel w Length Bytes c :
  second_of c = None -> 0 <= c -> 0 <= Length -> c + Length = L ->
  0 <= Bytes <= Z.of_nat E -> (c - Bytes) mod Z.of_nat E = 0 ->
  Z.of_nat E - Bytes <= Z.of_nat fuel ->
  let k := Z.min Length (Z.of_nat E - Bytes) in
  mods_fill (Z.of_nat E) Buffer mods modCount fuel Length Bytes c w =
    ((Length - k, Bytes + k, c + k), (write_all (images (Z.to_nat k) c) w).2) /\
  second_of (c + k) = None.
Proof using All.
  revert w Length Bytes c. induction fuel as [|fuel IH]; intros w Length Bytes c Hs Hc HL HcL HB Hm Hf k.
  { assert (k = 0) as -> by lia. simpl. rewrite !Z.sub_0_r, !Z.add_0_r. done. }
  cbn [mods_fill]. fold idx. destruct (negb (Length =? 0) && (Bytes <? Z.of_nat E)) eqn:T; zbool.
  2: { assert (k = 0) as ->.
       { apply andb_false_iff in T as [T|T]; zbool; lia. }
       simpl. rewrite !Z.sub_0_r, !Z.add_0_r. done. }
  destruct (fill_step c (fun bytes => mods_fill (Z.of_nat E) Buffer mods modCount fuel
     (u16 (Length - bytes)) (u16 (Bytes + bytes)) (u8 (c + bytes))) w) as (b & Hb & Hl & Hs' & Hp & ->);
    [lia|done|].
  assert (c mod Z.of_nat E = Bytes) as Hcm.
  { rewrite <- (Z.mod_small Bytes (Z.of_nat E)) by lia.
    replace c with ((c - Bytes) + Bytes) at 1 by lia. rewrite Z.add_mod, Hm by lia.
    rewrite Z.add_0_l, Z.mod_mod by lia. done. }
  assert (b = 2 -> Bytes + 2 <= Z.of_nat E) as Hb2 by (intros ->; specialize (Hp eq_refl); lia).
  assert (Bytes + b <= Z.of_nat E) by lia.
  rewrite !uwrap_small by (unfold in_u; lia).
  destruct (IH (write_all (images (Z.to_nat b) c) w).2 (Length - b) (Bytes + b) (c + b)) as [-> Hn];
    try lia; try done.
  { by replace (c + b - (Bytes + b)) with (c - Bytes) by lia. }
  set (k' := Z.min (Length - b) (Z.of_nat E - (Bytes + b))) in *.
  assert (k = b + k') as -> by lia. split; [|by rewrite Z.add_assoc].
  rewrite Z2Nat.inj_add, images_app, Z2Nat.id by lia. rewrite <- write_all_app, mbind_run.
  repeat (f_equal; try lia).
Qed.

(** A ready endpoint gets one packet. *)
Lemma packet_round w c Length :
  bank w = [] -> second_of c = None -> 0 <= c -> 0 <= Length -> c + Length = L ->
  c mod Z.of_nat E = 0 \/ Length = 0 ->
  let k := Z.min Length (Z.of_nat E) in
  let w' := (Endpoint_ClearIN
    (write_all (images (Z.to_nat k) c) (Endpoint_BytesInEndpoint w).2).2).2 in
  sent w' = sent w ++ [images (Z.to_nat k) c] /\ second_of (c + k) = None /\
    forall A (next : Z * Z * Z -> M W A),
      (n ← Endpoint_BytesInEndpoint;
       r ← mods_fill (Z.of_nat E) Buffer mods modCount (Z.to_nat (Z.of_nat E)) Length n c;
       Endpoint_ClearIN ;; next r) w = next (Length - k, k, c + k) w'.
Proof using All.
  intros Hb Hs Hc HL HcL Ha k w'.
  pose proof polls_keep as (_ & _ & _ & _ & P5 & _).
  pose proof sent_keep as (_ & _ & _ & _ & K5 & _).
  pose proof (bytes_count w) as Hn. specialize (P5 w). specialize (K5 w).
  destruct (Endpoint_BytesInEndpoint w) as [n w1] eqn:En; cbn [fst snd] in *. subst w'.
  rewrite Hb in *. cbn [length] in Hn. change (Z.of_nat 0) with 0 in Hn. subst n.
  assert (mods_fill (Z.of_nat E) Buffer mods modCount (Z.to_nat (Z.of_nat E)) Length 0 c w1 =
    ((Length - k, k, c + k), (write_all (images (Z.to_nat k) c) w1).2) /\
    second_of (c + k) = None) as [Hfill Hs'].
  { destruct Ha as [Ha| ->].
    - pose proof (mods_fill_spec (Z.to_nat (Z.of_nat E)) w1 Length 0 c) as X.
      cbv zeta in X. rewrite !Z.sub_0_r, Z.add_0_l in X. apply X; lia || done.
    - assert (k = 0) as -> by lia. rewrite Z.add_0_r. rewrite Nat2Z.id. split; [|done].
      by destruct E. }
  split; [|split; [done|]].
  - rewrite clear_in_sent, write_all_bank, write_all_sent, K5, P5. done.
  - intros A next. rewrite mbind_run, En. cbn [fst snd]. rewrite mbind_run, Hfill.
    cbn [fst snd]. by rewrite mbind_run.
Qed.

(** Wherever the loop stops or is stopped, the packets sent are the first ones of
    the transfer. *)
Lemma mods_loop_spec fuel F w c Length full :
  second_of c = None -> 0 <= c -> 0 <= Length -> c + Length = L ->
  c mod Z.of_nat E = 0 \/ Length = 0 ->
  (Length = 0 /\ full = false) \/ Length < Z.of_nat F ->
  exists m,
    sent (mods_loop (Z.of_nat E) Buffer mods modCount fuel Length full c w).2 =
    sent w ++ take m (packets E F (images (Z.to_nat Length) c) full).
Proof using All.
  pose proof sent_keep as (K1 & K2 & K3 & K4 & _ & K6 & _).
  revert F w c Length full. induction fuel as [|fuel IH]; intros F w c Length full Hs Hc HL HcL Ha HF.
  { exists 0%nat. by rewrite take_0, app_nil_r. }
  assert (forall w', sent w' = sent w ->
    exists m, sent w' = sent w ++ take m (packets E F (images (Z.to_nat Length) c) full)) as Hstop.
  { intros w' ->. exists 0%nat. by rewrite take_0, app_nil_r. }
  assert (forall w', sent w' = sent w -> exists m,
    sent (mods_loop (Z.of_nat E) Buffer mods modCount fuel Length full c w').2 =
    sent w ++ take m (packets E F (images (Z.to_nat Length) c) full)) as Hidle.
  { intros w' <-. by apply IH. }
  cbn [mods_loop]. rewrite mbind_run. specialize (K1 w).
  destruct (USB_DeviceState w) as [st w1]; cbn [fst snd] in *.
  match goal with |- exists m, sent (match st with DEVICE_STATE_Powered => ?k | _ => _ end _).2 = _ =>
    cut (exists m, sent (k w1).2 = sent w ++ take m (packets E F (images (Z.to_nat Length) c) full)) end.
  { intros Hgo. destruct st; try exact Hgo; apply Hstop, K1. }
  rewrite mbind_run. specialize (K2 w1).
  destruct (Endpoint_IsSETUPReceived w1) as [[] w2]; cbn [fst snd] in *;
    [apply Hstop; cbn; congruence|].
  rewrite mbind_run. specialize (K3 w2).
  destruct (Endpoint_IsOUTReceived w2) as [[] w3]; cbn [fst snd] in *;
    [apply Hstop; rewrite mbind_run; cbn; rewrite K6; congruence|].
  destruct (negb (Length =? 0) || full) eqn:T; [|apply Hidle; congruence].
  rewrite mbind_run. specialize (K4 w3). pose proof (ready_empty w3) as He.
  pose proof polls_keep as (_ & _ & _ & P4 & _). specialize (P4 w3).
  destruct (Endpoint_IsINReady w3) as [[] w4]; cbn [fst snd] in *; [|apply Hidle; congruence].
  destruct (packet_round w4 c Length) as (Hsent & Hs' & ->); try done; [rewrite P4; auto|].
  match type of Hsent with sent ?w = _ => set (w5 := w) in * end.
  cbn [fst snd]. set (k := Z.min Length (Z.of_nat E)) in *.
  assert (0 < Z.of_nat F) as HF0 by (destruct HF as [[-> ->]|]; [done|lia]).
  destruct F as [|F]; [lia|]. destruct (decide (Length = 0)) as [HL0|HL0].
  - assert (k = 0) as -> by lia. rewrite HL0 in *. destruct HF as [[_ ->]|_]; [done|].
    destruct full; [|done]. destruct (IH 0%nat w5 (c + 0) (0 - 0) (0 =? Z.of_nat E)) as [m Hm];
      try lia; try done.
    rewrite Hm, Hsent. exists 1%nat. simpl. rewrite take_nil, app_nil_r. congruence.
  - destruct (IH F w5 (c + k) (Length - k) (k =? Z.of_nat E)) as [m Hm]; try lia; try done.
    { destruct Ha as [Ha|]; [|lia]. destruct (Z.leb_spec (Z.of_nat E) Length); [left|right; lia].
      assert (k = Z.of_nat E) as -> by lia. rewrite Z.add_mod, Ha, Z.mod_same by lia.
      apply Z.mod_0_l. lia. }
    rewrite Hm, Hsent. exists (S m). cbn [packets].
    rewrite decide_False by (rewrite <- length_zero_iff_nil, length_images; lia).
    cbn [take]. rewrite length_images, take_images, drop_images.
    replace (E `min` Z.to_nat Length)%nat with (Z.to_nat k) by lia.
    rewrite <- app_assoc, K4, K3, K2, K1. cbn [app].
    assert ((k =? Z.of_nat E) = (E <=? Z.to_nat Length)%nat) as <-.
    { subst k. destruct (Z.eqb_spec (Z.min Length (Z.of_nat E)) (Z.of_nat E)),
        (Nat.leb_spec E (Z.to_nat Length)); lia || done. }
    assert (images (Z.to_nat Length - E) (c + Z.of_nat E) = images (Z.to_nat (Length - k)) (c + k))
      as ->; [|done].
    destruct (Z.leb_spec (Z.of_nat E) Length).
    + assert (k = Z.of_nat E) as -> by lia. f_equal. lia.
    + replace (Z.to_nat Length - E)%nat with 0%nat by lia.
      by replace (Z.to_nat (Length - k)) with 0%nat by lia.
Qed.
End ModsSpec.

(** ** Descriptors and replies *)
(** The device descriptor with the ids of a device type. *)
Definition device_image (EPSIZE deviceType serial major minor revision : Z) : list Z :=
  let d := deviceDescriptor EPSIZE serial major minor revision in
  let k := deviceType - SWITCH_GAMEPAD in
  device_bytes
    (if (SWITCH_GAMEPAD <=? deviceType) && (deviceType <? MOUSE)
     then {| dev_Header := dev_Header d; USBSpecification := USBSpecification d;
             dev_Class := dev_Class d; dev_SubClass := dev_SubClass d;
             dev_Protocol := dev_Protocol d; Endpoint0Size := Endpoint0Size d;
             VendorID := aget 0 vid k; ProductID := aget 0 pid k;
             ReleaseNumber := ReleaseNumber d; ManufacturerStrIndex := ManufacturerStrIndex d;
             ProductStrIndex := ProductStrIndex d; SerialNumStrIndex := SerialNumStrIndex d;
             NumberOfConfigurations := NumberOfConfigurations d |}
     else d).

Section Answers.
Context {W : Type} `{PipeOk W bank sent}.
Context (r : USB_Request_Header_t) (E : nat) (deviceType serial major minor revision : Z).
Context (after : Z -> Z) (past_strings : list Z).
Hypothesis E_valid : In E [8; 16; 32; 64]%nat.
Hypothesis wLength_u16 : in_u 16 (wLength r).
Implicit Types (w : W).

Lemma write_endpoint_mods_sends Buffer mods modCount fuel size w :
  0 < size < 256 ->
  well_placed E mods modCount (Z.min size (wLength r)) ->
  exists m,
    sent (write_endpoint_mods r (Z.of_nat E) Buffer mods modCount fuel size w).2 =
    sent w ++ take m (packets E 256
      (take (Z.to_nat (wLength r)) (images Buffer mods modCount (Z.to_nat size) 0)) false).
Proof using All.
  intros Hsize Hp. unfold in_u in wLength_u16.
  pose proof sent_keep as (_ & _ & _ & _ & _ & _ & K7). specialize (K7 w).
  unfold write_endpoint_mods. rewrite mbind_run.
  set (w1 := (Endpoint_ClearSETUP w).2) in *. rewrite take_images.
  assert (0 < E < 256)%nat by (simpl in E_valid; intuition lia).
  assert (second_of mods modCount 0 = None) as Hs.
  { apply second_none. intros i Hi. destruct (Hp i Hi) as [? _]. lia. }
  replace (Z.to_nat (wLength r) `min` Z.to_nat size)%nat
    with (Z.to_nat (Z.min size (wLength r))) by lia.
  rewrite <- K7. destruct (Z.gtb_spec size (wLength r)).
  - rewrite (Z.min_r size) in * by lia.
    apply (mods_loop_spec E Buffer mods modCount ltac:(done) (wLength r)); try lia; try done.
    left. apply Z.mod_0_l. lia.
  - rewrite mbind_run. destruct (Z.eqb_spec size 0); [lia|]. cbn [mwhen mret snd M_ret].
    rewrite (Z.min_l size) in * by lia.
    apply (mods_loop_spec E Buffer mods modCount ltac:(done) size); try lia; try done.
    left. apply Z.mod_0_l. lia.
Qed.

Lemma device_images :
  let patched := (deviceType >=? SWITCH_GAMEPAD) && (deviceType <? MOUSE) in
  let count := if patched then 6 else 0 in
  images (flash after (device_bytes (deviceDescriptor (Z.of_nat E) serial major minor revision)))
    (if count =? 0 then replicate 6 0 else device_mods deviceType) count 18 0 =
  device_image (Z.of_nat E) deviceType serial major minor revision.
Proof using E_valid.
  cbv zeta. unfold device_image. rewrite Z.geb_leb.
  destruct ((SWITCH_GAMEPAD <=? deviceType) && (deviceType <? MOUSE)) eqn:T; [|reflexivity].
  zbool. cbn in *. zcases deviceType 26 34; reflexivity.
Qed.
Lemma config_images multi :
  images (flash after (configuration_bytes (ConfigurationDescriptor multi))) (config_mods deviceType) 3
    (Z.to_nat (sizeof_Configuration multi)) 0 = config_image multi deviceType.
Proof using. destruct multi; reflexivity. Qed.
Lemma obind_const_snd {A B} (m : M W (option A)) (b : B) w :
  (obind m (fun _ => oret b) w).2 = (m w).2.
Proof using. unfold obind. rewrite mbind_run. by destruct (m w) as [[a|] w']. Qed.
Lemma descriptor_type type num : byte num -> Z.shiftr (Z.shiftl type 8 + num) 8 = type.
Proof using.
  intros Hn. unfold in_u in Hn. rewrite Z.shiftr_div_pow2, Z.shiftl_mul_pow2 by lia.
  rewrite Z.div_add_l, Z.div_small by lia. lia.
Qed.
Lemma device_placed L : ~ In L [9; 11] -> 0 <= L -> well_placed E (device_mods deviceType) 6 L.
Proof using E_valid.
  clear after wLength_u16. intros HL H0' i Hi. simpl in HL. change (mod_indices 6) with [0; 3] in *.
  assert (offset_at (device_mods deviceType) 0 = 8) as E0 by reflexivity.
  assert (offset_at (device_mods deviceType) 3 = 10) as E3 by reflexivity.
  assert (forall o, o = 8 \/ o = 10 -> o mod Z.of_nat E <> Z.of_nat E - 1) as Hm.
  { intros o Ho. simpl in E_valid. intuition (subst; vm_compute in *; congruence). }
  simpl in Hi. destruct Hi as [<-|[<-|[]]]; rewrite ?E0, ?E3;
    (split; [lia|]; split; [lia|]; split; [apply Hm; auto|]);
    intros j [<-|[<-|[]]]; rewrite ?E0, ?E3; lia.
Qed.
Lemma config_placed L : L <> offsetof_subtype + 1 -> 0 <= L -> well_placed E (config_mods deviceType) 3 L.
Proof using E_valid.
  clear after wLength_u16. intros HL H0' i Hi. change (mod_indices 3) with [0] in *.
  simpl in Hi. destruct Hi as [<-|[]]. change (offset_at (config_mods deviceType) 0) with 54.
  change (offsetof_subtype + 1) with 55 in HL. split; [lia|]; split; [lia|]; split;
    [simpl in E_valid; intuition (subst; vm_compute in *; congruence)|].
  intros j [<-|[]]. by left.
Qed.

(** C12: A request for the device or the configuration descriptor is answered with
    the first packets of exactly the descriptor of this device type, cut to the
    length the host asked for; whether the host ends the transfer early, resets or
    unplugs, nothing else is ever sent.  The lengths at which the host would cut a
    patched pair of bytes in two are the exceptions. *)
Theorem descriptors_sent multi fuel num w :
  byte num ->
  let answer type :=
    (CALLBACK_USB_GetDescriptor r (Z.of_nat E) deviceType multi serial major minor revision
       after past_strings fuel (Z.shiftl type 8 + num) w).2 in
  let asked l := take (Z.to_nat (wLength r)) l in
  (~ In (wLength r) [9; 11] ->
   exists m, sent (answer DTYPE_Device) = sent w ++ take m (packets E 256
     (asked (device_image (Z.of_nat E) deviceType serial major minor revision)) false)) /\
  (wLength r <> offsetof_subtype + 1 ->
   exists m, sent (answer DTYPE_Configuration) = sent w ++ take m (packets E 256
     (asked (config_image multi deviceType)) false)).
Proof using All.
  intros Hn answer asked. unfold answer, CALLBACK_USB_GetDescriptor. unfold in_u in wLength_u16.
  split; intros Hl; rewrite descriptor_type by done.
  - change (DTYPE_Device =? DTYPE_Device) with true. cbv iota zeta.
    rewrite obind_const_snd. unfold asked. rewrite <- device_images.
    apply write_endpoint_mods_sends; [done|].
    destruct (_ && _); [|intros i []].
    apply device_placed; [|unfold sizeof_Device; lia].
    unfold sizeof_Device. simpl in *. lia.
  - change (DTYPE_Configuration =? DTYPE_Device) with false.
    change (DTYPE_Configuration =? DTYPE_Configuration) with true. cbv iota zeta.
    rewrite obind_const_snd. unfold asked. rewrite <- config_images.
    assert (0 < sizeof_Configuration multi < 256 /\ sizeof_Configuration multi > 55)
      by (destruct multi; vm_compute; intuition congruence).
    apply write_endpoint_mods_sends; [lia|].
    apply config_placed; [change (offsetof_subtype + 1) with 55 in *|]; lia.
Qed.
End Answers.

(** ** A host that takes its time

    It asks for [h_asked] bytes, takes a packet after each of the given delays
    (at once when they are used up), and ends the transfer when it has what it
    asked for or a packet was short. *)
Record host : Set := mkHost {
  h_epsize : nat; h_asked : Z; h_delays : list nat; h_bank : list Z; h_sent : list (list Z)
}.
#[global] Instance etaHost : Settable host := fun r =>
  {| h_epsize := h_epsize r; h_asked := h_asked r; h_delays := h_delays r; h_bank := h_bank r;
     h_sent := h_sent r |}.
Definition host_done (h : host) : bool :=
  match rev (h_sent h) with
  | [] => false
  | p :: _ => (length p <? h_epsize h)%nat || (h_asked h <=? Z.of_nat (length (concat (h_sent h))))
  end.
Definition host_ready : M host bool := fun h =>
  match h_delays h with
  | S n :: l => (false, h <| h_delays := n :: l |>)
  | O :: l => (bool_decide (h_bank h = []), h <| h_delays := l |>)
  | [] => (bool_decide (h_bank h = []), h)
  end.
#[global] Instance host_endpoints : Endpoints host := {|
  Endpoint_SelectEndpoint _ := mret tt; Endpoint_GetCurrentEndpoint := mret 0;
  Endpoint_Write_8 b := mmod (fun h => h <| h_bank ::= fun l => l ++ [b] |>);
  Endpoint_ClearIN := mmod (fun h => (h <| h_sent ::= fun l => l ++ [h_bank h] |>) <| h_bank := [] |>);
  Endpoint_IsINReady := host_ready;
  Endpoint_IsOUTReceived := mread host_done;
  Endpoint_BytesInEndpoint := mread (fun h => Z.of_nat (length (h_bank h)));
  Endpoint_Read_8 := mret 0; Endpoint_ClearOUT := mret tt; Endpoint_ClearSETUP := mret tt;
  Endpoint_ClearStatusStage := mret tt; USB_USBTask := mret tt
|}.
#[global] Instance host_pipe : ControlPipe host := {|
  USB_DeviceState := mret DEVICE_STATE_Configured;
  Endpoint_IsSETUPReceived := mret false;
  Endpoint_Write_Control_PStream_LE l := mret tt
|}.
#[global] Instance host_ok : PipeOk host h_bank h_sent.
Proof.
  split; try done.
  - intros h. cbn. unfold host_ready. destruct (h_delays h) as [|[|n] l]; cbn; try done;
      by intros ?%bool_decide_eq_true_1.
  - repeat split; intros h; try done. cbn. unfold host_ready. by destruct (h_delays h) as [|[|n] l].
  - repeat split; intros h; try done. cbn. unfold host_ready. by destruct (h_delays h) as [|[|n] l].
Qed.
Definition delays_sum (h : host) : nat := foldr (fun d n => S (d + n)) 0%nat (h_delays h).

Section Complete.
Context (E : nat) (Buffer : Z -> Z) (mods : list Z) (modCount L : Z).
Let loop := mods_loop (W := host) (Z.of_nat E) Buffer mods modCount.
Implicit Types (h : host).

Definition packet_of fuel Length c : M host (option bool) :=
  n ← Endpoint_BytesInEndpoint;
  r ← mods_fill (Z.of_nat E) Buffer mods modCount (Z.to_nat (Z.of_nat E)) Length n c;
  Endpoint_ClearIN ;; loop fuel r.1.1 (r.1.2 =? Z.of_nat E) r.2.
Lemma host_round fuel Length full c h :
  loop (S fuel) Length full c h =
    if host_done h then (Some true, h)
    else if negb (Length =? 0) || full then
      if (host_ready h).1 then packet_of fuel Length c (host_ready h).2
      else loop fuel Length full c (host_ready h).2
    else loop fuel Length full c h.
Proof using.
  unfold loop. cbn [mods_loop]. unfold mbind, M_bind.
  change (USB_DeviceState h) with (DEVICE_STATE_Configured, h). cbv beta iota.
  change (Endpoint_IsSETUPReceived h) with (false, h). cbv beta iota.
  change (Endpoint_IsOUTReceived h) with (host_done h, h). cbv beta iota.
  destruct (host_done h); [reflexivity|].
  destruct (negb (Length =? 0) || full); [|reflexivity].
  change (Endpoint_IsINReady h) with (host_ready h).
  destruct (host_ready h) as [[] h']; reflexivity.
Qed.
Lemma done_returns fuel Length full c h :
  host_done h = true -> loop (S fuel) Length full c h = (Some true, h).
Proof using. intros Hd. by rewrite host_round, Hd. Qed.
(** The host's side of the poll. *)
Lemma host_ready_cases h : h_bank h = [] ->
  h_sent (host_ready h).2 = h_sent h /\ h_bank (host_ready h).2 = [] /\
  host_done (host_ready h).2 = host_done h /\
  h_epsize (host_ready h).2 = h_epsize h /\ h_asked (host_ready h).2 = h_asked h /\
  (delays_sum (host_ready h).2 + (if (host_ready h).1 then 0 else 1) <= delays_sum h)%nat.
Proof using.
  destruct h as [e a d b s]. cbn. intros ->. unfold host_ready. cbn.
  destruct d as [|[|d] l]; cbn; repeat split; unfold delays_sum; cbn; lia.
Qed.
Lemma done_sent h p l : h_sent h = l ++ [p] ->
  host_done h = (length p <? h_epsize h)%nat || (h_asked h <=? Z.of_nat (length (concat (h_sent h)))).
Proof using. intros Hs. unfold host_done. by rewrite Hs, rev_unit. Qed.
Lemma host_write_all l h :
  (Endpoint_ClearIN (write_all l h).2).2 =
    (h <| h_sent ::= fun s => s ++ [h_bank h ++ l] |>) <| h_bank := [] |>.
Proof using.
  assert ((write_all l h).2 = h <| h_bank ::= fun b => b ++ l |>) as ->; [|reflexivity].
  revert h. induction l as [|b l IH]; intros h.
  - destruct h. unfold write_all. cbn. by rewrite app_nil_r.
  - unfold write_all. cbn [mfor]. rewrite mbind_run. fold (write_all l). rewrite IH.
    destruct h. cbn. by rewrite <- app_assoc.
Qed.
Lemma not_done h c :
  Forall (fun p => length p = h_epsize h) (h_sent h) ->
  Z.of_nat (length (concat (h_sent h))) = c -> c < h_asked h -> host_done h = false.
Proof using.
  intros Hf Hc Ha. destruct (rev (h_sent h)) as [|p l] eqn:R; [unfold host_done; by rewrite R|].
  assert (h_sent h = rev l ++ [p]) as Hs by (rewrite <- (rev_involutive (h_sent h)), R; done).
  rewrite (done_sent h p (rev l) Hs). rewrite Hs, Forall_app in Hf. destruct Hf as [_ Hp].
  inversion Hp as [|x y Hx]. rewrite Hx, Nat.ltb_irrefl. apply Z.leb_gt. lia.
Qed.
Hypothesis E_size : (0 < E < 256)%nat.
Hypothesis L_size : L < 256.
Hypothesis placed : well_placed E mods modCount L.

(** One packet as the host sees it. *)
Lemma host_packet fuel Length c h :
  h_bank h = [] -> second_of mods modCount c = None -> 0 <= c -> 0 <= Length -> c + Length = L ->
  c mod Z.of_nat E = 0 \/ Length = 0 ->
  let k := Z.min Length (Z.of_nat E) in
  second_of mods modCount (c + k) = None /\
  packet_of fuel Length c h =
    loop fuel (Length - k) (k =? Z.of_nat E) (c + k)
      (h <| h_sent ::= fun s => s ++ [images Buffer mods modCount (Z.to_nat k) c] |>).
Proof using All.
  intros Hb Hs Hc HL HcL Ha k.
  destruct (packet_round E Buffer mods modCount E_size L L_size placed h c Length Hb Hs Hc HL HcL Ha)
    as (_ & Hn & Hk). split; [done|].
  unfold packet_of. etransitivity;
    [apply (Hk _ (fun r => loop fuel r.1.1 (r.1.2 =? Z.of_nat E) r.2))|].
  cbn [fst snd]. fold k. rewrite host_write_all. f_equal.
  destruct h. cbn in *. subst. done.
Qed.

(** After a full last packet the host gets an empty one. *)
Lemma empty_packet_ends fuel h :
  h_bank h = [] -> host_done h = false -> h_epsize h = E -> 0 <= L -> second_of mods modCount L = None ->
  (delays_sum h + 2 <= fuel)%nat ->
  exists h', loop fuel 0 true L h = (Some true, h') /\ concat (h_sent h') = concat (h_sent h).
Proof using All.
  intros Hb Hd He HL Hs. revert h Hb Hd He. induction fuel as [|fuel IH]; intros h Hb Hd He Hf; [lia|].
  rewrite host_round, Hd. cbn [orb negb Z.eqb].
  destruct (host_ready_cases h Hb) as (R1 & R2 & R3 & R4 & R5 & R6).
  destruct (host_ready h) as [[] h1]; cbn [fst snd] in *.
  - destruct (host_packet fuel 0 L h1) as [_ ->]; try done; try lia.
    change (Z.min 0 (Z.of_nat E)) with (Z.min 0 (Z.of_nat E)).
    rewrite Z.min_l by lia. cbn [images Z.to_nat].
    destruct fuel as [|fuel]; [lia|]. rewrite done_returns.
    + eexists. split; [done|]. cbn. rewrite concat_app, R1. cbn. by rewrite app_nil_r.
    + erewrite done_sent by reflexivity. apply orb_true_iff. left. apply Nat.ltb_lt.
      rewrite length_images. change (h_epsize h1 > 0)%nat. lia.
  - destruct (IH h1) as (h' & -> & Hc); try done; try congruence; [lia|].
    exists h'. split; [done|]. congruence.
Qed.
(** The host gets every byte of the transfer and the loop returns. *)
Lemma transfer_completes fuel Length c full h :
  h_bank h = [] -> second_of mods modCount c = None -> 0 <= c -> 0 < Length -> c + Length = L ->
  c mod Z.of_nat E = 0 -> h_epsize h = E -> L <= h_asked h ->
  Forall (fun p => length p = E) (h_sent h) ->
  concat (h_sent h) = images Buffer mods modCount (Z.to_nat c) 0 ->
  (delays_sum h + Z.to_nat Length + 3 <= fuel)%nat ->
  exists h', loop fuel Length full c h = (Some true, h') /\
    concat (h_sent h') = images Buffer mods modCount (Z.to_nat L) 0.
Proof using All.
  revert Length c full h. induction fuel as [|fuel IH];
    intros Length c full h Hb Hs Hc HL HcL Hm He Ha Hf Hsent Hfuel; [lia|].
  assert (length (concat (h_sent h)) = Z.to_nat c) as Hlen by by rewrite Hsent, length_images.
  rewrite host_round, (not_done h c) by (rewrite ?He; done || lia).
  destruct (Z.eqb_spec Length 0); [lia|]. cbn [negb orb].
  destruct (host_ready_cases h Hb) as (R1 & R2 & R3 & R4 & R5 & R6).
  destruct (host_ready h) as [[] h1]; cbn [fst snd] in *.
  2: { apply IH; try done; try congruence; lia. }
  destruct (host_packet fuel Length c h1) as [Hs' ->]; try done; try lia.
  set (k := Z.min Length (Z.of_nat E)) in *.
  set (h2 := h1 <| h_sent ::= _ |>).
  assert (h_sent h2 = h_sent h ++ [images Buffer mods modCount (Z.to_nat k) c]) as S2
    by (cbn; by rewrite R1).
  assert (concat (h_sent h2) = images Buffer mods modCount (Z.to_nat (c + k)) 0) as C2.
  { rewrite S2, concat_app, Hsent. cbn [concat]. rewrite app_nil_r.
    rewrite Z2Nat.inj_add, images_app, Z2Nat.id by lia. done. }
  destruct (Z.eq_dec k Length) as [Hk|Hk].
  - rewrite Hk in *. rewrite Z.sub_diag, HcL in *. destruct (host_done h2) eqn:D.
    + destruct fuel as [|fuel]; [lia|]. exists h2. by rewrite done_returns.
    + assert (Length = Z.of_nat E) as HE.
      { rewrite (done_sent _ _ _ S2) in D. apply orb_false_iff in D as [D _].
        rewrite length_images in D. apply Nat.ltb_ge in D. cbn in D. rewrite R4, He in D. lia. }
      replace (Length =? Z.of_nat E) with true by (symmetry; by apply Z.eqb_eq).
      destruct (empty_packet_ends fuel h2) as (h' & -> & Hc'); try done; try lia.
      * cbn. by rewrite R4.
      * change (delays_sum h2) with (delays_sum h1). lia.
      * exists h'. split; [done|]. by rewrite Hc'.
  - assert (k = Z.of_nat E) as HkE by lia. apply IH; try done; try lia.
    + rewrite HkE, Z.add_mod, Hm, Z.mod_same by lia. apply Z.mod_0_l. lia.
    + cbn. by rewrite R4.
    + cbn. by rewrite R5.
    + rewrite S2. apply Forall_app_2; [done|]. constructor; [|constructor].
      rewrite length_images. lia.
    + change (delays_sum h2) with (delays_sum h1). lia.
Qed.
End Complete.

Section HostAnswers.
Context (r : USB_Request_Header_t) (E : nat) (deviceType serial major minor revision : Z).
Context (after : Z -> Z) (past_strings : list Z).
Hypothesis E_valid : In E [8; 16; 32; 64]%nat.
Hypothesis asks_something : 0 < wLength r < 2 ^ 16.
Implicit Types (h : host).

Definition fresh_host (delays : list nat) : host := mkHost E (wLength r) delays [] [].
Lemma write_endpoint_mods_completes Buffer mods modCount fuel size delays :
  0 < size < 256 -> well_placed E mods modCount (Z.min size (wLength r)) ->
  (delays_sum (fresh_host delays) + 260 <= fuel)%nat ->
  exists h', write_endpoint_mods r (Z.of_nat E) Buffer mods modCount fuel size (fresh_host delays) =
      (Some true, h') /\
    concat (h_sent h') = take (Z.to_nat (wLength r)) (images Buffer mods modCount (Z.to_nat size) 0).
Proof using All.
  intros Hsize Hp Hf.
  assert (0 < E < 256)%nat by (simpl in E_valid; intuition lia).
  assert (second_of mods modCount 0 = None) as Hs.
  { apply second_none. intros i Hi. destruct (Hp i Hi) as [? _]. lia. }
  assert (exists h', mods_loop (Z.of_nat E) Buffer mods modCount fuel (Z.min size (wLength r)) false 0
    (fresh_host delays) = (Some true, h') /\
    concat (h_sent h') = images Buffer mods modCount (Z.to_nat (Z.min size (wLength r))) 0)
    as (h' & Hl & Hc).
  { assert (Z.min size (wLength r) <= h_asked (fresh_host delays)) by (cbn; lia).
    apply transfer_completes; try done; lia. }
  exists h'. rewrite take_images.
  replace (Z.to_nat (wLength r) `min` Z.to_nat size)%nat
    with (Z.to_nat (Z.min size (wLength r))) by lia.
  split; [|done]. rewrite <- Hl. unfold write_endpoint_mods. rewrite mbind_run.
  change (Endpoint_ClearSETUP (fresh_host delays)).2 with (fresh_host delays).
  destruct (Z.gtb_spec size (wLength r)); [by rewrite Z.min_r by lia|].
  rewrite mbind_run. destruct (Z.eqb_spec size 0); [lia|]. by rewrite Z.min_l by lia.
Qed.

End HostAnswers.

(** The request a host cuts a patched pair with. *)
Definition device_request (n : Z) : USB_Request_Header_t :=
  mkRequest 0x80 6 (Z.shiftl DTYPE_Device 8) 0 n.
Lemma descriptors_sent_witness :
  exists m, h_sent (CALLBACK_USB_GetDescriptor (device_request 18) 8 30 false 0xDC 9 1 0 (fun _ => 0) []
    20 (Z.shiftl DTYPE_Device 8 + 0) (mkHost 8 18 [] [] [])).2 =
    [] ++ take m (packets 8 256 (take 18 (device_image 8 30 0xDC 9 1 0)) false).
Proof.
  refine (proj1 (descriptors_sent (device_request 18) 8 30 0xDC 9 1 0 (fun _ => 0) [] _ _ false 20 0
    (mkHost 8 18 [] [] []) _) _).
  - simpl. auto.
  - unfold in_u. simpl. lia.
  - unfold in_u. lia.
  - simpl. lia.
Defined.

(** A round of the loop that fills a whole packet of 64 bytes when nine are left. *)
Lemma cut_pair_loop serial major minor revision after a b c d :
  let img := device_bytes (deviceDescriptor 64 serial major minor revision) in
  write_endpoint_mods (W := host) (device_request 9) 64 (flash after img) [8; a; b; 10; c; d] 6 10
    sizeof_Device (mkHost 64 9 [] [] []) =
    (Some true, mkHost 64 9 [] []
       [splice 8 [a; b; c; d] img ++ ((fun i => after (18 + i)) <$> iota 46)]).
Proof. intros img. vm_compute. reflexivity. Qed.

(** A host that asks for nine bytes of the device descriptor of a patched type
    cuts the vendor id in two: the remaining length wraps around to 65535 and the
    packet is filled with the flash behind the descriptor, 64 bytes instead of
    nine. *)
Theorem cut_pair_overruns deviceType serial major minor revision after past_strings :
  SWITCH_GAMEPAD <= deviceType < MOUSE ->
  exists h', CALLBACK_USB_GetDescriptor (device_request 9) 64 deviceType false serial major minor
      revision after past_strings 10 (wValue (device_request 9)) (mkHost 64 9 [] [] []) =
      (Some [], h') /\
    concat (h_sent h') = device_image 64 deviceType serial major minor revision ++
      ((fun i => after (18 + i)) <$> iota 46).
Proof.
  intros Ht. cbn in Ht. eexists. split.
  - unfold CALLBACK_USB_GetDescriptor. change (Z.shiftr (wValue (device_request 9)) 8) with DTYPE_Device.
    change (DTYPE_Device =? DTYPE_Device) with true. cbv iota zeta.
    assert ((deviceType >=? SWITCH_GAMEPAD) && (deviceType <? MOUSE) = true) as ->
      by (cbn; apply andb_true_iff; rewrite Z.geb_leb; lia).
    cbn [Z.eqb]. unfold device_mods, offsetof_VendorID, offsetof_ProductID.
    erewrite obind_some by (by rewrite cut_pair_loop). by rewrite cut_pair_loop.
  - cbn [h_sent concat]. etransitivity; [apply app_nil_r|]. f_equal. zcases deviceType 26 34; reflexivity.
Qed.
Lemma cut_pair_overruns_witness :
  SWITCH_GAMEPAD <= 30 < MOUSE /\
  exists h', CALLBACK_USB_GetDescriptor (device_request 9) 64 30 false 0xDC 9 1 0 (fun _ => 0xFF) []
      10 (wValue (device_request 9)) (mkHost 64 9 [] [] []) = (Some [], h') /\
    concat (h_sent h') = device_image 64 30 0xDC 9 1 0 ++
      ((fun i => (fun _ => 0xFF) (18 + i)) <$> iota 46).
Proof. split; [simpl; lia|]. apply (cut_pair_overruns 30). simpl. lia. Defined.

(** ** The report descriptor and the report *)
(** The id and the bits of the report a kind sends on the HID endpoint; the id of
    a gamepad report is stripped. *)
Definition hid_report (f : report_fn) : option (Z * Z) :=
  match f with
  | fillMouseReport_p => Some (REPORT_ID_MOUSE : Z, 8 * 5)
  | fillKeyboardReport_p => Some (REPORT_ID_KBD : Z, 8 * 8)
  | fillPS3Report_p => Some (0, 8 * 27)
  | _ => None
  end.
(** The report descriptor the host is given describes the report the device
    sends, for every keyboard and console type; for the mouse it does not: the
    mouse is given the gamepad's descriptor. *)
Theorem hid_descriptor_matches deviceType :
  KEYBOARD_GAMEPAD <= deviceType <= MOUSE ->
  exists id bits fs, hid_report (initReports deviceType) = Some (id, bits) /\
    hid_fields (hid_descriptor deviceType) = Some fs /\
    (report_bits fs MAIN_INPUT id = bits <-> deviceType <> MOUSE).
Proof.
  intros Ht. cbn in Ht. zcases deviceType 20 35;
    (do 3 eexists; split; [reflexivity|]; split; [vm_compute; reflexivity|]; vm_compute; intuition congruence).
Qed.
Lemma hid_descriptor_matches_witness :
  exists id bits fs, hid_report (initReports MOUSE) = Some (id, bits) /\
    hid_fields (hid_descriptor MOUSE) = Some fs /\
    (report_bits fs MAIN_INPUT id = bits <-> (MOUSE : Z) <> MOUSE).
Proof. apply (hid_descriptor_matches MOUSE). simpl. lia. Defined.

(** ** Control requests *)
(** The replies that are constants: request type, request, index, value (any, if
    [None]) and the object. *)
Definition static_replies (multi : bool) : list (Z * Z * Z * option Z * list Z) :=
  [(0xC1, HID_REQ_GetReport, INTERFACE_ID_XInput : Z, Some 0, capabilities1);
   (0xC1, REQ_GetOSFeatureDescriptor, EXTENDED_PROPERTIES_DESCRIPTOR,
    Some (INTERFACE_ID_Config : Z), extended_bytes ExtendedIDs);
   (0xC0, REQ_GetOSFeatureDescriptor, EXTENDED_COMPAT_ID_DESCRIPTOR, None,
    compat_ids_bytes (DevCompatIDs multi));
   (0xC0, HID_REQ_GetReport, 0, Some 0, ID);
   (0xC1, HID_REQ_GetReport, INTERFACE_ID_XInput : Z, Some 0x0100, capabilities2)].
Definition request_is (r : USB_Request_Header_t) (e : Z * Z * Z * option Z * list Z) : bool :=
  let '(ty, req, index, value, _) := e in
  (bmRequestType r =? ty) && (bRequest r =? req) && (wIndex r =? index) &&
  match value with Some v => wValue r =? v | None => true end.
Definition static_reply (multi : bool) (r : USB_Request_Header_t) : option (list Z) :=
  snd <$> List.find (request_is r) (static_replies multi).

(** The objects have the lengths their own headers announce: the Microsoft
    descriptors their total and section lengths, the capabilities their second
    byte. *)
Lemma static_replies_consistent multi :
  let ext := extended_bytes ExtendedIDs in
  let ids := compat_ids_bytes (DevCompatIDs multi) in
  le_val (take 4 ext) = Z.of_nat (length ext) /\
  le_val (slice 10 4 ext) = Z.of_nat (length (drop 10 ext)) /\
  PropertyNameLength (ExtendedID ExtendedIDs) = 2 * Z.of_nat (length (PropertyName (ExtendedID ExtendedIDs))) /\
  PropertyDataLength (ExtendedID ExtendedIDs) = 2 * Z.of_nat (length (PropertyData (ExtendedID ExtendedIDs))) /\
  le_val (take 4 ids) = Z.of_nat (length ids) /\
  Z.of_nat (length ids) = 16 + 24 * ids_TotalSections (DevCompatIDs multi) /\
  Z.of_nat (length capabilities1) = nth 1 capabilities1 0 /\
  Z.of_nat (length capabilities2) = nth 1 capabilities2 0.
Proof. destruct multi; vm_compute; intuition congruence. Qed.

Section ControlSpec.
Context {W : Type} `{Endpoints W, ControlPipe W}.
Context (r : USB_Request_Header_t) (multi : bool).
Context (readFeature : Z -> M W unit) (writeFeature : Z -> Z -> M W unit).
Lemma decide_pair {A} (a b : A) (x y c d : Z) :
  (if decide ((x, y) = (c, d)) then a else b) = if (y =? d) && (x =? c) then a else b.
Proof using.
  destruct (Z.eqb_spec y d), (Z.eqb_spec x c); simpl; case_decide; congruence || done.
Qed.
Let handle := deviceControlRequest r multi readFeature writeFeature.

End ControlSpec.

(** A device that records what it is given to send. *)
Definition log_endpoints : Endpoints (list (list Z)) := {|
  Endpoint_SelectEndpoint _ := mret tt; Endpoint_GetCurrentEndpoint := mret 0;
  Endpoint_Write_8 _ := mret tt; Endpoint_ClearIN := mret tt; Endpoint_IsINReady := mret true;
  Endpoint_IsOUTReceived := mret false; Endpoint_BytesInEndpoint := mret 0;
  Endpoint_Read_8 := mret 0; Endpoint_ClearOUT := mret tt; Endpoint_ClearSETUP := mret tt;
  Endpoint_ClearStatusStage := mret tt; USB_USBTask := mret tt
|}.
Definition log_pipe : ControlPipe (list (list Z)) := {|
  USB_DeviceState := mret DEVICE_STATE_Configured;
  Endpoint_IsSETUPReceived := mret true;
  Endpoint_Write_Control_PStream_LE l := mmod (fun w => w ++ [l])
|}.
