(* ===== verification/UnoMain.v ===== *)
(** * The Uno's main processor: [avr/uno/main/main.c]

    The loop that takes command frames from the USB processor and sends reports
    to it.  What it calls in other components is the interface [UnoHost]; the
    radio branch after a frame is [rf_forward]. *)

From Stdlib Require Import ZArith Lia.
From stdpp Require Import base tactics numbers list.
From S2P Require Import Prelude Defs Controller RingBuffer UnoUsb.
Open Scope Z_scope.

Definition PACKET_SIZE : Z := 28.

Class UnoHost (W : Type) := {
  writeConfigByte : Z -> Z -> M W unit;
  (* a store at [leds + a] *)
  poke_leds : Z -> Z -> M W unit;
  setSP : bool -> M W unit;
  readFeatureReport : Z -> M W unit;
  handleCommand : Z -> M W unit;
  delay_100ms : M W unit;
  (* command, [isConfig], [origOffset], [offset] *)
  rf_forward : Z -> bool -> Z -> Z -> M W unit;
  (* [tickInputs] and [tickLEDs], or [tickRFInput] *)
  tick : Controller_t -> M W Controller_t;
  (* the bytes of the report *)
  fillReport : Controller_t -> M W (list Z);
  now_ms : M W Z
}.

Section UnoMain.
Context {W : Type} `{UnoHost W} (isRF : bool) (pollRate : Z).

Record uno_state : Type := mkUno {
  state : Z; packetCount : Z;
  (* [buf] relative to [leds], [None] for NULL *)
  buf : option Z;
  cmd : Z; isConfig : bool; offset : Z; origOffset : Z;
  readyForPacket : bool; lastPoll : Z;
  controller : Controller_t; prevController : Controller_t;
  inq : Lufa.RingBuffer_t; outq : Lufa.RingBuffer_t;
  host : W
}.
#[global] Instance etaUno : Settable uno_state := fun r =>
  {| state := state r; packetCount := packetCount r; buf := buf r; cmd := cmd r;
     isConfig := isConfig r; offset := offset r; origOffset := origOffset r;
     readyForPacket := readyForPacket r; lastPoll := lastPoll r; controller := controller r;
     prevController := prevController r; inq := inq r; outq := outq r; host := host r |}.
Definition on_host {A} (m : M W A) : M uno_state A :=
  fun s => let '(a, w) := m (host s) in (a, s <| host := w |>).

(** [main] before the loop; the locals it leaves uninitialised are [buf0],
    [cmd0], [offset0] and [orig0]. *)
Definition USART_BUFLEN : Z := 128.
Definition uno_start (buf0 : option Z) (cmd0 offset0 orig0 : Z) (bufIn bufOut : list Z) (w : W)
  : uno_state :=
  mkUno 0 0 buf0 cmd0 false offset0 orig0 true 0 zero_controller zero_controller
    (Lufa.RingBuffer_InitBuffer bufIn USART_BUFLEN) (Lufa.RingBuffer_InitBuffer bufOut USART_BUFLEN) w.

(** [writeData] *)
Definition writeData (l : list Z) : M uno_state unit :=
  mmod (fun s => s <| outq ::= fun q => foldl (fun q b => Lufa.RingBuffer_Insert b q) q l |>).
(** One round of the loop over the received bytes; [true] is [break]. *)
Definition uno_byte (data : Z) : M uno_state bool :=
  st ← mread state;
  if st =? 0 then
    mmod (fun s =>
      if data =? FRAME_START_FEATURE_WRITE then s <| state := 1 |>
      else if data =? FRAME_START_FEATURE_READ then s <| state := 2 |>
      else if data =? FRAME_DONE then s <| readyForPacket := true |> else s) ;;
    mret false
  else if st =? 1 then
    mmod (fun s => s <| packetCount := data |> <| state := 3 |>) ;; mret false
  else if st =? 2 then
    on_host (readFeatureReport data) ;; mmod (fun s => s <| state := 0 |>) ;; mret true
  else if st =? 3 then
    mmod (fun s =>
      let s := s <| cmd := data |> in
      if data =? COMMAND_WRITE_CONFIG
      then s <| isConfig := true |> <| state := 4 |> <| packetCount ::= fun n => u8 (n - 1) |>
      else if data =? COMMAND_SET_LEDS
      then s <| buf := Some 0 |> <| state := 4 |> <| packetCount ::= fun n => u8 (n - 1) |>
      else s <| buf := None |> <| state := 5 |>) ;;
    mret false
  else if st =? 4 then
    mmod (fun s => s <| origOffset := data |> <| offset := u16 (data * PACKET_SIZE) |>
                     <| buf ::= fmap (fun p => p + u16 (data * PACKET_SIZE)) |>
                     <| state := 5 |>) ;;
    mret false
  else if st =? 5 then
    mmod (fun s => s <| packetCount ::= fun n => u8 (n - 1) |>) ;;
    s ← mread id;
    (if isConfig s then
       on_host (writeConfigByte (offset s) data) ;;
       mmod (fun s => s <| offset ::= fun o => u16 (o + 1) |>)
     else
       match buf s with
       | Some p => on_host (poke_leds p data) ;; mmod (fun s => s <| buf := Some (p + 1) |>)
       | None => mwhen (cmd s =? COMMAND_SET_SP) (on_host (setSP (negb (data =? 0))))
       end) ;;
    n ← mread packetCount;
    if n =? 0 then mmod (fun s => s <| state := 7 |>) ;; mret true else mret false
  else mret false.
Fixpoint uno_batch (count : nat) : M uno_state unit :=
  match count with
  | O => mret tt
  | S count =>
      s ← mread id;
      let '(data, q) := Lufa.RingBuffer_Remove (inq s) in
      mmod (fun s => s <| inq := q |>) ;;
      stop ← uno_byte data;
      if (stop : bool) then mret tt else uno_batch count
  end.
(** After the loop: a complete frame is carried out. *)
Definition frame_end : M uno_state unit :=
  s ← mread id;
  if state s =? 7 then
    mmod (fun s => s <| state := 0 |>) ;;
    mwhen isRF
      (on_host (rf_forward (cmd s) (isConfig s) (origOffset s) (offset s)) ;;
       mmod (fun s => s <| isConfig := false |>)) ;;
    mwhen (cmd s =? COMMAND_REBOOT) (on_host delay_100ms) ;;
    on_host (handleCommand (cmd s))
  else mret tt.
Definition uno_poll : M uno_state unit :=
  s ← mread id;
  c ← on_host (tick (controller s));
  mmod (fun s => s <| controller := c |>) ;;
  s ← mread id;
  mwhen (negb (bool_decide (prevController s = c)) && readyForPacket s)
    (r ← on_host (fillReport c);
     now ← on_host now_ms;
     mmod (fun s => s <| lastPoll := now |> <| readyForPacket := false |>) ;;
     writeData [FRAME_START_WRITE] ;;
     writeData [Z.of_nat (length r)] ;;
     writeData r ;;
     mmod (fun s => s <| prevController := c |>)).
(** One round of the main loop. *)
Definition uno_loop : M uno_state unit :=
  s ← mread id;
  let count := u8 (Lufa.RingBuffer_GetCount (inq s)) in
  if negb (count =? 0) then uno_batch (Z.to_nat count) ;; frame_end
  else
    now ← on_host now_ms;
    mwhen ((u32 (now - lastPoll s) >? pollRate) || isRF) uno_poll.
(** [writeToUSB] *)
Definition writeToUSB (Buffer : list Z) : M uno_state unit :=
  writeData [FRAME_START_WRITE] ;; writeData [Z.of_nat (length Buffer)] ;; writeData Buffer.
(** The interrupts of the UART. *)
Definition USART_RX_vect (b : Z) : M uno_state unit :=
  mmod (fun s => s <| inq ::= Lufa.RingBuffer_Insert b |>).
Definition USART_UDRE_vect : M uno_state (option Z) :=
  s ← mread id;
  if negb (Lufa.RingBuffer_GetCount (outq s) =? 0) then
    let '(b, q) := Lufa.RingBuffer_Remove (outq s) in
    mmod (fun s => s <| outq := q |>) ;; mret (Some b)
  else mret None.
End UnoMain.
Arguments uno_state : clear implicits.

(** ** Command frames *)
Section Frames.
Context {W : Type} `{UnoHost W} (isRF : bool).
Implicit Types (s : uno_state W) (l : list Z).

(** All received bytes, one after the other, each complete frame carried out at
    its end. *)
Definition uno_feed (l : list Z) : M (uno_state W) unit :=
  mfor l (fun b => stop ← uno_byte b; mwhen stop (frame_end isRF)).
Lemma uno_feed_cons b l s :
  uno_feed (b :: l) s =
    uno_feed l (mwhen (uno_byte b s).1 (frame_end isRF) (uno_byte b s).2).2.
Proof. unfold uno_feed. cbn [mfor]. rewrite mbind_run. by rewrite mbind_run. Qed.
Lemma uno_feed_app l1 l2 s : uno_feed (l1 ++ l2) s = uno_feed l2 (uno_feed l1 s).2.
Proof. unfold uno_feed. by rewrite mfor_app, mbind_run. Qed.
Definition run_host (m : M W unit) s : uno_state W := s <| host := (m (host s)).2 |>.
Lemma on_host_run (m : M W unit) s : on_host m s = (tt, run_host m s).
Proof. unfold on_host, run_host. by destruct (m (host s)) as [[] w]. Qed.

(** What the byte at index [i] of a frame's data does, as the state stands when
    the data begins. *)
Definition data_op s (i b : Z) : M W unit :=
  if isConfig s then writeConfigByte (u16 (offset s + i)) b
  else match buf s with
       | Some p => poke_leds (p + i) b
       | None => mwhen (cmd s =? COMMAND_SET_SP) (setSP (negb (b =? 0)))
       end.
Fixpoint write_from (op : Z -> Z -> M W unit) (i : Z) (l : list Z) : M W unit :=
  match l with
  | [] => mret tt
  | b :: l => op i b ;; write_from op (i + 1) l
  end.
Lemma write_from_ext op1 op2 i l w :
  (forall j b w, i <= j < i + Z.of_nat (length l) -> op1 j b w = op2 j b w) ->
  write_from op1 i l w = write_from op2 i l w.
Proof.
  revert i w. induction l as [|b l IH]; intros i w Ho; [done|]. cbn [write_from length] in *.
  rewrite !mbind_run, Ho by lia. apply IH. intros. apply Ho. lia.
Qed.
Lemma write_from_shift op i k l w :
  write_from (fun j => op (j + k)) i l w = write_from op (i + k) l w.
Proof.
  revert i w. induction l as [|b l IH]; intros i w; [done|]. cbn [write_from].
  rewrite !mbind_run, IH. by replace (i + 1 + k) with (i + k + 1) by lia.
Qed.
(** The pointer and the offset after [n] bytes. *)
Definition advance (n : Z) s : uno_state W :=
  if isConfig s then s <| offset := u16 (offset s + n) |>
  else s <| buf ::= fmap (fun p => p + n) |>.
Lemma uno_byte_data b s :
  state s = 5 ->
  let s1 := run_host (data_op s 0 b) (advance 1 (s <| packetCount := u8 (packetCount s - 1) |>)) in
  in_u 16 (offset s) ->
  uno_byte b s = if packetCount s1 =? 0 then (true, s1 <| state := 7 |>) else (false, s1).
Proof.
  intros Hs s1 Ho. destruct s as [st n p cm cf off orig rdy lp ct pc iq oq w]. cbn in Hs. subst st.
  cbn in Ho. assert (u16 off = off) as Eo by by apply uwrap_small.
  unfold s1, uno_byte, data_op, advance, mread, mmod, mbind, M_bind, mwhen.
  destruct cf, p as [p|]; cbn -[uwrap on_host run_host]; rewrite ?Z.add_0_r, ?Eo;
    try (destruct (cm =? 59); cbn -[uwrap on_host run_host]);
    rewrite ?on_host_run; unfold run_host; cbn -[uwrap]; by destruct (u8 (n - 1) =? 0).
Qed.
Lemma u16_add_l a b : u16 (u16 a + b) = u16 (a + b).
Proof. unfold uwrap. apply Zplus_mod_idemp_l. Qed.
Lemma data_op_advance s b i x w n :
  data_op (run_host (data_op s 0 b) (advance 1 (s <| packetCount := n |>))) i x w =
    data_op s (i + 1) x w.
Proof.
  unfold data_op, advance, run_host. destruct s as [st pc p cm cf off orig rdy lp ct pcl iq oq w0].
  destruct cf; cbn -[uwrap].
  - rewrite u16_add_l. by replace (off + 1 + i) with (off + (i + 1)) by lia.
  - destruct p as [p|]; cbn; [|done]. by replace (p + 1 + i) with (p + (i + 1)) by lia.
Qed.
Lemma advance_advance s b (n m : Z) k :
  advance n (run_host (data_op s 0 b) (advance 1 (s <| packetCount := k |>))) =
    run_host (data_op s 0 b) (advance (n + 1) (s <| packetCount := k |>)).
Proof.
  unfold advance, run_host. destruct s as [st pc p cm cf off orig rdy lp ct pcl iq oq w0].
  destruct cf; cbn -[uwrap data_op].
  - rewrite u16_add_l. by replace (off + 1 + n) with (off + (n + 1)) by lia.
  - destruct p as [p|]; cbn; [|done]. by replace (p + 1 + n) with (p + (n + 1)) by lia.
Qed.
(** The state when the last byte of a frame's data has been taken. *)
Definition data_end l s : uno_state W :=
  run_host (write_from (data_op s) 0 l) (advance (Z.of_nat (length l)) s)
    <| packetCount := 0 |> <| state := 7 |>.
Lemma run_host_ext (m1 m2 : M W unit) s : (forall w, m1 w = m2 w) -> run_host m1 s = run_host m2 s.
Proof. intros E. unfold run_host. by rewrite E. Qed.
Lemma run_host_closed (m1 m2 : M W unit) s n k :
  run_host m1 ((run_host m2 s) <| packetCount := n |> <| state := k |>) =
    run_host (m2 ;; m1) (s <| packetCount := n |> <| state := k |>).
Proof. unfold run_host. destruct s. cbn. by rewrite mbind_run. Qed.
Lemma advance_count n s k :
  (advance n (s <| packetCount := k |>)) <| packetCount := 0 |> =
    (advance n s) <| packetCount := 0 |>.
Proof. destruct s as [st pc p cm cf off orig rdy lp ct pcl iq oq w0]. by destruct cf. Qed.
Lemma data_end_cons b l s k :
  let s1 := run_host (data_op s 0 b) (advance 1 (s <| packetCount := k |>)) in
  data_end (b :: l) s = data_end l s1.
Proof.
  cbv zeta. unfold data_end. rewrite (advance_advance s b _ 0), run_host_closed, advance_count.
  replace (Z.of_nat (length l) + 1) with (Z.of_nat (length (b :: l))) by (cbn [length]; lia).
  apply run_host_ext. intros w. cbn [write_from]. rewrite !mbind_run, Z.add_0_l. symmetry.
  rewrite (write_from_ext _ (fun j => data_op s (j + 1))); [apply write_from_shift|].
  intros. apply data_op_advance.
Qed.
Lemma uno_feed_data l s :
  state s = 5 -> (0 < length l <= 256)%nat -> packetCount s = u8 (Z.of_nat (length l)) ->
  in_u 16 (offset s) -> uno_feed l s = (tt, (frame_end isRF (data_end l s)).2).
Proof.
  revert s. induction l as [|b l IH]; intros s Hs Hl Hn Ho; [cbn in Hl; lia|].
  rewrite uno_feed_cons, uno_byte_data by done. cbv zeta. cbn [length] in *.
  assert (u8 (packetCount s - 1) = u8 (Z.of_nat (length l))) as E.
  { rewrite Hn. unfold uwrap. rewrite Zminus_mod_idemp_l. f_equal. lia. }
  rewrite E. set (k := u8 (Z.of_nat (length l))) in *. rewrite (data_end_cons b l s k).
  set (s1 := run_host (data_op s 0 b) (advance 1 (s <| packetCount := k |>))).
  assert (packetCount s1 = k /\ state s1 = 5 /\ in_u 16 (offset s1)) as (E1 & Es & Eo).
  { unfold s1, advance, run_host. destruct s, isConfig0; cbn -[uwrap];
      (split; [done|split; [exact Hs|]]); [apply uwrap_range; lia|exact Ho]. }
  rewrite E1. destruct l as [|b2 l].
  - change k with 0. cbn [Z.eqb fst snd mwhen]. unfold uno_feed. cbn [mfor]. unfold mret, M_ret.
    do 3 f_equal. unfold data_end. cbn [write_from length]. unfold advance, run_host.
    assert (u16 (offset s1 + Z.of_nat 0) = offset s1) as Eu.
    { rewrite Z.add_0_r. by apply uwrap_small. }
    rewrite Eu. destruct s1 as [st pc p cm cf off orig rdy lp ct pcl iq oq w0].
    cbn in E1. subst pc. destruct cf; [done|]. cbn. f_equal. destruct p; cbn; [|done]. f_equal. lia.
  - replace (k =? 0) with false.
    2:{ symmetry. apply Z.eqb_neq. unfold k. rewrite uwrap_small; unfold in_u; cbn [length] in *; lia. }
    cbn [fst snd mwhen]. unfold mret at 1, M_ret at 1. cbn [snd].
    by apply IH; [|cbn [length] in *; lia|..].
Qed.
End Frames.

(** ** Without the radio *)
Section Wired.
Context {W : Type} `{UnoHost W}.
Implicit Types (s : uno_state W) (l : list Z).

(** Running a completed command. *)
Definition carry_out (c : Z) : M W unit :=
  mwhen (c =? COMMAND_REBOOT) delay_100ms ;; handleCommand c.
Lemma frame_end_wired s :
  state s = 7 -> frame_end false s = (tt, run_host (carry_out (cmd s)) (s <| state := 0 |>)).
Proof.
  intros Hs. destruct s as [st pc p cm cf off orig rdy lp ct pcl iq oq w]. cbn in Hs. subst st.
  unfold frame_end, carry_out. rewrite !mbind_run. cbn [mread id fst snd state Z.eqb Pos.eqb cmd].
  rewrite !mbind_run. cbn [mmod mwhen fst snd mret M_ret].
  destruct (cm =? COMMAND_REBOOT); cbn [mwhen]; rewrite ?on_host_run; unfold run_host; cbn;
    by rewrite !mbind_run.
Qed.
(** The header of a frame with a block number, and of any other. *)
Definition block_command (c : Z) : bool := (c =? COMMAND_WRITE_CONFIG) || (c =? COMMAND_SET_LEDS).
Definition block_start (c k n : Z) s : uno_state W :=
  s <| state := 5 |> <| packetCount := u8 (n - 1) |> <| cmd := c |>
    <| isConfig ::= fun f => (c =? COMMAND_WRITE_CONFIG) || f |>
    <| origOffset := k |> <| offset := u16 (k * PACKET_SIZE) |>
    <| buf ::= fun p => (fun p => p + u16 (k * PACKET_SIZE)) <$>
         (if c =? COMMAND_WRITE_CONFIG then p else Some 0) |>.
Lemma uno_feed_step rf b s s' l : uno_byte b s = (false, s') ->
  uno_feed (H := H) rf (b :: l) s = uno_feed rf l s'.
Proof. intros E. by rewrite uno_feed_cons, E. Qed.
Lemma feed_block_header rf c k n s :
  state s = 0 -> block_command c = true ->
  uno_feed rf [FRAME_START_FEATURE_WRITE; n; c; k] s = (tt, block_start c k n s).
Proof.
  intros Hs Hc. destruct s as [st pc p cm cf off orig rdy lp ct pcl iq oq w]. cbn in Hs. subst st.
  erewrite uno_feed_step; [|reflexivity]. erewrite uno_feed_step; [|reflexivity].
  unfold block_command in Hc. unfold block_start.
  erewrite uno_feed_step.
  2:{ unfold uno_byte, mread, mmod, mbind, M_bind. cbn -[uwrap]. reflexivity. }
  destruct (Z.eqb_spec c COMMAND_WRITE_CONFIG) as [->|].
  - change (COMMAND_WRITE_CONFIG =? 61) with true. cbv iota. erewrite uno_feed_step; reflexivity.
  - cbn [orb] in Hc. apply Z.eqb_eq in Hc as ->. change (COMMAND_SET_LEDS =? 61) with false.
    change (COMMAND_SET_LEDS =? 57) with true. cbv iota. erewrite uno_feed_step; reflexivity.
Qed.
Lemma feed_command_header rf c n s :
  state s = 0 -> block_command c = false ->
  uno_feed rf [FRAME_START_FEATURE_WRITE; n; c] s =
    (tt, s <| state := 5 |> <| packetCount := n |> <| cmd := c |> <| buf := None |>).
Proof.
  intros Hs Hc. destruct s as [st pc p cm cf off orig rdy lp ct pcl iq oq w]. cbn in Hs. subst st.
  erewrite uno_feed_step; [|reflexivity]. erewrite uno_feed_step; [|reflexivity].
  unfold block_command in Hc. apply orb_false_iff in Hc as [H1 H2].
  erewrite uno_feed_step.
  2:{ unfold uno_byte, mread, mmod, mbind, M_bind. cbn -[uwrap]. reflexivity. }
  cbn in H1, H2. by rewrite H1, H2.
Qed.
(** The rest of the state, which a frame leaves alone. *)
Definition link_view s : bool * Z * Controller_t * Controller_t * Lufa.RingBuffer_t * Lufa.RingBuffer_t :=
  (readyForPacket s, lastPoll s, controller s, prevController s, inq s, outq s).
Lemma frame_done l s :
  state s = 5 -> (0 < length l <= 256)%nat -> packetCount s = u8 (Z.of_nat (length l)) ->
  in_u 16 (offset s) ->
  let s' := (uno_feed false l s).2 in
  host s' = ((write_from (data_op s) 0 l ;; carry_out (cmd s)) (host s)).2 /\
  state s' = 0 /\ isConfig s' = isConfig s /\ link_view s' = link_view s.
Proof.
  intros Hs Hl Hn Ho. cbv zeta. rewrite uno_feed_data by done. cbn [snd].
  rewrite frame_end_wired by done. cbn [snd]. rewrite mbind_run.
  unfold data_end, advance, run_host. destruct s as [st pc p cm cf off orig rdy lp ct pcl iq oq w].
  by destruct cf.
Qed.
(** A frame for a block command of 1 to 256 data bytes behind the block number
    stores byte [i] at [28 k + i], runs the command and leaves the parser idle.
    The store is the configuration for WRITE_CONFIG and the LED table for
    SET_LEDS, but only until the first WRITE_CONFIG: the flag stays set, so from
    then on LED blocks are written over the configuration. *)
Theorem uno_block_frame c k l s :
  state s = 0 -> block_command c = true -> byte k -> (0 < length l <= 256)%nat ->
  let cfg := (c =? COMMAND_WRITE_CONFIG) || isConfig s in
  let op i b := if cfg then writeConfigByte (28 * k + i) b else poke_leds (28 * k + i) b in
  let s' := (uno_feed false
    ([FRAME_START_FEATURE_WRITE; u8 (1 + Z.of_nat (length l)); c; k] ++ l) s).2 in
  host s' = ((write_from op 0 l ;; carry_out c) (host s)).2 /\
  state s' = 0 /\ isConfig s' = cfg /\ link_view s' = link_view s.
Proof.
  intros Hs Hc Hk Hl. cbv zeta. unfold in_u in Hk.
  rewrite uno_feed_app, feed_block_header by done. cbn [snd].
  assert (u16 (k * PACKET_SIZE) = 28 * k) as Eo.
  { unfold PACKET_SIZE. rewrite uwrap_small; unfold in_u; lia. }
  destruct (frame_done l (block_start c k (u8 (1 + Z.of_nat (length l))) s)) as (Eh & Es & Ef & Ev).
  - done.
  - done.
  - cbn [block_start packetCount upd setter_of]. unfold uwrap. rewrite Zminus_mod_idemp_l.
    f_equal. lia.
  - cbn [block_start offset upd setter_of]. apply uwrap_range. lia.
  - rewrite Eh, Es, Ef, Ev. split; [|by destruct s]. rewrite !mbind_run.
    f_equal. erewrite write_from_ext; [by destruct s|]. intros j b w Hj.
    unfold data_op. change (isConfig (block_start c k _ s)) with ((c =? COMMAND_WRITE_CONFIG) || isConfig s).
    change (offset (block_start c k _ s)) with (u16 (k * PACKET_SIZE)). rewrite Eo.
    destruct ((c =? COMMAND_WRITE_CONFIG) || isConfig s) eqn:Ecfg.
    + rewrite uwrap_small; [done|unfold in_u; lia].
    + apply orb_false_iff in Ecfg as [Ec _].
      change (buf (block_start c k _ s)) with ((fun p => p + u16 (k * PACKET_SIZE)) <$>
         (if c =? COMMAND_WRITE_CONFIG then buf s else Some 0)).
      rewrite Ec, Eo. reflexivity.
Qed.
(** A frame for any other command stores its 1 to 256 data bytes too once a
    configuration block has been received, at the offset where that block
    ended; before that they are ignored, except by SET_SP.  The frame of a
    command without data (length 0) takes the next 256 bytes as its data before
    the command runs. *)
Theorem uno_command_frame c l s :
  state s = 0 -> block_command c = false -> (0 < length l <= 256)%nat -> in_u 16 (offset s) ->
  let op i b :=
    if isConfig s then writeConfigByte (u16 (offset s + i)) b
    else mwhen (c =? COMMAND_SET_SP) (setSP (negb (b =? 0))) in
  let s' := (uno_feed false
    ([FRAME_START_FEATURE_WRITE; u8 (Z.of_nat (length l)); c] ++ l) s).2 in
  host s' = ((write_from op 0 l ;; carry_out c) (host s)).2 /\
  state s' = 0 /\ isConfig s' = isConfig s /\ link_view s' = link_view s.
Proof.
  intros Hs Hc Hl Ho. cbv zeta. rewrite uno_feed_app, feed_command_header by done. cbn [snd].
  set (s1 := s <| state := 5 |> <| packetCount := u8 (Z.of_nat (length l)) |>
               <| cmd := c |> <| buf := None |>).
  destruct (frame_done l s1) as (Eh & Es & Ef & Ev); [done|done|done|exact Ho|].
  rewrite Eh, Es, Ef, Ev. by destruct s.
Qed.

(** *** Reports to the USB processor *)
#[local] Instance uno_fifo : Fifo Lufa.RingBuffer_t := Lufa.LufaFifo 128.
#[local] Instance uno_fifo_ok : FifoOk Lufa.RingBuffer_t.
Proof. apply Lufa.LufaFifoOk. lia. Qed.
Lemma on_host_eq {A} (m : M W A) s : on_host m s = ((m (host s)).1, s <| host := (m (host s)).2 |>).
Proof. unfold on_host. by destruct (m (host s)). Qed.
Lemma writeData_run l s : writeData l s = (tt, s <| outq ::= push_all l |>).
Proof. done. Qed.
Lemma push_all_app l1 l2 q : push_all l2 (push_all l1 q) = push_all (l1 ++ l2) q.
Proof. unfold push_all. by rewrite foldl_app. Qed.
(** A poll sends a report exactly when the controller has changed since the
    last one sent and the USB processor has said it is ready; then one whole
    frame with the report is queued, provided there is room, and no other is
    sent until the USB processor is ready again. *)
Theorem uno_poll_sends s :
  fifo_ok (outq s) ->
  let c := (tick (controller s) (host s)).1 in
  let w1 := (tick (controller s) (host s)).2 in
  let r := (fillReport c w1).1 in
  (length (fifo_contents (outq s)) + 2 + length r <= 128)%nat ->
  let s' := (uno_poll s).2 in
  controller s' = c /\ fifo_ok (outq s') /\
  if negb (bool_decide (prevController s = c)) && readyForPacket s then
    fifo_contents (outq s') = fifo_contents (outq s) ++ frame r /\
    readyForPacket s' = false /\ prevController s' = c
  else
    outq s' = outq s /\ readyForPacket s' = readyForPacket s /\
    prevController s' = prevController s /\ host s' = w1.
Proof.
  intros Hq. cbv zeta. set (c := (tick (controller s) (host s)).1).
  set (w1 := (tick (controller s) (host s)).2). intros Hr.
  assert (uno_poll s =
    mwhen (negb (bool_decide (prevController s = c)) && readyForPacket s)
      (r ← on_host (fillReport c);
       now ← on_host now_ms;
       mmod (fun s => s <| lastPoll := now |> <| readyForPacket := false |>) ;;
       writeData [FRAME_START_WRITE] ;;
       writeData [Z.of_nat (length r)] ;;
       writeData r ;;
       mmod (fun s => s <| prevController := c |>))
      (s <| host := w1 |> <| controller := c |>)) as E.
  { unfold uno_poll. rewrite mbind_run. cbn [mread id fst snd].
    rewrite (mbind_eq _ _ _ _ _ (on_host_eq (tick (controller s)) s)).
    rewrite mbind_run. cbn [mmod fst snd]. rewrite mbind_run. cbn [mread id fst snd].
    fold c w1. by destruct s. }
  rewrite E. clear E. set (s1 := s <| host := w1 |> <| controller := c |>).
  destruct (negb (bool_decide (prevController s = c)) && readyForPacket s); cbn [mwhen].
  2:{ by destruct s. }
  rewrite (mbind_eq _ _ _ _ _ (on_host_eq (fillReport c) s1)). change (host s1) with w1.
  set (r := (fillReport c w1).1) in *. set (s2 := s1 <| host := (fillReport c w1).2 |>).
  rewrite (mbind_eq _ _ _ _ _ (on_host_eq now_ms s2)).
  rewrite !mbind_run. rewrite !writeData_run. cbn [mmod snd].
  destruct (push_all_contents uno_fifo_ok (frame r) (outq s) Hq) as [Ho Ec].
  { cbn [fifo_cap uno_fifo Lufa.LufaFifo frame length]. lia. }
  destruct s as [st pc p cm cf off orig rdy lp ct pcl iq oq w]. cbn -[push_all] in *.
  rewrite !push_all_app. cbn [app]. change (FRAME_START_WRITE :: Z.of_nat (length r) :: r) with (frame r).
  by rewrite Ec.
Qed.

(** ** With the radio *)
Lemma frame_end_radio s :
  state s = 7 ->
  frame_end true s =
    (tt, run_host (rf_forward (cmd s) (isConfig s) (origOffset s) (offset s) ;; carry_out (cmd s))
           (s <| state := 0 |> <| isConfig := false |>)).
Proof.
  intros Hs. destruct s as [st pc p cm cf off orig rdy lp ct pcl iq oq w]. cbn in Hs. subst st.
  unfold frame_end, carry_out. rewrite !mbind_run. cbn [mread id fst snd state Z.eqb Pos.eqb cmd].
  rewrite !mbind_run. cbn [mmod mwhen fst snd mret M_ret]. rewrite !mbind_run, on_host_run.
  cbn [fst snd mmod].
  destruct (cm =? COMMAND_REBOOT); cbn [mwhen]; rewrite ?on_host_run; unfold run_host; cbn;
    by rewrite !mbind_run.
Qed.
(** A configuration block for a wireless controller is stored at [28 k], but
    what is forwarded over the radio under the number [k] is the 28 bytes
    behind the data stored, the next block when the frame was a full one. *)
Theorem uno_radio_config_frame k l s :
  state s = 0 -> byte k -> (0 < length l <= 256)%nat ->
  let s' := (uno_feed true
    ([FRAME_START_FEATURE_WRITE; u8 (1 + Z.of_nat (length l)); (COMMAND_WRITE_CONFIG : Z); k] ++ l) s).2 in
  host s' =
    ((write_from (fun i b => writeConfigByte (28 * k + i) b) 0 l ;;
      rf_forward COMMAND_WRITE_CONFIG true k (28 * k + Z.of_nat (length l)) ;;
      carry_out COMMAND_WRITE_CONFIG) (host s)).2 /\
  state s' = 0 /\ isConfig s' = false.
Proof.
  intros Hs Hk Hl. cbv zeta. unfold in_u in Hk.
  rewrite uno_feed_app, feed_block_header by done. cbn [snd].
  set (s0 := block_start COMMAND_WRITE_CONFIG k (u8 (1 + Z.of_nat (length l))) s).
  assert (u16 (k * PACKET_SIZE) = 28 * k) as Eo.
  { unfold PACKET_SIZE. rewrite uwrap_small; unfold in_u; lia. }
  rewrite uno_feed_data; [|done|lia| |].
  2:{ unfold s0. cbn [block_start packetCount upd setter_of]. unfold uwrap.
      rewrite Zminus_mod_idemp_l. f_equal. lia. }
  2:{ cbn [s0 block_start offset upd setter_of]. apply uwrap_range. lia. }
  cbn [snd]. rewrite frame_end_radio by done. cbn [snd].
  assert (isConfig s0 = true /\ offset s0 = 28 * k) as [Ec Eoff] by (split; [done|exact Eo]).
  assert (cmd s0 = COMMAND_WRITE_CONFIG /\ origOffset s0 = k /\ host s0 = host s) as (Ecm & Eor & Ew)
    by done.
  clearbody s0. unfold data_end, advance. rewrite Ec, Eoff.
  destruct s0 as [st pc p cm cf off orig rdy lp ct pcl iq oq w]. cbn in Ec, Eoff, Ecm, Eor, Ew.
  subst cm cf off orig w. unfold run_host.
  cbn [host upd setter_of state isConfig cmd origOffset offset]. split; [|done].
  rewrite (uwrap_small 16) by (unfold in_u; lia). rewrite !mbind_run. do 5 f_equal.
  apply write_from_ext. intros j b w Hj. unfold data_op. cbn [isConfig offset].
  by rewrite uwrap_small by (unfold in_u; lia).
Qed.
End Wired.

(** ** A recording host *)
Inductive host_event : Set :=
  | WroteConfig (off b : Z) | PokedLeds (a b : Z) | SetSP (sp : bool) | ReadFeature (c : Z)
  | Command (c : Z) | Waited | Forwarded (c o off : Z).
(** Its controller has the up button pressed; its report is three bytes. *)
#[global] Instance host_log : UnoHost (list host_event) := {|
  writeConfigByte o b l := (tt, l ++ [WroteConfig o b]);
  poke_leds a b l := (tt, l ++ [PokedLeds a b]);
  setSP b l := (tt, l ++ [SetSP b]);
  readFeatureReport c l := (tt, l ++ [ReadFeature c]);
  handleCommand c l := (tt, l ++ [Command c]);
  delay_100ms l := (tt, l ++ [Waited]);
  rf_forward c _ o off l := (tt, l ++ [Forwarded c o off]);
  tick c l := (c <| buttons := 1 |>, l);
  fillReport c l := ([6; buttons c; 0], l);
  now_ms l := (5, l)
|}.
Definition uno_idle : uno_state (list host_event) :=
  uno_start None 0 0 0 (replicate 128 0) (replicate 128 0) [].
Definition uno_configured : uno_state (list host_event) :=
  (uno_feed false [0x7e; 3; 0x3d; 1; 7; 8] uno_idle).2.
Lemma uno_configured_idle : state uno_configured = 0.
Proof. vm_compute. reflexivity. Qed.
(** A configuration block, then a LED block that lands in the configuration. *)
Lemma uno_block_frame_witness :
  let s := uno_configured in
  host s = [WroteConfig 28 7; WroteConfig 29 8; Command 0x3d] /\
  host (uno_feed false [0x7e; 2; 0x39; 0; 9] s).2 = host s ++ [WroteConfig 0 9; Command 0x39] /\
  host (uno_feed false [0x7e; 2; 0x39; 0; 9] uno_idle).2 = [PokedLeds 0 9; Command 0x39].
Proof.
  cbv zeta. split; [|split].
  - destruct (uno_block_frame COMMAND_WRITE_CONFIG 1 [7; 8] uno_idle eq_refl eq_refl
      ltac:(split; [lia|reflexivity]) ltac:(simpl; lia)) as (E & _). exact E.
  - destruct (uno_block_frame COMMAND_SET_LEDS 0 [9] uno_configured uno_configured_idle eq_refl
      ltac:(split; [lia|reflexivity]) ltac:(simpl; lia)) as (E & _).
    refine (eq_trans E _). vm_compute. reflexivity.
  - destruct (uno_block_frame COMMAND_SET_LEDS 0 [9] uno_idle eq_refl eq_refl
      ltac:(split; [lia|reflexivity]) ltac:(simpl; lia)) as (E & _). exact E.
Defined.
(** The star power command, and a reboot that is only carried out when 256
    further bytes have come. *)
Lemma uno_command_frame_witness :
  host (uno_feed false [0x7e; 1; 0x3b; 1] uno_idle).2 = [SetSP true; Command 0x3b] /\
  host (uno_feed false ([0x7e; 0; 0x30] ++ replicate 256 0x77) uno_idle).2 = [Waited; Command 0x30].
Proof.
  split.
  - destruct (uno_command_frame COMMAND_SET_SP [1] uno_idle eq_refl eq_refl
      ltac:(simpl; lia) ltac:(split; [vm_compute; discriminate|reflexivity])) as (E & _). exact E.
  - destruct (uno_command_frame COMMAND_REBOOT (replicate 256 0x77) uno_idle eq_refl eq_refl
      ltac:(simpl; lia) ltac:(split; [vm_compute; discriminate|reflexivity])) as (E & _).
    refine (eq_trans E _). vm_compute. reflexivity.
Defined.
Lemma uno_poll_sends_witness :
  let s := (uno_poll uno_idle).2 in
  fifo_contents (Fifo := Lufa.LufaFifo 128) (outq s) = [0x78; 3; 6; 1; 0] /\
  readyForPacket s = false.
Proof.
  cbv zeta. destruct (uno_poll_sends uno_idle) as (_ & _ & E & Er & _).
  - split; [reflexivity|]. split; [reflexivity|]. exists 0%nat, 0%nat.
    repeat split; (lia || reflexivity).
  - vm_compute. lia.
  - split; [exact E|exact Er].
Defined.
(** Block 1, a whole one: the 28 bytes at 56 are what is forwarded. *)
Lemma uno_radio_config_frame_witness :
  host (uno_feed true ([0x7e; 29; 0x3d; 1] ++ replicate 28 5) uno_idle).2 =
    ((fun i => WroteConfig (28 + i) 5) <$> iota 28) ++ [Forwarded 0x3d 1 56; Command 0x3d].
Proof.
  destruct (uno_radio_config_frame 1 (replicate 28 5) uno_idle eq_refl
    ltac:(split; [lia|reflexivity]) ltac:(simpl; lia)) as (E & _).
  refine (eq_trans E _). vm_compute. reflexivity.
Defined.
