(* ===== verification/Link.v ===== *)
(** * The serial link as a whole

    The two processors of the Uno hand reports over with a ready flag: the main
    processor sends one and clears the flag ([UnoMain.uno_poll]); the USB
    processor, when it has passed the packet on and the endpoint is free again,
    answers FRAME_DONE, which sets the flag.  Here that is a transition system
    over the USB processor's own parser; the buffers are the queues that
    [RingBuffer.ring_buffers_refine_queue] shows them to be. *)

From Stdlib Require Import ZArith Lia Relations.
From stdpp Require Import base tactics numbers list relations.
From S2P Require Import Prelude Defs RingBuffer UnoUsb.
Open Scope Z_scope.

Section Link.
Context {W : Type} `{Endpoints W} (past : Z -> Z).
(** The reports the main processor may send; and a bound on their size. *)
Context (sendable : list Z -> Prop) (m : nat).

Record link : Type := mkLink {
  ready : bool;            (* [readyForPacket] *)
  pending : list Z;        (* bytes on their way to the USB processor *)
  usb : usb_state W;
  back : list Z            (* bytes on their way to the main processor *)
}.
Inductive link_step : link -> link -> Prop :=
  | Send r p u k : sendable r ->
      link_step (mkLink true p u k) (mkLink false (p ++ frame r) u k)
  | Receive f b p u k :
      link_step (mkLink f (b :: p) u k) (mkLink f p (usb_byte past b u).2 k)
  (* the idle round of [usb_loop], with the endpoint free *)
  | Done f u w k : checkEndpoint u = true ->
      link_step (mkLink f [] u k)
        (mkLink f [] (u <| checkEndpoint := false |> <| dev := w |>) (k ++ [FRAME_DONE]))
  (* [uno_byte] between frames *)
  | Ready f p u k : link_step (mkLink f p u (FRAME_DONE :: k)) (mkLink true p u k).
(** Both processors after start-up. *)
Definition link_start (u : usb_state W) : Prop := state u = 0 /\ checkEndpoint u = true.
Definition reachable (l : link) : Prop :=
  exists u, link_start u /\ rtc link_step (mkLink true [] u []) l.

(** ** Where the parser stands *)
(** [rest] is what the frame being parsed still needs. *)
Definition expects (u : usb_state W) (rest : list Z) : Prop :=
  (state u = 0 /\ rest = []) \/
  (state u = 1 /\ exists rid pl, rest = Z.of_nat (S (length pl)) :: rid :: pl /\
     (0 < length pl < m)%nat /\ 0 <= rid < 8) \/
  (state u = 2 /\ exists rid pl, rest = rid :: pl /\ packetCount u = Z.of_nat (S (length pl)) /\
     (0 < length pl < m)%nat /\ 0 <= rid < 8) \/
  (state u = 3 /\ rest <> [] /\ (length rest < m)%nat /\
     packetCount u = Z.of_nat (length rest) /\ currentEndpoint u <> 0).
Definition whole_report (r : list Z) : Prop :=
  exists rid pl, r = rid :: pl /\ (0 < length pl < m)%nat /\ 0 <= rid < 8.
Definition b2n (b : bool) : nat := if b then 1 else 0.
Definition busy (rest : list Z) : nat := if decide (rest = []) then 0 else 1.
(** Permissions to send: the flag, a report on its way, a check due, an answer
    on its way. *)
Definition link_inv (l : link) : Prop :=
  exists rest rs,
    pending l = rest ++ concat (frame <$> rs) /\ expects (usb l) rest /\
    Forall whole_report rs /\ Forall (eq FRAME_DONE) (back l) /\
    (1 <= b2n (ready l) + busy rest + length rs + b2n (checkEndpoint (usb l)) + length (back l)
       <= 2)%nat.
End Link.
Arguments link : clear implicits.

Section Safe.
Context {W : Type} `{Endpoints W} (past : Z -> Z) (m : nat) (Hm : (m <= 255)%nat).
Implicit Types (l : link W) (u : usb_state W).
Abbreviation step := (link_step (H := H) past (whole_report m)).

Lemma endpoint_nonzero rid : 0 <= rid < 8 -> endpoint_of past rid <> 0.
Proof.
  intros Hr. unfold endpoint_of. rewrite (proj2 (Z.ltb_lt rid 9)) by lia.
  by zcases rid 0 8.
Qed.
Lemma link_inv_start u : link_start u -> link_inv m (mkLink true [] u []).
Proof.
  intros [Hs Hc]. exists [], []. cbn. rewrite Hc. repeat split; try done; try lia. by left.
Qed.
Lemma busy_cons (b : Z) (p : list Z) : busy (b :: p) = 1%nat.
Proof. done. Qed.
Ltac link_lia :=
  change (busy []) with 0%nat in *; rewrite ?busy_cons in *; cbn [length b2n] in *; lia.
(** A byte of the frame being parsed. *)
Lemma expects_step u b rest :
  expects m u (b :: rest) ->
  let u' := (usb_byte past b u).2 in
  expects m u' rest /\
  (busy rest + b2n (checkEndpoint u') = busy (b :: rest) + b2n (checkEndpoint u) \/
   (rest = [] /\ checkEndpoint u' = true))%nat.
Proof.
  intros [[_ ?]|[(Hs & rid & pl & E & Hl & Hr)|[(Hs & rid & pl & E & Hp & Hl & Hr)|
    (Hs & _ & Hl & Hp & He)]]]; [done| | |]; cbv zeta.
  - simplify_eq. rewrite usb_byte_length by done. cbn [snd]. split; [|by left].
    right; right; left. split; [done|]. by exists rid, pl.
  - simplify_eq. rewrite usb_byte_rid by done. cbn [snd]. split.
    + right; right; right. split; [done|]. split; [by destruct pl; [cbn in Hl; lia|]|].
      split; [lia|]. split; [|by apply endpoint_nonzero].
      unfold run_dev. cbn [packetCount upd setter_of]. rewrite Hp, uwrap_small by (unfold in_u; lia). lia.
    + left. destruct pl; [cbn in Hl; lia|]. by rewrite !busy_cons.
  - rewrite usb_byte_payload by done. cbv zeta. unfold run_dev at 1 2 3.
    cbn [packetCount upd setter_of]. rewrite Hp. cbn [length] in *.
    rewrite uwrap_small by (unfold in_u; lia).
    destruct (Z.eqb_spec (Z.of_nat (S (length rest)) - 1) 0) as [E|E].
    + assert (rest = []) as -> by (destruct rest; [done|simpl in E; lia]). cbn [snd]. split; [by left|].
      right. split; [done|]. cbn. by rewrite (proj2 (Z.eqb_neq _ _) He).
    + cbn [snd]. assert (rest <> []) as Hne by (intros ->; simpl in E; lia). split.
      * right; right; right. unfold run_dev. cbn. repeat split; [exact Hs|exact Hne|lia|lia|exact He].
      * left. rewrite busy_cons. unfold run_dev, busy. cbn.
        rewrite decide_False, (proj2 (Z.eqb_neq _ _) E) by done. reflexivity.
Qed.
Lemma expects_frame u rid pl :
  expects m u [] -> (0 < length pl < m)%nat -> 0 <= rid < 8 ->
  let u' := (usb_byte past FRAME_START_WRITE u).2 in
  expects m u' (Z.of_nat (S (length pl)) :: rid :: pl) /\ checkEndpoint u' = checkEndpoint u.
Proof.
  intros [[Hs _]|[(_ & ? & ? & ? & _)|[(_ & ? & ? & ? & _)|(_ & ? & _)]]] Hl Hr; try done.
  cbv zeta. rewrite usb_byte_start by done. cbn [snd]. split; [|done].
  right; left. split; [done|]. by exists rid, pl.
Qed.
Lemma link_inv_step l l' : link_inv m l -> step l l' -> link_inv m l'.
Proof.
  intros (rest & rs & Ep & Hx & Hf & Hb & Ht) Hstep.
  destruct Hstep as [r p u k Hr|f b p u k|f u w k Hc|f p u k]; cbn [ready pending usb back] in *.
  - exists rest, (rs ++ [r]). rewrite fmap_app, concat_app, app_assoc, <- Ep. cbn [fmap list_fmap concat].
    rewrite app_nil_r. split; [done|]. split; [done|].
    split; [by apply Forall_app_2; [|constructor]|]. split; [done|].
    cbn [ready pending usb back b2n] in *. rewrite length_app. cbn [length]. lia.
  - destruct rest as [|b' rest].
    + destruct rs as [|r rs]; [done|]. apply Forall_cons in Hf as [(rid & pl & -> & Hl & Hr) Hf].
      cbn [app fmap list_fmap concat frame] in Ep. simplify_eq.
      destruct (expects_frame u rid pl Hx Hl Hr) as [Hx' Ec].
      exists (Z.of_nat (S (length pl)) :: rid :: pl), rs. cbn [ready pending usb back].
      split; [done|]. split; [done|]. split; [done|]. split; [done|].
      rewrite Ec. link_lia.
    + cbn [app] in Ep. simplify_eq. destruct (expects_step u b' rest Hx) as [Hx' Hc].
      exists rest, rs. cbn [ready pending usb back]. split; [done|]. split; [done|].
      split; [done|]. split; [done|].
      destruct Hc as [Hc|[-> Hc]]; [link_lia|]. rewrite Hc. link_lia.
  - exists [], rs. destruct rest; [|done]. destruct rs as [|r rs]; [|by destruct r].
    cbn [ready pending usb back]. split; [done|]. split.
    { destruct Hx as [[Hs _]|[(_ & ? & ? & ? & _)|[(_ & ? & ? & ? & _)|(_ & ? & _)]]]; try done.
      left. by destruct u. }
    split; [done|]. split; [by apply Forall_app_2; [|constructor]|].
    rewrite Hc in Ht. rewrite length_app. cbn [checkEndpoint upd setter_of]. link_lia.
  - exists rest, rs. apply Forall_cons in Hb as [_ Hb]. cbn [ready pending usb back].
    split; [done|]. split; [done|]. split; [done|]. split; [done|]. destruct f; link_lia.
Qed.
Lemma reachable_inv l : reachable past (whole_report m) l -> link_inv m l.
Proof.
  intros (u & Hu & Hr). apply link_inv_start in Hu. revert Hu.
  induction Hr as [|l1 l2 l3 Hs _ IH]; [done|]. intros Hi. by eapply IH, link_inv_step.
Qed.

End Safe.

(** With empty MIDI reports among those sent, the link can wedge for good: the
    flag clear, nothing on the way, no check due, and whatever reports are sent
    later, no step can ever happen. *)
Theorem empty_report_wedges {W} `{Endpoints W} past (u : usb_state W) :
  link_start u ->
  exists l, reachable past (eq [HID_Report_val REPORT_ID_MIDI]) l /\ ready l = false /\
    forall sendable l', ~ link_step past sendable l l'.
Proof.
  intros [Hs Hc]. set (u1 := u <| checkEndpoint := false |> <| dev := dev u |>).
  set (u2 := (feed past (frame [7]) u1).2).
  exists (mkLink false [] u2 []). split; [|split; [done|]].
  - exists u. split; [done|].
    eapply rtc_l; [by apply (Done _ _ _ _ (dev u))|]. eapply rtc_l; [apply Ready|].
    eapply rtc_l; [by apply (Send _ _ [7])|].
    do 3 (eapply rtc_l; [apply Receive|]). unfold u2, frame. rewrite !feed_cons. apply rtc_refl.
  - assert (checkEndpoint u2 = false) as Eu.
    { unfold u2, frame. rewrite feed_header by exact Hs. done. }
    intros sendable l' Hl. inversion Hl; subst. congruence.
Qed.

(** An XInput report has been sent and its first byte received. *)
Definition usb_fresh : usb_state (list ep_event) := usb_idle <| checkEndpoint := true |>.
Definition xinput_report : list Z := 0 :: 20 :: replicate 18 0.
Definition mid_frame : link (list ep_event) :=
  mkLink false (20 :: xinput_report) (usb_fresh <| state := 1 |>) [].
Lemma mid_frame_reachable : reachable (fun _ => 0) (whole_report 20) mid_frame.
Proof.
  exists usb_fresh. split; [done|].
  eapply rtc_l; [apply (Send _ _ xinput_report)|].
  - exists 0, (20 :: replicate 18 0). split; [reflexivity|]. simpl. lia.
  - eapply rtc_l; [apply Receive|]. apply rtc_refl.
Qed.
Lemma empty_report_wedges_witness :
  exists l, reachable (fun _ => 0) (eq [7]) l /\ ready l = false /\
    forall sendable l', ~ link_step (W := list ep_event) (fun _ => 0) sendable l l'.
Proof. apply (empty_report_wedges (fun _ => 0) usb_fresh). split; reflexivity. Defined.
