(* ===== verification/Nrf24.v ===== *)
(** * The radio driver: [lib/avr-nrf24l01/src/nrf24l01.c]

    The driver talks to an nRF24L01 over the SPI bus of [World.v] and two pins.
    What the chip does with the bytes of a transaction is its data sheet's, and
    here a class of laws ([ChipOk]) over an abstract view of its registers. *)

From Stdlib Require Import ZArith Lia.
From stdpp Require Import base tactics numbers list gmap.
From S2P Require Import Prelude World.
Open Scope Z_scope.

(** ** nrf24l01-mnemonics.h *)
Definition CONFIG : Z := 0x00.
Definition EN_AA : Z := 0x01.
Definition EN_RXADDR : Z := 0x02.
Definition SETUP_AW : Z := 0x03.
Definition SETUP_RETR : Z := 0x04.
Definition RF_CH : Z := 0x05.
Definition RF_SETUP : Z := 0x06.
Definition STATUS : Z := 0x07.
Definition OBSERVE_TX : Z := 0x08.
Definition RX_ADDR_P0 : Z := 0x0A.
Definition RX_ADDR_P1 : Z := 0x0B.
Definition TX_ADDR : Z := 0x10.
Definition FIFO_STATUS : Z := 0x17.
Definition DYNPD : Z := 0x1C.
Definition FEATURE : Z := 0x1D.
Definition MASK_RX_DR : Z := 6.
Definition MASK_TX_DS : Z := 5.
Definition MASK_MAX_RT : Z := 4.
Definition EN_CRC : Z := 3.
Definition CRCO : Z := 2.
Definition PWR_UP : Z := 1.
Definition PRIM_RX : Z := 0.
Definition ARD : Z := 4.
Definition ARC : Z := 0.
Definition RX_DR : Z := 6.
Definition TX_DS : Z := 5.
Definition MAX_RT : Z := 4.
Definition TX_FULL : Z := 0.
Definition TX_EMPTY : Z := 4.
Definition RX_EMPTY : Z := 0.
Definition EN_DPL : Z := 2.
Definition EN_ACK_PAY : Z := 1.
Definition R_REGISTER : Z := 0x00.
Definition W_REGISTER : Z := 0x20.
Definition REGISTER_MASK : Z := 0x1F.
Definition R_RX_PAYLOAD : Z := 0x61.
Definition W_TX_PAYLOAD : Z := 0xA0.
Definition W_ACK_PAYLOAD : Z := 0xA8.
Definition FLUSH_TX : Z := 0xE1.
Definition FLUSH_RX : Z := 0xE2.
Definition ACTIVATE : Z := 0x50.
Definition R_RX_PL_WID : Z := 0x60.
Definition NOP : Z := 0xFF.
Definition RF_DR_LOW : Z := 5.
Definition RF_DR_HIGH : Z := 3.
Definition RF_PWR_LOW : Z := 1.
Definition RF_PWR_HIGH : Z := 2.
Inductive dataRate_t : Set := RF_1MBPS | RF_2MBPS | RF_250KBPS.
Inductive crclen_t : Set := RF_CRC_DISABLED | RF_CRC_8 | RF_CRC_16.
Inductive pa_t : Set := RF_PA_MAX | RF_PA_HIGH | RF_PA_LOW | RF_PA_MIN | RF_PA_ERROR.
Definition NRF24_TRANSMISSON_OK : Z := 0.
Definition NRF24_MESSAGE_LOST : Z := 1.

(** The two pins, driven by [rf.c]. *)
Class RadioPins (W : Type) := {
  nrf24_ce_digitalWrite : bool -> M W unit;
  nrf24_csn_digitalWrite : bool -> M W unit
}.

(** ** The driver *)
Section Driver.
Context {W : Type} `{SPIBus W, RadioPins W, Delay W}.
(** [F_CPU], and the bytes of an uninitialised local. *)
Context (F_CPU : Z) (junk : Z).

Record nrf : Type := mkNrf { is_tx : bool; p_type : bool; wide_band : bool; radio : W }.
#[global] Instance etaNrf : Settable nrf := fun r =>
  {| is_tx := is_tx r; p_type := p_type r; wide_band := wide_band r; radio := radio r |}.
Definition on_radio {A} (m : M W A) : M nrf A :=
  fun s => let '(a, w) := m (radio s) in (a, s <| radio := w |>).
Definition csn (level : bool) : M nrf unit := on_radio (nrf24_csn_digitalWrite level).
Definition ce (level : bool) : M nrf unit := on_radio (nrf24_ce_digitalWrite level).
Definition xfer (b : Z) : M nrf Z := on_radio (spi_transfer b).
Definition put (b : Z) : M nrf unit := xfer b ;; mret tt.

(** *** Transactions *)
(** The bytes answered to those sent. *)
Fixpoint nrf24_transferSync (dataout : list Z) : M nrf (list Z) :=
  match dataout with
  | [] => mret []
  | b :: l => r ← xfer b; rs ← nrf24_transferSync l; mret (r :: rs)
  end.
Definition nrf24_transmitSync (dataout : list Z) : M nrf unit := mfor dataout put.
Definition nrf24_configRegister (reg value : Z) : M nrf unit :=
  csn false ;; put (Z.lor W_REGISTER (Z.land REGISTER_MASK reg)) ;; put value ;; csn true.
(** [value] holds what the buffer had before. *)
Definition nrf24_readRegister (reg : Z) (value : list Z) : M nrf (list Z) :=
  csn false ;;
  put (Z.lor R_REGISTER (Z.land REGISTER_MASK reg)) ;;
  r ← nrf24_transferSync value;
  csn true ;; mret r.
Definition read1 (reg value : Z) : M nrf Z :=
  l ← nrf24_readRegister reg [value]; mret (aget 0 l 0).
Definition nrf24_readRegister1 (reg : Z) : M nrf Z := read1 reg junk.
Definition nrf24_writeRegister (reg : Z) (value : list Z) : M nrf unit :=
  csn false ;; put (Z.lor W_REGISTER (Z.land REGISTER_MASK reg)) ;;
  nrf24_transmitSync value ;; csn true.
Definition nrf24_writeAckPayload (buf : list Z) : M nrf unit :=
  csn false ;; put (Z.lor W_ACK_PAYLOAD 1) ;; nrf24_transmitSync buf ;; csn true.
Definition nrf24_flush_tx : M nrf unit := csn false ;; put FLUSH_TX ;; csn true.
Definition nrf24_flush_rx : M nrf unit := csn false ;; put FLUSH_RX ;; csn true.
Definition nrf24_toggle_features : M nrf unit :=
  csn false ;; put ACTIVATE ;; put 0x73 ;; csn true.
Definition nrf24_getStatus : M nrf Z := csn false ;; rv ← xfer NOP; csn true ;; mret rv.
Definition nrf24_payloadLength : M nrf Z :=
  csn false ;; put R_RX_PL_WID ;; status ← xfer 0; csn true ;; mret status.

(** *** Configuration *)
Definition nrf24_init : M nrf unit :=
  on_radio (spi_begin F_CPU false false false) ;; ce false ;; csn true ;; on_radio (delay_ms 5).
Definition nrf24_set_pa (pa : pa_t) : M nrf unit :=
  val ← read1 RF_SETUP junk;
  let val := Z.ldiff val (Z.lor (BV RF_PWR_LOW) (BV RF_PWR_HIGH)) in
  nrf24_configRegister RF_SETUP
    match pa with
    | RF_PA_MAX => Z.lor val (Z.lor (BV RF_PWR_LOW) (BV RF_PWR_HIGH))
    | RF_PA_HIGH => Z.lor val (BV RF_PWR_HIGH)
    | RF_PA_LOW => Z.lor val (BV RF_PWR_LOW)
    | RF_PA_MIN | RF_PA_ERROR => val
    end.
(** The numbers of the rate bits are or'd in, not their masks. *)
Definition nrf24_setDataRate (rate : dataRate_t) : M nrf bool :=
  val ← read1 RF_SETUP junk;
  let val := Z.ldiff val (Z.lor (BV RF_DR_LOW) (BV RF_DR_HIGH)) in
  let val := match rate with
             | RF_250KBPS => Z.lor val RF_DR_LOW
             | RF_2MBPS => Z.lor val RF_DR_HIGH
             | RF_1MBPS => val
             end in
  mmod (fun s => s <| wide_band := match rate with RF_2MBPS => true | _ => false end |>) ;;
  nrf24_configRegister RF_SETUP val ;;
  val2 ← read1 RF_SETUP junk;
  if val2 =? val then mret true
  else mmod (fun s => s <| wide_band := false |>) ;; mret false.
Definition nrf24_setCRCLen (length : crclen_t) : M nrf unit :=
  config_reg ← read1 CONFIG junk;
  let config_reg := Z.ldiff config_reg (Z.lor (BV CRCO) (BV EN_CRC)) in
  nrf24_configRegister CONFIG
    match length with
    | RF_CRC_DISABLED => config_reg
    | RF_CRC_8 => Z.lor config_reg (BV EN_CRC)
    | RF_CRC_16 => Z.lor (Z.lor config_reg (BV EN_CRC)) (BV CRCO)
    end.
(** Pipes 0 to [n - 1] of a per-pipe register. *)
Definition pipes (n : nat) : Z := foldr (fun i v => Z.lor (BV i) v) 0 (iota n).
Definition nrf24_enable_ack_payload : M nrf unit :=
  f ← nrf24_readRegister1 FEATURE; nrf24_configRegister FEATURE (Z.lor f (BV EN_DPL)) ;;
  d ← nrf24_readRegister1 DYNPD; nrf24_configRegister DYNPD (Z.lor d (pipes 6)) ;;
  f ← nrf24_readRegister1 FEATURE;
  nrf24_configRegister FEATURE (Z.lor f (Z.lor (BV EN_ACK_PAY) (BV EN_DPL))) ;;
  d ← nrf24_readRegister1 DYNPD; nrf24_configRegister DYNPD (Z.lor d (pipes 2)).
Definition IRQ_FLAGS : Z := Z.lor (BV RX_DR) (Z.lor (BV TX_DS) (BV MAX_RT)).
Definition MODE_MASK : Z :=
  Z.lor (BV PRIM_RX) (Z.lor (BV PWR_UP) (Z.lor (BV MASK_RX_DR)
    (Z.lor (BV MASK_TX_DS) (BV MASK_MAX_RT)))).
Definition nrf24_powerUpRx : M nrf unit :=
  nrf24_configRegister STATUS IRQ_FLAGS ;;
  config_reg ← read1 CONFIG 0;
  ce false ;;
  nrf24_configRegister CONFIG
    (Z.lor (Z.ldiff config_reg MODE_MASK) (Z.lor (BV PWR_UP) (BV PRIM_RX))) ;;
  ce true.
Definition nrf24_powerUpTx : M nrf unit :=
  config_reg ← read1 CONFIG 0;
  ce false ;;
  nrf24_configRegister CONFIG (Z.lor (Z.ldiff config_reg MODE_MASK) (BV PWR_UP)) ;;
  ce true.
Definition nrf24_powerDown : M nrf unit :=
  ce false ;;
  config_reg ← read1 CONFIG 0;
  nrf24_configRegister CONFIG (bit_clear config_reg PWR_UP).
Definition nrf24_config (channel : Z) (tx : bool) : M nrf unit :=
  mmod (fun s => s <| is_tx := tx |>) ;;
  nrf24_configRegister SETUP_RETR (Z.lor (Z.shiftl 0x0F ARD) (Z.shiftl 0x01 ARC)) ;;
  nrf24_configRegister SETUP_AW 2 ;;
  nrf24_set_pa RF_PA_MIN ;;
  before_toggle ← nrf24_readRegister1 FEATURE;
  nrf24_toggle_features ;;
  after_toggle ← nrf24_readRegister1 FEATURE;
  mmod (fun s => s <| p_type := before_toggle =? after_toggle |>) ;;
  mwhen (negb (after_toggle =? 0))
    (mwhen (before_toggle =? after_toggle) nrf24_toggle_features ;;
     nrf24_configRegister FEATURE 0) ;;
  nrf24_setDataRate RF_2MBPS ;;
  nrf24_setCRCLen RF_CRC_16 ;;
  nrf24_configRegister RF_CH channel ;;
  nrf24_enable_ack_payload ;;
  nrf24_configRegister EN_AA (pipes 6) ;;
  nrf24_configRegister STATUS IRQ_FLAGS ;;
  nrf24_flush_rx ;;
  nrf24_flush_tx ;;
  if tx then nrf24_powerUpTx else nrf24_powerUpRx.
Definition nrf24_rx_address (adr : list Z) : M nrf unit :=
  ce false ;;
  nrf24_writeRegister RX_ADDR_P1 adr ;;
  nrf24_configRegister EN_RXADDR (pipes 2) ;;
  ce true.
Definition nrf24_tx_address (adr : list Z) : M nrf unit :=
  nrf24_writeRegister RX_ADDR_P0 adr ;; nrf24_writeRegister TX_ADDR adr.

(** *** Status and data *)
Definition nrf24_rxFifoEmpty : M nrf bool :=
  v ← read1 FIFO_STATUS junk; mret (bit_check v RX_EMPTY).
Definition nrf24_txFifoEmpty : M nrf bool :=
  v ← read1 FIFO_STATUS junk; mret (bit_check v TX_EMPTY).
Definition nrf24_txFifoFull : M nrf bool := v ← nrf24_getStatus; mret (bit_check v TX_FULL).
Definition nrf24_dataReady : M nrf bool :=
  status ← nrf24_getStatus;
  if bit_check status RX_DR then mret true
  else empty ← nrf24_rxFifoEmpty; mret (negb empty).
(** The payload; [data] is the memory the answer is stored over. *)
Definition nrf24_getData (data : Z -> Z) (len : Z) : M nrf (list Z) :=
  nrf24_configRegister STATUS (BV RX_DR) ;;
  len ← (if len =? 0 then nrf24_payloadLength else mret len);
  csn false ;; put R_RX_PAYLOAD ;;
  r ← nrf24_transferSync (data <$> iota (Z.to_nat len));
  csn true ;; mret r.
Definition nrf24_retransmissionCount : M nrf Z :=
  rv ← read1 OBSERVE_TX junk; mret (Z.land rv 0x0F).
Definition nrf24_send (value : list Z) : M nrf unit :=
  nrf24_configRegister STATUS (Z.lor (BV TX_DS) (BV MAX_RT)) ;;
  csn false ;; put W_TX_PAYLOAD ;; nrf24_transmitSync value ;; csn true.
Definition nrf24_isSending : M nrf bool :=
  status ← nrf24_getStatus;
  mret (Z.land status (Z.lor (BV TX_DS) (BV MAX_RT)) =? 0).
Definition nrf24_lastMessageStatus : M nrf Z :=
  rv ← nrf24_getStatus;
  mret (if bit_check rv TX_DS then NRF24_TRANSMISSON_OK
        else if bit_check rv MAX_RT then NRF24_MESSAGE_LOST else 0xFF).
End Driver.
Arguments nrf : clear implicits.

(** ** The chip's side of a transaction *)
(** The configuration registers, and whether FEATURE and DYNPD are accessible. *)
Record chip : Type := mkChip { regs : Z -> list Z; unlocked : bool }.
Definition config_regs : list Z :=
  [CONFIG; EN_AA; EN_RXADDR; SETUP_AW; SETUP_RETR; RF_CH; RF_SETUP; RX_ADDR_P0; RX_ADDR_P1;
   TX_ADDR; DYNPD; FEATURE].
Definition is_config (r : Z) : bool := bool_decide (r ∈ config_regs).
Definition accessible (c : chip) (r : Z) : bool :=
  unlocked c || negb ((r =? DYNPD) || (r =? FEATURE)).
Definition peek (c : chip) (r : Z) : list Z := if accessible c r then regs c r else [0].
Definition poke (r : Z) (v : list Z) (c : chip) : chip :=
  if is_config r && accessible c r
  then mkChip (fun r' => if r' =? r then v else regs c r') (unlocked c) else c.
(** [plus]: the chip has no ACTIVATE command. *)
Definition activate (plus : bool) (c : chip) : chip :=
  if plus then c else mkChip (regs c) (negb (unlocked c)).
Definition commit (plus : bool) (l : list Z) (c : chip) : chip :=
  match l with
  | cmd :: data =>
      if (W_REGISTER <=? cmd) && (cmd <? W_REGISTER + 32) then poke (cmd - W_REGISTER) data c
      else if bool_decide (l = [ACTIVATE; 0x73]) then activate plus c
      else c
  | [] => c
  end.
(** The view of the registers, and the bytes received since CSN fell. *)
Class ChipOk (W : Type) `{SPIBus W, RadioPins W, Delay W} (plus : bool)
    (view : W -> chip) (sent : W -> option (list Z)) : Prop := {
  begin_keeps f c l d w :
    view (spi_begin f c l d w).2 = view w /\ sent (spi_begin f c l d w).2 = sent w;
  delay_keeps n w : view (delay_us n w).2 = view w /\ sent (delay_us n w).2 = sent w;
  ce_keeps b w :
    view (nrf24_ce_digitalWrite b w).2 = view w /\ sent (nrf24_ce_digitalWrite b w).2 = sent w;
  csn_falls w :
    view (nrf24_csn_digitalWrite false w).2 = view w /\
    sent (nrf24_csn_digitalWrite false w).2 = Some [];
  csn_rises w :
    view (nrf24_csn_digitalWrite true w).2 =
      match sent w with Some l => commit plus l (view w) | None => view w end /\
    sent (nrf24_csn_digitalWrite true w).2 = None;
  transfers b w l : sent w = Some l ->
    view (spi_transfer b w).2 = view w /\ sent (spi_transfer b w).2 = Some (l ++ [b]);
  answers b w cmd l : sent w = Some (cmd :: l) -> is_config cmd = true ->
    (spi_transfer b w).1 = nth (length l) (peek (view w) cmd) 0
}.

(** ** The driver as operations on registers *)
Section Refine.
Context {W : Type} `{SPIBus W, RadioPins W, Delay W} (F_CPU junk : Z).
Context (plus : bool) (view : W -> chip) (sent : W -> option (list Z)) `{!ChipOk W plus view sent}.
Implicit Types (s : nrf W) (c : chip).

Definition vw s : chip := view (radio s).
Definition idle s : Prop := sent (radio s) = None.
(** [m] is [m'] on the registers, between transactions. *)
Definition sim {A} (m : M (nrf W) A) (m' : M chip A) : Prop :=
  forall s, idle s -> (m s).1 = (m' (vw s)).1 /\ vw (m s).2 = (m' (vw s)).2 /\ idle (m s).2.
Lemma sim_ret {A} (a : A) : sim (mret a) (mret a).
Proof. by intros s Hs. Qed.
Lemma sim_bind {A B} (m : M (nrf W) A) m' (k : A -> M (nrf W) B) k' :
  sim m m' -> (forall a, sim (k a) (k' a)) -> sim (m ≫= k) (m' ≫= k').
Proof.
  intros Hm Hk s Hs. destruct (Hm s Hs) as (E1 & E2 & Hi).
  rewrite !mbind_run, E1. rewrite <- E2. by apply Hk.
Qed.
Lemma sim_mod (f : nrf W -> nrf W) :
  (forall s, radio (f s) = radio s) -> sim (mmod f) (mret tt).
Proof. intros Hf s Hs. unfold idle, vw. cbn. by rewrite Hf. Qed.
Lemma sim_when b (m : M (nrf W) unit) m' : sim m m' -> sim (mwhen b m) (mwhen b m').
Proof. by destruct b; [|intros _; apply sim_ret]. Qed.
Lemma sim_if {A} (b : bool) (m1 m2 : M (nrf W) A) m1' m2' :
  sim m1 m1' -> sim m2 m2' -> sim (if b then m1 else m2) (if b then m1' else m2').
Proof. by destruct b. Qed.
(** Reading more of the driver's own state than of the chip changes nothing. *)
Lemma sim_then {A} (m : M (nrf W) unit) (k : M (nrf W) A) k' :
  sim m (mret tt) -> sim k k' -> sim (m ;; k) k'.
Proof.
  intros Hm Hk s Hs. destruct (Hm s Hs) as (_ & E & Hi). rewrite mbind_run.
  destruct (Hk _ Hi) as (E1 & E2 & ?). by rewrite E1, E2, E.
Qed.

(** Inside a transaction: [l] has been sent, [c] is the chip. *)
Definition open_at (l : list Z) c s : Prop := sent (radio s) = Some l /\ vw s = c.
Lemma csn_opens s : idle s -> open_at [] (vw s) (csn false s).2.
Proof.
  intros Hs. unfold csn, on_radio, open_at, vw. pose proof (csn_falls (radio s)) as [E1 E2].
  destruct (nrf24_csn_digitalWrite false (radio s)). cbn in *. by rewrite E1, E2.
Qed.
Lemma csn_closes l c s :
  open_at l c s -> vw (csn true s).2 = commit plus l c /\ idle (csn true s).2.
Proof.
  intros [E E']. unfold csn, on_radio, idle, vw in *. pose proof (csn_rises (radio s)) as [E1 E2].
  destruct (nrf24_csn_digitalWrite true (radio s)). cbn in *. by rewrite E1, E2, E, E'.
Qed.
Lemma xfer_open b l c s : open_at l c s -> open_at (l ++ [b]) c (xfer b s).2.
Proof.
  intros [E E']. unfold xfer, on_radio, open_at, vw in *.
  pose proof (transfers b (radio s) l E) as [E1 E2].
  destruct (spi_transfer b (radio s)). cbn in *. by rewrite E1, E2.
Qed.
Lemma put_open b l c s : open_at l c s -> open_at (l ++ [b]) c (put b s).2.
Proof. intros Ho. unfold put. rewrite mbind_run. by apply xfer_open. Qed.
Lemma xfer_answer b cmd l c s :
  open_at (cmd :: l) c s -> is_config cmd = true -> (xfer b s).1 = nth (length l) (peek c cmd) 0.
Proof.
  intros [E E'] Hc. unfold xfer, on_radio, vw in *.
  pose proof (answers b (radio s) cmd l E Hc) as E1.
  destruct (spi_transfer b (radio s)). cbn in *. by rewrite E1, E'.
Qed.
Lemma transmit_open data l c s :
  open_at l c s -> open_at (l ++ data) c (nrf24_transmitSync data s).2.
Proof.
  revert l s. induction data as [|b data IH]; intros l s Ho.
  - by rewrite app_nil_r.
  - unfold nrf24_transmitSync. cbn [mfor]. rewrite mbind_run.
    change (b :: data) with ([b] ++ data). rewrite app_assoc. by apply IH, put_open.
Qed.
(** A transaction that only sends is its effect on the registers. *)
Lemma write_sim l :
  sim (csn false ;; nrf24_transmitSync l ;; csn true) (mmod (commit plus l)).
Proof.
  intros s Hs. rewrite !mbind_run.
  pose proof (transmit_open l [] _ _ (csn_opens s Hs)) as Ho.
  destruct (csn_closes _ _ _ Ho) as [E Hi].
  split; [|by split]. by destruct (csn true _).1.
Qed.
Lemma writeRegister_sim r v :
  0 <= r < 32 -> sim (nrf24_writeRegister r v) (mmod (poke r v)).
Proof.
  intros Hr s Hs. destruct (write_sim (W_REGISTER + r :: v) s Hs) as (E1 & E2 & Hi).
  assert (Z.lor W_REGISTER (Z.land REGISTER_MASK r) = W_REGISTER + r) as E by (by zcases r 0 32).
  unfold nrf24_writeRegister. rewrite E. clear E.
  unfold nrf24_transmitSync in *. cbn [mfor] in *. rewrite !mbind_run in *.
  split; [exact E1|]. split; [|exact Hi]. rewrite E2. cbn [mmod snd]. unfold commit.
  rewrite (proj2 (Z.leb_le _ _)), (proj2 (Z.ltb_lt _ _)) by lia. cbn [andb]. f_equal. lia.
Qed.
Lemma configRegister_sim r v :
  0 <= r < 32 -> sim (nrf24_configRegister r v) (mmod (poke r [v])).
Proof.
  intros Hr s Hs. pose proof (writeRegister_sim r [v] Hr s Hs) as Hw.
  unfold nrf24_configRegister. unfold nrf24_writeRegister, nrf24_transmitSync in Hw.
  cbn [mfor] in Hw. rewrite !mbind_run in *. exact Hw.
Qed.
Lemma read1_sim r v :
  is_config r = true -> sim (read1 r v) (mread (fun c => nth 0 (peek c r) 0)).
Proof.
  intros Hr s Hs. unfold read1, nrf24_readRegister. rewrite !mbind_run.
  assert (Z.lor R_REGISTER (Z.land REGISTER_MASK r) = r) as ->.
  { unfold is_config in Hr. apply bool_decide_eq_true in Hr. unfold config_regs in Hr.
    repeat (apply elem_of_cons in Hr as [->|Hr]; [reflexivity|]). by apply not_elem_of_nil in Hr. }
  pose proof (put_open r [] _ _ (csn_opens s Hs)) as Ho. cbn [app] in Ho.
  cbn [nrf24_transferSync]. rewrite !mbind_run. cbn [mret M_ret fst snd aget].
  destruct (csn_closes _ _ _ (xfer_open v _ _ _ Ho)) as [E Hi]. split; [|split; [|exact Hi]].
  - exact (xfer_answer v r [] _ _ Ho Hr).
  - rewrite E. cbn [commit app]. unfold is_config in Hr. apply bool_decide_eq_true in Hr.
    unfold config_regs in Hr.
    repeat (apply elem_of_cons in Hr as [->|Hr]; [reflexivity|]). by apply not_elem_of_nil in Hr.
Qed.
Lemma readRegister1_sim r :
  is_config r = true ->
  sim (nrf24_readRegister1 junk r) (mread (fun c => nth 0 (peek c r) 0)).
Proof. apply read1_sim. Qed.
Lemma ce_sim b : sim (ce b) (mret tt).
Proof.
  intros s Hs. unfold ce, on_radio, vw, idle in *. pose proof (ce_keeps b (radio s)) as [E1 E2].
  destruct (nrf24_ce_digitalWrite b (radio s)) as [[] w]. cbn in *. by rewrite E1, E2.
Qed.
Lemma command_sim l (m : M (nrf W) unit) :
  (forall s, m s = (csn false ;; nrf24_transmitSync l ;; csn true) s) ->
  sim m (mmod (commit plus l)).
Proof. intros E s. rewrite E. apply write_sim. Qed.
Lemma toggle_sim : sim nrf24_toggle_features (mmod (activate plus)).
Proof.
  apply (command_sim [ACTIVATE; 0x73]). intros s. unfold nrf24_toggle_features, nrf24_transmitSync.
  cbn [mfor]. by rewrite !mbind_run.
Qed.
Lemma flush_rx_sim : sim nrf24_flush_rx (mret tt).
Proof.
  apply (command_sim [FLUSH_RX]). intros s. unfold nrf24_flush_rx, nrf24_transmitSync.
  cbn [mfor]. by rewrite !mbind_run.
Qed.
Lemma flush_tx_sim : sim nrf24_flush_tx (mret tt).
Proof.
  apply (command_sim [FLUSH_TX]). intros s. unfold nrf24_flush_tx, nrf24_transmitSync.
  cbn [mfor]. by rewrite !mbind_run.
Qed.
Lemma init_sim : sim (nrf24_init F_CPU) (mret tt).
Proof.
  intros s Hs. unfold nrf24_init. rewrite !mbind_run.
  unfold csn, ce, on_radio, vw, idle in *.
  pose proof (begin_keeps F_CPU false false false (radio s)) as [V1 S1].
  destruct (spi_begin _ _ _ _ (radio s)) as [[] w1]. cbn in *.
  pose proof (ce_keeps false w1) as [V2 S2].
  destruct (nrf24_ce_digitalWrite false w1) as [[] w2]. cbn in *.
  pose proof (csn_rises w2) as [V3 S3]. rewrite S2, S1, Hs in V3.
  destruct (nrf24_csn_digitalWrite true w2) as [[] w3]. cbn in *.
  pose proof (delay_keeps 5000 w3) as [V4 S4]. unfold delay_ms.
  change (1000 * 5) with 5000. destruct (delay_us 5000 w3) as [[] w4]. cbn in *.
  rewrite V4, V3, V2, V1, S4, S3. done.
Qed.
End Refine.

(** ** Configuration on the registers *)
Section Program.
Context (plus : bool).
Definition peek1 (r : Z) (c : chip) : Z := nth 0 (peek c r) 0.
Definition update (r : Z) (f : Z -> Z) (c : chip) : chip := poke r [f (peek1 r c)] c.
(** The radio is ready when its feature registers can be written: a chip with
    the ACTIVATE command has just been powered on. *)
Definition powered_on (c : chip) : Prop :=
  if plus then unlocked c = true else unlocked c = false /\ regs c FEATURE = [0].
(** The reserved bits read as zero. *)
Definition in_reset (c : chip) : Prop :=
  exists g p d f, regs c CONFIG = [g] /\ in_u 7 g /\ regs c RF_SETUP = [p] /\ byte p /\
    regs c DYNPD = [d] /\ in_u 6 d /\ regs c FEATURE = [f].
Definition register_values (channel : Z) (tx : bool) (c : chip) : Prop :=
  unlocked c = true /\ regs c CONFIG = [if tx then 0x0E else 0x0F] /\ regs c EN_AA = [0x3F] /\
  regs c SETUP_AW = [2] /\ regs c SETUP_RETR = [0xF1] /\ regs c RF_CH = [channel] /\
  regs c DYNPD = [0x3F] /\ regs c FEATURE = [6] /\
  exists v, regs c RF_SETUP = [v] /\ Z.land v 0x2E = 2.
Lemma config_byte g b :
  in_u 7 g -> b = 2 \/ b = 3 ->
  Z.lor (Z.ldiff (Z.lor (Z.lor (Z.ldiff g 12) 8) 4) 0x73) b = 12 + b.
Proof.
  intros Hg Hb. apply Z.eqb_eq. revert g Hg.
  enough (forall g, 0 <= g < 0 + 128 ->
    (Z.lor (Z.ldiff (Z.lor (Z.lor (Z.ldiff g 12) 8) 4) 0x73) b =? 12 + b) = true) by (intros g Hg; auto).
  by destruct Hb as [-> | ->]; apply zrange_all_spec; vm_compute.
Qed.
Lemma dynpd_byte d : in_u 6 d -> Z.lor (Z.lor d 0x3F) 3 = 0x3F.
Proof.
  intros Hd. apply Z.eqb_eq. revert d Hd.
  enough (forall d, 0 <= d < 0 + 64 -> (Z.lor (Z.lor d 0x3F) 3 =? 0x3F) = true)
    by (intros d Hd; auto).
  by apply zrange_all_spec; vm_compute.
Qed.
Lemma setup_byte p : byte p -> Z.land (Z.lor (Z.ldiff (Z.ldiff p 6) 0x28) 3) 0x2E = 2.
Proof.
  intros Hp. apply Z.eqb_eq. revert p Hp.
  enough (forall p, 0 <= p < 0 + 256 ->
    (Z.land (Z.lor (Z.ldiff (Z.ldiff p 6) 0x28) 3) 0x2E =? 2) = true) by (intros p Hp; auto).
  by apply zrange_all_spec; vm_compute.
Qed.

(** *** Runs of updates *)
Definition apply_updates (l : list (Z * (Z -> Z))) (c : chip) : chip :=
  foldl (fun c u => update u.1 u.2 c) c l.
Definition targets (r : Z) (l : list (Z * (Z -> Z))) : list (Z * (Z -> Z)) :=
  List.filter (fun u => u.1 =? r) l.
Definition may_update (c : chip) (l : list (Z * (Z -> Z))) : Prop :=
  Forall (fun u => is_config u.1 = true /\ accessible c u.1 = true) l.
Lemma update_regs r f c :
  is_config r = true -> accessible c r = true ->
  unlocked (update r f c) = unlocked c /\ forall r', regs (update r f c) r' =
    if r' =? r then [f (nth 0 (regs c r) 0)] else regs c r'.
Proof.
  intros Hr Ha. unfold update, peek1, poke, peek. rewrite Hr, Ha. done.
Qed.
Lemma apply_updates_regs l c :
  may_update c l ->
  unlocked (apply_updates l c) = unlocked c /\ forall r, regs (apply_updates l c) r =
    match targets r l with
    | [] => regs c r
    | us => [foldl (fun v u => u.2 v) (nth 0 (regs c r) 0) us]
    end.
Proof.
  revert c. induction l as [|[r0 f] l IH]; intros c Hl; [done|].
  apply Forall_cons in Hl as [[Hr Ha] Hl]. cbn [fst] in *.
  destruct (update_regs r0 f c Hr Ha) as [Eu Er].
  destruct (IH (update r0 f c)) as [Eu' Er'].
  { eapply Forall_impl; [exact Hl|]. intros u [? Hu]. split; [done|].
    unfold accessible in *. by rewrite Eu. }
  change (apply_updates ((r0, f) :: l) c) with (apply_updates l (update r0 f c)).
  split; [by rewrite Eu'|]. intros r.
  rewrite Er', Er. unfold targets. cbn [List.filter fst]. rewrite (Z.eqb_sym r0 r).
  destruct (r =? r0) eqn:E; [|done]. apply Z.eqb_eq in E as ->.
  by destruct (List.filter _ l).
Qed.
(** The feature registers are left open, FEATURE aside nothing has changed. *)
Definition detect (c : chip) : chip :=
  let c1 := activate plus c in
  let after := peek1 FEATURE c1 in
  if after =? 0 then c1
  else poke FEATURE [0] (if peek1 FEATURE c =? after then activate plus c1 else c1).
Lemma detect_opens c :
  powered_on c ->
  unlocked (detect c) = true /\ nth 0 (regs (detect c) FEATURE) 0 = 0 /\
  forall r, r <> FEATURE -> regs (detect c) r = regs c r.
Proof.
  unfold powered_on, detect, activate, peek1, peek.
  destruct c as [rg u]. cbn [regs unlocked]. destruct plus.
  - intros ->. cbn [accessible unlocked regs orb]. rewrite Z.eqb_refl.
    destruct (Z.eqb_spec (nth 0 (rg FEATURE) 0) 0) as [E|_]; [done|].
    unfold poke. cbn [regs unlocked accessible orb andb]. rewrite andb_true_r.
    change (is_config FEATURE) with true. cbn [regs unlocked]. rewrite Z.eqb_refl.
    split; [done|]. split; [done|]. intros r Hr. by rewrite (proj2 (Z.eqb_neq _ _)).
  - intros [-> Ef]. cbn [accessible unlocked regs orb negb]. rewrite Ef. cbn. by rewrite Ef.
Qed.
End Program.
Definition before_detection : list (Z * (Z -> Z)) :=
  [(SETUP_RETR, fun _ => 0xF1); (SETUP_AW, fun _ => 2); (RF_SETUP, fun v => Z.ldiff v 6)].
Definition after_detection (channel : Z) (tx : bool) : list (Z * (Z -> Z)) :=
  [(RF_SETUP, fun v => Z.lor (Z.ldiff v 0x28) 3);
   (CONFIG, fun v => Z.lor (Z.lor (Z.ldiff v 12) 8) 4); (RF_CH, fun _ => channel);
   (FEATURE, fun v => Z.lor v 4); (DYNPD, fun v => Z.lor v 0x3F);
   (FEATURE, fun v => Z.lor v 6); (DYNPD, fun v => Z.lor v 3); (EN_AA, fun _ => 0x3F);
   (CONFIG, fun v => Z.lor (Z.ldiff v 0x73) (if tx then 2 else 3))].
(** Evaluates the updates of a named register. *)
Ltac registers :=
  lazy [targets List.filter before_detection after_detection fst snd foldl Z.eqb Pos.eqb
        CONFIG EN_AA SETUP_AW SETUP_RETR RF_CH RF_SETUP DYNPD FEATURE] in *.
Definition configure (plus : bool) (channel : Z) (tx : bool) (c : chip) : chip :=
  apply_updates (after_detection channel tx) (detect plus (apply_updates before_detection c)).
Lemma may_update_unlocked l c :
  Forall (fun u => is_config u.1 = true) l -> unlocked c = true -> may_update c l.
Proof.
  intros Hl Hc. eapply Forall_impl; [exact Hl|]. intros u Hu. split; [done|].
  unfold accessible. by rewrite Hc.
Qed.
Lemma configure_registers plus channel tx c :
  powered_on plus c -> in_reset c -> register_values channel tx (configure plus channel tx c).
Proof.
  intros Hon (g & p & d & f & Eg & Hg & Ep & Hp & Ed & Hd & Ef). unfold configure.
  destruct (apply_updates_regs before_detection c) as [Eu1 E1].
  { repeat constructor; unfold accessible; by rewrite orb_true_r. }
  set (c1 := apply_updates before_detection c) in *.
  destruct (detect_opens plus c1) as (Eu2 & F2 & E2).
  { unfold powered_on in *. by rewrite Eu1, E1. }
  set (c2 := detect plus c1) in *.
  destruct (apply_updates_regs (after_detection channel tx) c2) as [Eu3 E3].
  { apply may_update_unlocked; [|done]. repeat constructor. }
  unfold register_values. rewrite Eu3, Eu2, !E3.
  pose proof (E2 CONFIG ltac:(done)) as G1. pose proof (E2 RF_SETUP ltac:(done)) as G2.
  pose proof (E2 DYNPD ltac:(done)) as G3. pose proof (E2 SETUP_AW ltac:(done)) as G4.
  pose proof (E2 SETUP_RETR ltac:(done)) as G5. rewrite E1 in G1, G2, G3, G4, G5.
  clear Eu1 E1 Eu2 E2 Eu3 E3. clearbody c2. clear c1.
  registers. rewrite Eg in G1. rewrite Ep in G2. rewrite Ed in G3. rewrite G1, G2, G3, G4, G5, F2.
  cbn [nth]. split; [done|]. split; [by destruct tx; rewrite config_byte; auto|].
  do 4 (split; [reflexivity|]). split; [by rewrite dynpd_byte|]. split; [reflexivity|].
  eexists. split; [reflexivity|by apply setup_byte].
Qed.

(** ** [nrf24_config] does that configuration *)
Section Config.
Context {W : Type} `{SPIBus W, RadioPins W, Delay W} (F_CPU junk : Z).
Context (plus : bool) (view : W -> chip) (sent : W -> option (list Z)) `{!ChipOk W plus view sent}.
Implicit Types (s : nrf W) (c : chip).
Abbreviation vw := (vw view).
Abbreviation idle := (idle sent).
Abbreviation sim := (sim view sent).

(** The effect of [m] on the registers is [f]. *)
Definition steps {A} (m : M (nrf W) A) (f : chip -> chip) : Prop :=
  forall s, idle s -> vw (m s).2 = f (vw s) /\ idle (m s).2.
Lemma steps_of_sim {A} (m : M (nrf W) A) m' f :
  sim m m' -> (forall c, (m' c).2 = f c) -> steps m f.
Proof. intros Hm E s Hs. destruct (Hm s Hs) as (_ & -> & ?). by rewrite E. Qed.
Lemma steps_then {A B} (m : M (nrf W) A) (k : A -> M (nrf W) B) f g :
  steps m f -> (forall a, steps (k a) g) -> steps (m ≫= k) (fun c => g (f c)).
Proof.
  intros Hm Hk s Hs. destruct (Hm s Hs) as [E Hi]. rewrite mbind_run.
  destruct (Hk (m s).1 _ Hi) as [E' ?]. by rewrite E', E.
Qed.
Lemma steps_skip {A B} (m : M (nrf W) A) (k : A -> M (nrf W) B) g :
  steps m (fun c => c) -> (forall a, steps (k a) g) -> steps (m ≫= k) g.
Proof. apply steps_then. Qed.
Lemma steps_cons {A B} (F : chip -> chip) (m : M (nrf W) A) (k : A -> M (nrf W) B) r f l :
  steps m (update r f) -> (forall a, steps (k a) (fun c => F (apply_updates l c))) ->
  steps (m ≫= k) (fun c => F (apply_updates ((r, f) :: l) c)).
Proof. intros Hm Hk. exact (steps_then _ _ _ _ Hm Hk). Qed.
Lemma steps_mod (f : nrf W -> nrf W) :
  (forall s, radio (f s) = radio s) -> steps (mmod f) (fun c => c).
Proof. intros Hf. eapply steps_of_sim; [by apply sim_mod|done]. Qed.
Lemma steps_set r v : 0 <= r < 32 -> steps (nrf24_configRegister r v) (update r (fun _ => v)).
Proof. intros Hr. eapply steps_of_sim; [by apply (configRegister_sim plus)|done]. Qed.
Lemma steps_status v : steps (nrf24_configRegister STATUS v) (fun c => c).
Proof. eapply steps_of_sim; [by apply (configRegister_sim plus)|done]. Qed.
Lemma steps_last {A B} (m : M (nrf W) A) (k : A -> M (nrf W) B) f :
  steps m f -> (forall a, steps (k a) (fun c => c)) -> steps (m ≫= k) f.
Proof. intros Hm Hk. exact (steps_then m k f (fun c => c) Hm Hk). Qed.
Lemma steps_read {B} r j (k : Z -> M (nrf W) B) g :
  is_config r = true -> (forall v, steps (k v) (g v)) ->
  steps (read1 r j ≫= k) (fun c => g (peek1 r c) c).
Proof.
  intros Hc Hk s Hs. destruct (read1_sim plus view sent r j Hc s Hs) as (E1 & E2 & Hi).
  rewrite mbind_run, E1. cbn [mread fst] in *. destruct (Hk (nth 0 (peek (vw s) r) 0) _ Hi) as [E' ?].
  split; [|done]. rewrite E'. by rewrite E2.
Qed.
Lemma steps_update r j f g :
  is_config r = true -> 0 <= r < 32 -> (forall v, f v = g v) ->
  steps (v ← read1 r j; nrf24_configRegister r (f v)) (update r g).
Proof.
  intros Hc Hr E. apply (steps_read r j _ (fun v c => poke r [g v] c)); [done|].
  intros v. rewrite E. by apply (steps_set r (g v)).
Qed.
Lemma steps_updating {B} r j f g l (k : unit -> M (nrf W) B) :
  is_config r = true -> 0 <= r < 32 -> (forall v, f v = g v) ->
  (forall a, steps (k a) (apply_updates l)) ->
  steps (v ← read1 r j; (nrf24_configRegister r (f v) ≫= k)) (apply_updates ((r, g) :: l)).
Proof.
  intros Hc Hr E Hk. apply (steps_read r j _ (fun v c => apply_updates l (poke r [g v] c))); [done|].
  intros v. rewrite E. by apply (steps_then _ _ _ _ (steps_set r (g v) Hr)).
Qed.
Lemma set_pa_steps : steps (nrf24_set_pa junk RF_PA_MIN) (update RF_SETUP (fun v => Z.ldiff v 6)).
Proof. by apply steps_update. Qed.
Lemma setCRCLen_steps :
  steps (nrf24_setCRCLen junk RF_CRC_16) (update CONFIG (fun v => Z.lor (Z.lor (Z.ldiff v 12) 8) 4)).
Proof. by apply steps_update. Qed.
Lemma setDataRate_steps :
  steps (nrf24_setDataRate junk RF_2MBPS) (update RF_SETUP (fun v => Z.lor (Z.ldiff v 0x28) 3)).
Proof.
  apply (steps_read RF_SETUP junk _ (fun v c => poke RF_SETUP [Z.lor (Z.ldiff v 0x28) 3] c)); [done|].
  intros v. apply steps_skip; [by apply steps_mod|]. intros _. apply steps_last.
  - by apply (steps_set RF_SETUP (Z.lor (Z.ldiff v 0x28) 3)).
  - intros _. apply (steps_read RF_SETUP junk _ (fun _ c => c)); [done|]. intros v2.
    destruct (v2 =? _); [by intros s Hs|]. apply steps_skip; [by apply steps_mod|].
    by intros _ s Hs.
Qed.
Lemma powerUpTx_steps :
  steps nrf24_powerUpTx (update CONFIG (fun v => Z.lor (Z.ldiff v 0x73) 2)).
Proof.
  apply (steps_read CONFIG 0 _ (fun v c => poke CONFIG [Z.lor (Z.ldiff v 0x73) 2] c)); [done|].
  intros v. apply steps_skip; [by eapply steps_of_sim; [apply (ce_sim plus)|]|]. intros _.
  apply steps_last; [by apply (steps_set CONFIG)|].
  intros _. by eapply steps_of_sim; [apply (ce_sim plus)|].
Qed.
Lemma powerUpRx_steps :
  steps nrf24_powerUpRx (update CONFIG (fun v => Z.lor (Z.ldiff v 0x73) 3)).
Proof.
  apply steps_skip; [apply steps_status|]. intros _.
  apply (steps_read CONFIG 0 _ (fun v c => poke CONFIG [Z.lor (Z.ldiff v 0x73) 3] c)); [done|].
  intros v. apply steps_skip; [by eapply steps_of_sim; [apply (ce_sim plus)|]|]. intros _.
  apply steps_last; [by apply (steps_set CONFIG)|].
  intros _. by eapply steps_of_sim; [apply (ce_sim plus)|].
Qed.
(** The detection of the chip's kind, before whatever follows. *)
Lemma detect_steps (k : Z -> Z -> M (nrf W) unit) g :
  (forall b a, steps (k b a) g) ->
  steps (before ← nrf24_readRegister1 junk FEATURE;
         nrf24_toggle_features ;;
         after ← nrf24_readRegister1 junk FEATURE;
         mmod (fun s => s <| p_type := before =? after |>) ;;
         mwhen (negb (after =? 0))
           (mwhen (before =? after) nrf24_toggle_features ;; nrf24_configRegister FEATURE 0) ;;
         k before after)
    (fun c => g (detect plus c)).
Proof.
  intros Hk.
  apply (steps_read FEATURE junk _ (fun b c =>
    let c1 := activate plus c in
    let after := peek1 FEATURE c1 in
    g (if after =? 0 then c1
       else poke FEATURE [0] (if b =? after then activate plus c1 else c1)))); [done|].
  intros b. apply (steps_then _ _ (activate plus) (fun c1 =>
    let after := peek1 FEATURE c1 in
    g (if after =? 0 then c1
       else poke FEATURE [0] (if b =? after then activate plus c1 else c1)))).
  { by eapply steps_of_sim; [apply (toggle_sim plus)|]. }
  intros _. apply (steps_read FEATURE junk _ (fun after c1 =>
    g (if after =? 0 then c1
       else poke FEATURE [0] (if b =? after then activate plus c1 else c1)))); [done|].
  intros after. apply steps_skip; [by apply steps_mod|]. intros _.
  apply (steps_then _ _ (fun c1 => if after =? 0 then c1
       else poke FEATURE [0] (if b =? after then activate plus c1 else c1)) g); [|intros _; apply Hk].
  destruct (after =? 0); cbn [negb mwhen]; [by intros s Hs|].
  apply (steps_then _ _ (fun c1 => if b =? after then activate plus c1 else c1) (poke FEATURE [0]));
    [|intros _; by apply (steps_set FEATURE 0)].
  destruct (b =? after); [|by intros s Hs]. by eapply steps_of_sim; [apply (toggle_sim plus)|].
Qed.
Lemma enable_ack_steps :
  steps (nrf24_enable_ack_payload junk)
    (apply_updates [(FEATURE, fun v => Z.lor v 4); (DYNPD, fun v => Z.lor v 0x3F);
                    (FEATURE, fun v => Z.lor v 6); (DYNPD, fun v => Z.lor v 3)]).
Proof.
  apply steps_updating; [done|done|done|]. intros _.
  apply steps_updating; [done|done|done|]. intros _.
  apply steps_updating; [done|done|done|]. intros _.
  by apply (steps_update DYNPD).
Qed.
Lemma steps_app {A B} (m : M (nrf W) A) (k : A -> M (nrf W) B) l1 l2 :
  steps m (apply_updates l1) -> (forall a, steps (k a) (apply_updates l2)) ->
  steps (m ≫= k) (apply_updates (l1 ++ l2)).
Proof.
  intros Hm Hk s Hs. destruct (steps_then _ _ _ _ Hm Hk s Hs) as [E ?].
  unfold apply_updates in *. by rewrite foldl_app.
Qed.
Lemma nrf24_config_steps channel tx :
  steps (nrf24_config junk channel tx) (configure plus channel tx).
Proof.
  apply steps_skip; [by apply steps_mod|]. intros _.
  apply (steps_cons (fun c => apply_updates (after_detection channel tx) (detect plus c)));
    [by apply steps_set|]. intros _.
  apply (steps_cons (fun c => apply_updates (after_detection channel tx) (detect plus c)));
    [by apply steps_set|]. intros _.
  apply (steps_cons (fun c => apply_updates (after_detection channel tx) (detect plus c)));
    [apply set_pa_steps|]. intros _.
  apply (detect_steps (fun _ _ => _) (apply_updates (after_detection channel tx))). intros _ _.
  apply (steps_cons (fun c => c)); [apply setDataRate_steps|]. intros _.
  apply (steps_cons (fun c => c)); [apply setCRCLen_steps|]. intros _.
  apply (steps_cons (fun c => c)); [by apply steps_set|]. intros _.
  apply (steps_app _ _ [_; _; _; _] [_; _]); [apply enable_ack_steps|]. intros _.
  apply (steps_cons (fun c => c)); [by apply steps_set|]. intros _.
  apply steps_skip; [apply steps_status|]. intros _.
  apply steps_skip; [by eapply steps_of_sim; [apply (flush_rx_sim plus)|]|]. intros _.
  apply steps_skip; [by eapply steps_of_sim; [apply (flush_tx_sim plus)|]|]. intros _.
  destruct tx; [apply powerUpTx_steps|apply powerUpRx_steps].
Qed.
End Config.
