(* ===== verification/Rf.v ===== *)
(** * Wireless controllers: [shared/rf/rf.c]

    Set-up of the radio link, the two ends' polling, the identity a board
    derives from its serial number, and the branch of [avr/uno/main/main.c] that
    passes commands on to the controller's side. *)

From Stdlib Require Import ZArith Lia.
From stdpp Require Import base tactics numbers list.
From S2P Require Import Prelude Defs World Nrf24 UnoMain.
Open Scope Z_scope.

(** ** Identities *)
Definition crc_bit (crc : Z) : Z :=
  if Z.testbit crc 0 then Z.lxor (Z.shiftr crc 1) 0xEDB88320 else Z.shiftr crc 1.
Definition crc_byte (crc b : Z) : Z :=
  Nat.iter 8 crc_bit (Z.lxor crc b).
(** [boot_sig] is the board's signature row or flash serial number. *)
Definition generate_crc32 (BOOT_ID_LEN : nat) (boot_sig : Z -> Z) : Z :=
  foldl crc_byte 0x01234567 (boot_sig <$> iota BOOT_ID_LEN).

(** ** The interrupt line *)
Inductive mcu : Set := atmega2560 | atmega32u4 | atmega328p.
(** The bits set in EICRA and EIMSK (the sense and the number of an external
    interrupt in the AVR headers), and the interrupt that has a handler. *)
Definition rf_sense (m : mcu) : Z :=
  match m with atmega2560 => 1 | atmega32u4 => 7 | atmega328p => 1 end.
Definition rf_int (m : mcu) : Z :=
  match m with atmega2560 => 4 | atmega32u4 => 3 | atmega328p => 0 end.
Definition rf_vector (m : mcu) : Z :=
  match m with atmega32u4 => 3 | _ => 0 end.

Class RfHost (W : Type) := {
  rf_pin_output : Z -> M W unit;
  (* the interrupt is enabled *)
  rf_irq_enable : M W unit
}.

Section Rf.
Context {W : Type} `{SPIBus W, RadioPins W, Delay W, RfHost W}.
Context (F_CPU junk CE CSN PIN_SPI_SS : Z).

Record rf_state : Type := mkRf { rf_interrupt : bool; drv : nrf W }.
#[global] Instance etaRf : Settable rf_state := fun r =>
  {| rf_interrupt := rf_interrupt r; drv := drv r |}.
Definition on_drv {A} (m : M (nrf W) A) : M rf_state A :=
  fun s => let '(a, d) := m (drv s) in (a, s <| drv := d |>).
(** Both interrupt handlers. *)
Definition triggerInterrupt : M rf_state unit := mmod (fun s => s <| rf_interrupt := true |>).

Definition initRF (tx : bool) (txid rxid : Z) : M rf_state unit :=
  mmod (fun s => s <| rf_interrupt := tx |>) ;;
  mwhen (negb (CE =? PIN_SPI_SS)) (on_drv (on_radio (rf_pin_output CE))) ;;
  on_drv (on_radio (rf_pin_output CSN)) ;;
  on_drv (nrf24_init F_CPU) ;;
  on_drv (nrf24_config junk 76 tx) ;;
  on_drv (nrf24_tx_address (le_bytes 4 txid)) ;;
  on_drv (nrf24_rx_address (le_bytes 4 rxid)) ;;
  on_drv (on_radio rf_irq_enable).
(** The number of the pipe a payload waits in, 7 for none. *)
Definition rx_pipe (status : Z) : Z := Z.shiftr (Z.land status 14) 1.
(** Sends [data]; an acknowledgement's payload, if one came, goes to [arr]. *)
Definition tickRFTX (data : list Z) (arr : Z -> Z) : M rf_state (option (list Z)) :=
  mmod (fun s => s <| rf_interrupt := false |>) ;;
  status ← on_drv nrf24_getStatus;
  ret ← (if rx_pipe status =? 0
         then r ← on_drv (nrf24_getData arr 0);
              on_drv (nrf24_configRegister STATUS (BV RX_DR)) ;; mret (Some r)
         else mret None);
  on_drv (nrf24_send data) ;;
  mret ret.
(** The payload, if the interrupt line has announced one. *)
Definition tickRFInput (data : Z -> Z) (len : Z) : M rf_state (option (list Z)) :=
  i ← mread rf_interrupt;
  if (i : bool) then
    mmod (fun s => s <| rf_interrupt := false |>) ;;
    status ← on_drv nrf24_getStatus;
    if negb (rx_pipe status =? 7) then r ← on_drv (nrf24_getData data len); mret (Some r)
    else mret None
  else mret None.

(** *** Commands for the other side ([avr/uno/main/main.c]) *)
(** [buf] is the memory behind the pointer of that name; what is received while
    waiting goes there through [store]. *)
Context (buf : Z -> Z) (store : list Z -> M rf_state unit).
Definition IRQ_SENT : Z := Z.lor (BV TX_DS) (BV MAX_RT).
Fixpoint wait_sent (fuel : nat) : M rf_state (option unit) :=
  match fuel with
  | O => mret None
  | S fuel =>
      empty ← on_drv (nrf24_txFifoEmpty junk);
      if (empty : bool) then oret tt
      else
        triggerInterrupt ;;
        r ← tickRFInput buf 0;
        (match r with Some l => store l | None => mret tt end) ;;
        on_drv (nrf24_configRegister STATUS IRQ_SENT) ;;
        wait_sent fuel
  end.
(** [readConfigBlock o] and [leds o] are the 28 bytes at an offset of the stored
    configuration and of the LED table. *)
Definition rf_forward (fuel : nat) (readConfigBlock leds : Z -> list Z)
    (cmd : Z) (isConfig : bool) (origOffset offset : Z) : M rf_state (option unit) :=
  _ ←? wait_sent fuel;
  on_drv (nrf24_configRegister STATUS IRQ_SENT) ;;
  on_drv (csn false) ;;
  on_drv (put (Z.lor W_ACK_PAYLOAD 1)) ;; on_drv (put cmd) ;; on_drv (put 0) ;;
  mwhen ((cmd =? COMMAND_SET_LEDS) || (cmd =? COMMAND_WRITE_CONFIG))
    (on_drv (put origOffset) ;;
     on_drv (nrf24_transmitSync (if isConfig then readConfigBlock offset else leds offset))) ;;
  on_drv (csn true) ;;
  triggerInterrupt ;;
  wait_sent fuel.

(** *** Feature reports passed on ([avr/micro/main/main.c], [pico/main/main.c]) *)
(** What is received while waiting is dropped. *)
Fixpoint wait_room (fuel : nat) : M rf_state (option unit) :=
  match fuel with
  | O => mret None
  | S fuel =>
      full ← on_drv nrf24_txFifoFull;
      if negb full then oret tt
      else
        triggerInterrupt ;;
        tickRFInput buf 0 ;;
        on_drv (nrf24_configRegister STATUS IRQ_SENT) ;;
        wait_room fuel
  end.
(** [data] is the report with whatever follows it in the buffer. *)
Definition rf_pass_on (fuel : nat) (cmd : Z) (data : list Z) : M rf_state (option unit) :=
  _ ←? wait_room fuel;
  on_drv (nrf24_configRegister STATUS IRQ_SENT) ;;
  on_drv (nrf24_writeAckPayload ([cmd; 0] ++ take 30 data)) ;;
  triggerInterrupt ;;
  oret tt.
End Rf.
Arguments rf_state : clear implicits.

(** ** Identities of different boards *)
(** The shift register is linear, and one step can be undone: the bit it
    shifts out shows in the top bit of the feedback word. *)
Lemma crc_bit_lxor a b : crc_bit (Z.lxor a b) = Z.lxor (crc_bit a) (crc_bit b).
Proof.
  unfold crc_bit. rewrite Z.lxor_spec, Z.shiftr_lxor.
  destruct (Z.testbit a 0), (Z.testbit b 0); cbn [xorb]; try done.
  all: apply Z.bits_inj'; intros i _; rewrite !Z.lxor_spec.
  all: by destruct (Z.testbit (Z.shiftr a 1) i), (Z.testbit (Z.shiftr b 1) i), (Z.testbit 0xEDB88320 i).
Qed.
Lemma iter_S {A} (f : A -> A) n x : Nat.iter (S n) f x = f (Nat.iter n f x).
Proof. done. Qed.
Lemma crc_bits_lxor n a b :
  Nat.iter n crc_bit (Z.lxor a b) = Z.lxor (Nat.iter n crc_bit a) (Nat.iter n crc_bit b).
Proof. induction n as [|n IH]; [done|]. by rewrite !iter_S, IH, crc_bit_lxor. Qed.
Lemma crc_bit_range c : in_u 32 c -> in_u 32 (crc_bit c).
Proof.
  intros Hc. apply in_u_testbit; [done|]. apply in_u_testbit in Hc as [H0 Hc]; [|done].
  assert (0 <= Z.shiftr c 1) by by apply Z.shiftr_nonneg.
  assert (forall i, 32 <= i -> Z.testbit 0xEDB88320 i = false) as Hp.
  { intros i Hi. apply (in_u_testbit 32 0xEDB88320); [done|by unfold in_u|done]. }
  unfold crc_bit. destruct (Z.testbit c 0).
  - split; [by apply Z.lxor_nonneg|]. intros i Hi.
    rewrite Z.lxor_spec, Z.shiftr_spec, Hc, Hp by lia. done.
  - split; [done|]. intros i Hi. rewrite Z.shiftr_spec by lia. apply Hc. lia.
Qed.
Lemma crc_bit_nonzero c : in_u 32 c -> c <> 0 -> crc_bit c <> 0.
Proof.
  intros Hc Hn E. apply in_u_testbit in Hc as [H0 Hb]; [|done]. apply Hn.
  assert (Z.testbit c 0 = false) as E0.
  { destruct (Z.testbit c 0) eqn:E0; [|done].
    assert (Z.testbit (crc_bit c) 31 = true) as Ht; [|by rewrite E in Ht].
    unfold crc_bit. rewrite E0, Z.lxor_spec, Z.shiftr_spec by lia. by rewrite (Hb (31 + 1)) by lia. }
  unfold crc_bit in E. rewrite E0 in E. apply Z.bits_inj'. intros i Hi. rewrite Z.bits_0.
  destruct (Z.eq_dec i 0) as [->|]; [done|].
  replace i with (i - 1 + 1) by lia. rewrite <- Z.shiftr_spec by lia. by rewrite E, Z.bits_0.
Qed.
Lemma crc_bits_range n c : in_u 32 c -> in_u 32 (Nat.iter n crc_bit c).
Proof. intros. induction n as [|n IH]; [done|]. by apply crc_bit_range. Qed.
Lemma crc_bits_nonzero n c : in_u 32 c -> c <> 0 -> Nat.iter n crc_bit c <> 0.
Proof. intros Hc ?. induction n as [|n IH]; [done|]. by apply crc_bit_nonzero; [apply crc_bits_range|]. Qed.
(** While zeros are shifted out there is no feedback. *)
Lemma crc_bits_shift n x : 0 <= x -> Nat.iter n crc_bit (Z.shiftl x (Z.of_nat n)) = x.
Proof.
  intros Hx. revert x Hx. induction n as [|n IH]; intros x Hx; [apply Z.shiftl_0_r|].
  rewrite Nat.iter_succ_r. rewrite <- (IH x Hx) at 2. f_equal. unfold crc_bit.
  rewrite Z.shiftl_spec_low by lia. rewrite Z.shiftr_shiftl_l by lia. f_equal. lia.
Qed.
Lemma iter_plus {A} (f : A -> A) n m x : Nat.iter (n + m) f x = Nat.iter n f (Nat.iter m f x).
Proof. induction n as [|n IH]; [done|]. cbn [Nat.add]. by rewrite !iter_S, IH. Qed.
(** Bytes enter as one word. *)
Lemma crc_bytes_word l c :
  bytes l -> foldl crc_byte c l = Nat.iter (8 * length l) crc_bit (Z.lxor c (le_val l)).
Proof.
  intros Hl. revert c. induction Hl as [|b l Hb Hl IH]; intros c; [cbn; by rewrite Z.lxor_0_r|].
  cbn [foldl]. rewrite IH. unfold crc_byte.
  rewrite <- (crc_bits_shift 8 (le_val l)).
  2:{ apply le_val_range in Hl. unfold in_u in Hl. lia. }
  rewrite <- crc_bits_lxor, <- iter_plus. f_equal; [cbn [length]; lia|].
  rewrite Z.lxor_assoc. f_equal. cbn [le_val]. unfold in_u in Hb.
  rewrite <- Z.add_nocarry_lxor; [rewrite Z.shiftl_mul_pow2 by lia; lia|].
  apply Z.bits_inj'. intros i Hi. rewrite Z.land_spec, Z.bits_0.
  destruct (Z.lt_ge_cases i 8).
  - rewrite Z.shiftl_spec_low by lia. apply andb_false_r.
  - apply in_u_testbit in Hb as [_ Hb]; [|done]. by rewrite Hb.
Qed.
Lemma crc_bytes_range l c : bytes l -> in_u 32 c -> in_u 32 (foldl crc_byte c l).
Proof.
  intros Hl. revert c. induction Hl as [|b l Hb _ IH]; intros c Hc; [done|]. apply IH.
  apply crc_bits_range. apply in_u_testbit; [done|].
  apply in_u_testbit in Hc as [? Hc]; [|done]. apply in_u_testbit in Hb as [? Hb]; [|done].
  split; [by apply Z.lxor_nonneg|]. intros i Hi. rewrite Z.lxor_spec, Hc, Hb by lia. done.
Qed.
(** Bytes read from two states keep them apart, and by a fixed amount. *)
Lemma crc_bytes_diff l a b :
  bytes l ->
  Z.lxor (foldl crc_byte a l) (foldl crc_byte b l) = Nat.iter (8 * length l) crc_bit (Z.lxor a b).
Proof.
  intros Hl. rewrite !crc_bytes_word, <- crc_bits_lxor by done. f_equal.
  apply Z.bits_inj'. intros i _. rewrite !Z.lxor_spec.
  by destruct (Z.testbit a i), (Z.testbit b i), (Z.testbit (le_val l) i).
Qed.
Lemma lxor_range w a b : 0 <= w -> in_u w a -> in_u w b -> in_u w (Z.lxor a b).
Proof.
  intros Hw. rewrite !in_u_testbit by done. intros [? Ha] [? Hb].
  split; [by apply Z.lxor_nonneg|]. intros i Hi. by rewrite Z.lxor_spec, Ha, Hb.
Qed.
Lemma crc_apart l a b :
  bytes l -> in_u 32 a -> in_u 32 b -> a <> b -> foldl crc_byte a l <> foldl crc_byte b l.
Proof.
  intros Hl Ha Hb Hn E. pose proof (crc_bytes_diff l a b Hl) as D. rewrite E, Z.lxor_nilpotent in D.
  symmetry in D. apply crc_bits_nonzero in D; [done|by apply lxor_range|].
  intros E0. by apply Z.lxor_eq in E0.
Qed.
Lemma le_val_in_u32 l : bytes l -> (length l <= 4)%nat -> in_u 32 (le_val l).
Proof.
  intros Hl Hn. apply le_val_range in Hl. unfold in_u in *.
  assert (2 ^ (8 * Z.of_nat (length l)) <= 2 ^ 32) by (apply Z.pow_le_mono_r; lia). lia.
Qed.
Lemma crc_burst pre l1 l2 post c :
  in_u 32 c -> bytes pre -> bytes post -> bytes l1 -> bytes l2 ->
  length l1 = length l2 -> (length l1 <= 4)%nat -> l1 <> l2 ->
  foldl crc_byte c (pre ++ l1 ++ post) <> foldl crc_byte c (pre ++ l2 ++ post).
Proof.
  intros Hc Hpre Hpost H1 H2 Hl H4 Hn. rewrite !foldl_app.
  set (c1 := foldl crc_byte c pre). assert (in_u 32 c1) as Hc1 by by apply crc_bytes_range.
  apply crc_apart; [done|by apply crc_bytes_range|by apply crc_bytes_range|].
  rewrite !crc_bytes_word, Hl by done. intros E.
  assert (Nat.iter (8 * length l2) crc_bit (Z.lxor (le_val l1) (le_val l2)) = 0) as E0.
  { replace (Z.lxor (le_val l1) (le_val l2))
      with (Z.lxor (Z.lxor c1 (le_val l1)) (Z.lxor c1 (le_val l2))).
    - by rewrite crc_bits_lxor, E, Z.lxor_nilpotent.
    - apply Z.bits_inj'. intros i _. rewrite !Z.lxor_spec.
      by destruct (Z.testbit c1 i), (Z.testbit (le_val l1) i), (Z.testbit (le_val l2) i). }
  apply crc_bits_nonzero in E0; [done| |].
  - apply lxor_range; [done|by apply le_val_in_u32|apply le_val_in_u32; [done|lia]].
  - intros Ex. apply Z.lxor_eq in Ex. apply Hn.
    by rewrite <- (le_bytes_le_val l1), <- (le_bytes_le_val l2), Ex, Hl by done.
Qed.
Lemma iota_window n k :
  (k <= n)%nat ->
  iota n = iota k ++ ((fun i => Z.of_nat k + i) <$> iota (n - k)).
Proof.
  intros Hk. unfold iota. replace n with (k + (n - k))%nat at 1 by lia.
  rewrite seq_app, fmap_app, Nat.add_0_l. f_equal. rewrite <- list_fmap_compose.
  rewrite <- (Nat.add_0_r k) at 1. rewrite <- fmap_add_seq, <- list_fmap_compose.
  apply list_fmap_ext. intros ???. cbn. lia.
Qed.
(** Two boards whose serial numbers differ only inside some four consecutive
    bytes never get the same radio identity. *)
Theorem generate_crc32_distinguishes n sig1 sig2 k i :
  (forall j, byte (sig1 j)) -> (forall j, byte (sig2 j)) ->
  (forall j, j < k \/ k + 4 <= j -> sig1 j = sig2 j) ->
  0 <= k -> k + 4 <= Z.of_nat n -> sig1 i <> sig2 i ->
  generate_crc32 n sig1 <> generate_crc32 n sig2.
Proof.
  intros Hb1 Hb2 Hs Hk Hn Hi. unfold generate_crc32.
  assert (forall (f : Z -> Z) l, (forall j, byte (f j)) -> bytes (f <$> l)) as Hb.
  { intros f l Hf. apply Forall_fmap, Forall_true. intros j. apply Hf. }
  rewrite (iota_window n (Z.to_nat k)) by lia.
  rewrite (iota_window (n - Z.to_nat k) 4) by lia. rewrite !fmap_app.
  rewrite <- !list_fmap_compose. rewrite (list_fmap_ext sig2 sig1 (iota (Z.to_nat k))).
  2:{ intros j x Hx. apply list_elem_of_lookup_2, list_elem_of_In, elem_of_iota in Hx.
      rewrite Hs; [done|lia]. }
  match goal with |- context [?a ++ ?b ++ (?g <$> iota ?m)] =>
    rewrite (list_fmap_ext (sig2 ∘ (λ i0 : Z, Z.of_nat (Z.to_nat k) + i0) ∘ (λ i0 : Z, Z.of_nat 4 + i0)) g (iota m)) end.
  2:{ intros j x Hx. apply list_elem_of_lookup_2, list_elem_of_In, elem_of_iota in Hx.
      cbn. rewrite Hs; [done|lia]. }
  apply crc_burst; try (apply Hb; intros j; first [apply Hb1|apply Hb2]);
    [by unfold in_u|done|cbn; lia|].
  intros E. apply Hi. assert (k <= i < k + 4) as Hw.
  { destruct (Z.lt_ge_cases i k), (Z.lt_ge_cases i (k + 4)); try lia; exfalso; apply Hi, Hs; lia. }
  cbn in E. rewrite Z2Nat.id in E by lia. simplify_eq.
  assert (i = k + 0 \/ i = k + 1 \/ i = k + 2 \/ i = k + 3) as [->|[->|[->| ->]]] by lia; done.
Qed.

(** ** The link set up *)
Class RfHostOk (W : Type) `{RfHost W} (view : W -> chip) (sent : W -> option (list Z)) : Prop := {
  output_keeps p w :
    view (rf_pin_output p w).2 = view w /\ sent (rf_pin_output p w).2 = sent w;
  irq_keeps w : view (rf_irq_enable w).2 = view w /\ sent (rf_irq_enable w).2 = sent w
}.
Section Setup.
Context {W : Type} `{SPIBus W, RadioPins W, Delay W, RfHost W}.
Context (F_CPU junk CE CSN PIN_SPI_SS : Z).
Context (plus : bool) (view : W -> chip) (sent : W -> option (list Z)).
Context `{!ChipOk W plus view sent, !RfHostOk W view sent}.
Implicit Types (s : rf_state W).
Abbreviation nsteps := (steps view sent).

Definition chip_of s : chip := view (radio (drv s)).
Definition rf_idle s : Prop := sent (radio (drv s)) = None.
Definition rf_steps (m : M (rf_state W) unit) (f : chip -> chip) : Prop :=
  forall s, rf_idle s -> chip_of (m s).2 = f (chip_of s) /\ rf_idle (m s).2.
Lemma rf_steps_drv (m : M (nrf W) unit) f : nsteps m f -> rf_steps (on_drv m) f.
Proof.
  intros Hm s Hs. destruct (Hm (drv s) Hs) as [E Hi]. unfold on_drv, chip_of, rf_idle.
  destruct (m (drv s)) as [[] d]. done.
Qed.
Lemma rf_steps_seq m1 m2 f g :
  rf_steps m1 f -> rf_steps m2 g -> rf_steps (m1 ;; m2) (fun c => g (f c)).
Proof.
  intros H1' H2' s Hs. destruct (H1' s Hs) as [E Hi]. rewrite mbind_run.
  destruct (H2' _ Hi) as [E' ?]. by rewrite E', E.
Qed.
Lemma host_steps (m : M W unit) :
  (forall w, view (m w).2 = view w /\ sent (m w).2 = sent w) ->
  rf_steps (on_drv (on_radio m)) (fun c => c).
Proof.
  intros Hm. apply rf_steps_drv. intros s Hs. unfold on_radio, vw, idle in *.
  destruct (Hm (radio s)) as [E1 E2]. destruct (m (radio s)) as [[] w]. cbn in *.
  by rewrite E1, E2.
Qed.
Lemma tx_address_steps a :
  nsteps (nrf24_tx_address a) (fun c => poke TX_ADDR a (poke RX_ADDR_P0 a c)).
Proof.
  apply (steps_then view sent _ _ (poke RX_ADDR_P0 a) (poke TX_ADDR a)); [|intros _];
    (eapply steps_of_sim; [by apply (writeRegister_sim plus)|done]).
Qed.
Lemma rx_address_steps a :
  nsteps (nrf24_rx_address a) (fun c => poke EN_RXADDR [3] (poke RX_ADDR_P1 a c)).
Proof.
  apply steps_skip; [by eapply steps_of_sim; [apply (ce_sim plus)|]|]. intros _.
  apply (steps_then view sent _ _ (poke RX_ADDR_P1 a) (poke EN_RXADDR [3])).
  - eapply steps_of_sim; [by apply (writeRegister_sim plus)|done].
  - intros _. apply steps_last.
    + eapply steps_of_sim; [by apply (configRegister_sim plus)|done].
    + intros _. by eapply steps_of_sim; [apply (ce_sim plus)|].
Qed.
Definition link_up (tx : bool) (txid rxid : Z) (c : chip) : chip :=
  let c := configure plus 76 tx c in
  let c := poke TX_ADDR (le_bytes 4 txid) (poke RX_ADDR_P0 (le_bytes 4 txid) c) in
  poke EN_RXADDR [3] (poke RX_ADDR_P1 (le_bytes 4 rxid) c).
Lemma initRF_steps tx txid rxid :
  rf_steps (initRF F_CPU junk CE CSN PIN_SPI_SS tx txid rxid) (link_up tx txid rxid).
Proof.
  unfold initRF, link_up.
  apply (rf_steps_seq _ _ (fun c => c)); [by intros s Hs|].
  apply (rf_steps_seq _ _ (fun c => c)).
  { destruct (CE =? PIN_SPI_SS); [by intros s Hs|]. apply host_steps. apply output_keeps. }
  apply (rf_steps_seq _ _ (fun c => c)); [apply host_steps; apply output_keeps|].
  apply (rf_steps_seq _ _ (fun c => c)).
  { apply rf_steps_drv. by eapply steps_of_sim; [apply (init_sim F_CPU plus)|]. }
  apply (rf_steps_seq _ _ (configure plus 76 tx) (fun c =>
    poke EN_RXADDR [3] (poke RX_ADDR_P1 (le_bytes 4 rxid)
      (poke TX_ADDR (le_bytes 4 txid) (poke RX_ADDR_P0 (le_bytes 4 txid) c)))));
    [by apply rf_steps_drv, nrf24_config_steps|].
  apply (rf_steps_seq _ _ (fun c => poke TX_ADDR (le_bytes 4 txid) (poke RX_ADDR_P0 (le_bytes 4 txid) c))
    (fun c => poke EN_RXADDR [3] (poke RX_ADDR_P1 (le_bytes 4 rxid) c)));
    [apply rf_steps_drv, tx_address_steps|].
  apply (rf_steps_seq _ _ (fun c => poke EN_RXADDR [3] (poke RX_ADDR_P1 (le_bytes 4 rxid) c)) (fun c => c));
    [apply rf_steps_drv, rx_address_steps|].
  apply host_steps. intros w. apply irq_keeps.
Qed.
Lemma poke_regs r v c r' :
  unlocked c = true -> is_config r = true ->
  unlocked (poke r v c) = true /\ regs (poke r v c) r' = if r' =? r then v else regs c r'.
Proof. intros Hu Hr. unfold poke, accessible. by rewrite Hr, Hu. Qed.

(** C22: Whatever a powered-on radio's registers held, [initRF] leaves it with the
    feature registers open, 16-bit CRC, acknowledgements and dynamic payloads on
    every pipe, four-byte addresses, channel 76, the given identities as the
    sending and the listening address, and powered up in the given direction.
    The air rate, however, is 1 Mbit/s with the second lowest power: the number
    of the rate bit is or'd in instead of its mask. *)
Theorem initRF_configures tx txid rxid s :
  rf_idle s -> powered_on plus (chip_of s) -> in_reset (chip_of s) ->
  let c := chip_of (initRF F_CPU junk CE CSN PIN_SPI_SS tx txid rxid s).2 in
  register_values 76 tx c /\
  regs c TX_ADDR = le_bytes 4 txid /\ regs c RX_ADDR_P0 = le_bytes 4 txid /\
  regs c RX_ADDR_P1 = le_bytes 4 rxid /\ regs c EN_RXADDR = [3].
Proof using ChipOk0 RfHostOk0.
  intros Hs Hon Hr c. destruct (initRF_steps tx txid rxid s Hs) as [E _].
  fold c in E. rewrite E. unfold link_up.
  pose proof (configure_registers plus 76 tx _ Hon Hr) as Hv.
  set (c0 := configure plus 76 tx (chip_of s)) in *. clearbody c0. clear E.
  destruct Hv as (Hu & Hv). cbv zeta.
  set (c1 := poke RX_ADDR_P0 (le_bytes 4 txid) c0).
  assert (unlocked c1 = true) as U1 by by apply (poke_regs _ _ _ 0).
  set (c2 := poke TX_ADDR (le_bytes 4 txid) c1).
  assert (unlocked c2 = true) as U2 by by apply (poke_regs _ _ _ 0).
  set (c3 := poke RX_ADDR_P1 (le_bytes 4 rxid) c2).
  assert (unlocked c3 = true) as U3 by by apply (poke_regs _ _ _ 0).
  assert (forall r, regs (poke EN_RXADDR [3] c3) r =
    if r =? EN_RXADDR then [3] else if r =? RX_ADDR_P1 then le_bytes 4 rxid
    else if r =? TX_ADDR then le_bytes 4 txid else if r =? RX_ADDR_P0 then le_bytes 4 txid
    else regs c0 r) as G.
  { intros r. rewrite (proj2 (poke_regs EN_RXADDR [3] c3 r U3 eq_refl)). unfold c3.
    rewrite (proj2 (poke_regs RX_ADDR_P1 _ c2 r U2 eq_refl)). unfold c2.
    rewrite (proj2 (poke_regs TX_ADDR _ c1 r U1 eq_refl)). unfold c1.
    by rewrite (proj2 (poke_regs RX_ADDR_P0 _ c0 r Hu eq_refl)). }
  unfold register_values. rewrite !G.
  rewrite (proj1 (poke_regs EN_RXADDR [3] c3 0 U3 eq_refl)).
  split; [split; [done|exact Hv]|]. done.
Qed.
End Setup.

(** ** Forwarding a command *)
(** The transactions completed so far; the transmit FIFO is empty whenever it is
    looked at. *)
Class BusLog (W : Type) `{SPIBus W, RadioPins W} (sent : W -> option (list Z))
    (log : W -> list (list Z)) : Prop := {
  log_transfer b w : log (spi_transfer b w).2 = log w;
  log_falls w : log (nrf24_csn_digitalWrite false w).2 = log w;
  log_rises w l : sent w = Some l -> log (nrf24_csn_digitalWrite true w).2 = log w ++ [l];
  fifo_empty b w : sent w = Some [FIFO_STATUS] -> bit_check (spi_transfer b w).1 TX_EMPTY = true
}.
Section Forward.
Context {W : Type} `{SPIBus W, RadioPins W, Delay W, RfHost W} (junk : Z).
Context (plus : bool) (view : W -> chip) (sent : W -> option (list Z)) (log : W -> list (list Z)).
Context `{!ChipOk W plus view sent, !BusLog W sent log}.
Context (buf : Z -> Z) (store : list Z -> M (rf_state W) unit).
Implicit Types (d : nrf W) (s : rf_state W).

(** Inside a transaction, and between two. *)
Definition mid (l : list Z) (L : list (list Z)) d : Prop :=
  sent (radio d) = Some l /\ log (radio d) = L.
Definition between (L : list (list Z)) d : Prop := sent (radio d) = None /\ log (radio d) = L.
Lemma begin_mid L d : between L d -> mid [] L (csn false d).2.
Proof.
  intros [_ E]. unfold csn, on_radio, mid. pose proof (csn_falls (ChipOk := ChipOk0) (radio d)) as [_ E1].
  pose proof (log_falls (radio d)) as E2.
  destruct (nrf24_csn_digitalWrite false (radio d)). cbn in *. by rewrite E1, E2.
Qed.
Lemma xfer_mid b l L d : mid l L d -> mid (l ++ [b]) L (xfer b d).2.
Proof.
  intros [E E']. unfold xfer, on_radio, mid.
  pose proof (transfers (ChipOk := ChipOk0) b (radio d) l E) as [_ E1].
  pose proof (log_transfer b (radio d)) as E2.
  destruct (spi_transfer b (radio d)). cbn in *. by rewrite E1, E2.
Qed.
Lemma put_mid b l L d : mid l L d -> mid (l ++ [b]) L (put b d).2.
Proof. intros Hm. unfold put. rewrite mbind_run. by apply xfer_mid. Qed.
Lemma transmit_mid data l L d : mid l L d -> mid (l ++ data) L (nrf24_transmitSync data d).2.
Proof.
  revert l d. induction data as [|b data IH]; intros l d Hm; [by rewrite app_nil_r|].
  unfold nrf24_transmitSync. cbn [mfor]. rewrite mbind_run.
  change (b :: data) with ([b] ++ data). rewrite app_assoc. by apply IH, put_mid.
Qed.
Lemma end_mid l L d : mid l L d -> between (L ++ [l]) (csn true d).2.
Proof.
  intros [E E']. unfold csn, on_radio, between.
  pose proof (csn_rises (ChipOk := ChipOk0) (radio d)) as [_ E1].
  pose proof (log_rises (radio d) l E) as E2.
  destruct (nrf24_csn_digitalWrite true (radio d)). cbn in *. by rewrite E1, E2, E'.
Qed.
Lemma configRegister_between r v L d :
  between L d ->
  between (L ++ [[Z.lor W_REGISTER (Z.land REGISTER_MASK r); v]]) (nrf24_configRegister r v d).2.
Proof.
  intros Hb. unfold nrf24_configRegister. rewrite !mbind_run.
  by apply (end_mid [_; _]), (put_mid _ [_]), (put_mid _ []), begin_mid.
Qed.
Lemma txFifoEmpty_between L d :
  between L d ->
  (nrf24_txFifoEmpty junk d).1 = true /\
  between (L ++ [[FIFO_STATUS; junk]]) (nrf24_txFifoEmpty junk d).2.
Proof.
  intros Hb. unfold nrf24_txFifoEmpty, read1, nrf24_readRegister. rewrite !mbind_run.
  cbn [nrf24_transferSync]. rewrite !mbind_run. cbn [mret M_ret fst snd].
  pose proof (put_mid (Z.lor R_REGISTER (Z.land REGISTER_MASK FIFO_STATUS)) [] _ _
    (begin_mid _ _ Hb)) as Hm. cbn [app] in Hm.
  split.
  - destruct Hm as [E _].
    change (aget 0 [?x] 0) with x. unfold xfer, on_radio.
    pose proof (fifo_empty junk _ E) as Ef.
    by destruct (spi_transfer junk (radio (put _ (csn false d).2).2)).
  - by apply (end_mid [_; _]), (xfer_mid _ [_]).
Qed.
Lemma drv_on_drv {A} (m : M (nrf W) A) s : drv (on_drv m s).2 = (m (drv s)).2.
Proof. unfold on_drv. by destruct (m (drv s)). Qed.
Lemma on_drv_fst {A} (m : M (nrf W) A) s : (on_drv m s).1 = (m (drv s)).1.
Proof. unfold on_drv. by destruct (m (drv s)). Qed.
Lemma wait_sent_empty fuel L s :
  (0 < fuel)%nat -> between L (drv s) ->
  (wait_sent junk buf store fuel s).1 = Some tt /\
  between (L ++ [[FIFO_STATUS; junk]]) (drv (wait_sent junk buf store fuel s).2) /\
  rf_interrupt (wait_sent junk buf store fuel s).2 = rf_interrupt s.
Proof.
  intros Hf Hb. destruct fuel as [|fuel]; [lia|]. destruct (txFifoEmpty_between _ _ Hb) as [E Hb'].
  cbn [wait_sent]. rewrite mbind_run, on_drv_fst, E. cbn [oret mret M_ret fst snd].
  rewrite drv_on_drv. split; [done|]. split; [done|]. unfold on_drv.
  by destruct (nrf24_txFifoEmpty junk (drv s)).
Qed.
(** A command is forwarded as one acknowledgement payload for pipe 1: the
    command, a zero for "not a read" and, for a block command, the block number
    and 28 bytes taken at the given offset. *)
Theorem rf_forward_sends fuel readConfigBlock leds c f o off L s :
  between L (drv s) -> (0 < fuel)%nat ->
  let r := rf_forward junk buf store fuel readConfigBlock leds c f o off s in
  r.1 = Some tt /\ rf_interrupt r.2 = true /\
  between (L ++ [[FIFO_STATUS; junk]; [0x27; IRQ_SENT];
                 [0xA9; c; 0] ++ (if block_command c
                   then o :: (if f then readConfigBlock off else leds off) else []);
                 [FIFO_STATUS; junk]]) (drv r.2).
Proof using ChipOk0 BusLog0.
  intros Hb Hf. cbv zeta. unfold rf_forward.
  destruct (wait_sent_empty fuel L s Hf Hb) as (E1 & Hb1 & _).
  rewrite (obind_some _ _ _ _ E1). set (s1 := (wait_sent junk buf store fuel s).2) in *.
  clearbody s1. rewrite !mbind_run.
  match goal with |- context [triggerInterrupt ?x] => set (s2 := x) end.
  assert (between (L ++ [[FIFO_STATUS; junk]; [0x27; IRQ_SENT];
    [0xA9; c; 0] ++ (if block_command c
       then o :: (if f then readConfigBlock off else leds off) else [])]) (drv s2)) as Hb2.
  { unfold s2. clear s2. rewrite drv_on_drv. rewrite cons_middle, (cons_middle [0x27; IRQ_SENT]).
    rewrite !app_assoc. apply end_mid.
    assert (forall l x, mid l ((L ++ [[FIFO_STATUS; junk]]) ++ [[0x27; IRQ_SENT]]) (drv x) ->
      mid (l ++ (if block_command c then o :: (if f then readConfigBlock off else leds off) else []))
        ((L ++ [[FIFO_STATUS; junk]]) ++ [[0x27; IRQ_SENT]])
        (drv (mwhen ((c =? COMMAND_SET_LEDS) || (c =? COMMAND_WRITE_CONFIG))
          (on_drv (put o) ;;
           on_drv (nrf24_transmitSync (if f then readConfigBlock off else leds off))) x).2)) as Hbody.
    { intros l x Hm. unfold block_command. rewrite orb_comm.
      destruct (_ || _); cbn [mwhen]; [|by rewrite app_nil_r].
      rewrite mbind_run, !drv_on_drv. rewrite cons_middle, app_assoc. by apply transmit_mid, put_mid. }
    apply (Hbody [_; _; _]). rewrite !drv_on_drv.
    apply (put_mid _ [_; _]), (put_mid _ [_]), (put_mid _ []), begin_mid.
    by apply configRegister_between. }
  destruct (wait_sent_empty fuel _ (triggerInterrupt s2).2 Hf Hb2) as (E3 & Hb3 & Ei).
  split; [exact E3|]. split; [by rewrite Ei|]. rewrite <- app_assoc in Hb3. exact Hb3.
Qed.
End Forward.

(** ** Passing a feature report on *)
(** The acknowledgement payload a transaction queues, if it does. *)
Definition W_ACK_1 : Z := Z.lor W_ACK_PAYLOAD 1.
Definition ack_payload (t : list Z) : option (list Z) :=
  match t with b :: l => if b =? W_ACK_1 then Some l else None | [] => None end.
(** Those queued so far. *)
Definition acks (L : list (list Z)) : list (list Z) := omap ack_payload L.
Lemma acks_snoc L t : acks (L ++ [t]) = acks L ++ option_list (ack_payload t).
Proof. unfold acks. rewrite omap_app. cbn. by destruct (ack_payload t). Qed.
(** [fulls w] is how many more looks at the status find the transmit FIFO full: the
    peer fetches what is queued, so only a new payload can raise it. *)
Class Drains (W : Type) `{SPIBus W, RadioPins W} (sent : W -> option (list Z)) (fulls : W -> nat) : Prop := {
  full_seen w : sent w = Some [] ->
    bit_check (spi_transfer NOP w).1 TX_FULL = negb (fulls w =? 0)%nat;
  full_drops w : sent w = Some [] -> fulls (spi_transfer NOP w).2 = pred (fulls w);
  transfer_fulls b w : (fulls (spi_transfer b w).2 <= fulls w)%nat;
  falls_fulls w : (fulls (nrf24_csn_digitalWrite false w).2 <= fulls w)%nat;
  rises_fulls w l : sent w = Some l -> ack_payload l = None ->
    (fulls (nrf24_csn_digitalWrite true w).2 <= fulls w)%nat
}.
Section PassOn.
Context {W : Type} `{SPIBus W, RadioPins W, Delay W, RfHost W} (junk : Z).
Context (plus : bool) (view : W -> chip) (sent : W -> option (list Z)) (log : W -> list (list Z))
  (fulls : W -> nat).
Context `{!ChipOk W plus view sent, !BusLog W sent log, !Drains W sent fulls} (buf : Z -> Z).
Implicit Types (d : nrf W) (s : rf_state W) (n : nat) (L : list (list Z)).

(** Between and inside transactions that queue nothing: the payloads [L] have been
    queued, and at most [n] more looks find the FIFO full. *)
Definition grown n L d : Prop := acks (log (radio d)) = L /\ (fulls (radio d) <= n)%nat.
Definition idle n L d : Prop := sent (radio d) = None /\ grown n L d.
Definition open n L d : Prop :=
  (exists b l, sent (radio d) = Some (b :: l) /\ b <> W_ACK_1) /\ grown n L d.
Lemma fall_opens n L d : idle n L d -> grown n L (csn false d).2 /\ sent (radio (csn false d).2) = Some [].
Proof.
  intros (_ & Hl & Hn). unfold csn, on_radio, grown.
  pose proof (csn_falls (ChipOk := ChipOk0) (radio d)) as [_ E1].
  pose proof (log_falls (radio d)) as E2. pose proof (falls_fulls (radio d)) as E3.
  destruct (nrf24_csn_digitalWrite false (radio d)) as [? w]. cbn in *. rewrite E2.
  split_and!; eauto; lia.
Qed.
Lemma xfer_grown n L b l d : sent (radio d) = Some l -> grown n L d ->
  sent (radio (xfer b d).2) = Some (l ++ [b]) /\ grown n L (xfer b d).2.
Proof.
  intros E [Hl Hn]. unfold xfer, on_radio, grown.
  pose proof (transfers (ChipOk := ChipOk0) b (radio d) l E) as [_ E1].
  pose proof (log_transfer b (radio d)) as E2. pose proof (transfer_fulls b (radio d)) as E3.
  destruct (spi_transfer b (radio d)) as [? w]. cbn in *. rewrite E2. split_and!; eauto; lia.
Qed.
Lemma command_opens n L b d : idle n L d -> b <> W_ACK_1 -> open n L (xfer b (csn false d).2).2.
Proof.
  intros Hd Hb. destruct (fall_opens n L d Hd) as [Hg Es].
  destruct (xfer_grown n L b [] _ Es Hg) as [E Hg']. split; [by exists b, []|exact Hg'].
Qed.
Lemma xfer_opens n L b d : open n L d -> open n L (xfer b d).2.
Proof.
  intros ((c & l & E & Hc) & Hg). destruct (xfer_grown n L b _ d E Hg) as [E' Hg'].
  split; [by exists c, (l ++ [b])|exact Hg'].
Qed.
Lemma rise_closes n L d : open n L d -> idle n L (csn true d).2.
Proof.
  intros ((b & l & E & Hb) & Hl & Hn). unfold csn, on_radio, idle, grown.
  assert (ack_payload (b :: l) = None) as Ea by (cbn; by rewrite (proj2 (Z.eqb_neq _ _) Hb)).
  pose proof (csn_rises (ChipOk := ChipOk0) (radio d)) as [_ E1].
  pose proof (log_rises (radio d) _ E) as E2. pose proof (rises_fulls (radio d) _ E Ea) as E3.
  destruct (nrf24_csn_digitalWrite true (radio d)) as [? w]. cbn [fst snd radio] in *.
  cbn [radio upd setter_of fst snd]. rewrite E2, acks_snoc, Ea, Hl, app_nil_r. split_and!; [done..|lia].
Qed.
Lemma put_opens n L b d : open n L d -> open n L (put b d).2.
Proof. intros Hd. unfold put. rewrite mbind_run. by apply xfer_opens. Qed.
Lemma put_command n L b d : idle n L d -> b <> W_ACK_1 -> open n L (put b (csn false d).2).2.
Proof. intros Hd. unfold put. rewrite mbind_run. by apply command_opens. Qed.
Lemma transferSync_opens n L l d : open n L d -> open n L (nrf24_transferSync l d).2.
Proof.
  revert d. induction l as [|b l IH]; intros d Hd; [done|]. cbn [nrf24_transferSync].
  rewrite !mbind_run. by apply IH, xfer_opens.
Qed.
Lemma configRegister_idle n L v d : idle n L d -> idle n L (nrf24_configRegister STATUS v d).2.
Proof.
  intros Hd. unfold nrf24_configRegister. rewrite !mbind_run.
  by apply rise_closes, put_opens, put_command.
Qed.
Lemma getData_idle n L data len d : idle n L d -> idle n L (nrf24_getData data len d).2.
Proof.
  intros Hd. unfold nrf24_getData. rewrite mbind_run, mbind_run.
  apply (configRegister_idle _ _ (BV RX_DR)) in Hd.
  set (d1 := (nrf24_configRegister _ _ d).2) in *. clearbody d1.
  assert (idle n L ((if len =? 0 then nrf24_payloadLength else mret len) d1).2) as Hd2.
  { destruct (len =? 0); [|done]. unfold nrf24_payloadLength. rewrite !mbind_run.
    by apply rise_closes, xfer_opens, put_command. }
  rewrite !mbind_run. cbn [mret M_ret snd].
  by apply rise_closes, transferSync_opens, put_command.
Qed.
(** A look at the status: full or not, and one look fewer to come. *)
Lemma getStatus_idle n L d : idle n L d ->
  idle (pred n) L (nrf24_getStatus d).2 /\
  (bit_check (nrf24_getStatus d).1 TX_FULL = true -> n <> 0%nat).
Proof.
  intros Hd. destruct (fall_opens n L d Hd) as [[Hl Hn] Es].
  destruct (command_opens n L NOP d Hd) as (Hs & Hl' & _); [done|].
  unfold nrf24_getStatus. rewrite !mbind_run. cbn [mret M_ret fst snd].
  set (d1 := (csn false d).2) in *. clearbody d1.
  pose proof (full_seen (radio d1) Es) as Eb. pose proof (full_drops (radio d1) Es) as Ed.
  split.
  - apply rise_closes. split; [exact Hs|]. split; [exact Hl'|]. unfold xfer, on_radio in *.
    destruct (spi_transfer NOP (radio d1)). cbn in *. lia.
  - unfold xfer, on_radio. destruct (spi_transfer NOP (radio d1)). cbn [fst] in *. rewrite Eb.
    intros E. apply negb_true_iff, Nat.eqb_neq in E. lia.
Qed.
Lemma tickRFInput_idle n L data len s :
  idle n L (drv s) -> idle (pred n) L (drv (tickRFInput data len s).2) \/ idle n L (drv (tickRFInput data len s).2).
Proof.
  intros Hd. unfold tickRFInput. rewrite mbind_run. cbn [mread fst snd].
  destruct (rf_interrupt s); [|by right]. left. rewrite !mbind_run. cbn [mmod fst snd].
  set (s1 := s <| rf_interrupt := false |>). destruct (getStatus_idle n L (drv s1) Hd) as [Hi _].
  rewrite on_drv_fst. destruct (negb _).
  - rewrite mbind_run. cbn [mret M_ret snd]. rewrite !drv_on_drv. by apply getData_idle.
  - cbn [mret M_ret snd]. by rewrite drv_on_drv.
Qed.
Lemma idle_pred n L d : idle (pred n) L d -> idle n L d.
Proof. intros (E & Hl & Hn). split; [done|]. split; [done|lia]. Qed.
Lemma wait_room_returns fuel n L s :
  (n < fuel)%nat -> idle n L (drv s) ->
  (wait_room buf fuel s).1 = Some tt /\ idle n L (drv (wait_room buf fuel s).2).
Proof using ChipOk0 BusLog0 Drains0.
  revert n s. induction fuel as [|fuel IH]; intros n s Hf Hd; [lia|]. cbn [wait_room].
  destruct (getStatus_idle n L (drv s) Hd) as [Hi Hfull].
  assert (drv (on_drv nrf24_txFifoFull s).2 = (nrf24_getStatus (drv s)).2 /\
    (on_drv nrf24_txFifoFull s).1 = bit_check (nrf24_getStatus (drv s)).1 TX_FULL) as [Ed Ev].
  { rewrite drv_on_drv, on_drv_fst. unfold nrf24_txFifoFull. by rewrite mbind_run. }
  rewrite mbind_run, Ev. set (s1 := (on_drv nrf24_txFifoFull s).2) in *. clearbody s1.
  rewrite <- Ed in Hi. destruct (bit_check _ TX_FULL); cbn [negb].
  2: { cbn [oret mret M_ret fst snd]. split; [done|by apply idle_pred]. }
  specialize (Hfull eq_refl). rewrite !mbind_run.
  match goal with |- (wait_room buf fuel ?x).1 = _ /\ _ => destruct (IH (pred n) x) as [E1 E2] end;
    [lia| |split; [exact E1|by apply idle_pred]].
  rewrite drv_on_drv. apply configRegister_idle.
  destruct (tickRFInput_idle (pred n) L buf 0 (triggerInterrupt s1).2 Hi); [by apply idle_pred|done].
Qed.

(** A feature report for a wireless controller is queued as exactly one
    acknowledgement payload, the command, a zero for "not a read" and the first 30
    bytes of the report: however full the radio's FIFO is, the wait ends as soon as
    the peer has fetched enough, and queues nothing itself. *)
Theorem rf_pass_on_sends fuel cmd data s :
  sent (radio (drv s)) = None -> (fulls (radio (drv s)) < fuel)%nat ->
  let r := rf_pass_on buf fuel cmd data s in
  r.1 = Some tt /\ rf_interrupt r.2 = true /\ sent (radio (drv r.2)) = None /\
  acks (log (radio (drv r.2))) = acks (log (radio (drv s))) ++ [[cmd; 0] ++ take 30 data].
Proof using ChipOk0 BusLog0 Drains0.
  intros Es Hf. cbv zeta. unfold rf_pass_on.
  destruct (wait_room_returns fuel (fulls (radio (drv s))) (acks (log (radio (drv s)))) s Hf) as [E1 Hi].
  { split; [done|]. split; [reflexivity|done]. }
  rewrite (obind_some _ _ _ _ E1). set (s1 := (wait_room buf fuel s).2) in *. clearbody s1.
  rewrite !mbind_run. cbn [oret mret M_ret fst snd]. split; [done|]. split; [done|].
  change (drv (triggerInterrupt ?x).2) with (drv x). rewrite !drv_on_drv.
  apply (configRegister_idle _ _ IRQ_SENT) in Hi.
  set (d := (nrf24_configRegister _ _ _).2) in *. clearbody d. destruct Hi as (Ed & <- & _).
  assert (between sent log (log (radio d)) d) as Hb by done. unfold nrf24_writeAckPayload. rewrite !mbind_run.
  change (Z.lor W_ACK_PAYLOAD 1) with W_ACK_1.
  assert (between sent log (log (radio d) ++ [W_ACK_1 :: [cmd; 0] ++ take 30 data])
    (csn true (nrf24_transmitSync ([cmd; 0] ++ take 30 data) (put W_ACK_1 (csn false d).2).2).2).2)
    as [E2 ->].
  { eapply end_mid; [exact ChipOk0|exact BusLog0|].
    eapply transmit_mid with (l := [W_ACK_1]); [exact ChipOk0|exact BusLog0|].
    eapply put_mid with (l := []); [exact ChipOk0|exact BusLog0|].
    eapply begin_mid; [exact ChipOk0|exact BusLog0|exact Hb]. }
  split; [exact E2|]. by rewrite acks_snoc.
Qed.
End PassOn.

(** ** A chip on the bus *)
Record bench : Type := mkBench {
  b_chip : chip; b_sent : option (list Z); b_log : list (list Z)
}.
Section Bench.
Context (plus : bool).
(** Status 0x0E: nothing received; FIFO status 0x11: both FIFOs empty. *)
#[global] Instance bench_spi : SPIBus bench := {|
  spi_begin _ _ _ _ w := (tt, w);
  spi_transfer b w :=
    (match b_sent w with
     | Some (cmd :: l) =>
         if is_config cmd then nth (length l) (peek (b_chip w) cmd) 0
         else if cmd =? FIFO_STATUS then 0x11 else 0
     | _ => 0x0E
     end, mkBench (b_chip w) ((fun l => l ++ [b]) <$> b_sent w) (b_log w));
  spi_high w := (tt, w);
  spi_low w := (tt, w)
|}.
Definition bench_csn (level : bool) (w : bench) : bench :=
  if level then
    match b_sent w with
    | Some l => mkBench (commit plus l (b_chip w)) None (b_log w ++ [l])
    | None => w
    end
  else mkBench (b_chip w) (Some []) (b_log w).
Definition bench_pins : RadioPins bench := {|
  nrf24_ce_digitalWrite _ w := (tt, w);
  nrf24_csn_digitalWrite level w := (tt, bench_csn level w)
|}.
#[global] Instance bench_delay : Delay bench := fun _ w => (tt, w).
#[global] Instance bench_host : RfHost bench := {|
  rf_pin_output _ w := (tt, w);
  rf_irq_enable w := (tt, w)
|}.
Lemma bench_chip_ok : ChipOk (H0 := bench_pins) bench plus b_chip b_sent.
Proof.
  split; try done.
  - intros w. cbn. unfold bench_csn. by destruct (b_sent w) eqn:E.
  - intros b w l E. cbn. by rewrite E.
  - intros b w cmd l E Hc. cbn. by rewrite E, Hc.
Qed.
Lemma bench_host_ok : RfHostOk bench b_chip b_sent.
Proof. by split. Qed.
Lemma bench_log_ok : BusLog (H0 := bench_pins) bench b_sent b_log.
Proof.
  split; try done.
  - intros w l E. cbn. by rewrite E.
  - intros b w E. cbn. by rewrite E.
Qed.
End Bench.
(** A chip with the ACTIVATE command, just powered on. *)
Definition power_on_chip : chip :=
  mkChip (fun r => if r =? CONFIG then [0x08] else if r =? RF_SETUP then [0x0F] else [0]) false.
Definition rf_off : rf_state bench :=
  mkRf false (mkNrf false false false (mkBench power_on_chip None [])).
Lemma initRF_configures_witness :
  let c := chip_of b_chip
    (initRF (H0 := bench_pins false) 16000000 0 8 10 10 true 0xDEADBEEF 0x12345678 rf_off).2 in
  regs c CONFIG = [0x0E] /\ regs c TX_ADDR = [0xEF; 0xBE; 0xAD; 0xDE] /\
  regs c RX_ADDR_P1 = [0x78; 0x56; 0x34; 0x12] /\ regs c FEATURE = [6].
Proof.
  cbv zeta.
  destruct (@initRF_configures _ _ (bench_pins false) _ _ 16000000 0 8 10 10 false b_chip b_sent
    (bench_chip_ok false) bench_host_ok true 0xDEADBEEF 0x12345678 rf_off)
    as ((_ & Ec & _ & _ & _ & _ & _ & Ef & _) & Et & _ & Er & _).
  - reflexivity.
  - by split.
  - exists 8, 15, 0, 0. by repeat split.
  - split; [exact Ec|]. split; [exact Et|]. split; [exact Er|exact Ef].
Defined.
Lemma rf_forward_sends_witness :
  b_log (radio (drv (rf_forward (H0 := bench_pins true) 0 (fun _ => 0) (fun _ => mret tt) 1
    (fun o => (fun i => o + i) <$> iota 28) (fun _ => []) 0x3d true 1 56 rf_off).2)) =
  [[0x17; 0]; [0x27; 0x30];
   [0xA9; 0x3d; 0; 1] ++ ((fun i => 56 + i) <$> iota 28); [0x17; 0]].
Proof.
  destruct (@rf_forward_sends _ _ (bench_pins true) _ 0 true b_chip b_sent b_log
    (bench_chip_ok true) (bench_log_ok true) (fun _ => 0) (fun _ => mret tt) 1
    (fun o => (fun i => o + i) <$> iota 28) (fun _ => []) 0x3d true 1 56 [] rf_off)
    as (_ & _ & _ & E).
  - by split.
  - lia.
  - exact E.
Defined.
(** The same chip with payloads still queued: so many looks find it full. *)
#[local] Instance full_spi : SPIBus (bench * nat) := {|
  spi_begin _ _ _ _ := mret tt;
  spi_transfer b w :=
    let '(r, x) := spi_transfer b w.1 in
    match b_sent w.1 with
    | Some [] => (if (w.2 =? 0)%nat then r else Z.lor r 1, (x, pred w.2))
    | _ => (r, (x, w.2))
    end;
  spi_high := mret tt; spi_low := mret tt
|}.
#[local] Instance full_pins : RadioPins (bench * nat) := {|
  nrf24_ce_digitalWrite _ := mret tt;
  nrf24_csn_digitalWrite level w := (tt, (bench_csn true level w.1, w.2))
|}.
#[local] Instance full_delay : Delay (bench * nat) := fun _ => mret tt.
#[local] Instance full_host : RfHost (bench * nat) := {|
  rf_pin_output _ := mret tt; rf_irq_enable := mret tt
|}.
Lemma full_ok : ChipOk (bench * nat) true (fun w => b_chip w.1) (fun w => b_sent w.1) /\
  BusLog (bench * nat) (fun w => b_sent w.1) (fun w => b_log w.1) /\
  Drains (bench * nat) (fun w => b_sent w.1) snd.
Proof.
  split; [|split]; split; try done; intros; repeat match goal with w : bench * nat |- _ => destruct w as [[c [[|x l']|] lg] m] end;
    cbn in *; simplify_eq; try done; try lia.
  - by match goal with E : is_config _ = true |- _ => rewrite E end.
  - by destruct m.
Qed.
Lemma rf_pass_on_sends_witness :
  let s := mkRf false (mkNrf false false false (mkBench power_on_chip None [], 2%nat)) in
  acks (b_log (radio (drv (rf_pass_on (fun _ => 0) 3 0x3d (iota 40) s).2)).1) =
    [[0x3d; 0] ++ iota 30].
Proof.
  cbv zeta. destruct full_ok as (C & B & D).
  destruct (@rf_pass_on_sends _ _ _ _ true _ _ _ snd C B D (fun _ => 0) 3 0x3d (iota 40)
    (mkRf false (mkNrf false false false (mkBench power_on_chip None [], 2%nat))))
    as (_ & _ & _ & E).
  - done.
  - cbn. lia.
  - exact E.
Defined.
(** Two flash serial numbers that differ in the last byte. *)
Lemma generate_crc32_distinguishes_witness :
  generate_crc32 8 (fun i => if i =? 7 then 1 else 0xE6) <>
  generate_crc32 8 (fun i => if i =? 7 then 2 else 0xE6).
Proof.
  apply (generate_crc32_distinguishes 8 _ _ 4 7).
  - intros j. by destruct (j =? 7).
  - intros j. by destruct (j =? 7).
  - intros j Hj. by rewrite (proj2 (Z.eqb_neq j 7)) by lia.
  - lia.
  - lia.
  - discriminate.
Defined.
(** On the ATmega2560 the interrupt that [initRF] enables has no handler. *)
Lemma rf_interrupt_handled m : rf_int m = rf_vector m <-> m <> atmega2560.
Proof. by destruct m. Qed.
