(* ===== verification/Serial.v ===== *)
(** * The host tool's commands: [shared/output/serial_handler.c]

    Feature reports carry commands from the host: configuration upload and
    download, pin detection, LEDs, identification.  The configuration store is
    the interface of [Eeprom.v], the radio that of [Rf.v]; the rest of the
    firmware is [SerialHost]. *)

From Stdlib Require Import ZArith Lia.
From stdpp Require Import base tactics numbers list.
From S2P Require Import Prelude Packed Defs Config Eeprom World Nrf24 Rf UnoMain.
Open Scope Z_scope.

Class SerialHost (W : Type) := {
  reboot : M W unit;
  bootloader : M W unit;
  findAnalogPin : M W unit;
  findDigitalPin : M W unit;
  stopSearching : M W unit;
  detectedPin : M W Z;
  setSP : bool -> M W unit;
  (* a store at [leds + a] *)
  poke_leds : Z -> Z -> M W unit;
  (* the six 16-bit values, as bytes *)
  analogueData : M W (list Z);
  wiiExtensionID : M W Z;
  ps2CtrlType : M W Z;
  writeToUSB : list Z -> M W unit
}.

(** ** Data of the build *)
Definition id : list Z := [0x21; 0x26; 0x01; 0x07; 0x00; 0x00; 0x00; 0x00].
(** "ERROR" with its terminator. *)
Definition err : list Z := [69; 82; 82; 79; 82; 0].
Definition DBUF : nat := 64.
Definition CHUNK : Z := 50.
Definition sizeof_cpu_info : Z := 24.

Section Serial.
Context {W : Type} `{SPIBus W, RadioPins W, Clock W, ConfigStore W, SerialHost W}.
Context (junk : Z) (isRF : bool) (inputType fullDeviceType : Z).
(** What [COMMAND_GET_CPU_INFO] reports. *)
Context (ARDWIINO_BOARD : list Z) (F_CPU rfID : Z) (MULTI_ADAPTOR : bool).

Record serial_state : Type := mkSerial { dbuf : list Z; rf : rf_state W }.
#[global] Instance etaSerial : Settable serial_state := fun r =>
  {| dbuf := dbuf r; rf := rf r |}.
Definition on_rf {A} (m : M (rf_state W) A) : M serial_state A :=
  fun s => let '(a, r) := m (rf s) in (a, s <| rf := r |>).
Definition on_host {A} (m : M W A) : M serial_state A := on_rf (on_drv (on_radio m)).

(** *** Commands without a reply *)
Definition handleCommand (cmd : Z) : M serial_state bool :=
  if cmd =? COMMAND_REBOOT then on_host reboot ;; mret false
  else if cmd =? COMMAND_JUMP_BOOTLOADER then on_host bootloader ;; mret false
  else if cmd =? COMMAND_FIND_ANALOG then mwhen (negb isRF) (on_host findAnalogPin) ;; mret true
  else if cmd =? COMMAND_FIND_DIGITAL then mwhen (negb isRF) (on_host findDigitalPin) ;; mret true
  else if cmd =? COMMAND_WRITE_CONFIG then mret false
  else if cmd =? COMMAND_RESET then on_host resetConfig ;; mret false
  else mret true.
(** [data] is the memory behind the pointer. *)
Definition processHIDWriteFeatureReport (cmd data_len : Z) (data : Z -> Z) : M serial_state unit :=
  let offset := u16 (data 0 * PACKET_SIZE) in
  let rest := (fun i => data (1 + i)) <$> iota (Z.to_nat (u8 (data_len - 1))) in
  if cmd =? COMMAND_WRITE_CONFIG then on_host (writeConfigBlock offset rest)
  else if cmd =? COMMAND_SET_LEDS then
    mfor (zip (iota (length rest)) rest) (fun '(i, b) => on_host (poke_leds (offset + i) b))
  else
    mwhen (cmd =? COMMAND_SET_SP) (on_host (setSP (negb (data 1 =? 0)))) ;;
    handleCommand cmd ;; mret tt.

(** *** Replies *)
(** [memcpy (dbuf + off, l)]; [None] is a write past the buffer's end. *)
Definition fill (off : nat) (l : list Z) : M serial_state (option unit) :=
  if decide (off + length l <= DBUF)%nat
  then olift (mmod (fun s => s <| dbuf ::= splice off l |>)) else mret None.
Definition reply (size : Z) : M serial_state (option unit) :=
  s ← mread dbuf; on_host (writeToUSB (take (Z.to_nat size) s)) ;; oret tt.
(** The part of the configuration that [cmd] asks for. *)
Definition config_index (cmd : Z) : Z := u16 (CHUNK * (cmd - COMMAND_READ_CONFIG)).
Definition config_size (cmd : Z) : Z :=
  let size2 := i16 (Z.of_nat sizeof_cfg - config_index cmd) in
  if size2 <? CHUNK then u8 size2 else CHUNK.
(** Asks the controller's side until it answers with something that is not a
    controller report, for at most half a second. *)
Fixpoint rf_read (fuel : nat) (cmd ms : Z) : M serial_state (option Z) :=
  match fuel with
  | O => mret None
  | S fuel =>
      full ← on_rf (on_drv nrf24_txFifoFull);
      mwhen (negb full) (on_rf (on_drv (nrf24_writeAckPayload [cmd; 1]))) ;;
      on_rf triggerInterrupt ;;
      b ← mread dbuf;
      r ← on_rf (tickRFInput (aget junk b) 0);
      let payload := default [] r in
      _ ←? fill 0 payload;
      let len := Z.of_nat (length payload) in
      if negb (len =? 0) && negb (len =? 12) then oret len
      else
        on_rf (on_drv (nrf24_configRegister STATUS IRQ_SENT)) ;;
        now ← on_host millis;
        if u32 (now - ms) >? 500 then
          _ ←? fill 0 (HID_Report_val REPORT_ID_CONTROL :: err); oret (Z.of_nat (length err) + 1)
        else rf_read fuel cmd ms
  end.
Definition processHIDReadFeatureReport (fuel : nat) (cmd : Z) : M serial_state (option unit) :=
  if isRF && (cmd <? COMMAND_READ_CONFIG) && negb (cmd =? COMMAND_GET_CPU_INFO) then
    on_rf (on_drv nrf24_flush_tx) ;; on_rf (on_drv nrf24_flush_rx) ;;
    ms ← on_host millis;
    len ←? rf_read fuel cmd ms;
    reply len
  else
    _ ←? fill 0 [HID_Report_val REPORT_ID_CONTROL];
    if cmd >=? COMMAND_READ_CONFIG then
      block ← on_host (readConfigBlock (config_index cmd) (config_size cmd));
      _ ←? fill 1 block;
      reply (u8 (config_size cmd + 1))
    else if (cmd =? COMMAND_GET_CPU_INFO) || (cmd =? COMMAND_GET_RF_CPU_INFO) then
      (* the board's name is terminated and leaves what follows it alone *)
      _ ←? fill 6 (ARDWIINO_BOARD ++ [0]);
      _ ←? fill 1 (le_bytes 4 F_CPU);
      _ ←? fill 21 (le_bytes 4 rfID);
      _ ←? fill 5 [Z.b2z MULTI_ADAPTOR];
      reply (sizeof_cpu_info + 1)
    else if cmd =? COMMAND_GET_VALUES then
      v ← on_host analogueData;
      _ ←? fill 1 v;
      reply (Z.of_nat (length v) + 1)
    else if cmd =? COMMAND_GET_EXTENSION then
      _ ←? (if inputType =? WII then
              e ← on_host wiiExtensionID;
              fill 1 [Z.land e 0xff; u8 (Z.shiftl e 8)]
            else if inputType =? PS2 then
              t ← on_host ps2CtrlType; fill 1 [t]
            else oret tt);
      reply 3
    else if cmd =? COMMAND_GET_FOUND then
      p ← on_host detectedPin;
      _ ←? fill 1 [p];
      on_host stopSearching ;;
      reply 2
    else
      _ ←? fill 1 id;
      _ ←? (if fullDeviceType <=? PS3_ROCK_BAND_DRUMS then fill 4 [0]
            else if fullDeviceType <=? PS3_GUITAR_HERO_DRUMS then fill 4 [6] else oret tt);
      reply (Z.of_nat (length id) + 1).
End Serial.
Arguments serial_state : clear implicits.

(** ** Running the handlers *)
Section Run.
Context {W : Type} `{SPIBus W, RadioPins W, Clock W, ConfigStore W, SerialHost W}.
Context (junk : Z) (isRF : bool) (inputType fullDeviceType : Z).
Context (ARDWIINO_BOARD : list Z) (F_CPU rfID : Z) (MULTI_ADAPTOR : bool).
Implicit Types (s : serial_state W) (w : W).
Abbreviation read cmd := (processHIDReadFeatureReport junk isRF inputType fullDeviceType
  ARDWIINO_BOARD F_CPU rfID MULTI_ADAPTOR 0 cmd).
Abbreviation write := (processHIDWriteFeatureReport isRF).

Definition host s : W := radio (drv (rf s)).
Definition set_host w s : serial_state W :=
  s <| rf ::= fun r => r <| drv ::= fun d => d <| radio := w |> |> |>.
Lemma host_op_run {A} (m : M W A) s : on_host m s = ((m (host s)).1, set_host (m (host s)).2 s).
Proof.
  unfold on_host, on_rf, on_drv, on_radio, host, set_host.
  destruct s as [b [i [t p x w]]]. cbn. by destruct (m w).
Qed.
Lemma host_set w s : host (set_host w s) = w.
Proof. by destruct s as [b [i [t p x w0]]]. Qed.
Lemma set_set w1 w2 s : set_host w1 (set_host w2 s) = set_host w1 s.
Proof. by destruct s as [b [i [t p x w0]]]. Qed.
Lemma dbuf_set w s : dbuf (set_host w s) = dbuf s.
Proof. by destruct s as [b [i [t p x w0]]]. Qed.
Lemma fill_run off l s :
  (off + length l <= DBUF)%nat -> fill off l s = (Some tt, s <| dbuf ::= splice off l |>).
Proof. intros Hl. unfold fill. by rewrite decide_True. Qed.
Lemma fill_overrun off l s : (DBUF < off + length l)%nat -> fill off l s = (None, s).
Proof. intros Hl. unfold fill. by rewrite decide_False by lia. Qed.
Lemma reply_run size s :
  reply size s =
    (Some tt, set_host (writeToUSB (take (Z.to_nat size) (dbuf s)) (host s)).2 s).
Proof. unfold reply. rewrite mbind_run. cbn [mread fst snd]. by rewrite mbind_run, host_op_run. Qed.

Lemma reply_bytes (x : Z) (b d : list Z) : take (S (length b)) (splice 1 b (splice 0 [x] d)) = x :: b.
Proof. unfold splice. rewrite take_0. cbn. f_equal. rewrite take_0, app_nil_l. apply take_app_length. Qed.

(** *** Reading the configuration *)
Lemma config_index_small k : 0 <= k < 6 -> config_index (62 + k) = 50 * k.
Proof.
  intros Hk. unfold config_index, CHUNK. change (SerialCommands_val COMMAND_READ_CONFIG) with 62.
  rewrite uwrap_small by (unfold in_u; lia). lia.
Qed.
Definition chunk_len (k : Z) : Z := if k =? 5 then 25 else 50.
Lemma config_size_small k : 0 <= k < 6 -> config_size (62 + k) = chunk_len k.
Proof. intros Hk. by zcases k 0 6. Qed.
Context (store_ok : W -> Prop) `{!ConfigStoreOk W store_ok}.
Definition image w : list Z := (readConfigBlock 0 (Z.of_nat sizeof_cfg) w).1.
Definition chunk_of (k : Z) w : list Z := slice (Z.to_nat (50 * k)) (Z.to_nat (chunk_len k)) (image w).
Lemma read_chunk k s :
  0 <= k < 6 -> store_ok (host s) -> length (dbuf s) = DBUF ->
  length (image (host s)) = sizeof_cfg ->
  exists d, length d = DBUF /\
    read (62 + k) s = (Some tt, set_host (writeToUSB (8 :: chunk_of k (host s)) (host s)).2
                                  (s <| dbuf := d |>)).
Proof.
  intros Hk Hs Hd Hi. unfold processHIDReadFeatureReport.
  assert ((62 + k <? COMMAND_READ_CONFIG) = false) as -> by (apply Z.ltb_ge; cbn; lia).
  rewrite andb_false_r. cbn [andb].
  assert ((62 + k >=? COMMAND_READ_CONFIG) = true) as -> by (rewrite Z.geb_leb; apply Z.leb_le; cbn; lia).
  rewrite (obind_some _ _ _ tt) by (by rewrite fill_run by (unfold DBUF; cbn; lia)).
  rewrite fill_run by (unfold DBUF; cbn; lia). cbn [snd].
  set (s1 := s <| dbuf ::= splice 0 [HID_Report_val REPORT_ID_CONTROL] |>).
  rewrite mbind_run, host_op_run. change (host s1) with (host s).
  rewrite config_index_small, config_size_small by done.
  assert (50 * k = Z.of_nat (Z.to_nat (50 * k))) as Eo by lia.
  assert (chunk_len k = Z.of_nat (Z.to_nat (chunk_len k))) as El by (unfold chunk_len; by destruct (k =? 5)).
  assert (Z.to_nat (50 * k) + Z.to_nat (chunk_len k) <= sizeof_cfg)%nat as Hb.
  { change sizeof_cfg with 275%nat. unfold chunk_len. destruct (Z.eqb_spec k 5); lia. }
  rewrite Eo, El, read_slice by done. cbn [fst snd]. fold (image (host s)). fold (chunk_of k (host s)).
  assert (length (chunk_of k (host s)) = Z.to_nat (chunk_len k)) as Hlen.
  { apply length_slice. by rewrite Hi. }
  set (b := chunk_of k (host s)) in *. clearbody b.
  assert (length b <= 50)%nat as Hb50 by (rewrite Hlen; unfold chunk_len; destruct (k =? 5); lia).
  set (s2 := set_host (host s) s1).
  assert (s2 = s1) as -> by (unfold s2, s1; by destruct s as [? [? [? ? ? ?]]]).
  rewrite (obind_some _ _ _ tt) by (rewrite fill_run by (unfold DBUF; lia); done).
  rewrite fill_run by (unfold DBUF; lia). cbn [snd]. rewrite reply_run.
  eexists (splice 1 b (splice 0 [HID_Report_val REPORT_ID_CONTROL] (dbuf s))). split.
  { unfold DBUF in *. rewrite !length_splice; rewrite ?length_splice; cbn [length]; lia. }
  assert (u8 (Z.of_nat (Z.to_nat (chunk_len k)) + 1) = Z.of_nat (S (length b))) as ->.
  { rewrite Hlen. unfold chunk_len. by destruct (k =? 5). }
  rewrite Nat2Z.id. unfold s1. cbn [dbuf upd setter_of]. rewrite reply_bytes.
  unfold set_host. by destruct s as [? [? [? ? ? ?]]].
Qed.

(** *** Uploading and reading back *)
(** The packets the host tool sends: a block number and up to 28 bytes. *)
Fixpoint cut (n : nat) (l : list Z) : list (list Z) :=
  match n with O => [] | S n => take 28 l :: cut n (drop 28 l) end.
Definition packet (k : Z) (c : list Z) (i : Z) : Z := aget 0 (k :: c) i.
Fixpoint upload (k : Z) (chunks : list (list Z)) : M (serial_state W) unit :=
  match chunks with
  | [] => mret tt
  | c :: cs =>
      write COMMAND_WRITE_CONFIG (1 + Z.of_nat (length c)) (packet k c) ;; upload (k + 1) cs
  end.
Lemma packet_data k c :
  (length c <= 28)%nat ->
  (fun i => packet k c (1 + i)) <$> iota (Z.to_nat (u8 (1 + Z.of_nat (length c) - 1))) = c.
Proof.
  intros Hc. rewrite uwrap_small by (unfold in_u; lia).
  replace (Z.to_nat _) with (length c) by lia.
  apply list_eq. intros i. unfold iota. rewrite !list_lookup_fmap.
  destruct (decide (i < length c)%nat) as [Hi|Hi].
  - rewrite lookup_seq_lt by done. cbn. unfold packet, aget.
    replace (Z.to_nat (1 + Z.of_nat i)) with (S i) by lia. cbn [nth].
    rewrite nth_lookup. by destruct (lookup_lt_is_Some_2 c i Hi) as [x ->].
  - rewrite lookup_seq_ge by lia. cbn. symmetry. apply lookup_ge_None_2. lia.
Qed.
Lemma write_packet k c s :
  byte k -> (length c <= 28)%nat ->
  write COMMAND_WRITE_CONFIG (1 + Z.of_nat (length c)) (packet k c) s =
    (tt, set_host (writeConfigBlock (28 * k) c (host s)).2 s).
Proof.
  intros Hk Hc. unfold processHIDWriteFeatureReport. rewrite Z.eqb_refl, packet_data by done.
  rewrite host_op_run. change (packet k c 0) with k.
  unfold PACKET_SIZE. rewrite uwrap_small by (unfold in_u in *; lia).
  rewrite Z.mul_comm. by destruct (writeConfigBlock _ c (host s)) as [[] ?].
Qed.
Lemma upload_run n k l s :
  0 <= k -> k + Z.of_nat n <= 256 -> (length l <= 28 * n)%nat -> (28 * n < length l + 28)%nat ->
  upload k (cut n l) s = (tt, set_host (write_chunks (28 * k) (cut n l) (host s)).2 s).
Proof.
  revert k l s. induction n as [|n IH]; intros k l s Hk Hn Hl Hl'.
  { cbn. by destruct s as [? [? [? ? ? ?]]]. }
  cbn [cut upload write_chunks]. rewrite mbind_run, write_packet.
  2:{ unfold in_u. lia. }
  2:{ rewrite length_take. lia. }
  cbn [snd]. rewrite mbind_run. destruct n as [|n].
  { cbn. by rewrite set_set || done. }
  rewrite IH by (rewrite ?length_drop; lia). rewrite host_set, set_set.
  replace (28 * k + Z.of_nat (length (take 28 l))) with (28 * (k + 1)); [done|].
  rewrite length_take. lia.
Qed.
Lemma concat_cut n l : (length l <= 28 * n)%nat -> concat (cut n l) = l.
Proof.
  revert l. induction n as [|n IH]; intros l Hl; [by destruct l; [|cbn in Hl; lia]|].
  cbn [cut concat]. rewrite IH by (rewrite length_drop; lia). apply take_drop.
Qed.
(** The image is the six chunks. *)
Lemma image_chunks w :
  length (image w) = sizeof_cfg -> concat ((fun k => chunk_of k w) <$> iota 6) = image w.
Proof.
  intros Hi. unfold chunk_of. generalize dependent (image w). intros l Hl.
  cbn -[slice]. rewrite app_nil_r, !app_assoc.
  change (((((slice 0 50 l ++ slice 50 50 l) ++ slice 100 50 l) ++ slice 150 50 l) ++
    slice 200 50 l) ++ slice 250 25 l = l).
  rewrite !slice_app. unfold slice. rewrite drop_0. apply take_ge. by rewrite Hl.
Qed.

(** What else the host sees: packets sent to it are logged and leave the stored
    configuration alone. *)
Class UsbLog (out : W -> list (list Z)) : Prop := {
  usb_out l w : out (writeToUSB l w).2 = out w ++ [l];
  usb_ok l w : store_ok w -> store_ok (writeToUSB l w).2;
  usb_image l w : image (writeToUSB l w).2 = image w;
  block_out off l w : out (writeConfigBlock off l w).2 = out w
}.
Context (out : W -> list (list Z)) `{!UsbLog out}.
Lemma chunks_out off chunks w : out (write_chunks off chunks w).2 = out w.
Proof.
  revert off w. induction chunks as [|c cs IH]; intros off w; [done|].
  cbn [write_chunks]. by rewrite mbind_run, IH, block_out.
Qed.
Lemma read_chunks ks s :
  Forall (fun k => 0 <= k < 6) ks -> store_ok (host s) -> length (dbuf s) = DBUF ->
  length (image (host s)) = sizeof_cfg ->
  out (host (mfor ks (fun k => read (62 + k) ;; mret tt) s).2) =
    out (host s) ++ ((fun k => 8 :: chunk_of k (host s)) <$> ks).
Proof.
  intros Hks. revert s. induction Hks as [|k ks Hk _ IH]; intros s Hs Hd Hi.
  { by rewrite app_nil_r. }
  cbn [mfor fmap list_fmap]. destruct (read_chunk k s Hk Hs Hd Hi) as (d & Ed & Er).
  rewrite mbind_run, mbind_run, Er. cbn [mret M_ret fst snd].
  set (w := (writeToUSB (8 :: chunk_of k (host s)) (host s)).2).
  assert (image w = image (host s)) as Ew by apply usb_image.
  rewrite IH; rewrite ?host_set, ?dbuf_set; [|by apply usb_ok|done|by rewrite Ew].
  unfold w at 1. rewrite usb_out, <- app_assoc. cbn [app].
  do 2 f_equal. unfold chunk_of. by rewrite Ew.
Qed.

(** C7: What the host tool uploads it can read back: the ten WRITE_CONFIG packets
    of a configuration image, then READ_CONFIG for its six parts, give exactly
    six replies that hold the image, in order, behind the report id. *)
Theorem config_roundtrip l s :
  store_ok (host s) -> length (dbuf s) = DBUF -> bytes l -> length l = sizeof_cfg ->
  let s' := (upload 0 (cut 10 l) ;;
             mfor (iota 6) (fun k => read (62 + k) ;; mret tt)) s in
  exists replies, out (host s'.2) = out (host s) ++ (cons 8 <$> replies) /\
    concat replies = l /\ length replies = 6%nat.
Proof using ConfigStoreOk0 UsbLog0.
  intros Hs Hd Hb Hl. cbv zeta.
  assert (concat (cut 10 l) = l) as Ec by (apply concat_cut; rewrite Hl; by apply Nat.leb_le).
  destruct (upload_read (host s) (cut 10 l) Hs) as [Ho Hr]; [by rewrite Ec|by rewrite Ec|].
  rewrite Ec in Hr. fold (image (write_chunks 0 (cut 10 l) (host s)).2) in Hr.
  rewrite mbind_run, upload_run; [|done|done|rewrite Hl; by apply Nat.leb_le|
    rewrite Hl; by apply Nat.ltb_lt].
  cbn [snd]. change (28 * 0) with 0. set (w := (write_chunks 0 (cut 10 l) (host s)).2) in *.
  rewrite read_chunks; rewrite ?host_set, ?dbuf_set; [|by repeat constructor|done|done|by rewrite Hr].
  unfold w at 1. rewrite chunks_out.
  exists ((fun k => chunk_of k w) <$> iota 6). rewrite <- list_fmap_compose.
  split; [done|]. split; [|done]. rewrite image_chunks; [done|by rewrite Hr].
Qed.
End Run.

(** ** Replies and the buffer's end *)
Section Bounds.
Context {W : Type} `{SPIBus W, RadioPins W, Clock W, ConfigStore W, SerialHost W}.
Context (junk : Z) (inputType fullDeviceType : Z).
Context (ARDWIINO_BOARD : list Z) (F_CPU rfID : Z) (MULTI_ADAPTOR : bool).
Implicit Types (s : serial_state W).
Abbreviation read cmd := (processHIDReadFeatureReport junk false inputType fullDeviceType
  ARDWIINO_BOARD F_CPU rfID MULTI_ADAPTOR 0 cmd).

Lemma obind_fill {B} off l (k : unit -> M (serial_state W) (option B)) s :
  (off + length l <= DBUF)%nat ->
  obind (fill off l) k s = k tt (s <| dbuf ::= splice off l |>).
Proof. intros Hl. rewrite (obind_some _ _ _ tt); by rewrite fill_run. Qed.
Lemma config_size_past cmd :
  68 <= cmd < 256 ->
  Z.of_nat sizeof_cfg < config_index cmd /\
  config_size cmd = (Z.of_nat sizeof_cfg - config_index cmd) mod 256.
Proof.
  intros Hc. unfold config_size, config_index, CHUNK. change (SerialCommands_val COMMAND_READ_CONFIG) with 62.
  change (Z.of_nat sizeof_cfg) with 275. rewrite uwrap_small by (unfold in_u; lia).
  rewrite swrap_small by (unfold in_s; lia). split; [lia|].
  by rewrite (proj2 (Z.ltb_lt _ _)) by lia.
Qed.
Lemma reply_some size s : (reply size s).1 = Some tt.
Proof. by rewrite reply_run. Qed.
Lemma host_fill_reply {A} (m : M W A) (f : A -> list Z) off size s :
  (off + length (f (m (host s)).1) <= DBUF)%nat ->
  ((a ← on_host m; _ ←? fill off (f a); reply (size a)) s).1 = Some tt.
Proof. intros Hl. by rewrite mbind_run, host_op_run, obind_fill, reply_some. Qed.
(** Every reply but the configuration's. *)
Lemma replies_fit cmd s :
  cmd < 62 -> (length ARDWIINO_BOARD <= 14)%nat -> length (analogueData (host s)).1 = 12%nat ->
  (read cmd s).1 = Some tt.
Proof.
  intros Hc Hb Ha. unfold processHIDReadFeatureReport. cbn [andb].
  rewrite obind_fill by (unfold DBUF; cbn; lia).
  set (s1 := s <| dbuf ::= _ |>). assert (host s1 = host s) as Eh by done. clearbody s1.
  assert ((cmd >=? COMMAND_READ_CONFIG) = false) as ->.
  { rewrite Z.geb_leb. apply Z.leb_gt. exact Hc. }
  destruct (_ || _).
  { rewrite obind_fill by (rewrite length_app; unfold DBUF; cbn; lia).
    rewrite !obind_fill by (rewrite ?length_le_bytes; unfold DBUF; cbn; lia). apply reply_some. }
  destruct (cmd =? COMMAND_GET_VALUES).
  { apply (host_fill_reply _ (fun v => v)). rewrite Eh, Ha. unfold DBUF. lia. }
  destruct (cmd =? COMMAND_GET_EXTENSION).
  { destruct (inputType =? WII); [|destruct (inputType =? PS2)];
      (rewrite (obind_some _ _ _ tt); [apply reply_some|]);
      rewrite ?mbind_run, ?host_op_run; cbn [fst snd]; [rewrite fill_run by (unfold DBUF; cbn; lia); done..|done]. }
  destruct (cmd =? COMMAND_GET_FOUND).
  { rewrite mbind_run, host_op_run. cbn [fst snd].
    rewrite obind_fill by (unfold DBUF; cbn; lia). by rewrite mbind_run, reply_some. }
  rewrite obind_fill by (unfold DBUF; cbn; lia).
  destruct (fullDeviceType <=? PS3_ROCK_BAND_DRUMS); [|destruct (fullDeviceType <=? PS3_GUITAR_HERO_DRUMS)];
    rewrite ?(obind_some (oret tt) _ _ tt eq_refl), ?obind_fill by (unfold DBUF; cbn; lia);
    apply reply_some.
Qed.
Lemma config_reply cmd s :
  62 <= cmd ->
  length (readConfigBlock (config_index cmd) (config_size cmd) (host s)).1
    = Z.to_nat (config_size cmd) ->
  (read cmd s).1 = None <-> 63 < config_size cmd.
Proof.
  intros Hc Hr. unfold processHIDReadFeatureReport. cbn [andb].
  rewrite obind_fill by (unfold DBUF; cbn; lia).
  set (s1 := s <| dbuf ::= _ |>). assert (host s1 = host s) as Eh by done. clearbody s1.
  assert ((cmd >=? COMMAND_READ_CONFIG) = true) as ->.
  { rewrite Z.geb_leb. apply Z.leb_le. exact Hc. }
  rewrite mbind_run, host_op_run, Eh. cbn [fst snd].
  destruct (Z.lt_ge_cases 63 (config_size cmd)) as [Hbig|Hsmall].
  - split; [done|]. intros _. unfold obind. rewrite mbind_run, fill_overrun; [done|].
    rewrite Hr. unfold DBUF. lia.
  - rewrite obind_fill by (rewrite Hr; unfold DBUF; lia). rewrite reply_some. split; [done|lia].
Qed.
(** C39: Every reply fits into the 64-byte buffer, except that READ_CONFIG numbers
    past the sixth part read behind the configuration a number of bytes that is
    negative, taken modulo 256: the buffer is overrun exactly when that is more
    than 63, the first time for the very next number (231 bytes). *)
Theorem read_overruns_iff cmd s :
  0 <= cmd < 256 -> (length ARDWIINO_BOARD <= 14)%nat ->
  length (analogueData (host s)).1 = 12%nat ->
  length (readConfigBlock (config_index cmd) (config_size cmd) (host s)).1
    = Z.to_nat (config_size cmd) ->
  (read cmd s).1 = None <->
    68 <= cmd /\ 63 < (Z.of_nat sizeof_cfg - 50 * (cmd - 62)) mod 256.
Proof.
  intros Hc Hb Ha Hr. destruct (Z.lt_ge_cases cmd 62) as [Hlt|Hge].
  { rewrite replies_fit by done. split; [done|lia]. }
  rewrite config_reply by done. destruct (Z.lt_ge_cases cmd 68) as [Hin|Hpast].
  - replace cmd with (62 + (cmd - 62)) at 1 by lia. rewrite config_size_small by lia.
    unfold chunk_len. destruct (_ =? 5); split; lia.
  - destruct (config_size_past cmd ltac:(lia)) as [_ ->].
    assert (config_index cmd = 50 * (cmd - 62)) as ->; [|by split; [|intros []]].
    unfold config_index, CHUNK. change (SerialCommands_val COMMAND_READ_CONFIG) with 62.
    apply uwrap_small. unfold in_u. lia.
Qed.
End Bounds.

(** ** A board on the host tool's desk *)
(** Any store, with the packets sent to the host beside it. *)
Section Desk.
Context {S : Type} (ok : S -> Prop) `{ConfigStoreOk S ok}.
Record desk : Type := mkDesk { stored : S; packets : list (list Z) }.
Definition on_store {A} (m : M S A) : M desk A :=
  fun w => let '(a, f) := m (stored w) in (a, mkDesk f (packets w)).
#[global] Instance desk_store : ConfigStore desk := {|
  loadConfig := on_store loadConfig;
  resetConfig := on_store resetConfig;
  writeConfigBlock o l := on_store (writeConfigBlock o l);
  readConfigBlock o n := on_store (readConfigBlock o n)
|}.
Definition desk_ok (w : desk) : Prop := ok (stored w).
Lemma on_store_run {A} (m : M S A) w :
  on_store m w = ((m (stored w)).1, mkDesk (m (stored w)).2 (packets w)).
Proof. unfold on_store. by destruct (m (stored w)). Qed.
Lemma desk_load w :
  loadConfig w = ((loadConfig (stored w)).1, mkDesk (loadConfig (stored w)).2 (packets w)).
Proof. exact (on_store_run loadConfig w). Qed.
Lemma desk_reset w :
  resetConfig w = ((resetConfig (stored w)).1, mkDesk (resetConfig (stored w)).2 (packets w)).
Proof. exact (on_store_run resetConfig w). Qed.
Lemma desk_write o l w : writeConfigBlock o l w =
  ((writeConfigBlock o l (stored w)).1, mkDesk (writeConfigBlock o l (stored w)).2 (packets w)).
Proof. exact (on_store_run (writeConfigBlock o l) w). Qed.
Lemma desk_read o n w : readConfigBlock o n w =
  ((readConfigBlock o n (stored w)).1, mkDesk (readConfigBlock o n (stored w)).2 (packets w)).
Proof. exact (on_store_run (readConfigBlock o n) w). Qed.
Lemma desk_padded off blocks w :
  write_padded off blocks w =
    (tt, mkDesk (write_padded off blocks (stored w)).2 (packets w)).
Proof.
  revert off w. induction blocks as [|[c p] bs IH]; intros off w; [by destruct w|].
  cbn [write_padded]. by rewrite !mbind_run, IH, desk_write.
Qed.
#[global] Instance desk_store_ok : ConfigStoreOk desk desk_ok.
Proof.
  split; intros w; unfold desk_ok; rewrite ?desk_load, ?desk_reset; cbn [fst snd stored].
  - apply load_wf.
  - apply (load_version (store_ok := ok)).
  - apply (load_signature (store_ok := ok)).
  - apply load_ok.
  - intros Hw. rewrite ?desk_load. cbn [stored packets fst snd]. by rewrite (load_idem (store_ok := ok)).
  - intros blocks Hw Hb Hl. rewrite desk_padded. cbn [snd stored]. rewrite desk_read.
    by apply upload_padded.
  - intros off len Hw Hl. rewrite !desk_read. cbn [fst].
    rewrite (read_slice (store_ok := ok)) by done. by destruct w.
  - intros c Hw Hc. rewrite desk_read. by apply (load_current (store_ok := ok)).
  - intros Hw. rewrite desk_read. by apply reset_read.
Qed.
#[global] Instance desk_spi : SPIBus desk := {|
  spi_begin _ _ _ _ w := (tt, w); spi_transfer _ w := (0, w);
  spi_high w := (tt, w); spi_low w := (tt, w)
|}.
#[global] Instance desk_pins : RadioPins desk := {|
  nrf24_ce_digitalWrite _ w := (tt, w); nrf24_csn_digitalWrite _ w := (tt, w)
|}.
#[global] Instance desk_clock : Clock desk := {| millis w := (0, w); micros w := (0, w) |}.
#[global] Instance desk_host : SerialHost desk := {|
  reboot w := (tt, w); bootloader w := (tt, w); findAnalogPin w := (tt, w);
  findDigitalPin w := (tt, w); stopSearching w := (tt, w); detectedPin w := (0xff, w);
  setSP _ w := (tt, w); poke_leds _ _ w := (tt, w);
  analogueData w := (replicate 12 0, w); wiiExtensionID w := (0x0103, w);
  ps2CtrlType w := (0, w);
  writeToUSB l w := (tt, mkDesk (stored w) (packets w ++ [l]))
|}.
Lemma desk_log : UsbLog (W := desk) desk_ok packets.
Proof.
  split; try done.
  - intros l w. unfold image. by rewrite !desk_read.
  - intros off l w. by rewrite desk_write.
Qed.
End Desk.
Arguments desk : clear implicits.
Abbreviation board := (desk PicoFlash.flash_state).
Definition desk_start : serial_state board :=
  mkSerial (replicate 64 0)
    (mkRf false (mkNrf false false false
      (mkDesk (PicoFlash.mkFlash (replicate 4096 0xff) (replicate 512 0)) []))).
Lemma config_roundtrip_witness :
  exists replies,
    concat replies = cenc Cfg.codec default_config /\ length replies = 6%nat /\
    packets (host ((upload false 0 (cut 10 (cenc Cfg.codec default_config)) ;;
      mfor (iota 6) (fun k => processHIDReadFeatureReport 0 false 1 0 [] 0 0 false 0 (62 + k) ;;
                              mret tt)) desk_start).2) = cons 8 <$> replies.
Proof.
  destruct (@config_roundtrip board _ _ _ _ _ 0 false 1 0 [] 0 0 false
    (desk_ok PicoFlash.flash_ok) _ packets (desk_log PicoFlash.flash_ok)
    (cenc Cfg.codec default_config) desk_start) as (r & E & Ec & El).
  - unfold desk_ok, PicoFlash.flash_ok. repeat split; try reflexivity; by apply Forall_replicate.
  - reflexivity.
  - apply enc_bytes, default_config_wf.
  - apply enc_length, default_config_wf.
  - exists r. split; [exact Ec|]. split; [exact El|exact E].
Defined.
(** The part after the last overruns the buffer; number 72 does not. *)
Lemma read_overruns_iff_witness :
  (processHIDReadFeatureReport 0 false 1 0 [85; 110; 111] 0 0 false 0 68 desk_start).1 = None /\
  (processHIDReadFeatureReport 0 false 1 0 [85; 110; 111] 0 0 false 0 72 desk_start).1 <> None.
Proof.
  split.
  - apply (read_overruns_iff 0 1 0 [85; 110; 111] 0 0 false 68 desk_start);
      [lia|cbn; lia|reflexivity|vm_compute; reflexivity|].
    split; [lia|reflexivity].
  - intros E.
    apply (read_overruns_iff 0 1 0 [85; 110; 111] 0 0 false 72 desk_start) in E;
      [|lia|cbn; lia|reflexivity|vm_compute; reflexivity].
    destruct E as [_ E]. discriminate E.
Defined.
