(* ===== verification/Mains.v ===== *)
(** * The main programs: [avr/micro/main/main.c], [avr/uno/rf/main.c], [avr/micro/rf/main.c]

    Start-up of every board and the main loops of the boards with a USB or radio
    side of their own.  The inputs, LEDs and report generators the loops call are
    the interface [MainHost]; the start-up calls are [Startup]. *)

From Stdlib Require Import ZArith Lia.
From stdpp Require Import base tactics numbers list option.
From S2P Require Import Prelude Packed Defs Config Controller Eeprom Reports Descriptors RingBuffer UnoUsb.
Open Scope Z_scope.

(** ** Start-up *)
Class Startup (W : Type) := {
  setupMicrosTimer : M W unit;
  (* transmitter, own id, peer id *)
  initRF : bool -> Z -> Z -> M W unit;
  generate_crc32 : M W Z;
  initInputs : Configuration_t -> M W unit;
  initReports : Configuration_t -> M W unit;
  initLEDs : Configuration_t -> M W unit;
  USB_Init : M W unit
}.
Record globals : Set := mkGlobals {
  fullDeviceType : Z; deviceType : Z; pollRate : Z; inputType : Z;
  typeIsDrum : bool; typeIsGuitar : bool; isRF : bool
}.
#[global] Instance etaGlobals : Settable globals := fun r =>
  {| fullDeviceType := fullDeviceType r; deviceType := deviceType r; pollRate := pollRate r;
     inputType := inputType r; typeIsDrum := typeIsDrum r; typeIsGuitar := typeIsGuitar r;
     isRF := isRF r |}.
(** The subtype reported to the host: XInput guitars and drums have their own. *)
Definition real_type (full : Z) : Z :=
  let t := if isGuitar full && (full <=? XINPUT_ARCADE_PAD) then REAL_GUITAR_SUBTYPE else full in
  if isDrum full && (t <=? XINPUT_ARCADE_PAD) then REAL_DRUM_SUBTYPE else t.

Section StartUp.
Context {W : Type} `{ConfigStore W, Startup W}.
Definition type_globals (full : Z) (real : bool) (config : Configuration_t) (rf : bool) : globals :=
  mkGlobals full (if real then real_type full else full) (Main.pollRate (Cfg.main config))
    (Main.inputType (Cfg.main config)) (isDrum full) (isGuitar full) rf.
Definition init_source (config : Configuration_t) : M W bool :=
  let rf := negb (RF.rfInEnabled (Cfg.rf config) =? 0) in
  (if (rf : bool)
   then crc ← generate_crc32; initRF false (RF.id (Cfg.rf config)) crc
   else initInputs config) ;;
  mret rf.
(** avr/micro/main *)
Definition micro_initialise : M W globals :=
  config ← loadConfig;
  setupMicrosTimer ;;
  rf ← init_source config;
  initReports config ;; initLEDs config ;; USB_Init ;;
  mret (type_globals (subType config) true config rf).
(** avr/uno/main *)
Definition uno_initialise : M W globals :=
  config ← loadConfig;
  setupMicrosTimer ;;
  rf ← init_source config;
  initReports config ;; initLEDs config ;;
  mret (type_globals (subType config) false config rf).
(** pico/main; [compiled] is what [fullDeviceType] was initialised with
    ([OUTPUT_TYPE]). *)
Definition pico_initialise (compiled : Z) : M W globals :=
  USB_Init ;;
  config ← loadConfig;
  setupMicrosTimer ;;
  rf ← init_source config;
  initReports config ;; initLEDs config ;;
  mret (type_globals compiled true config rf).
(** The transmitters: avr/uno/rf, avr/micro/rf and pico/rf.  They have no radio
    input; [rftx] and [rfrx] are the ids in the flash. *)
Definition no_rf_input (config : Configuration_t) : Configuration_t :=
  config <| Cfg.rf ::= fun r => r <| RF.rfInEnabled := 0 |> |>.
Definition uno_rf_initialise (rftx rfrx : Z) : M W globals :=
  config ← loadConfig;
  let config := no_rf_input config in
  setupMicrosTimer ;;
  initInputs config ;; initReports config ;; initLEDs config ;;
  initRF true rftx rfrx ;;
  mret (type_globals (subType config) true config false).
Definition micro_rf_initialise (rftx rfrx : Z) : M W globals :=
  config ← loadConfig;
  let config := no_rf_input config in
  setupMicrosTimer ;;
  rf ← init_source config;
  initReports config ;; initLEDs config ;; USB_Init ;;
  initRF true rftx rfrx ;;
  mret (type_globals (subType config) true config rf).
Definition pico_rf_initialise (compiled rftx rfrx : Z) : M W globals :=
  initRF true rftx rfrx ;;
  config ← loadConfig;
  let config := no_rf_input config in
  initInputs config ;; initLEDs config ;;
  mret (type_globals compiled false config false).
End StartUp.

(** ** The loops *)
Class MainHost (W : Type) := {
  tickInputs : Controller_t -> M W Controller_t;
  tickLEDs : Controller_t -> M W unit;
  tickRFInput : Controller_t -> M W Controller_t;
  (* the report buffer and the size, from the old buffer *)
  fillReport : Controller_t -> list Z -> M W (list Z * Z);
  millis : M W Z
}.

(** *** avr/micro/main *)
Class StreamEndpoints (W : Type) := Endpoint_Write_Stream_LE : list Z -> M W unit.
Section Micro.
Context {W : Type} `{Endpoints W, StreamEndpoints W, MainHost W} (g : globals).
Record micro_state : Type := mkMicro {
  prevController : Controller_t; controller : Controller_t; currentReport : list Z; size : Z;
  lastPoll : Z; dev : W
}.
#[global] Instance etaMicro : Settable micro_state := fun r =>
  {| prevController := prevController r; controller := controller r;
     currentReport := currentReport r; size := size r; lastPoll := lastPoll r; dev := dev r |}.
Definition on_dev {A} (m : M W A) : M micro_state A :=
  fun s => let '(a, w) := m (dev s) in (a, s <| dev := w |>).
(** The endpoint a report id selects and whether the id is left out. *)
Definition micro_endpoint (rid : Z) : option Z * bool :=
  if rid =? REPORT_ID_XINPUT then (Some XINPUT_EPADDR_IN, false)
  else if rid =? REPORT_ID_MIDI then (Some MIDI_EPADDR_IN, true)
  else if rid =? REPORT_ID_GAMEPAD then (Some HID_EPADDR_IN, true)
  else if (rid =? REPORT_ID_KBD) || (rid =? REPORT_ID_MOUSE) then (Some HID_EPADDR_IN, false)
  else (None, false).
Definition micro_send : M micro_state unit :=
  s ← mread id;
  r ← on_dev (fillReport (controller s) (currentReport s));
  mmod (fun s => s <| currentReport := r.1 |> <| size := r.2 |>) ;;
  mwhen (negb (r.2 =? 0))
    (now ← on_dev millis;
     mmod (fun s => s <| lastPoll := now |>) ;;
     let '(ep, strip) := micro_endpoint (aget 0 r.1 0) in
     match ep with Some e => on_dev (Endpoint_SelectEndpoint e) | None => mret tt end ;;
     let data := if (strip : bool) then drop 1 r.1 else r.1 in
     let size' := if (strip : bool) then u8 (r.2 - 1) else r.2 in
     mmod (fun s => s <| size := size' |> <| prevController := controller s |>) ;;
     on_dev (Endpoint_Write_Stream_LE (take (Z.to_nat size') data)) ;;
     on_dev Endpoint_ClearIN).
(** Reading the inputs; [false] is [continue]. *)
Definition micro_tick : M micro_state bool :=
  s ← mread id;
  if isRF g then
    c ← on_dev (tickRFInput (controller s));
    mmod (fun s => s <| controller := c |>) ;; mret true
  else
    c ← on_dev (tickInputs (controller s));
    mmod (fun s => s <| controller := c |>) ;;
    on_dev (tickLEDs c) ;;
    now ← on_dev millis;
    mret (negb (u32 (now - lastPoll s) <? pollRate g)).
(** One round of the loop. *)
Definition micro_loop : M micro_state unit :=
  on_dev USB_USBTask ;;
  due ← micro_tick;
  if negb due then mret tt
  else
    s ← mread id;
    if bool_decide (controller s = prevController s) then mret tt
    else
      ready ← on_dev Endpoint_IsINReady;
      mwhen ready micro_send.
End Micro.
Arguments micro_state : clear implicits.

(** *** The transmitters *)
Class RadioHost (W : Type) := {
  (* the payload of the acknowledgement, if there is one *)
  tickRFTX : list Z -> M W (option (list Z));
  readFeature : Z -> M W unit;
  (* command, length, the memory behind the pointer *)
  writeFeature : Z -> Z -> (Z -> Z) -> M W unit;
  handleCommand : Z -> M W unit;
  powerDown : M W unit
}.
Section Transmitter.
Context {W : Type} `{MainHost W, RadioHost W} (pollRate : Z) (leds : bool).
(** The stack behind a received payload. *)
Context (stack : Z -> Z).
Record tx_state : Type := mkTx {
  tx_controller : Controller_t; prevCtrl : Controller_t; tx_lastPoll : Z; lastChange : Z;
  lastButtons : Z; tx_dev : W
}.
#[global] Instance etaTx : Settable tx_state := fun r =>
  {| tx_controller := tx_controller r; prevCtrl := prevCtrl r; tx_lastPoll := tx_lastPoll r;
     lastChange := lastChange r; lastButtons := lastButtons r; tx_dev := tx_dev r |}.
Definition on_tx {A} (m : M W A) : M tx_state A :=
  fun s => let '(a, w) := m (tx_dev s) in (a, s <| tx_dev := w |>).
Definition elapsed (since : Z) : M tx_state Z := now ← on_tx millis; mret (u32 (now - since)).
(** A command from the receiver. *)
Definition dispatch (payload : list Z) : M tx_state unit :=
  let data i := if i <? Z.of_nat (length payload) then aget 0 payload i else stack i in
  let cmd := data 0 in
  if negb (data 1 =? 0) then on_tx (readFeature cmd)
  else if cmd =? COMMAND_WRITE_CONFIG then on_tx (writeFeature cmd 30 (fun i => data (2 + i)))
  else on_tx (handleCommand cmd).
Definition tx_send : M tx_state unit :=
  now ← on_tx millis;
  mmod (fun s => s <| tx_lastPoll := now |>) ;;
  s ← mread id;
  r ← on_tx (tickRFTX (cenc Controller_codec (tx_controller s)));
  match r with Some payload => dispatch payload | None => mret tt end ;;
  mmod (fun s => s <| prevCtrl := tx_controller s |>) ;;
  s ← mread id;
  mwhen (negb (lastButtons s =? buttons (tx_controller s)))
    (mmod (fun s => s <| lastButtons := buttons (tx_controller s) |>) ;;
     now ← on_tx millis;
     mmod (fun s => s <| lastChange := now |>)).
(** After ten minutes without a change of the buttons the board sleeps. *)
Definition tx_sleep : M tx_state unit :=
  s ← mread id;
  idle ← elapsed (lastChange s);
  mwhen (idle >? 600000)
    (now ← on_tx millis; mmod (fun s => s <| lastChange := now |>) ;; on_tx powerDown).
Definition tx_read : M tx_state unit :=
  s ← mread id;
  c ← on_tx (tickInputs (tx_controller s));
  mmod (fun s => s <| tx_controller := c |>) ;;
  mwhen leds (on_tx (tickLEDs c)).
Definition tx_poll : M tx_state unit :=
  s ← mread id;
  if bool_decide (tx_controller s = prevCtrl s)
  then e ← elapsed (tx_lastPoll s); mwhen (e >? 100) tx_send
  else tx_send.
(** One round of the loop. *)
Definition tx_loop : M tx_state unit :=
  tx_sleep ;;
  s ← mread id;
  e ← elapsed (tx_lastPoll s);
  mwhen (e >? pollRate) (tx_read ;; tx_poll).
End Transmitter.
Arguments tx_state : clear implicits.

(** ** Start-up: what the host is told *)
Lemma init_source_flag {W} `{Startup W} config (w : W) :
  (init_source config w).1 = negb (RF.rfInEnabled (Cfg.rf config) =? 0).
Proof. unfold init_source. by rewrite mbind_run. Qed.
Lemma real_type_spec full :
  real_type full =
    if decide (full <= XINPUT_ARCADE_PAD /\ isGuitar full = true) then REAL_GUITAR_SUBTYPE
    else if decide (full <= XINPUT_ARCADE_PAD /\ isDrum full = true) then REAL_DRUM_SUBTYPE
    else full.
Proof.
  unfold real_type. pose proof (isDrum_isGuitar full) as X.
  destruct (isGuitar full), (isDrum full), (Z.leb_spec full XINPUT_ARCADE_PAD); cbn [andb];
    try (specialize (X eq_refl); discriminate); repeat case_decide;
    intuition (try reflexivity; try congruence; try lia);
    by destruct (Z.leb_spec full XINPUT_ARCADE_PAD); try lia.
Qed.

(** Every AVR board takes its type from the stored configuration: guitars and
    drums among the XInput types are reported with the subtypes a real guitar and
    real drums have, every other type as it is; a type is never both.  The
    RP2040's main program never looks at the stored type: whatever the store
    holds, it is the one compiled in. *)
Theorem stored_type_used {W} `{ConfigStore W, Startup W} (w : W) :
  let full := subType (loadConfig w).1 in
  let g := (micro_initialise w).1 in
  fullDeviceType g = full /\
  deviceType g = (if decide (full <= XINPUT_ARCADE_PAD /\ isGuitar full = true) then REAL_GUITAR_SUBTYPE
                  else if decide (full <= XINPUT_ARCADE_PAD /\ isDrum full = true) then REAL_DRUM_SUBTYPE
                  else full) /\
  typeIsGuitar g = isGuitar full /\ typeIsDrum g = isDrum full /\
  ~ (typeIsGuitar g = true /\ typeIsDrum g = true) /\
  fullDeviceType (uno_initialise w).1 = full /\
  (forall tx rx, (uno_rf_initialise tx rx w).1 = g <| isRF := false |> /\
                 (micro_rf_initialise tx rx w).1 = g <| isRF := false |>) /\
  forall compiled, fullDeviceType (pico_initialise compiled w).1 = compiled /\
    deviceType (pico_initialise compiled w).1 = real_type compiled.
Proof.
  intros full g.
  assert (g = type_globals full true (loadConfig w).1
    (negb (RF.rfInEnabled (Cfg.rf (loadConfig w).1) =? 0))) as ->.
  { unfold g, micro_initialise. rewrite !mbind_run. cbn [fst snd mret M_ret].
    by rewrite init_source_flag. }
  repeat split; try reflexivity.
  - apply real_type_spec.
  - cbn. intros [Hg Hd]. apply isDrum_isGuitar in Hd. congruence.
  - unfold uno_initialise. by rewrite !mbind_run.
  - unfold uno_rf_initialise. by rewrite !mbind_run.
  - unfold micro_rf_initialise. rewrite !mbind_run. cbn [fst snd mret M_ret].
    by rewrite init_source_flag.
  - unfold pico_initialise. by rewrite !mbind_run.
  - unfold pico_initialise. by rewrite !mbind_run.
Qed.


(** ** The Micro's host sees the controller *)
(** [delivered] are the packets given to the endpoints, in order; [image] the
    report of a controller, for the report kinds that depend on nothing else;
    [good] and [shape] what the fill relies on in the device and in the old
    buffer. *)
Class MicroOk (W : Type) `{Endpoints W, StreamEndpoints W, MainHost W} (good : W -> Prop)
    (shape : list Z -> Prop) (delivered : W -> list (Z * list Z))
    (image : Controller_t -> list Z) : Prop := {
  micro_polls : keeps delivered USB_USBTask /\ keeps delivered Endpoint_IsINReady /\
    keeps delivered millis;
  micro_ticks c : keeps delivered (tickInputs c) /\ keeps delivered (tickLEDs c) /\
    keeps delivered (tickRFInput c);
  fill_keeps c b : keeps delivered (fillReport c b);
  polls_good : holds good USB_USBTask /\ holds good Endpoint_IsINReady /\ holds good millis;
  ticks_good c : holds good (tickInputs c) /\ holds good (tickLEDs c) /\ holds good (tickRFInput c);
  send_good ep l : holds good (Endpoint_SelectEndpoint ep) /\
    holds good (Endpoint_Write_Stream_LE l) /\ holds good Endpoint_ClearIN;
  fill_image c b w : good w -> shape b -> let r := fillReport c b w in
    r.1.2 = Z.of_nat (length (image c)) /\ take (length (image c)) r.1.1 = image c /\
    shape r.1.1 /\ good r.2;
  image_size c : (0 < length (image c) < 256)%nat;
  image_endpoint c : exists ep, (micro_endpoint (aget 0 (image c) 0)).1 = Some ep;
  stream_packet ep l w :
    delivered (Endpoint_ClearIN (Endpoint_Write_Stream_LE l (Endpoint_SelectEndpoint ep w).2).2).2 =
    delivered w ++ [(ep, l)]
}.

Section MicroSpec.
Context {W : Type} `{MicroOk W good shape delivered image} (g : globals).
Implicit Types (s : micro_state W).
(** The packet that shows a controller. *)
Definition packet_for (c : Controller_t) : Z * list Z :=
  let '(ep, strip) := micro_endpoint (aget 0 (image c) 0) in
  (default 0 ep, if strip then drop 1 (image c) else image c).
Definition seen s : list (Z * list Z) := delivered (dev s).
Definition in_shape s : Prop := good (dev s) /\ shape (currentReport s).
(** The last packet, if there is one, shows [prevController]. *)
Definition host_current s : Prop :=
  in_shape s /\ (seen s = [] \/ exists l, seen s = l ++ [packet_for (prevController s)]).
(** The round looks at the controller: the poll is due. *)
Definition round_due s : Prop := (micro_tick g (on_dev USB_USBTask s).2).1 = true.

Lemma on_board_run {A} (m : M W A) s : on_dev m s = ((m (dev s)).1, s <| dev := (m (dev s)).2 |>).
Proof. unfold on_dev. by destruct (m (dev s)). Qed.
Lemma micro_send_spec s : in_shape s ->
  let s' := (micro_send s).2 in
  seen s' = seen s ++ [packet_for (controller s)] /\ prevController s' = controller s /\
  controller s' = controller s /\ in_shape s'.
Proof.
  destruct s as [prev ctl b0 n0 lp w]. intros [Hg Hb]. cbn [dev currentReport] in *. cbv zeta.
  pose proof micro_polls as (_ & _ & K). pose proof (fill_keeps ctl b0) as Kf.
  pose proof polls_good as (_ & _ & Gm).
  pose proof (fill_image ctl b0 w Hg Hb) as (Hr & Ht & Hs & Hw).
  pose proof (image_size ctl) as Hn. destruct (image_endpoint ctl) as [ep Hep].
  unfold micro_send, seen. rewrite !mbind_run, !on_board_run. cbn [fst snd mread id controller currentReport dev].
  specialize (Kf w).
  destruct (fillReport ctl b0 w) as [[b n] w1]; cbn [fst snd] in *.
  assert (aget 0 b 0 = aget 0 (image ctl) 0) as ->.
  { rewrite <- Ht. unfold aget. destruct b, (image ctl); simpl in *; done || lia. }
  unfold packet_for. destruct (micro_endpoint _) as [ep0 strip]. cbn [fst] in Hep. subst ep0 n.
  destruct (Z.eqb_spec (Z.of_nat (length (image ctl))) 0); [lia|]. cbn [negb mwhen].
  rewrite !mbind_run, !on_board_run. cbn -[aget micro_endpoint length Z.of_nat take drop uwrap Z.to_nat].
  assert (take (Z.to_nat (if strip then u8 (Z.of_nat (length (image ctl)) - 1)
      else Z.of_nat (length (image ctl)))) (if strip then drop 1 b else b) =
    if strip then drop 1 (image ctl) else image ctl) as ->.
  { destruct strip.
    - rewrite uwrap_small by (unfold in_u; lia).
      transitivity (drop 1 (take (length (image ctl)) b)); [|by rewrite Ht].
      rewrite skipn_firstn_comm. f_equal. lia.
    - rewrite Nat2Z.id. done. }
  split; [rewrite stream_packet, (K w1), Kf; done|]. split; [done|]. split; [done|]. split; [|exact Hs].
  destruct (send_good ep (if strip then drop 1 (image ctl) else image ctl)) as (G1 & G2 & G3).
  apply G3, G2, G1, Gm, Hw.
Qed.

Lemma micro_tick_spec s : good (dev s) ->
  let r := micro_tick g s in
  seen r.2 = seen s /\ prevController r.2 = prevController s /\ good (dev r.2) /\
  currentReport r.2 = currentReport s /\ (isRF g = true \/ pollRate g = 0 -> r.1 = true).
Proof.
  pose proof micro_polls as (_ & _ & K3). pose proof (micro_ticks (controller s)) as (T1 & _ & T3).
  pose proof polls_good as (_ & _ & G3). pose proof (ticks_good (controller s)) as (G1 & _ & G4).
  intros Hg. unfold micro_tick. rewrite mbind_run. cbn [mread id fst snd].
  destruct (isRF g); rewrite !mbind_run, !on_board_run; cbn [fst snd]; unfold seen; cbn -[uwrap].
  - split; [apply T3|]. split; [done|]. split; [by apply G4|done].
  - pose proof (micro_ticks (tickInputs (controller s) (dev s)).1) as (_ & T2 & _).
    pose proof (ticks_good (tickInputs (controller s) (dev s)).1) as (_ & G2 & _).
    split; [rewrite (K3 _), (T2 _); apply T1|]. split; [done|]. split; [by apply G3, G2, G1|].
    split; [done|]. intros [|Hp]; [done|]. apply negb_true_iff, Z.ltb_ge. rewrite Hp.
    match goal with |- 0 <= u32 ?z => pose proof (uwrap_range 32 ltac:(lia) z) end. unfold in_u in *. lia.
Qed.
Lemma micro_loop_spec s :
  in_shape s ->
  let s' := (micro_loop g s).2 in
  in_shape s' /\ controller s' = controller (micro_tick g (on_dev USB_USBTask s).2).2 /\
  (seen s' = seen s /\ prevController s' = prevController s \/
   seen s' = seen s ++ [packet_for (controller s')] /\ prevController s' = controller s') /\
  ((forall w, (Endpoint_IsINReady w).1 = true) ->
   isRF g = true \/ pollRate g = 0 \/ round_due s -> prevController s' = controller s').
Proof.
  intros [Hg Hb] s'. subst s'. unfold micro_loop, round_due.
  pose proof micro_polls as (K1 & K2 & _). pose proof polls_good as (G1 & G2 & _).
  rewrite mbind_run, on_board_run. cbn [fst snd].
  set (s1 := s <| dev := _ |>). assert (seen s1 = seen s) as E1 by apply K1.
  assert (prevController s1 = prevController s /\ currentReport s1 = currentReport s) as [P1 B1] by done.
  assert (good (dev s1)) as Hg1 by (apply (G1 _ Hg)). clearbody s1.
  rewrite mbind_run. destruct (micro_tick_spec s1 Hg1) as (E2 & P2 & Hg2 & B2 & Hdue).
  set (s2 := (micro_tick g s1).2) in *. set (due := (micro_tick g s1).1) in *.
  clearbody s2 due. rewrite E1 in E2. rewrite P1 in P2. rewrite B1 in B2.
  assert (in_shape s2) as Hc2 by (unfold in_shape; by rewrite B2).
  destruct due; cbn [negb].
  2: { cbn. split; [done|]. split; [done|]. split; [auto|]. intros _ [|[|]]; try done; discriminate Hdue; auto. }
  rewrite mbind_run. cbn [mread fst snd id]. case_bool_decide as Hc.
  { cbn. split; [done|]. split; [done|]. split; [auto|]. intros _ _. by symmetry. }
  rewrite mbind_run, on_board_run. cbn [fst snd].
  set (s3 := s2 <| dev := _ |>). assert (seen s3 = seen s2) as E3 by apply K2.
  assert (in_shape s3) as S3.
  { split; [apply (G2 _ Hg2)|apply Hc2]. }
  destruct ((Endpoint_IsINReady (dev s2)).1) eqn:R; cbn [mwhen].
  - destruct (micro_send_spec s3 S3) as (E4 & P4 & C4 & S4). rewrite E4, P4, C4, E3, E2.
    split; [done|]. split; [done|]. split; [by right|done].
  - cbn [snd mret M_ret]. split; [exact S3|].
    split; [done|]. split; [left; by rewrite E3|]. intros Hr _. specialize (Hr (dev s2)). congruence.
Qed.

(** C18: On the Micro the last packet the host got always shows the state the
    program believes it has sent, and every round either sends nothing or exactly
    one packet, which shows the current state; when the endpoint is free and the
    poll is due, the host is up to date after the round. *)
Theorem micro_host_up_to_date s :
  host_current s ->
  let s' := (micro_loop g s).2 in
  host_current s' /\
  (seen s' = seen s /\ prevController s' = prevController s \/
   seen s' = seen s ++ [packet_for (controller s')] /\ prevController s' = controller s') /\
  ((forall w, (Endpoint_IsINReady w).1 = true) ->
   isRF g = true \/ pollRate g = 0 \/ round_due s -> prevController s' = controller s').
Proof.
  intros [Hs Hl]. destruct (micro_loop_spec s Hs) as (Hs' & _ & Hp & Hd).
  split; [|split; [exact Hp|exact Hd]]. split; [exact Hs'|].
  destruct Hp as [[E P]|[E P]]; rewrite E, P; [exact Hl|]. right. by exists (seen s).
Qed.
End MicroSpec.

(** A Micro whose inputs stand still, whose endpoint is always free, and which
    sends XInput reports from a zeroed buffer. *)
Record bench_usb : Set := mkBenchUsb { b_ep : Z; b_bank : list Z; b_sent : list (Z * list Z) }.
Definition bench_image (c : Controller_t) : list Z := (fillXInputReport (replicate 20 0) c).2.
Definition bench_endpoints : Endpoints bench_usb := {|
  Endpoint_SelectEndpoint e := mmod (fun w => mkBenchUsb e (b_bank w) (b_sent w));
  Endpoint_GetCurrentEndpoint := mread b_ep;
  Endpoint_Write_8 b := mmod (fun w => mkBenchUsb (b_ep w) (b_bank w ++ [b]) (b_sent w));
  Endpoint_ClearIN := mmod (fun w => mkBenchUsb (b_ep w) [] (b_sent w ++ [(b_ep w, b_bank w)]));
  Endpoint_IsINReady := mret true; Endpoint_IsOUTReceived := mret false;
  Endpoint_BytesInEndpoint := mread (fun w => Z.of_nat (length (b_bank w)));
  Endpoint_Read_8 := mret 0; Endpoint_ClearOUT := mret tt; Endpoint_ClearSETUP := mret tt;
  Endpoint_ClearStatusStage := mret tt; USB_USBTask := mret tt
|}.
Definition bench_stream : StreamEndpoints bench_usb :=
  fun l => mmod (fun w => mkBenchUsb (b_ep w) l (b_sent w)).
Definition bench_main (c0 : Controller_t) : MainHost bench_usb := {|
  tickInputs _ := mret c0; tickLEDs _ := mret tt; tickRFInput _ := mret c0;
  fillReport c _ := mret (bench_image c, 20); millis := mret 1000
|}.
Lemma bench_micro_ok c0 :
  @MicroOk bench_usb bench_endpoints bench_stream (bench_main c0) (fun _ => True) (fun _ => True)
    b_sent bench_image.
Proof.
  split; try done.
  - intros c. cbn -[take]. unfold slice. simpl. lia.
  - intros c. by exists XINPUT_EPADDR_IN.
Qed.
Definition green : Controller_t := mkController 0x1000 0 0 0 0 0 0.
Definition bench_micro : micro_state bench_usb :=
  mkMicro zero_controller zero_controller [] 0 0 (mkBenchUsb 0 [] []).
Definition bench_globals : globals := mkGlobals 1 1 0 1 false false false.
Lemma micro_host_up_to_date_witness :
  prevController ((@micro_loop _ bench_endpoints bench_stream (bench_main green) bench_globals
    bench_micro).2) = green.
Proof.
  refine (eq_trans (proj2 (proj2 (@micro_host_up_to_date bench_usb bench_endpoints bench_stream
    (bench_main green) _ _ b_sent bench_image (bench_micro_ok green) bench_globals bench_micro _)) _ _) _).
  - split; [done|]. left. reflexivity.
  - intros w. reflexivity.
  - right. left. reflexivity.
  - vm_compute. reflexivity.
Defined.

(** ** The transmitter keeps talking *)
(** [now] is the true time, [transmitted] the packets given to the radio; no
    operation turns either back. *)
Section Grown.
Context {W : Type} (now : W -> Z) (transmitted : W -> list (list Z)).
Definition grown (w w' : W) : Prop := now w <= now w' /\ transmitted w `prefix_of` transmitted w'.
#[global] Instance grown_preorder : PreOrder grown.
Proof.
  split; [intros w; split; [lia|done]|].
  intros a b c [] []. split; [lia|]. by etransitivity.
Qed.
Definition advances {A} (m : M W A) : Prop := forall w, grown w (m w).2.
Class TxOk `{MainHost W, RadioHost W} : Prop := {
  millis_value w : (millis w).1 = u32 (now w);
  tx_packet l w : transmitted (tickRFTX l w).2 = transmitted w ++ [l];
  clock_advances : advances millis;
  radio_advances l : advances (tickRFTX l);
  silent c : keeps transmitted millis /\ keeps transmitted (tickInputs c) /\
    keeps transmitted (tickLEDs c) /\ keeps transmitted powerDown;
  ticks_advance c : advances (tickInputs c) /\ advances (tickLEDs c);
  commands_advance c n d : advances (readFeature c) /\ advances (writeFeature c n d) /\
    advances (handleCommand c) /\ advances powerDown
}.
(** The same of computations on the loop's state. *)
Definition grows {A} (m : M (tx_state W) A) : Prop := forall s, grown (tx_dev s) (tx_dev (m s).2).
Lemma grows_ret {A} (a : A) : grows (mret a).
Proof. by intros s. Qed.
Lemma grows_mod f : (forall s, tx_dev (f s) = tx_dev s) -> grows (mmod f).
Proof. intros Hf s. cbn. by rewrite Hf. Qed.
Lemma grows_read {A} (f : tx_state W -> A) : grows (mread f).
Proof. by intros s. Qed.
Lemma grows_bind {A B} (m : M (tx_state W) A) (k : A -> M (tx_state W) B) :
  grows m -> (forall a, grows (k a)) -> grows (m ≫= k).
Proof. intros Hm Hk s. rewrite mbind_run. etransitivity; [apply Hm|apply Hk]. Qed.
Lemma grows_when b m : grows m -> grows (mwhen b m).
Proof. destruct b; [done|]. intros. apply grows_ret. Qed.
Lemma grows_on_tx {A} (m : M W A) : advances m -> grows (on_tx m).
Proof. intros Hm s. unfold on_tx. specialize (Hm (tx_dev s)). by destruct (m (tx_dev s)). Qed.
End Grown.
Arguments TxOk W now transmitted {_ _}.

(** Structural steps, then the laws. *)
Ltac growing :=
  repeat (intros; match goal with
  | |- grows _ _ (_ ≫= _) => apply grows_bind
  | |- grows _ _ (mret _) => apply grows_ret
  | |- grows _ _ (mread _) => apply grows_read
  | |- grows _ _ (mmod _) => apply grows_mod; intros; reflexivity
  | |- grows _ _ (mwhen _ _) => apply grows_when
  | |- grows _ _ (if _ then _ else _) => case_match
  | |- grows _ _ (match _ with _ => _ end) => case_match
  | |- grows _ _ (on_tx _) => apply grows_on_tx
  | |- advances _ _ _ =>
      first [eapply clock_advances | eapply radio_advances | eapply ticks_advance
            | eapply commands_advance]; try eassumption
  end).

Section TxSpec.
Context {W : Type} `{TxOk W now transmitted} (pollRate : Z) (leds : bool) (stack : Z -> Z).
Implicit Types (s : tx_state W).
Lemma dispatch_grows l : grows now transmitted (dispatch stack l).
Proof. unfold dispatch. growing. Unshelve. all: done || exact 0 || exact (fun _ => 0). Qed.
Lemma elapsed_grows t : grows now transmitted (elapsed t).
Proof. unfold elapsed. growing. Qed.
(** Time read as a [uint32_t] since a reading taken at time [T]. *)
Lemma elapsed_value T t s :
  t = u32 T -> T <= now (tx_dev s) < T + 2 ^ 32 -> (elapsed t s).1 = now (tx_dev s) - T.
Proof.
  intros -> Ht. unfold elapsed. rewrite mbind_run. unfold on_tx.
  pose proof (millis_value now transmitted (tx_dev s)) as Hv. destruct (millis (tx_dev s)) as [v w].
  cbn in *. subst v. unfold uwrap. rewrite <- Zminus_mod. apply Z.mod_small. lia.
Qed.
Lemma on_tx_run {A} (m : M W A) s : on_tx m s = ((m (tx_dev s)).1, s <| tx_dev := (m (tx_dev s)).2 |>).
Proof. unfold on_tx. by destruct (m (tx_dev s)). Qed.
Lemma dispatch_run l s : (dispatch stack l s).2 = s <| tx_dev := tx_dev (dispatch stack l s).2 |>.
Proof.
  unfold dispatch. destruct (negb _); [by rewrite on_tx_run|].
  destruct (_ =? _); by rewrite on_tx_run.
Qed.
Lemma tx_send_spec s :
  let s' := (tx_send stack s).2 in let c := tx_controller s in
  tx_controller s' = c /\ prevCtrl s' = c /\ lastButtons s' = buttons c /\
  (transmitted (tx_dev s) ++ [cenc Controller_codec c]) `prefix_of` transmitted (tx_dev s') /\
  now (tx_dev s) <= now (tx_dev s').
Proof.
  destruct s as [c prev lp lc lb w]. cbv zeta. unfold tx_send.
  rewrite mbind_run, on_tx_run. cbn [fst snd]. rewrite mbind_run.
  cbn -[cenc tickRFTX dispatch mbind].
  pose proof (clock_advances now transmitted w) as [Hc _].
  pose proof (proj1 (silent now transmitted c) w) as Hp.
  set (w1 := (millis w).2) in *. rewrite mbind_run. cbn -[cenc tickRFTX dispatch mbind].
  rewrite mbind_run, on_tx_run. cbn -[cenc tickRFTX dispatch mbind].
  pose proof (tx_packet now transmitted (cenc Controller_codec c) w1) as Ht.
  pose proof (radio_advances now transmitted (cenc Controller_codec c) w1) as [Hn _].
  destruct (tickRFTX (cenc Controller_codec c) w1) as [r w2]. cbn [fst snd] in *.
  set (s2 := mkTx c prev (millis w).1 lc lb w2).
  assert (exists w3, (match r with Some payload => dispatch stack payload | None => mret tt end s2).2 =
    mkTx c prev (millis w).1 lc lb w3 /\ grown now transmitted w2 w3) as (w3 & E3 & Hg3 & Hp3).
  { destruct r as [l|]; [|by exists w2].
    exists (tx_dev (dispatch stack l s2).2). split; [apply dispatch_run|apply (dispatch_grows l s2)]. }
  rewrite mbind_run, E3. rewrite mbind_run. cbn -[cenc mbind]. rewrite mbind_run. cbn -[cenc mbind].
  assert (forall w4, grown now transmitted w3 w4 ->
    (transmitted w ++ [cenc Controller_codec c]) `prefix_of` transmitted w4 /\ now w <= now w4) as Hfin.
  { intros w4 [Hg4 Hp4]. split; [|lia]. etransitivity; [|exact Hp4]. etransitivity; [|exact Hp3].
    by rewrite Ht, Hp. }
  destruct (Z.eqb_spec lb (buttons c)) as [->|]; cbn [negb mwhen].
  - cbn -[cenc]. destruct (Hfin w3); [reflexivity|]. done.
  - rewrite !mbind_run, !on_tx_run. cbn -[cenc].
    destruct (Hfin (millis w3).2); [apply (clock_advances now transmitted)|]. done.
Qed.

(** Steps that send nothing and leave the memory of the last packet alone. *)
Definition quiet s s' : Prop :=
  grown now transmitted (tx_dev s) (tx_dev s') /\ transmitted (tx_dev s') = transmitted (tx_dev s) /\
  prevCtrl s' = prevCtrl s /\ tx_lastPoll s' = tx_lastPoll s.
Lemma quiet_trans s1 s2 s3 : quiet s1 s2 -> quiet s2 s3 -> quiet s1 s3.
Proof.
  intros (G1 & T1 & P1 & L1) (G2 & T2 & P2 & L2). unfold quiet.
  rewrite T2, T1, P2, P1, L2, L1. split; [by etransitivity|done].
Qed.
Lemma quiet_on_tx {A} (m : M W A) s : advances now transmitted m -> keeps transmitted m -> quiet s (on_tx m s).2.
Proof. intros Ha Hk. rewrite on_tx_run. split; [apply Ha|]. split; [apply Hk|done]. Qed.
Lemma elapsed_quiet t s : quiet s (elapsed t s).2 /\ tx_controller (elapsed t s).2 = tx_controller s.
Proof.
  unfold elapsed. rewrite mbind_run. split; [|by rewrite on_tx_run].
  apply quiet_on_tx; [growing|apply (silent now transmitted zero_controller)].
Qed.
Lemma tx_sleep_quiet s : quiet s (tx_sleep s).2.
Proof.
  unfold tx_sleep. rewrite mbind_run. cbn [mread id fst snd]. rewrite mbind_run.
  destruct (elapsed_quiet (lastChange s) s) as [Q _]. set (s1 := (elapsed (lastChange s) s).2) in *.
  destruct (_ >? 600000); cbn [mwhen]; [|exact Q]. rewrite !mbind_run.
  pose proof (silent now transmitted zero_controller) as (K1 & _ & _ & K4).
  assert (advances now transmitted millis) as A1 by growing.
  assert (advances now transmitted powerDown) as A2
    by (intros w; apply (commands_advance now transmitted 0 0 (fun _ => 0))).
  refine (quiet_trans _ _ _ Q (quiet_trans _ _ _ (quiet_on_tx millis s1 A1 K1) _)).
  pose proof (quiet_on_tx powerDown ((on_tx millis s1).2 <| lastChange := (on_tx millis s1).1 |>) A2 K4)
    as Q2. unfold quiet in *. exact Q2.
Qed.
Lemma tx_read_quiet s : quiet s (tx_read leds s).2.
Proof.
  unfold tx_read. rewrite mbind_run. cbn [mread id fst snd]. rewrite !mbind_run.
  pose proof (silent now transmitted (tx_controller s)) as (_ & K2 & _ & _).
  assert (advances now transmitted (tickInputs (tx_controller s))) as A1 by growing.
  refine (quiet_trans _ _ _ (quiet_on_tx _ s A1 K2) _).
  set (s1 := (on_tx (tickInputs (tx_controller s)) s).2).
  set (c := (on_tx (tickInputs (tx_controller s)) s).1).
  destruct leds; cbn [mwhen]; [|by repeat split].
  assert (advances now transmitted (tickLEDs c)) as A2 by growing.
  pose proof (silent now transmitted c) as (_ & _ & K3 & _).
  pose proof (quiet_on_tx (tickLEDs c) (s1 <| tx_controller := c |>) A2 K3) as Q2.
  unfold quiet in *. exact Q2.
Qed.

Lemma tx_send_grows : grows now transmitted (tx_send stack).
Proof. unfold tx_send. growing; apply dispatch_grows. Qed.
Lemma tx_poll_grows : grows now transmitted (tx_poll stack).
Proof.
  unfold tx_poll. apply grows_bind; [apply grows_read|]. intros s.
  case_match; [|apply tx_send_grows]. apply grows_bind; [apply elapsed_grows|].
  intros e. apply grows_when, tx_send_grows.
Qed.
(** The decision to send, with the time since the last packet. *)
Lemma tx_poll_spec s T :
  tx_lastPoll s = u32 T -> T <= now (tx_dev s) < T + 2 ^ 32 ->
  let s' := (tx_poll stack s).2 in
  tx_controller s' = tx_controller s /\
  (tx_controller s <> prevCtrl s \/ T + 100 < now (tx_dev s) ->
   prevCtrl s' = tx_controller s /\
   (transmitted (tx_dev s) ++ [cenc Controller_codec (tx_controller s)])
     `prefix_of` transmitted (tx_dev s')).
Proof.
  intros HT Hr. unfold tx_poll. rewrite mbind_run. cbn [mread id fst snd].
  destruct (elapsed_quiet (tx_lastPoll s) s) as [(_ & Q2 & Q3 & _) Q5].
  case_bool_decide as Hc.
  - rewrite mbind_run, (elapsed_value T _ s HT Hr).
    set (s1 := (elapsed (tx_lastPoll s) s).2) in *. destruct (now (tx_dev s) - T >? 100) eqn:E.
    + cbn [mwhen]. destruct (tx_send_spec s1) as (-> & -> & _ & Hp & _). rewrite Q5, Q2 in *. auto.
    + cbn. rewrite Q5. split; [done|]. zbool. apply Z.ltb_ge in E. intros [?|?]; [done|lia].
  - destruct (tx_send_spec s) as (-> & -> & _ & Hp & _). auto.
Qed.

End TxSpec.

(** A radio that takes 1 ms per packet and records it, on inputs that stand
    still. *)
Definition bench_tx : MainHost (Z * list (list Z)) := {|
  tickInputs _ := mret green; tickLEDs _ := mret tt; tickRFInput _ := mret green;
  fillReport _ _ := mret ([], 0); millis := mread (fun w => u32 w.1)
|}.
Definition bench_radio : RadioHost (Z * list (list Z)) := {|
  tickRFTX l := fun w => (None, (w.1 + 1, w.2 ++ [l])); readFeature _ := mret tt;
  writeFeature _ _ _ := mret tt; handleCommand _ := mret tt; powerDown := mret tt
|}.
Lemma bench_tx_ok : @TxOk _ fst snd bench_tx bench_radio.
Proof.
  split; try done; repeat split; intros; cbn; try lia; try done. by apply prefix_app_r.
Qed.
