(* ===== verification/Wireless.v ===== *)
(** * A wireless controller configured from its receiver

    The host tool talks to the receiver; the receiver passes every feature report
    on ([avr/micro/main/main.c]), and the transmitter's main program
    ([avr/uno/rf/main.c], [avr/micro/rf/main.c]) hands what arrives to the same
    command handler.  This file puts the radio ([Rf]), the command handler
    ([Serial]), the transmitter's loop ([Mains]) and the configuration store
    ([Eeprom]) together. *)

From Stdlib Require Import ZArith Lia.
From stdpp Require Import base tactics numbers list.
From S2P Require Import Prelude Packed Defs Config Controller Eeprom World Nrf24 Rf UnoUsb UnoMain Serial Mains.
Open Scope Z_scope.

(** ** The receiver *)
(** LUFA: reads so many bytes of the request's data stage. *)
Class ControlStream (W : Type) := Endpoint_Read_Control_Stream_LE : Z -> M W (list Z).
(** The part of the buffer behind the command and the read flag. *)
Definition REPORT_BUF : nat := 64.
(** The 32 bytes that go over the air. *)
Definition air_payload (cmd : Z) (buf : list Z) : list Z := [cmd; 0] ++ take 30 buf.
Section Receiver.
Context {W : Type} `{SPIBus W, RadioPins W, ConfigStore W, SerialHost W, Endpoints W, ControlStream W}.
(** The uninitialised buffers and the stack behind the first. *)
Context (isRF : bool) (uninit : list Z) (behind buf2 : Z -> Z).
(** [None]: the report did not fit into the buffer, or no room came free. *)
Definition micro_write_report (fuel : nat) (cmd data_len : Z) : M (serial_state W) (option unit) :=
  on_host Endpoint_ClearSETUP ;;
  d ← on_host (Endpoint_Read_Control_Stream_LE data_len);
  if decide (length d <= REPORT_BUF)%nat then
    let buf := splice 0 d uninit in
    processHIDWriteFeatureReport isRF cmd data_len
      (fun i => if i <? Z.of_nat REPORT_BUF then aget 0 buf i else behind i) ;;
    on_host Endpoint_ClearStatusStage ;;
    if isRF then on_rf (rf_pass_on buf2 fuel cmd buf) else oret tt
  else mret None.
End Receiver.

(** *** What is queued for the controller *)
(** The rest of the firmware keeps away from the radio's bus. *)
Class OffBus (W : Type) `{ConfigStore W, SerialHost W, Endpoints W, ControlStream W}
    {V : Type} (view : W -> V) : Prop := {
  report_off : keeps view Endpoint_ClearSETUP /\ keeps view Endpoint_ClearStatusStage /\
    forall n, keeps view (Endpoint_Read_Control_Stream_LE n);
  store_off : keeps view resetConfig /\ forall o l, keeps view (writeConfigBlock o l);
  commands_off : keeps view reboot /\ keeps view bootloader /\ keeps view findAnalogPin /\
    keeps view findDigitalPin;
  settings_off : (forall b, keeps view (setSP b)) /\ forall a v, keeps view (poke_leds a v)
}.
Section Queued.
Context {W : Type} `{SPIBus W, RadioPins W, Delay W, ConfigStore W, SerialHost W, Endpoints W,
  ControlStream W}.
Context (plus : bool) (view : W -> chip) (sent : W -> option (list Z)) (log : W -> list (list Z))
  (fulls : W -> nat).
Context `{!ChipOk W plus view sent, !BusLog W sent log, !Drains W sent fulls}.
Definition radio_view (w : W) : option (list Z) * list (list Z) * nat := (sent w, log w, fulls w).
Context `{!OffBus W radio_view} (uninit : list Z) (behind buf2 : Z -> Z).
Implicit Types s : serial_state W.

Definition same_radio s0 s : Prop := radio_view (host s) = radio_view (host s0).
Lemma on_host_off {A} s0 (m : M W A) : keeps radio_view m -> holds (same_radio s0) (on_host m).
Proof.
  intros Hm s Hs. unfold same_radio. rewrite host_op_run. cbn [snd]. by rewrite host_set, Hm.
Qed.
Lemma off_bind {A B} s0 (m : M (serial_state W) A) (k : A -> M (serial_state W) B) :
  holds (same_radio s0) m -> (forall a, holds (same_radio s0) (k a)) -> holds (same_radio s0) (m ≫= k).
Proof. intros Hm Hk s Hs. rewrite mbind_run. by apply Hk, Hm. Qed.
Lemma handleCommand_off s0 isRF cmd : holds (same_radio s0) (Serial.handleCommand isRF cmd).
Proof.
  destruct (commands_off (view := radio_view)) as (? & ? & ? & ?).
  destruct (store_off (view := radio_view)) as [? _].
  assert (forall b : bool, holds (same_radio s0) (mret b)) as Hret by by intros b s.
  unfold Serial.handleCommand. destruct isRF; cbn [negb mwhen];
    repeat case_match; try (by apply Hret);
    (apply off_bind; [by apply on_host_off || by intros s|by intros]).
Qed.
Lemma process_off s0 isRF cmd len data :
  holds (same_radio s0) (processHIDWriteFeatureReport isRF cmd len data).
Proof.
  destruct (store_off (view := radio_view)) as [_ ?].
  destruct (settings_off (view := radio_view)) as [? Hpoke].
  unfold processHIDWriteFeatureReport. cbv zeta. repeat case_match.
  - by apply on_host_off.
  - generalize (zip (iota (length ((fun i => data (1 + i)) <$> iota (Z.to_nat (u8 (len - 1))))))
      ((fun i => data (1 + i)) <$> iota (Z.to_nat (u8 (len - 1))))).
    intros l. induction l as [|[i b] l IH]; [by intros s|].
    apply off_bind; [by apply on_host_off|by intros].
  - apply off_bind; [unfold mwhen; destruct (cmd =? COMMAND_SET_SP); [by apply on_host_off|by intros s]|].
    intros _. apply off_bind; [apply handleCommand_off|by intros _ s].
Qed.

(** C21: Every feature report that reaches a Micro with a radio and fits its buffer
    is passed on as exactly one acknowledgement payload - the command, a zero and
    the first thirty bytes of the buffer - whatever command it is and however full
    the radio's FIFO is: the handler returns, and queues nothing else. *)
Theorem report_passed_on fuel cmd len s :
  sent (host s) = None -> (fulls (host s) < fuel)%nat ->
  let d := (Endpoint_Read_Control_Stream_LE len (Endpoint_ClearSETUP (host s)).2).1 in
  (length d <= REPORT_BUF)%nat ->
  let r := micro_write_report true uninit behind buf2 fuel cmd len s in
  r.1 = Some tt /\ sent (host r.2) = None /\
  acks (log (host r.2)) = acks (log (host s)) ++ [air_payload cmd (splice 0 d uninit)].
Proof using ChipOk0 BusLog0 Drains0 OffBus0.
  intros Es Hf d Hd. cbv zeta. unfold micro_write_report.
  destruct (report_off (view := radio_view)) as (? & ? & ?).
  set (s1 := (on_host Endpoint_ClearSETUP s).2).
  assert (same_radio s s1) as Hv1 by by apply on_host_off.
  assert (host s1 = (Endpoint_ClearSETUP (host s)).2) as Eh1.
  { unfold s1. rewrite host_op_run. apply host_set. }
  rewrite mbind_run. fold s1. rewrite mbind_run.
  assert ((on_host (Endpoint_Read_Control_Stream_LE len) s1).1 = d) as ->.
  { rewrite host_op_run. cbn [fst]. by rewrite Eh1. }
  set (s2 := (on_host (Endpoint_Read_Control_Stream_LE len) s1).2).
  assert (same_radio s s2) as Hv2 by by apply on_host_off.
  rewrite decide_True by done. cbv zeta. rewrite !mbind_run.
  match goal with |- context [on_rf (rf_pass_on buf2 fuel cmd ?b) ?x] => set (s3 := x); set (buf := b) end.
  assert (same_radio s s3) as Hv3 by (apply on_host_off; [done|]; by apply process_off).
  clearbody s3. injection Hv3 as E3 E4 E5.
  destruct (rf_pass_on_sends plus view sent log fulls buf2 fuel cmd buf (rf s3))
    as (R1 & _ & R2 & R3).
  { change (sent (host s3) = None). by rewrite E3. }
  { change (fulls (host s3) < fuel)%nat. by rewrite E5. }
  unfold on_rf, host in *. destruct (rf_pass_on buf2 fuel cmd buf (rf s3)) as [o x]. cbn [fst snd rf] in *.
  split; [exact R1|]. split; [exact R2|]. cbn [rf upd setter_of]. by rewrite R3, E4.
Qed.
End Queued.

(** ** The transmitter *)
(** The transmitter's callbacks: the radio is this board's, a command goes to the
    host tool's handler; [read] is the handler of a READ, whose answer is the next
    packet sent. *)
Section Callbacks.
Context {W : Type} `{SPIBus W, RadioPins W, ConfigStore W, SerialHost W}.
Context (arr : Z -> Z) (read : Z -> M (serial_state W) unit).
Definition tx_radio : RadioHost (serial_state W) := {|
  Mains.tickRFTX data := on_rf (Rf.tickRFTX data arr);
  readFeature := read;
  writeFeature cmd len data := processHIDWriteFeatureReport false cmd len data;
  Mains.handleCommand cmd := Serial.handleCommand false cmd ;; mret tt;
  powerDown := on_rf (on_drv nrf24_powerDown)
|}.
End Callbacks.
Section Transmitter.
Context {W : Type} `{SPIBus W, RadioPins W, ConfigStore W, SerialHost W}.
Context (arr : Z -> Z) (read : Z -> M (serial_state W) unit).
(** The stack behind a received payload. *)
Context (stack : Z -> Z) (stack_bytes : forall i, byte (stack i)).
#[local] Instance radio_callbacks : RadioHost (serial_state W) := tx_radio arr read.
Implicit Types (s : tx_state (serial_state W)) (w : W).

Definition store_of s : W := host (tx_dev s).
Definition set_store w s : tx_state (serial_state W) := s <| tx_dev ::= set_host w |>.
(** A block of a configuration that arrives in a payload: the transmitter takes 29
    bytes, one more than the receiver's block has. *)
Definition carries (k : Z) (c p : list Z) : Prop :=
  [SerialCommands_val COMMAND_WRITE_CONFIG; 0; k] ++ c `prefix_of` p /\ bytes p.
Lemma taken_block k c p (data := fun i => if i <? Z.of_nat (length p) then aget 0 p i else stack i) :
  carries k c p -> (length c <= 28)%nat ->
  data 0 = COMMAND_WRITE_CONFIG /\ data 1 = 0 /\ data 2 = k /\
  exists pad, bytes pad /\ (length pad <= SPARE)%nat /\ (fun i => data (3 + i)) <$> iota 29 = c ++ pad.
Proof using stack_bytes.
  intros [[tl ->] Hb] Hc.
  assert (forall i, byte (data i)) as Hd.
  { intros i. unfold data. destruct (_ <? _); [|apply stack_bytes]. by apply aget_Forall; [split|]. }
  assert (forall i, (i < 3)%nat -> data (Z.of_nat i) =
    aget 0 [SerialCommands_val COMMAND_WRITE_CONFIG; 0; k] (Z.of_nat i)) as Hhd.
  { intros i Hi. unfold data. rewrite (proj2 (Z.ltb_lt _ _)) by (rewrite !length_app; cbn [length]; lia).
    by destruct i as [|[|[|]]]; [..|lia]. }
  split; [exact (Hhd 0%nat ltac:(lia))|]. split; [exact (Hhd 1%nat ltac:(lia))|].
  split; [exact (Hhd 2%nat ltac:(lia))|]. clear Hhd.
  set (rest := (fun i => data (3 + i)) <$> iota 29).
  assert (length rest = 29%nat) as Hr by done.
  assert (bytes rest) as Hbr by (apply Forall_fmap, Forall_true; intros; apply Hd).
  exists (drop (length c) rest). split; [by apply Forall_drop|]. split.
  { rewrite length_drop, Hr. unfold SPARE. lia. }
  rewrite <- (take_drop (length c) rest) at 1. f_equal. apply list_eq. intros i.
  rewrite lookup_take. case_decide as Hi; [|symmetry; apply lookup_ge_None_2; lia].
  unfold rest. rewrite list_lookup_fmap. unfold iota. rewrite list_lookup_fmap.
  rewrite lookup_seq_lt by lia. cbn [fmap option_fmap option_map]. unfold data.
  rewrite (proj2 (Z.ltb_lt _ _)) by (rewrite !length_app; cbn [length]; lia).
  unfold aget. replace (Z.to_nat _) with (3 + i)%nat by lia. rewrite nth_lookup.
  rewrite lookup_app_l by (rewrite length_app; cbn [length]; lia).
  match goal with |- Some (default 0 ?x) = _ => change x with (c !! i) end.
  by destruct (lookup_lt_is_Some_2 c i Hi) as [x ->].
Qed.
Lemma dispatch_block k c p s :
  carries k c p -> byte k -> (length c <= 28)%nat ->
  exists pad, bytes pad /\ (length pad <= SPARE)%nat /\
    dispatch stack p s = (tt, set_store (writeConfigBlock (28 * k) (c ++ pad) (store_of s)).2 s).
Proof using stack_bytes.
  intros Hp Hk Hc. set (data := fun i => if i <? Z.of_nat (length p) then aget 0 p i else stack i).
  destruct (taken_block k c p Hp Hc) as (E0 & E1 & E2 & pad & Hb & Hl & E).
  change (data 0 = COMMAND_WRITE_CONFIG) in E0. change (data 1 = 0) in E1. change (data 2 = k) in E2.
  change ((fun i => data (3 + i)) <$> iota 29 = c ++ pad) in E.
  exists pad. split; [done|]. split; [done|].
  change (dispatch stack p s) with
    ((if negb (data 1 =? 0) then on_tx (readFeature (data 0))
      else if data 0 =? COMMAND_WRITE_CONFIG then on_tx (writeFeature (data 0) 30 (fun i => data (2 + i)))
      else on_tx (Mains.handleCommand (data 0))) s).
  rewrite E0, E1, !Z.eqb_refl. cbn [negb]. unfold on_tx. cbn [writeFeature radio_callbacks tx_radio].
  unfold processHIDWriteFeatureReport. rewrite Z.eqb_refl.
  change (data (2 + 0)) with (data 2). rewrite E2.
  change (u8 (30 - 1)) with 29. change (Z.to_nat 29) with 29%nat.
  assert ((fun i => data (2 + (1 + i))) <$> iota 29 = c ++ pad) as ->.
  { rewrite <- E. apply list_fmap_ext. intros ? i _. f_equal. lia. }
  rewrite host_op_run. unfold PACKET_SIZE. rewrite uwrap_small by (unfold in_u in *; lia).
  rewrite Z.mul_comm. unfold store_of, set_store.
  by destruct (writeConfigBlock _ (c ++ pad) (host (tx_dev s))) as [[] ?].
Qed.
Lemma store_set w s : store_of (set_store w s) = w.
Proof. apply host_set. Qed.
Lemma set_store_twice w1 w2 s : set_store w1 (set_store w2 s) = set_store w1 s.
Proof. unfold set_store. cbn. by rewrite set_set. Qed.
Lemma set_store_same s : set_store (store_of s) s = s.
Proof. by destruct s as [? ? ? ? ? [? [? [? ? ? ?]]]]. Qed.

(** The payloads the receiver queues for the blocks of a configuration: what its
    buffer holds behind the block goes along. *)
Context (stray : Z -> list Z) (stray_ok : forall k, bytes (stray k) /\ length (stray k) = REPORT_BUF).
Fixpoint on_air (k : Z) (chunks : list (list Z)) : list (list Z) :=
  match chunks with
  | [] => []
  | c :: cs => air_payload COMMAND_WRITE_CONFIG (splice 0 (k :: c) (stray k)) :: on_air (k + 1) cs
  end.
Lemma air_payload_carries k c :
  byte k -> bytes c -> (length c <= 28)%nat ->
  carries k c (air_payload COMMAND_WRITE_CONFIG (splice 0 (k :: c) (stray k))).
Proof using stray_ok.
  intros Hk Hb Hc. destruct (stray_ok k) as [Hs Hl]. unfold air_payload. split.
  - unfold splice. rewrite take_0, app_nil_l, take_app_ge by (cbn [length]; lia).
    eexists. by rewrite <- !app_assoc.
  - apply Forall_app. split; [repeat constructor; done|]. apply Forall_take, splice_Forall; [|done].
    by constructor.
Qed.
Lemma dispatch_upload n k l s :
  0 <= k -> k + Z.of_nat n <= 256 -> (length l <= 28 * n)%nat -> (28 * n < length l + 28)%nat ->
  bytes l ->
  exists blocks, fst <$> blocks = cut n l /\ padded_ok blocks /\
    mfor (on_air k (cut n l)) (dispatch stack) s =
      (tt, set_store (write_padded (28 * k) blocks (store_of s)).2 s).
Proof using stack_bytes stray_ok.
  revert k l s. induction n as [|n IH]; intros k l s Hk Hn Hl Hl' Hb.
  { exists []. split; [done|]. split; [constructor|]. cbn. by rewrite set_store_same. }
  assert (length (take 28 l) <= 28)%nat as Hc by (rewrite length_take; lia).
  assert (byte k) as Hbk by (unfold in_u; lia).
  pose proof (air_payload_carries k (take 28 l) Hbk (Forall_take _ _ _ Hb) Hc) as Hp.
  destruct (dispatch_block _ _ _ s Hp Hbk Hc) as (pad & Hpb & Hpl & E).
  cbn [cut on_air mfor]. rewrite mbind_run, E. cbn [snd].
  set (s1 := set_store _ s).
  destruct (IH (k + 1) (drop 28 l) s1) as (blocks & Eb & Hok & Er);
    [lia|lia|rewrite length_drop; lia|rewrite length_drop; lia|by apply Forall_drop|].
  exists ((take 28 l, pad) :: blocks). split; [by cbn; rewrite Eb|]. split.
  { constructor; [|done]. split; [by apply Forall_take|done]. }
  rewrite Er. unfold s1. rewrite store_set, set_store_twice. cbn [write_padded]. rewrite mbind_run.
  destruct n as [|n]; [by apply fmap_nil_inv in Eb as ->|].
  replace (28 * k + Z.of_nat (length (take 28 l))) with (28 * (k + 1)); [done|].
  rewrite length_take. lia.
Qed.

(** C9: A controller is configured over the air.  The ten payloads the receiver
    queues for the blocks of a configuration, dispatched by the transmitter's loop,
    leave the transmitter with a store from which the next start loads exactly that
    configuration - although every payload makes it write 29 bytes, of which the
    last come from what the receiver's buffer, or the transmitter's stack, held. *)
Theorem wireless_upload (store_ok : W -> Prop) `{!ConfigStoreOk W store_ok} c s :
  store_ok (store_of s) -> current c ->
  let s' := (mfor (on_air 0 (cut 10 (cenc Cfg.codec c))) (dispatch stack) s).2 in
  store_ok (store_of s') /\ (loadConfig (store_of s')).1 = c.
Proof using stack_bytes stray_ok.
  intros Hs Hc. cbv zeta. set (l := cenc Cfg.codec c).
  assert (length l = sizeof_cfg) as Hl by by apply enc_length, Hc.
  assert (bytes l) as Hb by by apply enc_bytes, Hc.
  destruct (dispatch_upload 10 0 l s) as (blocks & E & Hok & ->);
    [lia|lia|rewrite Hl; by apply Nat.leb_le|rewrite Hl; by apply Nat.ltb_lt|exact Hb|].
  cbn [snd]. rewrite store_set. change (28 * 0) with 0.
  assert (payload blocks = l) as Ep.
  { rewrite E. apply concat_cut. rewrite Hl. by apply Nat.leb_le. }
  destruct (upload_padded (store_of s) blocks Hs Hok) as [Ho Hr]; [by rewrite Ep|].
  split; [exact Ho|]. apply load_current; [exact Ho|exact Hc|]. by rewrite Hr.
Qed.
End Transmitter.

(** ** A link on the bench *)
(** A Micro whose radio has two payloads queued, and a host that sends LED data. *)
#[local] Existing Instances full_spi full_pins full_delay.
#[local] Instance bench_store : ConfigStore (bench * nat) :=
  {| loadConfig := mret default_config; resetConfig := mret tt; writeConfigBlock _ _ := mret tt;
     readConfigBlock _ n := mret [] |}.
#[local] Instance bench_tool : SerialHost (bench * nat) :=
  {| reboot := mret tt; bootloader := mret tt; findAnalogPin := mret tt; findDigitalPin := mret tt;
     stopSearching := mret tt; detectedPin := mret 0; setSP _ := mret tt; poke_leds _ _ := mret tt;
     analogueData := mret []; wiiExtensionID := mret 0; ps2CtrlType := mret 0; writeToUSB _ := mret tt |}.
#[local] Instance bench_eps : Endpoints (bench * nat) :=
  {| Endpoint_SelectEndpoint _ := mret tt; Endpoint_GetCurrentEndpoint := mret 0;
     Endpoint_Write_8 _ := mret tt; Endpoint_ClearIN := mret tt; Endpoint_IsINReady := mret true;
     Endpoint_IsOUTReceived := mret false; Endpoint_BytesInEndpoint := mret 0;
     Endpoint_Read_8 := mret 0; Endpoint_ClearOUT := mret tt; Endpoint_ClearSETUP := mret tt;
     Endpoint_ClearStatusStage := mret tt; USB_USBTask := mret tt |}.
#[local] Instance bench_report : ControlStream (bench * nat) :=
  fun n => mret ((fun i => i + 7) <$> iota (Z.to_nat n)).
Lemma bench_off : OffBus (bench * nat)
  (radio_view (fun w => Rf.b_sent w.1) (fun w : bench * nat => b_log w.1) snd).
Proof. by repeat split. Qed.
Definition bench_receiver : serial_state (bench * nat) :=
  mkSerial (replicate 64 0)
    (mkRf false (mkNrf false false false (mkBench power_on_chip None [], 2%nat))).
Lemma report_passed_on_witness :
  let r := micro_write_report true (replicate 64 0xEE) (fun _ => 0) (fun _ => 0) 3
             COMMAND_SET_LEDS 5 bench_receiver in
  r.1 = Some tt /\
  acks (b_log (host r.2).1) =
    [[SerialCommands_val COMMAND_SET_LEDS; 0; 7; 8; 9; 10; 11] ++ replicate 25 0xEE].
Proof.
  cbv zeta. destruct full_ok as (C & B & D).
  destruct (@report_passed_on _ _ _ _ _ _ _ _ true _ _ _ snd C B D bench_off
    (replicate 64 0xEE) (fun _ => 0) (fun _ => 0) 3 COMMAND_SET_LEDS 5 bench_receiver) as (E1 & _ & E2).
  - done.
  - cbn. lia.
  - apply Nat.leb_le. reflexivity.
  - split; [exact E1|]. exact E2.
Defined.
(** A transmitter with an erased EEPROM. *)
#[local] Instance eeprom_store : ConfigStore AvrEeprom.eeprom := AvrEeprom.AvrStore 0 1.
Lemma eeprom_store_ok : ConfigStoreOk AvrEeprom.eeprom (AvrEeprom.eeprom_ok 1024).
Proof. apply AvrEeprom.AvrStoreOk; by apply Nat.leb_le. Qed.
Definition bench_transmitter : tx_state (serial_state (Serial.desk AvrEeprom.eeprom)) :=
  mkTx zero_controller zero_controller 0 0 0
    (mkSerial (replicate 64 0) (mkRf false (mkNrf false false false (mkDesk (replicate 1024 0xff) [])))).
Lemma wireless_upload_witness :
  (loadConfig (store_of
    (mfor (on_air (fun _ => replicate 64 0xEE) 0 (cut 10 (cenc Cfg.codec default_config)))
      (dispatch (H0 := tx_radio (fun _ => 0) (fun _ => mret tt)) (fun _ => 0x55)) bench_transmitter).2)).1
  = default_config.
Proof.
  assert (ConfigStoreOk (Serial.desk AvrEeprom.eeprom) (desk_ok (AvrEeprom.eeprom_ok 1024))) as Hok
    by exact (@desk_store_ok _ _ _ eeprom_store_ok).
  destruct (wireless_upload (W := Serial.desk AvrEeprom.eeprom) (fun _ => 0) (fun _ => mret tt) (fun _ => 0x55) ltac:(by split)
    (fun _ => replicate 64 0xEE) ltac:(split; [by apply Forall_replicate|done])
    (desk_ok (AvrEeprom.eeprom_ok 1024)) default_config bench_transmitter) as [_ E].
  - split; [by apply Forall_replicate|reflexivity].
  - split; [apply default_config_wf|]. split; [reflexivity|]. split; [done|reflexivity].
  - exact E.
Defined.
