(* ===== verification/Firmware.v ===== *)
(** * The Micro as a whole: [avr/micro/main/main.c] over the real drivers

    The main program's interface [MainHost] is implemented here by the input
    handler, the LED strip and the report generators, so that a theorem can follow
    a button from its pin to the report the host receives.  [board] is the RAM of
    all of them; the pins, buses and clock ([W]) and the USB controller ([U]) are
    separate hardware. *)

From Stdlib Require Import ZArith Lia.
From stdpp Require Import base tactics numbers list option.
From S2P Require Import Prelude Packed Defs World Config Controller Eeprom I2c Wii Variants Pins.
From S2P Require Import Ps2 Direct Guitar InputHandler Poll Leds Reports Descriptors UnoUsb Mains.
Open Scope Z_scope.

(** ** The report object *)
(** The union's members as the AVR lays them out (no padding there). *)
Definition mouse_codec : codec MouseReport_t :=
  cstruct (fun r => (m_rid r, Button r, X r, Y r, ScrollY r, ScrollX r))
    (fun '(a, b, c, d, e, f) => mkMouse a b c d e f)
    (cu8 ⊗ cu8 ⊗ csint 1 ⊗ csint 1 ⊗ csint 1 ⊗ csint 1)%codec.
Definition keyboard_codec : codec KeyboardReport_t :=
  cstruct (fun r => (k_rid r, Modifier r, Reserved r, KeyCode r))
    (fun '(a, b, c, d) => mkKeyboard a b c d) (cu8 ⊗ cu8 ⊗ cu8 ⊗ carray cu8 6)%codec.
Definition ps3_codec : codec PS3Report_t :=
  cstruct
    (fun r => (p_rid r, p_buttons r, hat r, p_l_x r, p_l_y r, p_r_x r, p_r_y r, p_axis r, accel r))
    (fun '(a, b, c, d, e, f, g, h, i) => mkPS3 a b c d e f g h i)
    (cu8 ⊗ cu16 ⊗ cu8 ⊗ cu8 ⊗ cu8 ⊗ cu8 ⊗ cu8 ⊗ carray cu8 12 ⊗ carray cs16 4)%codec.
(** A fill of one member: the object's bytes and the size. *)
Definition fill_member {R} (c : codec R) (fill : R -> Z * R) (buf : list Z) : list Z * Z :=
  let '(n, r) := fill (cdec c (take (csize c) buf)) in (splice 0 (cenc c r) buf, n).
(** [sizeof (USB_Report_Data_t)]: the MIDI member, an id and 22 event packets. *)
Definition sizeof_report : nat := 89.

(** The globals of the report generators. *)
Record reporter : Type := mkReporter {
  devType : Z; filler : option report_fn; keyboard : keyboard_state;
  midi : Midi.MidiConfig_t; lastmidi : list Z; ps3 : ps3_state
}.
#[global] Instance etaReporter : Settable reporter := fun r =>
  {| devType := devType r; filler := filler r; keyboard := keyboard r; midi := midi r;
     lastmidi := lastmidi r; ps3 := ps3 r |}.
Definition init_reports {A : Arch} (config : Configuration_t) (r : reporter) : reporter :=
  let full := subType config in
  let fn := Reports.initReports full in
  let r := r <| devType := full |> <| filler := Some fn |> in
  match fn with
  | fillMIDIReport_p => r <| midi := initMIDI config |>
  | fillKeyboardReport_p => r <| keyboard := initKeyboard config |>
  | fillPS3Report_p => r <| ps3 ::= initPS3 full |>
  | _ => r
  end.
(** [fillReport (&currentReport, &size, controller)], given [getVelocity] and the
    stack byte behind the keyboard generator's key count. *)
Definition fill_report {A : Arch} (behind : Z) (velocity : Z -> Z) (c : Controller_t) (buf : list Z) (r : reporter)
  : (list Z * Z) * reporter :=
  match filler r with
  | Some fillXInputReport_p => let '(n, b) := fillXInputReport buf c in ((b, n), r)
  | Some fillMouseReport_p => (fill_member mouse_codec (fun m => fillMouseReport m c) buf, r)
  | Some fillKeyboardReport_p =>
      (fill_member keyboard_codec
         (fun k => fillKeyboardReport behind (keyboard r) k c) buf, r)
  | Some fillPS3Report_p =>
      (fill_member ps3_codec (fillPS3Report (devType r) (ps3 r) c) buf, r)
  | Some fillMIDIReport_p =>
      let '(n, b, last) := fillMIDIReport velocity (midi r) (lastmidi r) buf in
      ((b, n), r <| lastmidi := last |>)
  | None => ((buf, 0), r)
  end.

(** ** The board *)
Section Board.
Context {A : Arch} {W U : Type} `{PinOps W} `{SPIBus W} `{Delay W} `{Clock W} `{I2CBus W}
  `{MpuDriver W} `{Endpoints U} `{StreamEndpoints U}.
(** The build; uninitialised stack bytes; the fuel of the handshakes and of the
    LED loop; the memory after the LED tables; the radio input. *)
Context (flags : build_flags) (junk : nat -> list Z) (behind : Z) (fuel led_fuel : nat)
  (past : Z -> Led_t * Led_t) (rf_input : Controller_t -> M W Controller_t).

Record board : Type := mkBoard {
  inputs : input_state W; strip_leds : led_state W; reports : reporter; usb : U
}.
#[global] Instance etaBoard : Settable board := fun r =>
  {| inputs := inputs r; strip_leds := strip_leds r; reports := reports r; usb := usb r |}.
Definition on_inputs {B} (m : M (input_state W) B) : M board B :=
  fun b => let '(a, s) := m (inputs b) in (a, b <| inputs := s |>).
Definition on_pins {B} (m : M W B) : M board B := on_inputs (on_world m).
Definition on_usb {B} (m : M U B) : M board B :=
  fun b => let '(a, u) := m (usb b) in (a, b <| usb := u |>).
(** The strip hangs on the same bus as the inputs. *)
Definition on_leds {B} (m : M (led_state W) B) : M board B :=
  fun b =>
    let '(a, l) := m ((strip_leds b) <| strip := world (inputs b) |>) in
    (a, b <| strip_leds := l |>
          <| inputs ::= fun s => set_core ((core s) <| hw := strip l |>) s |>).

(** [USB_USBTask]: the library's work on the controller, and the control request
    that may wait, which acts on all of the firmware. *)
Context (usb_task : M board unit).
#[local] Instance board_endpoints : Endpoints board := {|
  Endpoint_SelectEndpoint e := on_usb (Endpoint_SelectEndpoint e);
  Endpoint_GetCurrentEndpoint := on_usb Endpoint_GetCurrentEndpoint;
  Endpoint_Write_8 x := on_usb (Endpoint_Write_8 x);
  Endpoint_ClearIN := on_usb Endpoint_ClearIN;
  Endpoint_IsINReady := on_usb Endpoint_IsINReady;
  Endpoint_IsOUTReceived := on_usb Endpoint_IsOUTReceived;
  Endpoint_BytesInEndpoint := on_usb Endpoint_BytesInEndpoint;
  Endpoint_Read_8 := on_usb Endpoint_Read_8;
  Endpoint_ClearOUT := on_usb Endpoint_ClearOUT;
  Endpoint_ClearSETUP := on_usb Endpoint_ClearSETUP;
  Endpoint_ClearStatusStage := on_usb Endpoint_ClearStatusStage;
  USB_USBTask := usb_task
|}.
#[local] Instance board_stream : StreamEndpoints board := fun l => on_usb (Endpoint_Write_Stream_LE l).
(** A handshake whose fuel has run out leaves the controller as it was. *)
#[local] Instance board_host : MainHost board := {|
  Mains.tickInputs c := o ← on_inputs (InputHandler.tickInputs flags junk fuel c); mret (default c o);
  Mains.tickLEDs c :=
    s ← mread inputs;
    on_leds (Leds.tickLEDs (getVelocity s c) past led_fuel) ;; mret tt;
  Mains.tickRFInput c := on_pins (rf_input c);
  Mains.fillReport c buf := fun b =>
    let '(r, rep) := fill_report behind (getVelocity (inputs b) c) c buf (reports b) in
    (r, b <| reports := rep |>);
  Mains.millis := on_pins World.millis
|}.

(** Start-up.  The type flags, which the input handler reads, come from the same
    configuration just before. *)
Context `{ConfigStore W} (twi_init : M W unit) (F_CPU : Z) (timer_setup : M W unit)
  (radio_setup : bool -> Z -> Z -> M W unit) (crc : M W Z) (usb_init : M U unit).
Definition set_types (full : Z) : M (input_state W) unit :=
  on_core (mmod (fun d => d <| Direct.typeIsGuitar := isGuitar full |>
                            <| Direct.typeIsDrum := isDrum full |>)).
#[local] Instance board_store : ConfigStore board := {|
  loadConfig := on_pins loadConfig;
  resetConfig := on_pins resetConfig;
  writeConfigBlock off data := on_pins (writeConfigBlock off data);
  readConfigBlock off n := on_pins (readConfigBlock off n)
|}.
#[local] Instance board_startup : Startup board := {|
  setupMicrosTimer := on_pins timer_setup;
  initRF tx own peer := on_pins (radio_setup tx own peer);
  generate_crc32 := on_pins crc;
  Mains.initInputs config :=
    on_inputs (set_types (subType config) ;; InputHandler.initInputs twi_init F_CPU config);
  Mains.initReports config := mmod (fun b => b <| reports ::= init_reports config |>);
  Mains.initLEDs config := on_leds (Leds.initLEDs config);
  USB_Init := on_usb usb_init
|}.
End Board.
Arguments board : clear implicits.

(** ** XInput boards meet the main loop's interface *)
(** What the USB controller does: a packet is what was written since the endpoint
    was selected. *)
Class UsbOk (U : Type) `{Endpoints U, StreamEndpoints U} (delivered : U -> list (Z * list Z)) : Prop := {
  ready_keeps : keeps delivered Endpoint_IsINReady;
  usb_packet ep l u :
    delivered (Endpoint_ClearIN (Endpoint_Write_Stream_LE l (Endpoint_SelectEndpoint ep u).2).2).2 =
    delivered u ++ [(ep, l)]
}.
(** The 20 bytes of a controller's report; the six spare ones are zero from reset
    on. *)
Definition xinput_image (c : Controller_t) : list Z :=
  [HID_Report_val REPORT_ID_XINPUT; sizeof_XInputReport] ++ cenc Controller_codec c ++ replicate 6 0.
Definition xinput_buffer (buf : list Z) : Prop :=
  length buf = sizeof_report /\ slice 14 6 buf = replicate 6 0.

(** What a host that has received the packets [l] takes the controller to be; the
    state before the first report is everything released. *)
Definition host_sees (l : list (Z * list Z)) : Controller_t :=
  match reverse l with
  | (_, report) :: _ => cdec Controller_codec (slice 2 12 report)
  | [] => zero_controller
  end.

Section XInputBoard.
Context {A : Arch} {W U : Type} `{PinOps W} `{SPIBus W} `{Delay W} `{Clock W} `{I2CBus W}
  `{MpuDriver W} `{UsbOk U delivered}.
Context (flags : build_flags) (junk : nat -> list Z) (behind : Z) (fuel led_fuel : nat)
  (past : Z -> Led_t * Led_t) (rf_input : Controller_t -> M W Controller_t)
  (usb_task : M (board W U) unit).
#[local] Existing Instance board_stream.
#[local] Instance usb_endpoints : Endpoints (board W U) := board_endpoints usb_task.
#[local] Instance host : MainHost (board W U) :=
  board_host flags junk behind fuel led_fuel past rf_input.
Implicit Types (b : board W U) (c : Controller_t).

Definition packets b : list (Z * list Z) := delivered (usb b).
(** A wired board that sends XInput reports. *)
Definition xinput_board b : Prop :=
  filler (reports b) = Some fillXInputReport_p /\ wired_pad (inputs b).
(** No control request is waiting, and none comes while the loop runs. *)
Definition no_requests : Prop :=
  forall b, exists u, (usb_task b).2 = b <| usb := u |> /\ delivered u = delivered (usb b).

Lemma on_inputs_rest {B} (m : M (input_state W) B) b :
  (on_inputs m b).2 = b <| inputs := (m (inputs b)).2 |> /\ (on_inputs m b).1 = (m (inputs b)).1.
Proof. unfold on_inputs. by destruct (m (inputs b)). Qed.
Lemma on_leds_rest {B} (m : M (led_state W) B) b :
  usb (on_leds m b).2 = usb b /\ reports (on_leds m b).2 = reports b.
Proof. unfold on_leds. by destruct (m _). Qed.
Lemma on_usb_rest {B} (m : M U B) b : on_usb m b = ((m (usb b)).1, b <| usb := (m (usb b)).2 |>).
Proof. unfold on_usb. by destruct (m (usb b)). Qed.
Lemma board_tick_keeps c b :
  usb (Mains.tickInputs c b).2 = usb b /\ reports (Mains.tickInputs c b).2 = reports b.
Proof. cbn. rewrite mbind_run. cbn [mret M_ret snd]. by rewrite (proj1 (on_inputs_rest _ b)). Qed.
Lemma board_leds_keeps c b :
  usb (Mains.tickLEDs c b).2 = usb b /\ reports (Mains.tickLEDs c b).2 = reports b.
Proof. cbn. rewrite !mbind_run. apply on_leds_rest. Qed.
Lemma on_pins_keeps {B} (m : M W B) b : usb (on_pins m b).2 = usb b /\ reports (on_pins m b).2 = reports b.
Proof. unfold on_pins. by rewrite (proj1 (on_inputs_rest _ b)). Qed.
Lemma xinput_fill c buf :
  xinput_buffer buf ->
  let '(n, r) := fillXInputReport buf c in
  n = 20 /\ take 20 r = xinput_image c /\ xinput_buffer r.
Proof.
  intros [Hl Hz]. unfold fillXInputReport.
  set (head := [HID_Report_val REPORT_ID_XINPUT; sizeof_XInputReport]).
  assert (length (head ++ cenc Controller_codec c) = 14%nat) as Hn by done.
  assert (splice 2 (cenc Controller_codec c) (splice 0 head buf) =
    splice 0 (head ++ cenc Controller_codec c) buf) as ->.
  { apply (splice_splice_adj 0 head (cenc Controller_codec c) buf). unfold sizeof_report in Hl.
    rewrite length_app in Hn. lia. }
  set (h := head ++ cenc Controller_codec c) in *. unfold splice. rewrite take_0, app_nil_l, Nat.add_0_l, Hn.
  assert (slice 14 6 (h ++ drop 14 buf) = replicate 6 0) as Hs.
  { unfold slice. by rewrite drop_app_length'. }
  split; [done|]. split; [|split; [|exact Hs]].
  - replace 20%nat with (length h + 6)%nat by by rewrite Hn. rewrite take_app_add. unfold slice in Hz.
    rewrite Hz. unfold xinput_image, h. by rewrite <- app_assoc.
  - rewrite length_app, length_drop, Hn, Hl. done.
Qed.
Lemma xinput_board_keeps b b' :
  reports b' = reports b -> setup (inputs b') = setup (inputs b) -> xinput_board b -> xinput_board b'.
Proof. intros Er Es [Hf Hw]. split; [by rewrite Er|]. by apply (wired_pad_setup (inputs b)). Qed.
Lemma on_pins_board {B} (m : M W B) : holds xinput_board (on_pins m).
Proof.
  intros b. apply xinput_board_keeps; [apply on_pins_keeps|]. unfold on_pins.
  rewrite (proj1 (on_inputs_rest _ b)). apply keeps_setup_world.
Qed.
Lemma tickInputs_board c : holds xinput_board (Mains.tickInputs c).
Proof.
  intros b Hb. apply (xinput_board_keeps b); [apply board_tick_keeps| |done]. cbn. rewrite mbind_run.
  cbn [mret M_ret snd]. rewrite (proj1 (on_inputs_rest _ b)). cbn [inputs upd setter_of].
  destruct Hb as (_ & _ & _ & _ & Ha & Hd). apply tickInputs_setup. unfold looking. by rewrite Ha, Hd.
Qed.
Lemma tickLEDs_board c : holds xinput_board (Mains.tickLEDs c).
Proof.
  intros b. apply xinput_board_keeps; [apply board_leds_keeps|]. cbn. rewrite !mbind_run.
  cbn [mread mret M_ret snd]. unfold on_leds. by destruct (Leds.tickLEDs _ _ _ _).
Qed.
Lemma board_ok : no_requests ->
  MicroOk (board W U) xinput_board xinput_buffer packets xinput_image.
Proof using delivered H7 flags junk behind fuel led_fuel past rf_input usb_task.
  intros Hq. assert (forall B (m : M U B), holds xinput_board (on_usb m)) as Gu.
  { intros B m b. rewrite on_usb_rest. by apply xinput_board_keeps. }
  split.
  - split; [|split]; intros b; unfold packets.
    + change (USB_USBTask b) with (usb_task b). by destruct (Hq b) as (u & -> & Hu).
    + cbn. rewrite on_usb_rest. apply ready_keeps.
    + cbn -[on_pins]. by rewrite (proj1 (on_pins_keeps _ b)).
  - intros c. unfold packets. split_and!; intros b.
    + by rewrite (proj1 (board_tick_keeps c b)).
    + by rewrite (proj1 (board_leds_keeps c b)).
    + cbn -[on_pins]. by rewrite (proj1 (on_pins_keeps _ b)).
  - intros c buf b. unfold packets. cbn. by destruct (fill_report _ _ _ _ _).
  - split; [|split; [apply Gu|apply on_pins_board]]. intros b.
    change (USB_USBTask b) with (usb_task b). destruct (Hq b) as (u & -> & Hu).
    by apply xinput_board_keeps.
  - intros c. split_and!; [apply tickInputs_board|apply tickLEDs_board|apply on_pins_board].
  - intros ep l. split_and!; apply Gu.
  - intros c buf b Hb Hbuf. pose proof (xinput_fill c buf Hbuf) as X. cbn. unfold fill_report.
    rewrite (proj1 Hb). destruct (fillXInputReport buf c) as [n r]. destruct X as (-> & Ht & Hr).
    by split_and!.
  - intros c. cbn. lia.
  - intros c. by exists XINPUT_EPADDR_IN.
  - intros ep l b. unfold packets. cbn. unfold Endpoint_Write_Stream_LE, board_stream.
    rewrite !on_usb_rest. apply (usb_packet ep l (usb b)).
Qed.

(** ** From the pin to the host *)
Context (held : W -> Prop) (level : Pin_t -> bool) `{!PinsHeld held level}.
Context (g : globals) (wired_build : isRF g = false) (quiet : no_requests).
Implicit Types (s : micro_state (board W U)).

(** One round of the Micro's loop over the board. *)
Definition micro_round s : micro_state (board W U) := (micro_loop g s).2.
(** The poll interval is over when the round looks at the clock. *)
Definition poll_due s : Prop := round_due g s.
(** A wired XInput board whose host knows the last controller sent. *)
Definition in_step s : Prop :=
  xinput_board (dev s) /\ xinput_buffer (currentReport s) /\
  Controller_wf (controller s) /\ host_sees (packets (dev s)) = prevController s.

Lemma packet_sees l c : Controller_wf c -> host_sees (l ++ [packet_for (image := xinput_image) c]) = c.
Proof.
  intros Hc. unfold host_sees. rewrite reverse_snoc.
  change (packet_for (image := xinput_image) c) with (XINPUT_EPADDR_IN : Z, xinput_image c). cbv iota.
  assert (slice 2 12 (xinput_image c) = cenc Controller_codec c) as -> by done.
  by apply dec_enc.
Qed.
(** The controller a round ends with is the poll's. *)
Lemma round_controller s :
  controller (micro_tick g (on_dev USB_USBTask s).2).2 =
  default (controller s)
    (InputHandler.tickInputs flags junk fuel (controller s) (inputs (dev s))).1.
Proof.
  rewrite on_board_run. cbn [snd]. destruct (quiet (dev s)) as (u & E & _).
  change (USB_USBTask (dev s)) with (usb_task (dev s)). rewrite E. unfold micro_tick.
  rewrite mbind_run. cbn [mread fst snd id]. rewrite wired_build, !mbind_run, !on_board_run.
  cbn [fst snd mret M_ret controller upd setter_of]. cbn. rewrite mbind_run. cbn [mret M_ret fst].
  by rewrite (proj2 (on_inputs_rest _ _)).
Qed.

(** When the poll is due and the endpoint free, the host sees what was polled. *)
Lemma round_sees s :
  in_step s ->
  let s' := micro_round s in
  in_step s' /\
  ((forall u : U, (Endpoint_IsINReady u).1 = true) -> poll_due s ->
   prevController s' = controller s' /\
   host_sees (packets (dev s')) =
     default (controller s)
       (InputHandler.tickInputs flags junk fuel (controller s) (inputs (dev s))).1).
Proof using wired_build quiet H7.
  intros (Hx & Hb & Hc & Hh). cbn zeta. pose proof (board_ok quiet) as Hok.
  destruct (micro_loop_spec g s (conj Hx Hb)) as ([Hx' Hb'] & Ec & Hp & Hd).
  fold (micro_round s) in *. set (s' := micro_round s) in *. unfold seen in Hp.
  rewrite round_controller in Ec.
  assert (Controller_wf (controller s')) as Hc'.
  { rewrite Ec. pose proof (tickInputs_wired_wf junk flags fuel (controller s) (inputs (dev s))
      (proj1 (proj2 Hx)) Hc) as Hw. by destruct (InputHandler.tickInputs _ _ _ _ _).1. }
  assert (host_sees (packets (dev s')) = prevController s') as Hh'.
  { destruct Hp as [[-> ->]|[-> ->]]; [exact Hh|by apply packet_sees]. }
  split; [by split_and!|]. intros Hr Hdue.
  assert (prevController s' = controller s') as Hprev.
  { apply Hd; [|by right; right]. intros b. cbn. rewrite on_usb_rest. apply Hr. }
  split; [exact Hprev|]. by rewrite Hh', Hprev.
Qed.

(** C2: From the pin to the host.  On a wired Micro that sends XInput reports,
    whatever the analogue inputs, tilt sensor and LED strip do, every round of the
    main loop leaves the host with the last controller sent; and when the poll is
    due and the endpoint free, the host then sees every button whose pin's
    debounce time is over exactly as its pin reads, unless the joystick or home
    mapping uses that button. *)
Theorem pin_to_host s :
  in_step s ->
  let s' := micro_round s in
  in_step s' /\
  ((forall u : U, (Endpoint_IsINReady u).1 = true) -> poll_due s ->
   prevController s' = controller s' /\
   forall i, let inp := inputs (dev s) in let pin := entry inp i in
     held (world inp) -> shows held inp i -> unmapped inp (p_offset pin) ->
     pressed (host_sees (packets (dev s'))) (p_offset pin) = level pin).
Proof using wired_build quiet PinsHeld0 H7.
  intros Hs. destruct (round_sees s Hs) as [Hs' Hsee]. split; [exact Hs'|]. intros Hr Hdue.
  destruct (Hsee Hr Hdue) as [Hp E]. split; [exact Hp|]. intros i inp pin Hheld Hi Hu. rewrite E.
  destruct (poll_shows_pins held level flags junk fuel (controller s) (inputs (dev s)) i
    (proj2 (proj1 Hs)) Hheld Hi Hu) as (c' & -> & Hl). exact Hl.
Qed.

(** ** From power-on *)
(** The board out of reset: nothing has been sent, the globals are zero. *)
Definition at_reset (b : board W U) : Prop :=
  packets b = [] /\ tick_function (inputs b) = None /\
  looking (core (inputs b)) = (false, false) /\ length (pinData (core (inputs b))) = 16%nat.
Definition boot_state (b : board W U) : micro_state (board W U) :=
  mkMicro zero_controller zero_controller (replicate sizeof_report 0) 0 0 b.
End XInputBoard.

Section PowerOn.
Context {A : Arch} {W U : Type} `{PinOpsOk W} `{SPIBus W} `{Delay W} `{Clock W} `{I2CBus W}
  `{MpuDriver W} `{ConfigStore W} `{UsbOk U delivered}.
Context (flags : build_flags) (junk : nat -> list Z) (behind : Z) (fuel led_fuel : nat)
  (past : Z -> Led_t * Led_t) (rf_input : Controller_t -> M W Controller_t)
  (usb_task : M (board W U) unit).
Context (twi_init : M W unit) (F_CPU : Z) (timer_setup : M W unit)
  (radio_setup : bool -> Z -> Z -> M W unit) (crc : M W Z) (usb_init : M U unit).
#[local] Existing Instance board_store.
#[local] Instance startup : Startup (board W U) :=
  board_startup twi_init F_CPU timer_setup radio_setup crc usb_init.
Implicit Types (b : board W U) (config : Configuration_t).

Definition boot b : globals * board W U := micro_initialise b.
(** The configuration in the store. *)
Definition stored b : Configuration_t := (loadConfig (world (inputs b))).1.
(** A wired pad with XInput reports: no radio, no drums, separate strum timers. *)
Definition wired_xinput config : Prop :=
  RF.rfInEnabled (Cfg.rf config) = 0 /\ Main.inputType (Cfg.main config) = DIRECT /\
  subType config <= XINPUT_ARCADE_PAD /\ isDrum (subType config) = false /\
  isGuitar (subType config) && truth (Debounce.combinedStrum (Cfg.debounce config)) = false.
(** Buttons the configuration maps nothing else to. *)
Definition free_button config (k : Z) : Prop :=
  (truth (Main.mapLeftJoystickToDPad (Cfg.main config)) = false \/ 4 <= k) /\
  (truth (Main.mapStartSelectToHome (Cfg.main config)) = false \/
   k <> XBOX_START /\ k <> XBOX_BACK /\ k <> XBOX_HOME).

Definition inputs_reset b : Prop :=
  tick_function (inputs b) = None /\ looking (core (inputs b)) = (false, false) /\
  length (pinData (core (inputs b))) = 16%nat.
Lemma on_pins_reset {B} (m : M W B) b :
  usb (on_pins m b).2 = usb b /\ (inputs_reset b -> inputs_reset (on_pins m b).2).
Proof.
  unfold on_pins, inputs_reset. rewrite (proj1 (on_inputs_rest _ b)). split; [done|].
  unfold on_world, on_core. rewrite onhw_run. cbn. tauto.
Qed.
Lemma on_pins_value {B} (m : M W B) b : (on_pins m b).1 = (m (world (inputs b))).1.
Proof.
  unfold on_pins. rewrite (proj2 (on_inputs_rest _ b)). unfold on_world, on_core. by rewrite onhw_run.
Qed.
Lemma boot_spec b :
  at_reset (delivered := delivered) b -> wired_xinput (stored b) -> keeps delivered usb_init ->
  let config := stored b in
  isRF (boot b).1 = false /\ set_up config (isGuitar (subType config)) (inputs (boot b).2) /\
  filler (reports (boot b).2) = Some fillXInputReport_p /\ packets (delivered := delivered) (boot b).2 = [].
Proof.
  intros (Hs & Hi) (Hrf & Hin & Hsub & Hdrum & _) Hu config. fold (inputs_reset b) in Hi.
  fold config in Hrf, Hin, Hsub, Hdrum.
  unfold boot, micro_initialise. rewrite mbind_run.
  assert ((@loadConfig _ board_store b).1 = config) as -> by exact (on_pins_value loadConfig b).
  destruct (on_pins_reset (@loadConfig W _) b) as [U1 I1]. specialize (I1 Hi).
  change ((@loadConfig _ board_store b).2) with (on_pins (@loadConfig W _) b).2.
  set (b1 := (on_pins (@loadConfig W _) b).2) in *. clearbody b1.
  rewrite mbind_run. destruct (on_pins_reset timer_setup b1) as [U2 I2]. specialize (I2 I1).
  change (setupMicrosTimer b1) with (on_pins timer_setup b1).
  set (b2 := (on_pins timer_setup b1).2) in *. clearbody b2.
  rewrite mbind_run. unfold init_source. rewrite Hrf, Z.eqb_refl. cbn [negb]. rewrite !mbind_run.
  cbn [mret M_ret fst snd].
  change (Mains.initInputs config b2) with
    (on_inputs (set_types (subType config) ;; InputHandler.initInputs twi_init F_CPU config) b2).
  rewrite (proj1 (on_inputs_rest _ b2)), mbind_run.
  set (s0 := (set_types (subType config) (inputs b2)).2).
  destruct I2 as (Ht & Hl & Hp).
  pose proof (initInputs_set_up twi_init F_CPU config s0 Hin Hdrum Ht Hl Hp) as Hset.
  change (Direct.typeIsGuitar (core s0)) with (isGuitar (subType config)) in Hset.
  set (s1 := (InputHandler.initInputs twi_init F_CPU config s0).2) in *. clearbody s1.
  split; [done|].
  assert (Reports.initReports (subType config) = fillXInputReport_p) as Hfn.
  { unfold Reports.initReports. cbn [SubType_val] in *. ifs; lia || done. }
  match goal with |- context [USB_Init ?x] => set (b4 := x) end.
  change (USB_Init b4) with (on_usb usb_init b4). rewrite on_usb_rest. cbn [snd inputs reports usb upd setter_of].
  assert (set_up config (isGuitar (subType config)) (inputs b4) /\
    filler (reports b4) = Some fillXInputReport_p /\ usb b4 = usb b2) as (Hs4 & Hf4 & U4).
  { set (b3 := (Mains.initReports config (b2 <| inputs := s1 |>)).2) in *.
    assert (filler (reports b3) = Some (Reports.initReports (subType config))) as Hf3.
    { cbn. unfold init_reports. by destruct (Reports.initReports (subType config)). }
    change b4 with (on_leds (Leds.initLEDs config) b3).2.
    destruct (on_leds_rest (Leds.initLEDs config) b3) as [-> ->]. split; [exact Hset|].
    split; [by rewrite Hf3, Hfn|done]. }
  split; [exact Hs4|]. split; [exact Hf4|]. unfold packets. cbn [usb].
  rewrite (Hu (usb b4)), U4, U2, U1. exact Hs.
Qed.

Context (held : W -> Prop) (level : Pin_t -> bool) `{!PinsHeld held level}.
Lemma set_up_pad config guitar s :
  set_up config guitar s -> guitar && truth (Debounce.combinedStrum (Cfg.debounce config)) = false ->
  wired_pad s /\ forall k, free_button config k -> unmapped s k.
Proof.
  intros (E1 & E2 & E3 & E4 & E5 & E6 & _) Hg. unfold looking in E6. injection E6 as E6 E7.
  split; [split_and!; congruence|]. intros k. unfold free_button, unmapped. by rewrite E4, E5.
Qed.
Lemma debounce_bytes config k guitar : cwf Cfg.codec config ->
  p_milliDeBounce (wired_pin (W := W) config guitar k) <= 255.
Proof.
  intros [_ Hd]. change (cwf Debounce.codec (Cfg.debounce config)) in Hd.
  destruct Hd as [[Hb Hs] _]. change (0 <= Debounce.buttons (Cfg.debounce config) < 256) in Hb.
  change (0 <= Debounce.strum (Cfg.debounce config) < 256) in Hs.
  destruct (wired_pin_spec (W := W) config guitar k) as (_ & _ & _ & ->). destruct (_ && _); lia.
Qed.

End PowerOn.

(** ** On the AVR's ports *)
(** The user holds still: every input register [port] keeps reading [regs port]. *)
Class Calm (W : Type) `{AvrPins.AvrIn W} (calm : W -> Prop) (regs : Z -> Z) : Prop := {
  calm_reads port w : calm w -> (AvrPins.read_PIN port w).1 = regs port;
  calm_read port : holds calm (AvrPins.read_PIN port);
  calm_busy : holds calm AvrPins.adc_busy;
  calm_result : holds calm AvrPins.adc_result
}.
Section AvrHeld.
Context (v : variant) {W : Type} `{Calm W calm regs} (latches : list Z).
Context `{Clock (AvrPins.avr_pins W)}.
#[local] Existing Instance AvrPins.AvrPinOps.
Definition avr_held (s : AvrPins.avr_pins W) : Prop := calm (AvrPins.chip s) /\ AvrPins.out s = latches.
(** What a pin of the table then reads: its port bit, compared with [eq]. *)
Definition avr_level (p : Pin_t) : bool :=
  let reg := match p_port p with
             | NullPort => 0 | OutPort port => aget 0 latches port | InPort port => regs port
             end in
  Bool.eqb (negb (Z.land reg (p_mask p) =? 0)) (p_eq p).
Lemma on_chip_held {B} (m : M W B) : holds calm m -> holds avr_held (AvrPins.on_chip m).
Proof.
  intros Hm s [Hc Ho]. unfold AvrPins.on_chip. specialize (Hm _ Hc). by destruct (m (AvrPins.chip s)).
Qed.
Lemma avr_pins_held : holds avr_held World.millis ->
  PinsHeld (H := AvrPins.AvrPinOps v) avr_held avr_level.
Proof.
  intros Hm. split; [exact Hm| | |].
  - intros s Hs. cbn. unfold AvrPins.tickAnalog. rewrite mbind_run. cbn [mread fst snd id].
    destruct (_ =? 0); [done|]. destruct (AvrPins.first s); [exact Hs|]. rewrite mbind_run.
    pose proof (on_chip_held _ calm_busy s Hs) as Hs1.
    destruct (AvrPins.on_chip AvrPins.adc_busy s) as [[] s1]; [exact Hs1|]. cbn [fst snd] in *.
    rewrite mbind_run. pose proof (on_chip_held _ calm_result s1 Hs1) as Hs2.
    destruct (AvrPins.on_chip AvrPins.adc_result s1) as [r s2]. cbn [fst snd] in *. exact Hs2.
  - intros p s Hs. cbn. unfold AvrPins.digitalReadPin. destruct (_ =? _); [|exact Hs].
    rewrite mbind_run. cbn [mret M_ret snd]. destruct (p_port p); [exact Hs|exact Hs|].
    by apply on_chip_held; [apply calm_read|].
  - intros p s [Hc Ho] Ha. cbn. unfold AvrPins.digitalReadPin, avr_level. rewrite Ha, Z.eqb_refl.
    rewrite mbind_run. cbn [mret M_ret fst]. f_equal. f_equal. f_equal. f_equal.
    destruct (p_port p); [done|by cbn; rewrite Ho|]. cbn. unfold AvrPins.on_chip.
    pose proof (calm_reads port _ Hc) as E. by destruct (AvrPins.read_PIN port (AvrPins.chip s)).
Qed.
End AvrHeld.

(** A Micro at 1 s after reset with the A button on pin 2, which reads low, and
    the B button on pin 3, which reads high. *)
Definition two_buttons : Configuration_t :=
  default_config <| Cfg.pins ::= fun p => p <| Pins.a := 2 |> <| Pins.b := 3 |> |>.
Definition desk : Type := AvrPins.avr_pins unit.
#[local] Instance desk_chip : AvrPins.AvrIn unit :=
  {| AvrPins.read_PIN port := mret (if port =? 4 then 1 else 0); AvrPins.adc_busy := mret false;
     AvrPins.adc_wait := mret tt; AvrPins.adc_result := mret (0, 2) |}.
#[local] Instance desk_pins : PinOps desk := AvrPins.AvrPinOps micro.
#[local] Instance desk_spi : SPIBus desk :=
  {| spi_begin _ _ _ _ := mret tt; spi_transfer _ := mret 255; spi_high := mret tt; spi_low := mret tt |}.
#[local] Instance desk_delay : Delay desk := fun _ => mret tt.
#[local] Instance desk_clock : Clock desk :=
  {| World.millis := mret 1000; micros := mret 1000000 |}.
#[local] Instance desk_i2c : I2CBus desk :=
  {| twi_readFrom _ data _ _ := mret (false, data); twi_writeTo _ _ _ _ _ := mret false |}.
#[local] Instance desk_mpu : MpuDriver desk := idle_mpu.
#[local] Instance desk_store : ConfigStore desk :=
  {| loadConfig := mret two_buttons; resetConfig := mret tt; writeConfigBlock _ _ := mret tt;
     readConfigBlock _ n := mret [] |}.
#[local] Existing Instances bench_endpoints bench_stream.
Lemma desk_calm : Calm unit (fun _ => True) (fun port => if port =? 4 then 1 else 0).
Proof. by split. Qed.
Lemma bench_usb_ok : UsbOk bench_usb b_sent.
Proof. by split. Qed.
Definition desk_reset : board desk bench_usb :=
  let w := AvrPins.mkAvr (replicate 6 zero_analog) 0 0 true (replicate 13 0) (replicate 13 0) 0 0 0 true tt in
  mkBoard (input_init_state false false w) (led_init_state w)
    (mkReporter 0 None (initKeyboard (A := avr) default_config) (initMIDI default_config) [] ps3_init_state)
    (mkBenchUsb 0 [] []).
Definition no_past (i : Z) : Led_t * Led_t := (no_led, no_led).
Definition desk_up : globals * board desk bench_usb :=
  boot (A := avr) (mret tt) 16000000 (mret tt) (fun _ _ _ => mret tt) (mret 0) (mret tt) desk_reset.
Definition desk_round (s : micro_state (board desk bench_usb)) : micro_state (board desk bench_usb) :=
  micro_round (A := avr) (mkFlags false false false) (fun n => replicate n 0) 0 0 100 no_past
    (fun c => mret c) (mret tt) desk_up.1 s.
Definition desk_sent (s : micro_state (board desk bench_usb)) : list (Z * list Z) :=
  packets (delivered := b_sent) (dev s).
(** The port latches after start-up: the pull-ups are on. *)
Definition desk_latches : list Z := AvrPins.out (world (inputs desk_up.2)).
(** The whole program, run: the host gets one report, with A pressed. *)
Example desk_sees : desk_sent (desk_round (desk_round (boot_state desk_up.2))) =
  [(XINPUT_EPADDR_IN : Z, xinput_image (mkController 0x1000 0 0 0 0 0 0))].
Proof. vm_compute. reflexivity. Qed.
Lemma two_buttons_wf : cwf Cfg.codec two_buttons.
Proof. vm_compute. repeat (split || constructor || discriminate). Qed.
Lemma desk_held : PinsHeld (H := desk_pins) (H0 := desk_clock)
  (avr_held (calm := fun _ : unit => True) desk_latches)
  (avr_level (regs := fun port => if port =? 4 then 1 else 0) desk_latches).
Proof. apply (avr_pins_held micro (H0 := desk_calm)). by intros s. Qed.
Lemma desk_quiet : no_requests (delivered := b_sent) (mret tt : M (board desk bench_usb) unit).
Proof. intros b. exists (usb b). by destruct b. Qed.
Lemma zero_controller_wf : Controller_wf zero_controller.
Proof. apply Controller_wf_iff. split_and!; (split; [discriminate|reflexivity]). Qed.
Lemma pin_to_host_witness :
  pressed (host_sees (desk_sent (desk_round (boot_state desk_up.2)))) XBOX_A = true.
Proof.
  pose proof (pin_to_host (A := avr) (H7 := bench_usb_ok) (mkFlags false false false)
    (fun n => replicate n 0) 0 0 100 no_past (fun c => mret c) (mret tt) _ _ (PinsHeld0 := desk_held)
    desk_up.1 eq_refl desk_quiet (boot_state desk_up.2)) as P.
  assert (in_step (delivered := b_sent) (boot_state desk_up.2)) as Hs.
  { split; [split; [|split_and!]; vm_compute; reflexivity|]. split; [split; vm_compute; reflexivity|].
    split; [apply zero_controller_wf|vm_compute; reflexivity]. }
  destruct (P Hs) as [_ Q]. destruct (Q ltac:(by intros u) ltac:(vm_compute; reflexivity)) as [_ R].
  refine (eq_trans (R 0 _ _ _) _).
  - split; [done|reflexivity].
  - split; [split; [discriminate|vm_compute; reflexivity]|]. split; [split; [discriminate|vm_compute; reflexivity]|].
    split; [reflexivity|]. split; [intros w _; vm_compute; reflexivity|].
    intros j Hj Hne. apply elem_of_iota in Hj.
    assert (j = 1) as -> by (change (0 <= j < 2) in Hj; lia).
    split; [split; [discriminate|vm_compute; reflexivity]|vm_compute; discriminate].
  - split; right; [|split_and!]; by vm_compute.
  - vm_compute. reflexivity.
Defined.
(** A PlayStation port where nothing answers. *)
#[local] Instance desk_bytes : ByteBuses desk.
Proof. by split. Qed.
