(* ===== verification/PicoMain.v ===== *)
(** * The RP2040's main program: [pico/main/main.c]

    The callbacks TinyUSB makes and the report task.  TinyUSB's transfer functions
    and the start-up calls are interfaces; [Mains.pico_initialise] is the
    start-up. *)

From Stdlib Require Import ZArith Lia.
From stdpp Require Import base tactics numbers list option.
From S2P Require Import Prelude Packed Defs Config Controller Reports Descriptors UnoUsb Usb Mains.
Open Scope Z_scope.

(** ** Descriptor callbacks *)
Section Descriptors.
Context (fullDeviceType : Z) (multi : bool) (serial major minor revision : Z).

(** [deviceDescriptor] and [ConfigurationDescriptor] are in RAM and are changed in
    place. *)
Definition tud_descriptor_device_cb (d : USB_Descriptor_Device_t) : USB_Descriptor_Device_t :=
  if (fullDeviceType >=? SWITCH_GAMEPAD) && (fullDeviceType <? MOUSE) then
    let offs := u8 (fullDeviceType - SWITCH_GAMEPAD) in
    {| dev_Header := dev_Header d; USBSpecification := USBSpecification d;
       dev_Class := dev_Class d; dev_SubClass := dev_SubClass d; dev_Protocol := dev_Protocol d;
       Endpoint0Size := Endpoint0Size d; VendorID := aget 0 vid offs; ProductID := aget 0 pid offs;
       ReleaseNumber := ReleaseNumber d; ManufacturerStrIndex := ManufacturerStrIndex d;
       ProductStrIndex := ProductStrIndex d; SerialNumStrIndex := SerialNumStrIndex d;
       NumberOfConfigurations := NumberOfConfigurations d |}
  else d.
Definition tud_hid_descriptor_report_cb : list Z :=
  if fullDeviceType <=? KEYBOARD_ROCK_BAND_GUITAR then kbd_report_descriptor
  else ps3_report_descriptor.
Definition pico_subtype : Z :=
  let devt := if isGuitar fullDeviceType then REAL_GUITAR_SUBTYPE else fullDeviceType in
  if isDrum devt then REAL_DRUM_SUBTYPE else devt.
Definition set_subtype (t : Z) (x : xinput_members) : xinput_members :=
  let r := XInputReserved x in
  {| InterfaceXInput := InterfaceXInput x;
     XInputReserved :=
       {| xb_Header := xb_Header r; reserved := reserved r; subtype := t; reserved2 := reserved2 r;
          bEndpointAddressIn := bEndpointAddressIn r; bMaxDataSizeIn := bMaxDataSizeIn r;
          reserved3 := reserved3 r; bEndpointAddressOut := bEndpointAddressOut r;
          bMaxDataSizeOut := bMaxDataSizeOut r; reserved4 := reserved4 r |};
     EndpointInXInput := EndpointInXInput x; EndpointOutXInput := EndpointOutXInput x |}.
Definition set_report_length (n : Z) (h : USB_HID_Descriptor_HID_t) : USB_HID_Descriptor_HID_t :=
  mkHid (hid_Header h) (HIDSpec h) (CountryCode h) (TotalReportDescriptors h) (HIDReportType h) n.
Definition tud_descriptor_configuration_cb (c : USB_Descriptor_Configuration_t)
  : USB_Descriptor_Configuration_t :=
  {| Config := Config c; InterfaceHID := InterfaceHID c;
     HIDDescriptor :=
       if pico_subtype <=? KEYBOARD_ROCK_BAND_GUITAR
       then set_report_length (Z.of_nat (length kbd_report_descriptor)) (HIDDescriptor c)
       else HIDDescriptor c;
     EndpointInHID := EndpointInHID c; EndpointOutHID := EndpointOutHID c;
     XInput := set_subtype pico_subtype (XInput c); ExtraXInput := ExtraXInput c;
     InterfaceConfig := InterfaceConfig c; Midi := Midi c |}.
End Descriptors.

(** The serial number: the first eight hex digits of the board's id, most
    significant first; [None] is NULL. *)
Definition hex_chars : list Z :=
  [48; 49; 50; 51; 52; 53; 54; 55; 56; 57; 65; 66; 67; 68; 69; 70].
Definition serial_words (id : list Z) : list Z :=
  Z.lor 18 (Z.shiftl DTYPE_String 8) ::
  ((fun i => aget 0 hex_chars
      (Z.land (Z.shiftr (aget 0 id (Z.shiftr i 1)) (Z.shiftl (1 - Z.land i 1) 2)) 0xF)) <$> iota 8).
Definition tud_descriptor_string_cb (id : list Z) (index : Z) : option (list Z) :=
  if index =? 3 then Some (flat_map (le_bytes 2) (serial_words id))
  else if index <? 3 then Some (string_bytes (nth (Z.to_nat index) descriptorStrings languageString))
  else if index =? 0xEE then Some (os_bytes OSDescriptorString) else None.

(** The PS3 answer: the returned length, and the id's fourth byte; the id never
    reaches the host's buffer, only the local pointer is changed. *)
Definition tud_hid_get_report_cb (fullDeviceType : Z) (feature : bool) (id : list Z) : Z * list Z :=
  if feature then
    (8, if fullDeviceType <=? PS3_ROCK_BAND_DRUMS then aset 3 0x00 id
        else if fullDeviceType <=? PS3_GUITAR_HERO_DRUMS then aset 3 0x06 id else id)
  else (0, id).

(** ** Vendor requests *)
Inductive control_stage : Set := CONTROL_STAGE_SETUP | CONTROL_STAGE_DATA | CONTROL_STAGE_ACK.
Class PicoHost (W : Type) := {
  (* the object to send *)
  tud_control_xfer : list Z -> M W unit;
  (* receive so many bytes into [buf] *)
  tud_control_receive : Z -> M W unit;
  buf : M W (list Z);
  readFeatureReport : Z -> M W unit;
  writeFeatureReport : Z -> Z -> list Z -> M W unit;
  (* wait for room and queue an acknowledgement payload *)
  rf_pass_on : list Z -> M W unit
}.
Section Vendor.
Context {W : Type} `{PicoHost W} (request : USB_Request_Header_t) (multi isRF : bool).
(** The memory behind [capabilities1]. *)
Context (behind : list Z).
Definition tud_vendor_control_xfer_cb (stage : control_stage) : M W bool :=
  let r := request in
  let req_is req ty := (bRequest r =? req) && (bmRequestType r =? ty) in
  let setup (m : M W unit) : M W bool :=
    match stage with CONTROL_STAGE_SETUP => m | _ => mret tt end ;; mret true in
  if req_is HID_REQ_GetReport (reqtype REQDIR_DEVICETOHOST REQTYPE_VENDOR REQREC_INTERFACE) &&
     (wIndex r =? INTERFACE_ID_XInput) && (wValue r =? 0) then
    setup (tud_control_xfer capabilities1)
  else if req_is REQ_GetOSFeatureDescriptor
            (reqtype REQDIR_DEVICETOHOST REQTYPE_VENDOR REQREC_INTERFACE) &&
          (wIndex r =? EXTENDED_PROPERTIES_DESCRIPTOR) && (wValue r =? INTERFACE_ID_Config) then
    setup (tud_control_xfer
             (take (Z.to_nat (ext_TotalLength ExtendedIDs)) (extended_bytes ExtendedIDs)))
  else if req_is REQ_GetOSFeatureDescriptor
            (reqtype REQDIR_DEVICETOHOST REQTYPE_VENDOR REQREC_DEVICE) &&
          (wIndex r =? EXTENDED_COMPAT_ID_DESCRIPTOR) then
    setup (tud_control_xfer
             (take (Z.to_nat (ids_TotalLength (DevCompatIDs multi))) (compat_ids_bytes (DevCompatIDs multi))))
  else if req_is HID_REQ_GetReport (reqtype REQDIR_DEVICETOHOST REQTYPE_VENDOR REQREC_DEVICE) &&
          (wIndex r =? 0) && (wValue r =? 0) then
    setup (tud_control_xfer ID)
  else if req_is HID_REQ_GetReport (reqtype REQDIR_DEVICETOHOST REQTYPE_VENDOR REQREC_INTERFACE) &&
          (wIndex r =? INTERFACE_ID_XInput) && (wValue r =? 0x0100) then
    setup (tud_control_xfer (take (length capabilities2) (capabilities1 ++ behind)))
  else if req_is HID_REQ_SetReport (reqtype REQDIR_HOSTTODEVICE REQTYPE_CLASS REQREC_INTERFACE) then
    match stage with
    | CONTROL_STAGE_SETUP => tud_control_receive (wLength r)
    | CONTROL_STAGE_ACK =>
        b ← buf;
        writeFeatureReport (u8 (wValue r)) (u8 (wLength r)) b ;;
        mwhen isRF (rf_pass_on ([u8 (wValue r); 0] ++ take 30 b))
    | _ => mret tt
    end ;;
    mret true
  else if req_is HID_REQ_GetReport (reqtype REQDIR_DEVICETOHOST REQTYPE_CLASS REQREC_INTERFACE) then
    setup (readFeatureReport (u8 (wValue r)))
  else mret false.
End Vendor.

(** ** The report task *)
Class PicoUsb (W : Type) := {
  tud_xinput_n_ready : M W bool;
  tud_xinput_n_report : list Z -> M W unit;
  tud_hid_n_ready : M W bool;
  (* report id (0 for none) and the report behind it *)
  tud_hid_n_report : Z -> list Z -> M W unit;
  (* one USB-MIDI packet of four bytes *)
  tud_midi_n_packet_write : list Z -> M W unit;
  tud_suspended : M W bool;
  tud_remote_wakeup : M W unit
}.
Section Task.
Context {W : Type} `{PicoUsb W, MainHost W} (g : globals) (multi : bool).
Record pico_state : Type := mkPico {
  pc_controller : Controller_t; previousReport : list Z; pc_currentReport : list Z; pc_size : Z;
  start_ms : Z; pc_dev : W
}.
#[global] Instance etaPico : Settable pico_state := fun r =>
  {| pc_controller := pc_controller r; previousReport := previousReport r;
     pc_currentReport := pc_currentReport r; pc_size := pc_size r; start_ms := start_ms r;
     pc_dev := pc_dev r |}.
Definition on_pico {A} (m : M W A) : M pico_state A :=
  fun s => let '(a, w) := m (pc_dev s) in (a, s <| pc_dev := w |>).
Definition stamp : M pico_state unit :=
  now ← on_pico millis; mmod (fun s => s <| start_ms := now |>).
(** The switch on the report id; [data] and [n] are the report and its size. *)
Definition pico_send (data : list Z) (n : Z) : M pico_state unit :=
  let rid := aget 0 data 0 in
  let body := take (Z.to_nat (u8 (n - 1))) (drop 1 data) in
  if rid =? REPORT_ID_XINPUT then
    ready ← on_pico tud_xinput_n_ready;
    mwhen ready (on_pico (tud_xinput_n_report (take (Z.to_nat n) data)) ;; stamp)
  else if multi then mret tt
  else if (rid =? REPORT_ID_GAMEPAD) || (rid =? REPORT_ID_KBD) || (rid =? REPORT_ID_MOUSE) then
    mmod (fun s => s <| pc_size := u8 (n - 1) |>) ;;
    ready ← on_pico tud_hid_n_ready;
    mwhen ready
      (on_pico (tud_hid_n_report (if rid =? REPORT_ID_GAMEPAD then 0 else rid) body) ;; stamp)
  else
    mwhen (rid =? REPORT_ID_MIDI)
      (mmod (fun s => s <| pc_size := u8 (n - 1) |>) ;;
       on_pico (tud_midi_n_packet_write (take 4 (drop 1 data))) ;; stamp).
(** Reading the inputs; [false] is [return]. *)
Definition pico_tick : M pico_state bool :=
  s ← mread id;
  if isRF g then
    c ← on_pico (tickRFInput (pc_controller s));
    mmod (fun s => s <| pc_controller := c |>) ;; mret true
  else
    c ← on_pico (tickInputs (pc_controller s));
    mmod (fun s => s <| pc_controller := c |>) ;;
    on_pico (tickLEDs c) ;;
    now ← on_pico millis;
    mret (negb (u32 (now - start_ms s) <? pollRate g)).
Definition hid_task : M pico_state unit :=
  due ← pico_tick;
  mwhen due
    (s ← mread id;
     r ← on_pico (fillReport (pc_controller s) (pc_currentReport s));
     mmod (fun s => s <| pc_currentReport := r.1 |> <| pc_size := r.2 |>) ;;
     (* memcmp *)
     mwhen (negb (bool_decide (take (Z.to_nat r.2) r.1 = take (Z.to_nat r.2) (previousReport s))))
       (pico_send r.1 r.2 ;;
        susp ← on_pico tud_suspended;
        mwhen susp (on_pico tud_remote_wakeup))).
End Task.
Arguments pico_state : clear implicits.

(** ** The two boards present the same device *)
Definition avr_reply (multi : bool) (r : USB_Request_Header_t) : option (list Z) := static_reply multi r.
(** What the RP2040 answers a vendor request with. *)
Definition reply_log : PicoHost (list (list Z)) := {|
  tud_control_xfer l := mmod (fun w => w ++ [l]); tud_control_receive _ := mret tt; buf := mret [];
  readFeatureReport _ := mret tt; writeFeatureReport _ _ _ := mret tt; rf_pass_on _ := mret tt
|}.
Definition pico_reply (multi : bool) (behind : list Z) (r : USB_Request_Header_t) : option (list Z) :=
  head (@tud_vendor_control_xfer_cb _ reply_log r multi false behind CONTROL_STAGE_SETUP []).2.
Definition is_capabilities2 (r : USB_Request_Header_t) : Prop :=
  bmRequestType r = 0xC1 /\ bRequest r = HID_REQ_GetReport /\ wIndex r = 1 /\ wValue r = 0x0100.

Lemma pico_reply_spec multi behind r :
  bmRequestType r = 0xC1 \/ bmRequestType r = 0xC0 ->
  pico_reply multi behind r =
    if decide (is_capabilities2 r) then Some (take 20 (capabilities1 ++ behind))
    else static_reply multi r.
Proof.
  intros Hty. unfold pico_reply, tud_vendor_control_xfer_cb, static_reply, static_replies.
  change (reqtype REQDIR_DEVICETOHOST REQTYPE_CLASS REQREC_INTERFACE) with 0xA1.
  change (reqtype REQDIR_HOSTTODEVICE REQTYPE_CLASS REQREC_INTERFACE) with 0x21.
  change (reqtype REQDIR_DEVICETOHOST REQTYPE_VENDOR REQREC_INTERFACE) with 0xC1.
  change (reqtype REQDIR_DEVICETOHOST REQTYPE_VENDOR REQREC_DEVICE) with 0xC0.
  assert (take (Z.to_nat (ext_TotalLength ExtendedIDs)) (extended_bytes ExtendedIDs) =
    extended_bytes ExtendedIDs) as -> by reflexivity.
  assert (take (Z.to_nat (ids_TotalLength (DevCompatIDs multi))) (compat_ids_bytes (DevCompatIDs multi))
    = compat_ids_bytes (DevCompatIDs multi)) as -> by (destruct multi; reflexivity).
  change (length capabilities2) with 20%nat.
  generalize capabilities1 capabilities2 ID (extended_bytes ExtendedIDs)
    (compat_ids_bytes (DevCompatIDs multi)). intros l1 l2 l3 l4 l5.
  cbn [List.find request_is]. rewrite !andb_true_r, !(andb_comm (bmRequestType r =? _)).
  case_decide as Hc.
  { destruct Hc as (-> & -> & -> & ->). reflexivity. }
  destruct (_ && _); [done|]. destruct (_ && _); [done|]. destruct (_ && _); [done|].
  destruct (_ && _); [done|]. destruct (_ && _) eqn:C5.
  { exfalso. apply Hc. zbool. repeat split; assumption. }
  assert ((bmRequestType r =? 0x21) = false /\ (bmRequestType r =? 0xA1) = false) as [-> ->]
    by (destruct Hty as [-> | ->]; done).
  by rewrite !andb_false_r.
Qed.


(** ** The serial number *)
Definition hex_value (c : Z) : Z := if c <=? 57 then c - 48 else c - 55.
(** The digits spell the first four bytes of the board's id, and the string's
    header announces its 18 bytes. *)
Lemma serial_number_spec id :
  bytes id -> (4 <= length id)%nat ->
  let s := flat_map (le_bytes 2) (serial_words id) in
  Z.of_nat (length s) = 18 /\ aget 0 s 0 = 18 /\ aget 0 s 1 = DTYPE_String /\
  (fun i => 16 * hex_value (aget 0 (serial_words id) (1 + 2 * i)) +
            hex_value (aget 0 (serial_words id) (2 + 2 * i))) <$> iota 4 = take 4 id.
Proof.
  intros Hb Hl. destruct id as [|a [|b [|c [|d id]]]]; try (simpl in Hl; lia).
  split; [reflexivity|]. split; [reflexivity|]. split; [reflexivity|].
  assert (forall x, byte x ->
    16 * hex_value (aget 0 hex_chars (Z.land (Z.shiftr x 4) 0xF)) +
    hex_value (aget 0 hex_chars (Z.land (Z.shiftr x 0) 0xF)) = x) as Hx.
  { intros x Hx. apply Z.eqb_eq. unfold in_u in Hx.
    apply (zrange_all_spec (fun x => 16 * hex_value (aget 0 hex_chars (Z.land (Z.shiftr x 4) 0xF)) +
      hex_value (aget 0 hex_chars (Z.land (Z.shiftr x 0) 0xF)) =? x) 256 0); [reflexivity|lia]. }
  inversion Hb as [|? ? Ha Hb1]. inversion Hb1 as [|? ? Hb' Hb2].
  inversion Hb2 as [|? ? Hc Hb3]. inversion Hb3 as [|? ? Hd Hb4]. subst.
  change (take 4 (a :: b :: c :: d :: id)) with [a; b; c; d].
  transitivity ((fun x => 16 * hex_value (aget 0 hex_chars (Z.land (Z.shiftr x 4) 0xF)) +
      hex_value (aget 0 hex_chars (Z.land (Z.shiftr x 0) 0xF))) <$> [a; b; c; d]); [reflexivity|].
  cbn [fmap list_fmap]. by rewrite !Hx.
Qed.

(** ** The report task *)
Section TaskSpec.
Context {W : Type} `{PicoUsb W, MainHost W} (g : globals).
Implicit Types (s : pico_state W).
Lemma on_pico_run {A} (m : M W A) s : on_pico m s = ((m (pc_dev s)).1, s <| pc_dev := (m (pc_dev s)).2 |>).
Proof. unfold on_pico. by destruct (m (pc_dev s)). Qed.

(** The last report sent is never remembered. *)
Lemma on_pico_keeps {A} (m : M W A) : keeps previousReport (on_pico m).
Proof. intros s. by rewrite on_pico_run. Qed.
Lemma pico_send_keeps multi data n : keeps previousReport (pico_send multi data n).
Proof. unfold pico_send, stamp. frame idtac; try apply on_pico_keeps. Qed.
Lemma previousReport_constant multi : keeps previousReport (hid_task g multi).
Proof.
  unfold hid_task, pico_tick. frame idtac;
    first [apply on_pico_keeps | apply pico_send_keeps | case_match; frame idtac; apply on_pico_keeps
          | idtac].
Qed.

(** A MIDI report reaches TinyUSB as its first packet, however many it has: the
    size only changes what is compared. *)
Theorem pico_midi_first_packet p rest n s :
  length p = 4%nat ->
  pico_send false (HID_Report_val REPORT_ID_MIDI :: p ++ rest) n s =
    (mmod (fun s => s <| pc_size := u8 (n - 1) |>) ;; on_pico (tud_midi_n_packet_write p) ;; stamp) s.
Proof.
  intros Hp. unfold pico_send.
  change (aget 0 (HID_Report_val REPORT_ID_MIDI :: p ++ rest) 0) with (HID_Report_val REPORT_ID_MIDI).
  change (drop 1 (HID_Report_val REPORT_ID_MIDI :: p ++ rest)) with (p ++ rest).
  assert (take 4 (p ++ rest) = p) as -> by (rewrite <- Hp; apply take_app_length). reflexivity.
Qed.
End TaskSpec.

(** A host that is always ready and an RP2040 whose inputs stand still. *)
Definition bench_pico : PicoUsb bench_usb := {|
  tud_xinput_n_ready := mret true;
  tud_xinput_n_report l := mmod (fun w => mkBenchUsb (b_ep w) [] (b_sent w ++ [(0, l)]));
  tud_hid_n_ready := mret true; tud_hid_n_report _ _ := mret tt;
  tud_midi_n_packet_write _ := mret tt; tud_suspended := mret false; tud_remote_wakeup := mret tt
|}.
Definition pico_rounds (k : nat) (c : Controller_t) : M (pico_state bench_usb) unit :=
  mfor (iota k) (fun _ => @hid_task _ bench_pico (bench_main c) bench_globals false).
Definition pico_start (report : list Z) : pico_state bench_usb :=
  mkPico zero_controller (replicate 89 0) report 0 0 (mkBenchUsb 0 [] []).

Lemma pico_round c ctl rep size ms w :
  @hid_task _ bench_pico (bench_main c) bench_globals false
    (mkPico ctl (replicate 89 0) rep size ms w) =
  (tt, mkPico c (replicate 89 0) (bench_image c) 20 1000
         (mkBenchUsb (b_ep w) [] (b_sent w ++ [(0, bench_image c)]))).
Proof.
  unfold hid_task. rewrite mbind_run.
  assert (@pico_tick _ (bench_main c) bench_globals (mkPico ctl (replicate 89 0) rep size ms w) =
    (true, mkPico c (replicate 89 0) rep size ms w)) as ->.
  { transitivity (negb (u32 (1000 - ms) <? 0), mkPico c (replicate 89 0) rep size ms w); [reflexivity|].
    f_equal. apply negb_true_iff, Z.ltb_ge. apply (uwrap_range 32). lia. }
  cbn [fst snd mwhen]. rewrite mbind_run. cbn [mread id fst snd].
  rewrite mbind_run, on_pico_run.
  change (fillReport (pc_controller (mkPico c (replicate 89 0) rep size ms w))
    (pc_currentReport (mkPico c (replicate 89 0) rep size ms w))
    (pc_dev (mkPico c (replicate 89 0) rep size ms w))) with ((bench_image c, 20), w).
  cbn [fst snd]. rewrite mbind_run. cbn [mmod fst snd].
  change (previousReport (mkPico c (replicate 89 0) rep size ms w)) with (replicate 89 0).
  assert (exists l, length l = 18%nat /\ bench_image c = 0 :: 20 :: l) as (l & Hl & ->).
  { exists (drop 2 (bench_image c)). split; reflexivity. }
  rewrite bool_decide_eq_false_2 
    by (intros X; apply (f_equal (fun l => nth 1 l 0)) in X; discriminate X).
  do 18 (destruct l as [|? l]; [discriminate Hl|]).
  destruct l; [reflexivity | discriminate Hl].
Qed.

(** On the RP2040 the comparison with the previous report is always with the
    zeros it was initialised with, so a controller at rest is reported again in
    every poll: [k] polls send [k] times the same report. *)
Theorem pico_resends_unchanged k c report :
  b_sent (pc_dev (pico_rounds k c (pico_start report)).2) = replicate k (0, bench_image c).
Proof.
  unfold pico_rounds.
  assert (forall ctl rep size ms w,
    b_sent (pc_dev (mfor (iota k) (fun _ => @hid_task _ bench_pico (bench_main c) bench_globals false)
      (mkPico ctl (replicate 89 0) rep size ms w)).2) = b_sent w ++ replicate k (0, bench_image c)) as X;
    [|apply X].
  generalize (length_iota k). generalize (iota k). intros l. revert k.
  induction l as [|i l IH]; intros k Hk ctl rep size ms w; simpl in Hk; subst k.
  - cbn. by rewrite app_nil_r.
  - cbn [mfor]. rewrite mbind_run, pico_round. cbn [fst snd]. rewrite (IH _ eq_refl).
    cbn [b_sent replicate]. by rewrite <- app_assoc.
Qed.
